(* ===== verification/_CoqProject ===== *)
-Q . S2P
Prelude.v
PyStr.v
Chars.v
Effects.v
Command.v
Log.v
PyVal.v
Models.v
Export.v
Samples.v
Base.v
Patterns.v
Deeds.v
Guards.v
Storage.v
StorageFacts.v
StorageDone.v
Packages.v
System.v
Firewall.v
Drivers.v
Boot.v
UsbBoot.v
Migration.v
Snapper.v
Recovery.v
StepsDone.v
BootFacts.v
UsbBootFacts.v
MigrationFacts.v
UsbBackup.v
ExpectedState.v
Schema.v
ConfigBuilder.v
Questions.v
Host.v
ConfigFile.v
Secrets.v
SecretsFile.v
Environment.v
Registry.v
Installer.v
InstallDone.v
Secrecy.v
Setup.v
SetupSecrecy.v
Cli.v
CliFacts.v
Widgets.v
WidgetFacts.v
Terminal.v
Screens.v
ScreenFacts.v
Masked.v
Unchanged.v
