(* ===== verification/Prelude.v ===== *)
(** * Declarative Arch Linux Installer (DALI): verification development

    A model of the Python program under [src/src/arch_installer/] and theorems
    about it.  The installer reads config.yaml and the environment, optionally asks
    the user on the terminal, builds one typed configuration, and runs a list of
    steps, each a sequence of shell commands, on the machine and in the chroot of
    the new system.

    ** How the code is modelled

    Pure code is a Rocq function.  Code with effects is a program tree over a
    signature of operations ([Effects.v]): run a command, log, sleep
    ([Command.v]); read or write a file, read a secret, show a screen ([Host.v]).
    The answer of every operation is left to the environment, so a theorem about
    [runs p t o] (program [p] can perform the trace [t] and end in the outcome [o])
    holds for every machine, including those on which any command fails at any
    point.  A value or an exception is an [outcome]; [try]/[finally]/[except] are
    [try_finally] and [try_except].  Python dictionaries are association lists in
    insertion order ([dict]), dynamic values are [pyval] ([PyVal.v]).

    Ordering and safety properties are stated over traces and proved with weakest
    preconditions over a monitor, an automaton that reads the trace
    ([Effects.wp], [Patterns.v]: a kind of command only after another kind, a
    command always answered by a later one).  Where it matters which device or file a
    command names, the statement names the whole command: [Guards.v] says what must
    have been asked and answered before a command runs, on every run, also one that
    fails; [Deeds.v] says which exact sequences of commands, inputs and answers a
    program that returns may have run.

    ** The files

    - [Prelude], [PyStr], [Chars], [PyVal], [Effects], [Patterns]: exceptions and
      dictionaries, Python's strings and paths, texts as characters, dynamic values,
      programs and traces, the patterns of the safety proofs; [Samples]: configurations and
      fake machines for the witnesses.
    - [Command], [Log], [Base]: [core/command.py], [core/log.py],
      [executors/base.py].
    - [Models], [Export], [Schema]: [config/models.py]: the records, [asdict] and
      the exported configuration, and each record's type hints.
    - [ConfigBuilder], [ConfigFile], [Environment]: [config/]
      [installer_config_builder.py], [config_file.py], [environment.py] and
      [value_precedence.py].
    - [Secrets], [SecretsFile]: [core/secrets.py], [config/secrets_file.py].
    - [Storage], [Packages], [System] (with Docker), [Firewall], [Drivers] (GPU and
      mirrors), [Boot], [UsbBoot], [Migration], [Snapper], [Recovery],
      [UsbBackup]: [executors/], one definition per method; [StorageFacts],
      [BootFacts], [UsbBootFacts], [MigrationFacts] hold the larger proofs.
    - [Deeds]: achievements, sets of sequences of exchanges (command, input, answer)
      written like regular expressions, exact in that nothing may be left out or
      added, and a tactic that walks a program along its achievement;
      [StorageDone], [StepsDone]: the achievement of each step, with the commands as
      they are run.  [Guards]: what a command must find among the exchanges before it.
    - [ExpectedState]: [expected_state.py].
    - [Registry], [Installer], [InstallDone], [Secrecy]: [install_steps/],
      [installer.py], what an installation has done when it returns, and that it
      keeps its passwords to itself.
    - [Questions], [Host], [Setup]: the questions, the operations of the host and
      the interactive setup ([setup/]).
    - [Widgets], [WidgetFacts]: what the widgets of [tui/] return for the keys;
      [Terminal], [Screens], [ScreenFacts]: the same widgets as they are written,
      loops that draw a [curses] window, and that they return just that; [Masked]:
      passwords while they are typed.
    - [Unchanged], [SetupSecrecy]: the setup with these widgets, and that it shows no
      password.
    - [Cli], [CliFacts]: [cli.py].

    ** How the parts interact

    [Cli.install_entry] assembles setting values from [Environment], [ConfigFile]
    (whose passwords [Secrets] decrypts) and [Setup.run_setup]; [ConfigBuilder]
    makes them an [InstallerConfig]; [Installer.install] runs the steps that
    [Registry.INSTALL_STEPS] enables for it.  [Setup] talks to a front-end only
    through the signature of [Questions.v]; [Widgets.curses_frontend] answers it, and
    [Screens.show_frontend] refines that over the window operations of [Terminal.v].
    The executors see the machine only through [Command.v].  A configuration goes
    through the classes [AsDict], [TypeHints] and [FromPy] with the laws
    [Schema.Faithful], and encryption through [Secrets.Cryptography] with its
    [CryptographyLaws].

    ** What the theorems show

    - The whole program ([CliFacts], [Installer], [InstallDone], [Secrecy]): only a
      checked configuration is installed and nothing is touched before; exit codes;
      installations refine an abstract schedule of the steps, and the commands of one
      that succeeds are exactly the work of every enabled step; the old system is
      staged first; two installations that differ in passwords look the same.
    - The disk ([StorageFacts], [UsbBootFacts], [MigrationFacts]): what is erased,
      formatted, cloned, staged and restored, and after which answers to which checks.
    - The system ([Packages], [BootFacts], [Firewall], [Recovery], [System],
      [ExpectedState], [UsbBackup]): package selection, images and Secure Boot,
      clean-up of keys and mounts, files that read back as they were meant.
    - The configuration ([ConfigBuilder], [ConfigFile], [Environment], [Registry]):
      the builder's result is well typed and its errors are its own; the file's
      round trip; which source wins; the registry fits the configuration.
    - Passwords ([Secrets], [SecretsFile], [CliFacts]): encryption reads back and
      cannot be swapped, its cost is bounded, the edit of config.yaml obeys the
      laws of an update, stored passwords open again.
    - The terminal ([WidgetFacts], [Setup], [Unchanged]): answers are among those
      offered, typed text is what was typed, exactly the questions that matter are
      asked, and a setup of nothing but Enter ends and leaves the configuration
      unchanged.
    - The screens ([ScreenFacts], [Masked], [SetupSecrecy]): in a large enough window
      they refine the widgets and draw only inside it; neither a field nor the
      setup as a whole shows a password.

    ** Bounds

    Loops of the code that count are recursive functions on that count (the
    waiting for partitions).  The two that run until the user is done are bounded:
    a widget is a function of the list of its rounds, and is [Waiting] when they are
    used up; [Cli.ask_secret_loop] takes a number of attempts and ends with
    [OutOfFuel], which no Python code raises, after as many differing pairs;
    [CliFacts.ask_secret_settles] shows that more attempts than differing pairs
    always return.  The loops of [Screens] take a number of reads in the same way;
    [ScreenFacts.screens_implement_widgets] shows that more than there are keys are
    enough.  Menus are bounded by [WidgetFacts.menu_limit] options, whose
    positions are checked by computation; the registry offers at most a handful
    besides the machine's disks.

    ** Not modelled

    - Text is a string of bytes in UTF-8; white space, digits and letters outside
      ASCII are plain characters.  On the screen a character takes one column.
    - YAML ([safe_load], [safe_dump]) and the [cryptography] package are parameters.
      A YAML key is a text; aliases are values.  Argon2id and AES-GCM are ideal.
    - What [curses] does with a text that leaves its row is a parameter, and its
      calls that set up colours and the cursor always succeed.  A key press
      that is Ctrl+C is an answer of the front-end, not an interrupt between any two
      operations; an interrupt while a command runs is not modelled.
    - What a command does to the machine: the theorems speak of the commands, their
      order and their answers.
    - The shell scripts in [src/scripts], the tests and the build files.  The model
      of the whole Python package is otherwise complete. *)

From Stdlib Require Export ZArith Lia.
From stdpp Require Export base tactics decidable list strings.

#[export] Set Default Goal Selector "!".

(** ** Outcomes of Python code: a value or a raised exception *)

(** The exceptions the installer raises ([src/arch_installer/errors.py]) and the
    built-in ones that its code can run into.  [MissingSettingsError] and
    [ConfigurationError] are both [ConfigurationError]s in Python. *)
Inductive exn : Type :=
| CommandError (command : string) (exit_code : Z) (stdout stderr : string)
| ConfigurationError (message : string)
| MissingSettingsError (setting_paths : list string)
| MigrationError (message : string)
| UsbBootDriveError (message : string)
| RuntimeError (message : string)
| ValueError (message : string)
| IndexError (message : string)
| TypeError (message : string)
| OSError (message : string)
(** [curses.error] *)
| CursesError (message : string)
| EOFError
| AttributeError (message : string)
| KeyboardInterrupt (message : string)
(** Not an exception of Python: a loop of the model used up its rounds. *)
| OutOfFuel.

#[export] Instance exn_eq_dec : EqDecision exn.
Proof. solve_decision. Defined.

(** Subclasses of [ArchInstallerError]: the ones the entry points report
    instead of crashing. *)
Definition is_arch_installer_error (x : exn) : bool :=
  match x with
  | CommandError _ _ _ _ | ConfigurationError _ | MissingSettingsError _
  | MigrationError _ | UsbBootDriveError _ => true
  | _ => false
  end.

(** [except ConfigurationError] catches the subclass as well. *)
Definition is_configuration_error (x : exn) : bool :=
  match x with
  | ConfigurationError _ | MissingSettingsError _ => true
  | _ => false
  end.

Inductive outcome (A : Type) : Type :=
| Ok (a : A)
| Err (x : exn).
Arguments Ok {A} a.
Arguments Err {A} x.

Definition is_ok {A} (o : outcome A) : bool :=
  match o with Ok _ => true | Err _ => false end.

Definition obind {A B} (f : A -> outcome B) (o : outcome A) : outcome B :=
  match o with Ok a => f a | Err x => Err x end.

Declare Scope outcome_scope.
Delimit Scope outcome_scope with outcome.
Notation "'let?' x ':=' m 'in' k" := (obind (fun x => k) m)
  (at level 10, x pattern, m at level 100, k at level 200) : outcome_scope.

Lemma obind_ok {A B} (f : A -> outcome B) o b :
  obind f o = Ok b <-> exists a, o = Ok a /\ f a = Ok b.
Proof.
  destruct o as [a|x]; simpl; split.
  - eauto.
  - intros (a' & [= <-] & H); exact H.
  - discriminate.
  - intros (a' & [=] & _).
Qed.

Lemma obind_err {A B} (f : A -> outcome B) o x :
  obind f o = Err x <-> o = Err x \/ exists a, o = Ok a /\ f a = Err x.
Proof.
  destruct o as [a|y]; simpl; split.
  - eauto.
  - intros [[=]|(a' & [= <-] & H)]; exact H.
  - intros [= ->]; auto.
  - intros [[= ->]|(a' & [=] & _)]; reflexivity.
Qed.

(** [[f x for x in l]] where [f] may raise: the first error wins. *)
Fixpoint omapM {A B} (f : A -> outcome B) (l : list A) : outcome (list B) :=
  match l with
  | [] => Ok []
  | a :: l' => obind (fun b => obind (fun bs => Ok (b :: bs)) (omapM f l')) (f a)
  end.

Lemma omapM_ok {A B} (f : A -> outcome B) l bs :
  omapM f l = Ok bs <-> Forall2 (fun a b => f a = Ok b) l bs.
Proof.
  revert bs; induction l as [|a l IH]; intros bs; simpl.
  - split; [intros [= <-]; constructor | intros H; inversion H; reflexivity].
  - rewrite obind_ok. split.
    + intros (b & Hb & H). apply obind_ok in H as (bs' & Hbs & [= <-]).
      constructor; [exact Hb | apply IH; exact Hbs].
    + intros H; inversion H as [|? b ? bs' Hb Hbs]; subst.
      exists b. split; [exact Hb|]. apply obind_ok. exists bs'.
      split; [apply IH; exact Hbs | reflexivity].
Qed.

(** ** Python dictionaries

    A [dict] keeps its insertion order, which the program relies on (the order
    of the install steps, of the exported configuration, of error messages), so
    it is an association list in that order; [dict_set] overwrites in place and
    appends a new key at the end, as Python does. *)
Section Dict.
Context {K V : Type} `{EqDecision K}.

Definition dict := list (K * V).

Fixpoint dict_get (d : dict) (k : K) : option V :=
  match d with
  | [] => None
  | (k', v) :: d' => if decide (k = k') then Some v else dict_get d' k
  end.

Fixpoint dict_set (d : dict) (k : K) (v : V) : dict :=
  match d with
  | [] => [(k, v)]
  | (k', v') :: d' => if decide (k = k') then (k', v) :: d' else (k', v') :: dict_set d' k v
  end.

Definition dict_in (d : dict) (k : K) : bool :=
  match dict_get d k with Some _ => true | None => false end.

(** [d.setdefault(k, v)] for its effect on [d]. *)
Definition dict_setdefault (d : dict) (k : K) (v : V) : dict :=
  if dict_in d k then d else dict_set d k v.

(** [d |= e] and [{**d, **e}]. *)
Definition dict_update (d e : dict) : dict :=
  fold_left (fun acc kv => dict_set acc kv.1 kv.2) e d.

Definition dict_keys (d : dict) : list K := d.*1.

Lemma dict_get_set d k k' v :
  dict_get (dict_set d k v) k' = if decide (k' = k) then Some v else dict_get d k'.
Proof.
  induction d as [|[k0 v0] d IH]; simpl; [reflexivity|].
  repeat (case_decide; simpl; subst); try congruence; tauto.
Qed.

Lemma dict_get_set_eq d k v : dict_get (dict_set d k v) k = Some v.
Proof. rewrite dict_get_set. case_decide; congruence. Qed.

Lemma dict_get_set_ne d k k' v : k' <> k -> dict_get (dict_set d k v) k' = dict_get d k'.
Proof. intros. rewrite dict_get_set. case_decide; congruence. Qed.

Lemma dict_in_get d k : dict_in d k = true <-> exists v, dict_get d k = Some v.
Proof.
  unfold dict_in. destruct (dict_get d k) as [v|]; split; eauto; try discriminate.
  intros [v [=]].
Qed.

Lemma dict_get_setdefault d k k' v :
  dict_get (dict_setdefault d k v) k' =
    match dict_get d k' with
    | Some v' => Some v'
    | None => if decide (k' = k) then Some v else None
    end.
Proof.
  unfold dict_setdefault, dict_in.
  destruct (dict_get d k) as [v'|] eqn:E.
  - destruct (dict_get d k') eqn:E'; [reflexivity|]. case_decide; congruence.
  - rewrite dict_get_set. case_decide; subst.
    + now rewrite E.
    + now destruct (dict_get d k').
Qed.

Lemma dict_get_update d e k :
  NoDup (dict_keys e) ->
  dict_get (dict_update d e) k =
    match dict_get e k with Some v => Some v | None => dict_get d k end.
Proof.
  unfold dict_update. revert d.
  induction e as [|[k0 v0] e IH]; intros d Hnd; simpl; [reflexivity|].
  apply NoDup_cons in Hnd as [Hnin Hnd]. rewrite (IH _ Hnd), dict_get_set.
  destruct (dict_get e k) as [v|] eqn:E; case_decide; subst; try reflexivity.
  exfalso. apply Hnin. clear -E. induction e as [|[k1 v1] e IH]; simpl in *; [discriminate|].
  case_decide; subst; [left | right; auto].
Qed.

Lemma dict_keys_set_In d k v x : x ∈ dict_keys (dict_set d k v) <-> x = k \/ x ∈ dict_keys d.
Proof.
  unfold dict_keys. induction d as [|[k0 v0] d IH]; simpl.
  - rewrite list_elem_of_singleton, elem_of_nil. tauto.
  - case_decide; simpl; rewrite !elem_of_cons; [subst; tauto|]. rewrite IH. tauto.
Qed.

Lemma dict_set_elem d k v kv : kv ∈ dict_set d k v -> kv = (k, v) \/ kv ∈ d.
Proof.
  induction d as [|[k0 v0] d IH]; simpl.
  - rewrite list_elem_of_singleton. auto.
  - case_decide as E; rewrite !elem_of_cons; [subst; tauto|]. intros [->|H]; [auto|].
    destruct (IH H); auto.
Qed.

Lemma dict_get_in d k v : dict_get d k = Some v -> (k, v) ∈ d.
Proof.
  induction d as [|[k' w] d IH]; [discriminate|]. simpl. case_decide as E; [|intros H; right; apply IH, H].
  intros [= ->]. subst. left.
Qed.

Lemma NoDup_dict_set d k v : NoDup (dict_keys d) -> NoDup (dict_keys (dict_set d k v)).
Proof.
  unfold dict_keys. induction d as [|[k0 v0] d IH]; simpl; intros Hnd.
  - apply NoDup_singleton.
  - apply NoDup_cons in Hnd as [Hnin Hnd]. case_decide; simpl; apply NoDup_cons; split; auto.
    intros Hin. apply dict_keys_set_In in Hin as [->|Hin]; [congruence | contradiction].
Qed.

Lemma dict_get_None d k : dict_get d k = None <-> k ∉ dict_keys d.
Proof.
  unfold dict_keys. induction d as [|[k0 v0] d IH]; simpl.
  - rewrite elem_of_nil. tauto.
  - rewrite elem_of_cons. case_decide; [split; [discriminate | subst; tauto]|].
    rewrite IH. tauto.
Qed.
End Dict.
Arguments dict : clear implicits.

(** Sections of a record that a [dict] walks: [any] and [all] over lists. *)
Definition any {A} (f : A -> bool) (l : list A) : bool := existsb f l.
Definition all {A} (f : A -> bool) (l : list A) : bool := forallb f l.

Lemma elem_of_List_filter {A} (f : A -> bool) l x : x ∈ List.filter f l <-> x ∈ l /\ f x = true.
Proof. rewrite !list_elem_of_In. apply filter_In. Qed.

(** ** Shared tactics *)

(** Split every match and conditional of the goal, keeping the equations. *)
Ltac split_matches :=
  repeat match goal with
  | |- context [match ?x with _ => _ end] => destruct x eqn:?; try discriminate
  end.

(** Turn a hypothesis [obind f m = Ok b] into its pieces. *)
Ltac inv_ok H :=
  match type of H with
  | obind _ _ = Ok _ =>
      let a := fresh "a" in let Ha := fresh "Ha" in
      apply obind_ok in H as (a & Ha & H)
  end.

Create HintDb pystr.
Create HintDb effects.
