(* ===== verification/PyStr.v ===== *)
(** * Python's string operations

    The [str] methods and built-ins the installer uses, on [string].  Text is a
    string of bytes; the operations treat it as ASCII, so the characters outside
    ASCII that Python also counts as white space, digits or letters are plain
    characters here.  The functions follow the documented behaviour of the
    Python standard library. *)

From Stdlib Require Import DecimalString DecimalZ DecimalNat.
From stdpp Require Export sorting.
From S2P Require Import Prelude.

Local Open Scope nat_scope.
Local Open Scope outcome_scope.

(** ** Characters *)

Definition chr (n : nat) : Ascii.ascii := Ascii.ascii_of_nat n.
Definition ord (c : Ascii.ascii) : nat := Ascii.nat_of_ascii c.

(** One-character strings whose characters cannot be typed in a literal. *)
Definition dquote : string := String (chr 34) "".
Definition nl : string := String (chr 10) "".
Definition tab : string := String (chr 9) "".
Definition backslash : string := String (chr 92) "".

Definition char_eqb (c d : Ascii.ascii) : bool := Ascii.eqb c d.

(** [str.isspace] on ASCII: the white space [split] and [strip] cut at. *)
Definition is_space (c : Ascii.ascii) : bool :=
  let n := ord c in
  ((9 <=? n) && (n <=? 13)) || ((28 <=? n) && (n <=? 32)).

Definition is_digit (c : Ascii.ascii) : bool :=
  let n := ord c in (48 <=? n) && (n <=? 57).

Definition lower_char (c : Ascii.ascii) : Ascii.ascii :=
  let n := ord c in if (65 <=? n) && (n <=? 90) then chr (n + 32) else c.

(** ** Predicates over the characters of a string *)

Fixpoint str_all (f : Ascii.ascii -> bool) (s : string) : bool :=
  match s with
  | EmptyString => true
  | String c s' => f c && str_all f s'
  end.

Definition str_any (f : Ascii.ascii -> bool) (s : string) : bool :=
  negb (str_all (fun c => negb (f c)) s).

(** [bool(s)] *)
Definition truthy (s : string) : bool :=
  match s with EmptyString => false | _ => true end.

(** [s or t] *)
Definition str_or (s t : string) : string := if truthy s then s else t.

Definition str_len (s : string) : nat := String.length s.

(** [s.isdigit()] *)
Definition isdigit (s : string) : bool := truthy s && str_all is_digit s.

Fixpoint lower (s : string) : string :=
  match s with
  | EmptyString => EmptyString
  | String c s' => String (lower_char c) (lower s')
  end.

(** ** Prefixes and substrings *)

Fixpoint startswith (p s : string) {struct p} : bool :=
  match p, s with
  | EmptyString, _ => true
  | String c p', String d s' => char_eqb c d && startswith p' s'
  | String _ _, EmptyString => false
  end.

(** [p in s] *)
Fixpoint contains (p s : string) : bool :=
  startswith p s ||
  match s with
  | EmptyString => false
  | String _ s' => contains p s'
  end.

(** [s[n:]] *)
Fixpoint drop_chars (n : nat) (s : string) : string :=
  match n, s with
  | O, _ => s
  | S n', String _ s' => drop_chars n' s'
  | S _, EmptyString => EmptyString
  end.

(** [s.removeprefix(p)] *)
Definition removeprefix (p s : string) : string :=
  if startswith p s then drop_chars (str_len p) s else s.

(** ** Stripping *)

Fixpoint lstrip_by (f : Ascii.ascii -> bool) (s : string) : string :=
  match s with
  | String c s' => if f c then lstrip_by f s' else s
  | EmptyString => EmptyString
  end.

Fixpoint rstrip_by (f : Ascii.ascii -> bool) (s : string) : string :=
  match s with
  | EmptyString => EmptyString
  | String c s' =>
      match rstrip_by f s' with
      | EmptyString => if f c then EmptyString else String c EmptyString
      | r => String c r
      end
  end.

Definition lstrip_chars (chars : string) : string -> string :=
  lstrip_by (fun c => existsb (char_eqb c) (String.list_ascii_of_string chars)).
Definition rstrip_chars (chars : string) : string -> string :=
  rstrip_by (fun c => existsb (char_eqb c) (String.list_ascii_of_string chars)).

Definition strip (s : string) : string := lstrip_by is_space (rstrip_by is_space s).

(** ** Joining and splitting *)

(** [sep.join(l)] *)
Fixpoint join (sep : string) (l : list string) : string :=
  match l with
  | [] => ""
  | [s] => s
  | s :: l' => s +:+ sep +:+ join sep l'
  end.

(** A text of lines, each ended by a line feed. *)
Definition lines (l : list string) : string := join nl l +:+ nl.

(** [s.split(sep)] for a non-empty [sep]: [skip] characters of a matched
    separator are still to be dropped. *)
Fixpoint split_loop (sep : string) (skip : nat) (acc s : string) : list string :=
  match s with
  | EmptyString => [acc]
  | String c s' =>
      match skip with
      | S k => split_loop sep k acc s'
      | O =>
          if startswith sep s
          then acc :: split_loop sep (str_len sep - 1) "" s'
          else split_loop sep 0 (acc +:+ String c "") s'
      end
  end.
Definition split_on (sep s : string) : list string := split_loop sep 0 "" s.

(** [s.split()]: runs of white space separate, and make no empty word. *)
Fixpoint words_loop (acc s : string) : list string :=
  let emit := if truthy acc then [acc] else [] in
  match s with
  | EmptyString => emit
  | String c s' =>
      if is_space c then emit ++ words_loop "" s' else words_loop (acc +:+ String c "") s'
  end.
Definition split (s : string) : list string := words_loop "" s.

(** [s.splitlines()]: the ASCII line boundaries, [\r\n] as one. *)
Definition is_line_break (c : Ascii.ascii) : bool :=
  let n := ord c in ((10 <=? n) && (n <=? 13)) || ((28 <=? n) && (n <=? 30)).

Fixpoint lines_loop (acc : string) (open : bool) (s : string) : list string :=
  match s with
  | EmptyString => if open then [acc] else []
  | String c s' =>
      if is_line_break c then
        match s' with
        | String d s'' =>
            if (ord c =? 13) && (ord d =? 10)
            then acc :: lines_loop "" false s''
            else acc :: lines_loop "" false s'
        | EmptyString => [acc]
        end
      else lines_loop (acc +:+ String c "") true s'
  end.
Definition splitlines (s : string) : list string := lines_loop "" false s.

(** [l[-1]] and [l[0]] of the non-empty lists [split] returns. *)
Definition last_of (l : list string) : string := List.last l "".
Definition first_of (l : list string) : string := List.hd "" l.

(** [s.rsplit(c, 1)] for a one-character separator: the part before the last
    separator and the part after it, or the whole string alone. *)
Fixpoint rsplit1 (sep : Ascii.ascii) (s : string) : option (string * string) :=
  match s with
  | EmptyString => None
  | String c s' =>
      match rsplit1 sep s' with
      | Some (a, b) => Some (String c a, b)
      | None => if char_eqb c sep then Some ("", s') else None
      end
  end.
Definition rsplit1_last (sep : Ascii.ascii) (s : string) : string :=
  match rsplit1 sep s with Some (_, b) => b | None => s end.
Definition rsplit1_first (sep : Ascii.ascii) (s : string) : string :=
  match rsplit1 sep s with Some (a, _) => a | None => s end.

(** [pathlib.PurePosixPath]: the root and the parts of a path. *)
Definition path_root (s : string) : string :=
  if startswith "//" s && negb (startswith "///" s) then "//"
  else if startswith "/" s then "/" else "".
Definition path_parts (s : string) : list string :=
  List.filter (fun part => negb (String.eqb part "" || String.eqb part ".")) (split_on "/" s).
Definition path_of (root : string) (parts : list string) : string :=
  let s := root +:+ join "/" parts in if truthy s then s else ".".
(** [str(Path(s))] *)
Definition path_text (s : string) : string := path_of (path_root s) (path_parts s).
(** [Path(s).name] and [str(Path(s).parent)] *)
Definition path_name (s : string) : string := List.last (path_parts s) "".
Definition path_parent (s : string) : string := path_of (path_root s) (List.removelast (path_parts s)).

(** [s.replace(c, new)] for a one-character [c]. *)
Fixpoint replace_char (c : Ascii.ascii) (new s : string) : string :=
  match s with
  | EmptyString => ""
  | String d s' => (if char_eqb d c then new else String d "") +:+ replace_char c new s'
  end.

(** [s.replace(c, new, 1)] *)
Fixpoint replace_first (c : Ascii.ascii) (new s : string) : string :=
  match s with
  | EmptyString => ""
  | String d s' => if char_eqb d c then new +:+ s' else String d (replace_first c new s')
  end.

(** ** Numbers *)

(** [str(z)] *)
Definition str_of_Z (z : Z) : string := NilZero.string_of_int (Z.to_int z).
Definition str_of_nat (n : nat) : string := str_of_Z (Z.of_nat n).

(** [int(s)] on a string of digits; Python refuses a conversion of more than
    4300 digits. *)
Definition max_int_digits : nat := 4300.
Definition digits_value (s : string) : Z :=
  fold_left (fun acc c => acc * 10 + Z.of_nat (ord c - 48))%Z (String.list_ascii_of_string s) 0%Z.
Definition int_of_digits (s : string) : outcome Z :=
  if isdigit s then
    if max_int_digits <? str_len s
    then Err (ValueError "Exceeds the limit (4300 digits) for integer string conversion")
    else Ok (digits_value s)
  else Err (ValueError "invalid literal for int() with base 10").

(** [int(s)]: white space around, a sign, and underscores between digits. *)
Definition py_int (s : string) : outcome Z :=
  let t := strip s in
  let '(sign, u) := match t with
    | String c u => if char_eqb c (chr 45) then ((-1)%Z, u)
                    else if char_eqb c (chr 43) then (1%Z, u) else (1%Z, t)
    | EmptyString => (1%Z, t)
    end in
  let groups := split_on "_" u in
  if forallb isdigit groups then
    let? n := int_of_digits (join "" groups) in Ok (sign * n)%Z
  else Err (ValueError "invalid literal for int() with base 10").

(** [str(b)] of a bool *)
Definition str_of_bool (b : bool) : string := if b then "True" else "False".

(** ** repr *)

Definition hex_digit (n : nat) : Ascii.ascii :=
  if n <? 10 then chr (48 + n) else chr (87 + n).

(** [repr] of one character inside quotes [q]. *)
Definition repr_char (q : Ascii.ascii) (c : Ascii.ascii) : string :=
  let n := ord c in
  if char_eqb c q || (n =? 92) then backslash +:+ String c ""
  else if n =? 9 then backslash +:+ "t"
  else if n =? 10 then backslash +:+ "n"
  else if n =? 13 then backslash +:+ "r"
  else if (n <? 32) || (n =? 127)
  then backslash +:+ "x" +:+ String (hex_digit (n / 16)) (String (hex_digit (n mod 16)) "")
  else String c "".

Fixpoint concat_map (f : Ascii.ascii -> string) (s : string) : string :=
  match s with
  | EmptyString => ""
  | String c s' => f c +:+ concat_map f s'
  end.

(** [repr(s)]: single quotes, unless the text has a single quote and no double
    one. *)
Definition repr_str (s : string) : string :=
  let q := if contains "'" s && negb (contains dquote s) then chr 34 else chr 39 in
  String q "" +:+ concat_map (repr_char q) s +:+ String q "".

(** [repr] of a tuple of strings. *)
Definition repr_str_tuple (l : list string) : string :=
  match l with
  | [s] => "(" +:+ repr_str s +:+ ",)"
  | _ => "(" +:+ join ", " (map repr_str l) +:+ ")"
  end.

(** ** Sets and sorting *)

(** [sorted(l)] of strings, by code points. *)
Definition sorted (l : list string) : list string := merge_sort String.le l.

(** [x in l] *)
Definition str_in (x : string) (l : list string) : bool := existsb (String.eqb x) l.

(** [set(l)], and [list(dict.fromkeys(l))]: the first occurrences, in order. *)
Fixpoint dedup_from (seen l : list string) : list string :=
  match l with
  | [] => []
  | x :: l' => if str_in x seen then dedup_from seen l' else x :: dedup_from (x :: seen) l'
  end.
Definition dedup (l : list string) : list string := dedup_from [] l.

(** Literals with double quotes are written with a backquote for each. *)
Definition qq (s : string) : string := replace_char (chr 96) dquote s.

(** ** Lemmas *)

Lemma int_of_digits_nonneg s n : int_of_digits s = Ok n -> (0 <= n)%Z.
Proof.
  unfold int_of_digits. destruct (isdigit s); [|discriminate].
  destruct (_ <? _); [discriminate|]. intros [= <-]. unfold digits_value.
  assert (H : forall l acc, (0 <= acc)%Z ->
    (0 <= fold_left (fun acc c => acc * 10 + Z.of_nat (ord c - 48)) l acc)%Z).
  { induction l as [|c l IH]; intros acc Ha; [exact Ha|]. apply IH. lia. }
  apply H. lia.
Qed.


Lemma str_in_spec x l : str_in x l = true <-> x ∈ l.
Proof.
  unfold str_in. rewrite existsb_exists. split.
  - intros (y & Hy & E). apply String.eqb_eq in E as ->. apply list_elem_of_In, Hy.
  - intros H. exists x. split; [apply list_elem_of_In, H | apply String.eqb_refl].
Qed.

Lemma not_str_in x l : negb (str_in x l) = true <-> x ∉ l.
Proof. rewrite negb_true_iff, <- not_true_iff_false, str_in_spec. reflexivity. Qed.

Lemma dedup_from_elem seen l x : x ∈ dedup_from seen l <-> x ∈ l /\ x ∉ seen.
Proof.
  revert seen; induction l as [|y l IH]; intros seen; simpl.
  - rewrite !elem_of_nil. tauto.
  - destruct (str_in y seen) eqn:E.
    + apply str_in_spec in E. rewrite IH, elem_of_cons.
      split; [tauto|]. intros [[->|H] Hn]; [contradiction | auto].
    + assert (Hy : y ∉ seen) by (intros Hy; apply str_in_spec in Hy; congruence).
      rewrite elem_of_cons, IH, !elem_of_cons. split.
      * intros [->|(Hx & Hn)]; [auto|]. split; [auto|]. intros Hs. apply Hn. auto.
      * intros [[->|Hx] Hn]; [auto|]. destruct (decide (x = y)) as [->|Hne]; [auto|].
        right. split; [exact Hx|]. intros [->|Hs]; auto.
Qed.

Lemma dedup_elem l x : x ∈ dedup l <-> x ∈ l.
Proof. unfold dedup. rewrite dedup_from_elem, elem_of_nil. tauto. Qed.

Lemma NoDup_dedup_from seen l : NoDup (dedup_from seen l).
Proof.
  revert seen; induction l as [|y l IH]; intros seen; simpl; [constructor|].
  destruct (str_in y seen); [apply IH|]. apply NoDup_cons. split; [|apply IH].
  rewrite dedup_from_elem, elem_of_cons. tauto.
Qed.

Lemma NoDup_dedup l : NoDup (dedup l).
Proof. apply NoDup_dedup_from. Qed.

#[export] Instance string_le_total : Total String.le.
Proof.
  intros s t. unfold String.le. destruct (String.leb_total s t) as [->| ->]; [left | right]; exact I.
Qed.

Lemma sorted_perm l : sorted l ≡ₚ l.
Proof. apply merge_sort_Permutation. Qed.

Lemma sorted_elem l x : x ∈ sorted l <-> x ∈ l.
Proof. rewrite sorted_perm. reflexivity. Qed.

Lemma sorted_sorted l : StronglySorted String.le (sorted l).
Proof. apply StronglySorted_merge_sort; apply _. Qed.

Lemma str_app_nil_r (s : string) : s +:+ "" = s.
Proof. induction s as [|c s IH]; [reflexivity|]. change (String c (s +:+ "") = String c s). f_equal; exact IH. Qed.

Lemma str_app_assoc (s t u : string) : (s +:+ t) +:+ u = s +:+ (t +:+ u).
Proof. induction s as [|c s IH]; [reflexivity|]. change (String c ((s +:+ t) +:+ u) = String c (s +:+ (t +:+ u))). f_equal; exact IH. Qed.

Lemma str_app_inv_l (s t u : string) : s +:+ t = s +:+ u -> t = u.
Proof.
  induction s as [|c s IH]; intros H; [exact H|].
  change (String c (s +:+ t) = String c (s +:+ u)) in H. injection H as H. auto.
Qed.

Lemma str_all_app f s t : str_all f (s +:+ t) = str_all f s && str_all f t.
Proof.
  induction s as [|c s IH]; [reflexivity|].
  change (f c && str_all f (s +:+ t) = f c && str_all f s && str_all f t).
  rewrite IH. apply andb_assoc.
Qed.

Lemma str_len_app a b : str_len (a +:+ b) = (str_len a + str_len b)%nat.
Proof. induction a as [|c a IH]; [reflexivity|]. unfold str_len in *. simpl. rewrite IH. reflexivity. Qed.

Lemma startswith_app p s : startswith p (p +:+ s) = true.
Proof.
  induction p as [|c p IH]; [reflexivity|].
  change (char_eqb c c && startswith p (p +:+ s) = true).
  unfold char_eqb. rewrite Ascii.eqb_refl. exact IH.
Qed.

Lemma startswith_spec p s : startswith p s = true <-> exists t, s = p +:+ t.
Proof.
  split.
  - revert s; induction p as [|c p IH]; intros s H; [exists s; reflexivity|].
    destruct s as [|d s]; simpl in H; [discriminate|].
    apply andb_true_iff in H as [Hc H]. apply Ascii.eqb_eq in Hc as ->.
    destruct (IH _ H) as (t & ->). exists t. reflexivity.
  - intros (t & ->). apply startswith_app.
Qed.

Lemma contains_startswith p s : startswith p s = true -> contains p s = true.
Proof. intros H. destruct s; simpl; rewrite H; reflexivity. Qed.

Lemma contains_app_r p s t : contains p t = true -> contains p (s +:+ t) = true.
Proof.
  intros H. induction s as [|c s IH]; [exact H|].
  change (startswith p (String c (s +:+ t)) || contains p (s +:+ t) = true).
  rewrite IH. apply orb_true_r.
Qed.

Lemma startswith_app_l p s t : startswith p s = true -> startswith p (s +:+ t) = true.
Proof.
  intros H. apply startswith_spec in H as [u ->]. rewrite str_app_assoc. apply startswith_app.
Qed.

Lemma contains_app_l p s t : contains p s = true -> contains p (s +:+ t) = true.
Proof.
  induction s as [|c s IH]; intros H.
  - apply contains_startswith. simpl in H. destruct p; [reflexivity | discriminate].
  - simpl in H. apply orb_true_iff in H as [H|H].
    + apply contains_startswith. apply (startswith_app_l p (String c s)). exact H.
    + change (startswith p (String c (s +:+ t)) || contains p (s +:+ t) = true).
      rewrite IH by exact H. apply orb_true_r.
Qed.

Lemma contains_app p s t : contains p (s +:+ p +:+ t) = true.
Proof. apply contains_app_r, contains_startswith, startswith_app. Qed.

(** Splitting at a character undoes joining with it. *)
Definition lacks (c : Ascii.ascii) (s : string) : bool := str_all (fun d => negb (char_eqb c d)) s.

Lemma split_loop_lacks c acc a :
  lacks c a = true ->
  split_loop (String c "") 0 acc a = [acc +:+ a] /\
  forall rest, split_loop (String c "") 0 acc (a +:+ String c rest) =
    (acc +:+ a) :: split_loop (String c "") 0 "" rest.
Proof.
  revert acc; induction a as [|d a IH]; intros acc H.
  - split; [rewrite str_app_nil_r; reflexivity|]. intros rest.
    change ("" +:+ String c rest) with (String c rest). cbn [split_loop startswith].
    unfold char_eqb. rewrite Ascii.eqb_refl, str_app_nil_r. reflexivity.
  - unfold lacks in H. cbn [str_all] in H. apply andb_true_iff in H as [Hd H].
    apply negb_true_iff in Hd. destruct (IH (acc +:+ String d "") H) as [IH1 IH2].
    assert (Hs : forall s, startswith (String c "") (String d s) = false)
      by (intros s; cbn [startswith]; rewrite Hd; reflexivity).
    split; [|intros rest; change (String d a +:+ String c rest) with (String d (a +:+ String c rest))];
      cbn [split_loop]; rewrite Hs; [rewrite IH1 | rewrite IH2];
      rewrite str_app_assoc; reflexivity.
Qed.

Lemma split_on_join c l :
  l <> [] -> forallb (lacks c) l = true -> split_on (String c "") (join (String c "") l) = l.
Proof.
  unfold split_on. induction l as [|a l IH]; intros Hne H; [congruence|].
  cbn [forallb] in H. apply andb_true_iff in H as [Ha H].
  destruct (split_loop_lacks c "" a Ha) as [H1 H2]. destruct l as [|b l].
  - cbn [join]. rewrite H1. reflexivity.
  - change (join (String c "") (a :: b :: l)) with (a +:+ String c (join (String c "") (b :: l))).
    rewrite H2, IH by (assumption || discriminate). reflexivity.
Qed.

#[export] Hint Resolve str_app_nil_r str_app_assoc startswith_app : pystr.
