(* ===== verification/Chars.v ===== *)
(** * Texts as sequences of characters

    A string of the model is its bytes in UTF-8; what the code cuts, pads and
    measures for the screen are characters.  Here are the operations of Python on
    them ([len], slices, [ljust], [center]) and how they bound what they return. *)

From S2P Require Import Prelude PyStr.

Create HintDb plain.

Local Open Scope Z_scope.

(** A byte that continues a character: [10xxxxxx]. *)
Definition is_continuation (c : Ascii.ascii) : bool :=
  match c with Ascii.Ascii _ _ _ _ _ _ b6 b7 => b7 && negb b6 end.

Definition starts_inside (s : string) : bool :=
  match s with String c _ => is_continuation c | EmptyString => false end.

Fixpoint chars (s : string) : list string :=
  match s with
  | EmptyString => []
  | String c s' =>
      match chars s' with
      | first :: others => if starts_inside first then String c first :: others else String c "" :: first :: others
      | [] => [String c ""]
      end
  end.

(** [len(s)] *)
Definition char_len (s : string) : Z := Z.of_nat (length (chars s)).

Definition text_of (l : list string) : string := fold_right String.append "" l.

(** [s[:n]] and [s[n:]]; a negative [n] counts from the end. *)
Definition slice_index (n length : Z) : nat := Z.to_nat (if n <? 0 then n + length else n).
Definition slice_to (n : Z) (s : string) : string := text_of (take (slice_index n (char_len s)) (chars s)).
Definition slice_from (n : Z) (s : string) : string := text_of (drop (slice_index n (char_len s)) (chars s)).

(** [s * n] *)
Fixpoint repeat_text (s : string) (n : nat) : string :=
  match n with O => "" | S n' => s +:+ repeat_text s n' end.
Definition times (s : string) (n : Z) : string := repeat_text s (Z.to_nat n).

(** [s.ljust(width)] and [s.center(width)] *)
Definition ljust (s : string) (width : Z) : string := s +:+ times " " (width - char_len s).
Definition center (s : string) (width : Z) : string :=
  let pad := width - char_len s in
  if pad <=? 0 then s
  else
    let left := pad / 2 + Z.land (Z.land pad width) 1 in
    times " " left +:+ s +:+ times " " (pad - left).

(** Characters that move to the next column: no control characters. *)
Definition is_plain (c : Ascii.ascii) : bool :=
  let n := Ascii.nat_of_ascii c in ((32 <=? n) && negb (n =? 127))%nat.
Definition plain (s : string) : bool := str_all is_plain s.

(** ** How many characters *)

Lemma text_of_chars s : text_of (chars s) = s.
Proof.
  induction s as [|c s IH]; [reflexivity|]. cbn [chars].
  destruct (chars s) as [|first others]; [cbn in *; subst; reflexivity|].
  destruct (starts_inside first); cbn in *; subst; reflexivity.
Qed.

Lemma char_len_cons c s : char_len s <= char_len (String c s) <= 1 + char_len s.
Proof.
  unfold char_len. cbn [chars]. destruct (chars s) as [|first others]; [cbn; lia|].
  destruct (starts_inside first); cbn [length]; lia.
Qed.

Lemma char_len_nonneg s : 0 <= char_len s.
Proof. unfold char_len. lia. Qed.

(** Two texts meet in at most one character. *)
Lemma chars_app a b :
  chars (a +:+ b) = chars a ++ chars b \/
  exists before last first after, chars a = before ++ [last] /\ chars b = first :: after /\
    chars (a +:+ b) = before ++ (last +:+ first) :: after.
Proof.
  induction a as [|c a IH]; [left; reflexivity|].
  change (String c a +:+ b) with (String c (a +:+ b)). cbn [chars]. destruct IH as [E|(before & last & first & after & Ea & Eb & E)].
  - rewrite E. destruct (chars a) as [|x xs] eqn:Ea; cbn [app].
    + destruct (chars b) as [|y ys]; [left; reflexivity|]. destruct (starts_inside y); [|left; reflexivity].
      right. exists [], (String c ""), y, ys. auto.
    + left. destruct (starts_inside x); reflexivity.
  - rewrite E, Ea. right. destruct before as [|x xs]; cbn [app].
    + assert (Hl : starts_inside (last +:+ first) = starts_inside last).
      { destruct last; [|reflexivity]. pose proof (text_of_chars a) as Ht. rewrite Ea in Ht.
        destruct a; cbn in Ht; [discriminate Ea|discriminate Ht]. }
      rewrite Hl. destruct (starts_inside last).
      * exists [], (String c last), first, after. auto.
      * exists [String c ""], last, first, after. auto.
    + destruct (starts_inside x).
      * exists (String c x :: xs), last, first, after. auto.
      * exists (String c "" :: x :: xs), last, first, after. auto.
Qed.

Lemma char_len_app a b : char_len (a +:+ b) <= char_len a + char_len b.
Proof.
  unfold char_len. destruct (chars_app a b) as [->|(u & l & f & v & -> & -> & ->)];
    rewrite !length_app; cbn [length]; lia.
Qed.

Lemma chars_single s : Forall (fun ch => char_len ch = 1) (chars s).
Proof.
  induction s as [|c s IH]; [constructor|]. cbn [chars].
  destruct (chars s) as [|first others]; [repeat constructor|].
  destruct (starts_inside first) eqn:E; [|constructor; [reflexivity | exact IH]].
  apply Forall_cons in IH as [H1 IH]. constructor; [|exact IH].
  unfold char_len in H1 |- *. cbn [chars]. pose proof (text_of_chars first) as Ht.
  destruct (chars first) as [|x [|y ys]]; [discriminate H1 | | cbn in H1; lia].
  cbn in Ht. rewrite str_app_nil_r in Ht. subst x. rewrite E. reflexivity.
Qed.

Lemma char_len_text_of l : Forall (fun ch => char_len ch = 1) l -> char_len (text_of l) <= Z.of_nat (length l).
Proof.
  induction 1 as [|ch l Hch _ IH]; [reflexivity|]. cbn [text_of fold_right length].
  pose proof (char_len_app ch (text_of l)). unfold text_of in *. lia.
Qed.

Lemma char_len_slice_to n s : 0 <= n -> char_len (slice_to n s) <= n.
Proof.
  intros Hn. unfold slice_to, slice_index. replace (n <? 0) with false by lia.
  etransitivity; [apply char_len_text_of, Forall_take, chars_single|]. rewrite length_take. lia.
Qed.

Lemma char_len_slice_last n s : 0 < n -> char_len (slice_from (- n) s) <= n.
Proof.
  intros Hn. unfold slice_from, slice_index. replace (- n <? 0) with true by lia.
  etransitivity; [apply char_len_text_of, Forall_drop, chars_single|].
  rewrite length_drop. unfold char_len. lia.
Qed.

Lemma char_len_times s n : char_len s = 1 -> char_len (times s n) <= Z.max 0 n.
Proof.
  intros Hs. unfold times. replace (Z.max 0 n) with (Z.of_nat (Z.to_nat n)) by lia.
  generalize (Z.to_nat n) as k.
  induction k as [|k IH]; [reflexivity|]. cbn [repeat_text].
  pose proof (char_len_app s (repeat_text s k)). lia.
Qed.

Lemma char_len_ljust s width : char_len (ljust s width) <= Z.max (char_len s) width.
Proof.
  unfold ljust. pose proof (char_len_app s (times " " (width - char_len s))).
  pose proof (char_len_times " " (width - char_len s) eq_refl). pose proof (char_len_nonneg s). lia.
Qed.

(** ** Plain texts *)

Lemma plain_app a b : plain (a +:+ b) = plain a && plain b.
Proof. apply str_all_app. Qed.

Lemma plain_text_of l : plain (text_of l) = forallb plain l.
Proof. induction l as [|a l IH]; [reflexivity|]. cbn. rewrite plain_app. f_equal. exact IH. Qed.

Lemma plain_chars s : plain s = true -> Forall (fun ch => plain ch = true) (chars s).
Proof.
  intros H. rewrite <- (text_of_chars s), plain_text_of in H. apply Forall_forall. intros ch Hch.
  rewrite forallb_forall in H. apply H, list_elem_of_In, Hch.
Qed.

Lemma plain_of_chars l : Forall (fun ch => plain ch = true) l -> plain (text_of l) = true.
Proof. intros H. rewrite plain_text_of. induction H as [|a l Ha _ IH]; cbn; rewrite ?Ha; auto. Qed.

Lemma plain_slice_to n s : plain s = true -> plain (slice_to n s) = true.
Proof. intros H. apply plain_of_chars, Forall_take, plain_chars, H. Qed.

Lemma plain_slice_from n s : plain s = true -> plain (slice_from n s) = true.
Proof. intros H. apply plain_of_chars, Forall_drop, plain_chars, H. Qed.

Lemma plain_times s n : plain s = true -> plain (times s n) = true.
Proof.
  intros H. unfold times. induction (Z.to_nat n) as [|k IH]; [reflexivity|]. cbn [repeat_text].
  rewrite plain_app, H. exact IH.
Qed.

Lemma plain_ljust s width : plain s = true -> plain (ljust s width) = true.
Proof. intros H. unfold ljust. rewrite plain_app, H. apply plain_times. reflexivity. Qed.

Lemma plain_center s width : plain s = true -> plain (center s width) = true.
Proof.
  intros H. unfold center. destruct (_ <=? 0); [exact H|]. rewrite !plain_app, H, !plain_times by reflexivity.
  reflexivity.
Qed.

#[export] Hint Resolve plain_slice_to plain_slice_from plain_times plain_ljust plain_center : plain.
#[export] Hint Extern 1 (plain _ = true) => reflexivity : plain.
