(* ===== verification/Effects.v ===== *)
(** * Effectful programs and how to reason about them

    The installer is straight-line code that asks its environment questions: run
    this command, sleep, log, show this screen.  A program over a signature of
    such operations is a tree ([prog]): it returns a value, raises an exception,
    or performs one operation and goes on with the answer.  What the environment
    answers is not fixed by the model, so every theorem about [runs] holds for
    every machine the installer may meet.

    - [prog], [bind], [try_finally], [try_except], [for_each]: the programs;
    - [runs p t o]: program [p] can perform the operations of the trace [t], with
      the answers recorded there, and end in the outcome [o];
    - [interp]: the same, executed against an oracle that answers;
    - [wp]: weakest preconditions over a monitor, an automaton that reads the
      trace and gets stuck on a forbidden event;
    - [emits]: all events of all runs satisfy a predicate. *)

From S2P Require Import Prelude PyStr.

(** ** Programs *)

Record signature : Type := Signature { op : Type; ans : op -> Type }.

Inductive prog (E : signature) (A : Type) : Type :=
| Ret (a : A)
| Raise (x : exn)
| Vis (e : op E) (k : ans E e -> prog E A).
Arguments Ret {E A} a.
Arguments Raise {E A} x.
Arguments Vis {E A} e k.

Definition trigger {E} (e : op E) : prog E (ans E e) := Vis e (fun r => Ret r).

Fixpoint bind {E A B} (p : prog E A) (f : A -> prog E B) : prog E B :=
  match p with
  | Ret a => f a
  | Raise x => Raise x
  | Vis e k => Vis e (fun r => bind (k r) f)
  end.

Declare Scope prog_scope.
Delimit Scope prog_scope with prog.
Bind Scope prog_scope with prog.
Notation "'let*' x ':=' p 'in' q" := (bind p (fun x => q))
  (at level 10, x pattern, p at level 100, q at level 200) : prog_scope.
Notation "p ';;' q" := (bind p (fun _ => q))
  (at level 100, right associativity) : prog_scope.
Open Scope prog_scope.

(** [if b: p] *)
Definition when {E} (b : bool) (p : prog E unit) : prog E unit :=
  if b then p else Ret tt.

(** The exception is made a value; every operation of [p] stays. *)
Fixpoint reify {E A} (p : prog E A) : prog E (outcome A) :=
  match p with
  | Ret a => Ret (Ok a)
  | Raise x => Ret (Err x)
  | Vis e k => Vis e (fun r => reify (k r))
  end.

Definition of_outcome {E A} (o : outcome A) : prog E A :=
  match o with Ok a => Ret a | Err x => Raise x end.

(** [try: p finally: f]: [f] always runs; its exception replaces that of [p]. *)
Definition try_finally {E A} (p : prog E A) (f : prog E unit) : prog E A :=
  let* o := reify p in (f ;; of_outcome o).

(** [try: p except ...: h], where [h] says which exceptions it handles. *)
Definition try_except {E A} (p : prog E A) (h : exn -> option (prog E A)) : prog E A :=
  let* o := reify p in
  match o with
  | Ok a => Ret a
  | Err x => match h x with Some q => q | None => Raise x end
  end.

(** [for a in l: f(a)] *)
Fixpoint for_each {E A} (f : A -> prog E unit) (l : list A) : prog E unit :=
  match l with
  | [] => Ret tt
  | a :: l' => f a ;; for_each f l'
  end.

(** [[f(a) for a in l]] *)
Fixpoint map_each {E A B} (f : A -> prog E B) (l : list A) : prog E (list B) :=
  match l with
  | [] => Ret []
  | a :: l' => let* b := f a in let* bs := map_each f l' in Ret (b :: bs)
  end.

(** [[a for a in l if f(a)]] *)
Fixpoint filter_each {E A} (f : A -> prog E bool) (l : list A) : prog E (list A) :=
  match l with
  | [] => Ret []
  | a :: l' =>
      let* keep := f a in
      let* rest := filter_each f l' in
      Ret (if keep then a :: rest else rest)
  end.

(** A loop that carries a state. *)
Fixpoint fold_each {E S A} (f : S -> A -> prog E S) (l : list A) (s : S) : prog E S :=
  match l with
  | [] => Ret s
  | a :: l' => let* s' := f s a in fold_each f l' s'
  end.

(** The first element of [l] that satisfies [f]: a loop that returns early. *)
Fixpoint find_each {E A} (f : A -> prog E bool) (l : list A) : prog E (option A) :=
  match l with
  | [] => Ret None
  | a :: l' => let* found := f a in if found then Ret (Some a) else find_each f l'
  end.

(** [all(f(a) for a in l)], which stops at the first failure. *)
Fixpoint all_each {E A} (f : A -> prog E bool) (l : list A) : prog E bool :=
  match l with
  | [] => Ret true
  | a :: l' => let* ok := f a in if ok then all_each f l' else Ret false
  end.

(** A program over [E], each of its operations done by a program over [F]. *)
Fixpoint lift {E F A} (h : forall e : op E, prog F (ans E e)) (p : prog E A) : prog F A :=
  match p with
  | Ret a => Ret a
  | Raise x => Raise x
  | Vis e k => let* r := h e in lift h (k r)
  end.

(** ** Traces and runs *)

Record event (E : signature) : Type := Ev { ev_op : op E; ev_ans : ans E ev_op }.
Arguments Ev {E} ev_op ev_ans.
Arguments ev_op {E} e.
Arguments ev_ans {E} e.

Fixpoint runs {E A} (p : prog E A) (t : list (event E)) (o : outcome A) : Prop :=
  match p with
  | Ret a => t = [] /\ o = Ok a
  | Raise x => t = [] /\ o = Err x
  | Vis e k => exists r t', t = Ev e r :: t' /\ runs (k r) t' o
  end.

(** An oracle answers an operation from the history so far. *)
Definition oracle (E : signature) : Type := list (event E) -> forall e : op E, ans E e.

Fixpoint interp {E A} (w : oracle E) (h : list (event E)) (p : prog E A)
    : list (event E) * outcome A :=
  match p with
  | Ret a => ([], Ok a)
  | Raise x => ([], Err x)
  | Vis e k =>
      let r := w h e in
      let '(t, o) := interp w (h ++ [Ev e r]) (k r) in
      (Ev e r :: t, o)
  end.

Definition trace_of {E A} (w : oracle E) (p : prog E A) : list (event E) := (interp w [] p).1.
Definition outcome_of {E A} (w : oracle E) (p : prog E A) : outcome A := (interp w [] p).2.

Section Runs.
Context {E : signature}.

Lemma interp_runs {A} (w : oracle E) h (p : prog E A) :
  runs p (interp w h p).1 (interp w h p).2.
Proof.
  revert h; induction p as [a|x|e k IH]; intros h; simpl; auto.
  specialize (IH (w h e) (h ++ [Ev e (w h e)])).
  destruct (interp w _ (k (w h e))) as [t o]; simpl in *; eauto.
Qed.

Lemma trace_runs {A} (w : oracle E) (p : prog E A) :
  runs p (trace_of w p) (outcome_of w p).
Proof. apply interp_runs. Qed.

Lemma trace_runs_ok {A} (w : oracle E) (p : prog E A) o :
  outcome_of w p = o -> runs p (trace_of w p) o.
Proof. intros <-. apply trace_runs. Qed.

Lemma runs_bind {A B} (p : prog E A) (f : A -> prog E B) t o :
  runs (bind p f) t o <->
  (exists a t1 t2, t = t1 ++ t2 /\ runs p t1 (Ok a) /\ runs (f a) t2 o) \/
  (exists x, o = Err x /\ runs p t (Err x)).
Proof.
  revert t; induction p as [a|x|e k IH]; intros t; simpl.
  - split.
    + intros H. left. exists a, [], t. auto.
    + intros [(a' & t1 & t2 & -> & [-> Ha] & Hf)|(x & -> & _ & [=])].
      injection Ha as <-. exact Hf.
  - split.
    + intros [-> ->]. eauto.
    + intros [(a' & t1 & t2 & -> & [-> [=]] & Hf)|(x' & -> & -> & Hx)].
      injection Hx as <-. auto.
  - split.
    + intros (r & t' & -> & Hr). apply IH in Hr as [(a & t1 & t2 & -> & H1 & H2)|(x & -> & H)].
      * left. exists a, (Ev e r :: t1), t2. split; [reflexivity|]. split; [|exact H2]. eauto.
      * right. exists x. split; [reflexivity|]. eauto.
    + intros [(a & t1 & t2 & -> & (r & t' & -> & H1) & H2)|(x & -> & r & t' & -> & H)].
      * exists r, (t' ++ t2). split; [reflexivity|]. apply IH. left. eauto 6.
      * exists r, t'. split; [reflexivity|]. apply IH. right. eauto.
Qed.

Lemma runs_reify {A} (p : prog E A) t o :
  runs (reify p) t o <-> exists o', o = Ok o' /\ runs p t o'.
Proof.
  revert t; induction p as [a|x|e k IH]; intros t; simpl.
  - split; [intros [-> ->]; eauto | intros (o' & -> & -> & ->); auto].
  - split; [intros [-> ->]; eauto | intros (o' & -> & -> & ->); auto].
  - split.
    + intros (r & t' & -> & H). apply IH in H as (o' & -> & H). eauto 6.
    + intros (o' & -> & r & t' & -> & H). exists r, t'. split; [reflexivity|]. apply IH; eauto.
Qed.

Lemma runs_of_outcome {A} (o' : outcome A) t o : runs (E := E) (of_outcome o') t o <-> t = [] /\ o = o'.
Proof. destruct o'; reflexivity. Qed.

Lemma runs_try_except {A} (p : prog E A) h t o :
  runs (try_except p h) t o ->
  (exists a, o = Ok a /\ runs p t (Ok a)) \/
  (exists x t1 t2, t = t1 ++ t2 /\ runs p t1 (Err x) /\
     match h x with Some q => runs q t2 o | None => t2 = [] /\ o = Err x end).
Proof.
  intros H. apply runs_bind in H as [(r & t1 & t2 & -> & H1 & H2)|(x & _ & H)];
    [|apply runs_reify in H as (o' & [=] & _)].
  apply runs_reify in H1 as (o' & [= ->] & H1). destruct o' as [a|x].
  - destruct H2 as [-> ->]. rewrite app_nil_r. eauto.
  - right. exists x, t1, t2. split; [reflexivity|]. split; [exact H1|]. destruct (h x); exact H2.
Qed.

(** *** Successful runs, taken apart *)

Lemma runs_bind_ok {A B} (p : prog E A) (f : A -> prog E B) t b :
  runs (bind p f) t (Ok b) ->
  exists a t1 t2, t = t1 ++ t2 /\ runs p t1 (Ok a) /\ runs (f a) t2 (Ok b).
Proof. intros H. apply runs_bind in H as [H|(x & [=] & _)]. exact H. Qed.

Lemma runs_for_each_ok {A} (f : A -> prog E unit) l t u a :
  runs (for_each f l) t (Ok u) -> a ∈ l ->
  exists t1 t2 t3, t = t1 ++ t2 ++ t3 /\ runs (f a) t2 (Ok tt).
Proof.
  revert t; induction l as [|b l IH]; intros t Hr Ha; [apply elem_of_nil in Ha as []|].
  apply runs_bind_ok in Hr as ([] & t1 & t2 & -> & H1 & H2).
  apply elem_of_cons in Ha as [->|Ha].
  - exists [], t1, t2. auto.
  - destruct (IH _ H2 Ha) as (u1 & u2 & u3 & -> & Hf).
    exists (t1 ++ u1), u2, u3. rewrite <- app_assoc. auto.
Qed.

(** A loop over effects: the rounds in order, until one raises. *)
Lemma runs_for_each {A} (f : A -> prog E unit) l t o :
  runs (for_each f l) t o ->
  (o = Ok tt /\ exists ts, t = concat ts /\ Forall2 (fun a t' => runs (f a) t' (Ok tt)) l ts) \/
  (exists done_ a rest ts t' x, l = done_ ++ a :: rest /\ t = concat ts ++ t' /\ o = Err x /\
     Forall2 (fun a t' => runs (f a) t' (Ok tt)) done_ ts /\ runs (f a) t' (Err x)).
Proof.
  revert t; induction l as [|a l IH]; intros t H.
  - destruct H as [-> ->]. left. split; [reflexivity|]. exists []. split; [reflexivity | constructor].
  - apply runs_bind in H as [([] & t1 & t2 & -> & H1 & H2)|(x & -> & H)].
    + destruct (IH _ H2) as [[-> (ts & -> & Hf)]|(dn & b & rest & ts & t' & x & -> & -> & -> & Hf & Hb)].
      * left. split; [reflexivity|]. exists (t1 :: ts). split; [reflexivity | constructor; assumption].
      * right. exists (a :: dn), b, rest, (t1 :: ts), t', x.
        split; [reflexivity|]. split; [simpl; rewrite app_assoc; reflexivity|].
        split; [reflexivity|]. split; [constructor; assumption | exact Hb].
    + right. exists [], a, l, [], t, x. repeat (split; [reflexivity|]).
      split; [constructor | exact H].
Qed.

Lemma runs_fold_each_ok {A St} (f : St -> A -> prog E St) l s t s' a :
  runs (fold_each f l s) t (Ok s') -> a ∈ l -> exists s1 s2 t2, runs (f s1 a) t2 (Ok s2).
Proof.
  revert s t; induction l as [|b l IH]; intros s t Hr Ha; [apply elem_of_nil in Ha as []|].
  apply runs_bind_ok in Hr as (s1 & t1 & t2 & -> & H1 & H2).
  apply elem_of_cons in Ha as [->|Ha]; [eauto | exact (IH _ _ H2 Ha)].
Qed.

Lemma runs_map_each_ok {A B} (f : A -> prog E B) l t bs :
  runs (map_each f l) t (Ok bs) -> Forall2 (fun a b => exists t', runs (f a) t' (Ok b)) l bs.
Proof.
  revert t bs; induction l as [|a l IH]; intros t bs Hr.
  - destruct Hr as [_ [= ->]]. constructor.
  - apply runs_bind_ok in Hr as (b & t1 & t2 & -> & H1 & H2).
    apply runs_bind_ok in H2 as (rest & t3 & t4 & -> & H3 & [_ [= ->]]).
    constructor; eauto.
Qed.

Lemma runs_filter_each_ok {A} (f : A -> prog E bool) l t l' :
  runs (filter_each f l) t (Ok l') -> l' ⊆ l.
Proof.
  revert t l'; induction l as [|b l IH]; intros t l' Hr.
  - destruct Hr as [_ [= ->]]. reflexivity.
  - apply runs_bind_ok in Hr as (keep & t1 & t2 & -> & H1 & H2).
    apply runs_bind_ok in H2 as (rest & t3 & t4 & -> & H3 & [_ [= ->]]).
    apply IH in H3. destruct keep; [apply list_subseteq_skip | apply list_subseteq_cons]; exact H3.
Qed.
End Runs.

(** Take a successful run of a sequence apart, from the first operation on. *)
Ltac runs_ok H :=
  let a := fresh "a" in let t1 := fresh "t" in let t2 := fresh "t" in let H1 := fresh "Hr" in
  apply runs_bind_ok in H as (a & t1 & t2 & -> & H1 & H).

(** ** Weakest preconditions over a monitor

    [δ s ev] is the state of the monitor after it read [ev] in state [s]; [None]
    means that the event is forbidden in that state. *)
Section Monitor.
Context {E : signature} {S : Type} (δ : S -> event E -> option S).

Fixpoint observe (s : S) (t : list (event E)) : option S :=
  match t with
  | [] => Some s
  | ev :: t' => match δ s ev with Some s' => observe s' t' | None => None end
  end.

Fixpoint wp {A} (p : prog E A) (Q : outcome A -> S -> Prop) (s : S) : Prop :=
  match p with
  | Ret a => Q (Ok a) s
  | Raise x => Q (Err x) s
  | Vis e k =>
      forall r, match δ s (Ev e r) with Some s' => wp (k r) Q s' | None => False end
  end.

Lemma observe_app s t1 t2 :
  observe s (t1 ++ t2) = match observe s t1 with Some s' => observe s' t2 | None => None end.
Proof.
  revert s; induction t1 as [|ev t1 IH]; intros s; simpl; [reflexivity|].
  destruct (δ s ev); auto.
Qed.

(** A weakest precondition speaks of every run: no run steps on a forbidden
    event, and each ends in an outcome and a monitor state that satisfy [Q]. *)
Lemma wp_sound {A} (p : prog E A) Q s t o :
  wp p Q s -> runs p t o -> exists s', observe s t = Some s' /\ Q o s'.
Proof.
  revert s t; induction p as [a|x|e k IH]; intros s t; simpl.
  - intros H [-> ->]; eauto.
  - intros H [-> ->]; eauto.
  - intros H (r & t' & -> & Hr). specialize (H r). simpl.
    destruct (δ s (Ev e r)) as [s'|]; [|contradiction]. eapply IH; eauto.
Qed.

Lemma wp_mono {A} (p : prog E A) (Q Q' : outcome A -> S -> Prop) s :
  wp p Q s -> (forall o s', Q o s' -> Q' o s') -> wp p Q' s.
Proof.
  intros H HQ. revert s H; induction p as [a|x|e k IH]; intros s; simpl; auto.
  intros H r. specialize (H r). destruct (δ s (Ev e r)); auto.
Qed.

#[export] Instance wp_proper {A} (p : prog E A) :
  Proper (pointwise_relation _ (pointwise_relation _ impl) ==> pointwise_relation _ impl) (wp p).
Proof. intros Q Q' HQ s H. eapply wp_mono; [exact H|]. intros o s'. apply HQ. Qed.

Lemma wp_conj {A} (p : prog E A) Q Q' s :
  wp p Q s -> wp p Q' s -> wp p (fun o s' => Q o s' /\ Q' o s') s.
Proof.
  revert s; induction p as [a|x|e k IH]; intros s; simpl; auto.
  intros H H' r. specialize (H r); specialize (H' r). destruct (δ s (Ev e r)); auto.
Qed.

(** The postcondition of [p] in [bind p f]: the rest of the program. *)
Definition then_ {A B} (f : A -> prog E B) (Q : outcome B -> S -> Prop) (o : outcome A) (s : S) : Prop :=
  match o with Ok a => wp (f a) Q s | Err x => Q (Err x) s end.

Lemma wp_bind {A B} (p : prog E A) (f : A -> prog E B) Q s :
  wp (bind p f) Q s <-> wp p (then_ f Q) s.
Proof.
  revert s; induction p as [a|x|e k IH]; intros s; simpl; try tauto.
  split; intros H r; specialize (H r); destruct (δ s (Ev e r)); auto; apply IH; auto.
Qed.

Lemma wp_reify {A} (p : prog E A) Q s :
  wp (reify p) Q s <-> wp p (fun o s' => Q (Ok o) s') s.
Proof.
  revert s; induction p as [a|x|e k IH]; intros s; simpl; try tauto.
  split; intros H r; specialize (H r); destruct (δ s (Ev e r)); auto; apply IH; auto.
Qed.

Lemma wp_of_outcome {A} (o : outcome A) Q s : wp (of_outcome o) Q s <-> Q o s.
Proof. destruct o; reflexivity. Qed.

Lemma wp_try_finally {A} (p : prog E A) f Q s :
  wp p (fun o s' => wp f (fun o' s'' => match o' with Ok _ => Q o s'' | Err x => Q (Err x) s'' end) s') s ->
  wp (try_finally p f) Q s.
Proof.
  intros H. unfold try_finally. rewrite wp_bind, wp_reify.
  eapply wp_mono; [exact H|]. simpl. intros o s' H'. rewrite wp_bind.
  eapply wp_mono; [exact H'|]. intros [[]|x] s''; simpl; [rewrite wp_of_outcome|]; auto.
Qed.

Lemma wp_try_except {A} (p : prog E A) h Q s :
  wp p (fun o s' => match o with
                    | Ok _ => Q o s'
                    | Err x => match h x with Some q => wp q Q s' | None => Q (Err x) s' end
                    end) s ->
  wp (try_except p h) Q s.
Proof.
  intros H. unfold try_except. rewrite wp_bind, wp_reify.
  eapply wp_mono; [exact H|]. simpl. intros [a|x] s'; simpl; auto.
  destruct (h x); auto.
Qed.

(** The postcondition only has to hold of outcomes the program has. *)
Lemma wp_with_runs {A} (p : prog E A) (Q : outcome A -> S -> Prop) s :
  wp p (fun o s' => (exists t, runs p t o) -> Q o s') s -> wp p Q s.
Proof.
  revert s; induction p as [a|x|e k IH]; intros s; simpl; eauto.
  intros H r. specialize (H r). destruct (δ s (Ev e r)) as [s'|]; [|contradiction].
  apply IH. eapply wp_mono; [exact H|]. intros o s'' HQ (t & Ht). apply HQ. eauto 6.
Qed.

(** A loop whose every round keeps the invariant [I]; a round that raises must
    establish the postcondition of the failure. *)
Lemma wp_for_each {A} (f : A -> prog E unit) (l : list A) (I : S -> Prop) Q s :
  I s ->
  (forall a s', a ∈ l -> I s' ->
     wp (f a) (fun o s'' => match o with Ok _ => I s'' | Err x => Q (Err x) s'' end) s') ->
  (forall s', I s' -> Q (Ok tt) s') ->
  wp (for_each f l) Q s.
Proof.
  revert s; induction l as [|a l IH]; intros s HI Hf HQ; simpl; [auto|].
  rewrite wp_bind. eapply wp_mono; [apply Hf; [left | exact HI]|].
  intros [[]|x] s'; simpl; auto. intros HI'. apply IH; auto.
  intros a' s'' Hin. apply Hf. right; exact Hin.
Qed.

Lemma wp_map_each {A B} (f : A -> prog E B) (l : list A) (I : S -> Prop) Q s :
  I s ->
  (forall a s', a ∈ l -> I s' ->
     wp (f a) (fun o s'' => match o with Ok _ => I s'' | Err x => Q (Err x) s'' end) s') ->
  (forall bs s', I s' -> Q (Ok bs) s') ->
  wp (map_each f l) Q s.
Proof.
  revert Q s; induction l as [|a l IH]; intros Q s HI Hf HQ; simpl; [auto|].
  rewrite wp_bind. eapply wp_mono; [apply Hf; [left | exact HI]|].
  intros [b|x] s'; simpl; auto. intros HI'. rewrite wp_bind. apply IH; simpl; auto.
  intros a' s'' Hin. apply Hf. right; exact Hin.
Qed.

Lemma wp_filter_each {A} (f : A -> prog E bool) (l : list A) (I : S -> Prop) Q s :
  I s ->
  (forall a s', a ∈ l -> I s' ->
     wp (f a) (fun o s'' => match o with Ok _ => I s'' | Err x => Q (Err x) s'' end) s') ->
  (forall bs s', bs ⊆ l -> I s' -> Q (Ok bs) s') ->
  wp (filter_each f l) Q s.
Proof.
  revert Q s; induction l as [|a l IH]; intros Q s HI Hf HQ; simpl; [auto|].
  rewrite wp_bind. eapply wp_mono; [apply Hf; [left | exact HI]|].
  intros [b|x] s'; simpl; auto. intros HI'. rewrite wp_bind. apply IH; simpl; auto.
  - intros a' s'' Hin. apply Hf. right; exact Hin.
  - intros bs s'' Hbs HI''. apply HQ; [|exact HI''].
    destruct b; [apply list_subseteq_skip | apply list_subseteq_cons]; exact Hbs.
Qed.

Lemma wp_find_each {A} (f : A -> prog E bool) (l : list A) (I : S -> Prop) Q s :
  I s ->
  (forall a s', a ∈ l -> I s' ->
     wp (f a) (fun o s'' => match o with
                            | Ok b => if b then Q (Ok (Some a)) s'' else I s''
                            | Err x => Q (Err x) s'' end) s') ->
  (forall s', I s' -> Q (Ok None) s') ->
  wp (find_each f l) Q s.
Proof.
  revert s; induction l as [|a l IH]; intros s HI Hf HQ; simpl; [auto|].
  rewrite wp_bind. eapply wp_mono; [apply Hf; [left | exact HI]|].
  intros [[]|x] s'; simpl; auto. intros HI'. apply IH; auto.
  intros a' s'' Hin. apply Hf. right; exact Hin.
Qed.

Lemma wp_all_each {A} (f : A -> prog E bool) (l : list A) (I : S -> Prop) Q s :
  I s ->
  (forall a s', a ∈ l -> I s' ->
     wp (f a) (fun o s'' => match o with
                            | Ok b => if b then I s'' else Q (Ok false) s''
                            | Err x => Q (Err x) s'' end) s') ->
  (forall s', I s' -> Q (Ok true) s') ->
  wp (all_each f l) Q s.
Proof.
  revert s; induction l as [|a l IH]; intros s HI Hf HQ; simpl; [auto|].
  rewrite wp_bind. eapply wp_mono; [apply Hf; [left | exact HI]|].
  intros [[]|x] s'; simpl; auto. intros HI'. apply IH; auto.
  intros a' s'' Hin. apply Hf. right; exact Hin.
Qed.
End Monitor.

(** ** Events of every run *)
Section Emits.
Context {E : signature} (P : event E -> Prop).

Fixpoint emits {A} (p : prog E A) : Prop :=
  match p with
  | Ret _ | Raise _ => True
  | Vis e k => forall r, P (Ev e r) /\ emits (k r)
  end.

Lemma emits_sound {A} (p : prog E A) t o : emits p -> runs p t o -> Forall P t.
Proof.
  revert t; induction p as [a|x|e k IH]; intros t; simpl.
  - intros _ [-> _]; constructor.
  - intros _ [-> _]; constructor.
  - intros H (r & t' & -> & Hr). destruct (H r) as [HP Hk]. constructor; eauto.
Qed.

Lemma emits_bind {A B} (p : prog E A) (f : A -> prog E B) :
  emits p -> (forall a, emits (f a)) -> emits (bind p f).
Proof.
  intros Hp Hf. induction p as [a|x|e k IH]; simpl in *; auto.
  intros r. destruct (Hp r). auto.
Qed.

Lemma emits_ret {A} (a : A) : emits (Ret a).
Proof. exact I. Qed.
Lemma emits_raise {A} x : emits (A := A) (Raise x).
Proof. exact I. Qed.

Lemma emits_reify {A} (p : prog E A) : emits p -> emits (reify p).
Proof. induction p as [a|x|e k IH]; simpl; auto. intros Hp r. destruct (Hp r). auto. Qed.

Lemma emits_of_outcome {A} (o : outcome A) : emits (of_outcome o).
Proof. destruct o; exact I. Qed.

Lemma emits_try_finally {A} (p : prog E A) f : emits p -> emits f -> emits (try_finally p f).
Proof.
  intros Hp Hf. apply emits_bind; [apply emits_reify, Hp|]. intros o.
  apply emits_bind; [exact Hf | intros _; apply emits_of_outcome].
Qed.

Lemma emits_for_each {A} (f : A -> prog E unit) l :
  (forall a, a ∈ l -> emits (f a)) -> emits (for_each f l).
Proof.
  induction l as [|a l IH]; simpl; intros H; [exact I|].
  apply emits_bind; [apply H; left|]. intros _. apply IH. intros b Hb. apply H; right; exact Hb.
Qed.

Lemma emits_map_each {A B} (f : A -> prog E B) l :
  (forall a, a ∈ l -> emits (f a)) -> emits (map_each f l).
Proof.
  induction l as [|a l IH]; simpl; intros H; [exact I|].
  apply emits_bind; [apply H; left|]. intros b.
  apply emits_bind; [|intros; exact I]. apply IH. intros c Hc. apply H; right; exact Hc.
Qed.

Lemma emits_fold_each {St A} (f : St -> A -> prog E St) l s :
  (forall s a, a ∈ l -> emits (f s a)) -> emits (fold_each f l s).
Proof.
  revert s; induction l as [|a l IH]; simpl; intros s H; [exact I|].
  apply emits_bind; [apply H; left|]. intros s'. apply IH. intros s'' b Hb. apply H; right; exact Hb.
Qed.

Lemma emits_try_except {A} (p : prog E A) h :
  emits p -> (forall x q, h x = Some q -> emits q) -> emits (try_except p h).
Proof.
  intros Hp Hh. apply emits_bind; [apply emits_reify, Hp|]. intros [a|x]; [exact I|].
  destruct (h x) as [q|] eqn:Eq; [exact (Hh x q Eq) | exact I].
Qed.

Lemma emits_filter_each {A} (f : A -> prog E bool) l :
  (forall a, a ∈ l -> emits (f a)) -> emits (filter_each f l).
Proof.
  induction l as [|a l IH]; simpl; intros H; [exact I|].
  apply emits_bind; [apply H; left|]. intros b.
  apply emits_bind; [|intros; exact I]. apply IH. intros c Hc. apply H; right; exact Hc.
Qed.

Lemma emits_find_each {A} (f : A -> prog E bool) l :
  (forall a, a ∈ l -> emits (f a)) -> emits (find_each f l).
Proof.
  induction l as [|a l IH]; simpl; intros H; [exact I|].
  apply emits_bind; [apply H; left|]. intros []; [exact I|].
  apply IH. intros c Hc. apply H; right; exact Hc.
Qed.

Lemma emits_all_each {A} (f : A -> prog E bool) l :
  (forall a, a ∈ l -> emits (f a)) -> emits (all_each f l).
Proof.
  induction l as [|a l IH]; simpl; intros H; [exact I|].
  apply emits_bind; [apply H; left|]. intros []; [|exact I].
  apply IH. intros c Hc. apply H; right; exact Hc.
Qed.

Lemma emits_when b (p : prog E unit) : (b = true -> emits p) -> emits (when b p).
Proof. destruct b; simpl; auto. Qed.
End Emits.

(** The rest of a program, knowing that its first part returned [a]. *)
Lemma emits_bind_runs {E A B} (P : event E -> Prop) (p : prog E A) (f : A -> prog E B) :
  emits P p -> (forall a t, runs p t (Ok a) -> emits P (f a)) -> emits P (bind p f).
Proof.
  induction p as [a|x|e k IH]; simpl; intros Hp Hf; auto.
  - apply (Hf a []). auto.
  - intros r. destruct (Hp r) as [HP Hk]. split; [exact HP|].
    apply IH; [exact Hk|]. intros a t Ht. apply (Hf a (Ev e r :: t)). eauto.
Qed.

Lemma emits_mono {E A} (P P' : event E -> Prop) (p : prog E A) :
  emits P p -> (forall ev, P ev -> P' ev) -> emits P' p.
Proof.
  intros H HP. induction p as [a|x|e k IH]; simpl in *; auto.
  intros r. destruct (H r). auto.
Qed.

#[export] Hint Resolve emits_ret emits_raise emits_of_outcome : effects.
