(* ===== verification/Command.v ===== *)
(** * Running commands ([core/command.py], [core/log.py])

    [SystemCommandRunner.run] and [run_as_chroot] over one operation,
    [subprocess.run], whose result the environment chooses.  Log records and
    [time.sleep] are operations without a result. *)

From S2P Require Import Prelude PyStr Effects.

(** ** The operations *)

Inductive level : Type := DEBUG | INFO | WARNING | ERROR.

#[export] Instance level_eq_dec : EqDecision level.
Proof. solve_decision. Defined.

(** [str | list[str]]: a string goes to the shell. *)
Inductive command_arg : Type :=
| Shell (command : string)
| Argv (arguments : list string).

Definition command_text (command : command_arg) : string :=
  match command with
  | Shell text => text
  | Argv arguments => join " " arguments
  end.

(** The arguments [SystemCommandRunner.run] gives to [subprocess.run]. *)
Record request : Type := Request {
  rq_command : command_arg;
  rq_capture_output : bool;
  rq_env : option (dict string string);
  rq_cwd : option string;
  rq_input : option string;
}.

(** What [subprocess.run] does with it: it raises [FileNotFoundError], or the
    process ends with an exit code and its output. *)
Inductive process_result : Type :=
| NotFound (error : string)
| Completed (returncode : Z) (stdout stderr : string).

Inductive cmd_op : Type :=
| OpRun (rq : request)
| OpSleep (seconds : Z)
| OpLog (lvl : level) (message : string).

Definition cmd_ans (e : cmd_op) : Type :=
  match e with OpRun _ => process_result | _ => unit end.

Definition cmd_sig : signature := Signature cmd_op cmd_ans.
Abbreviation cmd := (prog cmd_sig).
Abbreviation cmd_event := (event cmd_sig).

Definition EvRun (rq : request) (res : process_result) : cmd_event := @Ev cmd_sig (OpRun rq) res.
Definition EvLog (l : level) (m : string) : cmd_event := @Ev cmd_sig (OpLog l m) tt.
Definition EvSleep (n : Z) : cmd_event := @Ev cmd_sig (OpSleep n) tt.

Definition do_run (rq : request) : cmd process_result := @trigger cmd_sig (OpRun rq).
Definition sleep (seconds : Z) : cmd unit := @trigger cmd_sig (OpSleep seconds).
Definition log (l : level) (message : string) : cmd unit := @trigger cmd_sig (OpLog l message).
Definition log_debug := log DEBUG.
Definition log_info := log INFO.
Definition log_warning := log WARNING.

(** ** Results *)

Record CommandExecutionResult : Type := {
  res_command : string;
  exit_code : Z;
  stdout : string;
  stderr : string;
}.

Definition success (r : CommandExecutionResult) : bool := (exit_code r =? 0)%Z.
Definition output (r : CommandExecutionResult) : string :=
  strip (stdout r +:+ nl +:+ stderr r).

(** ** The runner *)

Definition rstrip (s : string) : string := rstrip_by is_space s.

(** [SystemCommandRunner.run] *)
Definition system_run (command : command_arg) (raise_on_nonzero_exit capture_output : bool)
    (env_variables : option (dict string string)) (working_directory input_data : option string)
    : cmd CommandExecutionResult :=
  let text := command_text command in
  log_debug ("$ " +:+ text) ;;
  let* result := do_run {|
    rq_command := command;
    rq_capture_output := capture_output;
    rq_env := match env_variables with Some (_ :: _) => env_variables | _ => None end;
    rq_cwd := working_directory;
    rq_input := input_data |} in
  match result with
  | NotFound error => Raise (CommandError text 127 "" ("Command not found: " +:+ error))
  | Completed returncode out err =>
      let command_result := {|
        res_command := text;
        exit_code := returncode;
        stdout := if capture_output then out else "";
        stderr := if capture_output then err else "" |} in
      (when (truthy (stdout command_result)) (log_debug (rstrip (stdout command_result))) ;;
       when (truthy (stderr command_result))
         (log_debug ("stderr: " +:+ rstrip (stderr command_result))) ;;
       if raise_on_nonzero_exit && negb (success command_result)
       then Raise (CommandError text (exit_code command_result)
                     (stdout command_result) (stderr command_result))
       else Ret command_result)
  end.

(** [SystemCommandRunner.run_as_chroot] *)
Definition system_run_as_chroot (command : command_arg) (chroot_path : string)
    (raise_on_nonzero_exit capture_output : bool)
    (env_variables : option (dict string string)) (input_data : option string)
    : cmd CommandExecutionResult :=
  system_run (Shell ("arch-chroot " +:+ chroot_path +:+ " " +:+ command_text command))
    raise_on_nonzero_exit capture_output env_variables None input_data.

(** The calls the executors make: by default a non-zero exit raises; [_quiet] is
    [raise_on_nonzero_exit=False], [_input] gives [input_data]. *)
Definition run_with (command : string) (raises : bool) (input_data : option string)
    : cmd CommandExecutionResult := system_run (Shell command) raises true None None input_data.
Definition run (command : string) : cmd unit := run_with command true None ;; Ret tt.
Definition run_quiet (command : string) : cmd CommandExecutionResult := run_with command false None.
Definition run_stdout (command : string) : cmd string :=
  let* r := run_with command true None in Ret (stdout r).
Definition run_input (command data : string) : cmd unit := run_with command true (Some data) ;; Ret tt.
Definition run_input_quiet (command data : string) : cmd CommandExecutionResult :=
  run_with command false (Some data).
(** A quiet call whose result is not used. *)
Definition run_ignored (command : string) : cmd unit := run_quiet command ;; Ret tt.

Definition chroot_command (command : string) : string := "arch-chroot /mnt " +:+ command.
Definition run_chroot (command : string) : cmd unit := run (chroot_command command).
Definition run_chroot_quiet (command : string) : cmd CommandExecutionResult :=
  run_quiet (chroot_command command).
Definition run_chroot_ignored (command : string) : cmd unit := run_ignored (chroot_command command).
Definition run_chroot_input (command data : string) : cmd unit :=
  run_input (chroot_command command) data.

Lemma run_chroot_is_run_as_chroot command :
  run_chroot command =
  (system_run_as_chroot (Shell command) "/mnt" true true None None ;; Ret tt).
Proof. reflexivity. Qed.

(** ** What a trace shows *)

(** The command line of an event, if it is a command. *)
Definition event_command (ev : cmd_event) : option string :=
  match ev_op ev with
  | OpRun rq => Some (command_text (rq_command rq))
  | _ => None
  end.

Fixpoint commands (t : list cmd_event) : list string :=
  match t with
  | [] => []
  | ev :: t' => match event_command ev with Some c => c :: commands t' | None => commands t' end
  end.

(** What successful commands were given on stdin: the files [cat] wrote. *)
Fixpoint writes (t : list cmd_event) : list (string * string) :=
  match t with
  | [] => []
  | Ev (OpRun rq) (Completed 0 _ _) :: t' =>
      match rq_input rq with
      | Some data => (command_text (rq_command rq), data) :: writes t'
      | None => writes t'
      end
  | _ :: t' => writes t'
  end.

(** The commands that ended with exit code 0. *)
Definition event_success (ev : cmd_event) : bool :=
  match ev with
  | Ev (OpRun _) (Completed 0 _ _) => true
  | _ => false
  end.

(** What a command is given on stdin stays between the two processes, unless the
    command stores it in a file. *)
Definition stores_input (command : string) : bool := startswith "cat > " command.

(** An event as the machine's users can see it later: command lines ([ps]), the
    log, output, and the contents of written files; not what goes to the stdin of
    another command. *)
Definition visible (ev : cmd_event) : cmd_event :=
  match ev with
  | Ev (OpRun rq) res =>
      if stores_input (command_text (rq_command rq)) then ev
      else EvRun {| rq_command := rq_command rq; rq_capture_output := rq_capture_output rq;
                    rq_env := rq_env rq; rq_cwd := rq_cwd rq;
                    rq_input := match rq_input rq with Some _ => Some "" | None => None end |} res
  | _ => ev
  end.

(** [P] holds of the command line of every command. *)
Definition on_command (P : string -> Prop) (ev : cmd_event) : Prop :=
  match event_command ev with Some c => P c | None => True end.

Lemma commands_app t1 t2 : commands (t1 ++ t2) = commands t1 ++ commands t2.
Proof.
  induction t1 as [|ev t1 IH]; simpl; [reflexivity|].
  destruct (event_command ev); simpl; rewrite IH; reflexivity.
Qed.

Lemma writes_app t1 t2 : writes (t1 ++ t2) = writes t1 ++ writes t2.
Proof.
  induction t1 as [|[[rq|n|l m] res] t1 IH]; simpl; [reflexivity| | exact IH | exact IH].
  destruct res as [e|[|p|p] out err]; try exact IH.
  destruct (rq_input rq); simpl; rewrite IH; reflexivity.
Qed.

(** A checked command with input succeeds when the process did. *)
Lemma runs_run_input_ok c data t u :
  runs (run_input c data) t (Ok u) -> (c, data) ∈ writes t /\ c ∈ commands t.
Proof.
  unfold run_input, run_with, system_run. intros H.
  runs_ok H. runs_ok Hr. destruct Hr0 as ([] & t' & -> & -> & _).
  runs_ok Hr. destruct Hr0 as (res & t'' & -> & -> & [= ->]).
  destruct res as [e|code out err]; [destruct Hr as [_ [=]]|].
  runs_ok Hr. runs_ok Hr. unfold success in Hr. simpl exit_code in Hr.
  destruct code as [|p|p]; [|destruct Hr as [_ [=]]..].
  simpl. rewrite !writes_app, !commands_app. simpl. split; left.
Qed.

Lemma runs_run_ok c t u :
  runs (run c) t (Ok u) -> c ∈ commands t.
Proof.
  unfold run, run_with, system_run. intros H.
  runs_ok H. runs_ok Hr. destruct Hr0 as ([] & t' & -> & -> & _).
  runs_ok Hr. destruct Hr0 as (res & t'' & -> & -> & [= ->]).
  simpl. left.
Qed.

Lemma Forall_on_command P t : Forall (on_command P) t <-> Forall P (commands t).
Proof.
  induction t as [|ev t IH]; simpl; [split; constructor|].
  rewrite Forall_cons, IH. unfold on_command. destruct (event_command ev).
  - rewrite Forall_cons. tauto.
  - tauto.
Qed.

(** ** Reasoning about a command

    A monitor of commands looks at command lines only; logs and sleeps do not
    move it. *)
Section CommandMonitor.
Context {S : Type} (step : S -> string -> process_result -> option S).

Definition monitor (s : S) (ev : cmd_event) : option S :=
  match ev with
  | Ev (OpRun rq) res => step s (command_text (rq_command rq)) res
  | _ => Some s
  end.

Lemma wp_log l m Q s : wp monitor (log l m) Q s <-> Q (Ok tt) s.
Proof. simpl. split; [intros H; exact (H tt) | intros H []; exact H]. Qed.

Lemma wp_sleep n Q s : wp monitor (sleep n) Q s <-> Q (Ok tt) s.
Proof. simpl. split; [intros H; exact (H tt) | intros H []; exact H]. Qed.

Lemma wp_when_log b l m Q s : wp monitor (when b (log l m)) Q s <-> Q (Ok tt) s.
Proof. destruct b; [apply wp_log | reflexivity]. Qed.

(** The result a completed process gives to the caller. *)
Definition result_of (text : string) (returncode : Z) (out err : string) : CommandExecutionResult :=
  {| res_command := text; exit_code := returncode; stdout := out; stderr := err |}.

Lemma wp_run_with c raises input Q s :
  (forall res,
     match step s c res with
     | None => False
     | Some s' =>
         match res with
         | NotFound error => Q (Err (CommandError c 127 "" ("Command not found: " +:+ error))) s'
         | Completed code out err =>
             if raises && negb (code =? 0)%Z
             then Q (Err (CommandError c code out err)) s'
             else Q (Ok (result_of c code out err)) s'
         end
     end) ->
  wp monitor (run_with c raises input) Q s.
Proof.
  intros H. unfold run_with, system_run. rewrite wp_bind. apply wp_log. cbn beta iota delta [then_].
  rewrite wp_bind. simpl. intros res. specialize (H res).
  destruct (step s c res) as [s'|]; [|contradiction].
  destruct res as [error|code out err]; [exact H|]. cbn beta iota.
  rewrite wp_bind. apply wp_when_log. cbn beta iota delta [then_].
  rewrite wp_bind. apply wp_when_log. cbn beta iota delta [then_].
  unfold success; simpl exit_code. destruct (raises && negb (code =? 0)%Z); exact H.
Qed.

(** A checked command: it fails, or it ended with exit code 0. *)
Lemma wp_run c Q s :
  (forall res,
     match step s c res with
     | None => False
     | Some s' =>
         match res with
         | Completed 0 _ _ => Q (Ok tt) s'
         | NotFound error => Q (Err (CommandError c 127 "" ("Command not found: " +:+ error))) s'
         | Completed code out err => Q (Err (CommandError c code out err)) s'
         end
     end) ->
  wp monitor (run c) Q s.
Proof.
  intros H. unfold run. rewrite wp_bind. apply wp_run_with. intros res. specialize (H res).
  destruct (step s c res) as [s'|]; [|contradiction].
  destruct res as [error|[|p|p] out err]; exact H.
Qed.

Lemma wp_run_quiet c Q s :
  (forall res,
     match step s c res with
     | None => False
     | Some s' =>
         match res with
         | NotFound error => Q (Err (CommandError c 127 "" ("Command not found: " +:+ error))) s'
         | Completed code out err => Q (Ok (result_of c code out err)) s'
         end
     end) ->
  wp monitor (run_quiet c) Q s.
Proof. intros H. apply wp_run_with. exact H. Qed.

Lemma wp_run_ignored c Q s :
  (forall res,
     match step s c res with
     | None => False
     | Some s' =>
         match res with
         | NotFound error => Q (Err (CommandError c 127 "" ("Command not found: " +:+ error))) s'
         | Completed _ _ _ => Q (Ok tt) s'
         end
     end) ->
  wp monitor (run_ignored c) Q s.
Proof.
  intros H. unfold run_ignored. rewrite wp_bind. apply wp_run_quiet.
  intros res. specialize (H res). destruct (step s c res); [|contradiction]. destruct res; exact H.
Qed.

Lemma wp_run_stdout c Q s :
  (forall res,
     match step s c res with
     | None => False
     | Some s' =>
         match res with
         | Completed 0 out _ => Q (Ok out) s'
         | NotFound error => Q (Err (CommandError c 127 "" ("Command not found: " +:+ error))) s'
         | Completed code out err => Q (Err (CommandError c code out err)) s'
         end
     end) ->
  wp monitor (run_stdout c) Q s.
Proof.
  intros H. unfold run_stdout. rewrite wp_bind. apply wp_run_with. intros res. specialize (H res).
  destruct (step s c res) as [s'|]; [|contradiction].
  destruct res as [error|[|p|p] out err]; exact H.
Qed.

Lemma wp_run_input c data Q s :
  (forall res,
     match step s c res with
     | None => False
     | Some s' =>
         match res with
         | Completed 0 _ _ => Q (Ok tt) s'
         | NotFound error => Q (Err (CommandError c 127 "" ("Command not found: " +:+ error))) s'
         | Completed code out err => Q (Err (CommandError c code out err)) s'
         end
     end) ->
  wp monitor (run_input c data) Q s.
Proof.
  intros H. unfold run_input. rewrite wp_bind. apply wp_run_with. intros res. specialize (H res).
  destruct (step s c res) as [s'|]; [|contradiction].
  destruct res as [error|[|p|p] out err]; exact H.
Qed.

Lemma wp_run_input_quiet c data Q s :
  (forall res,
     match step s c res with
     | None => False
     | Some s' =>
         match res with
         | NotFound error => Q (Err (CommandError c 127 "" ("Command not found: " +:+ error))) s'
         | Completed code out err => Q (Ok (result_of c code out err)) s'
         end
     end) ->
  wp monitor (run_input_quiet c data) Q s.
Proof. intros H. apply wp_run_with. exact H. Qed.
End CommandMonitor.

(** ** Predicates over the commands of a program *)
Section EmitsCommand.
Context (P : string -> Prop).

Abbreviation safe p := (emits (on_command P) p).

Lemma safe_log l m : safe (log l m).
Proof. simpl. intros []. split; exact I. Qed.

Lemma safe_sleep n : safe (sleep n).
Proof. simpl. intros []. split; exact I. Qed.

Lemma safe_run_with c raises input : P c -> safe (run_with c raises input).
Proof.
  intros Hc. unfold run_with, system_run. apply emits_bind; [apply safe_log|]. intros _.
  apply emits_bind; [simpl; intros r; split; [exact Hc | exact I]|].
  intros [error|code out err]; [exact I|]. cbn beta iota.
  apply emits_bind; [apply emits_when; intros _; apply safe_log|]. intros _.
  apply emits_bind; [apply emits_when; intros _; apply safe_log|]. intros _.
  destruct (_ && _); exact I.
Qed.

Lemma safe_run c : P c -> safe (run c).
Proof. intros. apply emits_bind; [apply safe_run_with; assumption | intros; exact I]. Qed.
Lemma safe_run_quiet c : P c -> safe (run_quiet c).
Proof. apply safe_run_with. Qed.
Lemma safe_run_ignored c : P c -> safe (run_ignored c).
Proof. intros. apply emits_bind; [apply safe_run_with; assumption | intros; exact I]. Qed.
Lemma safe_run_stdout c : P c -> safe (run_stdout c).
Proof. intros. apply emits_bind; [apply safe_run_with; assumption | intros; exact I]. Qed.
Lemma safe_run_input c d : P c -> safe (run_input c d).
Proof. intros. apply emits_bind; [apply safe_run_with; assumption | intros; exact I]. Qed.
Lemma safe_run_input_quiet c d : P c -> safe (run_input_quiet c d).
Proof. apply safe_run_with. Qed.
End EmitsCommand.

#[export] Hint Resolve safe_log safe_sleep : effects.

(** ** Noninterference: what does not reach the visible trace

    [p ≲ q]: whatever [p] does, [q] can do with the same visible events, the
    same answers and the same outcome. *)
Definition indistinguishable {A} (p q : cmd A) : Prop :=
  forall t o, runs p t o -> exists t', runs q t' o /\ map visible t' = map visible t.

Lemma indistinguishable_refl {A} (p : cmd A) : indistinguishable p p.
Proof. intros t o H. eauto. Qed.

Lemma indistinguishable_bind {A B} (p q : cmd A) (f g : A -> cmd B) :
  indistinguishable p q -> (forall a, indistinguishable (f a) (g a)) ->
  indistinguishable (bind p f) (bind q g).
Proof.
  intros Hp Hf t o H. apply runs_bind in H as [(a & t1 & t2 & -> & H1 & H2)|(x & -> & H)].
  - destruct (Hp _ _ H1) as (t1' & R1 & E1). destruct (Hf _ _ _ H2) as (t2' & R2 & E2).
    exists (t1' ++ t2'). rewrite !map_app, E1, E2. split; [|reflexivity].
    apply runs_bind. left. eauto 6.
  - destruct (Hp _ _ H) as (t' & R & E). exists t'. split; [|exact E].
    apply runs_bind. right. eauto.
Qed.

Lemma indistinguishable_reify {A} (p q : cmd A) :
  indistinguishable p q -> indistinguishable (reify p) (reify q).
Proof.
  intros H t o Hr. apply runs_reify in Hr as (o' & -> & Hr).
  destruct (H _ _ Hr) as (t' & Hq & E). exists t'. split; [|exact E].
  apply runs_reify. eauto.
Qed.

Lemma indistinguishable_try_finally {A} (p q : cmd A) f :
  indistinguishable p q -> indistinguishable (try_finally p f) (try_finally q f).
Proof.
  intros H. apply indistinguishable_bind; [apply indistinguishable_reify, H|].
  intros o. apply indistinguishable_refl.
Qed.

Lemma indistinguishable_try_except {A} (p q : cmd A) h :
  indistinguishable p q -> indistinguishable (try_except p h) (try_except q h).
Proof.
  intros H. apply indistinguishable_bind; [apply indistinguishable_reify, H|].
  intros o. apply indistinguishable_refl.
Qed.

Lemma indistinguishable_for_each {A} (f g : A -> cmd unit) l :
  (forall a, indistinguishable (f a) (g a)) ->
  indistinguishable (for_each f l) (for_each g l).
Proof.
  intros H. induction l as [|a l IH]; [apply indistinguishable_refl|].
  apply indistinguishable_bind; [apply H | intros _; exact IH].
Qed.

Lemma indistinguishable_run_with c raises d d' :
  stores_input c = false ->
  indistinguishable (run_with c raises (Some d)) (run_with c raises (Some d')).
Proof.
  intros Hc. unfold run_with, system_run. apply indistinguishable_bind; [apply indistinguishable_refl|].
  intros _. apply indistinguishable_bind; [|intros; apply indistinguishable_refl].
  intros t o (r & t' & -> & -> & ->). eexists. split.
  - exists r, []. split; [reflexivity|]. split; reflexivity.
  - simpl. rewrite Hc. reflexivity.
Qed.

Lemma indistinguishable_run_input c d d' :
  stores_input c = false -> indistinguishable (run_input c d) (run_input c d').
Proof.
  intros Hc. apply indistinguishable_bind; [apply indistinguishable_run_with, Hc|].
  intros; apply indistinguishable_refl.
Qed.

Lemma indistinguishable_run_input_quiet c d d' :
  stores_input c = false -> indistinguishable (run_input_quiet c d) (run_input_quiet c d').
Proof. apply indistinguishable_run_with. Qed.

#[export] Hint Resolve indistinguishable_refl : effects.
