(* ===== verification/Log.v ===== *)
(** * The console log ([core/log.py])

    Which records reach the terminal, on which stream and how they read.  The
    handlers are those of [configure_logging]; the banner is in [Installer.v]. *)

From S2P Require Import Prelude PyStr Effects Command.

Inductive stream : Type := STDOUT | STDERR.

(** The numbers of the [logging] package. *)
Definition level_number (l : level) : Z :=
  match l with DEBUG => 10 | INFO => 20 | WARNING => 30 | ERROR => 40 end.

Definition LEVEL_PREFIXES (l : level) : option string :=
  match l with
  | WARNING => Some "Warning: "
  | ERROR => Some "Error: "
  | DEBUG | INFO => None
  end.

(** [ConsoleFormatter.formatMessage] *)
Definition format_message (l : level) (message : string) : string :=
  default "" (LEVEL_PREFIXES l) +:+ message.

(** [BelowLevelFilter(level).filter(record)] *)
Definition below_level (limit l : level) : bool := (level_number l <? level_number limit)%Z.

(** What each handler of [configure_logging(lvl)] makes of a record. *)
Definition console_output (lvl l : level) (message : string) : list (stream * string) :=
  if below_level lvl l then []
  else
    (if below_level WARNING l then [(STDOUT, format_message l message)] else []) ++
    (if (level_number l <? level_number WARNING)%Z then [] else [(STDERR, format_message l message)]).

(** Every record above the level is shown once: progress on stdout, problems on
    stderr. *)
Lemma console_output_once lvl l message :
  below_level lvl l = false ->
  console_output lvl l message =
    [(if below_level WARNING l then STDOUT else STDERR, format_message l message)].
Proof. destruct lvl, l; intros [=]; reflexivity. Qed.
