(* ===== verification/PyVal.v ===== *)
(** * Dynamically typed values

    Python values as the configuration code handles them: what PyYAML loads from
    config.yaml, what environment variables are read as, and the fields of the
    configuration model.  A [StrEnum] member is a string that remembers its
    class. *)

From S2P Require Import Prelude PyStr.

#[warnings="-register-all"]
Inductive pyval : Type :=
| PNone
| PBool (b : bool)
| PInt (z : Z)
| PStr (s : string)
| PEnum (cls name value : string)
| PList (l : list pyval)
| PTuple (l : list pyval)
| PDict (d : list (string * pyval)).

(** Induction that reaches the elements of lists and dictionaries. *)
Section PyvalInd.
Context (P : pyval -> Prop).
Context (HNone : P PNone) (HBool : forall b, P (PBool b)) (HInt : forall z, P (PInt z))
  (HStr : forall s, P (PStr s)) (HEnum : forall c n v, P (PEnum c n v))
  (HList : forall l, Forall P l -> P (PList l))
  (HTuple : forall l, Forall P l -> P (PTuple l))
  (HDict : forall d, Forall (fun kv => P kv.2) d -> P (PDict d)).

Fixpoint pyval_rect' (v : pyval) : P v :=
  let list_ind := fix go (l : list pyval) : Forall P l :=
    match l with
    | [] => Forall_nil_2 P
    | x :: l' => Forall_cons_2 P x l' (pyval_rect' x) (go l')
    end in
  match v with
  | PNone => HNone
  | PBool b => HBool b
  | PInt z => HInt z
  | PStr s => HStr s
  | PEnum c n s => HEnum c n s
  | PList l => HList l (list_ind l)
  | PTuple l => HTuple l (list_ind l)
  | PDict d => HDict d
      ((fix go (d : list (string * pyval)) : Forall (fun kv => P kv.2) d :=
         match d with
         | [] => Forall_nil_2 _
         | kv :: d' => Forall_cons_2 _ kv d' (pyval_rect' kv.2) (go d')
         end) d)
  end.
End PyvalInd.

(** [bool(v)] *)
Definition py_bool (v : pyval) : bool :=
  match v with
  | PNone => false
  | PBool b => b
  | PInt z => negb (z =? 0)%Z
  | PStr s | PEnum _ _ s => truthy s
  | PList l | PTuple l => match l with [] => false | _ => true end
  | PDict d => match d with [] => false | _ => true end
  end.

(** [isinstance(v, str)]: an enum member is a string too. *)
Definition as_str (v : pyval) : option string :=
  match v with PStr s | PEnum _ _ s => Some s | _ => None end.

(** [v == w].  Numbers compare across [bool] and [int], enum members compare as
    their text; a list never equals a tuple. *)
Definition number_of (v : pyval) : option Z :=
  match v with
  | PBool b => Some (if b then 1 else 0)%Z
  | PInt z => Some z
  | _ => None
  end.

Fixpoint py_eq (v w : pyval) {struct v} : bool :=
  let list_eq := fix list_eq (l m : list pyval) : bool :=
    match l, m with
    | [], [] => true
    | x :: l', y :: m' => py_eq x y && list_eq l' m'
    | _, _ => false
    end in
  match v, w with
  | PNone, PNone => true
  | PBool _, _ | PInt _, _ =>
      match number_of v, number_of w with Some a, Some b => (a =? b)%Z | _, _ => false end
  | PStr s, _ | PEnum _ _ s, _ => match as_str w with Some t => String.eqb s t | None => false end
  | PList l, PList m | PTuple l, PTuple m => list_eq l m
  | PDict d, PDict e =>
      (Nat.eqb (length d) (length e)) &&
      (fix dict_sub (d : list (string * pyval)) : bool :=
         match d with
         | [] => true
         | (k, x) :: d' =>
             match dict_get e k with
             | Some y => py_eq x y && dict_sub d'
             | None => false
             end
         end) d
  | _, _ => false
  end.

(** [repr(v)] for the values that error messages show. *)
Fixpoint py_repr (v : pyval) : string :=
  match v with
  | PNone => "None"
  | PBool b => str_of_bool b
  | PInt z => str_of_Z z
  | PStr s => repr_str s
  | PEnum cls name s => "<" +:+ cls +:+ "." +:+ name +:+ ": " +:+ repr_str s +:+ ">"
  | PList l => "[" +:+ join ", " (map py_repr l) +:+ "]"
  | PTuple l =>
      match l with
      | [x] => "(" +:+ py_repr x +:+ ",)"
      | _ => "(" +:+ join ", " (map py_repr l) +:+ ")"
      end
  | PDict d =>
      "{" +:+ join ", " (map (fun kv => repr_str kv.1 +:+ ": " +:+ py_repr kv.2) d) +:+ "}"
  end.

(** [str(v)] *)
Definition py_str (v : pyval) : string :=
  match v with PStr s | PEnum _ _ s => s | _ => py_repr v end.
