(* ===== verification/Models.v ===== *)
(** * The configuration model ([config/models.py])

    The frozen dataclasses as records, the [StrEnum]s as inductive types, and the
    properties the classes define.  A field is named after its class and the
    Python field: [storage.swap.size_mb] is
    [swap_size_mb (storage_swap (cfg_storage c))]. *)

From S2P Require Import Prelude PyStr PyVal.

(** ** Enumerations *)

Class StrEnum (T : Type) := {
  enum_class : string;
  enum_name : T -> string;
  enum_value : T -> string;
  enum_members : list T;
}.

(** [Cls(value)]: the member with that value, if any. *)
Definition enum_of_string {T} `{StrEnum T} (s : string) : option T :=
  List.find (fun m => String.eqb (enum_value m) s) enum_members.

Inductive WipeMethod := WIPE_QUICK | WIPE_SECURE | WIPE_DISCARD | WIPE_SKIP.
Inductive CpuVendor := CPU_AMD | CPU_INTEL | CPU_UNKNOWN.
Inductive GpuVendor := GPU_AMD | GPU_INTEL | GPU_NVIDIA | GPU_NONE.
Inductive GpuDriver := NOUVEAU | NVIDIA_OPEN | NVIDIA_DKMS | VENDOR_DEFAULT.
Inductive FirewallPolicy := POLICY_ALLOW | POLICY_DENY | POLICY_REJECT.
Inductive Desktop := KDE | GNOME | HYPRLAND.
Inductive BackupCategory := DOTFILES | KEEPASS | BROWSER | SYSTEM_FILES.

#[export] Instance WipeMethod_eq_dec : EqDecision WipeMethod.
Proof. solve_decision. Defined.
#[export] Instance CpuVendor_eq_dec : EqDecision CpuVendor.
Proof. solve_decision. Defined.
#[export] Instance GpuVendor_eq_dec : EqDecision GpuVendor.
Proof. solve_decision. Defined.
#[export] Instance GpuDriver_eq_dec : EqDecision GpuDriver.
Proof. solve_decision. Defined.
#[export] Instance FirewallPolicy_eq_dec : EqDecision FirewallPolicy.
Proof. solve_decision. Defined.
#[export] Instance Desktop_eq_dec : EqDecision Desktop.
Proof. solve_decision. Defined.
#[export] Instance BackupCategory_eq_dec : EqDecision BackupCategory.
Proof. solve_decision. Defined.

#[export] Instance WipeMethod_enum : StrEnum WipeMethod := {
  enum_class := "WipeMethod";
  enum_name m := match m with WIPE_QUICK => "QUICK" | WIPE_SECURE => "SECURE" | WIPE_DISCARD => "DISCARD" | WIPE_SKIP => "SKIP" end;
  enum_value m := match m with
    | WIPE_QUICK => "quick" | WIPE_SECURE => "secure"
    | WIPE_DISCARD => "discard" | WIPE_SKIP => "skip" end;
  enum_members := [WIPE_QUICK; WIPE_SECURE; WIPE_DISCARD; WIPE_SKIP] }.

#[export] Instance CpuVendor_enum : StrEnum CpuVendor := {
  enum_class := "CpuVendor";
  enum_name m := match m with CPU_AMD => "AMD" | CPU_INTEL => "INTEL" | CPU_UNKNOWN => "UNKNOWN" end;
  enum_value m := match m with CPU_AMD => "amd" | CPU_INTEL => "intel" | CPU_UNKNOWN => "" end;
  enum_members := [CPU_AMD; CPU_INTEL; CPU_UNKNOWN] }.

#[export] Instance GpuVendor_enum : StrEnum GpuVendor := {
  enum_class := "GpuVendor";
  enum_name m := match m with GPU_AMD => "AMD" | GPU_INTEL => "INTEL" | GPU_NVIDIA => "NVIDIA" | GPU_NONE => "NONE" end;
  enum_value m := match m with
    | GPU_AMD => "amd" | GPU_INTEL => "intel" | GPU_NVIDIA => "nvidia" | GPU_NONE => "none" end;
  enum_members := [GPU_AMD; GPU_INTEL; GPU_NVIDIA; GPU_NONE] }.

#[export] Instance GpuDriver_enum : StrEnum GpuDriver := {
  enum_class := "GpuDriver";
  enum_name m := match m with NOUVEAU => "NOUVEAU" | NVIDIA_OPEN => "NVIDIA_OPEN" | NVIDIA_DKMS => "NVIDIA_DKMS" | VENDOR_DEFAULT => "VENDOR_DEFAULT" end;
  enum_value m := match m with
    | NOUVEAU => "nouveau" | NVIDIA_OPEN => "nvidia-open"
    | NVIDIA_DKMS => "nvidia-dkms" | VENDOR_DEFAULT => "" end;
  enum_members := [NOUVEAU; NVIDIA_OPEN; NVIDIA_DKMS; VENDOR_DEFAULT] }.

#[export] Instance FirewallPolicy_enum : StrEnum FirewallPolicy := {
  enum_class := "FirewallPolicy";
  enum_name m := match m with POLICY_ALLOW => "ALLOW" | POLICY_DENY => "DENY" | POLICY_REJECT => "REJECT" end;
  enum_value m := match m with
    | POLICY_ALLOW => "allow" | POLICY_DENY => "deny" | POLICY_REJECT => "reject" end;
  enum_members := [POLICY_ALLOW; POLICY_DENY; POLICY_REJECT] }.

#[export] Instance Desktop_enum : StrEnum Desktop := {
  enum_class := "Desktop";
  enum_name m := match m with KDE => "KDE" | GNOME => "GNOME" | HYPRLAND => "HYPRLAND" end;
  enum_value m := match m with KDE => "kde" | GNOME => "gnome" | HYPRLAND => "hyprland" end;
  enum_members := [KDE; GNOME; HYPRLAND] }.

#[export] Instance BackupCategory_enum : StrEnum BackupCategory := {
  enum_class := "BackupCategory";
  enum_name m := match m with DOTFILES => "DOTFILES" | KEEPASS => "KEEPASS" | BROWSER => "BROWSER" | SYSTEM_FILES => "SYSTEM" end;
  enum_value m := match m with
    | DOTFILES => "dotfiles" | KEEPASS => "keepass"
    | BROWSER => "browser" | SYSTEM_FILES => "system" end;
  enum_members := [DOTFILES; KEEPASS; BROWSER; SYSTEM_FILES] }.

Definition CRYPTROOT_MAPPER_NAME : string := "cryptroot".

(** An enum member as a dynamic value. *)
Definition as_member {T} `{StrEnum T} (m : T) : pyval :=
  PEnum enum_class (enum_name m) (enum_value m).

(** The registry calls it with the values of two settings before they are typed. *)
Definition is_proprietary_nvidia (vendor driver : pyval) : bool :=
  py_eq vendor (as_member GPU_NVIDIA) && negb (py_eq driver (as_member NOUVEAU)).

Definition derive_partition_path (disk : string) (partition_number : Z) : string :=
  if negb (truthy disk) then ""
  else if contains "nvme" disk || contains "loop" disk
  then disk +:+ "p" +:+ str_of_Z partition_number
  else disk +:+ str_of_Z partition_number.

(** ** The sections *)

Record UserConfig := { user_name : string; user_groups : list string }.

Record LocaleConfig := {
  locale_language : string; locale_encoding : string; locale_keymap : string;
  locale_monetary : string; locale_time_format : string; locale_numeric : string;
  locale_paper : string }.

Definition full_locale (l : LocaleConfig) : string :=
  locale_language l +:+ "." +:+ locale_encoding l.

Record PacmanMirrorConfig := {
  mirrors_mirrors : list string; mirrors_use_reflector : bool;
  mirrors_reflector_countries : list string }.

Record SystemConfig := {
  system_hostname : string; system_timezone : string; system_locale : LocaleConfig;
  system_user : UserConfig; system_mirrors : PacmanMirrorConfig; system_cpu_vendor : CpuVendor }.

Record LuksConfig := {
  luks_type : string; luks_cipher : string; luks_key_size : Z; luks_hash : string;
  luks_pbkdf : string; luks_pbkdf_memory : Z; luks_pbkdf_parallel : Z; luks_pbkdf_time_ms : Z }.

Record SubvolumeConfig := {
  subvolume_name : string; subvolume_mountpoint : string; subvolume_nocow : bool }.

Record BtrfsConfig := {
  btrfs_label : string; btrfs_mount_options : string; btrfs_subvolumes : list SubvolumeConfig }.

Record SwapConfig := {
  swap_enabled : bool; swap_size_mb : Z; swap_path : string; swap_hibernation : bool }.

Record StorageConfig := {
  storage_target_disk : string; storage_efi_size_mb : Z; storage_wipe_method : WipeMethod;
  storage_luks : LuksConfig; storage_btrfs : BtrfsConfig; storage_swap : SwapConfig }.

(** [StorageConfig.cryptroot_device] does not depend on the configuration. *)
Definition cryptroot_device : string := "/dev/mapper/" +:+ CRYPTROOT_MAPPER_NAME.

Record KernelConfig := { kernel_name : string; kernel_package : string }.

Record UkiVariantConfig := { variant_suffix : string; variant_params : string }.

Record CmdlineHardeningConfig := {
  hardening_lockdown : string; hardening_iommu : string; hardening_intel_iommu : string;
  hardening_amd_iommu : string; hardening_pti : string; hardening_spectre_v2 : string;
  hardening_spec_store_bypass_disable : string; hardening_l1tf : string; hardening_mds : string;
  hardening_srbds : string; hardening_tsx_async_abort : string; hardening_init_on_alloc : Z;
  hardening_init_on_free : Z }.

Record CmdlineConfig := {
  cmdline_rootflags : string; cmdline_rootfstype : string; cmdline_rw : bool;
  cmdline_quiet : bool; cmdline_hardening : CmdlineHardeningConfig }.

Record LoaderConfig := {
  loader_timeout : Z; loader_console_mode : string; loader_editor : bool }.

Record SecureBootConfig := {
  secure_boot_enroll_keys : bool; secure_boot_include_microsoft_keys : bool }.

Record BootConfig := {
  boot_kernels : list KernelConfig; boot_selected_kernels : list string;
  boot_variants : list UkiVariantConfig; boot_cmdline : CmdlineConfig;
  boot_loader : LoaderConfig; boot_hooks : list string; boot_secure_boot : SecureBootConfig;
  boot_enable_snapshot_boot : bool }.

Definition kernel_packages (b : BootConfig) : list string :=
  match boot_selected_kernels b with
  | [] => map kernel_package (boot_kernels b)
  | selected => selected
  end.

Record DesktopPackages := {
  desktops_kde : list string; desktops_gnome : list string; desktops_hyprland : list string }.

Definition packages_for (d : DesktopPackages) (desktop : Desktop) : list string :=
  match desktop with
  | KDE => desktops_kde d
  | GNOME => desktops_gnome d
  | HYPRLAND => desktops_hyprland d
  end.

Definition configured_desktops (d : DesktopPackages) : list Desktop :=
  List.filter (fun desktop => match packages_for d desktop with [] => false | _ => true end)
    enum_members.

Record PackagesConfig := {
  packages_base : list string; packages_desktops : DesktopPackages;
  packages_selected_desktops : list Desktop; packages_display_manager : list string;
  packages_cataloged : list string }.

Record GpuDriverPackages := {
  drivers_amd : list string; drivers_intel : list string; drivers_nouveau : list string;
  drivers_nvidia_dkms : list string; drivers_nvidia_open : list string }.

Record GpuConfig := {
  gpu_vendor : GpuVendor; gpu_driver : GpuDriver; gpu_drivers : GpuDriverPackages }.

Definition uses_proprietary_nvidia_driver (g : GpuConfig) : bool :=
  is_proprietary_nvidia (as_member (gpu_vendor g)) (as_member (gpu_driver g)).

Record SnapshotRetention := {
  retention_hourly : Z; retention_daily : Z; retention_weekly : Z; retention_monthly : Z;
  retention_yearly : Z }.

Record SnapperVolumeConfig := {
  volume_subvolume : string; volume_snapshots_subvolume : string; volume_snapshots_path : string;
  volume_timeline : bool; volume_cleanup : bool; volume_number_limit : Z;
  volume_number_limit_important : Z; volume_retention : SnapshotRetention }.

Record SnapperConfig := {
  snapper_enabled : bool; snapper_allow_groups : list string;
  snapper_root : option SnapperVolumeConfig; snapper_home : option SnapperVolumeConfig;
  snapper_snap_pac : bool; snapper_bootable_snapshot_count : Z }.

(** The dictionary of the volumes that are not [None], [root] first. *)
Definition snapper_volumes (s : SnapperConfig) : dict string SnapperVolumeConfig :=
  omap (fun nv => match nv.2 with Some v => Some (nv.1, v) | None => None end)
    [("root", snapper_root s); ("home", snapper_home s)].

Record NotificationsConfig := { notifications_enabled : bool }.

Record FirewallSshConfig := {
  ssh_enabled : bool; ssh_port : Z; ssh_allowed_from : string }.

Record FirewallAllowRule := { rule_port : Z; rule_protocol : string }.

Record FirewallConfig := {
  firewall_enabled : bool; firewall_default_incoming : FirewallPolicy;
  firewall_default_outgoing : FirewallPolicy; firewall_logging : bool;
  firewall_block_icmp : bool; firewall_ssh : FirewallSshConfig;
  firewall_allow_rules : list FirewallAllowRule }.

Record DockerConfig := {
  docker_enabled : bool; docker_storage_driver : string; docker_data_root : string;
  docker_access_group : string }.

Record BackupItemConfig := {
  item_name : string; item_source_path : string; item_description : string }.

Record SyncConfig := {
  sync_backup_partition : string; sync_backup_items : list BackupItemConfig;
  sync_backup_categories : list BackupCategory }.

Record MigrationConfig := {
  migration_enabled : bool; migration_preserve_home : bool;
  migration_preserve_secure_boot_keys : bool; migration_additional_paths : list string }.

Definition USB_EFI_PARTITION_NUMBER : Z := 1.
Definition USB_LUKS_HEADER_PARTITION_NUMBER : Z := 2.
Definition USB_RECOVERY_PARTITION_NUMBER : Z := 3.

Record UsbBootConfig := {
  usb_boot_enabled : bool; usb_boot_device : string; usb_boot_recovery_system : bool;
  usb_boot_iso_path : string }.

Definition usb_efi_partition (u : UsbBootConfig) : string :=
  derive_partition_path (usb_boot_device u) USB_EFI_PARTITION_NUMBER.
Definition luks_header_partition (u : UsbBootConfig) : string :=
  derive_partition_path (usb_boot_device u) USB_LUKS_HEADER_PARTITION_NUMBER.
Definition recovery_partition (u : UsbBootConfig) : string :=
  derive_partition_path (usb_boot_device u) USB_RECOVERY_PARTITION_NUMBER.

Definition LUKS_PASSWORD_SECRET : string := "luks_password".
Definition USER_PASSWORD_SECRET : string := "user_password".

Record EncryptedSecretsConfig := {
  luks_password_encrypted : string; user_password_encrypted : string }.

Definition secrets_configured (s : EncryptedSecretsConfig) : bool :=
  truthy (luks_password_encrypted s) || truthy (user_password_encrypted s).

Record Credentials := {
  luks_password : string; user_password : string; source_luks_password : string }.

Record InstallerConfig := {
  cfg_system : SystemConfig;
  cfg_packages : PackagesConfig;
  cfg_storage : StorageConfig;
  cfg_boot : BootConfig;
  cfg_gpu : GpuConfig;
  cfg_snapper : SnapperConfig;
  cfg_firewall : FirewallConfig;
  cfg_docker : DockerConfig;
  cfg_notifications : NotificationsConfig;
  cfg_sync : SyncConfig;
  cfg_migration : MigrationConfig;
  cfg_usb_boot : UsbBootConfig;
  cfg_secrets : EncryptedSecretsConfig;
  cfg_credentials : Credentials }.

(** ** Properties of the whole configuration *)

Definition encrypted_device (c : InstallerConfig) : string :=
  if usb_boot_enabled (cfg_usb_boot c) then storage_target_disk (cfg_storage c)
  else derive_partition_path (storage_target_disk (cfg_storage c)) 2.

Definition efi_partition (c : InstallerConfig) : string :=
  if usb_boot_enabled (cfg_usb_boot c) then usb_efi_partition (cfg_usb_boot c)
  else derive_partition_path (storage_target_disk (cfg_storage c)) 1.

Definition luks_header_device (c : InstallerConfig) : string :=
  if usb_boot_enabled (cfg_usb_boot c) then luks_header_partition (cfg_usb_boot c)
  else encrypted_device c.

(** The same configuration with other passwords. *)
Definition with_credentials (k : Credentials) (c : InstallerConfig) : InstallerConfig :=
  {| cfg_system := cfg_system c; cfg_packages := cfg_packages c; cfg_storage := cfg_storage c;
     cfg_boot := cfg_boot c; cfg_gpu := cfg_gpu c; cfg_snapper := cfg_snapper c;
     cfg_firewall := cfg_firewall c; cfg_docker := cfg_docker c;
     cfg_notifications := cfg_notifications c; cfg_sync := cfg_sync c;
     cfg_migration := cfg_migration c; cfg_usb_boot := cfg_usb_boot c;
     cfg_secrets := cfg_secrets c; cfg_credentials := k |}.
