(* ===== verification/Export.v ===== *)
(** * The configuration as plain data ([exportable_config], [config_lookup])

    [asdict] turns the nested dataclasses into dictionaries in field order;
    [exportable_config] makes YAML data of them without the passwords. *)

From S2P Require Import Prelude PyStr PyVal Models.

(** ** [dataclasses.asdict] *)

Class AsDict (T : Type) := asdict : T -> pyval.

#[export] Instance asdict_string : AsDict string := PStr.
#[export] Instance asdict_Z : AsDict Z := PInt.
#[export] Instance asdict_bool : AsDict bool := PBool.
#[export] Instance asdict_enum {T} `{StrEnum T} : AsDict T :=
  as_member.
#[export] Instance asdict_tuple {T} `{AsDict T} : AsDict (list T) :=
  fun l => PTuple (map asdict l).
#[export] Instance asdict_option {T} `{AsDict T} : AsDict (option T) :=
  fun o => match o with Some a => asdict a | None => PNone end.

#[export] Instance UserConfig_asdict : AsDict UserConfig := fun c => PDict [
  ("name", asdict (user_name c)); ("groups", asdict (user_groups c))].

#[export] Instance LocaleConfig_asdict : AsDict LocaleConfig := fun c => PDict [
  ("language", asdict (locale_language c)); ("encoding", asdict (locale_encoding c));
  ("keymap", asdict (locale_keymap c)); ("monetary", asdict (locale_monetary c));
  ("time_format", asdict (locale_time_format c)); ("numeric", asdict (locale_numeric c));
  ("paper", asdict (locale_paper c))].

#[export] Instance PacmanMirrorConfig_asdict : AsDict PacmanMirrorConfig := fun c => PDict [
  ("mirrors", asdict (mirrors_mirrors c)); ("use_reflector", asdict (mirrors_use_reflector c));
  ("reflector_countries", asdict (mirrors_reflector_countries c))].

#[export] Instance SystemConfig_asdict : AsDict SystemConfig := fun c => PDict [
  ("hostname", asdict (system_hostname c)); ("timezone", asdict (system_timezone c));
  ("locale", asdict (system_locale c)); ("user", asdict (system_user c));
  ("mirrors", asdict (system_mirrors c)); ("cpu_vendor", asdict (system_cpu_vendor c))].

#[export] Instance LuksConfig_asdict : AsDict LuksConfig := fun c => PDict [
  ("type", asdict (luks_type c)); ("cipher", asdict (luks_cipher c));
  ("key_size", asdict (luks_key_size c)); ("hash", asdict (luks_hash c));
  ("pbkdf", asdict (luks_pbkdf c)); ("pbkdf_memory", asdict (luks_pbkdf_memory c));
  ("pbkdf_parallel", asdict (luks_pbkdf_parallel c));
  ("pbkdf_time_ms", asdict (luks_pbkdf_time_ms c))].

#[export] Instance SubvolumeConfig_asdict : AsDict SubvolumeConfig := fun c => PDict [
  ("name", asdict (subvolume_name c)); ("mountpoint", asdict (subvolume_mountpoint c));
  ("nocow", asdict (subvolume_nocow c))].

#[export] Instance BtrfsConfig_asdict : AsDict BtrfsConfig := fun c => PDict [
  ("label", asdict (btrfs_label c)); ("mount_options", asdict (btrfs_mount_options c));
  ("subvolumes", asdict (btrfs_subvolumes c))].

#[export] Instance SwapConfig_asdict : AsDict SwapConfig := fun c => PDict [
  ("enabled", asdict (swap_enabled c)); ("size_mb", asdict (swap_size_mb c));
  ("path", asdict (swap_path c)); ("hibernation", asdict (swap_hibernation c))].

#[export] Instance StorageConfig_asdict : AsDict StorageConfig := fun c => PDict [
  ("target_disk", asdict (storage_target_disk c)); ("efi_size_mb", asdict (storage_efi_size_mb c));
  ("wipe_method", asdict (storage_wipe_method c)); ("luks", asdict (storage_luks c));
  ("btrfs", asdict (storage_btrfs c)); ("swap", asdict (storage_swap c))].

#[export] Instance KernelConfig_asdict : AsDict KernelConfig := fun c => PDict [
  ("name", asdict (kernel_name c)); ("package", asdict (kernel_package c))].

#[export] Instance UkiVariantConfig_asdict : AsDict UkiVariantConfig := fun c => PDict [
  ("suffix", asdict (variant_suffix c)); ("params", asdict (variant_params c))].

#[export] Instance CmdlineHardeningConfig_asdict : AsDict CmdlineHardeningConfig := fun c => PDict [
  ("lockdown", asdict (hardening_lockdown c)); ("iommu", asdict (hardening_iommu c));
  ("intel_iommu", asdict (hardening_intel_iommu c)); ("amd_iommu", asdict (hardening_amd_iommu c));
  ("pti", asdict (hardening_pti c)); ("spectre_v2", asdict (hardening_spectre_v2 c));
  ("spec_store_bypass_disable", asdict (hardening_spec_store_bypass_disable c));
  ("l1tf", asdict (hardening_l1tf c)); ("mds", asdict (hardening_mds c));
  ("srbds", asdict (hardening_srbds c)); ("tsx_async_abort", asdict (hardening_tsx_async_abort c));
  ("init_on_alloc", asdict (hardening_init_on_alloc c));
  ("init_on_free", asdict (hardening_init_on_free c))].

#[export] Instance CmdlineConfig_asdict : AsDict CmdlineConfig := fun c => PDict [
  ("rootflags", asdict (cmdline_rootflags c)); ("rootfstype", asdict (cmdline_rootfstype c));
  ("rw", asdict (cmdline_rw c)); ("quiet", asdict (cmdline_quiet c));
  ("hardening", asdict (cmdline_hardening c))].

#[export] Instance LoaderConfig_asdict : AsDict LoaderConfig := fun c => PDict [
  ("timeout", asdict (loader_timeout c)); ("console_mode", asdict (loader_console_mode c));
  ("editor", asdict (loader_editor c))].

#[export] Instance SecureBootConfig_asdict : AsDict SecureBootConfig := fun c => PDict [
  ("enroll_keys", asdict (secure_boot_enroll_keys c));
  ("include_microsoft_keys", asdict (secure_boot_include_microsoft_keys c))].

#[export] Instance BootConfig_asdict : AsDict BootConfig := fun c => PDict [
  ("kernels", asdict (boot_kernels c)); ("selected_kernels", asdict (boot_selected_kernels c));
  ("variants", asdict (boot_variants c)); ("cmdline", asdict (boot_cmdline c));
  ("loader", asdict (boot_loader c)); ("hooks", asdict (boot_hooks c));
  ("secure_boot", asdict (boot_secure_boot c));
  ("enable_snapshot_boot", asdict (boot_enable_snapshot_boot c))].

#[export] Instance DesktopPackages_asdict : AsDict DesktopPackages := fun c => PDict [
  ("kde", asdict (desktops_kde c)); ("gnome", asdict (desktops_gnome c));
  ("hyprland", asdict (desktops_hyprland c))].

#[export] Instance PackagesConfig_asdict : AsDict PackagesConfig := fun c => PDict [
  ("base", asdict (packages_base c)); ("desktops", asdict (packages_desktops c));
  ("selected_desktops", asdict (packages_selected_desktops c));
  ("display_manager", asdict (packages_display_manager c));
  ("cataloged", asdict (packages_cataloged c))].

#[export] Instance GpuDriverPackages_asdict : AsDict GpuDriverPackages := fun c => PDict [
  ("amd", asdict (drivers_amd c)); ("intel", asdict (drivers_intel c));
  ("nouveau", asdict (drivers_nouveau c)); ("nvidia_dkms", asdict (drivers_nvidia_dkms c));
  ("nvidia_open", asdict (drivers_nvidia_open c))].

#[export] Instance GpuConfig_asdict : AsDict GpuConfig := fun c => PDict [
  ("vendor", asdict (gpu_vendor c)); ("driver", asdict (gpu_driver c));
  ("drivers", asdict (gpu_drivers c))].

#[export] Instance SnapshotRetention_asdict : AsDict SnapshotRetention := fun c => PDict [
  ("hourly", asdict (retention_hourly c)); ("daily", asdict (retention_daily c));
  ("weekly", asdict (retention_weekly c)); ("monthly", asdict (retention_monthly c));
  ("yearly", asdict (retention_yearly c))].

#[export] Instance SnapperVolumeConfig_asdict : AsDict SnapperVolumeConfig := fun c => PDict [
  ("subvolume", asdict (volume_subvolume c));
  ("snapshots_subvolume", asdict (volume_snapshots_subvolume c));
  ("snapshots_path", asdict (volume_snapshots_path c)); ("timeline", asdict (volume_timeline c));
  ("cleanup", asdict (volume_cleanup c)); ("number_limit", asdict (volume_number_limit c));
  ("number_limit_important", asdict (volume_number_limit_important c));
  ("retention", asdict (volume_retention c))].

#[export] Instance SnapperConfig_asdict : AsDict SnapperConfig := fun c => PDict [
  ("enabled", asdict (snapper_enabled c)); ("allow_groups", asdict (snapper_allow_groups c));
  ("root", asdict (snapper_root c)); ("home", asdict (snapper_home c));
  ("snap_pac", asdict (snapper_snap_pac c));
  ("bootable_snapshot_count", asdict (snapper_bootable_snapshot_count c))].

#[export] Instance NotificationsConfig_asdict : AsDict NotificationsConfig := fun c => PDict [
  ("enabled", asdict (notifications_enabled c))].

#[export] Instance FirewallSshConfig_asdict : AsDict FirewallSshConfig := fun c => PDict [
  ("enabled", asdict (ssh_enabled c)); ("port", asdict (ssh_port c));
  ("allowed_from", asdict (ssh_allowed_from c))].

#[export] Instance FirewallAllowRule_asdict : AsDict FirewallAllowRule := fun c => PDict [
  ("port", asdict (rule_port c)); ("protocol", asdict (rule_protocol c))].

#[export] Instance FirewallConfig_asdict : AsDict FirewallConfig := fun c => PDict [
  ("enabled", asdict (firewall_enabled c));
  ("default_incoming", asdict (firewall_default_incoming c));
  ("default_outgoing", asdict (firewall_default_outgoing c));
  ("logging", asdict (firewall_logging c)); ("block_icmp", asdict (firewall_block_icmp c));
  ("ssh", asdict (firewall_ssh c)); ("allow_rules", asdict (firewall_allow_rules c))].

#[export] Instance DockerConfig_asdict : AsDict DockerConfig := fun c => PDict [
  ("enabled", asdict (docker_enabled c)); ("storage_driver", asdict (docker_storage_driver c));
  ("data_root", asdict (docker_data_root c)); ("access_group", asdict (docker_access_group c))].

#[export] Instance BackupItemConfig_asdict : AsDict BackupItemConfig := fun c => PDict [
  ("name", asdict (item_name c)); ("source_path", asdict (item_source_path c));
  ("description", asdict (item_description c))].

#[export] Instance SyncConfig_asdict : AsDict SyncConfig := fun c => PDict [
  ("backup_partition", asdict (sync_backup_partition c));
  ("backup_items", asdict (sync_backup_items c));
  ("backup_categories", asdict (sync_backup_categories c))].

#[export] Instance MigrationConfig_asdict : AsDict MigrationConfig := fun c => PDict [
  ("enabled", asdict (migration_enabled c)); ("preserve_home", asdict (migration_preserve_home c));
  ("preserve_secure_boot_keys", asdict (migration_preserve_secure_boot_keys c));
  ("additional_paths", asdict (migration_additional_paths c))].

#[export] Instance UsbBootConfig_asdict : AsDict UsbBootConfig := fun c => PDict [
  ("enabled", asdict (usb_boot_enabled c)); ("device", asdict (usb_boot_device c));
  ("recovery_system", asdict (usb_boot_recovery_system c));
  ("iso_path", asdict (usb_boot_iso_path c))].

#[export] Instance EncryptedSecretsConfig_asdict : AsDict EncryptedSecretsConfig := fun c => PDict [
  ("luks_password_encrypted", asdict (luks_password_encrypted c));
  ("user_password_encrypted", asdict (user_password_encrypted c))].

#[export] Instance Credentials_asdict : AsDict Credentials := fun c => PDict [
  ("luks_password", asdict (luks_password c)); ("user_password", asdict (user_password c));
  ("source_luks_password", asdict (source_luks_password c))].

#[export] Instance InstallerConfig_asdict : AsDict InstallerConfig := fun c => PDict [
  ("system", asdict (cfg_system c)); ("packages", asdict (cfg_packages c));
  ("storage", asdict (cfg_storage c)); ("boot", asdict (cfg_boot c)); ("gpu", asdict (cfg_gpu c));
  ("snapper", asdict (cfg_snapper c)); ("firewall", asdict (cfg_firewall c));
  ("docker", asdict (cfg_docker c)); ("notifications", asdict (cfg_notifications c));
  ("sync", asdict (cfg_sync c)); ("migration", asdict (cfg_migration c));
  ("usb_boot", asdict (cfg_usb_boot c)); ("secrets", asdict (cfg_secrets c));
  ("credentials", asdict (cfg_credentials c))].

(** ** [exportable_config] *)

(** [_plain_yaml_value] *)
Fixpoint plain_yaml_value (v : pyval) : pyval :=
  match v with
  | PDict d => PDict (map (fun kv => (kv.1, plain_yaml_value kv.2)) d)
  | PTuple l => PList (map plain_yaml_value l)
  | PEnum _ _ s => PStr s
  | _ => v
  end.

(** [del d[k]] of a key that is there. *)
Definition dict_del (d : dict string pyval) (k : string) : dict string pyval :=
  List.filter (fun kv => negb (String.eqb kv.1 k)) d.

Definition exportable_config (c : InstallerConfig) : dict string pyval :=
  match plain_yaml_value (asdict c) with
  | PDict exported => dict_del (dict_del exported "credentials") "secrets"
  | _ => []
  end.

(** ** [config_lookup]: the value at a dotted path *)

Fixpoint getattr_path (names : list string) (v : pyval) : option pyval :=
  match names with
  | [] => Some v
  | name :: names' =>
      match v with
      | PDict d => match dict_get d name with Some w => getattr_path names' w | None => None end
      | _ => None
      end
  end.

(** A path that names no attribute would be an [AttributeError]; the paths of the
    registry all name one, see [Registry.registry_resolves]. *)
Definition config_lookup (c : InstallerConfig) (setting_path : string) : option pyval :=
  getattr_path (split_on "." setting_path) (asdict c).

(** The exported data does not depend on the passwords. *)
Lemma exportable_config_with_credentials k c :
  exportable_config (with_credentials k c) = exportable_config c.
Proof. reflexivity. Qed.
