(* ===== verification/Samples.v ===== *)
(** * A concrete configuration and a scripted machine

    The configuration of [tests/data/unit_config.yaml] and an oracle that answers
    like the tests' [FakeCommandRunner] ([tests/unit/__init__.py]): the first
    pattern that is a substring of the command gives the exit code and the output,
    a command that matches nothing succeeds silently.  The theorems are applied to
    them to show that their hypotheses can hold. *)

From S2P Require Import Prelude PyStr Effects Command PyVal Models.

Definition sample_locale : LocaleConfig := {|
  locale_language := "en_US"; locale_encoding := "UTF-8"; locale_keymap := "us";
  locale_monetary := "en_US.UTF-8"; locale_time_format := "en_US.UTF-8";
  locale_numeric := "en_US.UTF-8"; locale_paper := "en_US.UTF-8" |}.

Definition sample_system : SystemConfig := {|
  system_hostname := "testhost"; system_timezone := "UTC"; system_locale := sample_locale;
  system_user := {| user_name := "testuser"; user_groups := ["wheel"] |};
  system_mirrors := {| mirrors_mirrors := []; mirrors_use_reflector := false;
                       mirrors_reflector_countries := ["France"; "Germany"; "Netherlands"] |};
  system_cpu_vendor := CPU_UNKNOWN |}.

Definition sample_packages : PackagesConfig := {|
  packages_base := ["base"; "linux"; "linux-firmware"; "btrfs-progs"];
  packages_desktops := {| desktops_kde := []; desktops_gnome := []; desktops_hyprland := [] |};
  packages_selected_desktops := []; packages_display_manager := []; packages_cataloged := [] |}.

Definition sample_storage (target_disk : string) (wipe : WipeMethod) : StorageConfig := {|
  storage_target_disk := target_disk; storage_efi_size_mb := 512; storage_wipe_method := wipe;
  storage_luks := {| luks_type := "luks2"; luks_cipher := "aes-xts-plain64"; luks_key_size := 512;
    luks_hash := "sha512"; luks_pbkdf := "argon2id"; luks_pbkdf_memory := 1048576;
    luks_pbkdf_parallel := 4; luks_pbkdf_time_ms := 4000 |};
  storage_btrfs := {| btrfs_label := "archroot"; btrfs_mount_options := "compress=zstd,noatime";
    btrfs_subvolumes := [
      {| subvolume_name := "@"; subvolume_mountpoint := "/"; subvolume_nocow := false |};
      {| subvolume_name := "@home"; subvolume_mountpoint := "/home"; subvolume_nocow := false |}] |};
  storage_swap := {| swap_enabled := true; swap_size_mb := 1024; swap_path := "/.swap/swapfile";
    swap_hibernation := false |} |}.

Definition sample_boot : BootConfig := {|
  boot_kernels := [{| kernel_name := "mainline"; kernel_package := "linux" |}];
  boot_selected_kernels := []; boot_variants := [];
  boot_cmdline := {| cmdline_rootflags := "subvol=@"; cmdline_rootfstype := "btrfs";
    cmdline_rw := true; cmdline_quiet := true;
    cmdline_hardening := {| hardening_lockdown := "integrity"; hardening_iommu := "force";
      hardening_intel_iommu := "on"; hardening_amd_iommu := "force_isolation";
      hardening_pti := "on"; hardening_spectre_v2 := "on";
      hardening_spec_store_bypass_disable := "on"; hardening_l1tf := "full,force";
      hardening_mds := "full,nosmt"; hardening_srbds := "on";
      hardening_tsx_async_abort := "full,nosmt"; hardening_init_on_alloc := 1;
      hardening_init_on_free := 1 |} |};
  boot_loader := {| loader_timeout := 20; loader_console_mode := "max"; loader_editor := false |};
  boot_hooks := ["systemd"; "autodetect"; "microcode"; "modconf"; "kms"; "keyboard"; "sd-vconsole";
    "block"; "sd-encrypt"; "filesystems"; "fsck"];
  boot_secure_boot := {| secure_boot_enroll_keys := true;
    secure_boot_include_microsoft_keys := true |};
  boot_enable_snapshot_boot := false |}.

Definition sample_snapper : SnapperConfig := {|
  snapper_enabled := true; snapper_allow_groups := ["wheel"];
  snapper_root := Some {| volume_subvolume := "/"; volume_snapshots_subvolume := "@snapshots";
    volume_snapshots_path := "/.snapshots"; volume_timeline := true; volume_cleanup := true;
    volume_number_limit := 10; volume_number_limit_important := 5;
    volume_retention := {| retention_hourly := 5; retention_daily := 7; retention_weekly := 4;
      retention_monthly := 6; retention_yearly := 2 |} |};
  snapper_home := None; snapper_snap_pac := true; snapper_bootable_snapshot_count := 5 |}.

Definition sample_usb (enabled : bool) (device : string) : UsbBootConfig := {|
  usb_boot_enabled := enabled; usb_boot_device := device; usb_boot_recovery_system := enabled;
  usb_boot_iso_path := if enabled then "/dev/sr0" else "" |}.

Definition sample_credentials : Credentials := {|
  luks_password := "disk secret"; user_password := "user secret";
  source_luks_password := "old disk secret" |}.

(** The unit test configuration with the settings the properties depend on. *)
Definition sample_config_with (target_disk : string) (wipe : WipeMethod) (usb : UsbBootConfig)
    (migrate : bool) : InstallerConfig := {|
  cfg_system := sample_system; cfg_packages := sample_packages;
  cfg_storage := sample_storage target_disk wipe; cfg_boot := sample_boot;
  cfg_gpu := {| gpu_vendor := GPU_NONE; gpu_driver := VENDOR_DEFAULT;
    gpu_drivers := {| drivers_amd := []; drivers_intel := []; drivers_nouveau := [];
      drivers_nvidia_dkms := []; drivers_nvidia_open := [] |} |};
  cfg_snapper := sample_snapper;
  cfg_firewall := {| firewall_enabled := true; firewall_default_incoming := POLICY_DENY;
    firewall_default_outgoing := POLICY_ALLOW; firewall_logging := true;
    firewall_block_icmp := true;
    firewall_ssh := {| ssh_enabled := false; ssh_port := 22; ssh_allowed_from := "" |};
    firewall_allow_rules := [] |};
  cfg_docker := {| docker_enabled := false; docker_storage_driver := "overlay2";
    docker_data_root := "/var/lib/docker"; docker_access_group := "docker_access" |};
  cfg_notifications := {| notifications_enabled := true |};
  cfg_sync := {| sync_backup_partition := ""; sync_backup_items := [];
    sync_backup_categories := [DOTFILES; KEEPASS; BROWSER; SYSTEM_FILES] |};
  cfg_migration := {| migration_enabled := migrate; migration_preserve_home := true;
    migration_preserve_secure_boot_keys := true; migration_additional_paths := [] |};
  cfg_usb_boot := usb;
  cfg_secrets := {| luks_password_encrypted := ""; user_password_encrypted := "" |};
  cfg_credentials := sample_credentials |}.

Definition sample_config : InstallerConfig :=
  sample_config_with "/dev/vda" WIPE_QUICK (sample_usb false "") false.
Definition sample_usb_config : InstallerConfig :=
  sample_config_with "/dev/vda" WIPE_SECURE (sample_usb true "/dev/sdb") false.
Definition sample_skip_config : InstallerConfig :=
  sample_config_with "/dev/vda" WIPE_SKIP (sample_usb false "") false.
Definition sample_migration_config : InstallerConfig :=
  sample_config_with "/dev/vda" WIPE_QUICK (sample_usb false "") true.

(** ** The scripted machine *)

Definition responses := list (string * (Z * string * string)).

Fixpoint respond (rs : responses) (text : string) : process_result :=
  match rs with
  | [] => Completed 0 "" ""
  | (pattern, (code, out, err)) :: rs' =>
      if contains pattern text then Completed code out err else respond rs' text
  end.

Definition fake_runner (rs : responses) : oracle cmd_sig :=
  fun _ e =>
    match e return ans cmd_sig e with
    | OpRun rq => respond rs (command_text (rq_command rq))
    | OpSleep _ => tt
    | OpLog _ _ => tt
    end.

(** A fresh machine: nothing is mounted, nothing exists yet. *)
Definition fresh_machine : oracle cmd_sig := fake_runner [
  ("mountpoint -q", (1, "", "")); ("cryptsetup status", (4, "", ""));
  ("cryptsetup isLuks", (1, "", "")); ("test -f", (1, "", ""))]%Z.
