(* ===== verification/Base.v ===== *)
(** * The base of the step executors ([executors/base.py]) *)

From S2P Require Import Prelude PyStr Effects Command.

Definition TARGET_ROOT : string := "/mnt".
Definition TARGET_EFI : string := TARGET_ROOT +:+ "/efi".

Definition SBCTL_DIRECTORY : string := "/var/lib/sbctl".
Definition SBCTL_LEGACY_DIRECTORY : string := "/usr/share/secureboot".
Definition SBCTL_PK_KEY : string := SBCTL_DIRECTORY +:+ "/keys/PK/PK.key".
Definition SBCTL_DB_KEY : string := SBCTL_DIRECTORY +:+ "/keys/db/db.key".

(** [runner.run(command, raise_on_nonzero_exit=False).success] *)
Definition run_success (command : string) : cmd bool :=
  let* r := run_quiet command in Ret (success r).
(** [runner.run(command, raise_on_nonzero_exit=False).stdout] *)
Definition run_quiet_stdout (command : string) : cmd string :=
  let* r := run_quiet command in Ret (stdout r).

(** [run_as_chroot(..., raise_on_nonzero_exit=False).success] *)
Definition chroot_success (command : string) : cmd bool :=
  run_success (chroot_command command).

Definition is_mountpoint (path : string) : cmd bool := run_success ("mountpoint -q " +:+ path).
Definition path_exists (path : string) : cmd bool := run_success ("test -e " +:+ path).
Definition file_exists (path : string) : cmd bool := run_success ("test -f " +:+ path).
Definition directory_exists (path : string) : cmd bool := run_success ("test -d " +:+ path).

Definition write_file (path content : string) : cmd unit :=
  run_input ("cat > " +:+ path) content.

Definition detect_luks_uuid (luks_header_device : string) : cmd string :=
  let* result := run_quiet ("cryptsetup luksUUID " +:+ luks_header_device) in
  Ret (if success result then strip (stdout result) else "").

Definition partition_uuid (partition : string) : cmd string :=
  let* out := run_quiet_stdout ("blkid -s PARTUUID -o value " +:+ partition) in
  let uuid := strip out in
  if truthy uuid then Ret uuid
  else Raise (RuntimeError (partition +:+ " has no GPT partition UUID")).

Definition UNIQUE_DISK_IDENTIFIER_PREFIXES : list string := ["wwn-"; "nvme-eui."].

(** The link [stable_disk_path] chooses from the by-id links of a disk. *)
Definition choose_stable_link (links : list string) : string :=
  let unique := List.filter (fun link =>
    any (fun p => startswith p (rsplit1_last (chr 47) link)) UNIQUE_DISK_IDENTIFIER_PREFIXES) links in
  match links with
  | [] => ""
  | _ => first_of (sorted (match unique with [] => links | _ => unique end))
  end.

Definition stable_disk_path (disk : string) : cmd string :=
  let* out := run_quiet_stdout
    ("target=$(readlink -f " +:+ disk +:+ "); for link in /dev/disk/by-id/*; do " +:+
     qq "[ `$(readlink -f `$link`)` = `$target` ] && echo `$link`; done") in
  Ret (choose_stable_link (split out)).

(** ** Facts the executors share *)

Section Safe.
Context (P : string -> Prop).

Abbreviation safe p := (emits (on_command P) p).

Lemma safe_run_success c : P c -> safe (run_success c).
Proof. intros H. apply emits_bind; [apply safe_run_quiet, H | intros; exact I]. Qed.

Lemma safe_run_quiet_stdout c : P c -> safe (run_quiet_stdout c).
Proof. intros H. apply emits_bind; [apply safe_run_quiet, H | intros; exact I]. Qed.

Lemma safe_write_file path content : P ("cat > " +:+ path) -> safe (write_file path content).
Proof. apply safe_run_input. Qed.

Lemma safe_detect_luks_uuid d : P ("cryptsetup luksUUID " +:+ d) -> safe (detect_luks_uuid d).
Proof. intros H. apply emits_bind; [apply safe_run_quiet, H | intros; exact I]. Qed.

Lemma safe_partition_uuid p :
  P ("blkid -s PARTUUID -o value " +:+ p) -> safe (partition_uuid p).
Proof.
  intros H. apply emits_bind; [apply safe_run_quiet_stdout, H|].
  intros out. cbv zeta. destruct (truthy _); exact I.
Qed.

Lemma safe_stable_disk_path d :
  P ("target=$(readlink -f " +:+ d +:+ "); for link in /dev/disk/by-id/*; do " +:+
     qq "[ `$(readlink -f `$link`)` = `$target` ] && echo `$link`; done") ->
  safe (stable_disk_path d).
Proof. intros H. apply emits_bind; [apply safe_run_quiet_stdout, H | intros; exact I]. Qed.
End Safe.

Section Wp.
Context {S : Type} (step : S -> string -> process_result -> option S).

Lemma wp_run_success c Q s :
  (forall res,
     match step s c res with
     | None => False
     | Some s' =>
         match res with
         | NotFound error => Q (Err (CommandError c 127 "" ("Command not found: " +:+ error))) s'
         | Completed code _ _ => Q (Ok (code =? 0)%Z) s'
         end
     end) ->
  wp (monitor step) (run_success c) Q s.
Proof.
  intros H. unfold run_success. rewrite wp_bind. apply wp_run_quiet.
  intros res. specialize (H res). destruct (step s c res); [|contradiction]. destruct res; exact H.
Qed.

Lemma wp_run_quiet_stdout c Q s :
  (forall res,
     match step s c res with
     | None => False
     | Some s' =>
         match res with
         | NotFound error => Q (Err (CommandError c 127 "" ("Command not found: " +:+ error))) s'
         | Completed _ out _ => Q (Ok out) s'
         end
     end) ->
  wp (monitor step) (run_quiet_stdout c) Q s.
Proof.
  intros H. unfold run_quiet_stdout. rewrite wp_bind. apply wp_run_quiet.
  intros res. specialize (H res). destruct (step s c res); [|contradiction]. destruct res; exact H.
Qed.
End Wp.

(** A chosen link is one of the links, and a link that carries a unique hardware
    identifier wins over one that does not. *)
Lemma choose_stable_link_elem links :
  links <> [] -> choose_stable_link links ∈ links.
Proof.
  intros Hne. unfold choose_stable_link. destruct links as [|l links]; [congruence|].
  set (all_links := l :: links).
  set (unique := List.filter _ all_links).
  set (pool := match unique with [] => all_links | _ => unique end).
  assert (Hsub : forall x, x ∈ pool -> x ∈ all_links).
  { intros x. subst pool. destruct unique eqn:E; [auto|]. rewrite <- E.
    intros H. apply list_elem_of_In in H. apply filter_In in H as [H _]. apply list_elem_of_In, H. }
  assert (Hpool : pool <> []) by (subst pool; destruct unique; discriminate).
  apply Hsub. rewrite <- sorted_elem. unfold first_of.
  destruct (sorted pool) as [|x xs] eqn:E; [|left].
  pose proof (sorted_perm pool) as Hp. rewrite E in Hp.
  apply Permutation_nil_l in Hp. congruence.
Qed.

(** ** Classifying command lines

    A monitor or a safety predicate usually asks what kind of command a line is;
    [classify_by] decides by the first rule whose prefix the line has.  The
    prefixes are literals, so the kind of a command computes even when the rest
    of the line depends on the configuration. *)
Fixpoint classify_by {K} (rules : list (string * K)) (default : K) (c : string) : K :=
  match rules with
  | [] => default
  | (p, k) :: rules' => if startswith p c then k else classify_by rules' default c
  end.

(** A monitor that acts on the kind of each command. *)
Definition kind_step {K S} (rules : list (string * K)) (default : K)
    (act : K -> S -> process_result -> option S) (s : S) (c : string) (res : process_result)
    : option S := act (classify_by rules default c) s res.

Ltac eval_kind :=
  repeat match goal with
  | |- context [classify_by ?r ?d ?c] =>
      let k := eval vm_compute in (classify_by r d c) in
      change (classify_by r d c) with k
  end.

(** Compute the next state of a [kind_step] monitor in the goal
    [match kind_step .. with Some s => .. | None => False end]. *)
Ltac eval_step :=
  lazymatch goal with
  | |- match ?st with _ => _ end =>
      lazymatch st with
      | kind_step ?r ?d ?act ?s ?c ?res =>
          let k := eval vm_compute in (classify_by r d c) in
          let st' := eval hnf in (act k s res) in
          lazymatch st' with Some _ => idtac | None => idtac end;
          change st with st'; cbv beta iota
      end
  end.

(** One step through a program whose commands must satisfy a predicate; a goal
    [P c] is left to [side]. *)
Ltac safe_step side :=
  lazymatch goal with
  | |- emits _ (bind _ _) => apply emits_bind; [|intros ?]
  | |- emits _ (Ret _) => exact I
  | |- emits _ (Raise _) => exact I
  | |- emits _ (log _ _) => apply safe_log
  | |- emits _ (log_info _) => apply safe_log
  | |- emits _ (log_debug _) => apply safe_log
  | |- emits _ (log_warning _) => apply safe_log
  | |- emits _ (sleep _) => apply safe_sleep
  | |- emits _ (when _ _) => apply emits_when; intros ?
  | |- emits _ (for_each _ _) => apply emits_for_each; intros ? ?
  | |- emits _ (map_each _ _) => apply emits_map_each; intros ? ?
  | |- emits _ (filter_each _ _) => apply emits_filter_each; intros ? ?
  | |- emits _ (find_each _ _) => apply emits_find_each; intros ? ?
  | |- emits _ (all_each _ _) => apply emits_all_each; intros ? ?
  | |- emits _ (try_finally _ _) => apply emits_try_finally
  | |- emits _ (run _) => apply safe_run; side
  | |- emits _ (run_quiet _) => apply safe_run_quiet; side
  | |- emits _ (run_ignored _) => apply safe_run_ignored; side
  | |- emits _ (run_stdout _) => apply safe_run_stdout; side
  | |- emits _ (run_input _ _) => apply safe_run_input; side
  | |- emits _ (run_input_quiet _ _) => apply safe_run_input_quiet; side
  | |- emits _ (run_chroot _) => apply safe_run; side
  | |- emits _ (run_chroot_quiet _) => apply safe_run_quiet; side
  | |- emits _ (run_chroot_ignored _) => apply safe_run_ignored; side
  | |- emits _ (run_chroot_input _ _) => apply safe_run_input; side
  | |- emits _ (run_success _) => apply safe_run_success; side
  | |- emits _ (run_quiet_stdout _) => apply safe_run_quiet_stdout; side
  | |- emits _ (chroot_success _) => apply safe_run_success; side
  | |- emits _ (is_mountpoint _) => apply safe_run_success; side
  | |- emits _ (path_exists _) => apply safe_run_success; side
  | |- emits _ (file_exists _) => apply safe_run_success; side
  | |- emits _ (directory_exists _) => apply safe_run_success; side
  | |- emits _ (write_file _ _) => apply safe_write_file; side
  | |- emits _ (detect_luks_uuid _) => apply safe_detect_luks_uuid; side
  | |- emits _ (partition_uuid _) => apply safe_partition_uuid; side
  | |- emits _ (stable_disk_path _) => apply safe_stable_disk_path; side
  | |- emits _ (let x := _ in _) => cbv zeta
  | |- emits _ (if ?b then _ else _) => destruct b
  | |- emits _ (match ?x with _ => _ end) => destruct x
  end.

Ltac safe_auto side := repeat (safe_step side).

(** One step of symbolic execution under a monitor: the operation is performed
    with every answer, and [eval_step] computes the next state of the monitor. *)
(** The exit code is only split when the monitor looks at it. *)
Ltac wp_command lemma :=
  first
    [ apply lemma; intros [?error|?code ?out ?err]; eval_step; cbn beta iota delta [then_]
    | apply lemma; intros [?error|[|?p|?p] ?out ?err]; eval_step;
      cbn beta iota delta [then_ Z.eqb success exit_code result_of] ].

Ltac wp_checked lemma :=
  apply lemma; intros [?error|[|?p|?p] ?out ?err]; eval_step; cbn beta iota delta [then_].

Ltac wp_step :=
  lazymatch goal with
  | |- wp _ (bind _ _) _ _ => apply wp_bind
  | |- wp _ (Ret _) _ _ => cbn beta iota delta [wp then_]
  | |- wp _ (Raise _) _ _ => cbn beta iota delta [wp then_]
  | |- wp _ (log _ _) _ _ => apply wp_log; cbn beta iota delta [then_]
  | |- wp _ (log_info _) _ _ => apply wp_log; cbn beta iota delta [then_]
  | |- wp _ (log_warning _) _ _ => apply wp_log; cbn beta iota delta [then_]
  | |- wp _ (sleep _) _ _ => apply wp_sleep; cbn beta iota delta [then_]
  | |- wp _ (run _) _ _ => wp_checked @wp_run
  | |- wp _ (run_stdout _) _ _ => wp_checked @wp_run_stdout
  | |- wp _ (run_input _ _) _ _ => wp_checked @wp_run_input
  | |- wp _ (run_quiet _) _ _ => wp_command @wp_run_quiet
  | |- wp _ (run_ignored _) _ _ => wp_command @wp_run_ignored
  | |- wp _ (run_input_quiet _ _) _ _ => wp_command @wp_run_input_quiet
  | |- wp _ (run_chroot _) _ _ => unfold run_chroot
  | |- wp _ (run_chroot_quiet _) _ _ => unfold run_chroot_quiet
  | |- wp _ (run_chroot_ignored _) _ _ => unfold run_chroot_ignored
  | |- wp _ (run_chroot_input _ _) _ _ => unfold run_chroot_input
  | |- wp _ (run_success _) _ _ => wp_command @wp_run_success
  | |- wp _ (run_quiet_stdout _) _ _ => wp_command @wp_run_quiet_stdout
  | |- wp _ (chroot_success _) _ _ => unfold chroot_success
  | |- wp _ (is_mountpoint _) _ _ => unfold is_mountpoint
  | |- wp _ (path_exists _) _ _ => unfold path_exists
  | |- wp _ (file_exists _) _ _ => unfold file_exists
  | |- wp _ (directory_exists _) _ _ => unfold directory_exists
  | |- wp _ (write_file _ _) _ _ => unfold write_file
  | |- wp _ (when ?b _) _ _ => unfold when
  | |- wp _ (let x := _ in _) _ _ => cbv zeta
  | |- wp _ (if ?b then _ else _) _ _ => destruct b eqn:?; try discriminate
  | |- wp _ (match ?x with _ => _ end) _ _ => destruct x eqn:?; try discriminate
  end.
