(* ===== verification/Patterns.v ===== *)
(** * Trace patterns: precedence, absence, response

    What the properties of the executors say about the order of commands, each as
    a monitor of one flag and a theorem that reads the monitor's verdict back as a
    statement about the trace:
    - precedence: a command of one kind only runs after a certain answer was seen;
    - absence: once a certain answer was seen, no command of another kind runs;
    - response: after every command of one kind, a command of another kind runs. *)

From S2P Require Import Prelude PyStr Effects Command Base.

(** The commands of a trace with their answers. *)
Fixpoint replies (t : list cmd_event) : list (string * process_result) :=
  match t with
  | [] => []
  | Ev (OpRun rq) res :: t' => (command_text (rq_command rq), res) :: replies t'
  | _ :: t' => replies t'
  end.

Lemma replies_commands t : (replies t).*1 = commands t.
Proof.
  induction t as [|[[rq|n|l m] res] t IH]; simpl; [reflexivity| | exact IH | exact IH].
  f_equal. exact IH.
Qed.

Lemma replies_app t1 t2 : replies (t1 ++ t2) = replies t1 ++ replies t2.
Proof.
  induction t1 as [|[[rq|n|l m] res] t1 IH]; simpl; [reflexivity| | exact IH | exact IH].
  rewrite IH. reflexivity.
Qed.

(** A command that returned a result: what the process answered. *)
Lemma runs_run_with_ok c raises input t r :
  runs (run_with c raises input) t (Ok r) ->
  replies t = [(c, Completed (exit_code r) (stdout r) (stderr r))] /\
  (raises = true -> exit_code r = 0%Z).
Proof.
  unfold run_with, system_run. intros H.
  runs_ok H. destruct Hr as ([] & t' & -> & -> & _).
  runs_ok H. destruct Hr as (res & t'' & -> & -> & [= ->]).
  destruct res as [e|code out err]; [destruct H as [_ [=]]|].
  runs_ok H. runs_ok H. 
  assert (Hlog : forall b m tl v, runs (when b (log_debug m)) tl (Ok v) -> replies tl = []).
  { intros [] m tl v Hl; [destruct Hl as ([] & tl0 & -> & -> & _) | destruct Hl as [-> _]]; reflexivity. }
  apply Hlog in Hr, Hr0. simpl. rewrite !replies_app, Hr, Hr0. unfold success in H. simpl exit_code in H.
  destruct raises, (code =? 0)%Z eqn:Ec; simpl in H; destruct H as [-> [= ->]]; simpl;
    split; auto; try discriminate. intros _. apply Z.eqb_eq, Ec.
Qed.

Lemma runs_run_stdout_ok c t out :
  runs (run_stdout c) t (Ok out) -> exists err, replies t = [(c, Completed 0 out err)].
Proof.
  intros H. unfold run_stdout in H. runs_ok H. destruct H as [-> [= ->]].
  apply runs_run_with_ok in Hr as [Hr Hz]. rewrite (Hz eq_refl) in Hr.
  rewrite app_nil_r. eauto.
Qed.

(** A monitor of commands sees the replies of the trace. *)
Fixpoint observe_replies {S} (step : S -> string -> process_result -> option S) (s : S)
    (l : list (string * process_result)) : option S :=
  match l with
  | [] => Some s
  | (c, res) :: l' =>
      match step s c res with Some s' => observe_replies step s' l' | None => None end
  end.

Lemma observe_monitor {S} (step : S -> string -> process_result -> option S) s t :
  observe (monitor step) s t = observe_replies step s (replies t).
Proof.
  revert s; induction t as [|[[rq|n|l m] res] t IH]; intros s; simpl; auto.
  destruct (step s _ res); auto.
Qed.

Section Flags.
Context {K : Type} (rules : list (string * K)) (default : K).

Abbreviation kind := (classify_by rules default).

(** *** Precedence *)
Section Precedence.
Context (needs : K -> bool) (raises : K -> process_result -> bool).

Definition precedence_act (k : K) (s : bool) (res : process_result) : option bool :=
  if needs k then (if s then Some true else None) else if raises k res then Some true else Some s.

Lemma precedence_observed s l s' :
  observe_replies (kind_step rules default precedence_act) s l = Some s' ->
  forall l1 c res l2, l = l1 ++ (c, res) :: l2 -> needs (kind c) = true ->
  s = true \/ exists c' res', (c', res') ∈ l1 /\ raises (kind c') res' = true.
Proof.
  revert s; induction l as [|[c0 res0] l IH]; intros s H l1 c res l2 E Hn.
  - destruct l1; discriminate.
  - simpl in H. change (kind_step rules default precedence_act s c0 res0) with (precedence_act (kind c0) s res0) in H.
    unfold precedence_act in H at 1.
    destruct l1 as [|[c1 res1] l1]; injection E as -> -> ->.
    + rewrite Hn in H. destruct s; [left; reflexivity | discriminate].
    + destruct (needs (kind c1)) eqn:En.
      * destruct s; [left; reflexivity | discriminate].
      * destruct (raises (kind c1) res1) eqn:Er.
        -- right. exists c1, res1. split; [left | exact Er].
        -- destruct (IH _ H _ _ _ _ eq_refl Hn) as [->|(c' & res' & Hin & Hr)]; [left; reflexivity|].
           right. exists c', res'. split; [right; exact Hin | exact Hr].
Qed.

(** Every run under which the monitor is safe has the precedence property. *)
Lemma precedence_runs {A} (p : cmd A) Q t o :
  wp (monitor (kind_step rules default precedence_act)) p Q false -> runs p t o ->
  forall l1 c res l2, replies t = l1 ++ (c, res) :: l2 -> needs (kind c) = true ->
  exists c' res', (c', res') ∈ l1 /\ raises (kind c') res' = true.
Proof.
  intros Hwp Hr l1 c res l2 E Hn. destruct (wp_sound _ _ _ _ _ _ Hwp Hr) as (s' & Ho & _).
  rewrite observe_monitor in Ho.
  destruct (precedence_observed _ _ _ Ho _ _ _ _ E Hn) as [[=]|H]; exact H.
Qed.
End Precedence.

(** *** Absence *)
Section Absence.
Context (sets : K -> process_result -> bool) (forbids : K -> bool).

Definition absence_act (k : K) (s : bool) (res : process_result) : option bool :=
  if s && forbids k then None else if sets k res then Some true else Some s.

Lemma absence_observed s l s' :
  observe_replies (kind_step rules default absence_act) s l = Some s' ->
  (s = true -> Forall (fun cr => forbids (kind cr.1) = false) l) /\
  forall l1 c res l2, l = l1 ++ (c, res) :: l2 -> sets (kind c) res = true ->
  Forall (fun cr => forbids (kind cr.1) = false) l2.
Proof.
  revert s; induction l as [|[c0 res0] l IH]; intros s H.
  - split; [constructor|]. intros [] c res l2 E; discriminate.
  - simpl in H. change (kind_step rules default absence_act s c0 res0) with (absence_act (kind c0) s res0) in H.
    unfold absence_act in H at 1.
    destruct (s && forbids (kind c0)) eqn:Ef; [discriminate|].
    destruct (sets (kind c0) res0) eqn:Es; apply IH in H as [H1 H2]; split.
    + intros ->. constructor; [exact Ef | apply H1; reflexivity].
    + intros [|[c1 res1] l1] c res l2 E Hs; injection E as -> -> ->; [apply H1; reflexivity|].
      eapply H2; eauto.
    + intros ->. constructor; [exact Ef | apply H1; reflexivity].
    + intros [|[c1 res1] l1] c res l2 E Hs; injection E as -> -> ->; [congruence|].
      eapply H2; eauto.
Qed.

Lemma absence_runs {A} (p : cmd A) Q t o :
  wp (monitor (kind_step rules default absence_act)) p Q false -> runs p t o ->
  forall l1 c res l2, replies t = l1 ++ (c, res) :: l2 -> sets (kind c) res = true ->
  Forall (fun cr => forbids (kind cr.1) = false) l2.
Proof.
  intros Hwp Hr. destruct (wp_sound _ _ _ _ _ _ Hwp Hr) as (s' & Ho & _).
  rewrite observe_monitor in Ho. apply (absence_observed _ _ _ Ho).
Qed.
End Absence.

(** *** Response *)
Section Response.
Context (opens closes : K -> process_result -> bool).

Definition response_act (k : K) (s : bool) (res : process_result) : option bool :=
  Some (if closes k res then false else if opens k res then true else s).

Lemma response_observed s l :
  observe_replies (kind_step rules default response_act) s l = Some false ->
  (s = true -> exists cr, cr ∈ l /\ closes (kind cr.1) cr.2 = true) /\
  forall l1 c res l2, l = l1 ++ (c, res) :: l2 ->
  opens (kind c) res = true -> closes (kind c) res = false ->
  exists cr, cr ∈ l2 /\ closes (kind cr.1) cr.2 = true.
Proof.
  revert s; induction l as [|[c0 res0] l IH]; intros s H.
  - split; [intros ->; discriminate|]. intros [] c res l2 E; discriminate.
  - simpl in H. apply IH in H as [H1 H2]. split.
    + intros ->. destruct (closes (kind c0) res0) eqn:Ec.
      * exists (c0, res0). split; [left | exact Ec].
      * destruct H1 as (cr & Hin & Hc); [destruct (opens _ _); reflexivity|].
        exists cr. split; [right; exact Hin | exact Hc].
    + intros [|[c1 res1] l1] c res l2 E Ho Hc; injection E as -> -> ->.
      * apply H1. rewrite Hc, Ho. reflexivity.
      * eapply H2; eauto.
Qed.

Lemma response_runs {A} (p : cmd A) t o :
  wp (monitor (kind_step rules default response_act)) p (fun _ s => s = false) false -> runs p t o ->
  forall l1 c res l2, replies t = l1 ++ (c, res) :: l2 ->
  opens (kind c) res = true -> closes (kind c) res = false ->
  exists cr, cr ∈ l2 /\ closes (kind cr.1) cr.2 = true.
Proof.
  intros Hwp Hr. destruct (wp_sound _ _ _ _ _ _ Hwp Hr) as (s' & Ho & ->).
  rewrite observe_monitor in Ho. apply (response_observed _ _ Ho).
Qed.
End Response.

(** *** The last command *)
Section Last.
Context (closes : K -> process_result -> bool).

Definition last_act (k : K) (s : bool) (res : process_result) : option bool := Some (closes k res).

Lemma last_observed s l :
  observe_replies (kind_step rules default last_act) s l = Some true ->
  (s = true /\ l = []) \/ exists l' c res, l = l' ++ [(c, res)] /\ closes (kind c) res = true.
Proof.
  revert s; induction l as [|[c0 res0] l IH]; intros s H; [left; injection H as ->; auto|].
  cbn [observe_replies] in H. unfold kind_step in H at 1. unfold last_act in H at 1.
  apply IH in H as [[Hs ->]|(l' & c & res & -> & Hc)]; right.
  - exists [], c0, res0. auto.
  - exists ((c0, res0) :: l'), c, res. auto.
Qed.

(** A program that only succeeds right after such a command. *)
Lemma last_runs {A} (p : cmd A) t a :
  wp (monitor (kind_step rules default last_act)) p (fun o s => is_ok o = true -> s = true) false ->
  runs p t (Ok a) ->
  exists l c res, replies t = l ++ [(c, res)] /\ closes (kind c) res = true.
Proof.
  intros Hwp Hr. destruct (wp_sound _ _ _ _ _ _ Hwp Hr) as (s' & Ho & Hs).
  rewrite observe_monitor, (Hs eq_refl) in Ho.
  apply last_observed in Ho as [[[=] _]|H]; exact H.
Qed.
End Last.
End Flags.

(** An answer that is not a success. *)
Definition failed (res : process_result) : bool :=
  match res with Completed 0 _ _ => false | _ => true end.
Definition succeeded (res : process_result) : bool := negb (failed res).

(** A part of a program that a monitor does not react to in its present state. *)
Lemma wp_stable {S A} (step : S -> string -> process_result -> option S) (p : cmd A) Q s :
  emits (on_command (fun c => forall res, step s c res = Some s)) p ->
  (forall o, Q o s) -> wp (monitor step) p Q s.
Proof.
  intros H HQ. induction p as [a|x|e k IH]; simpl in *; auto.
  intros r. destruct (H r) as [He Hk]. destruct e as [rq|n|l m]; simpl in *; auto.
  unfold on_command in He; simpl in He. rewrite He. auto.
Qed.

(** A part of a program whose commands are all of a kind the monitor does not
    react to, in any state. *)
Lemma wp_inert {K S A} (rules : list (string * K)) d (act : K -> S -> process_result -> option S)
    (p : cmd A) Q s :
  emits (on_command (fun c => classify_by rules d c = d)) p ->
  (forall res, act d s res = Some s) -> (forall o, Q o s) ->
  wp (monitor (kind_step rules d act)) p Q s.
Proof.
  intros H Hact HQ. apply wp_stable; [|exact HQ]. eapply emits_mono; [exact H|].
  intros ev. unfold on_command. destruct (event_command ev) as [c|]; [|auto].
  intros E res. unfold kind_step. rewrite E. apply Hact.
Qed.

(** Once the flag of a precedence monitor is up, nothing is forbidden. *)
Lemma precedence_raised {K} (rules : list (string * K)) d needs raises {A} (p : cmd A) Q :
  (forall o, Q o true) ->
  wp (monitor (kind_step rules d (precedence_act needs raises))) p Q true.
Proof.
  intros HQ. apply wp_stable; [|exact HQ].
  induction p as [a|x|e k IH]; simpl; auto. intros r. split; [|apply IH].
  unfold on_command. destruct (event_command _) as [c|]; [|exact I].
  intros res. unfold kind_step, precedence_act.
  destruct (needs (classify_by rules d c)); [reflexivity|].
  destruct (raises (classify_by rules d c) res); reflexivity.
Qed.

(** A response monitor forbids nothing. *)
Lemma response_free {K} (rules : list (string * K)) d opens closes {A} (p : cmd A) Q s :
  (forall o s', Q o s') ->
  wp (monitor (kind_step rules d (response_act opens closes))) p Q s.
Proof.
  intros HQ. revert s; induction p as [a|x|e k IH]; intros s; simpl; auto.
  intros r. destruct e; simpl; auto.
Qed.

(** [stable]: prove that a part of a program does not move the monitor, by the
    kinds of its commands. *)
Ltac split_texts :=
  repeat match goal with |- context [if ?b then _ else _] => destruct b end.
Ltac stable_side := intros ?res; split_texts; unfold kind_step; eval_kind;
  first [reflexivity | destruct res; reflexivity].
Ltac stable unf := apply wp_stable; [unf; safe_auto stable_side | ].

(** [inert]: the same for the kind the rules do not name. *)
Ltac inert_side := split_texts; eval_kind; reflexivity.
Ltac inert unf :=
  apply wp_inert; [unf; safe_auto inert_side | intros ?; reflexivity | ].

(** A part of a program that needs no flag never gets a precedence monitor stuck. *)
Lemma wp_needless {K A} (rules : list (string * K)) d needs raises (p : cmd A) Q s :
  emits (on_command (fun c => needs (classify_by rules d c) = false)) p ->
  (forall o s', Q o s') ->
  wp (monitor (kind_step rules d (precedence_act needs raises))) p Q s.
Proof.
  intros H HQ. revert s. induction p as [a|x|e k IH]; intros s; simpl in *; auto.
  intros r. destruct (H r) as [He Hk]. destruct e as [rq|n|l m]; simpl in *; auto.
  unfold on_command in He; simpl in He. unfold kind_step, precedence_act. rewrite He.
  destruct (raises _ r); auto.
Qed.

(** The kind of a command whose prefix depends on the configuration is one of
    the few that remain. *)
Ltac needless_side :=
  match goal with |- context [classify_by ?r ?d ?c] =>
    let k := eval vm_compute in (classify_by r d c) in change (classify_by r d c) with k end;
  repeat match goal with |- context [if ?b then _ else _] => destruct b end; reflexivity.
Ltac needless unf := apply wp_needless; [unf; safe_auto needless_side | ].

(** In a witness: the [n]-th command of a concrete trace. *)
Ltac nth_reply n := symmetry; apply (take_drop_middle _ n); vm_compute; reflexivity.
Ltac concrete := vm_compute; reflexivity.

(** Walk over the operations of a sequence that leave the monitor where it is;
    a failure anywhere must establish the postcondition by [auto]. *)
Ltac walk unf :=
  repeat (lazymatch goal with |- wp _ (bind _ _) _ _ => idtac end;
          apply wp_bind; stable unf; intros [?|?]; cbn [then_]; [|solve [auto]];
          cbv zeta).

(** Once the flag is up, the rest of the program is free. *)
Ltac raised := apply precedence_raised; intros [?|?]; cbn [then_]; auto.
Ltac is_raised := try (raised; try raised).
