(* ===== verification/Deeds.v ===== *)
(** * What a program has done when it returns

    An [achievement] is a set of exchanges with the machine: commands, with their
    input and their answer, in their order.  [achieves p D] is the functional
    correctness of a program of commands: whenever [p] returns, the commands it ran
    are one of the sequences of [D], with nothing left out and nothing added.  The
    combinators are those of regular expressions: one command, one after another,
    one or the other, for some value.  [Guards.v] is about the runs that fail as
    well. *)

From S2P Require Import Prelude PyStr Effects Command Base Patterns.

Create HintDb achieve.

(** ** Exchanges *)

Definition exchange : Type := string * option string * process_result.

Definition event_exchange (ev : cmd_event) : option exchange :=
  match ev with
  | Ev (OpRun rq) res => Some (command_text (rq_command rq), rq_input rq, res)
  | _ => None
  end.

Definition exchanges (t : list cmd_event) : list exchange := omap event_exchange t.

Lemma exchanges_app t1 t2 : exchanges (t1 ++ t2) = exchanges t1 ++ exchanges t2.
Proof. apply omap_app. Qed.

Lemma exchanges_commands t : map (fun x => x.1.1) (exchanges t) = commands t.
Proof.
  induction t as [|[[rq|n|l m] res] t IH]; [reflexivity | | exact IH | exact IH].
  cbn. f_equal. exact IH.
Qed.

Lemma exchanges_replies t : map (fun x => (x.1.1, x.2)) (exchanges t) = replies t.
Proof.
  induction t as [|[[rq|n|l m] res] t IH]; [reflexivity | | exact IH | exact IH].
  cbn. f_equal. exact IH.
Qed.

(** ** Achievements *)

Definition achievement : Type := list exchange -> Prop.

(** One command, that ended with an exit code and an output as described. *)
Definition executed (command : string) (input : option string) (answer : Z -> string -> Prop) : achievement :=
  fun l => exists code out err, l = [(command, input, Completed code out err)] /\ answer code out.

(** It succeeded (without input, with this input); it did not; it ended at all. *)
Definition ran (command : string) : achievement := executed command None (fun code _ => code = 0%Z).
Definition given (command data : string) : achievement := executed command (Some data) (fun code _ => code = 0%Z).
Definition wrote (path content : string) : achievement := given ("cat > " +:+ path) content.
Definition refused (command : string) : achievement := executed command None (fun code _ => code <> 0%Z).
Definition tried (command : string) : achievement := executed command None (fun _ _ => True).

(** No command, and a fact about the values the program computed. *)
Definition holds (P : Prop) : achievement := fun l => P /\ l = [].

Definition either (D1 D2 : achievement) : achievement := fun l => D1 l \/ D2 l.
Definition for_some {A} (D : A -> achievement) : achievement := fun l => exists a, D a l.

(** One after another. *)
Fixpoint in_order (Ds : list achievement) : achievement :=
  match Ds with
  | [] => fun l => l = []
  | D :: Ds' => fun l => exists l1 l2, l = l1 ++ l2 /\ D l1 /\ in_order Ds' l2
  end.

Definition nothing : achievement := in_order [].
Definition if_set (b : bool) (D : achievement) : achievement := if b then D else nothing.

(** The same for every element, in the order of the list. *)
Definition in_turn {A} (l : list A) (D : A -> achievement) : achievement := in_order (map D l).

(** What is done depends on a value, of which [R] tells how it was found. *)
Definition valued {A} (R : A -> achievement) (D : A -> achievement) : achievement :=
  for_some (fun a => in_order [R a; D a]).

(** What is done depends on whether a command succeeded, on what it printed. *)
Definition probe (command : string) (yes no : achievement) : achievement :=
  either (in_order [ran command; yes]) (in_order [refused command; no]).
Definition unless (command : string) (D : achievement) : achievement := probe command nothing D.
Definition provided (command : string) (D : achievement) : achievement := probe command D nothing.
Definition printed (command out : string) : achievement := executed command None (fun _ text => text = out).
Definition reading (command : string) (D : string -> achievement) : achievement := valued (printed command) D.
Definition output_of (command out : string) : achievement :=
  executed command None (fun code text => code = 0%Z /\ text = out).

(** ** Programs *)

(** Whenever [p] returns [a], it did [D a]. *)
Definition gives {A} (p : cmd A) (D : A -> achievement) : Prop :=
  forall t a, runs p t (Ok a) -> D a (exchanges t).
Definition achieves {A} (p : cmd A) (D : achievement) : Prop := gives p (fun _ => D).

Lemma gives_bind {A B} (p : cmd A) (f : A -> cmd B) D1 (D2 : A -> B -> achievement) D :
  gives p D1 -> (forall a, gives (f a) (D2 a)) ->
  (forall a b l1 l2, D1 a l1 -> D2 a b l2 -> D b (l1 ++ l2)) ->
  gives (bind p f) D.
Proof.
  intros Hp Hf HD t b Hr. apply runs_bind_ok in Hr as (a & t1 & t2 & -> & H1 & H2).
  rewrite exchanges_app. exact (HD _ _ _ _ (Hp _ _ H1) (Hf _ _ _ H2)).
Qed.

Lemma gives_weaken {A} (p : cmd A) (D1 D2 : A -> achievement) :
  gives p D1 -> (forall a l, D1 a l -> D2 a l) -> gives p D2.
Proof. intros Hp HD t a Hr. exact (HD _ _ (Hp _ _ Hr)). Qed.

Lemma achieves_weaken {A} (p : cmd A) (D1 D2 : achievement) :
  achieves p D1 -> (forall l, D1 l -> D2 l) -> achieves p D2.
Proof. intros Hp HD. apply (gives_weaken _ _ _ Hp). intros _. exact HD. Qed.

Lemma gives_ret {A} (a : A) : gives (Ret a) (fun b => holds (b = a)).
Proof. intros t b [-> [= ->]]. split; reflexivity. Qed.

Lemma achieves_ret {A} (a : A) : achieves (Ret a) (in_order []).
Proof. intros t b [-> _]. reflexivity. Qed.

Lemma achieves_raise {A} x D : achieves (Raise x : cmd A) D.
Proof. intros t a [_ [=]]. Qed.

Lemma gives_of_outcome {A} (o : outcome A) : gives (of_outcome o) (fun a => holds (o = Ok a)).
Proof. destruct o; intros t b Hr; [destruct Hr as [-> [= ->]]; split; reflexivity | destruct Hr as [_ [=]]]. Qed.

(** The first operation does the first thing. *)
Lemma achieves_seq {A B} (p : cmd A) (f : A -> cmd B) D Ds :
  achieves p D -> (forall a, achieves (f a) (in_order Ds)) -> achieves (bind p f) (in_order (D :: Ds)).
Proof.
  intros Hp Hf. apply (gives_bind _ _ (fun _ => D) (fun _ _ => in_order Ds)); [exact Hp | exact Hf|].
  intros a b l1 l2 H1 H2. exists l1, l2. auto.
Qed.

(** The first operation runs no command. *)
Lemma achieves_silent {A B} (p : cmd A) (f : A -> cmd B) Ds :
  achieves p nothing -> (forall a, achieves (f a) (in_order Ds)) -> achieves (bind p f) (in_order Ds).
Proof.
  intros Hp Hf. apply (gives_bind _ _ (fun _ => nothing) (fun _ _ => in_order Ds)); [exact Hp | exact Hf|].
  intros a b l1 l2 ->. auto.
Qed.

Lemma in_order_one D l : in_order [D] l <-> D l.
Proof.
  split; [intros (l1 & l2 & -> & H & ->); rewrite app_nil_r; exact H|].
  intros H. exists l, []. rewrite app_nil_r. exact (conj eq_refl (conj H eq_refl)).
Qed.

Lemma in_order_inv D l : in_order [D] l -> D l.
Proof. apply in_order_one. Qed.

Lemma achieves_one {A} (p : cmd A) D : achieves p D -> achieves p (in_order [D]).
Proof. intros H. eapply achieves_weaken; [exact H | intros l; apply in_order_one]. Qed.

Lemma achieves_alone {A} (p : cmd A) D : achieves p (in_order [D]) -> achieves p D.
Proof. intros H. eapply achieves_weaken; [exact H | intros l; apply in_order_one]. Qed.

Lemma in_order_app Ds1 Ds2 l : in_order (Ds1 ++ Ds2) l <-> in_order [in_order Ds1; in_order Ds2] l.
Proof.
  revert l. induction Ds1 as [|D Ds1 IH]; intros l.
  - split; [intros H; exists [], l; rewrite in_order_one; exact (conj eq_refl (conj eq_refl H))|].
    intros (l1 & l2 & -> & -> & H). apply in_order_one, H.
  - split.
    + intros (l1 & l2 & -> & Hd & H). apply IH in H as (u1 & u2 & -> & H1 & H2).
      exists (l1 ++ u1), u2. rewrite <- app_assoc. split; [reflexivity|]. split; [|exact H2].
      exists l1, u1. auto.
    + intros (l1 & l2 & -> & (u1 & u2 & -> & Hd & H1) & H2). exists u1, (u2 ++ l2).
      rewrite <- app_assoc. split; [reflexivity|]. split; [exact Hd|]. apply IH. exists u2, l2. auto.
Qed.

(** Things that are one item of the list, done by several operations. *)
Lemma achieves_flat {A} (p : cmd A) Ds1 Ds : achieves p (in_order (Ds1 ++ Ds)) -> achieves p (in_order (in_order Ds1 :: Ds)).
Proof.
  intros H. eapply achieves_weaken; [exact H|]. intros l Hl. apply in_order_app in Hl as (l1 & l2 & -> & H1 & H2).
  apply in_order_inv in H2. exists l1, l2. auto.
Qed.

Lemma achieves_nothing_first {A} (p : cmd A) Ds : achieves p (in_order Ds) -> achieves p (in_order (nothing :: Ds)).
Proof. exact (achieves_flat p [] Ds). Qed.

Lemma achieves_assoc {A B C} (p : cmd A) (f : A -> cmd B) (g : B -> cmd C) D :
  achieves (bind p (fun a => bind (f a) g)) D -> achieves (bind (bind p f) g) D.
Proof.
  intros H t c Hr. apply (H t c). apply runs_bind_ok in Hr as (b & t1 & t2 & -> & H1 & H2).
  apply runs_bind_ok in H1 as (a & t3 & t4 & -> & H3 & H4).
  apply runs_bind. left. exists a, t3, (t4 ++ t2). split; [symmetry; apply app_assoc|]. split; [exact H3|].
  apply runs_bind. left. eauto 6.
Qed.

(** *** Commands *)

Lemma achieves_log l m : achieves (log l m) nothing.
Proof. intros t u ([] & t' & -> & -> & _). reflexivity. Qed.
Lemma achieves_when_log b l m : achieves (when b (log l m)) nothing.
Proof. destruct b; [apply achieves_log | apply achieves_ret]. Qed.
Lemma achieves_sleep n : achieves (sleep n) nothing.
Proof. intros t u ([] & t' & -> & -> & _). reflexivity. Qed.

Lemma gives_run_with c raises input :
  gives (run_with c raises input) (fun r =>
    executed c input (fun code out => code = exit_code r /\ out = stdout r /\ (raises = true -> code = 0%Z))).
Proof.
  intros t r Hr. pose proof (runs_run_with_ok _ _ _ _ _ Hr) as [Hreply Hz].
  unfold run_with, system_run in Hr. runs_ok Hr. destruct Hr0 as ([] & t' & -> & -> & _).
  runs_ok Hr. destruct Hr0 as (res & t'' & -> & -> & [= ->]).
  destruct res as [e|code out err]; [destruct Hr as [_ [=]]|].
  runs_ok Hr. runs_ok Hr.
  assert (Hs : forall b m u l, runs (when b (log_debug m)) l (Ok u) -> exchanges l = [] /\ replies l = []).
  { intros [] m u l Hl; [destruct Hl as ([] & l' & -> & -> & _) | destruct Hl as [-> _]]; split; reflexivity. }
  apply Hs in Hr0 as [E0 R0]. apply Hs in Hr1 as [E1 R1].
  assert (t2 = []) as -> by (destruct (raises && _); destruct Hr as [-> _]; reflexivity).
  rewrite !exchanges_app, E0, E1. rewrite !replies_app, R0, R1 in Hreply.
  injection Hreply as -> -> ->. eexists _, _, _. split; [reflexivity | auto].
Qed.

Lemma gives_then_ret {A B} (p : cmd A) (g : A -> B) D :
  gives p D -> gives (let* a := p in Ret (g a)) (fun b l => exists a, b = g a /\ D a l).
Proof.
  intros Hp. apply (gives_bind _ _ D (fun a b => holds (b = g a))); [exact Hp | intros a; apply gives_ret|].
  intros a b l1 l2 H [-> ->]. rewrite app_nil_r. eauto.
Qed.

Lemma executed_weaken c input (P Q : Z -> string -> Prop) l :
  executed c input P l -> (forall code out, P code out -> Q code out) -> executed c input Q l.
Proof. intros (code & out & err & -> & H) HPQ. exists code, out, err. auto. Qed.

Lemma achieves_checked_command c input (D : achievement) :
  (forall l, executed c input (fun code _ => code = 0%Z) l -> D l) ->
  achieves (run_with c true input ;; Ret tt) D.
Proof.
  intros HD. eapply gives_weaken; [apply gives_then_ret, gives_run_with|].
  intros _ l (r & _ & H). apply HD. eapply executed_weaken; [exact H|]. intros code out (_ & _ & Hz). auto.
Qed.

Lemma achieves_run c : achieves (run c) (ran c).
Proof. apply achieves_checked_command. auto. Qed.
Lemma achieves_run_chroot c : achieves (run_chroot c) (ran (chroot_command c)).
Proof. apply achieves_run. Qed.
Lemma achieves_run_input c data : achieves (run_input c data) (given c data).
Proof. apply achieves_checked_command. auto. Qed.
Lemma achieves_run_chroot_input c data : achieves (run_chroot_input c data) (given (chroot_command c) data).
Proof. apply achieves_run_input. Qed.
Lemma achieves_write_file path content : achieves (write_file path content) (wrote path content).
Proof. apply achieves_run_input. Qed.

Lemma achieves_run_ignored c : achieves (run_ignored c) (tried c).
Proof.
  eapply gives_weaken; [apply gives_then_ret, gives_run_with|].
  intros _ l (r & _ & H). eapply executed_weaken; [exact H | auto].
Qed.
Lemma achieves_run_chroot_ignored c : achieves (run_chroot_ignored c) (tried (chroot_command c)).
Proof. apply achieves_run_ignored. Qed.

(** A probe succeeded or was refused. *)
Lemma gives_run_success c : gives (run_success c) (fun b => if b : bool then ran c else refused c).
Proof.
  eapply gives_weaken; [apply gives_then_ret, gives_run_with|].
  intros b l (r & -> & H). unfold success. destruct (exit_code r =? 0)%Z eqn:E.
  - apply Z.eqb_eq in E. eapply executed_weaken; [exact H|]. cbn. intros. intuition congruence.
  - apply Z.eqb_neq in E. eapply executed_weaken; [exact H|]. cbn. intros. intuition congruence.
Qed.

(** The output of a command. *)
Lemma gives_run_quiet_stdout c : gives (run_quiet_stdout c) (printed c).
Proof.
  eapply gives_weaken; [apply gives_then_ret, gives_run_with|].
  intros out l (r & -> & H). eapply executed_weaken; [exact H|]. cbn. tauto.
Qed.

Lemma gives_run_stdout c : gives (run_stdout c) (output_of c).
Proof.
  eapply gives_weaken; [apply gives_then_ret, gives_run_with|].
  intros out l (r & -> & H). eapply executed_weaken; [exact H|]. cbn. intros; intuition auto.
Qed.

Lemma achieves_run_success_tried c : achieves (run_success c) (tried c).
Proof.
  eapply gives_weaken; [apply gives_run_success|]. intros [] l H; (eapply executed_weaken; [exact H | auto]).
Qed.
Lemma achieves_run_quiet_stdout_tried c : achieves (run_quiet_stdout c) (tried c).
Proof.
  eapply gives_weaken; [apply gives_run_quiet_stdout|]. intros out l H. eapply executed_weaken; [exact H | auto].
Qed.
Lemma achieves_run_stdout c : achieves (run_stdout c) (ran c).
Proof.
  eapply gives_weaken; [apply gives_run_stdout|]. intros out l H. eapply executed_weaken; [exact H | cbn; tauto].
Qed.

(** The whole answer of a quiet command. *)
Definition answered (command : string) (input : option string) (r : CommandExecutionResult) : achievement :=
  executed command input (fun code out => code = exit_code r /\ out = stdout r).

Lemma gives_run_quiet c : gives (run_quiet c) (answered c None).
Proof. eapply gives_weaken; [apply gives_run_with|]. intros r l H. eapply executed_weaken; [exact H|]. cbn. tauto. Qed.

Lemma gives_run_input_quiet c data : gives (run_input_quiet c data) (answered c (Some data)).
Proof. eapply gives_weaken; [apply gives_run_with|]. intros r l H. eapply executed_weaken; [exact H|]. cbn. tauto. Qed.

Lemma achieves_run_quiet_tried c : achieves (run_quiet c) (tried c).
Proof. eapply gives_weaken; [apply gives_run_quiet|]. intros r l H. eapply executed_weaken; [exact H | auto]. Qed.

(** *** Values *)

Lemma achieves_value {A B} (p : cmd A) (f : A -> cmd B) (R D : A -> achievement) Ds :
  gives p R -> (forall a, achieves (f a) (in_order (D a :: Ds))) ->
  achieves (bind p f) (in_order (valued R D :: Ds)).
Proof.
  intros Hp Hf. apply (gives_bind _ _ R (fun a _ => in_order (D a :: Ds))); [exact Hp | exact Hf|].
  intros a b l1 l2 H1 (u1 & u2 & -> & H2 & H). exists (l1 ++ u1), u2. rewrite <- app_assoc.
  split; [reflexivity|]. split; [|exact H]. exists a, l1, u1. rewrite in_order_one. auto.
Qed.

Lemma achieves_for_some {A B} (p : cmd B) (D : A -> achievement) a : achieves p (D a) -> achieves p (for_some D).
Proof. intros H t b Hr. exists a. exact (H t b Hr). Qed.

(** The value is known. *)
Lemma achieves_known {A B} (p : cmd A) (f : A -> cmd B) v Ds :
  gives p (fun a => holds (a = v)) -> achieves (f v) (in_order Ds) -> achieves (bind p f) (in_order Ds).
Proof.
  intros Hp Hf. apply (gives_bind _ _ _ (fun a _ l => a = v -> in_order Ds l) _ Hp).
  - intros a t b Hr ->. exact (Hf _ _ Hr).
  - intros a b l1 l2 [-> ->] H. exact (H eq_refl).
Qed.

Lemma achieves_holds {A} (P : Prop) (p : cmd A) Ds :
  P -> achieves p (in_order Ds) -> achieves p (in_order (holds P :: Ds)).
Proof. intros HP H t a Hr. exists [], (exchanges t). split; [reflexivity|]. split; [exact (conj HP eq_refl) | exact (H t a Hr)]. Qed.

(** *** Control *)

Lemma achieves_when b (p : cmd unit) D : achieves p D -> achieves (when b p) (if_set b D).
Proof. destruct b; intros H; [exact H | apply achieves_ret]. Qed.

Lemma achieves_if {A} (b : bool) (p q : cmd A) D1 D2 :
  achieves p D1 -> achieves q D2 -> achieves (if b then p else q) (if b then D1 else D2).
Proof. destruct b; auto. Qed.

Lemma achieves_unless_raised {A} (b : bool) x (q : cmd A) D :
  (b = false -> achieves q D) -> achieves (if b then Raise x else q) D.
Proof. destruct b; [intros _; apply achieves_raise | auto]. Qed.

Lemma achieves_for_each {A} (f : A -> cmd unit) D l :
  (forall a, achieves (f a) (D a)) -> achieves (for_each f l) (in_turn l D).
Proof.
  intros H. induction l as [|a l IH]; [apply achieves_ret|].
  apply achieves_seq; [apply H | intros _; exact IH].
Qed.

Lemma gives_try_finally {A} (p : cmd A) q (R : A -> achievement) D :
  gives p R -> achieves q D -> gives (try_finally p q) (fun a => in_order [R a; D]).
Proof.
  intros Hp Hq. apply (gives_bind _ _ (fun o l => forall a, o = Ok a -> R a l)
    (fun o a l => o = Ok a /\ D l)).
  - intros t o Hr. apply runs_reify in Hr as (o' & [= ->] & Hr). intros a ->. exact (Hp _ _ Hr).
  - intros o t b Hr. runs_ok Hr. destruct o as [a'|x]; [|destruct Hr as [_ [=]]].
    destruct Hr as [-> [= ->]]. rewrite app_nil_r. split; [reflexivity | exact (Hq _ _ Hr0)].
  - intros o a l1 l2 H [Ho HD]. exists l1, l2. rewrite in_order_one. auto.
Qed.

Lemma achieves_try_finally {A} (p : cmd A) q D1 D2 :
  achieves p D1 -> achieves q D2 -> achieves (try_finally p q) (in_order [D1; D2]).
Proof. exact (gives_try_finally p q (fun _ => D1) D2). Qed.

(** A probe decides how to go on. *)
Lemma achieves_probe {B} c (f : bool -> cmd B) yes no Ds :
  achieves (f true) (in_order (yes :: Ds)) -> achieves (f false) (in_order (no :: Ds)) ->
  achieves (bind (run_success c) f) (in_order (probe c yes no :: Ds)).
Proof.
  intros Ht Hf. apply (gives_bind _ _ _ (fun b _ => if b : bool then in_order (yes :: Ds) else in_order (no :: Ds))
    _ (gives_run_success c)).
  - intros b. destruct b; [exact Ht | exact Hf].
  - intros [] b l1 l2 H1 (u1 & u2 & -> & H2 & H); exists (l1 ++ u1), u2; rewrite <- app_assoc;
      (split; [reflexivity|]); (split; [|exact H]); [left | right]; exists l1, u1; rewrite in_order_one; auto.
Qed.

(** A probe that must succeed. *)
Lemma achieves_required {B} c (f : bool -> cmd B) x Ds :
  f false = Raise x -> achieves (f true) (in_order Ds) -> achieves (bind (run_success c) f) (in_order (ran c :: Ds)).
Proof.
  intros Hf Ht t b Hr. apply runs_bind_ok in Hr as (ok & t1 & t2 & -> & H1%gives_run_success & H2).
  rewrite exchanges_app. destruct ok; [|rewrite Hf in H2; destruct H2 as [_ [=]]].
  exists (exchanges t1), (exchanges t2). split; [reflexivity|]. split; [exact H1 | exact (Ht _ _ H2)].
Qed.

Lemma achieves_reading {B} c (f : string -> cmd B) D Ds :
  (forall out, achieves (f out) (in_order (D out :: Ds))) ->
  achieves (bind (run_quiet_stdout c) f) (in_order (reading c D :: Ds)).
Proof. intros H. exact (achieves_value _ _ _ _ _ (gives_run_quiet_stdout c) H). Qed.

(** *** The same for a program that returns a value *)

Lemma gives_seq {A B} (p : cmd A) (f : A -> cmd B) D (R : B -> achievement) :
  achieves p D -> (forall a, gives (f a) R) -> gives (bind p f) (fun b => in_order [D; R b]).
Proof.
  intros Hp Hf. apply (gives_bind _ _ (fun _ => D) (fun _ => R)); [exact Hp | exact Hf|].
  intros a b l1 l2 H1 H2. exists l1, l2. rewrite in_order_one. auto.
Qed.

Lemma gives_silent {A B} (p : cmd A) (f : A -> cmd B) (R : B -> achievement) :
  achieves p nothing -> (forall a, gives (f a) R) -> gives (bind p f) R.
Proof.
  intros Hp Hf. apply (gives_bind _ _ (fun _ => nothing) (fun _ => R)); [exact Hp | exact Hf|].
  intros a b l1 l2 -> H. exact H.
Qed.

Lemma gives_value {A B} (p : cmd A) (f : A -> cmd B) (R : A -> achievement) (D : A -> B -> achievement) :
  gives p R -> (forall a, gives (f a) (D a)) -> gives (bind p f) (fun b => valued R (fun a => D a b)).
Proof.
  intros Hp Hf. apply (gives_bind _ _ R D); [exact Hp | exact Hf|].
  intros a b l1 l2 H1 H2. exists a, l1, l2. rewrite in_order_one. auto.
Qed.

Lemma gives_reading {B} c (f : string -> cmd B) (D : string -> B -> achievement) :
  (forall out, gives (f out) (D out)) ->
  gives (bind (run_quiet_stdout c) f) (fun b => reading c (fun out => D out b)).
Proof. exact (gives_value _ _ _ _ (gives_run_quiet_stdout c)). Qed.

Lemma gives_probe {B} c (f : bool -> cmd B) (yes no : B -> achievement) :
  gives (f true) yes -> gives (f false) no ->
  gives (bind (run_success c) f) (fun b => probe c (yes b) (no b)).
Proof.
  intros Ht Hf. apply (gives_bind _ _ _ (fun ok b => if ok : bool then yes b else no b) _ (gives_run_success c)).
  - intros []; assumption.
  - intros [] b l1 l2 H1 H2; [left | right]; exists l1, l2; rewrite in_order_one; auto.
Qed.

Lemma gives_if {A} (b : bool) (p q : cmd A) R1 R2 :
  gives p R1 -> gives q R2 -> gives (if b then p else q) (fun a => if b then R1 a else R2 a).
Proof. destruct b; auto. Qed.

Lemma gives_raise {A} x (R : A -> achievement) : gives (Raise x) R.
Proof. intros t a [_ [=]]. Qed.

Lemma gives_holds {A} (P : Prop) (p : cmd A) (R : A -> achievement) :
  P -> gives p R -> gives p (fun a => in_order [holds P; R a]).
Proof.
  intros HP H t a Hr. exists [], (exchanges t). rewrite in_order_one. split; [reflexivity|].
  split; [exact (conj HP eq_refl) | exact (H t a Hr)].
Qed.

Lemma gives_value_of {A} (a b : A) (P : Prop) : P -> a = b -> gives (Ret a) (fun c => holds (c = b /\ P)).
Proof. intros HP -> t c [-> [= ->]]. split; auto. Qed.

(** *** Lists of probes *)

(** The elements whose probe succeeded. *)
Fixpoint sifted {A} (c : A -> string) (l kept : list A) : achievement :=
  match l with
  | [] => holds (kept = [])
  | a :: l' => probe (c a)
      (for_some (fun kept' => in_order [holds (kept = a :: kept'); sifted c l' kept']))
      (sifted c l' kept)
  end.

Lemma gives_filter_each {A} (c : A -> string) l :
  gives (filter_each (fun a => run_success (c a)) l) (sifted c l).
Proof.
  induction l as [|a l IH]; [apply gives_ret|]. cbn [filter_each].
  apply (gives_bind _ _ _ (fun keep kept l' => exists rest, kept = (if keep : bool then a :: rest else rest) /\ sifted c l rest l')
    _ (gives_run_success (c a))).
  - intros keep. apply (gives_then_ret _ (fun rest => if keep then a :: rest else rest)) in IH. exact IH.
  - intros [] kept l1 l2 H1 (rest & -> & H2); [left | right]; exists l1, l2; rewrite in_order_one;
      (split; [reflexivity|]); (split; [exact H1|]); [|exact H2].
    exists rest, [], l2. rewrite in_order_one. split; [reflexivity|]. split; [split; reflexivity | exact H2].
Qed.

(** What the probes of a sifting answered. *)
Lemma sifted_spec {A} (c : A -> string) l kept xs :
  sifted c l kept xs ->
  kept `sublist_of` l /\
  (forall a, a ∈ kept -> exists out err, (c a, None, Completed 0 out err) ∈ xs) /\
  (forall a, a ∈ l -> a ∉ kept -> exists code out err, (c a, None, Completed code out err) ∈ xs /\ code <> 0%Z).
Proof.
  revert kept xs. induction l as [|a l IH]; intros kept xs H.
  - destruct H as [-> ->]. split; [constructor|]. split; intros a Ha; inversion Ha.
  - destruct H as [(l1 & l2 & -> & (code & out & err & -> & ->) & H)|(l1 & l2 & -> & (code & out & err & -> & Hc) & H)];
      apply in_order_inv in H.
    + destruct H as (rest & u1 & u2 & -> & [-> ->] & H). apply in_order_inv, IH in H as (Hs & Hr & Hf).
      split; [constructor; exact Hs|]. split.
      * intros b [->|Hb]%elem_of_cons; [exists out, err; left|].
        destruct (Hr b Hb) as (o & e & Hin). exists o, e. right. exact Hin.
      * intros b [->|Hb]%elem_of_cons Hn; [destruct Hn; left|].
        destruct (Hf b Hb) as (k & o & e & Hin & Hk); [intros Hb'; apply Hn; right; exact Hb'|].
        exists k, o, e. split; [right; exact Hin | exact Hk].
    + apply IH in H as (Hs & Hr & Hf). split; [constructor; exact Hs|]. split.
      * intros b Hb. destruct (Hr b Hb) as (o & e & Hin). exists o, e. right. exact Hin.
      * intros b [->|Hb]%elem_of_cons Hn; [exists code, out, err; split; [left | exact Hc]|].
        destruct (Hf b Hb Hn) as (k & o & e & Hin & Hk). exists k, o, e. split; [right; exact Hin | exact Hk].
Qed.

(** The first element whose probe succeeds, if there is one. *)
Fixpoint searched {A} (c : A -> string) (l : list A) (found : option A) : achievement :=
  match l with
  | [] => holds (found = None)
  | a :: l' => probe (c a) (holds (found = Some a)) (searched c l' found)
  end.

Lemma gives_find_each {A} (c : A -> string) l :
  gives (find_each (fun a => run_success (c a)) l) (searched c l).
Proof.
  induction l as [|a l IH]; [apply gives_ret|]. cbn [find_each].
  apply (gives_bind _ _ _ (fun b found => if b : bool then holds (found = Some a) else searched c l found)
    _ (gives_run_success (c a))).
  - intros []; [apply gives_ret | exact IH].
  - intros [] found l1 l2 H1 H2; [left | right]; exists l1, l2; rewrite in_order_one; auto.
Qed.

(** A value for every element. *)
Fixpoint mapped {A B} (R : A -> B -> achievement) (l : list A) (bs : list B) : achievement :=
  match l with
  | [] => holds (bs = [])
  | a :: l' => for_some (fun b => for_some (fun bs' =>
      in_order [holds (bs = b :: bs'); R a b; mapped R l' bs']))
  end.

Lemma gives_map_each {A B} (f : A -> cmd B) R l :
  (forall a, gives (f a) (R a)) -> gives (map_each f l) (mapped R l).
Proof.
  intros Hf. induction l as [|a l IH]; [apply gives_ret|]. cbn [map_each].
  apply (gives_bind _ _ _ (fun b bs l' => exists rest, bs = b :: rest /\ mapped R l rest l') _ (Hf a)).
  - intros b. exact (gives_then_ret _ (cons b) _ IH).
  - intros b bs l1 l2 H1 (rest & -> & H2). exists b, rest, [], (l1 ++ l2).
    split; [reflexivity|]. split; [split; reflexivity|]. exists l1, l2. rewrite in_order_one. auto.
Qed.

Lemma gives_detect_luks_uuid device :
  gives (detect_luks_uuid device) (fun uuid => for_some (fun r => in_order [
    answered ("cryptsetup luksUUID " +:+ device) None r;
    holds (uuid = if success r then strip (stdout r) else "")])).
Proof.
  apply (gives_bind _ _ _ (fun r uuid => holds (uuid = if success r then strip (stdout r) else "")) _ (gives_run_quiet _)).
  { intros r. apply gives_ret. }
  intros r uuid l1 l2 H Hu. exists r, l1, l2. rewrite in_order_one. auto.
Qed.

Lemma gives_partition_uuid partition :
  gives (partition_uuid partition) (fun uuid => for_some (fun out => in_order [
    printed ("blkid -s PARTUUID -o value " +:+ partition) out; holds (uuid = strip out /\ uuid <> "")])).
Proof.
  apply (gives_bind _ _ _ (fun out uuid => holds (uuid = strip out /\ uuid <> "")) _ (gives_run_quiet_stdout _)).
  - intros out. cbv zeta beta.
    destruct (truthy (strip out)) eqn:E; intros t uuid Hr; [|destruct Hr as [_ [=]]].
    destruct Hr as [-> [= ->]]. split; [|reflexivity]. split; [reflexivity|]. intros Hn. rewrite Hn in E. discriminate.
  - intros out uuid l1 l2 H Hu. exists out, l1, l2. rewrite in_order_one. auto.
Qed.

#[export] Hint Resolve achieves_run achieves_run_chroot achieves_run_input achieves_run_chroot_input
  achieves_run_quiet_tried achieves_run_success_tried achieves_run_quiet_stdout_tried achieves_run_stdout
  achieves_write_file achieves_run_ignored achieves_run_chroot_ignored achieves_raise : achieve.
#[export] Hint Resolve gives_run_quiet_stdout gives_run_stdout gives_run_quiet gives_run_input_quiet
  gives_of_outcome gives_partition_uuid gives_detect_luks_uuid : achieve.

(** The same command, spelled with other constants. *)
#[export] Hint Extern 3 (achieves (run _) (ran ?c)) => exact (achieves_run c) : achieve.
#[export] Hint Extern 3 (achieves (run_chroot ?a) (ran ?c)) => exact (achieves_run c) : achieve.
#[export] Hint Extern 3 (achieves (run_ignored _) (tried ?c)) => exact (achieves_run_ignored c) : achieve.
#[export] Hint Extern 3 (achieves (write_file _ _) (wrote ?p ?c)) => exact (achieves_write_file p c) : achieve.
#[export] Hint Extern 3 (gives (run_stdout _) (output_of ?c)) => exact (gives_run_stdout c) : achieve.

(** Walk a program and what it does together. Only logs and sleeps are passed over:
    every command must be there. *)
Ltac achieve_branch := cbn [negb when]; cbv beta iota.
Ltac achieve_step :=
  lazymatch goal with
  | |- forall _, _ => intros ?
  | |- achieves (Raise _) _ => apply achieves_raise
  | |- achieves (Ret _) (in_order []) => apply achieves_ret
  | |- achieves (Ret _) nothing => apply achieves_ret
  | |- achieves (try_finally _ _) (in_order [_; _]) => simple apply achieves_try_finally
  | |- achieves _ (in_order (nothing :: _)) => simple apply achieves_nothing_first
  | |- achieves (bind (try_finally _ _) _) (in_order (in_order [_; _] :: _)) =>
      simple apply achieves_seq; [simple apply achieves_try_finally; [achieve_leaf | achieve_leaf] |]
  | |- achieves _ (in_order (in_order _ :: _)) =>
      first [simple apply achieves_seq; [solve [eauto 2 with achieve nocore] |]
            | simple apply achieves_flat; cbn [app]]
  | |- achieves (if negb ?b then _ else _) _ => destruct b eqn:?; achieve_branch
  | |- achieves (bind (if negb ?b then _ else _) _) (in_order ((if ?b then _ else _) :: _)) =>
      destruct b eqn:?; achieve_branch
  | |- achieves (bind (when (negb ?b) _) _) (in_order ((if ?b then _ else _) :: _)) => destruct b eqn:?; achieve_branch
  | |- achieves (if ?b then _ else _) (in_order (holds _ :: _)) => destruct b eqn:?
  | |- achieves (bind (if ?b then _ else _) _) (in_order (holds _ :: _)) => destruct b eqn:?
  | |- achieves (bind (if ?b then _ else _) _) (in_order []) => destruct b eqn:?
  | |- achieves (bind (Raise _) _) _ => apply achieves_raise
  | |- achieves _ (in_order (holds _ :: _)) => simple apply achieves_holds; [try congruence |]
  | |- achieves (if _ then Raise _ else _) _ => simple apply achieves_unless_raised; intros ?
  | |- achieves (bind (bind _ _) _) _ => simple apply achieves_assoc
  | |- achieves (bind (Ret ?a) ?f) ?D => change (achieves (f a) D); cbv beta; achieve_branch
  | |- achieves (bind (log _ _) _) (in_order _) => simple apply achieves_silent; [apply achieves_log |]
  | |- achieves (bind (log_info _) _) (in_order _) => simple apply achieves_silent; [apply achieves_log |]
  | |- achieves (bind (log_warning _) _) (in_order _) => simple apply achieves_silent; [apply achieves_log |]
  | |- achieves (bind (when _ (log_info _)) _) (in_order _) =>
      simple apply achieves_silent; [apply achieves_when_log |]
  | |- achieves (bind (when _ (log_warning _)) _) (in_order _) =>
      simple apply achieves_silent; [apply achieves_when_log |]
  | |- achieves (bind (sleep _) _) (in_order _) => simple apply achieves_silent; [apply achieves_sleep |]
  | |- achieves (bind (run_success _) _) (in_order (probe _ _ _ :: _)) => simple apply achieves_probe; achieve_branch
  | |- achieves (bind (run_success _) _) (in_order (unless _ _ :: _)) => unfold unless at 1
  | |- achieves (bind (run_success _) _) (in_order (provided _ _ :: _)) => unfold provided at 1
  | |- achieves (bind (run_quiet_stdout _) _) (in_order (reading _ _ :: _)) =>
      simple apply achieves_reading; intros ?; cbv beta
  | |- achieves (bind (if ?b then _ else _) _) (in_order ((if ?b then _ else _) :: _)) => destruct b eqn:?
  | |- achieves (if ?b then _ else _) (in_order [if ?b then _ else _]) => destruct b eqn:?
  | |- achieves (bind _ _) (in_order (valued _ _ :: _)) =>
      simple apply achieves_value; [solve [eauto 2 with achieve nocore] |]; intros ?; cbv beta
  | |- achieves (bind _ _) (in_order (_ :: _)) => simple apply achieves_seq; [achieve_leaf |]
  | |- achieves (for_each _ _) (in_turn _ _) => simple apply achieves_for_each
  | |- achieves (sleep _) _ => apply achieves_sleep
  | |- achieves (log _ _) _ => apply achieves_log
  | |- achieves (log_info _) _ => apply achieves_log
  | |- achieves (log_warning _) _ => apply achieves_log
  | |- achieves (when _ (log_info _)) _ => apply achieves_when_log
  | |- achieves (when _ (log_warning _)) _ => apply achieves_when_log
  | |- achieves (bind _ _) nothing => unfold nothing
  | |- achieves (when _ _) (in_order [if_set _ _]) => simple apply achieves_one, achieves_when
  | |- achieves (for_each _ _) (in_order [_]) => simple apply achieves_one
  | |- achieves _ (in_order [_]) => first [simple apply achieves_one; solve [eauto 2 with achieve nocore] | fail]
  | |- achieves (bind _ _) (in_order _) => fail
  | |- achieves (bind _ _) _ => simple apply achieves_alone
  | |- achieves (when _ _) (if_set _ _) => simple apply achieves_when
  | |- achieves (if ?b then _ else _) (if ?b then _ else _) => simple apply achieves_if
  | |- achieves (if ?b then _ else _) _ => destruct b eqn:?
  | |- achieves _ _ => solve [eauto 2 with achieve nocore]
  end
with achieve_leaf :=
  first [solve [eauto 2 with achieve nocore] | solve [repeat achieve_step]].
Ltac achieve :=
  unfold is_mountpoint, path_exists, file_exists, directory_exists, chroot_success, run_chroot_quiet; cbv zeta;
  repeat achieve_step.
