(* ===== verification/Guards.v ===== *)
(** * What must have been seen before a command runs

    A [guard] says, for every command line, what the exchanges before it must hold.
    [guarded G p]: on every run of [p], also one that fails, every command finds
    what its guard asks for among the exchanges before it.  Unlike the monitors of
    [Patterns.v] a guard names the whole command and its answer, so that a probe of
    the wrong device does not count. *)

From S2P Require Import Prelude PyStr Effects Command Base Patterns Deeds.

Create HintDb guard.

Definition guard : Type := string -> list exchange -> Prop.

Definition guarded {A} (G : guard) (p : cmd A) : Prop :=
  forall t o, runs p t o -> forall l1 x l2, exchanges t = l1 ++ x :: l2 -> G x.1.1 l1.

(** The guard for what comes after these exchanges. *)
Definition after (l : list exchange) (G : guard) : guard := fun c l' => G c (l ++ l').

(** What was seen stays seen. *)
Class Lasting (G : guard) : Prop := lasting c l l' : l ⊆ l' -> G c l -> G c l'.

#[export] Instance after_lasting l G : Lasting G -> Lasting (after l G).
Proof. intros HG c l1 l2 Hl. apply HG. intros z [Hz|Hz]%elem_of_app; apply elem_of_app; auto. Qed.

(** ** What was answered *)

Definition was_refused (command : string) (input : option string) (l : list exchange) : Prop :=
  exists code out err, (command, input, Completed code out err) ∈ l /\ code <> 0%Z.
Definition was_answered (command : string) (l : list exchange) (answer : Z -> string -> Prop) : Prop :=
  exists code out err, (command, None, Completed code out err) ∈ l /\ answer code out.
Definition succeeded_with (command : string) (input : option string) (l : list exchange) : Prop :=
  exists out err, (command, input, Completed 0 out err) ∈ l.

Lemma was_refused_mono c input l l' : l ⊆ l' -> was_refused c input l -> was_refused c input l'.
Proof. intros Hl (code & out & err & H & Hc). exists code, out, err. auto. Qed.
Lemma was_answered_mono c l l' answer : l ⊆ l' -> was_answered c l answer -> was_answered c l' answer.
Proof. intros Hl (code & out & err & H & Hc). exists code, out, err. auto. Qed.
Lemma succeeded_with_mono c input l l' : l ⊆ l' -> succeeded_with c input l -> succeeded_with c input l'.
Proof. intros Hl (out & err & H). exists out, err. auto. Qed.
#[export] Hint Resolve was_refused_mono was_answered_mono succeeded_with_mono : guard.

(** An achievement of one command, read as a fact about the exchanges. *)
Lemma executed_elem c input answer l :
  executed c input answer l -> exists code out err, (c, input, Completed code out err) ∈ l /\ answer code out.
Proof. intros (code & out & err & -> & H). exists code, out, err. split; [left | exact H]. Qed.

Lemma refused_was_refused c l : refused c l -> was_refused c None l.
Proof. apply executed_elem. Qed.
Lemma ran_succeeded c l : ran c l -> succeeded_with c None l.
Proof. intros (code & out & err & -> & ->). exists out, err. left. Qed.
Lemma given_succeeded c data l : given c data l -> succeeded_with c (Some data) l.
Proof. intros (code & out & err & -> & ->). exists out, err. left. Qed.
#[export] Hint Resolve refused_was_refused ran_succeeded given_succeeded : guard.

(** The parts of a sequence. *)
Lemma in_order_part Ds D l : in_order Ds l -> D ∈ Ds -> exists l', l' ⊆ l /\ D l'.
Proof.
  revert l. induction Ds as [|D' Ds IH]; intros l H Hin; [inversion Hin|].
  destruct H as (l1 & l2 & -> & H1 & H2). apply elem_of_cons in Hin as [->|Hin].
  - exists l1. split; [intros x Hx; apply elem_of_app; auto | exact H1].
  - destruct (IH _ H2 Hin) as (l' & Hl & HD). exists l'. split; [|exact HD]. intros x Hx. apply elem_of_app. auto.
Qed.

Lemma in_turn_part {A} (D : A -> achievement) xs a l : in_turn xs D l -> a ∈ xs -> exists l', l' ⊆ l /\ D a l'.
Proof. intros H Ha. exact (in_order_part _ _ _ H (list_elem_of_fmap_2 D _ _ Ha)). Qed.

(** ** Rules *)

Lemma exchange_command t l1 x l2 : exchanges t = l1 ++ x :: l2 -> x.1.1 ∈ commands t.
Proof.
  intros E. rewrite <- exchanges_commands, E. apply list_elem_of_fmap. exists x.
  split; [reflexivity|]. apply elem_of_app. right. left.
Qed.

(** Commands that need nothing more. *)
Lemma guarded_emits {A} G `{HG : Lasting G} (p : cmd A) :
  emits (on_command (fun c => G c [])) p -> guarded G p.
Proof.
  intros H t o Hr l1 x l2 E. apply (HG _ []); [intros z Hz; inversion Hz|].
  pose proof (proj1 (Forall_on_command _ _) (emits_sound _ _ _ _ H Hr)) as Hf.
  rewrite Forall_forall in Hf. apply Hf. exact (exchange_command _ _ _ _ E).
Qed.

Lemma guarded_free {A} (G : guard) (p : cmd A) : (forall c l, G c l) -> guarded G p.
Proof. intros H t o _ l1 x l2 _. apply H. Qed.

Lemma guarded_ret {A} G (a : A) : guarded G (Ret a).
Proof. intros t o [-> _] l1 x l2 E. destruct l1; discriminate. Qed.

Lemma guarded_raise {A} G x : guarded G (Raise x : cmd A).
Proof. intros t o [-> _] l1 y l2 E. destruct l1; discriminate. Qed.

Lemma guarded_after {A} G l (p : cmd A) : Lasting G -> guarded G p -> guarded (after l G) p.
Proof.
  intros HG H t o Hr l1 x l2 E. eapply HG; [|exact (H t o Hr l1 x l2 E)].
  intros z Hz. apply elem_of_app. auto.
Qed.

Lemma guarded_bind {A B} G (p : cmd A) (f : A -> cmd B) R :
  guarded G p -> gives p R -> (forall a l, R a l -> guarded (after l G) (f a)) -> guarded G (bind p f).
Proof.
  intros Hp HR Hf t o Hr l1 x l2 E.
  apply runs_bind in Hr as [(a & t1 & t2 & -> & H1 & H2)|(y & -> & H1)]; [|exact (Hp _ _ H1 _ _ _ E)].
  rewrite exchanges_app in E. apply app_eq_inv in E as [(k & E1 & E2)|(k & E1 & E2)].
  - destruct k as [|z k].
    + rewrite app_nil_r in E1. rewrite <- E1. rewrite <- (app_nil_r (exchanges t1)).
      exact (Hf a _ (HR _ _ H1) _ _ H2 [] x l2 (eq_sym E2)).
    + injection E2 as <- _. exact (Hp _ _ H1 _ _ _ E1).
  - rewrite E1. exact (Hf a _ (HR _ _ H1) _ _ H2 k x l2 E2).
Qed.

Lemma gives_anything {A} (p : cmd A) : gives p (fun _ _ => True).
Proof. intros t a _. exact I. Qed.

Lemma guarded_seq {A B} G `{HG : Lasting G} (p : cmd A) (f : A -> cmd B) :
  guarded G p -> (forall a, guarded G (f a)) -> guarded G (bind p f).
Proof.
  intros Hp Hf. apply (guarded_bind _ _ _ _ Hp (gives_anything p)). intros a l _. apply guarded_after; auto.
Qed.

Lemma guarded_quiet {A B} G `{HG : Lasting G} (p : cmd A) (f : A -> cmd B) :
  emits (on_command (fun c => G c [])) p -> (forall a, guarded G (f a)) -> guarded G (bind p f).
Proof. intros Hp. apply guarded_seq; [exact HG|]. exact (guarded_emits G p Hp). Qed.

(** A quiet program whose result says what it saw. *)
Lemma guarded_learn {A B} G `{HG : Lasting G} (p : cmd A) (f : A -> cmd B) R :
  emits (on_command (fun c => G c [])) p -> gives p R ->
  (forall a l, R a l -> guarded (after l G) (f a)) -> guarded G (bind p f).
Proof. intros Hp. apply guarded_bind. exact (guarded_emits G p Hp). Qed.

Lemma guarded_probe {B} G `{HG : Lasting G} c (f : bool -> cmd B) :
  G c [] -> (forall l, ran c l -> guarded (after l G) (f true)) ->
  (forall l, refused c l -> guarded (after l G) (f false)) -> guarded G (bind (run_success c) f).
Proof.
  intros Hc Ht Hf. apply (guarded_learn _ _ _ _ (safe_run_success (fun c => G c []) c Hc) (gives_run_success c)). intros []; auto.
Qed.

Lemma guarded_reify {A} G (p : cmd A) : guarded G p -> guarded G (reify p).
Proof. intros H t o Hr. apply runs_reify in Hr as (o' & _ & Hr). exact (H _ _ Hr). Qed.

Lemma guarded_try_finally {A} G `{HG : Lasting G} (p : cmd A) q :
  guarded G p -> guarded G q -> guarded G (try_finally p q).
Proof.
  intros Hp Hq. apply guarded_seq; [exact HG | apply guarded_reify, Hp|]. intros o.
  apply guarded_seq; [exact HG | exact Hq|]. intros _. destruct o; [apply guarded_ret | apply guarded_raise].
Qed.

Lemma guarded_when G b (p : cmd unit) : guarded G p -> guarded G (when b p).
Proof. destruct b; [auto | intros _; apply guarded_ret]. Qed.

Lemma guarded_for_each {A} G `{HG : Lasting G} (f : A -> cmd unit) l :
  (forall a, a ∈ l -> guarded G (f a)) -> guarded G (for_each f l).
Proof.
  induction l as [|a l IH]; intros H; [apply guarded_ret|]. cbn [for_each].
  apply guarded_seq; [exact HG | apply H; left|]. intros _. apply IH. intros b Hb. apply H. right. exact Hb.
Qed.

(** The command is none of those the guard is about, whatever the configuration. *)
Ltac exempt := idtac; let H := fresh in intros H; exfalso; vm_compute in H; discriminate H.

(** Is a command one of these texts, spelled with other constants? *)
Ltac one_of := idtac; solve [repeat first [apply list_elem_of_here | apply list_elem_of_further]].
