(* ===== verification/Storage.v ===== *)
(** * The storage step ([executors/storage.py])

    Disk wipe, partitions, LUKS, BTRFS subvolumes, EFI partition and swapfile. *)

From S2P Require Import Prelude PyStr Effects Command PyVal Models Base.

Section StorageStepExecutor.
Context (config : InstallerConfig).

Definition disk : string := storage_target_disk (cfg_storage config).
Definition usb_boot : bool := usb_boot_enabled (cfg_usb_boot config).

Definition effective_wipe_method : WipeMethod :=
  if negb (migration_enabled (cfg_migration config)) then storage_wipe_method (cfg_storage config)
  else if usb_boot then WIPE_SECURE else WIPE_QUICK.

Definition cleanup_stale_mounts : cmd unit :=
  run_ignored ("umount -R " +:+ TARGET_ROOT) ;;
  run_ignored "swapoff -a" ;;
  run_ignored ("cryptsetup close " +:+ CRYPTROOT_MAPPER_NAME) ;;
  run_ignored "cryptsetup close container" ;;
  run_ignored "dmsetup remove_all".

Definition partitions_exist : cmd bool :=
  all_each (fun partition => run_success ("lsblk " +:+ partition))
    [efi_partition config; encrypted_device config].

Definition detached_header_option : string :=
  if negb usb_boot then ""
  else "--header " +:+ luks_header_partition (cfg_usb_boot config) +:+ " ".

Definition data_offset_option : string :=
  if negb usb_boot then "" else detached_header_option +:+ "--offset 0 ".

Definition luks_is_usable : cmd bool :=
  let* is_luks := run_success ("cryptsetup isLuks " +:+ luks_header_device config) in
  if negb is_luks then
    log_info ("No valid LUKS header on " +:+ luks_header_device config) ;; Ret false
  else
    let* r := run_input_quiet
      ("cryptsetup open --test-passphrase " +:+ detached_header_option +:+ encrypted_device config)
      (luks_password (cfg_credentials config)) in
    let unlocks := success r in
    when (negb unlocks) (log_info "LUKS password doesn't match, the volume needs re-creation") ;;
    Ret unlocks.

Definition wipe_disk (method : WipeMethod) : cmd unit :=
  log_info ("Wiping " +:+ disk +:+ " using method: " +:+ enum_value method +:+ "...") ;;
  run_ignored ("wipefs -af " +:+ disk) ;;
  run_ignored ("sgdisk -Z " +:+ disk) ;;
  run_ignored ("wipefs -af " +:+ disk) ;;
  match method with
  | WIPE_SECURE =>
      log_info "Filling disk with random data (this will take some time)..." ;;
      let* shredded := run_success ("shred -v -n 1 " +:+ disk) in
      (when (negb shredded)
         (log_info "shred failed, falling back to dd..." ;;
          run_ignored ("dd bs=4M if=/dev/urandom of=" +:+ disk +:+ " conv=fsync status=progress")) ;;
       run "sync" ;;
       run_ignored ("blockdev --flushbufs " +:+ disk) ;;
       sleep 2)
  | WIPE_DISCARD =>
      log_info "Discarding blocks (blkdiscard)..." ;;
      run_ignored ("blkdiscard -f " +:+ disk)
  | _ => Ret tt
  end ;;
  run_ignored ("blockdev --rereadpt " +:+ disk) ;;
  run_ignored "udevadm settle" ;;
  run_ignored ("partprobe " +:+ disk) ;;
  sleep 2.

(** [size in ("", "0")] *)
Definition no_size (size : string) : bool := String.eqb size "" || String.eqb size "0".

Definition prepare_loop_device (device : string) : cmd unit :=
  let* out := run_quiet_stdout ("blockdev --getsize64 " +:+ device) in
  let* size :=
    if no_size (strip out) then
      run_ignored ("losetup -c " +:+ device) ;;
      let* out' := run_quiet_stdout ("blockdev --getsize64 " +:+ device) in
      if no_size (strip out')
      then Raise (RuntimeError ("Loop device " +:+ device +:+ " has 0 size. Cannot partition."))
      else Ret (strip out')
    else Ret (strip out) in
  log_info ("Loop device size: " +:+ size +:+ " bytes").

(** One line of [lsblk -r -n -o NAME,MAJ:MIN,TYPE]: the node of a partition is
    made unless it exists.  [major, minor = major_minor.split(":")] raises a
    [ValueError] unless there are exactly two parts. *)
Definition create_partition_node (line : string) : cmd unit :=
  match split line with
  | name :: major_minor :: kind :: _ =>
      if String.eqb kind "part" then
        let device_node := "/dev/" +:+ name in
        let* exists_ := path_exists device_node in
        if exists_ then Ret tt
        else
          match split_on ":" major_minor with
          | [major; minor] =>
              log_info ("Creating device node " +:+ device_node +:+ " (" +:+ major_minor +:+ ")") ;;
              run ("mknod " +:+ device_node +:+ " b " +:+ major +:+ " " +:+ minor)
          | _ => Raise (ValueError "wrong number of values to unpack (expected 2)")
          end
      else Ret tt
  | _ => Ret tt
  end.

Definition create_loop_partition_nodes (device : string) : cmd unit :=
  let* listing := run_stdout ("lsblk -r -n -o NAME,MAJ:MIN,TYPE " +:+ device) in
  for_each create_partition_node (split_on nl (strip listing)).

(** [for _ in range(rounds)]: wait for a partition, at most that many rounds. *)
Fixpoint wait_rounds (rounds : nat) (device partition : string) (give_up_ : exn) : cmd unit :=
  match rounds with
  | O => Raise give_up_
  | S rounds' =>
      let* appeared := path_exists partition in
      if appeared then Ret tt
      else
        sleep 1 ;;
        run_ignored ("partprobe " +:+ device) ;;
        wait_rounds rounds' device partition give_up_
  end.

Definition wait_for_partitions : cmd unit :=
  wait_rounds 20 disk (encrypted_device config)
    (RuntimeError ("Partition " +:+ encrypted_device config +:+ " failed to appear")).

Definition create_partitions : cmd unit :=
  let efi_size_mb := storage_efi_size_mb (cfg_storage config) in
  log_info ("Creating partitions on " +:+ disk +:+ "...") ;;
  when (contains "loop" disk) (prepare_loop_device disk) ;;
  run ("sgdisk -Z " +:+ disk) ;;
  run ("sgdisk -n1:0:+" +:+ str_of_Z efi_size_mb +:+ "M -t1:ef00 " +:+ disk) ;;
  run ("sgdisk -n2:0:0 -t2:8304 " +:+ disk) ;;
  run_ignored ("partprobe " +:+ disk) ;;
  run_ignored ("blockdev --rereadpt " +:+ disk) ;;
  when (contains "loop" disk) (create_loop_partition_nodes disk) ;;
  wait_for_partitions.

Definition format_luks : cmd unit :=
  let luks := storage_luks (cfg_storage config) in
  run_input
    ("cryptsetup luksFormat --batch-mode " +:+
     "--type " +:+ luks_type luks +:+ " " +:+
     "--cipher " +:+ luks_cipher luks +:+ " " +:+
     "--key-size " +:+ str_of_Z (luks_key_size luks) +:+ " " +:+
     "--hash " +:+ luks_hash luks +:+ " " +:+
     "--pbkdf " +:+ luks_pbkdf luks +:+ " " +:+
     "--pbkdf-memory " +:+ str_of_Z (luks_pbkdf_memory luks) +:+ " " +:+
     "--pbkdf-parallel " +:+ str_of_Z (luks_pbkdf_parallel luks) +:+ " " +:+
     "--iter-time " +:+ str_of_Z (luks_pbkdf_time_ms luks) +:+ " " +:+
     data_offset_option +:+
     "--key-file - " +:+ encrypted_device config)
    (luks_password (cfg_credentials config)).

Definition open_luks : cmd unit :=
  run_input
    ("cryptsetup open " +:+ detached_header_option +:+
     "--key-file - " +:+ encrypted_device config +:+ " " +:+ CRYPTROOT_MAPPER_NAME)
    (luks_password (cfg_credentials config)) ;;
  sleep 1 ;;
  run_ignored "udevadm settle".

(** The devices [cryptsetup status] names as backing the open volume.  A line
    with [device:] has a word, so [line.split()[-1]] is defined. *)
Definition backing_devices (status_stdout : string) : list string :=
  map (fun line => last_of (split line))
    (List.filter (contains "device:") (splitlines status_stdout)).

Definition setup_luks : cmd unit :=
  let* status := run_quiet ("cryptsetup status " +:+ CRYPTROOT_MAPPER_NAME) in
  if success status && contains "active" (lower (stdout status)) then
    if str_in (encrypted_device config) (backing_devices (stdout status))
    then log_info ("LUKS volume already open on " +:+ encrypted_device config)
    else Raise (RuntimeError (CRYPTROOT_MAPPER_NAME +:+ " is open but points to the wrong device"))
  else
    let* is_luks := run_success ("cryptsetup isLuks " +:+ luks_header_device config) in
    when (negb is_luks) (log_info "Formatting LUKS volume..." ;; format_luks) ;;
    open_luks.

(** The names of the subvolumes in a [btrfs subvolume list]. *)
Definition existing_subvolumes (listing : string) : list string :=
  map (fun line => strip (last_of (split_on " path " line)))
    (List.filter (contains " path ") (split_on nl (strip listing))).

Definition create_subvolumes : cmd unit :=
  let* listing := run_quiet_stdout ("btrfs subvolume list " +:+ TARGET_ROOT) in
  let existing := existing_subvolumes listing in
  for_each (fun subvolume =>
      if str_in (subvolume_name subvolume) existing then
        log_info ("Subvolume " +:+ subvolume_name subvolume +:+ " exists.")
      else
        log_info ("Creating subvolume " +:+ subvolume_name subvolume +:+ "...") ;;
        run ("btrfs subvolume create " +:+ TARGET_ROOT +:+ "/" +:+ subvolume_name subvolume))
    (btrfs_subvolumes (storage_btrfs (cfg_storage config))).

Definition setup_btrfs : cmd unit :=
  let label := btrfs_label (storage_btrfs (cfg_storage config)) in
  run_ignored "udevadm settle" ;;
  let* blkid := run_quiet_stdout ("blkid " +:+ cryptroot_device) in
  (if contains (qq "TYPE=`btrfs`") blkid then log_info "BTRFS filesystem detected."
   else
     log_info ("Formatting BTRFS with label '" +:+ label +:+ "'...") ;;
     run_ignored ("wipefs -af " +:+ cryptroot_device) ;;
     run "sync" ;;
     sleep 1 ;;
     run ("mkfs.btrfs -f -L " +:+ dquote +:+ label +:+ dquote +:+ " " +:+ cryptroot_device)) ;;
  let* mounted := is_mountpoint TARGET_ROOT in
  when (negb mounted) (run ("mount -t btrfs " +:+ cryptroot_device +:+ " " +:+ TARGET_ROOT)) ;;
  create_subvolumes ;;
  run ("umount " +:+ TARGET_ROOT).

Definition mount_efi_partition : cmd unit :=
  let partition := efi_partition config in
  let* blkid := run_quiet_stdout ("blkid " +:+ partition) in
  when (negb (contains (qq "TYPE=`vfat`") blkid))
    (log_info "Formatting EFI partition..." ;;
     run ("mkfs.vfat -F32 -n EFI " +:+ partition)) ;;
  run ("mkdir -p " +:+ TARGET_EFI) ;;
  run ("mount -t vfat -o umask=0077 " +:+ partition +:+ " " +:+ TARGET_EFI).

Definition mount_subvolume (mount_options : string) (subvolume : SubvolumeConfig) : cmd unit :=
  if String.eqb (subvolume_name subvolume) "@" then Ret tt
  else
    let mountpoint := TARGET_ROOT +:+ subvolume_mountpoint subvolume in
    run_ignored ("mkdir -p " +:+ mountpoint) ;;
    run ("mount -t btrfs -o subvol=" +:+ subvolume_name subvolume +:+ "," +:+ mount_options +:+ " " +:+
         cryptroot_device +:+ " " +:+ mountpoint) ;;
    when (subvolume_nocow subvolume) (run_ignored ("chattr +C " +:+ mountpoint)).

Definition mount_filesystems : cmd unit :=
  let mount_options := btrfs_mount_options (storage_btrfs (cfg_storage config)) in
  run ("mount -t btrfs -o subvol=@," +:+ mount_options +:+ " " +:+
       cryptroot_device +:+ " " +:+ TARGET_ROOT) ;;
  for_each (mount_subvolume mount_options) (btrfs_subvolumes (storage_btrfs (cfg_storage config))) ;;
  mount_efi_partition.

Definition create_swapfile : cmd unit :=
  let swap := storage_swap (cfg_storage config) in
  let path := TARGET_ROOT +:+ swap_path swap in
  let* exists_ := file_exists path in
  if exists_ then
    log_info "Swapfile already exists." ;;
    run_ignored ("swapon " +:+ path)
  else
    log_info ("Creating " +:+ str_of_Z (swap_size_mb swap) +:+ "MB swapfile...") ;;
    run ("truncate -s 0 " +:+ path) ;;
    run_ignored ("chattr +C " +:+ path) ;;
    run_ignored ("btrfs property set " +:+ path +:+ " compression none") ;;
    let* allocated := run_success
      ("fallocate -l " +:+ str_of_Z (swap_size_mb swap) +:+ "M " +:+ path) in
    when (negb allocated)
      (run ("dd if=/dev/zero of=" +:+ path +:+ " bs=1M count=" +:+ str_of_Z (swap_size_mb swap))) ;;
    run ("chmod 600 " +:+ path) ;;
    run ("mkswap " +:+ path) ;;
    run ("swapon " +:+ path).

(** The partition layout the wipe method asks for. *)
Definition prepare_disk (wipe_method : WipeMethod) : cmd unit :=
  if usb_boot then
    match wipe_method with WIPE_SKIP => Ret tt | _ => wipe_disk wipe_method end
  else
    match wipe_method with
    | WIPE_SKIP =>
        let* exist_ := partitions_exist in
        if negb exist_ then create_partitions
        else
          let* usable := luks_is_usable in
          if negb usable then
            log_info "Partitions exist but LUKS is unusable, re-partitioning..." ;;
            wipe_disk WIPE_QUICK ;;
            create_partitions
          else log_info "Partitions already exist."
    | _ => wipe_disk wipe_method ;; create_partitions
    end.

Definition storage_execute : cmd unit :=
  let* mounted := is_mountpoint TARGET_ROOT in
  if mounted then
    let* source := run_quiet_stdout ("findmnt -n -o SOURCE " +:+ TARGET_ROOT) in
    log_info (TARGET_ROOT +:+ " is already mounted from " +:+ strip source +:+
              ", keeping the existing storage") ;;
    let* efi_mounted := is_mountpoint TARGET_EFI in
    when (negb efi_mounted)
      (log_warning (TARGET_EFI +:+ " is not mounted. Please ensure it is mounted."))
  else
    log_info ("Converging storage on " +:+ disk +:+ "...") ;;
    cleanup_stale_mounts ;;
    prepare_disk effective_wipe_method ;;
    setup_luks ;;
    setup_btrfs ;;
    mount_filesystems ;;
    when (swap_enabled (storage_swap (cfg_storage config)) &&
          (0 <? swap_size_mb (storage_swap (cfg_storage config)))%Z)
      create_swapfile ;;
    log_info "Storage provisioning complete.".
End StorageStepExecutor.
