(* ===== verification/StorageFacts.v ===== *)
(** * Properties of the storage step

    What the commands of [storage_execute] may do to the disk, and in what order,
    on every machine: whatever the commands answer. *)

From S2P Require Import Prelude PyStr Effects Command PyVal Models Samples Base Patterns Deeds Guards Storage.

(** ** A kept disk *)

(** The commands after which the disk no longer holds what it held. The opened
    volume is not the disk: [wipefs] on it is the business of [mkfs_only_unformatted]. *)
Definition erases (c : string) : bool :=
  negb (String.eqb c "wipefs -af /dev/mapper/cryptroot") &&
  existsb (fun prefix => startswith prefix c)
    ["wipefs "; "sgdisk "; "shred "; "dd bs=4M if=/dev/urandom "; "blkdiscard "; "cryptsetup luksFormat "].

Section Skip.
Context (config : InstallerConfig).
#[local] Abbreviation target := (storage_target_disk (cfg_storage config)).
#[local] Abbreviation usb_drive := (usb_boot_device (cfg_usb_boot config)).

(** The machine has said why the disk cannot be used as it is: its EFI partition or
    its root partition is missing, the root partition holds no LUKS header, or the
    configured password does not open it.  With a USB boot drive the header is on the
    drive's second partition, and there are no partitions to be missing. *)
Definition disk_unusable (l : list exchange) : Prop :=
  if usb_boot_enabled (cfg_usb_boot config)
  then was_refused ("cryptsetup isLuks " +:+ derive_partition_path usb_drive 2) None l
  else
    was_refused ("lsblk " +:+ derive_partition_path target 1) None l \/
    was_refused ("lsblk " +:+ derive_partition_path target 2) None l \/
    was_refused ("cryptsetup isLuks " +:+ derive_partition_path target 2) None l \/
    was_refused ("cryptsetup open --test-passphrase " +:+ derive_partition_path target 2)
      (Some (luks_password (cfg_credentials config))) l.

Definition skip_guard : guard := fun c l => erases c = true -> disk_unusable l.

#[local] Instance skip_guard_lasting : Lasting skip_guard.
Proof.
  intros c l l' Hl H He. specialize (H He). unfold disk_unusable in *.
  destruct (usb_boot_enabled _); [eauto with guard|].
  destruct H as [H|[H|[H|H]]]; [left | right; left | right; right; left | right; right; right]; eauto with guard.
Qed.

Lemma skip_guard_opened {A} l (p : cmd A) : disk_unusable l -> guarded (after l skip_guard) p.
Proof.
  intros H. apply guarded_free. intros c l' _. apply (skip_guard_lasting "sgdisk " l); [|intros _; exact H | reflexivity].
  intros x Hx. apply elem_of_app. auto.
Qed.

Lemma quiet_filesystems :
  emits (on_command (fun c => skip_guard c []))
    (setup_btrfs config ;; mount_filesystems config ;;
     when (swap_enabled (storage_swap (cfg_storage config)) &&
          (0 <? swap_size_mb (storage_swap (cfg_storage config)))%Z)
      (create_swapfile config) ;;
     log_info "Storage provisioning complete.").
Proof.
  unfold setup_btrfs, create_subvolumes, mount_filesystems, mount_subvolume, mount_efi_partition, create_swapfile.
  safe_auto exempt.
Qed.

Lemma header_refused l : refused ("cryptsetup isLuks " +:+ luks_header_device config) l -> disk_unusable l.
Proof.
  intros H%refused_was_refused. unfold disk_unusable, luks_header_device, encrypted_device, luks_header_partition in *.
  destruct (usb_boot_enabled _); [exact H | auto].
Qed.

Lemma guarded_setup_luks : guarded skip_guard (setup_luks config).
Proof.
  assert (Hopen : guarded skip_guard (open_luks config)).
  { apply guarded_emits; [exact _|]. unfold open_luks, detached_header_option. destruct (usb_boot config); safe_auto exempt. }
  unfold setup_luks. apply guarded_quiet; [exact _ | safe_auto exempt|]. intros status.
  destruct (_ && _); [destruct (str_in _ _); apply guarded_emits; try exact _; safe_auto exempt|].
  apply guarded_probe; [exact _ | exempt | |].
  - intros l _. cbn [negb when]. apply guarded_after; [exact _|]. apply guarded_quiet; [exact _ | safe_auto exempt|].
    intros _. exact Hopen.
  - intros l H. apply skip_guard_opened, header_refused, H.
Qed.

(** Without a USB boot drive: what the probes for the partitions and for the header say. *)
Lemma partitions_exist_gives :
  usb_boot_enabled (cfg_usb_boot config) = false ->
  gives (partitions_exist config) (fun b l => b = false -> disk_unusable l).
Proof.
  intros E t b Hr Hb. unfold partitions_exist, all_each, disk_unusable, efi_partition, encrypted_device in *. rewrite E in *.
  apply runs_bind_ok in Hr as (ok & t1 & t2 & -> & H1%gives_run_success & H2). rewrite exchanges_app.
  destruct ok; [|left; eapply was_refused_mono; [|exact (refused_was_refused _ _ H1)]; intros x Hx; apply elem_of_app; auto].
  apply runs_bind_ok in H2 as (ok & t3 & t4 & -> & H2%gives_run_success & H3). rewrite exchanges_app.
  destruct ok; [destruct H3 as [_ [= ->]]; discriminate|]. right; left.
  eapply was_refused_mono; [|exact (refused_was_refused _ _ H2)]. intros x Hx. rewrite !elem_of_app. auto.
Qed.

Lemma luks_is_usable_gives :
  usb_boot_enabled (cfg_usb_boot config) = false ->
  gives (luks_is_usable config) (fun b l => b = false -> disk_unusable l).
Proof.
  intros E t b Hr Hb. unfold luks_is_usable, detached_header_option, usb_boot in Hr. rewrite E in Hr.
  apply runs_bind_ok in Hr as (ok & t1 & t2 & -> & H1%gives_run_success & H2). rewrite exchanges_app.
  destruct ok; cbn [negb] in H2.
  - apply runs_bind_ok in H2 as (r & t3 & t4 & -> & H2%gives_run_input_quiet & H3). rewrite exchanges_app.
    apply runs_bind_ok in H3 as (u & t5 & t6 & -> & _ & [-> [= ->]]).
    destruct H2 as (code & out & err & H2 & -> & _). unfold disk_unusable. rewrite E. right; right; right.
    unfold encrypted_device in H2. rewrite E in H2. exists (exit_code r), out, err.
    split; [rewrite H2, !elem_of_app; right; left; left|]. unfold success in Hb. apply Z.eqb_neq, Hb.
  - apply header_refused in H1. eapply (skip_guard_lasting "sgdisk "); [|intros _; exact H1 | reflexivity].
    intros x Hx. apply elem_of_app. auto.
Qed.

Lemma guarded_prepare_disk : guarded skip_guard (prepare_disk config WIPE_SKIP).
Proof.
  unfold prepare_disk, usb_boot. destruct (usb_boot_enabled _) eqn:E; [apply guarded_ret|].
  eapply guarded_learn; [exact _ | unfold partitions_exist; safe_auto exempt | exact (partitions_exist_gives E) |]. cbv beta.
  intros [] l H; [|apply skip_guard_opened, H; reflexivity].
  apply guarded_after; [exact _|]. cbn [negb].
  eapply guarded_learn; [exact _ | unfold luks_is_usable; safe_auto exempt | exact (luks_is_usable_gives E) |]. cbv beta.
  intros [] l' H'; [|apply skip_guard_opened, H'; reflexivity].
  apply guarded_after; [exact _|]. apply guarded_emits; [exact _|]. cbn [negb]. safe_auto exempt.
Qed.

Lemma guarded_storage_execute :
  migration_enabled (cfg_migration config) = false -> storage_wipe_method (cfg_storage config) = WIPE_SKIP ->
  guarded skip_guard (storage_execute config).
Proof.
  intros Em Es. unfold storage_execute.
  assert (effective_wipe_method config = WIPE_SKIP) as -> by (unfold effective_wipe_method; rewrite Em; exact Es).
  apply guarded_quiet; [exact _ | safe_auto exempt|]. intros [];
    [apply guarded_emits; [exact _|]; safe_auto exempt|].
  apply guarded_quiet; [exact _ | safe_auto exempt|]. intros _.
  apply guarded_quiet; [exact _ | unfold cleanup_stale_mounts; safe_auto exempt|]. intros _.
  apply guarded_seq; [exact _ | apply guarded_prepare_disk|]. intros _.
  apply guarded_seq; [exact _ | apply guarded_setup_luks|]. intros _.
  exact (guarded_emits _ _ quiet_filesystems).
Qed.
End Skip.

(** ** A formatted volume *)

Inductive format_kind := Blkid | Mkfs | FormatOther.
Definition format_rules : list (string * format_kind) := [
  ("blkid /dev/mapper/cryptroot", Blkid); ("mkfs.btrfs ", Mkfs)].
Definition is_mkfs (k : format_kind) : bool := match k with Mkfs => true | _ => false end.
Definition reply_stdout (res : process_result) : string :=
  match res with Completed _ out _ => out | NotFound _ => "" end.
(** [blkid] does not show a BTRFS filesystem. *)
Definition no_btrfs (k : format_kind) (res : process_result) : bool :=
  match k with Blkid => negb (contains (qq "TYPE=`btrfs`") (reply_stdout res)) | _ => false end.
Abbreviation format_step := (kind_step format_rules FormatOther (precedence_act is_mkfs no_btrfs)).


Section Format.
Context (config : InstallerConfig).
Abbreviation formats p Q s := (wp (monitor format_step) p Q s).

(** Before [setup_btrfs], nothing is formatted. *)
Lemma formats_prepare_disk method Q :
  (forall o, Q o false) -> formats (prepare_disk config method) Q false.
Proof.
  intros HQ. inert ltac:(unfold prepare_disk, wipe_disk, create_partitions,
    partitions_exist, luks_is_usable, prepare_loop_device, create_loop_partition_nodes,
    create_partition_node, wait_for_partitions, wait_rounds). auto.
Qed.

Lemma formats_setup_luks Q : (forall o, Q o false) -> formats (setup_luks config) Q false.
Proof. intros HQ. inert ltac:(unfold setup_luks, format_luks, open_luks). auto. Qed.

Lemma formats_setup_btrfs Q : (forall o s, Q o s) -> formats (setup_btrfs config) Q false.
Proof.
  intros HQ. unfold setup_btrfs. wp_step. inert idtac. intros [[]|x]; cbn [then_]; auto.
  wp_step. apply wp_run_quiet_stdout. intros res. unfold kind_step. eval_kind.
  destruct (negb (contains (qq "TYPE=`btrfs`") (reply_stdout res))) eqn:E;
    cbn [precedence_act is_mkfs no_btrfs]; rewrite E.
  - destruct res; cbn [then_]; [auto | raised].
  - destruct res as [|code out err]; cbn [then_]; auto. simpl in E.
    destruct (contains (qq "TYPE=`btrfs`") out); [|discriminate].
    inert ltac:(unfold create_subvolumes). auto.
Qed.

Lemma formats_storage_execute :
  formats (storage_execute config) (fun _ _ => True) false.
Proof.
  unfold storage_execute.
  do 3 wp_step; [exact I|]. wp_step; [repeat wp_step; exact I|].
  wp_step. wp_step. wp_step. inert ltac:(unfold cleanup_stale_mounts).
  intros [[]|x]; cbn [then_]; [|exact I].
  wp_step. apply formats_prepare_disk. intros [[]|x]; cbn [then_]; [|exact I].
  wp_step. apply formats_setup_luks. intros [[]|x]; cbn [then_]; [|exact I].
  wp_step. apply formats_setup_btrfs. intros [[]|x] s; cbn [then_]; [|exact I].
  needless ltac:(unfold mount_filesystems, mount_subvolume, mount_efi_partition, create_swapfile).
  auto.
Qed.
End Format.

(** ** A detached header *)

Section DetachedHeader.
Context (config : InstallerConfig).

(** What a command does to the disk of a system that boots from the USB drive:
    it is never partitioned, and LUKS always finds its header on the drive. *)
Definition header_detached (c : string) : Prop :=
  startswith "sgdisk -n" c = false /\
  (startswith "cryptsetup luksFormat " c || startswith "cryptsetup open " c = true ->
   contains ("--header " +:+ luks_header_partition (cfg_usb_boot config) +:+ " ") c = true).

Lemma header_detached_other c :
  startswith "sgdisk -n" c = false -> startswith "cryptsetup luksFormat " c = false ->
  startswith "cryptsetup open " c = false -> header_detached c.
Proof. intros H1 H2 H3. split; [exact H1|]. rewrite H2, H3. discriminate. Qed.

Lemma contains_header : usb_boot config = true ->
  contains ("--header " +:+ luks_header_partition (cfg_usb_boot config) +:+ " ")
    (detached_header_option config) = true.
Proof.
  intros E. unfold detached_header_option. rewrite E.
  apply contains_startswith, startswith_spec. exists "". rewrite str_app_nil_r. reflexivity.
Qed.

Lemma storage_execute_header_detached :
  usb_boot config = true -> emits (on_command header_detached) (storage_execute config).
Proof.
  intros E. pose proof (contains_header E) as Hh.
  assert (Ho := contains_app_l _ _ "--offset 0 " Hh).
  unfold storage_execute, prepare_disk. rewrite E.
  unfold cleanup_stale_mounts, wipe_disk, luks_is_usable, setup_luks, format_luks, open_luks,
    setup_btrfs, create_subvolumes, mount_filesystems, mount_subvolume, mount_efi_partition,
    create_swapfile, data_offset_option. rewrite E. cbn [negb].
  safe_auto ltac:(first
    [ apply header_detached_other; reflexivity
    | split; [reflexivity|]; intros _;
      repeat first [apply contains_app_l; assumption | apply contains_app_r] ]).
Qed.
End DetachedHeader.

(** ** Storage that is already mounted *)

Inductive mounted_state := Start | Mounted | Free.
Inductive mounted_kind := RootProbe | ReadOnly | MountedOther.
Definition mounted_rules : list (string * mounted_kind) := [
  ("mountpoint -q /mnt/efi", ReadOnly); ("mountpoint -q /mnt", RootProbe);
  ("findmnt -n -o SOURCE /mnt", ReadOnly)].
Definition mounted_act (k : mounted_kind) (s : mounted_state) (res : process_result)
    : option mounted_state :=
  match s with
  | Start => Some (match k with RootProbe => if succeeded res then Mounted else Free | _ => Free end)
  | Mounted => match k with ReadOnly => Some Mounted | _ => None end
  | Free => Some Free
  end.
Abbreviation mounted_step := (kind_step mounted_rules MountedOther mounted_act).

Lemma mounted_free {A} (p : cmd A) Q : (forall o, Q o Free) -> wp (monitor mounted_step) p Q Free.
Proof.
  intros HQ. apply wp_stable; [|exact HQ]. induction p as [a|x|e k IH]; simpl; auto.
  intros r. split; [|apply IH]. unfold on_command. destruct (event_command _); [|exact I].
  intros res. reflexivity.
Qed.

Lemma mounted_observed l s' :
  observe_replies mounted_step Mounted l = Some s' ->
  Forall (fun cr => classify_by mounted_rules MountedOther cr.1 = ReadOnly) l.
Proof.
  induction l as [|[c res] l IH]; intros H; [constructor|].
  cbn [observe_replies] in H. unfold kind_step in H at 1.
  destruct (classify_by mounted_rules MountedOther c) eqn:E; try discriminate.
  constructor; [exact E | apply IH, H].
Qed.

Lemma mounted_storage_execute config :
  wp (monitor mounted_step) (storage_execute config) (fun _ _ => True) Start.
Proof.
  unfold storage_execute. wp_step. wp_step. apply wp_run_success. intros res.
  unfold kind_step at 1. eval_kind. cbn [mounted_act].
  destruct res as [error|[|p|p] out err]; cbn [succeeded failed negb then_ Z.eqb];
    try exact I; try (apply mounted_free; auto).
  repeat wp_step; exact I.
Qed.

(** ** Properties *)

(** C3: with the wipe method [skip], the storage step only erases the disk (partitions
    it, overwrites it, discards it or formats LUKS) after the machine answered that
    the disk cannot be used: [lsblk] does not find its EFI partition or its root
    partition, [cryptsetup] finds no LUKS header on the root partition, or the
    configured password does not open it; with a USB boot drive, that the drive's
    header partition holds no LUKS header. Each answer is one to exactly this
    question, about this device. It holds on every machine, whatever it answers. *)
Theorem skip_keeps_usable_disk (config : InstallerConfig) t o l1 x l2 :
  migration_enabled (cfg_migration config) = false ->
  storage_wipe_method (cfg_storage config) = WIPE_SKIP ->
  runs (storage_execute config) t o ->
  exchanges t = l1 ++ x :: l2 ->
  erases x.1.1 = true ->
  disk_unusable config l1.
Proof. intros Em Es Hr Hl. exact (guarded_storage_execute config Em Es t o Hr l1 x l2 Hl). Qed.

Lemma skip_keeps_usable_disk_witness :
  disk_unusable sample_skip_config (take 17 (exchanges (trace_of fresh_machine (storage_execute sample_skip_config)))).
Proof.
  eapply (skip_keeps_usable_disk sample_skip_config);
    [reflexivity | reflexivity | apply trace_runs | nth_reply 17 | reflexivity].
Defined.

(** C13: a BTRFS filesystem is only made on a volume that has none: before every
    [mkfs.btrfs], [blkid] was asked about the volume and its answer named no
    BTRFS filesystem. *)
Theorem mkfs_only_unformatted (config : InstallerConfig) t o l1 c res l2 :
  runs (storage_execute config) t o ->
  replies t = l1 ++ (c, res) :: l2 ->
  startswith "mkfs.btrfs " c = true ->
  exists c' res', (c', res') ∈ l1 /\ startswith ("blkid " +:+ cryptroot_device) c' = true /\
    contains (qq "TYPE=`btrfs`") (reply_stdout res') = false.
Proof.
  intros Hr Hl Hc.
  destruct (precedence_runs _ _ _ _ _ _ _ _ (formats_storage_execute config) Hr _ _ _ _ Hl)
    as (c' & res' & Hin & H).
  { apply startswith_spec in Hc as [u ->]. reflexivity. }
  exists c', res'. split; [exact Hin|]. cbn [classify_by format_rules] in H.
  destruct (startswith "blkid /dev/mapper/cryptroot" c') eqn:Eb.
  - split; [exact Eb|]. simpl in H. apply negb_true_iff, H.
  - destruct (startswith "mkfs.btrfs " c'); discriminate.
Qed.

Lemma mkfs_only_unformatted_witness :
  exists c' res', (c', res') ∈ take 30 (replies (trace_of fresh_machine (storage_execute sample_skip_config))) /\
    startswith ("blkid " +:+ cryptroot_device) c' = true /\
    contains (qq "TYPE=`btrfs`") (reply_stdout res') = false.
Proof.
  eapply (mkfs_only_unformatted sample_skip_config);
    [apply trace_runs | nth_reply 30 | reflexivity].
Defined.

(** When something is mounted on [/mnt], the storage step changes nothing: the
    only commands after the probe read the mount source and probe [/mnt/efi]. *)
Theorem mounted_storage_kept (config : InstallerConfig) t o res l :
  runs (storage_execute config) t o ->
  replies t = ("mountpoint -q /mnt", res) :: l -> succeeded res = true ->
  Forall (fun cr => startswith "mountpoint -q /mnt/efi" cr.1 ||
                    startswith "findmnt -n -o SOURCE /mnt" cr.1 = true) l.
Proof.
  intros Hr Hl Hs. destruct (wp_sound _ _ _ _ _ _ (mounted_storage_execute config) Hr) as (s' & Ho & _).
  rewrite observe_monitor, Hl in Ho. cbn [observe_replies] in Ho.
  unfold kind_step in Ho at 1. simpl mounted_act in Ho. rewrite Hs in Ho.
  apply mounted_observed in Ho. eapply Forall_impl; [exact Ho|].
  intros [c' r']. cbn [fst classify_by mounted_rules].
  destruct (startswith "mountpoint -q /mnt/efi" c'); [reflexivity|].
  destruct (startswith "mountpoint -q /mnt" c'); [discriminate|].
  destruct (startswith "findmnt -n -o SOURCE /mnt" c'); [reflexivity | discriminate].
Qed.

Definition mounted_machine : oracle cmd_sig := fake_runner [].

Lemma mounted_storage_kept_witness :
  Forall (fun cr => startswith "mountpoint -q /mnt/efi" cr.1 ||
                    startswith "findmnt -n -o SOURCE /mnt" cr.1 = true)
    [("findmnt -n -o SOURCE /mnt", Completed 0 "" ""); ("mountpoint -q /mnt/efi", Completed 0 "" "")].
Proof.
  eapply (mounted_storage_kept sample_config (trace_of mounted_machine (storage_execute sample_config)));
    [apply trace_runs | vm_compute; reflexivity | reflexivity].
Defined.

(** C12: on a system that boots from a USB drive, the disk is never partitioned,
    and every [cryptsetup luksFormat] and [cryptsetup open] keeps the LUKS header
    on the drive: nothing on the disk tells that it is encrypted. *)
Theorem usb_boot_header_detached (config : InstallerConfig) t o :
  usb_boot config = true -> runs (storage_execute config) t o ->
  Forall (header_detached config) (commands t).
Proof.
  intros E Hr. apply Forall_on_command.
  exact (emits_sound _ _ _ _ (storage_execute_header_detached config E) Hr).
Qed.

Lemma usb_boot_header_detached_witness :
  Forall (header_detached sample_usb_config)
    (commands (trace_of fresh_machine (storage_execute sample_usb_config))).
Proof. eapply usb_boot_header_detached; [reflexivity | apply trace_runs]. Defined.

(** ** Waiting for a partition *)

(** Every command was found and ran to its end. *)
Definition answered (t : list cmd_event) : Prop :=
  Forall (fun cr => match cr.2 with Completed _ _ _ => True | NotFound _ => False end) (replies t).

Lemma answered_app t1 t2 : answered (t1 ++ t2) <-> answered t1 /\ answered t2.
Proof. unfold answered. rewrite replies_app, Forall_app. reflexivity. Qed.

Lemma run_quiet_answered c t o :
  runs (run_quiet c) t o -> answered t ->
  exists r, o = Ok r /\ replies t = [(c, Completed (exit_code r) (stdout r) (stderr r))].
Proof.
  intros Hr Ha. destruct o as [r|x]; [exists r; split; [reflexivity | apply (runs_run_with_ok c false None _ _ Hr)]|].
  exfalso. unfold run_quiet, run_with, system_run in Hr.
  destruct Hr as ([] & t1 & -> & res & t2 & -> & Hr).
  destruct res as [e|code out err]; [apply (Forall_inv Ha)|].
  simpl in Hr. destruct (truthy out), (truthy err); simpl in Hr;
    repeat match type of Hr with exists _, _ => destruct Hr as ([] & ? & -> & Hr) end; destruct Hr as [_ [=]].
Qed.

Lemma path_exists_answered path t o :
  runs (path_exists path) t o -> answered t ->
  exists res, o = Ok (negb (failed res)) /\ replies t = [("test -e " +:+ path, res)].
Proof.
  intros Hr Ha. unfold path_exists, run_success in Hr.
  apply runs_bind in Hr as [(r & t1 & t2 & -> & H1 & [-> ->])|(x & -> & H1)].
  - rewrite app_nil_r in *. destruct (run_quiet_answered _ _ _ H1 Ha) as (r' & [= <-] & ->).
    eexists. split; [|reflexivity]. unfold success. simpl. destruct (exit_code r); reflexivity.
  - destruct (run_quiet_answered _ _ _ H1 Ha) as (r' & [=] & _).
Qed.

(** The probes among the replies all failed. *)
Definition never_seen (partition : string) (l : list (string * process_result)) : Prop :=
  Forall (fun cr => cr.1 = "test -e " +:+ partition -> failed cr.2 = true) l.

Lemma wait_rounds_ends rounds device partition exhausted t o :
  runs (wait_rounds rounds device partition exhausted) t o -> answered t ->
  (o = Ok tt /\ exists l out err, replies t = l ++ [("test -e " +:+ partition, Completed 0 out err)] /\
     (length l < 2 * rounds)%nat /\ never_seen partition l) \/
  (o = Err exhausted /\ length (replies t) = (2 * rounds)%nat /\ never_seen partition (replies t)).
Proof.
  revert t. induction rounds as [|n IH]; intros t Hr Ha.
  - destruct Hr as [-> ->]. right. split; [reflexivity|]. split; [reflexivity | constructor].
  - cbn [wait_rounds] in Hr. apply runs_bind in Hr as [(b & t1 & t2 & -> & H1 & H2)|(x & -> & H1)].
    2: { destruct (path_exists_answered _ _ _ H1 Ha) as (res & [=] & _). }
    apply answered_app in Ha as [Ha1 Ha2].
    destruct (path_exists_answered _ _ _ H1 Ha1) as (res & [= ->] & Hp). rewrite replies_app, Hp.
    destruct (failed res) eqn:Ef; cbn [negb] in H2.
    + apply runs_bind in H2 as [([] & t0 & t3 & -> & H2 & H4)|(x & _ & (? & ? & _ & _ & [=]))].
      destruct H2 as ([] & ? & -> & -> & _). rename H4 into H2.
      apply answered_app in Ha2 as [_ Ha2].
      apply runs_bind in H2 as [(u & t4 & t5 & -> & H3 & H4)|(x & -> & H3)].
      2: { unfold run_ignored in H3. apply runs_bind in H3 as [(r & ? & ? & _ & _ & [_ [=]])|(y & [= ->] & H3)].
           destruct (run_quiet_answered _ _ _ H3 Ha2) as (r & [=] & _). }
      unfold run_ignored in H3. runs_ok H3. destruct H3 as [-> _]. rewrite app_nil_r in *.
      apply answered_app in Ha2 as [Ha4 Ha5].
      destruct (run_quiet_answered _ _ _ Hr Ha4) as (r & _ & Hq).
      rewrite !replies_app, Hq. change (replies [_]) with (@nil (string * process_result)). cbn [app].
      assert (Hnew : forall l, never_seen partition l -> never_seen partition
        ([("test -e " +:+ partition, res)] ++ [("partprobe " +:+ device, Completed (exit_code r) (stdout r) (stderr r))] ++ l)).
      { intros l Hl. constructor; [auto|]. constructor; [discriminate | exact Hl]. }
      destruct (IH _ H4 Ha5) as [(-> & l & out & err & -> & Hlen & Hl)|(-> & Hlen & Hl)].
      * left. split; [reflexivity|].
        exists ([("test -e " +:+ partition, res)] ++ [("partprobe " +:+ device, Completed (exit_code r) (stdout r) (stderr r))] ++ l), out, err.
        split; [reflexivity|]. split; [simpl; lia | apply Hnew, Hl].
      * right. split; [reflexivity|]. split; [simpl; lia | apply Hnew, Hl].
    + destruct H2 as [-> ->]. left. split; [reflexivity|].
      destruct res as [e|code out err]; [discriminate|]. destruct code; try discriminate.
      exists [], out, err. split; [reflexivity|]. split; [simpl; lia | constructor].
Qed.

(** C19: waiting for the new partition ends: it returns with the first probe that
    finds it, whichever of the twenty that is, and asks no more; only when twenty
    probes failed the step gives up with an error that names the partition. *)
Theorem partition_wait_ends (config : InstallerConfig) t o :
  runs (wait_for_partitions config) t o -> answered t ->
  (o = Ok tt /\ exists l out err,
     replies t = l ++ [("test -e " +:+ encrypted_device config, Completed 0 out err)] /\
     (length l < 40)%nat /\ never_seen (encrypted_device config) l) \/
  (o = Err (RuntimeError ("Partition " +:+ encrypted_device config +:+ " failed to appear")) /\
   length (replies t) = 40%nat /\ never_seen (encrypted_device config) (replies t)).
Proof. exact (wait_rounds_ends 20 _ _ _ t o). Qed.

Lemma partition_wait_ends_witness :
  exists l out err,
    replies (trace_of fresh_machine (wait_for_partitions sample_config)) =
      l ++ [("test -e " +:+ encrypted_device sample_config, Completed 0 out err)].
Proof.
  destruct (partition_wait_ends sample_config (trace_of fresh_machine (wait_for_partitions sample_config)) (Ok tt))
    as [(_ & l & out & err & H & _)|([=] & _)].
  - apply trace_runs_ok. vm_compute. reflexivity.
  - vm_compute. repeat constructor.
  - exists l, out, err. exact H.
Defined.
