(* ===== verification/StorageDone.v ===== *)
(** * What a storage step has done when it returns

    The other properties of the step say what its commands may do; here is what
    they have done: the disk wiped and partitioned as the configuration asks, the
    volume opened, BTRFS and every subvolume made, everything mounted. *)

From S2P Require Import Prelude PyStr Effects Command PyVal Models Base Patterns Storage Deeds.

(** The partition was looked for, at most so many times, until it was there. *)
Fixpoint waited (rounds : nat) (device partition : string) : achievement :=
  match rounds with
  | O => fun _ => False
  | S rounds' => unless ("test -e " +:+ partition)
      (in_order [tried ("partprobe " +:+ device); waited rounds' device partition])
  end.

Lemma wait_rounds_waits rounds device partition x :
  achieves (wait_rounds rounds device partition x) (waited rounds device partition).
Proof.
  induction rounds as [|rounds IH]; [apply achieves_raise|]. cbn [wait_rounds waited]. achieve.
Qed.

Section StorageDone.
Context (config : InstallerConfig).
#[local] Abbreviation storage := (cfg_storage config).
#[local] Abbreviation target := (storage_target_disk storage).
#[local] Abbreviation luks := (storage_luks storage).
#[local] Abbreviation usb := (cfg_usb_boot config).
#[local] Abbreviation password := (luks_password (cfg_credentials config)).
#[local] Abbreviation subvolumes := (btrfs_subvolumes (storage_btrfs storage)).
#[local] Abbreviation mount_options := (btrfs_mount_options (storage_btrfs storage)).
#[local] Abbreviation swap := (storage_swap storage).

(** ** The disk *)

Definition stale_mounts_cleaned : achievement := in_order [
  tried "umount -R /mnt"; tried "swapoff -a"; tried "cryptsetup close cryptroot";
  tried "cryptsetup close container"; tried "dmsetup remove_all"].

Definition disk_wiped (method : WipeMethod) : achievement := in_order [
  tried ("wipefs -af " +:+ target); tried ("sgdisk -Z " +:+ target); tried ("wipefs -af " +:+ target);
  match method with
  | WIPE_SECURE => in_order [
      unless ("shred -v -n 1 " +:+ target)
        (tried ("dd bs=4M if=/dev/urandom of=" +:+ target +:+ " conv=fsync status=progress"));
      ran "sync"; tried ("blockdev --flushbufs " +:+ target)]
  | WIPE_DISCARD => tried ("blkdiscard -f " +:+ target)
  | _ => nothing
  end;
  tried ("blockdev --rereadpt " +:+ target); tried "udevadm settle"; tried ("partprobe " +:+ target)].

(** A loop device of size 0 is looked at once more after a refresh. *)
Definition loop_device_prepared : achievement :=
  reading ("blockdev --getsize64 " +:+ target) (fun size =>
    if no_size (strip size)
    then in_order [
      tried ("losetup -c " +:+ target);
      reading ("blockdev --getsize64 " +:+ target) (fun size' => holds (no_size (strip size') = false))]
    else nothing).

(** The node of a partition, one line of [lsblk], is there or is made. *)
Definition partition_node_made (line : string) : achievement :=
  match split line with
  | name :: major_minor :: kind :: _ =>
      if String.eqb kind "part" then
        unless ("test -e /dev/" +:+ name)
          (match split_on ":" major_minor with
           | [major; minor] => ran ("mknod /dev/" +:+ name +:+ " b " +:+ major +:+ " " +:+ minor)
           | _ => fun _ => False
           end)
      else nothing
  | _ => nothing
  end.

Definition loop_nodes_made : achievement :=
  valued (output_of ("lsblk -r -n -o NAME,MAJ:MIN,TYPE " +:+ target)) (fun listing =>
    in_turn (split_on nl (strip listing)) partition_node_made).

Definition partitions_made : achievement := in_order [
  if_set (contains "loop" target) loop_device_prepared;
  ran ("sgdisk -Z " +:+ target);
  ran ("sgdisk -n1:0:+" +:+ str_of_Z (storage_efi_size_mb storage) +:+ "M -t1:ef00 " +:+ target);
  ran ("sgdisk -n2:0:0 -t2:8304 " +:+ target);
  tried ("partprobe " +:+ target); tried ("blockdev --rereadpt " +:+ target);
  if_set (contains "loop" target) loop_nodes_made;
  waited 20 target (encrypted_device config)].

(** A system that boots from the USB drive has no partitions; with the method
    [skip] a disk is only made anew when it is not usable. *)
Definition disk_prepared (method : WipeMethod) : achievement :=
  if usb_boot_enabled usb then
    match method with WIPE_SKIP => nothing | _ => disk_wiped method end
  else
    match method with
    | WIPE_SKIP =>
        probe ("lsblk " +:+ efi_partition config)
          (probe ("lsblk " +:+ encrypted_device config)
             (probe ("cryptsetup isLuks " +:+ luks_header_device config)
                (valued (answered ("cryptsetup open --test-passphrase " +:+ encrypted_device config) (Some password))
                   (fun r => if success r then nothing else in_order [disk_wiped WIPE_QUICK; partitions_made]))
                (in_order [disk_wiped WIPE_QUICK; partitions_made]))
             partitions_made)
          partitions_made
    | _ => in_order [disk_wiped method; partitions_made]
    end.

(** The configured method, or the one a migration prescribes. *)
Definition wipe_method_used : WipeMethod :=
  if migration_enabled (cfg_migration config)
  then if usb_boot_enabled usb then WIPE_SECURE else WIPE_QUICK
  else storage_wipe_method storage.

(** ** The volume *)

(** It was open already, on this device, or it was opened with its password, and
    formatted before that if there was no LUKS header. *)
Definition header_option : string :=
  if usb_boot_enabled usb then "--header " +:+ luks_header_partition usb +:+ " " else "".

Definition volume_opened : achievement :=
  valued (answered "cryptsetup status cryptroot" None) (fun status =>
    if success status && contains "active" (lower (stdout status))
    then holds (str_in (encrypted_device config) (backing_devices (stdout status)) = true)
    else in_order [
      unless ("cryptsetup isLuks " +:+ luks_header_device config)
        (given ("cryptsetup luksFormat --batch-mode " +:+
           "--type " +:+ luks_type luks +:+ " " +:+
           "--cipher " +:+ luks_cipher luks +:+ " " +:+
           "--key-size " +:+ str_of_Z (luks_key_size luks) +:+ " " +:+
           "--hash " +:+ luks_hash luks +:+ " " +:+
           "--pbkdf " +:+ luks_pbkdf luks +:+ " " +:+
           "--pbkdf-memory " +:+ str_of_Z (luks_pbkdf_memory luks) +:+ " " +:+
           "--pbkdf-parallel " +:+ str_of_Z (luks_pbkdf_parallel luks) +:+ " " +:+
           "--iter-time " +:+ str_of_Z (luks_pbkdf_time_ms luks) +:+ " " +:+
           (if usb_boot_enabled usb then header_option +:+ "--offset 0 " else "") +:+
           "--key-file - " +:+ encrypted_device config) password);
      given ("cryptsetup open " +:+ header_option +:+ "--key-file - " +:+ encrypted_device config +:+
             " cryptroot") password;
      tried "udevadm settle"]).

(** BTRFS and every subvolume were there or were made. *)
Definition btrfs_made : achievement := in_order [
  tried "udevadm settle";
  reading "blkid /dev/mapper/cryptroot" (fun blkid =>
    if contains (qq "TYPE=`btrfs`") blkid then nothing
    else in_order [
      tried "wipefs -af /dev/mapper/cryptroot"; ran "sync";
      ran ("mkfs.btrfs -f -L " +:+ dquote +:+ btrfs_label (storage_btrfs storage) +:+ dquote +:+
           " /dev/mapper/cryptroot")]);
  unless "mountpoint -q /mnt" (ran "mount -t btrfs /dev/mapper/cryptroot /mnt");
  reading "btrfs subvolume list /mnt" (fun listing =>
    in_turn subvolumes (fun subvolume =>
      if str_in (subvolume_name subvolume) (existing_subvolumes listing) then nothing
      else ran ("btrfs subvolume create /mnt/" +:+ subvolume_name subvolume)));
  ran "umount /mnt"].

(** ** The mounts *)

(** The root first, then the other subvolumes in their order, then the EFI
    partition, which has or gets a FAT filesystem. *)
Definition subvolume_mounted (subvolume : SubvolumeConfig) : achievement :=
  if String.eqb (subvolume_name subvolume) "@" then nothing
  else in_order [
    tried ("mkdir -p /mnt" +:+ subvolume_mountpoint subvolume);
    ran ("mount -t btrfs -o subvol=" +:+ subvolume_name subvolume +:+ "," +:+ mount_options +:+
         " /dev/mapper/cryptroot /mnt" +:+ subvolume_mountpoint subvolume);
    if_set (subvolume_nocow subvolume) (tried ("chattr +C /mnt" +:+ subvolume_mountpoint subvolume))].

Definition filesystems_mounted : achievement := in_order [
  ran ("mount -t btrfs -o subvol=@," +:+ mount_options +:+ " /dev/mapper/cryptroot /mnt");
  in_turn subvolumes subvolume_mounted;
  reading ("blkid " +:+ efi_partition config) (fun blkid =>
    if contains (qq "TYPE=`vfat`") blkid then nothing
    else ran ("mkfs.vfat -F32 -n EFI " +:+ efi_partition config));
  ran "mkdir -p /mnt/efi";
  ran ("mount -t vfat -o umask=0077 " +:+ efi_partition config +:+ " /mnt/efi")].

Definition swapfile_made : achievement :=
  let path := "/mnt" +:+ swap_path swap in
  let megabytes := str_of_Z (swap_size_mb swap) in
  probe ("test -f " +:+ path)
    (tried ("swapon " +:+ path))
    (in_order [
       ran ("truncate -s 0 " +:+ path); tried ("chattr +C " +:+ path);
       tried ("btrfs property set " +:+ path +:+ " compression none");
       unless ("fallocate -l " +:+ megabytes +:+ "M " +:+ path)
         (ran ("dd if=/dev/zero of=" +:+ path +:+ " bs=1M count=" +:+ megabytes));
       ran ("chmod 600 " +:+ path); ran ("mkswap " +:+ path); ran ("swapon " +:+ path)]).

(** ** The step *)

(** Storage that is mounted is kept; otherwise all of it is done. *)
Definition storage_done : achievement :=
  probe "mountpoint -q /mnt"
    (in_order [tried "findmnt -n -o SOURCE /mnt"; tried "mountpoint -q /mnt/efi"])
    (in_order [
       stale_mounts_cleaned; disk_prepared wipe_method_used; volume_opened; btrfs_made; filesystems_mounted;
       if_set (swap_enabled swap && (0 <? swap_size_mb swap)%Z) swapfile_made]).

Lemma cleanup_cleans : achieves cleanup_stale_mounts stale_mounts_cleaned.
Proof. unfold cleanup_stale_mounts, stale_mounts_cleaned. achieve. Qed.

Lemma wipe_disk_wipes method : achieves (wipe_disk config method) (disk_wiped method).
Proof. unfold wipe_disk, disk_wiped, disk. destruct method; achieve. Qed.

Lemma prepare_loop_device_prepares : achieves (prepare_loop_device target) loop_device_prepared.
Proof. unfold prepare_loop_device, loop_device_prepared. achieve. Qed.

Lemma create_partition_node_makes line : achieves (create_partition_node line) (partition_node_made line).
Proof.
  unfold create_partition_node, partition_node_made.
  destruct (split line) as [|name [|major_minor [|kind rest]]]; try apply achieves_ret.
  destruct (String.eqb kind "part"); [|apply achieves_ret]. achieve.
  destruct (split_on ":" major_minor) as [|major [|minor [|]]]; achieve.
Qed.

Lemma create_loop_partition_nodes_makes : achieves (create_loop_partition_nodes target) loop_nodes_made.
Proof.
  pose proof create_partition_node_makes. unfold create_loop_partition_nodes, loop_nodes_made. achieve.
Qed.

Lemma create_partitions_makes : achieves (create_partitions config) partitions_made.
Proof.
  pose proof prepare_loop_device_prepares. pose proof create_loop_partition_nodes_makes.
  pose proof wait_rounds_waits. unfold create_partitions, partitions_made, wait_for_partitions, disk. achieve.
Qed.

Lemma prepare_disk_prepares : achieves (prepare_disk config (effective_wipe_method config)) (disk_prepared wipe_method_used).
Proof.
  pose proof wipe_disk_wipes. pose proof create_partitions_makes.
  assert (effective_wipe_method config = wipe_method_used) as ->.
  { unfold effective_wipe_method, wipe_method_used. destruct (migration_enabled _); reflexivity. }
  unfold prepare_disk, disk_prepared, partitions_exist, luks_is_usable, detached_header_option, usb_boot.
  destruct (usb_boot_enabled usb); [destruct wipe_method_used; achieve|].
  cbn [all_each]. destruct wipe_method_used; achieve.
Qed.

Lemma setup_luks_opens : achieves (setup_luks config) volume_opened.
Proof.
  unfold setup_luks, volume_opened, format_luks, open_luks, data_offset_option, detached_header_option, usb_boot, header_option.
  destruct (usb_boot_enabled usb); achieve.
Qed.

Lemma setup_btrfs_makes : achieves (setup_btrfs config) btrfs_made.
Proof. unfold setup_btrfs, btrfs_made, create_subvolumes. achieve. Qed.

Lemma mount_subvolume_mounts subvolume : achieves (mount_subvolume mount_options subvolume) (subvolume_mounted subvolume).
Proof. unfold mount_subvolume, subvolume_mounted. achieve. Qed.

Lemma mount_filesystems_mounts : achieves (mount_filesystems config) filesystems_mounted.
Proof.
  pose proof mount_subvolume_mounts. unfold mount_filesystems, filesystems_mounted, mount_efi_partition. achieve.
Qed.

Lemma create_swapfile_makes : achieves (create_swapfile config) swapfile_made.
Proof. unfold create_swapfile, swapfile_made. achieve. Qed.

Lemma storage_achieves : achieves (storage_execute config) storage_done.
Proof.
  pose proof cleanup_cleans. pose proof prepare_disk_prepares. pose proof setup_luks_opens.
  pose proof setup_btrfs_makes. pose proof mount_filesystems_mounts. pose proof create_swapfile_makes.
  unfold storage_execute, storage_done. achieve.
Qed.
End StorageDone.
