(* ===== verification/Packages.v ===== *)
(** * The packages step ([executors/packages.py])

    Which packages are installed, and how. *)

From S2P Require Import Prelude PyStr Effects Command PyVal Models Samples Base Patterns.

Definition MICROCODE_PACKAGES : list (CpuVendor * string) :=
  [(CPU_AMD, "amd-ucode"); (CPU_INTEL, "intel-ucode")].

Section PackagesStepExecutor.
Context (config : InstallerConfig).

(** The microcode packages of the vendors that are not the CPU's. *)
Definition other_microcode (cpu_vendor : CpuVendor) : list string :=
  map snd (List.filter (fun vp => negb (bool_decide (vp.1 = cpu_vendor))) MICROCODE_PACKAGES).

Definition without_other_microcode (packages : list string) : list string :=
  let cpu_vendor := system_cpu_vendor (cfg_system config) in
  if decide (cpu_vendor = CPU_UNKNOWN) then packages
  else List.filter (fun package => negb (str_in package (other_microcode cpu_vendor))) packages.

(** [unselected | {f"{kernel}-headers" for kernel in unselected}] *)
Definition unwanted_kernels : list string :=
  let boot := cfg_boot config in
  let unselected := List.filter (fun package => negb (str_in package (kernel_packages boot)))
    (map kernel_package (boot_kernels boot)) in
  unselected ++ map (fun kernel => kernel +:+ "-headers") unselected.

Definition without_unselected_kernels (packages : list string) : list string :=
  List.filter (fun package => negb (str_in package unwanted_kernels)) packages.

(** The packages of the selected desktops and their display manager. *)
Definition desktop_package_list : list string :=
  let packages_config := cfg_packages config in
  match packages_selected_desktops packages_config with
  | [] => []
  | desktops => mjoin (map (packages_for (packages_desktops packages_config)) desktops) ++
                packages_display_manager packages_config
  end.

Definition desktop_packages : cmd (list string) :=
  when (negb (bool_decide (packages_selected_desktops (cfg_packages config) = [])))
    (log_info ("Desktops: " +:+
       join ", " (map enum_value (packages_selected_desktops (cfg_packages config))))) ;;
  Ret desktop_package_list.

Definition gpu_packages : list string :=
  let drivers := gpu_drivers (cfg_gpu config) in
  match gpu_vendor (cfg_gpu config) with
  | GPU_AMD => drivers_amd drivers
  | GPU_INTEL => drivers_intel drivers
  | GPU_NVIDIA =>
      match gpu_driver (cfg_gpu config) with
      | NOUVEAU => drivers_nouveau drivers
      | NVIDIA_OPEN => drivers_nvidia_open drivers
      | _ => drivers_nvidia_dkms drivers
      end
  | GPU_NONE => []
  end.

Definition catalog_packages : list string :=
  without_unselected_kernels (without_other_microcode
    (packages_base (cfg_packages config) ++ packages_cataloged (cfg_packages config))).

Definition collect_packages : cmd (list string) :=
  let* desktops := desktop_packages in
  Ret (dedup (catalog_packages ++ desktops ++ gpu_packages)).

Definition create_vconsole_config : cmd unit :=
  let vconsole_path := TARGET_ROOT +:+ "/etc/vconsole.conf" in
  run ("mkdir -p " +:+ TARGET_ROOT +:+ "/etc") ;;
  let* exists_ := file_exists vconsole_path in
  when (negb exists_)
    (write_file vconsole_path
       ("KEYMAP=" +:+ locale_keymap (system_locale (cfg_system config)) +:+ nl)).

Definition clear_pacman_locks : cmd unit :=
  run_ignored "rm -f /var/lib/pacman/db.lck" ;;
  run_ignored ("mkdir -p " +:+ TARGET_ROOT +:+ "/var/lib/pacman") ;;
  run_ignored ("rm -f " +:+ TARGET_ROOT +:+ "/var/lib/pacman/db.lck").

Definition install_packages (packages : list string) : cmd unit :=
  let package_list := join " " packages in
  let* installed := file_exists (TARGET_ROOT +:+ "/etc/os-release") in
  if installed then
    log_info "System already installed, updating packages instead of pacstrap..." ;;
    run_chroot_ignored ("pacman -Syu --noconfirm --needed " +:+ package_list)
  else run ("pacstrap -K " +:+ TARGET_ROOT +:+ " --noconfirm " +:+ package_list).

Definition copy_pacman_config : cmd unit :=
  let pacman_conf := TARGET_ROOT +:+ "/etc/pacman.conf" in
  let* exists_ := file_exists pacman_conf in
  when (negb exists_) (run ("cp /etc/pacman.conf " +:+ pacman_conf)).

Definition generate_fstab : cmd unit :=
  let fstab_path := TARGET_ROOT +:+ "/etc/fstab" in
  let* has_entries := run_success ("grep -q '^[^#]' " +:+ fstab_path) in
  if has_entries then log_info "fstab already has entries."
  else
    log_info "Generating fstab..." ;;
    run ("genfstab -U " +:+ TARGET_ROOT +:+ " >> " +:+ fstab_path).

Definition enable_services : cmd unit :=
  run_chroot "systemctl enable NetworkManager.service" ;;
  let* openssh := chroot_success "pacman -Q openssh" in
  when openssh (run_chroot "systemctl enable sshd.service") ;;
  when (negb (bool_decide (packages_selected_desktops (cfg_packages config) = [])))
    (for_each (fun display_manager =>
       let* installed := chroot_success ("pacman -Q " +:+ display_manager) in
       when installed
         (run_chroot_ignored ("systemctl enable " +:+ display_manager +:+ ".service")))
      (packages_display_manager (cfg_packages config))).

Definition packages_execute : cmd unit :=
  let* packages := collect_packages in
  log_info ("Installing " +:+ str_of_nat (length packages) +:+ " packages...") ;;
  create_vconsole_config ;;
  clear_pacman_locks ;;
  install_packages packages ;;
  copy_pacman_config ;;
  generate_fstab ;;
  enable_services.
End PackagesStepExecutor.

(** ** Properties *)

Lemma catalog_packages_elem config p :
  p ∈ catalog_packages config <->
  (p ∈ packages_base (cfg_packages config) \/ p ∈ packages_cataloged (cfg_packages config)) /\
  (system_cpu_vendor (cfg_system config) <> CPU_UNKNOWN ->
     p ∉ other_microcode (system_cpu_vendor (cfg_system config))) /\
  p ∉ unwanted_kernels config.
Proof.
  unfold catalog_packages, without_unselected_kernels, without_other_microcode.
  rewrite elem_of_List_filter, not_str_in. case_decide as E.
  - rewrite elem_of_app. tauto.
  - rewrite elem_of_List_filter, not_str_in, elem_of_app. tauto.
Qed.

(** The collection only logs, and cannot fail. *)
Lemma collect_packages_runs config t o :
  runs (collect_packages config) t o ->
  commands t = [] /\
  o = Ok (dedup (catalog_packages config ++ desktop_package_list config ++ gpu_packages config)).
Proof.
  unfold collect_packages, desktop_packages. rewrite !runs_bind.
  intros [(a & t1 & t2 & -> & H1 & [-> ->])|(x & -> & H)].
  - rewrite runs_bind in H1. destruct H1 as [(u & t3 & t4 & -> & H3 & [-> [= ->]])|(x & [=] & _)].
    rewrite !app_nil_r. split; [|reflexivity].
    destruct (negb _); simpl in H3; [|destruct H3 as [-> _]; reflexivity].
    destruct H3 as ([] & t' & -> & -> & _). reflexivity.
  - rewrite runs_bind in H. destruct H as [(u & t3 & t4 & -> & H3 & [_ [=]])|(x' & [= ->] & H)].
    destruct (negb _); simpl in H; [|destruct H as [_ [=]]].
    destruct H as (r & t' & _ & _ & [=]).
Qed.

(** *** Which packages a configuration asks for *)

Section Wanted.
Context (config : InstallerConfig).
#[local] Abbreviation packages := (cfg_packages config).
#[local] Abbreviation boot := (cfg_boot config).
#[local] Abbreviation gpu := (cfg_gpu config).

(** The microcode of the CPU that is not there. *)
Definition foreign_microcode (p : string) : Prop :=
  match system_cpu_vendor (cfg_system config) with
  | CPU_AMD => p = "intel-ucode"
  | CPU_INTEL => p = "amd-ucode"
  | CPU_UNKNOWN => False
  end.

(** A kernel that could have been selected and was not, and its headers. *)
Definition deselected_kernel (kernel : string) : Prop :=
  boot_selected_kernels boot <> [] /\ kernel ∉ boot_selected_kernels boot /\
  exists declared, declared ∈ boot_kernels boot /\ kernel_package declared = kernel.
Definition kernel_dropped (p : string) : Prop :=
  exists kernel, deselected_kernel kernel /\ (p = kernel \/ p = kernel +:+ "-headers").

Inductive wanted_package (p : string) : Prop :=
| wanted_listed :
    p ∈ packages_base packages \/ p ∈ packages_cataloged packages ->
    ~ foreign_microcode p -> ~ kernel_dropped p -> wanted_package p
| wanted_kde : KDE ∈ packages_selected_desktops packages -> p ∈ desktops_kde (packages_desktops packages) -> wanted_package p
| wanted_gnome : GNOME ∈ packages_selected_desktops packages -> p ∈ desktops_gnome (packages_desktops packages) -> wanted_package p
| wanted_hyprland :
    HYPRLAND ∈ packages_selected_desktops packages -> p ∈ desktops_hyprland (packages_desktops packages) -> wanted_package p
| wanted_display_manager : packages_selected_desktops packages <> [] -> p ∈ packages_display_manager packages -> wanted_package p
| wanted_amd : gpu_vendor gpu = GPU_AMD -> p ∈ drivers_amd (gpu_drivers gpu) -> wanted_package p
| wanted_intel : gpu_vendor gpu = GPU_INTEL -> p ∈ drivers_intel (gpu_drivers gpu) -> wanted_package p
| wanted_nouveau :
    gpu_vendor gpu = GPU_NVIDIA -> gpu_driver gpu = NOUVEAU -> p ∈ drivers_nouveau (gpu_drivers gpu) -> wanted_package p
| wanted_nvidia_open :
    gpu_vendor gpu = GPU_NVIDIA -> gpu_driver gpu = NVIDIA_OPEN -> p ∈ drivers_nvidia_open (gpu_drivers gpu) -> wanted_package p
| wanted_nvidia_dkms :
    gpu_vendor gpu = GPU_NVIDIA -> gpu_driver gpu <> NOUVEAU -> gpu_driver gpu <> NVIDIA_OPEN ->
    p ∈ drivers_nvidia_dkms (gpu_drivers gpu) -> wanted_package p.

Lemma foreign_microcode_spec p :
  (system_cpu_vendor (cfg_system config) <> CPU_UNKNOWN /\ p ∈ other_microcode (system_cpu_vendor (cfg_system config))) <->
  foreign_microcode p.
Proof.
  unfold foreign_microcode. destruct (system_cpu_vendor _); vm_compute other_microcode;
    rewrite ?list_elem_of_singleton; intuition congruence.
Qed.

Lemma unwanted_kernels_spec p : p ∈ unwanted_kernels config <-> kernel_dropped p.
Proof.
  assert (Hd : forall k, k ∈ List.filter (fun package => negb (str_in package (kernel_packages boot)))
      (map kernel_package (boot_kernels boot)) <-> deselected_kernel k).
  { intros k. rewrite elem_of_List_filter, not_str_in, list_elem_of_fmap. unfold deselected_kernel, kernel_packages.
    destruct (boot_selected_kernels boot) as [|s l].
    - split; [|intros [[] _]; reflexivity]. intros [(d & -> & Hd) Hn]. destruct Hn. apply list_elem_of_fmap. eauto.
    - split; [intros [(d & -> & Hd) Hn] | intros (_ & Hn & d & Hd & <-)]; eauto 6 using not_eq_sym, nil_cons. }
  unfold unwanted_kernels, kernel_dropped. cbv zeta. rewrite elem_of_app, list_elem_of_fmap. setoid_rewrite Hd. split.
  - intros [H|(k & -> & H)]; eauto.
  - intros (k & H & [->| ->]); eauto.
Qed.

Lemma desktop_packages_spec p :
  p ∈ desktop_package_list config <->
  (exists desktop, desktop ∈ packages_selected_desktops packages /\ p ∈ packages_for (packages_desktops packages) desktop) \/
  (packages_selected_desktops packages <> [] /\ p ∈ packages_display_manager packages).
Proof.
  unfold desktop_package_list. destruct (packages_selected_desktops packages) as [|d l].
  - rewrite elem_of_nil. split; [tauto|]. intros [(x & Hx & _)|[[] _]]; [inversion Hx | reflexivity].
  - rewrite elem_of_app, list_elem_of_join. setoid_rewrite list_elem_of_fmap. split.
    + intros [(x & Hx & y & -> & Hy)|H]; [left | right]; eauto using not_eq_sym, nil_cons.
    + intros [(x & Hx & Hp)|[_ H]]; [left | right]; eauto.
Qed.

Lemma wanted_package_spec p :
  p ∈ catalog_packages config ++ desktop_package_list config ++ gpu_packages config <-> wanted_package p.
Proof.
  rewrite !elem_of_app, catalog_packages_elem, unwanted_kernels_spec, desktop_packages_spec.
  pose proof (foreign_microcode_spec p) as Hm. unfold gpu_packages. split.
  - intros [(H1 & H2 & H3)|[[([] & Hd & Hp)|[Hd Hp]]|H]].
    + apply wanted_listed; tauto.
    + apply wanted_kde; assumption.
    + apply wanted_gnome; assumption.
    + apply wanted_hyprland; assumption.
    + apply wanted_display_manager; assumption.
    + destruct (gpu_vendor gpu) eqn:Ev; [| | |inversion H].
      * apply wanted_amd; assumption.
      * apply wanted_intel; assumption.
      * destruct (gpu_driver gpu) eqn:Ed;
          [.. ]; first [apply wanted_nouveau; assumption | apply wanted_nvidia_open; assumption
            | apply wanted_nvidia_dkms; congruence || assumption].
  - intros [H1 H2 H3|Hd Hp|Hd Hp|Hd Hp|Hd Hp|E Hp|E Hp|E E' Hp|E E' Hp|E E1 E2 Hp]; rewrite ?E.
    1: tauto.
    1-3: right; left; left; eexists; split; [exact Hd | exact Hp].
    1: right; left; right; auto.
    all: right; right; try exact Hp.
    1-2: rewrite E'; exact Hp.
    destruct (gpu_driver gpu); try exact Hp; congruence.
Qed.
End Wanted.

(** C28: the package list has no duplicate and no command is run to collect it, and it
    holds exactly what the configuration asks for: the base and catalog packages, but
    not the other CPU vendor's microcode and not a kernel that was not selected or its
    headers; the packages of each selected desktop, and with a desktop the display
    manager; and the packages of the graphics card's driver. *)
Theorem collected_packages_exact (config : InstallerConfig) t o :
  runs (collect_packages config) t o ->
  commands t = [] /\
  exists packages, o = Ok packages /\ NoDup packages /\ forall p, p ∈ packages <-> wanted_package config p.
Proof.
  intros H. apply collect_packages_runs in H as [Hc ->]. split; [exact Hc|]. eexists. split; [reflexivity|].
  split; [apply NoDup_dedup|]. intros p. rewrite dedup_elem. apply wanted_package_spec.
Qed.

Lemma collected_packages_exact_witness :
  commands (trace_of fresh_machine (collect_packages sample_config)) = [] /\
  exists packages, outcome_of fresh_machine (collect_packages sample_config) = Ok packages /\
    NoDup packages /\ forall p, p ∈ packages <-> wanted_package sample_config p.
Proof. eapply collected_packages_exact, trace_runs. Defined.

(** ** Converging on what is already there *)

Inductive converge_kind := Absent | Bootstrap | ConvergeOther.
Definition is_bootstrap (k : converge_kind) : bool :=
  match k with Bootstrap => true | _ => false end.
Definition absent (k : converge_kind) (res : process_result) : bool :=
  match k with Absent => failed res | _ => false end.

Definition bootstrap_rules : list (string * converge_kind) := [
  ("test -f /mnt/etc/os-release", Absent); ("pacstrap ", Bootstrap)].
Definition fstab_rules : list (string * converge_kind) := [
  ("grep -q '^[^#]' /mnt/etc/fstab", Absent); ("genfstab ", Bootstrap)].

Lemma guarded_runs (rules : list (string * converge_kind)) {A} (p : cmd A) t o l1 c res l2 :
  wp (monitor (kind_step rules ConvergeOther (precedence_act is_bootstrap absent))) p (fun _ _ => True) false ->
  runs p t o -> replies t = l1 ++ (c, res) :: l2 ->
  classify_by rules ConvergeOther c = Bootstrap ->
  exists c' res', (c', res') ∈ l1 /\ classify_by rules ConvergeOther c' = Absent /\ failed res' = true.
Proof.
  intros Hwp Hr Hl Hc.
  destruct (precedence_runs _ _ _ _ _ _ _ _ Hwp Hr _ _ _ _ Hl) as (c' & res' & Hin & H).
  { rewrite Hc. reflexivity. }
  exists c', res'. destruct (classify_by rules ConvergeOther c'); auto; discriminate.
Qed.

(** The kind of the first rule comes from its prefix, when no later rule and not
    the default gives it. *)
Lemma classify_first {K} p (k k' d : K) q c :
  classify_by [(p, k); (q, k')] d c = k -> k' <> k /\ d <> k -> startswith p c = true.
Proof.
  simpl. destruct (startswith p c); [reflexivity|].
  destruct (startswith q c); intros; tauto.
Qed.

Section Converge.
Context (config : InstallerConfig).

Lemma bootstrap_guarded :
  wp (monitor (kind_step bootstrap_rules ConvergeOther (precedence_act is_bootstrap absent)))
    (packages_execute config) (fun _ _ => True) false.
Proof.
  unfold packages_execute. wp_step.
  inert ltac:(unfold collect_packages, desktop_packages). intros [ps|x]; cbn [then_]; [|exact I].
  wp_step. wp_step. wp_step.
  inert ltac:(unfold create_vconsole_config). intros [[]|x]; cbn [then_]; [|exact I].
  wp_step. inert ltac:(unfold clear_pacman_locks). intros [[]|x]; cbn [then_]; [|exact I].
  wp_step. unfold install_packages. repeat wp_step; auto.
  all: rewrite <- wp_bind;
    needless ltac:(unfold copy_pacman_config, generate_fstab, enable_services); auto.
Qed.

Lemma fstab_guarded :
  wp (monitor (kind_step fstab_rules ConvergeOther (precedence_act is_bootstrap absent)))
    (packages_execute config) (fun _ _ => True) false.
Proof.
  unfold packages_execute. wp_step.
  inert ltac:(unfold collect_packages, desktop_packages). intros [ps|x]; cbn [then_]; [|exact I].
  wp_step. wp_step. wp_step.
  inert ltac:(unfold create_vconsole_config). intros [[]|x]; cbn [then_]; [|exact I].
  wp_step. inert ltac:(unfold clear_pacman_locks). intros [[]|x]; cbn [then_]; [|exact I].
  wp_step. inert ltac:(unfold install_packages). intros [[]|x]; cbn [then_]; [|exact I].
  wp_step. inert ltac:(unfold copy_pacman_config). intros [[]|x]; cbn [then_]; [|exact I].
  wp_step. unfold generate_fstab. repeat wp_step; auto.
  all: needless ltac:(unfold enable_services); auto.
Qed.
End Converge.

(** Running the step again converges instead of starting over: [pacstrap] only
    runs after the probe for an installed system failed, and [genfstab] only
    appends to an fstab that was found without entries. *)
Theorem packages_converge (config : InstallerConfig) t o l1 c res l2 :
  runs (packages_execute config) t o -> replies t = l1 ++ (c, res) :: l2 ->
  (startswith "pacstrap " c = true -> exists (c' : string) (res' : process_result), (c', res') ∈ l1 /\
     startswith "test -f /mnt/etc/os-release" c' = true /\ failed res' = true) /\
  (startswith "genfstab " c = true -> exists c' res', (c', res') ∈ l1 /\
     startswith "grep -q '^[^#]' /mnt/etc/fstab" c' = true /\ failed res' = true).
Proof.
  intros Hr Hl. split; intros Hc; apply startswith_spec in Hc as [u ->].
  - destruct (guarded_runs _ _ _ _ _ _ _ _ (bootstrap_guarded config) Hr Hl eq_refl)
      as (c' & res' & Hin & Hk & Hf).
    exists c', res'. split; [exact Hin|]. split; [|exact Hf].
    exact (classify_first _ _ _ _ _ _ Hk ltac:(split; discriminate)).
  - destruct (guarded_runs _ _ _ _ _ _ _ _ (fstab_guarded config) Hr Hl eq_refl)
      as (c' & res' & Hin & Hk & Hf).
    exists c', res'. split; [exact Hin|]. split; [|exact Hf].
    exact (classify_first _ _ _ _ _ _ Hk ltac:(split; discriminate)).
Qed.

Lemma packages_converge_witness :
  exists c' res', (c', res') ∈ take 7 (replies (trace_of fresh_machine (packages_execute sample_config))) /\
    startswith "test -f /mnt/etc/os-release" c' = true /\ failed res' = true.
Proof.
  edestruct (packages_converge sample_config (trace_of fresh_machine (packages_execute sample_config)))
    as [H _]; [apply trace_runs | nth_reply 7 | exact (H eq_refl)].
Defined.
