(* ===== verification/System.v ===== *)
(** * The system and Docker steps ([executors/system.py], [executors/docker.py])

    Hostname, timezone, locales and the user account; the Docker daemon and the
    group that may use it. *)

From S2P Require Import Prelude PyStr Chars Effects Command PyVal Models Samples Base Patterns.

(** ** Texts *)

Definition hosts_file (hostname : string) : string :=
  "127.0.0.1   localhost" +:+ nl +:+
  "::1         localhost" +:+ nl +:+
  "127.0.1.1   " +:+ hostname +:+ ".localdomain " +:+ hostname +:+ nl.

Definition locale_conf (locale : LocaleConfig) : string :=
  let category_overrides := [
    ("LC_MONETARY", locale_monetary locale); ("LC_TIME", locale_time_format locale);
    ("LC_NUMERIC", locale_numeric locale); ("LC_PAPER", locale_paper locale)] in
  let lines := ("LANG=" +:+ full_locale locale) ::
    map (fun vv => vv.1 +:+ "=" +:+ vv.2)
      (List.filter (fun vv => truthy vv.2 && negb (String.eqb vv.2 (full_locale locale)))
        category_overrides) in
  join nl lines +:+ nl.

Definition locales_to_generate (locale : LocaleConfig) : list string :=
  sorted (List.filter truthy (dedup [
    full_locale locale; locale_monetary locale; locale_time_format locale;
    locale_numeric locale; locale_paper locale])).

(** The set of the groups of a user, as the list of its members. *)
Definition current_user_groups (username : string) : cmd (list string) :=
  let* out := run_quiet_stdout (chroot_command ("id -nG " +:+ username)) in
  Ret (dedup (split out)).

(** ** The system step *)

Section SystemStepExecutor.
Context (config : InstallerConfig).

Definition create_user : cmd unit :=
  let user := system_user (cfg_system config) in
  let* exists_ := chroot_success ("id " +:+ user_name user) in
  (if exists_ then log_info ("User " +:+ user_name user +:+ " already exists")
   else
     let groups := join "," (user_groups user) in
     run_chroot ("useradd -m -G " +:+ groups +:+ " -s /bin/bash " +:+ user_name user) ;;
     log_info ("User " +:+ user_name user +:+ " created (groups: " +:+ groups +:+ ")") ;;
     run_ignored ("sed -i 's/^#\s*\(%wheel ALL=(ALL:ALL) ALL\)/\1/' " +:+ TARGET_ROOT +:+
                  "/etc/sudoers")) ;;
  run_chroot_input "chpasswd"
    (user_name user +:+ ":" +:+ user_password (cfg_credentials config)).

Definition system_execute : cmd unit :=
  let system := cfg_system config in
  log_info ("Configuring " +:+ system_hostname system +:+ " (" +:+ system_timezone system +:+ ", " +:+
            full_locale (system_locale system) +:+ ")...") ;;
  write_file (TARGET_ROOT +:+ "/etc/hostname") (system_hostname system +:+ nl) ;;
  write_file (TARGET_ROOT +:+ "/etc/hosts") (hosts_file (system_hostname system)) ;;
  run ("rm -f " +:+ TARGET_ROOT +:+ "/etc/localtime") ;;
  run ("ln -sf /usr/share/zoneinfo/" +:+ system_timezone system +:+ " " +:+ TARGET_ROOT +:+
       "/etc/localtime") ;;
  run_chroot_ignored "hwclock --systohc" ;;
  for_each (fun locale =>
      run_ignored ("sed -i 's/^#\s*\(" +:+ locale +:+ "\s\)/\1/' " +:+ TARGET_ROOT +:+
                   "/etc/locale.gen"))
    (locales_to_generate (system_locale system)) ;;
  run_chroot_ignored "locale-gen" ;;
  write_file (TARGET_ROOT +:+ "/etc/locale.conf") (locale_conf (system_locale system)) ;;
  write_file (TARGET_ROOT +:+ "/etc/vconsole.conf")
    ("KEYMAP=" +:+ locale_keymap (system_locale system) +:+ nl) ;;
  create_user.
End SystemStepExecutor.

(** ** The Docker step *)

Definition DOCKER_GROUP : string := "docker".

(** The code point of a character, from its UTF-8 bytes. *)
Definition byte_value (c : Ascii.ascii) : Z := Z.of_nat (ord c).
Definition code_point (character : string) : Z :=
  (match String.list_ascii_of_string character with
   | [] => 0
   | first :: continuation =>
       let n := byte_value first in
       let start := if n <? 192 then n else if n <? 224 then n - 192 else if n <? 240 then n - 224 else n - 240 in
       fold_left (fun acc c => acc * 64 + (byte_value c - 128)) continuation start
   end)%Z.

(** A backslash, [u] and four digits. *)
Definition unicode_escape (n : Z) : string :=
  let digit k := hex_digit (Z.to_nat (n / 16 ^ k mod 16)) in
  backslash +:+ "u" +:+ String (digit 3%Z) (String (digit 2%Z) (String (digit 1%Z) (String (digit 0%Z) ""))).

(** [json.dumps] of a character: everything outside printable ASCII is escaped, and a
    code point above 16 bits becomes a surrogate pair. *)
Definition json_char (character : string) : string :=
  (let n := code_point character in
   if (n =? 34) || (n =? 92) then backslash +:+ character
   else if n =? 10 then backslash +:+ "n"
   else if n =? 13 then backslash +:+ "r"
   else if n =? 9 then backslash +:+ "t"
   else if n =? 12 then backslash +:+ "f"
   else if n =? 8 then backslash +:+ "b"
   else if (32 <=? n) && (n <=? 126) then character
   else if n <? 65536 then unicode_escape n
   else unicode_escape (55296 + (n - 65536) / 1024) +:+ unicode_escape (56320 + (n - 65536) mod 1024))%Z.
Definition json_string (s : string) : string := dquote +:+ join "" (map json_char (chars s)) +:+ dquote.

Definition daemon_json (storage_driver data_root : string) : string :=
  "{" +:+ nl +:+
  "    " +:+ json_string "storage-driver" +:+ ": " +:+ json_string storage_driver +:+ "," +:+ nl +:+
  "    " +:+ json_string "data-root" +:+ ": " +:+ json_string data_root +:+ nl +:+
  "}" +:+ nl.

Example daemon_json_escapes :
  json_string (String (chr 195) (String (chr 169) "/")) = qq "`" +:+ backslash +:+ qq "u00e9/`" /\
  json_string (String (chr 240) (String (chr 159) (String (chr 144) (String (chr 179) "")))) =
    qq "`" +:+ backslash +:+ "ud83d" +:+ backslash +:+ qq "udc33`".
Proof. vm_compute. split; reflexivity. Qed.

Definition access_group_sudoers (access_group : string) : string :=
  "# allow " +:+ access_group +:+ " group to run docker without password" +:+ nl +:+
  "%" +:+ access_group +:+ " ALL=(ALL) NOPASSWD: /usr/bin/docker, /usr/bin/docker-compose" +:+ nl.

Section DockerStepExecutor.
Context (config : InstallerConfig).

Definition missing_groups (current : list string) : list string :=
  List.filter (fun group => negb (str_in group current))
    (dedup [DOCKER_GROUP; docker_access_group (cfg_docker config)]).

Definition docker_execute : cmd unit :=
  let docker := cfg_docker config in
  let* installed := chroot_success "pacman -Q docker" in
  if negb installed then
    log_warning "docker is enabled but the docker package is not installed, skipping"
  else
    log_info ("Configuring docker (" +:+ docker_storage_driver docker +:+ " on " +:+
              docker_data_root docker +:+ ")...") ;;
    run ("mkdir -p " +:+ TARGET_ROOT +:+ "/etc/docker") ;;
    write_file (TARGET_ROOT +:+ "/etc/docker/daemon.json")
      (daemon_json (docker_storage_driver docker) (docker_data_root docker)) ;;
    run_chroot_ignored "systemctl enable docker.service" ;;
    let* group_exists := chroot_success ("getent group " +:+ docker_access_group docker) in
    when (negb group_exists) (run_chroot ("groupadd " +:+ docker_access_group docker)) ;;
    let username := user_name (system_user (cfg_system config)) in
    let* current := current_user_groups username in
    for_each (fun group =>
        log_info ("Adding " +:+ username +:+ " to the " +:+ group +:+ " group...") ;;
        run_chroot ("usermod -aG " +:+ group +:+ " " +:+ username))
      (sorted (missing_groups current)) ;;
    let sudoers_file := TARGET_ROOT +:+ "/etc/sudoers.d/" +:+ docker_access_group docker in
    write_file sudoers_file (access_group_sudoers (docker_access_group docker)) ;;
    run ("chmod 440 " +:+ sudoers_file).
End DockerStepExecutor.

(** ** Properties *)

(** The locales to generate are exactly the configured, non-empty ones, each
    once and in sorted order; the main locale is among them. *)
Theorem locales_to_generate_exact (locale : LocaleConfig) :
  NoDup (locales_to_generate locale) /\
  StronglySorted String.le (locales_to_generate locale) /\
  full_locale locale ∈ locales_to_generate locale /\
  forall l, l ∈ locales_to_generate locale <->
    truthy l = true /\
    l ∈ [full_locale locale; locale_monetary locale; locale_time_format locale;
         locale_numeric locale; locale_paper locale].
Proof.
  unfold locales_to_generate.
  assert (Hin : forall l, l ∈ sorted (List.filter truthy (dedup [
    full_locale locale; locale_monetary locale; locale_time_format locale;
    locale_numeric locale; locale_paper locale])) <-> truthy l = true /\
    l ∈ [full_locale locale; locale_monetary locale; locale_time_format locale;
         locale_numeric locale; locale_paper locale]).
  { intros l. rewrite sorted_elem, elem_of_List_filter, dedup_elem. tauto. }
  split; [|split; [apply sorted_sorted|split; [|exact Hin]]].
  - rewrite sorted_perm. apply NoDup_ListNoDup, List.NoDup_filter, NoDup_ListNoDup, NoDup_dedup.
  - apply Hin. split; [|left]. unfold full_locale.
    destruct (locale_language locale); reflexivity.
Qed.

(** ** The user account *)

Inductive user_kind := KnownUser | AddUser | UserOther.
Definition user_rules : list (string * user_kind) := [
  ("arch-chroot /mnt id ", KnownUser); ("arch-chroot /mnt useradd ", AddUser)].
Definition is_add_user (k : user_kind) : bool := match k with AddUser => true | _ => false end.
Definition unknown_user (k : user_kind) (res : process_result) : bool :=
  match k with KnownUser => failed res | _ => false end.

Lemma user_guarded config :
  wp (monitor (kind_step user_rules UserOther (precedence_act is_add_user unknown_user)))
    (system_execute config) (fun _ _ => True) false.
Proof.
  unfold system_execute. cbv zeta. walk idtac. unfold create_user. cbv zeta. 
  repeat wp_step; auto; try raised. all: stable idtac; auto.
Qed.

(** The account is only created after [id] did not find it, so that a second
    run of the step keeps the account it finds. *)
Theorem user_created_once (config : InstallerConfig) t o l1 c res l2 :
  runs (system_execute config) t o -> replies t = l1 ++ (c, res) :: l2 ->
  classify_by user_rules UserOther c = AddUser ->
  exists (c' : string) (res' : process_result), (c', res') ∈ l1 /\
    classify_by user_rules UserOther c' = KnownUser /\ failed res' = true.
Proof.
  intros Hr Hl Hc.
  destruct (precedence_runs _ _ _ _ _ _ _ _ (user_guarded config) Hr _ _ _ _ Hl)
    as (c' & res' & Hin & H); [rewrite Hc; reflexivity|].
  exists c', res'. destruct (classify_by user_rules UserOther c'); auto; discriminate.
Qed.

Definition no_user_machine : oracle cmd_sig :=
  fake_runner [("arch-chroot /mnt id ", (1, "", "no such user"))]%Z.

Lemma user_created_once_witness :
  exists (c' : string) (res' : process_result),
    (c', res') ∈ take 10 (replies (trace_of no_user_machine (system_execute sample_config))) /\
    classify_by user_rules UserOther c' = KnownUser /\ failed res' = true.
Proof.
  eapply (user_created_once sample_config); [apply trace_runs | nth_reply 10 | reflexivity].
Defined.
