(* ===== verification/Firewall.v ===== *)
(** * The firewall step ([executors/firewall.py])

    UFW is configured offline, and enabled on the installed system's first boot. *)

From S2P Require Import Prelude PyStr Effects Command PyVal Models Samples Base Patterns.

Definition UFW_CONF : string := TARGET_ROOT +:+ "/etc/ufw/ufw.conf".
Definition UFW_BEFORE_RULES : string := TARGET_ROOT +:+ "/etc/ufw/before.rules".

Definition INBOUND_ICMP_ACCEPT_RULES : list string := [
  "-A ufw-before-input -p icmp --icmp-type destination-unreachable -j ACCEPT";
  "-A ufw-before-input -p icmp --icmp-type time-exceeded -j ACCEPT";
  "-A ufw-before-input -p icmp --icmp-type parameter-problem -j ACCEPT";
  "-A ufw-before-input -p icmp --icmp-type echo-request -j ACCEPT"].

(** [rule.replace("/", "\\/").replace(".", "\\.").replace("-", "\\-")] *)
Definition escaped_rule (rule : string) : string :=
  replace_char (chr 45) "\-" (replace_char (chr 46) "\." (replace_char (chr 47) "\/" rule)).

Definition set_enabled_on_boot (enabled : bool) : cmd unit :=
  let flag := if enabled then "yes" else "no" in
  run ("sed -i 's/^ENABLED=.*/ENABLED=" +:+ flag +:+ "/' " +:+ UFW_CONF).

Section FirewallStepExecutor.
Context (config : InstallerConfig).

Definition allow_ssh : cmd unit :=
  let ssh := firewall_ssh (cfg_firewall config) in
  (if truthy (ssh_allowed_from ssh) then
     run_chroot ("ufw allow from " +:+ ssh_allowed_from ssh +:+ " to any port " +:+
                 str_of_Z (ssh_port ssh) +:+ " proto tcp")
   else run_chroot ("ufw allow " +:+ str_of_Z (ssh_port ssh) +:+ "/tcp")) ;;
  run_chroot "systemctl enable sshd.service".

Definition firewall_execute : cmd unit :=
  let firewall := cfg_firewall config in
  log_info ("Configuring UFW (incoming " +:+ enum_value (firewall_default_incoming firewall) +:+
            ", outgoing " +:+ enum_value (firewall_default_outgoing firewall) +:+ ")...") ;;
  let* installed := chroot_success "pacman -Q ufw" in
  when (negb installed) (run_chroot "pacman -S --noconfirm ufw") ;;
  set_enabled_on_boot false ;;
  run_chroot ("ufw default " +:+ enum_value (firewall_default_incoming firewall) +:+ " incoming") ;;
  run_chroot ("ufw default " +:+ enum_value (firewall_default_outgoing firewall) +:+ " outgoing") ;;
  when (firewall_logging firewall) (run_chroot "ufw logging on") ;;
  when (firewall_block_icmp firewall)
    (for_each (fun rule =>
       run_ignored ("sed -i '/" +:+ escaped_rule rule +:+ "/d' " +:+ UFW_BEFORE_RULES))
     INBOUND_ICMP_ACCEPT_RULES) ;;
  when (ssh_enabled (firewall_ssh firewall)) allow_ssh ;;
  for_each (fun rule =>
      run_chroot ("ufw allow " +:+ str_of_Z (rule_port rule) +:+ "/" +:+ rule_protocol rule))
    (firewall_allow_rules firewall) ;;
  run_chroot "systemctl enable ufw.service" ;;
  set_enabled_on_boot true.
End FirewallStepExecutor.

(** ** The live system is never firewalled

    ufw pushes rules into the running kernel (the live ISO's) whenever
    [ufw.conf] says it is enabled. *)

Inductive ufw_kind := Disable | Enable | Ufw | UfwOther.
Definition ufw_rules : list (string * ufw_kind) := [
  ("sed -i 's/^ENABLED=.*/ENABLED=no/' /mnt/etc/ufw/ufw.conf", Disable);
  ("sed -i 's/^ENABLED=.*/ENABLED=yes/' /mnt/etc/ufw/ufw.conf", Enable);
  ("arch-chroot /mnt ufw ", Ufw)].

Definition is_ufw (k : ufw_kind) : bool := match k with Ufw => true | _ => false end.
Definition disabled (k : ufw_kind) (res : process_result) : bool :=
  match k with Disable => succeeded res | _ => false end.
Definition enabled (k : ufw_kind) (res : process_result) : bool :=
  match k with Enable => true | _ => false end.

Definition switched_on (k : ufw_kind) (res : process_result) : bool :=
  match k with Enable => succeeded res | _ => false end.

Section Offline.
Context (config : InstallerConfig).

Lemma ufw_after_disable :
  wp (monitor (kind_step ufw_rules UfwOther (precedence_act is_ufw disabled)))
    (firewall_execute config) (fun _ _ => True) false.
Proof.
  unfold firewall_execute. cbv zeta. walk idtac.
  wp_step. apply wp_run. intros [e|[|p|p] out err]; eval_step; cbn [then_]; auto.
  raised.
Qed.

(** The commands up to the last one leave ufw disabled. *)
Lemma ufw_before_enable :
  wp (monitor (kind_step ufw_rules UfwOther (absence_act enabled is_ufw)))
    (firewall_execute config) (fun _ _ => True) false.
Proof.
  unfold firewall_execute. cbv zeta. walk ltac:(unfold allow_ssh, set_enabled_on_boot).
  unfold set_enabled_on_boot. cbv zeta. repeat wp_step; auto.
Qed.
End Offline.

(** C39: the firewall step never touches the running kernel's firewall: every
    [ufw] command comes after [ufw.conf] was successfully switched to
    [ENABLED=no] and before it is switched to [ENABLED=yes]. *)
Theorem firewall_configured_offline (config : InstallerConfig) t o l1 c res l2 :
  runs (firewall_execute config) t o -> replies t = l1 ++ (c, res) :: l2 ->
  (classify_by ufw_rules UfwOther c = Ufw ->
     exists (c' : string) (res' : process_result), (c', res') ∈ l1 /\
       classify_by ufw_rules UfwOther c' = Disable /\ succeeded res' = true) /\
  (classify_by ufw_rules UfwOther c = Enable ->
     Forall (fun cr => classify_by ufw_rules UfwOther cr.1 <> Ufw) l2).
Proof.
  intros Hr Hl. split; intros Hc.
  - destruct (precedence_runs _ _ _ _ _ _ _ _ (ufw_after_disable config) Hr _ _ _ _ Hl)
      as (c' & res' & Hin & H); [rewrite Hc; reflexivity|].
    exists c', res'. destruct (classify_by ufw_rules UfwOther c'); auto; discriminate.
  - eapply Forall_impl;
      [eapply (absence_runs _ _ _ _ _ _ _ _ (ufw_before_enable config) Hr _ _ _ _ Hl);
       rewrite Hc; reflexivity|].
    intros cr H E. cbv beta in H. rewrite E in H. discriminate.
Qed.

Lemma firewall_configured_offline_witness :
  exists (c' : string) (res' : process_result),
    (c', res') ∈ take 2 (replies (trace_of fresh_machine (firewall_execute sample_config))) /\
    classify_by ufw_rules UfwOther c' = Disable /\ succeeded res' = true.
Proof.
  edestruct (firewall_configured_offline sample_config
    (trace_of fresh_machine (firewall_execute sample_config))) as [H _];
    [apply trace_runs | nth_reply 2 | exact (H eq_refl)].
Defined.

(** When the step succeeds, ufw is enabled on the next boot: its last command
    switched [ufw.conf] to [ENABLED=yes]. *)
Theorem firewall_enabled_on_boot (config : InstallerConfig) t u :
  runs (firewall_execute config) t (Ok u) ->
  exists l c res, replies t = l ++ [(c, res)] /\
    classify_by ufw_rules UfwOther c = Enable /\
    succeeded res = true.
Proof.
  intros Hr. eapply (last_runs ufw_rules UfwOther switched_on) in Hr as (l & c & res & Hl & Hc).
  - exists l, c, res. split; [exact Hl|]. destruct (classify_by ufw_rules UfwOther c); auto; discriminate.
  - unfold firewall_execute. cbv zeta. walk ltac:(unfold allow_ssh, set_enabled_on_boot).
    unfold set_enabled_on_boot. cbv zeta. repeat wp_step; auto.
Qed.

Lemma firewall_enabled_on_boot_witness :
  exists l c res, replies (trace_of fresh_machine (firewall_execute sample_config)) = l ++ [(c, res)] /\
    classify_by ufw_rules UfwOther c = Enable /\
    succeeded res = true.
Proof.
  eapply (firewall_enabled_on_boot sample_config _ tt).
  apply (trace_runs_ok fresh_machine). concrete.
Defined.
