(* ===== verification/Drivers.v ===== *)
(** * The graphics driver and mirror steps ([executors/gpu.py], [executors/mirrors.py]) *)

From S2P Require Import Prelude PyStr Effects Command PyVal Models Samples Base Patterns.

(** ** The proprietary NVIDIA driver *)

Definition NVIDIA_MODPROBE_DRM_OPTIONS : string := "options nvidia_drm modeset=1 fbdev=1".
Definition NVIDIA_INITRAMFS_MODULES : list string :=
  ["nvidia"; "nvidia_modeset"; "nvidia_uvm"; "nvidia_drm"].
Definition NVIDIA_DRIVER_PACKAGES : list string := ["nvidia"; "nvidia-dkms"; "nvidia-open"].

Definition initramfs_rebuild_hook (kernel_packages : list string) : string :=
  let targets := join nl (map (fun package => "Target=" +:+ package)
    (NVIDIA_DRIVER_PACKAGES ++ kernel_packages)) in
  "[Trigger]" +:+ nl +:+
  "Operation=Install" +:+ nl +:+
  "Operation=Upgrade" +:+ nl +:+
  "Operation=Remove" +:+ nl +:+
  "Type=Package" +:+ nl +:+
  targets +:+ nl +:+
  nl +:+
  "[Action]" +:+ nl +:+
  "Description=Rebuilding initramfs after NVIDIA driver update..." +:+ nl +:+
  "Depends=mkinitcpio" +:+ nl +:+
  "When=PostTransaction" +:+ nl +:+
  "NeedsTargets" +:+ nl +:+
  "Exec=/bin/sh -c 'while read -r trg; do case $trg in linux*) exit 0; esac; done; /usr/bin/mkinitcpio -P'" +:+ nl.

Definition gpu_execute (config : InstallerConfig) : cmd unit :=
  log_info ("Configuring the NVIDIA " +:+
            str_or (enum_value (gpu_driver (cfg_gpu config))) "dkms" +:+ " driver...") ;;
  run ("mkdir -p " +:+ TARGET_ROOT +:+ "/etc/modprobe.d") ;;
  write_file (TARGET_ROOT +:+ "/etc/modprobe.d/nvidia.conf") (NVIDIA_MODPROBE_DRM_OPTIONS +:+ nl) ;;
  run ("mkdir -p " +:+ TARGET_ROOT +:+ "/etc/pacman.d/hooks") ;;
  write_file (TARGET_ROOT +:+ "/etc/pacman.d/hooks/nvidia.hook")
    (initramfs_rebuild_hook (kernel_packages (cfg_boot config))).

(** ** Pacman mirrors *)

Definition LIVE_MIRRORLIST : string := "/etc/pacman.d/mirrorlist".

Definition mirrorlist (mirrors : list string) : string :=
  join nl ("# generated by arch_installer from system.mirrors" ::
           map (fun mirror => "Server = " +:+ mirror) mirrors) +:+ nl.

Definition mirrors_execute (config : InstallerConfig) : cmd unit :=
  let mirrors := system_mirrors (cfg_system config) in
  if mirrors_use_reflector mirrors then
    let countries := join "," (mirrors_reflector_countries mirrors) in
    log_info ("Ranking mirrors with reflector (" +:+ countries +:+ ")...") ;;
    run ("reflector --country '" +:+ countries +:+ "' --protocol https --latest 20 " +:+
         "--sort rate --save " +:+ LIVE_MIRRORLIST)
  else
    log_info ("Using the " +:+ str_of_nat (length (mirrors_mirrors mirrors)) +:+
              " mirrors from config.yaml") ;;
    write_file LIVE_MIRRORLIST (mirrorlist (mirrors_mirrors mirrors)).
