(* ===== verification/Boot.v ===== *)
(** * Kernel images and boot loader ([executors/boot.py])

    Unified kernel images built by mkinitcpio, Secure Boot keys and systemd-boot. *)

From S2P Require Import Prelude PyStr Effects Command PyVal Models Export Samples Base Patterns Drivers.

Definition UKI_DIRECTORY : string := "/efi/EFI/Linux".
Definition PLAIN_VARIANT : UkiVariantConfig :=
  {| variant_suffix := "default"; variant_params := "" |}.
Definition BOOTLOADER_BINARIES : list string :=
  ["/efi/EFI/BOOT/BOOTX64.EFI"; "/efi/EFI/systemd/systemd-bootx64.efi"].
Definition USB_STORAGE_INITRAMFS_MODULES : list string :=
  ["xhci_pci?"; "ehci_pci?"; "ohci_pci?"; "uhci_hcd?"; "usb_storage?"; "uas?"; "sd_mod?"].

Record DetachedLuksHeader := {
  encrypted_device_path : string;
  header_partition_uuid : string }.

(** ** Texts *)

Definition mkinitcpio_conf (hooks modules : list string) : string :=
  "# mkinitcpio configuration" +:+ nl +:+
  "# generated by arch_installer" +:+ nl +:+
  "MODULES=(" +:+ join " " modules +:+ ")" +:+ nl +:+
  "BINARIES=()" +:+ nl +:+
  "FILES=()" +:+ nl +:+
  "HOOKS=(" +:+ join " " hooks +:+ ")" +:+ nl.

Definition uki_path (kernel : string) (variant : UkiVariantConfig) : string :=
  UKI_DIRECTORY +:+ "/arch-" +:+ kernel +:+ "-" +:+ variant_suffix variant +:+ ".efi".

Definition cmdline_file (kernel : string) (variant : UkiVariantConfig) : string :=
  "/etc/kernel/cmdline-" +:+ kernel +:+ "-" +:+ variant_suffix variant.

(** [variant.suffix.replace("-", "_")] *)
Definition preset_name (variant : UkiVariantConfig) : string :=
  replace_char (chr 45) "_" (variant_suffix variant).

Definition preset_entry (kernel : string) (variant : UkiVariantConfig) : string :=
  preset_name variant +:+ "_uki=" +:+ dquote +:+ uki_path kernel variant +:+ dquote +:+ nl +:+
  preset_name variant +:+ "_options=" +:+ dquote +:+
  "--splash /usr/share/systemd/bootctl/splash-arch.bmp --cmdline " +:+
  cmdline_file kernel variant +:+ dquote +:+ nl.

Definition kernel_preset (kernel : string) (variants : list UkiVariantConfig) : string :=
  let preset_names := "fallback" :: map preset_name variants in
  let entries := join "" (map (preset_entry kernel) variants) in
  "# mkinitcpio preset file for " +:+ kernel +:+ " (UKI)" +:+ nl +:+
  "# generated by arch_installer" +:+ nl +:+
  "ALL_config=" +:+ dquote +:+ "/etc/mkinitcpio.conf" +:+ dquote +:+ nl +:+
  "ALL_kver=" +:+ dquote +:+ "/boot/vmlinuz-" +:+ kernel +:+ dquote +:+ nl +:+
  "microcode=(/boot/*-ucode.img)" +:+ nl +:+ nl +:+
  "PRESETS=(" +:+ join " " (map (fun name => "'" +:+ name +:+ "'") preset_names) +:+ ")" +:+ nl +:+ nl +:+
  "# fallback initramfs for snapshot UKI generation" +:+ nl +:+
  "fallback_image=" +:+ dquote +:+ "/boot/initramfs-" +:+ kernel +:+ ".img" +:+ dquote +:+ nl +:+ nl +:+
  entries.

Definition loader_conf (loader : LoaderConfig) : string :=
  "# systemd-boot loader configuration" +:+ nl +:+
  "# generated by arch_installer" +:+ nl +:+
  "timeout " +:+ str_of_Z (loader_timeout loader) +:+ nl +:+
  "console-mode " +:+ loader_console_mode loader +:+ nl +:+
  "editor " +:+ (if loader_editor loader then "yes" else "no") +:+ nl.

(** [asdict(cmdline.hardening).items()] *)
Definition hardening_items (h : CmdlineHardeningConfig) : dict string pyval :=
  match asdict h with PDict d => d | _ => [] end.

(** [value not in ("", 0)] *)
Definition hardening_set (value : pyval) : bool :=
  negb (py_eq value (PStr "") || py_eq value (PInt 0)).

Definition kernel_cmdline (config : InstallerConfig) (luks_uuid : string)
    (detached_header : option DetachedLuksHeader) (resume_offset : option string) : string :=
  let cmdline := boot_cmdline (cfg_boot config) in
  let swap := storage_swap (cfg_storage config) in
  join " " (
    [ "rd.luks.name=" +:+ luks_uuid +:+ "=" +:+ CRYPTROOT_MAPPER_NAME;
      "root=" +:+ cryptroot_device;
      if cmdline_rw cmdline then "rw" else "ro";
      "rootfstype=" +:+ cmdline_rootfstype cmdline;
      "rootflags=" +:+ cmdline_rootflags cmdline ] ++
    match detached_header with
    | Some header =>
        [ "rd.luks.data=" +:+ luks_uuid +:+ "=" +:+ encrypted_device_path header;
          "rd.luks.options=" +:+ luks_uuid +:+ "=" +:+
          "header=/dev/disk/by-partuuid/" +:+ header_partition_uuid header ]
    | None => []
    end ++
    (if cmdline_quiet cmdline then ["quiet"] else []) ++
    map (fun pv => pv.1 +:+ "=" +:+ py_str pv.2)
      (List.filter (fun pv => hardening_set pv.2) (hardening_items (cmdline_hardening cmdline))) ++
    if swap_enabled swap && swap_hibernation swap then
      ("resume=" +:+ cryptroot_device) ::
      match resume_offset with
      | Some offset => if truthy offset then ["resume_offset=" +:+ offset] else []
      | None => []
      end
    else []).

Definition uki_variants (config : InstallerConfig) : list UkiVariantConfig :=
  PLAIN_VARIANT ::
  List.filter (fun variant => negb (String.eqb (variant_suffix variant) (variant_suffix PLAIN_VARIANT)))
    (boot_variants (cfg_boot config)).

(** ** The kernel images step *)

Section KernelImagesStepExecutor.
Context (config : InstallerConfig).

Definition detached_header : cmd (option DetachedLuksHeader) :=
  if negb (usb_boot_enabled (cfg_usb_boot config)) then Ret None
  else
    let* path := stable_disk_path (encrypted_device config) in
    if negb (truthy path) then
      Raise (RuntimeError (encrypted_device config +:+ " has no /dev/disk/by-id name"))
    else
      let* uuid := partition_uuid (luks_header_partition (cfg_usb_boot config)) in
      Ret (Some {| encrypted_device_path := path; header_partition_uuid := uuid |}).

(** The offset on one line of [filefrag -v], if the line is an extent. *)
Definition filefrag_offset (line : string) : option string :=
  let parts := split line in
  if contains ".." line && negb (startswith "ext:" (strip line)) && (4 <=? length parts)%nat then
    let physical_offset := replace_char (chr 58) "" (replace_char (chr 46) "" (nth 3 parts "")) in
    if isdigit physical_offset then Some physical_offset else None
  else None.

Definition swapfile_resume_offset : cmd (option string) :=
  let swap := storage_swap (cfg_storage config) in
  if negb (swap_enabled swap && swap_hibernation swap) then Ret None
  else
    let swap_path := TARGET_ROOT +:+ swap_path swap in
    let* out := run_quiet_stdout ("btrfs inspect-internal map-swapfile -r " +:+ swap_path) in
    let offset := strip out in
    if truthy offset then Ret (Some offset)
    else
      let* filefrag := run_quiet_stdout ("filefrag -v " +:+ swap_path) in
      match omap filefrag_offset (split_on nl filefrag) with
      | physical_offset :: _ => Ret (Some physical_offset)
      | [] =>
          log_warning "Could not determine the swapfile offset, hibernation will not resume" ;;
          Ret None
      end.

(** What the line of [sbctl status] about the setup mode says, if there is one. *)
Definition setup_mode_status (status : string) : option bool :=
  match List.filter (fun line => contains "setup mode" (lower line)) (split_on nl status) with
  | line :: _ => Some (contains "enabled" (lower line))
  | [] => None
  end.

Definition is_in_setup_mode : cmd bool :=
  let* status := run_quiet_stdout (chroot_command "sbctl status") in
  match setup_mode_status status with
  | Some enabled => Ret enabled
  | None =>
      let* efivar := run_chroot_quiet
        "cat /sys/firmware/efi/efivars/SetupMode-* 2>/dev/null | xxd -p | tail -c 3" in
      Ret (success efivar && String.eqb (strip (stdout efivar)) "01")
  end.

Definition enroll_keys (include_microsoft : bool) : cmd unit :=
  let enroll_command :=
    if include_microsoft then "sbctl enroll-keys --microsoft" else "sbctl enroll-keys" in
  log_info ("Enrolling Secure Boot keys (" +:+ enroll_command +:+ ")...") ;;
  let* result := run_chroot_quiet enroll_command in
  when (negb (success result))
    (log_warning ("Key enrollment failed: " +:+ strip (stderr result) +:+
       ". Clear the firmware's Secure Boot keys (Setup Mode), then run: " +:+ enroll_command)).

Definition prepare_secure_boot : cmd unit :=
  let* setup_mode := is_in_setup_mode in
  when (negb setup_mode)
    (log_info "Secure Boot is not in Setup Mode: UKIs get signed, keys are not enrolled.") ;;
  let* keys_exist := file_exists (TARGET_ROOT +:+ SBCTL_PK_KEY) in
  (if keys_exist then log_info "Secure boot keys already exist."
   else
     let* created := chroot_success "sbctl create-keys" in
     when (negb created) (log_warning "Could not create Secure Boot keys.")) ;;
  let secure_boot := boot_secure_boot (cfg_boot config) in
  when (setup_mode && secure_boot_enroll_keys secure_boot)
    (enroll_keys (secure_boot_include_microsoft_keys secure_boot)).

(** The image of one kernel and variant is signed if it was built. *)
Definition sign_uki (kernel : string) (variant : UkiVariantConfig) : cmd unit :=
  let path := uki_path kernel variant in
  let* built := file_exists (TARGET_ROOT +:+ path) in
  when built (run_chroot_ignored ("sbctl sign -s " +:+ path)).

Definition sign_ukis (kernels : list string) (variants : list UkiVariantConfig) : cmd unit :=
  let* keys_exist := file_exists (TARGET_ROOT +:+ SBCTL_DB_KEY) in
  if negb keys_exist then log_info "Skipping UKI signing (no Secure Boot keys available)."
  else for_each (fun kernel => for_each (sign_uki kernel) variants) kernels.

(** The command lines of the variants and the preset of one kernel. *)
Definition write_kernel_files (cmdline : string) (variants : list UkiVariantConfig) (kernel : string)
    : cmd unit :=
  for_each (fun variant =>
      let full_cmdline := strip (cmdline +:+ " " +:+ variant_params variant) in
      write_file (TARGET_ROOT +:+ cmdline_file kernel variant) (full_cmdline +:+ nl))
    variants ;;
  write_file (TARGET_ROOT +:+ "/etc/mkinitcpio.d/" +:+ kernel +:+ ".preset")
    (kernel_preset kernel variants).

Definition initramfs_modules : list string :=
  (if uses_proprietary_nvidia_driver (cfg_gpu config) then NVIDIA_INITRAMFS_MODULES else []) ++
  (if usb_boot_enabled (cfg_usb_boot config) then USB_STORAGE_INITRAMFS_MODULES else []).

Definition kernel_images_execute : cmd unit :=
  write_file (TARGET_ROOT +:+ "/etc/mkinitcpio.conf")
    (mkinitcpio_conf (boot_hooks (cfg_boot config)) initramfs_modules) ;;
  run ("mkdir -p " +:+ TARGET_ROOT +:+ UKI_DIRECTORY) ;;
  let* luks_uuid := detect_luks_uuid (luks_header_device config) in
  if negb (truthy luks_uuid) then
    Raise (RuntimeError ("No LUKS header on " +:+ luks_header_device config))
  else
    let* kernels := filter_each (fun kernel => file_exists (TARGET_ROOT +:+ "/boot/vmlinuz-" +:+ kernel))
      (kernel_packages (cfg_boot config)) in
    match kernels with
    | [] => Raise (RuntimeError ("None of the kernels " +:+
              repr_str_tuple (kernel_packages (cfg_boot config)) +:+ " is installed"))
    | _ =>
        let variants := uki_variants config in
        log_info ("Kernels: " +:+ join ", " kernels +:+ ", UKI variants: " +:+
                  join ", " (map variant_suffix variants)) ;;
        let* header := detached_header in
        let* resume_offset := swapfile_resume_offset in
        let cmdline := kernel_cmdline config luks_uuid header resume_offset in
        run ("mkdir -p " +:+ TARGET_ROOT +:+ "/etc/kernel") ;;
        for_each (write_kernel_files cmdline variants) kernels ;;
        write_file (TARGET_ROOT +:+ "/etc/kernel/cmdline") (cmdline +:+ nl) ;;
        log_info ("Kernel cmdline: " +:+ cmdline) ;;
        prepare_secure_boot ;;
        log_info "Generating UKIs..." ;;
        run_chroot "mkinitcpio -P" ;;
        sign_ukis kernels variants
    end.
End KernelImagesStepExecutor.

(** ** The boot loader step *)

Definition install_on_usb_boot_drive : cmd unit :=
  run_chroot "bootctl install --esp-path=/efi --variables=no --random-seed=no" ;;
  run_chroot "systemctl mask systemd-boot-random-seed.service".

Definition bootloader_execute (config : InstallerConfig) : cmd unit :=
  (if usb_boot_enabled (cfg_usb_boot config) then install_on_usb_boot_drive
   else run_chroot "bootctl install --esp-path=/efi") ;;
  write_file (TARGET_EFI +:+ "/loader/loader.conf") (loader_conf (boot_loader (cfg_boot config))) ;;
  for_each (fun path =>
      let* exists_ := file_exists (TARGET_ROOT +:+ path) in
      when exists_ (run_chroot_ignored ("sbctl sign -s " +:+ path)))
    BOOTLOADER_BINARIES.
