(* ===== verification/UsbBoot.v ===== *)
(** * The USB boot drive ([executors/usb_boot.py])

    Preparing the drive, the safeguards on the installed system, and cloning a
    spare. *)

From S2P Require Import Prelude PyStr Effects Command PyVal Models Samples Base Patterns.

Definition MEBIBYTE : Z := 1024 * 1024.
Definition LUKS_HEADER_PARTITION_SIZE_MB : Z := 32.
Definition PARTITION_TABLE_SIZE_MB : Z := 2.

Definition RECOVERY_MOUNT : string := "/run/dali/usb-recovery".
Definition ARCHISO_DIRECTORY : string := "arch".
Definition ARCHISO_KERNEL : string := "arch/boot/x86_64/vmlinuz-linux".
Definition ARCHISO_INITRAMFS : string := "arch/boot/x86_64/initramfs-linux.img".
Definition ARCHISO_ROOT_IMAGE : string := "arch/x86_64/airootfs.sfs".
Definition ISO9660_SIGNATURE : string := "CD001".
Definition ISO9660_SIGNATURE_OFFSET : Z := 32769.
Definition ISO9660_BLOCK_COUNT_OFFSET : Z := 32848.
Definition ISO9660_BLOCK_SIZE_OFFSET : Z := 32896.

Definition USB_BOOT_SETTINGS_FILE : string := "/etc/default/usb-boot-drive".
Definition USB_BOOT_GUARD_SCRIPT : string := "/usr/local/bin/check-usb-boot-drive".
Definition USB_BOOT_GUARD_HOOK : string := "/etc/pacman.d/hooks/00-usb-boot-drive.hook".
Definition SNAPSHOT_CATCH_UP_SERVICE : string := "snapshot-ukis-catch-up.service".
Definition SNAPSHOT_CATCH_UP_RULE : string := "/etc/udev/rules.d/90-usb-boot-drive.rules".
Definition SNAPSHOT_REFRESH_PENDING_MARKER : string :=
  "/var/lib/manage-snapshot-ukis/refresh-pending".
Definition SNAPSHOT_MANAGER : string := "/usr/local/bin/manage-snapshot-ukis".

Definition REMOVABLE_EFI_MOUNT_OPTIONS : string :=
  "umask=0077,noauto,nofail,x-systemd.automount," +:+
  "x-systemd.idle-timeout=60s,x-systemd.device-timeout=5s".

Definition BOOT_FILE_TARGETS : list string := [
  "boot/*"; "efi/*"; "usr/lib/initcpio/*"; "usr/lib/firmware/*"; "usr/lib/modules/*/vmlinuz";
  "usr/lib/modules/*/extramodules/*"; "usr/lib/modprobe.d/"; "usr/src/*/dkms.conf";
  "usr/lib/systemd/systemd"; "usr/lib/systemd/systemd-udevd"; "usr/lib/**/efi/*.efi*";
  "usr/share/**/*.efi*"; "usr/bin/cryptsetup"; "usr/bin/lvm"; "usr/bin/mdadm";
  "usr/bin/pdata_tools"; "usr/lib/libcryptsetup.so"; "usr/lib/libp11-kit.so";
  "usr/lib/libpcsclite.so"].

(** ** Texts *)

(** [line.split()[1:2] == ["/efi"]] *)
Definition mounts_efi (line : string) : bool :=
  match split line with
  | _ :: second :: _ => String.eqb second "/efi"
  | _ => false
  end.

Definition efi_entry (efi_partition_uuid : string) : string :=
  "PARTUUID=" +:+ efi_partition_uuid +:+ tab +:+ "/efi" +:+ tab +:+ "vfat" +:+ tab +:+
  REMOVABLE_EFI_MOUNT_OPTIONS +:+ tab +:+ "0 2".

Definition removable_efi_fstab (fstab efi_partition_uuid : string) : string :=
  let kept_lines := List.filter (fun line => negb (mounts_efi line)) (splitlines fstab) in
  join nl (kept_lines ++ [efi_entry efi_partition_uuid]) +:+ nl.

Definition usb_boot_settings (efi_partition_uuid : string) : string :=
  "# the USB boot drive this system starts from, written by the DALI installer" +:+ nl +:+
  "EFI_PARTITION_UUID=" +:+ efi_partition_uuid +:+ nl.

Definition USB_BOOT_GUARD_SCRIPT_CONTENT : string := lines [
  "#!/usr/bin/env bash";
  "# run by pacman before a transaction that rewrites boot files: they live on the USB boot";
  "# drive, and a kernel update without it would leave the drive's UKIs behind the modules";
  "set -uo pipefail";
  "";
  ". " +:+ USB_BOOT_SETTINGS_FILE;
  "";
  "# listing /efi mounts the drive (automount) when it is plugged in";
  "ls /efi >/dev/null 2>&1";
  "mounted_uuid=$(findmnt -n -t vfat -o PARTUUID --mountpoint /efi 2>/dev/null)";
  qq "if [ `$mounted_uuid` != `$EFI_PARTITION_UUID` ]; then";
  qq "    echo `The USB boot drive is not plugged in. This transaction rewrites boot files on` >&2";
  qq "    echo `its EFI partition (PARTUUID $EFI_PARTITION_UUID): plug it in and run it again.` >&2";
  "    exit 1";
  "fi"].

Definition usb_boot_guard_hook : string := lines ([
  "# refuses transactions that rewrite boot files while the USB boot drive is unplugged";
  "# sorts before every other hook, so nothing (snap-pac included) runs before the check";
  "";
  "[Trigger]";
  "Type = Path";
  "Operation = Install";
  "Operation = Upgrade";
  "Operation = Remove"] ++
  map (fun target => "Target = " +:+ target) BOOT_FILE_TARGETS ++ [
  "";
  "[Trigger]";
  "Type = Package";
  "Operation = Install";
  "Operation = Upgrade";
  "Target = mkinitcpio";
  "";
  "[Action]";
  "Description = Checking that the USB boot drive is plugged in...";
  "When = PreTransaction";
  "Exec = " +:+ USB_BOOT_GUARD_SCRIPT;
  "AbortOnFail"]).

Definition snapshot_catch_up_rule (efi_partition_uuid : string) : string := lines [
  "# builds the snapshot UKIs skipped while the USB boot drive was unplugged";
  qq "ACTION==`add`, SUBSYSTEM==`block`, ENV{ID_PART_ENTRY_UUID}==`" +:+ efi_partition_uuid +:+
  qq "`, TAG+=`systemd`, ENV{SYSTEMD_WANTS}+=`" +:+ SNAPSHOT_CATCH_UP_SERVICE +:+ dquote].

Definition SNAPSHOT_CATCH_UP_SERVICE_CONTENT : string := lines [
  "[Unit]";
  "Description=Build the snapshot UKIs skipped while the USB boot drive was unplugged";
  "ConditionPathExists=" +:+ SNAPSHOT_REFRESH_PENDING_MARKER;
  "";
  "[Service]";
  "Type=oneshot";
  "ExecStart=" +:+ SNAPSHOT_MANAGER +:+ " refresh"].

(** [math.ceil(iso_size_bytes / MEBIBYTE)]: the division of floats is exact for
    the sizes an ISO 9660 header can state (below 2^48). *)
Definition recovery_partition_size_mb (iso_size_bytes : Z) : Z :=
  let iso_size_mb := (- ((- iso_size_bytes) / MEBIBYTE))%Z in
  (iso_size_mb + iso_size_mb / 10 + 64)%Z.

(** ** [UsbDriveInspector] *)

Definition require_disk (device : string) : cmd unit :=
  let* result := run_quiet ("lsblk -dno TYPE " +:+ device) in
  if negb (success result) || negb (String.eqb (strip (stdout result)) "disk")
  then Raise (UsbBootDriveError (device +:+ " is not a disk"))
  else
    let disk_name := rsplit1_last (chr 47) device in
    let* removable := run_quiet ("cat /sys/block/" +:+ disk_name +:+ "/removable") in
    when (success removable && String.eqb (strip (stdout removable)) "0")
      (log_warning (device +:+ " reports as non-removable, make sure it is the USB drive")).

Definition drive_size_bytes (device : string) : cmd Z :=
  let* out := run_stdout ("blockdev --getsize64 " +:+ device) in
  of_outcome (py_int (strip out)).

(** [for _ in range(rounds)]: wait for a partition, at most that many rounds. *)
Fixpoint wait_for_partition_rounds (rounds : nat) (device partition : string) : cmd unit :=
  match rounds with
  | O => Raise (UsbBootDriveError (partition +:+ " did not appear on " +:+ device))
  | S rounds' =>
      let* appeared := path_exists partition in
      if appeared then Ret tt
      else
        sleep 1 ;;
        run_ignored ("partprobe " +:+ device) ;;
        wait_for_partition_rounds rounds' device partition
  end.
Definition wait_for_partition (device partition : string) : cmd unit :=
  wait_for_partition_rounds 15 device partition.

Definition holds_luks_header (partition : string) : cmd bool :=
  run_success ("cryptsetup isLuks " +:+ partition).

(** ** [ArchIsoImage] *)

Section ArchIsoImage.
Context (source : string).

Definition iso_read (offset length : Z) (format_command : string) : cmd string :=
  let* out := run_stdout
    ("dd if=" +:+ source +:+ " bs=4096 skip=" +:+ str_of_Z offset +:+ " count=" +:+ str_of_Z length +:+
     " iflag=skip_bytes,count_bytes status=none | " +:+ format_command) in
  Ret (strip out).

Definition read_text (offset length : Z) : cmd string := iso_read offset length "cat".

Definition read_number (offset length : Z) : cmd Z :=
  let* out := iso_read offset length ("od -An -tu" +:+ str_of_Z length) in
  of_outcome (py_int out).

Definition iso_size_bytes : cmd Z :=
  let* signature := read_text ISO9660_SIGNATURE_OFFSET (Z.of_nat (str_len ISO9660_SIGNATURE)) in
  if negb (String.eqb signature ISO9660_SIGNATURE) then
    Raise (UsbBootDriveError (source +:+ " is not an ISO 9660 image"))
  else
    let* listing := run_quiet ("bsdtar -tf " +:+ source +:+ " " +:+ ARCHISO_KERNEL +:+ " " +:+
                               ARCHISO_INITRAMFS +:+ " " +:+ ARCHISO_ROOT_IMAGE) in
    if negb (success listing) then
      Raise (UsbBootDriveError (source +:+ " is not an Arch Linux ISO (" +:+ ARCHISO_KERNEL +:+ ", " +:+
               ARCHISO_INITRAMFS +:+ ", " +:+ ARCHISO_ROOT_IMAGE +:+ ")"))
    else
      let* block_count := read_number ISO9660_BLOCK_COUNT_OFFSET 4 in
      let* block_size := read_number ISO9660_BLOCK_SIZE_OFFSET 2 in
      Ret (block_count * block_size)%Z.

Definition extract_live_system (directory : string) : cmd unit :=
  run ("bsdtar -xf " +:+ source +:+ " -C " +:+ directory +:+ " " +:+ ARCHISO_DIRECTORY) ;;
  run ("sync -f " +:+ directory).
End ArchIsoImage.

(** ** [UsbBootDriveStepExecutor] *)

Section UsbBootDriveStepExecutor.
Context (config : InstallerConfig).
Abbreviation usb := (cfg_usb_boot config).

Definition keeps_existing_drive : cmd bool :=
  let* mounted := is_mountpoint TARGET_ROOT in
  let resuming := mounted ||
    (bool_decide (storage_wipe_method (cfg_storage config) = WIPE_SKIP) &&
     negb (migration_enabled (cfg_migration config))) in
  let header_partition := luks_header_partition usb in
  if resuming then
    let* holds_header := holds_luks_header header_partition in
    if holds_header then
      log_info ("Keeping the USB boot drive, " +:+ header_partition +:+ " holds the LUKS header") ;;
      Ret true
    else Ret false
  else Ret false.

Definition needed_mb (recovery_size_mb : Z) : Z :=
  (PARTITION_TABLE_SIZE_MB + storage_efi_size_mb (cfg_storage config) +
   LUKS_HEADER_PARTITION_SIZE_MB + recovery_size_mb)%Z.

Definition require_capacity (recovery_size_mb : Z) : cmd unit :=
  let device := usb_boot_device usb in
  let* size := drive_size_bytes device in
  let available_mb := (size / MEBIBYTE)%Z in
  if (available_mb <? needed_mb recovery_size_mb)%Z then
    Raise (UsbBootDriveError (device +:+ " holds " +:+ str_of_Z available_mb +:+
      " MiB, the USB boot drive needs " +:+ str_of_Z (needed_mb recovery_size_mb) +:+ " MiB"))
  else Ret tt.

Definition release_drive : cmd unit :=
  run_ignored ("umount -R " +:+ TARGET_ROOT) ;;
  run_ignored ("umount " +:+ RECOVERY_MOUNT) ;;
  run_ignored "swapoff -a" ;;
  run_ignored ("cryptsetup close " +:+ CRYPTROOT_MAPPER_NAME) ;;
  for_each (fun partition => run_ignored ("umount " +:+ partition))
    [usb_efi_partition usb; recovery_partition usb].

Definition partition_drive (recovery_size_mb : Z) : cmd unit :=
  let device := usb_boot_device usb in
  run_ignored ("wipefs -af " +:+ device) ;;
  run ("sgdisk -Z " +:+ device) ;;
  run ("sgdisk -n1:0:+" +:+ str_of_Z (storage_efi_size_mb (cfg_storage config)) +:+
       "M -t1:ef00 " +:+ device) ;;
  run ("sgdisk -n2:0:+" +:+ str_of_Z LUKS_HEADER_PARTITION_SIZE_MB +:+ "M -t2:8300 " +:+ device) ;;
  let* last_partition :=
    if negb (recovery_size_mb =? 0)%Z then
      run ("sgdisk -n3:0:+" +:+ str_of_Z recovery_size_mb +:+ "M -t3:8300 " +:+ device) ;;
      Ret (recovery_partition usb)
    else Ret (luks_header_partition usb) in
  run_ignored ("partprobe " +:+ device) ;;
  run_ignored "udevadm settle" ;;
  wait_for_partition device last_partition ;;
  run_ignored ("wipefs -af " +:+ luks_header_partition usb).

Definition store_recovery_system : cmd unit :=
  let partition := recovery_partition usb in
  let source := usb_boot_iso_path usb in
  log_info ("Copying the live system of " +:+ source +:+ " to the recovery partition...") ;;
  run ("mkfs.ext4 -F -m 0 -L RECOVERY " +:+ partition) ;;
  run ("mkdir -p " +:+ RECOVERY_MOUNT) ;;
  run ("mount -t ext4 " +:+ partition +:+ " " +:+ RECOVERY_MOUNT) ;;
  try_finally (extract_live_system source RECOVERY_MOUNT)
    (run_ignored ("umount " +:+ RECOVERY_MOUNT)).

Definition usb_boot_drive_execute : cmd unit :=
  let target_disk := storage_target_disk (cfg_storage config) in
  if String.eqb (usb_boot_device usb) target_disk then
    Raise (UsbBootDriveError (usb_boot_device usb +:+ " is the target disk, not a USB drive"))
  else
    require_disk (usb_boot_device usb) ;;
    let* stable_path := stable_disk_path target_disk in
    if negb (truthy stable_path) then
      Raise (UsbBootDriveError (target_disk +:+
        " has no /dev/disk/by-id name. Without a partition table the " +:+
        "boot finds the disk only by that name"))
    else
      let* keeps := keeps_existing_drive in
      if keeps then Ret tt
      else
        let* iso_size :=
          if usb_boot_recovery_system usb then iso_size_bytes (usb_boot_iso_path usb) else Ret 0%Z in
        let recovery_size_mb :=
          if negb (iso_size =? 0)%Z then recovery_partition_size_mb iso_size else 0%Z in
        require_capacity recovery_size_mb ;;
        log_info ("Preparing the USB boot drive " +:+ usb_boot_device usb +:+ "...") ;;
        release_drive ;;
        partition_drive recovery_size_mb ;;
        run ("mkfs.vfat -F32 -n EFI " +:+ usb_efi_partition usb) ;;
        when (usb_boot_recovery_system usb) store_recovery_system.

(** ** [UsbBootSafeguardsStepExecutor] *)

Definition mount_efi_on_demand (efi_partition_uuid : string) : cmd unit :=
  let fstab_path := TARGET_ROOT +:+ "/etc/fstab" in
  let* fstab := run_stdout ("cat " +:+ fstab_path) in
  write_file fstab_path (removable_efi_fstab fstab efi_partition_uuid).

Definition install_update_guard (efi_partition_uuid : string) : cmd unit :=
  write_file (TARGET_ROOT +:+ USB_BOOT_SETTINGS_FILE) (usb_boot_settings efi_partition_uuid) ;;
  let guard_script := TARGET_ROOT +:+ USB_BOOT_GUARD_SCRIPT in
  run ("mkdir -p " +:+ TARGET_ROOT +:+ "/etc/pacman.d/hooks " +:+ TARGET_ROOT +:+ "/usr/local/bin") ;;
  write_file guard_script USB_BOOT_GUARD_SCRIPT_CONTENT ;;
  run ("chmod 755 " +:+ guard_script) ;;
  write_file (TARGET_ROOT +:+ USB_BOOT_GUARD_HOOK) usb_boot_guard_hook.

Definition install_snapshot_catch_up (efi_partition_uuid : string) : cmd unit :=
  run ("mkdir -p " +:+ TARGET_ROOT +:+ "/etc/udev/rules.d") ;;
  write_file (TARGET_ROOT +:+ SNAPSHOT_CATCH_UP_RULE) (snapshot_catch_up_rule efi_partition_uuid) ;;
  write_file (TARGET_ROOT +:+ "/etc/systemd/system/" +:+ SNAPSHOT_CATCH_UP_SERVICE)
    SNAPSHOT_CATCH_UP_SERVICE_CONTENT.

Definition usb_safeguards_execute : cmd unit :=
  let* efi_partition_uuid := partition_uuid (usb_efi_partition usb) in
  log_info "Installing the USB boot drive safeguards..." ;;
  mount_efi_on_demand efi_partition_uuid ;;
  install_update_guard efi_partition_uuid ;;
  when (boot_enable_snapshot_boot (cfg_boot config)) (install_snapshot_catch_up efi_partition_uuid).
End UsbBootDriveStepExecutor.

(** ** [UsbBootDriveCloner] *)

Definition existing_partitions (device : string) : cmd (list string) :=
  filter_each path_exists (map (derive_partition_path device) [1; 2; 3]%Z).

(** The copy of one partition. *)
Definition clone_partition (spare_device : string) (pair : string * string) : cmd unit :=
  let '(source_partition, spare_partition) := pair in
  wait_for_partition spare_device spare_partition ;;
  run ("dd if=" +:+ source_partition +:+ " of=" +:+ spare_partition +:+ " bs=4M conv=fsync status=none").

(** The partitions of the spare drive: one for each of the source. *)
Definition spare_partitions (spare_device : string) (source_partitions : list string) : list string :=
  map (fun i => derive_partition_path spare_device (Z.of_nat i)) (seq 1 (length source_partitions)).

Definition clone (source_device spare_device : string) : cmd unit :=
  if String.eqb source_device spare_device then
    Raise (UsbBootDriveError "The spare drive must be another drive than the USB boot drive")
  else
    require_disk source_device ;;
    require_disk spare_device ;;
    let* source_partitions := existing_partitions source_device in
    let not_a_boot_drive : cmd unit :=
      Raise (UsbBootDriveError (source_device +:+ " is not a USB boot drive (no LUKS header)")) in
    match source_partitions with
    | efi :: header :: _ =>
        let* holds := holds_luks_header header in
        if negb holds then not_a_boot_drive
        else
          let* mountpoints := run_stdout ("lsblk -nro MOUNTPOINT " +:+ spare_device) in
          if truthy (strip mountpoints) then
            Raise (UsbBootDriveError (spare_device +:+ " has mounted partitions"))
          else
            log_info ("Cloning " +:+ source_device +:+ " to " +:+ spare_device +:+ "...") ;;
            run_ignored ("wipefs -af " +:+ spare_device) ;;
            run ("sgdisk --replicate=" +:+ spare_device +:+ " " +:+ source_device) ;;
            run_ignored ("sgdisk -e " +:+ spare_device) ;;
            run_ignored ("partprobe " +:+ spare_device) ;;
            run_ignored "udevadm settle" ;;
            let spares := spare_partitions spare_device source_partitions in
            for_each (clone_partition spare_device) (zip source_partitions spares) ;;
            run ("cmp " +:+ header +:+ " " +:+ nth 1 spares "") ;;
            log_info (spare_device +:+
              " is a spare USB boot drive. Keep it apart from the original: both carry the " +:+
              "same partition UUIDs")
    | _ => not_a_boot_drive
    end.
