(* ===== verification/Migration.v ===== *)
(** * Migration from an existing install ([executors/migration.py])

    Staging copies what is to be kept off the disk before the storage step wipes
    it; restoring copies it into the new system. *)

From S2P Require Import Prelude PyStr Effects Command PyVal Models Samples Base Patterns.

Definition STAGING_DIRECTORY : string := "/tmp/migration-staging".
Definition OLD_MOUNT_DIRECTORY : string := "/tmp/old-system".
Definition OLD_MAPPER_NAME : string := "oldcryptroot".
Definition STAGING_HEADROOM_MB : Z := 256.

Definition path_in_old_root (path : string) : string :=
  OLD_MOUNT_DIRECTORY +:+ "/@/" +:+ lstrip_chars "/" path.

Record ExistingInstallInfo := {
  existing_disk : string;
  existing_root_partition : string;
  existing_home_subvolume : string;
  existing_home_size_mb : Z;
  existing_secure_boot_directory : string }.

(** ** [MigrationStagingStepExecutor] *)

Section MigrationStagingStepExecutor.
Context (config : InstallerConfig).
Abbreviation migration := (cfg_migration config).

(** The devices in the listing of [lsblk], without the disk itself. *)
Definition listed_partitions (disk listing : string) : list string :=
  map (fun name => "/dev/" +:+ strip name)
    (List.filter (fun name => truthy (strip name) && negb (String.eqb (strip name) (path_name disk)))
      (split_on nl listing)).

Definition find_luks_partition (disk : string) : cmd string :=
  let* listing := run_quiet_stdout ("lsblk -ln -o NAME " +:+ disk) in
  let* found := find_each (fun partition => run_success ("cryptsetup isLuks " +:+ partition))
    (listed_partitions disk listing) in
  match found with
  | Some partition => Ret partition
  | None => Raise (MigrationError ("No LUKS partition found on " +:+ disk +:+ ", nothing to migrate"))
  end.

Definition open_and_mount (partition : string) : cmd unit :=
  let* unlocked := run_input_quiet
    ("cryptsetup open --key-file - " +:+ partition +:+ " " +:+ OLD_MAPPER_NAME)
    (source_luks_password (cfg_credentials config)) in
  if negb (success unlocked) then
    Raise (MigrationError ("Could not unlock " +:+ partition +:+ " with the old LUKS password: " +:+
                           strip (stderr unlocked)))
  else
    run ("mkdir -p " +:+ OLD_MOUNT_DIRECTORY) ;;
    let* mounted := run_quiet ("mount -t btrfs -o subvolid=5 /dev/mapper/" +:+ OLD_MAPPER_NAME +:+ " " +:+
                               OLD_MOUNT_DIRECTORY) in
    if negb (success mounted) then
      run_ignored ("cryptsetup close " +:+ OLD_MAPPER_NAME) ;;
      Raise (MigrationError ("Could not mount the existing system: " +:+ strip (stderr mounted)))
    else Ret tt.

Definition unmount_and_close : cmd unit :=
  run_ignored ("umount " +:+ OLD_MOUNT_DIRECTORY) ;;
  run_ignored ("cryptsetup close " +:+ OLD_MAPPER_NAME) ;;
  run_ignored ("rmdir " +:+ OLD_MOUNT_DIRECTORY).

Definition size_mb (path : string) : cmd Z :=
  let* out := run_quiet_stdout ("du -sm " +:+ path) in
  match split out with
  | size :: _ => if isdigit size then of_outcome (int_of_digits size) else Ret 0%Z
  | [] => Ret 0%Z
  end.

Definition find_secure_boot_directory : cmd string :=
  let* found := find_each (fun candidate => directory_exists (candidate +:+ "/keys"))
    (map path_in_old_root [SBCTL_DIRECTORY; SBCTL_LEGACY_DIRECTORY]) in
  Ret (match found with Some candidate => candidate | None => "" end).

Definition inspect_mounted_system (disk root_partition : string) : cmd ExistingInstallInfo :=
  let* subvolumes := run_quiet_stdout ("btrfs subvolume list " +:+ OLD_MOUNT_DIRECTORY) in
  let home_subvolume := if contains "@home" subvolumes then "@home" else "" in
  let* home_size_mb :=
    if truthy home_subvolume then size_mb (OLD_MOUNT_DIRECTORY +:+ "/" +:+ home_subvolume)
    else Ret 0%Z in
  let* secure_boot_directory := find_secure_boot_directory in
  Ret {| existing_disk := disk; existing_root_partition := root_partition;
         existing_home_subvolume := home_subvolume; existing_home_size_mb := home_size_mb;
         existing_secure_boot_directory := secure_boot_directory |}.

Definition ensure_staging_space (existing : ExistingInstallInfo) : cmd unit :=
  let base_mb := (STAGING_HEADROOM_MB +
    if migration_preserve_home migration then existing_home_size_mb existing else 0)%Z in
  let* sizes := map_each (fun path => size_mb (path_in_old_root path))
    (migration_additional_paths migration) in
  let required_mb := fold_left Z.add sizes base_mb in
  let staging_parent := path_parent STAGING_DIRECTORY in
  let* df_output := run_quiet_stdout ("df --output=avail -m " +:+ staging_parent) in
  let available_field := strip (last_of (split_on nl (strip df_output))) in
  let* available_mb :=
    if isdigit available_field then of_outcome (int_of_digits available_field) else Ret 0%Z in
  log_info ("Staging needs ~" +:+ str_of_Z required_mb +:+ "MB, " +:+ staging_parent +:+ " has " +:+
            str_of_Z available_mb +:+ "MB free") ;;
  if (available_mb <? required_mb)%Z then
    Raise (MigrationError ("Not enough space to stage the migration in " +:+ staging_parent +:+
      ": need ~" +:+ str_of_Z required_mb +:+ "MB, " +:+ str_of_Z available_mb +:+ "MB available"))
  else Ret tt.

Definition copy_into_staging (source_directory staging_name : string) : cmd unit :=
  log_info ("Staging " +:+ source_directory +:+ "...") ;;
  run ("mkdir -p " +:+ STAGING_DIRECTORY +:+ "/" +:+ staging_name) ;;
  run ("cp -a " +:+ source_directory +:+ "/. " +:+ STAGING_DIRECTORY +:+ "/" +:+ staging_name +:+ "/").

Definition stage_additional_path (path : string) : cmd unit :=
  let source := path_in_old_root path in
  let* exists_ := path_exists source in
  when exists_
    (let destination := STAGING_DIRECTORY +:+ "/additional/" +:+ lstrip_chars "/" path in
     run ("mkdir -p " +:+ path_parent destination) ;;
     run ("cp -a " +:+ source +:+ " " +:+ destination)).

Definition copy_to_staging (existing : ExistingInstallInfo) : cmd unit :=
  run ("rm -rf " +:+ STAGING_DIRECTORY) ;;
  run ("mkdir -p " +:+ STAGING_DIRECTORY) ;;
  when (migration_preserve_home migration && truthy (existing_home_subvolume existing))
    (copy_into_staging (OLD_MOUNT_DIRECTORY +:+ "/" +:+ existing_home_subvolume existing) "home") ;;
  when (migration_preserve_secure_boot_keys migration &&
        truthy (existing_secure_boot_directory existing))
    (copy_into_staging (existing_secure_boot_directory existing) "sbctl") ;;
  for_each stage_additional_path (migration_additional_paths migration).

Definition migration_staging_execute : cmd unit :=
  let disk := storage_target_disk (cfg_storage config) in
  let* luks_partition := find_luks_partition disk in
  open_and_mount luks_partition ;;
  try_finally
    (let* existing := inspect_mounted_system disk luks_partition in
     log_info ("Existing install on " +:+ existing_root_partition existing +:+ ": home " +:+
               str_of_Z (existing_home_size_mb existing) +:+ "MB, secure boot keys: " +:+
               str_or (existing_secure_boot_directory existing) "none") ;;
     ensure_staging_space existing ;;
     copy_to_staging existing)
    unmount_and_close ;;
  log_info "Migration staging complete".

(** ** [MigrationRestoreStepExecutor] *)

Definition staged_destinations : list (string * string) := [
  (STAGING_DIRECTORY +:+ "/home", TARGET_ROOT +:+ "/home");
  (STAGING_DIRECTORY +:+ "/sbctl", TARGET_ROOT +:+ SBCTL_DIRECTORY);
  (STAGING_DIRECTORY +:+ "/additional", TARGET_ROOT)].

Definition restore_directory (staged : string * string) : cmd unit :=
  let '(staged_directory, destination) := staged in
  let* exists_ := directory_exists staged_directory in
  when exists_
    (log_info ("Restoring " +:+ destination +:+ "...") ;;
     run ("mkdir -p " +:+ destination) ;;
     run ("cp -a " +:+ staged_directory +:+ "/. " +:+ destination +:+ "/")).

Definition report_restored_data : cmd unit :=
  when (migration_preserve_home migration)
    (let* home_listing := run_quiet_stdout ("ls -A " +:+ TARGET_ROOT +:+ "/home") in
     when (negb (truthy (strip home_listing))) (log_warning "Restored home directory is empty")) ;;
  when (migration_preserve_secure_boot_keys migration)
    (let* keys := directory_exists (TARGET_ROOT +:+ SBCTL_DIRECTORY +:+ "/keys") in
     when (negb keys) (log_warning "Secure boot keys were not restored")).

Definition migration_restore_execute : cmd unit :=
  let* staged := directory_exists STAGING_DIRECTORY in
  if negb staged then log_info "No staging data to restore"
  else
    for_each restore_directory staged_destinations ;;
    report_restored_data ;;
    run ("rm -rf " +:+ STAGING_DIRECTORY).
End MigrationStagingStepExecutor.
