(* ===== verification/Snapper.v ===== *)
(** * Snapper ([executors/snapper.py])

    Snapper configuration, bootable snapshot images and snapshot notifications. *)

From S2P Require Import Prelude PyStr Effects Command PyVal Models Samples Base Patterns.

Definition SNAPSHOT_MANAGER : string := "/usr/local/bin/manage-snapshot-ukis".
Definition SNAPSHOT_MANAGER_SETTINGS : string := "/etc/default/manage-snapshot-ukis".
Definition SNAPSHOT_REFRESH_HOOK_SCRIPT : string := "/usr/local/bin/refresh-snapshot-ukis".
Definition MICROCODE_PACKAGES : list string := ["amd-ucode"; "intel-ucode"].

(** ** Texts *)

Definition yes_no (enabled : bool) : string := if enabled then "yes" else "no".

Definition snapper_volume_config (volume : SnapperVolumeConfig) (allow_groups : list string) : string := lines [
  "# snapper config for " +:+ volume_subvolume volume;
  "# created by arch_installer (D-Bus not available in chroot)";
  EmptyString;
  qq "SUBVOLUME=`" +:+ volume_subvolume volume +:+ qq "`";
  qq "FSTYPE=`btrfs`";
  qq "ALLOW_USERS=``";
  qq "ALLOW_GROUPS=`" +:+ join "," allow_groups +:+ qq "`";
  qq "SYNC_ACL=`yes`";
  qq "BACKGROUND_COMPARISON=`yes`";
  EmptyString;
  qq "NUMBER_CLEANUP=`" +:+ yes_no (volume_cleanup volume) +:+ qq "`";
  qq "NUMBER_MIN_AGE=`1800`";
  qq "NUMBER_LIMIT=`" +:+ str_of_Z (volume_number_limit volume) +:+ qq "`";
  qq "NUMBER_LIMIT_IMPORTANT=`" +:+ str_of_Z (volume_number_limit_important volume) +:+ qq "`";
  EmptyString;
  qq "TIMELINE_CREATE=`" +:+ yes_no (volume_timeline volume) +:+ qq "`";
  qq "TIMELINE_CLEANUP=`" +:+ yes_no (volume_cleanup volume) +:+ qq "`";
  qq "TIMELINE_MIN_AGE=`1800`";
  qq "TIMELINE_LIMIT_HOURLY=`" +:+ str_of_Z (retention_hourly (volume_retention volume)) +:+ qq "`";
  qq "TIMELINE_LIMIT_DAILY=`" +:+ str_of_Z (retention_daily (volume_retention volume)) +:+ qq "`";
  qq "TIMELINE_LIMIT_WEEKLY=`" +:+ str_of_Z (retention_weekly (volume_retention volume)) +:+ qq "`";
  qq "TIMELINE_LIMIT_MONTHLY=`" +:+ str_of_Z (retention_monthly (volume_retention volume)) +:+ qq "`";
  qq "TIMELINE_LIMIT_YEARLY=`" +:+ str_of_Z (retention_yearly (volume_retention volume)) +:+ qq "`";
  EmptyString;
  qq "EMPTY_PRE_POST_CLEANUP=`" +:+ yes_no (volume_cleanup volume) +:+ qq "`";
  qq "EMPTY_PRE_POST_MIN_AGE=`1800`"].

Definition SNAP_PAC_ROOT_CONFIG : string := lines ["[root]"; "snapshot = yes"; "cleanup = timeline"].

Definition snapshot_manager_settings (snapshot_count : Z) (preferred_kernel : string) : string := lines [
  "# read by manage-snapshot-ukis, generated by arch_installer from config.yaml";
  "SNAPSHOT_COUNT=" +:+ str_of_Z snapshot_count;
  "PREFERRED_KERNEL=" +:+ preferred_kernel].

Definition SNAPSHOT_BOOT_ENTRIES_SERVICE : string := lines [
  "[Unit]";
  "Description=Refresh systemd-boot entries for BTRFS snapshots";
  "After=snapper-cleanup.service snapper-timeline.service";
  EmptyString;
  "[Service]";
  "Type=oneshot";
  "ExecStart=" +:+ SNAPSHOT_MANAGER +:+ " refresh-settled"].

Definition SNAPSHOT_BOOT_ENTRIES_PATH : string := lines [
  "[Unit]";
  "Description=Watch for snapper snapshot changes";
  EmptyString;
  "[Path]";
  "PathChanged=/.snapshots";
  "Unit=snapper-boot-entries.service";
  EmptyString;
  "[Install]";
  "WantedBy=multi-user.target"].

Definition snapshot_refresh_pacman_hook (kernel_packages : list string) : string :=
  let package_targets := join nl (map (fun package => "Target = " +:+ package)
    (kernel_packages ++ MICROCODE_PACKAGES)) in
  lines [
  "# refreshes bootable snapshot UKIs once a kernel or initramfs changed";
  "# runs after 90-mkinitcpio-install.hook, which rebuilds the system UKIs";
  EmptyString;
  "[Trigger]";
  "Type = Path";
  "Operation = Install";
  "Operation = Upgrade";
  "Target = usr/lib/modules/*/vmlinuz";
  "Target = usr/lib/initcpio/*";
  EmptyString;
  "[Trigger]";
  "Type = Package";
  "Operation = Install";
  "Operation = Upgrade";
  package_targets;
  EmptyString;
  "[Action]";
  "Description = Refreshing snapshot boot UKIs...";
  "When = PostTransaction";
  "Exec = " +:+ SNAPSHOT_REFRESH_HOOK_SCRIPT;
  "NeedsTargets"].

Definition SNAPSHOT_REFRESH_HOOK_SCRIPT_CONTENT : string := lines [
  "#!/usr/bin/env bash";
  "# called by the pacman hook after kernel updates; never fails the transaction";
  "set -uo pipefail";
  EmptyString;
  qq "LOG_FILE=`/var/log/snapshot-uki-refresh.log`";
  EmptyString;
  "log() {";
  qq "    echo `[$(date '+%Y-%m-%d %H:%M:%S')] $*` | tee -a `$LOG_FILE`";
  "}";
  EmptyString;
  qq "if [ ! -x `" +:+ SNAPSHOT_MANAGER +:+ qq "` ]; then";
  qq "    log `Warning: " +:+ SNAPSHOT_MANAGER +:+ qq " not found, skipping refresh`";
  "    exit 0";
  "fi";
  EmptyString;
  qq "if [ ! -d `/.snapshots` ] || [ -z `$(ls -A /.snapshots 2>/dev/null)` ]; then";
  qq "    log `No snapshots found in /.snapshots, skipping UKI refresh`";
  "    exit 0";
  "fi";
  EmptyString;
  qq "log `Refreshing snapshot UKIs after kernel update...`";
  qq "if `" +:+ SNAPSHOT_MANAGER +:+ qq "` refresh >> `$LOG_FILE` 2>&1; then";
  qq "    log `Snapshot UKIs refreshed successfully`";
  "else";
  qq "    log `Warning: Failed to refresh some snapshot UKIs`";
  "fi";
  "exit 0"].

Definition SNAPPER_NOTIFY_SERVICE : string := lines [
  "[Unit]";
  "Description=Notify on snapper snapshot creation";
  "After=snapper-timeline.timer snap-pac.service";
  EmptyString;
  "[Service]";
  "Type=oneshot";
  "ExecStart=/usr/local/bin/snapper-notify"].

Definition SNAPPER_NOTIFY_PATH : string := lines [
  "[Unit]";
  "Description=Watch for new snapshots and notify";
  EmptyString;
  "[Path]";
  "PathChanged=/.snapshots";
  "Unit=snapper-notify.service";
  EmptyString;
  "[Install]";
  "WantedBy=multi-user.target"].

Definition SNAPPER_NOTIFY_SCRIPT : string := lines [
  "#!/bin/bash";
  "# Desktop notification for snapper snapshot creation";
  "# Requires: libnotify (notify-send)";
  EmptyString;
  "set -euo pipefail";
  EmptyString;
  qq "SNAPSHOT_DIR=`/.snapshots`";
  qq "LAST_NOTIFIED_FILE=`/tmp/snapper-last-notified`";
  EmptyString;
  qq "latest_snapshot=$(ls -1t `$SNAPSHOT_DIR` 2>/dev/null | head -n1)";
  qq "[[ -z `$latest_snapshot` ]] && exit 0";
  EmptyString;
  "# avoid duplicate notifications";
  qq "if [[ -f `$LAST_NOTIFIED_FILE` ]]; then";
  qq "    last_notified=$(cat `$LAST_NOTIFIED_FILE`)";
  qq "    [[ `$latest_snapshot` == `$last_notified` ]] && exit 0";
  "fi";
  EmptyString;
  "# get snapshot info";
  qq "info_file=`$SNAPSHOT_DIR/$latest_snapshot/info.xml`";
  qq "if [[ -f `$info_file` ]]; then";
  qq "    description=$(grep -oP '(?<=<description>).*(?=</description>)' `$info_file` 2>/dev/null || echo ``)";
  qq "    snap_type=$(grep -oP '(?<=<type>).*(?=</type>)' `$info_file` 2>/dev/null || echo `single`)";
  "else";
  qq "    description=``";
  qq "    snap_type=`single`";
  "fi";
  EmptyString;
  "# send notification to logged-in user";
  "for uid in $(loginctl list-users --no-legend | awk '{print $1}'); do";
  qq "    user=$(id -nu `$uid` 2>/dev/null || continue)";
  qq "    export DISPLAY=`:0`";
  qq "    export DBUS_SESSION_BUS_ADDRESS=`unix:path=/run/user/$uid/bus`";
  EmptyString;
  qq "    title=`Snapshot #$latest_snapshot created`";
  qq "    body=`${description:-$snap_type snapshot}`";
  EmptyString;
  qq "    sudo -u `$user` notify-send -i drive-harddisk -a `Snapper` `$title` `$body` 2>/dev/null || true";
  "done";
  EmptyString;
  qq "echo `$latest_snapshot` > `$LAST_NOTIFIED_FILE`"].

(** ** The steps *)

Section SnapperStepExecutor.
Context (config : InstallerConfig).

Definition prepare_snapshots_subvolume (volume : SnapperVolumeConfig) : cmd unit :=
  let snapshots_directory := TARGET_ROOT +:+ volume_snapshots_path volume in
  let* mounted := is_mountpoint snapshots_directory in
  when mounted (run ("umount " +:+ snapshots_directory)) ;;
  let* exists_ := directory_exists snapshots_directory in
  when exists_
    (let* subvolume := run_success ("btrfs subvolume show " +:+ snapshots_directory) in
     if subvolume then run_ignored ("btrfs subvolume delete " +:+ snapshots_directory)
     else run_ignored ("rmdir " +:+ snapshots_directory)) ;;
  run ("mkdir -p " +:+ snapshots_directory) ;;
  let mount_options := btrfs_mount_options (storage_btrfs (cfg_storage config)) in
  run ("mount -t btrfs -o subvol=" +:+ volume_snapshots_subvolume volume +:+ "," +:+ mount_options +:+ " " +:+
       cryptroot_device +:+ " " +:+ snapshots_directory) ;;
  run ("chmod 750 " +:+ snapshots_directory).

(** One round of the loop over the volumes. *)
Definition configure_volume (named : string * SnapperVolumeConfig) : cmd unit :=
  let '(name, volume) := named in
  let config_file := TARGET_ROOT +:+ "/etc/snapper/configs/" +:+ name in
  let* exists_ := file_exists config_file in
  (if exists_ then log_info ("Snapper config '" +:+ name +:+ "' already exists, updating it.")
   else prepare_snapshots_subvolume volume) ;;
  write_file config_file (snapper_volume_config volume (snapper_allow_groups (cfg_snapper config))).

Definition snapper_execute : cmd unit :=
  let snapper := cfg_snapper config in
  log_info ("Configuring snapper (allowed groups: " +:+ join ", " (snapper_allow_groups snapper) +:+ ")...") ;;
  let* installed := chroot_success "pacman -Q snapper" in
  when (negb installed) (run_chroot "pacman -S --noconfirm snapper snap-pac") ;;
  run ("mkdir -p " +:+ TARGET_ROOT +:+ "/etc/snapper/configs") ;;
  run ("mkdir -p " +:+ TARGET_ROOT +:+ "/etc/conf.d") ;;
  for_each configure_volume (snapper_volumes snapper) ;;
  let configured_names := join " " (dict_keys (snapper_volumes snapper)) in
  write_file (TARGET_ROOT +:+ "/etc/conf.d/snapper")
    ("SNAPPER_CONFIGS=" +:+ dquote +:+ configured_names +:+ dquote +:+ nl) ;;
  run_chroot "systemctl enable snapper-timeline.timer" ;;
  run_chroot "systemctl enable snapper-cleanup.timer" ;;
  when (snapper_snap_pac snapper)
    (run ("mkdir -p " +:+ TARGET_ROOT +:+ "/etc/snap-pac.d") ;;
     write_file (TARGET_ROOT +:+ "/etc/snap-pac.d/root.conf") SNAP_PAC_ROOT_CONFIG).

(** [boot.kernel_packages[0]] is evaluated when the settings are written. *)
Definition bootable_snapshots_execute : cmd unit :=
  let boot := cfg_boot config in
  let snapshot_count := snapper_bootable_snapshot_count (cfg_snapper config) in
  log_info ("Enabling bootable snapshots (newest " +:+ str_of_Z snapshot_count +:+ " get a UKI)...") ;;
  let* preferred_kernel :=
    match kernel_packages boot with
    | kernel :: _ => Ret kernel
    | [] => Raise (IndexError "tuple index out of range")
    end in
  write_file (TARGET_ROOT +:+ SNAPSHOT_MANAGER_SETTINGS)
    (snapshot_manager_settings snapshot_count preferred_kernel) ;;
  run ("mkdir -p " +:+ TARGET_ROOT +:+ "/etc/pacman.d/hooks " +:+ TARGET_ROOT +:+ "/usr/local/bin") ;;
  write_file (TARGET_ROOT +:+ "/etc/pacman.d/hooks/95-snapshot-uki-refresh.hook")
    (snapshot_refresh_pacman_hook (kernel_packages boot)) ;;
  let hook_script := TARGET_ROOT +:+ SNAPSHOT_REFRESH_HOOK_SCRIPT in
  write_file hook_script SNAPSHOT_REFRESH_HOOK_SCRIPT_CONTENT ;;
  run ("chmod +x " +:+ hook_script) ;;
  write_file (TARGET_ROOT +:+ "/etc/systemd/system/snapper-boot-entries.service")
    SNAPSHOT_BOOT_ENTRIES_SERVICE ;;
  write_file (TARGET_ROOT +:+ "/etc/systemd/system/snapper-boot-entries.path")
    SNAPSHOT_BOOT_ENTRIES_PATH ;;
  run_chroot "systemctl enable snapper-boot-entries.path".

Definition snapshot_notifications_execute : cmd unit :=
  log_info "Enabling desktop notifications for new snapshots..." ;;
  let notify_script := TARGET_ROOT +:+ "/usr/local/bin/snapper-notify" in
  run ("mkdir -p " +:+ TARGET_ROOT +:+ "/usr/local/bin") ;;
  write_file notify_script SNAPPER_NOTIFY_SCRIPT ;;
  run ("chmod +x " +:+ notify_script) ;;
  write_file (TARGET_ROOT +:+ "/etc/systemd/system/snapper-notify.service") SNAPPER_NOTIFY_SERVICE ;;
  write_file (TARGET_ROOT +:+ "/etc/systemd/system/snapper-notify.path") SNAPPER_NOTIFY_PATH ;;
  run_chroot "systemctl enable snapper-notify.path".
End SnapperStepExecutor.

(** ** Properties *)

(** When the snapper step succeeds, every configured volume has its
    configuration file with the configured limits, and snapper's list of
    configurations names exactly these volumes. *)
Theorem snapper_configs_written (config : InstallerConfig) t u :
  runs (snapper_execute config) t (Ok u) ->
  (forall name volume, (name, volume) ∈ snapper_volumes (cfg_snapper config) ->
     ("cat > /mnt/etc/snapper/configs/" +:+ name,
      snapper_volume_config volume (snapper_allow_groups (cfg_snapper config))) ∈ writes t) /\
  ("cat > /mnt/etc/conf.d/snapper",
   "SNAPPER_CONFIGS=" +:+ dquote +:+ join " " (dict_keys (snapper_volumes (cfg_snapper config))) +:+
   dquote +:+ nl) ∈ writes t.
Proof.
  unfold snapper_execute. cbv zeta. intros H. do 7 runs_ok H.
  apply runs_run_input_ok in Hr5 as [Hw _]. split.
  - intros name volume Hin.
    destruct (runs_for_each_ok _ _ _ _ _ Hr4 Hin) as (u1 & u2 & u3 & -> & Hf).
    unfold configure_volume in Hf. do 2 runs_ok Hf. apply runs_run_input_ok in Hf as [Hf _].
    rewrite !writes_app, !elem_of_app. auto 15.
  - rewrite !writes_app, !elem_of_app. auto 15.
Qed.

Lemma snapper_configs_written_witness :
  ("cat > /mnt/etc/conf.d/snapper", "SNAPPER_CONFIGS=" +:+ dquote +:+ "root" +:+ dquote +:+ nl)
    ∈ writes (trace_of fresh_machine (snapper_execute sample_config)).
Proof.
  apply (snapper_configs_written sample_config _ tt), trace_runs_ok. concrete.
Defined.
