(* ===== verification/Recovery.v ===== *)
(** * The signed recovery system ([executors/recovery.py])

    A recovery image on the USB boot drive, whose root image is re-signed with a
    one-time key. *)

From S2P Require Import Prelude PyStr Effects Command PyVal Models Samples Base Patterns Deeds Guards UsbBoot.

Definition ARCHISO_VERSION_FILE : string := "arch/version".
Definition RECOVERY_UKI : string := "/efi/EFI/recovery/arch-recovery.efi".
Definition RECOVERY_ENTRY : string := "/efi/loader/entries/arch-recovery.conf".
Definition RECOVERY_BUILD_DIRECTORY : string := "/var/tmp/recovery-system".
Definition RECOVERY_SIGNING_DIRECTORY : string := "/run/dali/recovery-signing".
Definition SIGNING_CERTIFICATE_DAYS : Z := 36500.
Definition ARCHISO_CERTIFICATE_FILES : list string := ["codesign.crt"; "codesign_CA.crt"].
Definition CERTIFICATE_INITRAMFS : string := "codesign-initramfs.cpio".

Definition recovery_cmdline (recovery_filesystem_uuid : string) : string :=
  "archisobasedir=" +:+ ARCHISO_DIRECTORY +:+ " " +:+
  "archisodevice=UUID=" +:+ recovery_filesystem_uuid +:+ " cms_verify=y".

Definition recovery_entry (live_system_version : string) : string := lines [
  "title    Arch Linux recovery (" +:+ live_system_version +:+ ")";
  "sort-key recovery";
  "efi      " +:+ removeprefix "/efi" RECOVERY_UKI].

Definition sign_root_image (build_directory : string) : cmd unit :=
  let signing := RECOVERY_SIGNING_DIRECTORY in
  let root_image := RECOVERY_MOUNT +:+ "/" +:+ ARCHISO_ROOT_IMAGE in
  let certificate := nth 0 ARCHISO_CERTIFICATE_FILES "" in
  let ca_certificate := nth 1 ARCHISO_CERTIFICATE_FILES "" in
  run ("rm -rf " +:+ signing) ;;
  run ("mkdir -p -m 700 " +:+ signing) ;;
  try_finally
    (run ("openssl req -x509 -newkey ec -pkeyopt ec_paramgen_curve:prime256v1 -nodes " +:+
          "-keyout " +:+ signing +:+ "/key.pem -out " +:+ signing +:+ "/" +:+ certificate +:+ " " +:+
          "-days " +:+ str_of_Z SIGNING_CERTIFICATE_DAYS +:+ " -subj '/CN=DALI recovery system' " +:+
          "-addext keyUsage=critical,digitalSignature " +:+
          "-addext extendedKeyUsage=codeSigning,emailProtection") ;;
     run ("openssl cms -sign -binary -noattr -in " +:+ root_image +:+ " " +:+
          "-signer " +:+ signing +:+ "/" +:+ certificate +:+ " -inkey " +:+ signing +:+ "/key.pem " +:+
          "-outform DER -out " +:+ root_image +:+ ".cms.sig"))
    (run_ignored ("rm -f " +:+ signing +:+ "/key.pem")) ;;
  run ("cp " +:+ signing +:+ "/" +:+ certificate +:+ " " +:+ signing +:+ "/" +:+ ca_certificate) ;;
  run ("bsdtar --format newc -cf " +:+ build_directory +:+ "/" +:+ CERTIFICATE_INITRAMFS +:+ " " +:+
       "-C " +:+ signing +:+ " " +:+ join " " ARCHISO_CERTIFICATE_FILES) ;;
  run_ignored ("rm -rf " +:+ signing).

Definition build_uki (cmdline : string) : cmd unit :=
  let build := RECOVERY_BUILD_DIRECTORY in
  run ("mkdir -p " +:+ TARGET_ROOT +:+ rsplit1_first (chr 47) RECOVERY_UKI) ;;
  run_chroot ("ukify build " +:+
    "--linux=" +:+ build +:+ "/" +:+ rsplit1_last (chr 47) ARCHISO_KERNEL +:+ " " +:+
    "--initrd=" +:+ build +:+ "/" +:+ rsplit1_last (chr 47) ARCHISO_INITRAMFS +:+ " " +:+
    "--initrd=" +:+ build +:+ "/" +:+ CERTIFICATE_INITRAMFS +:+ " " +:+
    "--cmdline='" +:+ cmdline +:+ "' " +:+
    "--output=" +:+ RECOVERY_UKI).

Definition sign_recovery_uki : cmd unit :=
  let* key := file_exists (TARGET_ROOT +:+ SBCTL_DB_KEY) in
  if negb key then log_warning "No Secure Boot keys: the recovery UKI stays unsigned"
  else run_chroot ("sbctl sign -s " +:+ RECOVERY_UKI).

Definition recovery_execute (config : InstallerConfig) : cmd unit :=
  let partition := recovery_partition (cfg_usb_boot config) in
  log_info ("Building the signed recovery system from " +:+ partition +:+ "...") ;;
  let* uuid := run_stdout ("blkid -s UUID -o value " +:+ partition) in
  let filesystem_uuid := strip uuid in
  let build_directory := TARGET_ROOT +:+ RECOVERY_BUILD_DIRECTORY in
  run ("mkdir -p " +:+ RECOVERY_MOUNT +:+ " " +:+ build_directory) ;;
  run ("mount -t ext4 " +:+ partition +:+ " " +:+ RECOVERY_MOUNT) ;;
  let* live_system_version :=
    try_finally
      (let* version := run_stdout ("cat " +:+ RECOVERY_MOUNT +:+ "/" +:+ ARCHISO_VERSION_FILE) in
       sign_root_image build_directory ;;
       for_each (fun boot_file =>
           run ("cp " +:+ RECOVERY_MOUNT +:+ "/" +:+ boot_file +:+ " " +:+ build_directory +:+ "/"))
         [ARCHISO_KERNEL; ARCHISO_INITRAMFS] ;;
       build_uki (recovery_cmdline filesystem_uuid) ;;
       Ret (strip version))
      (run_ignored ("umount " +:+ RECOVERY_MOUNT) ;;
       run_ignored ("rm -rf " +:+ build_directory)) in
  write_file (TARGET_ROOT +:+ RECOVERY_ENTRY) (recovery_entry live_system_version) ;;
  sign_recovery_uki.

(** ** The signing key *)

Inductive recovery_kind := MakeKey | RemoveKey | RecoveryMount | RecoveryUnmount | RecoveryOther.
Definition recovery_rules : list (string * recovery_kind) := [
  ("openssl req ", MakeKey); ("rm -f /run/dali/recovery-signing/key.pem", RemoveKey);
  ("mount -t ext4 ", RecoveryMount); ("umount /run/dali/usb-recovery", RecoveryUnmount)].

(** [openssl] was started, whether it succeeded or not. *)
Definition key_made (k : recovery_kind) (res : process_result) : bool :=
  match k with MakeKey => true | _ => false end.
Definition key_removed (k : recovery_kind) (res : process_result) : bool :=
  match k with RemoveKey => true | _ => false end.
Definition recovery_mounted (k : recovery_kind) (res : process_result) : bool :=
  match k with RecoveryMount => succeeded res | _ => false end.
Definition recovery_unmounted (k : recovery_kind) (res : process_result) : bool :=
  match k with RecoveryUnmount => true | _ => false end.

Section Cleanup.
Context (config : InstallerConfig).

Lemma key_sign_root_image build_directory Q :
  (forall o, Q o false) ->
  wp (monitor (kind_step recovery_rules RecoveryOther (response_act key_made key_removed)))
    (sign_root_image build_directory) Q false.
Proof.
  intros HQ. unfold sign_root_image. cbv zeta. walk idtac.
  wp_step. apply wp_try_finally. apply response_free. intros o s.
  repeat wp_step; destruct o as [[]|]; cbn [then_]; auto; stable idtac; auto.
Qed.

Lemma key_recovery :
  wp (monitor (kind_step recovery_rules RecoveryOther (response_act key_made key_removed)))
    (recovery_execute config) (fun _ s => s = false) false.
Proof.
  unfold recovery_execute. cbv zeta. walk idtac.
  wp_step. apply wp_try_finally. eapply wp_mono with (Q := fun _ s => s = false).
  - walk idtac. wp_step. apply key_sign_root_image. intros [[]|x]; cbn [then_]; [|reflexivity].
    stable ltac:(unfold build_uki). reflexivity.
  - intros o s ->. stable idtac. intros [[]|x]; [destruct o as [v|x]|]; cbn [then_]; auto.
    stable ltac:(unfold sign_recovery_uki). reflexivity.
Qed.

Lemma mount_recovery :
  wp (monitor (kind_step recovery_rules RecoveryOther (response_act recovery_mounted recovery_unmounted)))
    (recovery_execute config) (fun _ s => s = false) false.
Proof.
  unfold recovery_execute. cbv zeta. walk idtac.
  wp_step. apply wp_run. intros [e|[|p|p] out err]; eval_step; cbn [then_]; try reflexivity.
  wp_step. apply wp_try_finally, response_free. intros o s.
  wp_step. repeat wp_step; try reflexivity; destruct o as [v|x]; cbn [then_]; try reflexivity;
    stable ltac:(unfold sign_recovery_uki); reflexivity.
Qed.

(** *** How the commands are spelled *)

Definition SIGNING_KEY : string := "/run/dali/recovery-signing/key.pem".
Definition make_key_command : string :=
  "openssl req -x509 -newkey ec -pkeyopt ec_paramgen_curve:prime256v1 -nodes " +:+
  "-keyout /run/dali/recovery-signing/key.pem -out /run/dali/recovery-signing/codesign.crt " +:+
  "-days 36500 -subj '/CN=DALI recovery system' " +:+
  "-addext keyUsage=critical,digitalSignature -addext extendedKeyUsage=codeSigning,emailProtection".
Definition mount_recovery_command : string :=
  "mount -t ext4 " +:+ derive_partition_path (usb_boot_device (cfg_usb_boot config)) 3 +:+ " /run/dali/usb-recovery".

Definition spelled (c : string) : Prop :=
  (startswith "rm -f " c = true -> c = "rm -f " +:+ SIGNING_KEY) /\
  (startswith "umount " c = true -> c = "umount /run/dali/usb-recovery") /\
  (startswith "mount " c = true -> c = mount_recovery_command).

Lemma recovery_spelled : emits (on_command spelled) (recovery_execute config).
Proof.
  unfold recovery_execute, sign_root_image, build_uki, sign_recovery_uki.
  safe_auto ltac:(idtac; split; [|split]; first [exempt | intros _; reflexivity]).
Qed.

(** The key is made in a directory that only root can read, made for this. *)
Definition key_guard : guard := fun c l =>
  startswith "openssl req " c = true ->
  c = make_key_command /\ succeeded_with "mkdir -p -m 700 /run/dali/recovery-signing" None l.

#[local] Instance key_guard_lasting : Lasting key_guard.
Proof. intros c l l' Hl H E. destruct (H E) as [H1 H2]. split; [exact H1 | eauto with guard]. Qed.

Lemma guarded_sign_root_image build_directory : guarded key_guard (sign_root_image build_directory).
Proof.
  unfold sign_root_image. cbv zeta. apply guarded_quiet; [exact _ | safe_auto exempt|]. intros _.
  eapply guarded_learn; [exact _ | safe_auto exempt | apply achieves_run |].
  intros done l Hd%ran_succeeded. apply guarded_emits; [exact _|].
  safe_auto ltac:(idtac; first [exempt | intros _; split; [reflexivity | rewrite app_nil_r; exact Hd]]).
Qed.

Lemma guarded_recovery : guarded key_guard (recovery_execute config).
Proof.
  unfold recovery_execute. cbv zeta. do 4 (apply guarded_quiet; [exact _ | safe_auto exempt|]; intros ?).
  apply guarded_seq; [exact _ | | intros version; apply guarded_emits; [exact _|]; unfold sign_recovery_uki; safe_auto exempt].
  apply guarded_try_finally; [exact _ | | apply guarded_emits; [exact _ | safe_auto exempt]].
  apply guarded_quiet; [exact _ | safe_auto exempt|]. intros version.
  apply guarded_seq; [exact _ | apply guarded_sign_root_image|]. intros _.
  apply guarded_emits; [exact _|]. unfold build_uki. safe_auto exempt.
Qed.
End Cleanup.

Lemma in_exchanges t c res : (c, res) ∈ replies t -> exists input, (c, input, res) ∈ exchanges t.
Proof.
  rewrite <- exchanges_replies. intros ([[c' input] res'] & E & Hin)%list_elem_of_fmap. injection E as -> ->. eauto.
Qed.

(** What the kinds of the monitor say about the command. *)
Lemma removes_key c res : key_removed (classify_by recovery_rules RecoveryOther c) res = true -> startswith "rm -f " c = true.
Proof.
  cbn [classify_by recovery_rules].
  destruct (startswith "openssl req " c); [discriminate|].
  destruct (startswith "rm -f /run/dali/recovery-signing/key.pem" c) eqn:E.
  2: { destruct (startswith "mount -t ext4 " c); [discriminate|]. destruct (startswith "umount /run/dali/usb-recovery" c); discriminate. }
  intros _. apply startswith_spec in E as [u ->]. reflexivity.
Qed.

Lemma unmounts_recovery c res :
  recovery_unmounted (classify_by recovery_rules RecoveryOther c) res = true -> startswith "umount " c = true.
Proof.
  cbn [classify_by recovery_rules].
  destruct (startswith "openssl req " c); [discriminate|].
  destruct (startswith "rm -f /run/dali/recovery-signing/key.pem" c); [discriminate|].
  destruct (startswith "mount -t ext4 " c); [discriminate|].
  destruct (startswith "umount /run/dali/usb-recovery" c) eqn:E; [|discriminate].
  intros _. apply startswith_spec in E as [u ->]. reflexivity.
Qed.

(** C40: the one-time signing key is only ever made by this one [openssl req] command, at
    [/run/dali/recovery-signing/key.pem], in a directory made for root alone; and on
    every path, whether [openssl] succeeded, failed or was not found, the command that
    removes exactly this file is run after it. The recovery partition, once mounted, is
    unmounted by a command that is run after it on every path. (The exit codes of these
    two are not looked at by the code, so that they failed is not excluded.) *)
Theorem recovery_cleans_up (config : InstallerConfig) t o l1 x l2 :
  runs (recovery_execute config) t o -> exchanges t = l1 ++ x :: l2 ->
  (startswith "openssl req " x.1.1 = true ->
     x.1.1 = make_key_command /\
     succeeded_with "mkdir -p -m 700 /run/dali/recovery-signing" None l1 /\
     exists x', x' ∈ l2 /\ x'.1.1 = "rm -f /run/dali/recovery-signing/key.pem") /\
  (startswith "mount " x.1.1 = true ->
     x.1.1 = mount_recovery_command config /\
     (succeeded x.2 = true -> exists x', x' ∈ l2 /\ x'.1.1 = "umount /run/dali/usb-recovery")).
Proof.
  intros Hr Hl.
  assert (Hs : forall y, y ∈ l1 ++ x :: l2 -> spelled config y.1.1).
  { intros y Hy. pose proof (proj1 (Forall_on_command _ _) (emits_sound _ _ _ _ (recovery_spelled config) Hr)) as Hf.
    rewrite Forall_forall in Hf. apply Hf. rewrite <- exchanges_commands, Hl. apply list_elem_of_fmap. eauto. }
  assert (Hrep : replies t = map (fun x => (x.1.1, x.2)) l1 ++ (x.1.1, x.2) :: map (fun x => (x.1.1, x.2)) l2).
  { rewrite <- exchanges_replies, Hl, map_app. reflexivity. }
  assert (Hafter : forall cr, cr ∈ map (fun x : exchange => (x.1.1, x.2)) l2 -> exists x', x' ∈ l2 /\ x'.1.1 = cr.1 /\ spelled config x'.1.1).
  { intros cr (x' & -> & Hx')%list_elem_of_fmap. exists x'. split; [exact Hx'|]. split; [reflexivity|].
    apply Hs, elem_of_app. right. right. exact Hx'. }
  split.
  - intros Hc. destruct (guarded_recovery config t o Hr l1 x l2 Hl Hc) as [E Hd]. split; [exact E|]. split; [exact Hd|].
    assert (Ek : classify_by recovery_rules RecoveryOther x.1.1 = MakeKey) by (rewrite E; vm_compute; reflexivity).
    destruct (response_runs _ _ _ _ _ _ _ (key_recovery config) Hr _ _ _ _ Hrep) as (cr & Hin & H);
      [rewrite Ek; reflexivity..|].
    destruct (Hafter cr Hin) as (x' & Hx' & Ex & Hsp & _). exists x'. split; [exact Hx'|]. apply Hsp. rewrite Ex.
    exact (removes_key _ _ H).
  - intros Hc. assert (E : x.1.1 = mount_recovery_command config).
    { apply (Hs x); [apply elem_of_app; right; left | exact Hc]. }
    split; [exact E|]. intros Hok.
    assert (Ek : classify_by recovery_rules RecoveryOther x.1.1 = RecoveryMount) by (rewrite E; vm_compute; reflexivity).
    destruct (response_runs _ _ _ _ _ _ _ (mount_recovery config) Hr _ _ _ _ Hrep) as (cr & Hin & H);
      [rewrite Ek; exact Hok | rewrite Ek; reflexivity |].
    destruct (Hafter cr Hin) as (x' & Hx' & Ex & _ & Hsp & _). exists x'. split; [exact Hx'|]. apply Hsp. rewrite Ex.
    exact (unmounts_recovery _ _ H).
Qed.

(** A machine on which signing fails. *)
Definition failing_signer : oracle cmd_sig := fake_runner [("openssl cms", (1, "", "cannot sign"))]%Z.

Lemma recovery_cleans_up_witness :
  let t := trace_of failing_signer (recovery_execute sample_usb_config) in
  succeeded_with "mkdir -p -m 700 /run/dali/recovery-signing" None (take 6 (exchanges t)) /\
  exists x', x' ∈ drop 7 (exchanges t) /\ x'.1.1 = "rm -f /run/dali/recovery-signing/key.pem".
Proof.
  intros t.
  destruct (recovery_cleans_up sample_usb_config t (outcome_of failing_signer (recovery_execute sample_usb_config))
    (take 6 (exchanges t)) (make_key_command, None, Completed 0 "" "") (drop 7 (exchanges t))) as [H _];
    [apply trace_runs | nth_reply 6 | exact (proj2 (H eq_refl))].
Defined.
