(* ===== verification/StepsDone.v ===== *)
(** * What each step has done when it returns

    One achievement per step of the registry, and that the step's executor has it;
    [StorageDone.v] has the storage step. *)

From S2P Require Import Prelude PyStr Effects Command PyVal Models Base Patterns Deeds StorageDone Packages System Firewall Drivers Boot UsbBoot Migration Snapper Recovery.

Section StepsDone.
Context (config : InstallerConfig).

(** ** Packages ([executors/packages.py]) *)
#[local] Abbreviation packages := (cfg_packages config).

Definition package_list : list string :=
  dedup (catalog_packages config ++ desktop_package_list config ++ gpu_packages config).

Definition display_managers_enabled : achievement :=
  in_turn (packages_display_manager packages) (fun display_manager =>
    provided (chroot_command ("pacman -Q " +:+ display_manager))
      (tried (chroot_command ("systemctl enable " +:+ display_manager +:+ ".service")))).

Definition packages_done : achievement := in_order [
  ran "mkdir -p /mnt/etc";
  unless "test -f /mnt/etc/vconsole.conf"
    (wrote "/mnt/etc/vconsole.conf" ("KEYMAP=" +:+ locale_keymap (system_locale (cfg_system config)) +:+ nl));
  tried "rm -f /var/lib/pacman/db.lck"; tried "mkdir -p /mnt/var/lib/pacman";
  tried "rm -f /mnt/var/lib/pacman/db.lck";
  probe "test -f /mnt/etc/os-release"
    (tried (chroot_command ("pacman -Syu --noconfirm --needed " +:+ join " " package_list)))
    (ran ("pacstrap -K /mnt --noconfirm " +:+ join " " package_list));
  unless "test -f /mnt/etc/pacman.conf" (ran "cp /etc/pacman.conf /mnt/etc/pacman.conf");
  unless "grep -q '^[^#]' /mnt/etc/fstab" (ran "genfstab -U /mnt >> /mnt/etc/fstab");
  ran (chroot_command "systemctl enable NetworkManager.service");
  provided (chroot_command "pacman -Q openssh") (ran (chroot_command "systemctl enable sshd.service"));
  if_set (negb (bool_decide (packages_selected_desktops packages = []))) display_managers_enabled].

Lemma packages_achieves : achieves (packages_execute config) packages_done.
Proof.
  unfold packages_execute, packages_done, display_managers_enabled. apply achieves_known with (v := package_list).
  { intros t ps Hr. apply collect_packages_runs in Hr as [Hc [= ->]]. split; [reflexivity|].
    rewrite <- exchanges_commands in Hc. destruct (exchanges t); [reflexivity | discriminate]. }
  unfold create_vconsole_config, clear_pacman_locks, install_packages, copy_pacman_config, generate_fstab,
    enable_services. achieve.
Qed.

(** ** System ([executors/system.py]) *)
#[local] Abbreviation system := (cfg_system config).
#[local] Abbreviation user := (system_user system).

(** The account is there, or it is made with its groups, which may use sudo. *)
Definition user_made : achievement := in_order [
  unless (chroot_command ("id " +:+ user_name user))
    (in_order [
       ran (chroot_command ("useradd -m -G " +:+ join "," (user_groups user) +:+ " -s /bin/bash " +:+ user_name user));
       tried "sed -i 's/^#\s*\(%wheel ALL=(ALL:ALL) ALL\)/\1/' /mnt/etc/sudoers"]);
  given (chroot_command "chpasswd") (user_name user +:+ ":" +:+ user_password (cfg_credentials config))].

Definition system_done : achievement := in_order [
  wrote "/mnt/etc/hostname" (system_hostname system +:+ nl);
  wrote "/mnt/etc/hosts" (hosts_file (system_hostname system));
  ran "rm -f /mnt/etc/localtime";
  ran ("ln -sf /usr/share/zoneinfo/" +:+ system_timezone system +:+ " /mnt/etc/localtime");
  tried (chroot_command "hwclock --systohc");
  in_turn (locales_to_generate (system_locale system)) (fun locale =>
    tried ("sed -i 's/^#\s*\(" +:+ locale +:+ "\s\)/\1/' /mnt/etc/locale.gen"));
  tried (chroot_command "locale-gen");
  wrote "/mnt/etc/locale.conf" (locale_conf (system_locale system));
  wrote "/mnt/etc/vconsole.conf" ("KEYMAP=" +:+ locale_keymap (system_locale system) +:+ nl);
  user_made].

Lemma create_user_makes : achieves (create_user config) user_made.
Proof. unfold create_user, user_made. achieve. Qed.

Lemma system_achieves : achieves (system_execute config) system_done.
Proof. pose proof create_user_makes. unfold system_execute, system_done. achieve. Qed.

(** ** Docker ([executors/docker.py]) *)
#[local] Abbreviation docker := (cfg_docker config).

(** The user joins the groups that may use the daemon, unless a member already. *)
Definition groups_joined : achievement :=
  reading (chroot_command ("id -nG " +:+ user_name user)) (fun current =>
    in_turn (sorted (List.filter (fun group => negb (str_in group (dedup (split current))))
               (dedup ["docker"; docker_access_group docker])))
      (fun group => ran (chroot_command ("usermod -aG " +:+ group +:+ " " +:+ user_name user)))).

Definition docker_done : achievement :=
  provided (chroot_command "pacman -Q docker")
    (in_order [
       ran "mkdir -p /mnt/etc/docker";
       wrote "/mnt/etc/docker/daemon.json" (daemon_json (docker_storage_driver docker) (docker_data_root docker));
       tried (chroot_command "systemctl enable docker.service");
       unless (chroot_command ("getent group " +:+ docker_access_group docker))
         (ran (chroot_command ("groupadd " +:+ docker_access_group docker)));
       groups_joined;
       wrote ("/mnt/etc/sudoers.d/" +:+ docker_access_group docker) (access_group_sudoers (docker_access_group docker));
       ran ("chmod 440 /mnt/etc/sudoers.d/" +:+ docker_access_group docker)]).

Lemma docker_achieves : achieves (docker_execute config) docker_done.
Proof. unfold docker_execute, docker_done, groups_joined, current_user_groups. achieve. Qed.

(** ** Firewall ([executors/firewall.py]) *)
#[local] Abbreviation firewall := (cfg_firewall config).
#[local] Abbreviation ssh := (firewall_ssh firewall).

Definition ssh_allowed : achievement := in_order [
  if truthy (ssh_allowed_from ssh)
  then ran (chroot_command ("ufw allow from " +:+ ssh_allowed_from ssh +:+ " to any port " +:+
                            str_of_Z (ssh_port ssh) +:+ " proto tcp"))
  else ran (chroot_command ("ufw allow " +:+ str_of_Z (ssh_port ssh) +:+ "/tcp"));
  ran (chroot_command "systemctl enable sshd.service")].

(** Switched off while it is configured, and on for the first boot. *)
Definition firewall_done : achievement := in_order [
  unless (chroot_command "pacman -Q ufw") (ran (chroot_command "pacman -S --noconfirm ufw"));
  ran "sed -i 's/^ENABLED=.*/ENABLED=no/' /mnt/etc/ufw/ufw.conf";
  ran (chroot_command ("ufw default " +:+ enum_value (firewall_default_incoming firewall) +:+ " incoming"));
  ran (chroot_command ("ufw default " +:+ enum_value (firewall_default_outgoing firewall) +:+ " outgoing"));
  if_set (firewall_logging firewall) (ran (chroot_command "ufw logging on"));
  if_set (firewall_block_icmp firewall)
    (in_turn INBOUND_ICMP_ACCEPT_RULES (fun rule =>
       tried ("sed -i '/" +:+ escaped_rule rule +:+ "/d' /mnt/etc/ufw/before.rules")));
  if_set (ssh_enabled ssh) ssh_allowed;
  in_turn (firewall_allow_rules firewall) (fun rule =>
    ran (chroot_command ("ufw allow " +:+ str_of_Z (rule_port rule) +:+ "/" +:+ rule_protocol rule)));
  ran (chroot_command "systemctl enable ufw.service");
  ran "sed -i 's/^ENABLED=.*/ENABLED=yes/' /mnt/etc/ufw/ufw.conf"].

Lemma allow_ssh_allows : achieves (allow_ssh config) ssh_allowed.
Proof. unfold allow_ssh, ssh_allowed. achieve. Qed.

Lemma firewall_achieves : achieves (firewall_execute config) firewall_done.
Proof. pose proof allow_ssh_allows. unfold firewall_execute, firewall_done, set_enabled_on_boot. achieve. Qed.

(** ** GPU driver and mirrors ([executors/gpu_driver.py], [executors/mirrors.py]) *)

Definition gpu_done : achievement := in_order [
  ran "mkdir -p /mnt/etc/modprobe.d";
  wrote "/mnt/etc/modprobe.d/nvidia.conf" (NVIDIA_MODPROBE_DRM_OPTIONS +:+ nl);
  ran "mkdir -p /mnt/etc/pacman.d/hooks";
  wrote "/mnt/etc/pacman.d/hooks/nvidia.hook" (initramfs_rebuild_hook (kernel_packages (cfg_boot config)))].

Lemma gpu_achieves : achieves (gpu_execute config) gpu_done.
Proof. unfold gpu_execute, gpu_done. achieve. Qed.

Definition mirrors_done : achievement :=
  let mirrors := system_mirrors system in
  if mirrors_use_reflector mirrors
  then ran ("reflector --country '" +:+ join "," (mirrors_reflector_countries mirrors) +:+
            "' --protocol https --latest 20 --sort rate --save /etc/pacman.d/mirrorlist")
  else wrote "/etc/pacman.d/mirrorlist" (mirrorlist (mirrors_mirrors mirrors)).

Lemma mirrors_achieves : achieves (mirrors_execute config) mirrors_done.
Proof. unfold mirrors_execute, mirrors_done. achieve. Qed.

(** ** Kernel images and boot loader ([executors/boot.py]) *)
#[local] Abbreviation boot := (cfg_boot config).
#[local] Abbreviation swap := (storage_swap (cfg_storage config)).
#[local] Abbreviation usb := (cfg_usb_boot config).

(** The LUKS header names the volume. *)
Definition luks_uuid_read (luks_uuid : string) : achievement :=
  for_some (fun r => in_order [
    answered ("cryptsetup luksUUID " +:+ luks_header_device config) None r;
    holds (luks_uuid = if success r then strip (stdout r) else "")]).

(** The name of a disk that stays the same over reboots. *)
Definition stable_path_read (disk path : string) : achievement :=
  reading ("target=$(readlink -f " +:+ disk +:+ "); for link in /dev/disk/by-id/*; do " +:+
           qq "[ `$(readlink -f `$link`)` = `$target` ] && echo `$link`; done")
    (fun links => holds (path = choose_stable_link (split links))).

Definition partuuid_read (partition uuid : string) : achievement :=
  for_some (fun out => in_order [
    printed ("blkid -s PARTUUID -o value " +:+ partition) out; holds (uuid = strip out /\ uuid <> "")]).

(** With a USB boot drive, where the disk and the header are found. *)
Definition header_found (header : option DetachedLuksHeader) : achievement :=
  if usb_boot_enabled usb then
    valued (stable_path_read (encrypted_device config)) (fun path =>
      valued (partuuid_read (luks_header_partition usb)) (fun uuid =>
        holds (header = Some {| encrypted_device_path := path; header_partition_uuid := uuid |} /\ path <> "")))
  else holds (header = None).

(** Where the swapfile lies, for hibernation. *)
Definition resume_offset_found (offset : option string) : achievement :=
  if swap_enabled swap && swap_hibernation swap then
    reading ("btrfs inspect-internal map-swapfile -r /mnt" +:+ swap_path swap) (fun out =>
      if truthy (strip out) then holds (offset = Some (strip out))
      else reading ("filefrag -v /mnt" +:+ swap_path swap) (fun extents =>
        holds (offset = head (omap filefrag_offset (split_on nl extents)))))
  else holds (offset = None).

(** The command line of every variant and the preset of a kernel are written. *)
Definition kernel_configured (cmdline kernel : string) : achievement := in_order [
  in_turn (uki_variants config) (fun variant =>
    wrote ("/mnt" +:+ cmdline_file kernel variant) (strip (cmdline +:+ " " +:+ variant_params variant) +:+ nl));
  wrote ("/mnt/etc/mkinitcpio.d/" +:+ kernel +:+ ".preset") (kernel_preset kernel (uki_variants config))].

Definition setup_mode_found (setup_mode : bool) : achievement :=
  reading (chroot_command "sbctl status") (fun status =>
    match setup_mode_status status with
    | Some enabled => holds (setup_mode = enabled)
    | None => valued (answered (chroot_command
          "cat /sys/firmware/efi/efivars/SetupMode-* 2>/dev/null | xxd -p | tail -c 3") None)
        (fun r => holds (setup_mode = success r && String.eqb (strip (stdout r)) "01"))
    end).

(** There are keys, and in setup mode they are enrolled if the configuration says so. *)
Definition secure_boot_prepared : achievement :=
  valued setup_mode_found (fun setup_mode => in_order [
    unless "test -f /mnt/var/lib/sbctl/keys/PK/PK.key" (tried (chroot_command "sbctl create-keys"));
    if_set (setup_mode && secure_boot_enroll_keys (boot_secure_boot boot))
      (tried (chroot_command
         (if secure_boot_include_microsoft_keys (boot_secure_boot boot)
          then "sbctl enroll-keys --microsoft" else "sbctl enroll-keys")))]).

(** With a key, every image that was built is signed. *)
Definition images_signed (kernels : list string) : achievement :=
  provided "test -f /mnt/var/lib/sbctl/keys/db/db.key"
    (in_turn kernels (fun kernel => in_turn (uki_variants config) (fun variant =>
       provided ("test -f /mnt" +:+ uki_path kernel variant)
         (tried (chroot_command ("sbctl sign -s " +:+ uki_path kernel variant)))))).

(** The images are built for every configured kernel that is there, once each has
    its command lines and its preset. *)
Definition kernel_images_done : achievement := in_order [
  wrote "/mnt/etc/mkinitcpio.conf" (mkinitcpio_conf (boot_hooks boot) (initramfs_modules config));
  ran "mkdir -p /mnt/efi/EFI/Linux";
  valued luks_uuid_read (fun luks_uuid => in_order [
    holds (luks_uuid <> "");
    valued (sifted (fun kernel => "test -f /mnt/boot/vmlinuz-" +:+ kernel) (kernel_packages boot)) (fun kernels =>
      in_order [
        holds (kernels <> []);
        valued header_found (fun header => valued resume_offset_found (fun resume_offset =>
          let cmdline := kernel_cmdline config luks_uuid header resume_offset in
          in_order [
            ran "mkdir -p /mnt/etc/kernel";
            in_turn kernels (kernel_configured cmdline);
            wrote "/mnt/etc/kernel/cmdline" (cmdline +:+ nl);
            secure_boot_prepared;
            ran (chroot_command "mkinitcpio -P");
            images_signed kernels]))])])].

Lemma stable_disk_path_gives disk : gives (stable_disk_path disk) (stable_path_read disk).
Proof. apply gives_reading. intros links. apply gives_ret. Qed.

Lemma detached_header_gives : gives (detached_header config) header_found.
Proof.
  unfold detached_header, header_found. destruct (usb_boot_enabled _); [|apply gives_ret].
  apply gives_value; [apply stable_disk_path_gives|]. intros path.
  destruct (truthy path) eqn:E; [|apply gives_raise].
  apply gives_value; [apply gives_partition_uuid|]. intros uuid. apply gives_value_of; [|reflexivity].
  intros ->. discriminate.
Qed.

Lemma resume_offset_gives : gives (swapfile_resume_offset config) resume_offset_found.
Proof.
  unfold swapfile_resume_offset, resume_offset_found. destruct (_ && _); [|apply gives_ret].
  apply gives_reading. intros out. cbv zeta. apply gives_if; [apply gives_ret|].
  apply gives_reading. intros extents. destruct (omap _ _) as [|offset rest]; [|apply gives_ret].
  apply gives_silent; [apply achieves_log | intros _; apply gives_ret].
Qed.

Lemma setup_mode_gives : gives is_in_setup_mode setup_mode_found.
Proof.
  apply gives_reading. intros status. destruct (setup_mode_status status); [apply gives_ret|].
  apply gives_value; [apply gives_run_quiet | intros r; apply gives_ret].
Qed.

Lemma enroll_keys_enrolls microsoft :
  achieves (enroll_keys microsoft) (tried (chroot_command
    (if microsoft : bool then "sbctl enroll-keys --microsoft" else "sbctl enroll-keys"))).
Proof. unfold enroll_keys. achieve. Qed.

Lemma prepare_secure_boot_prepares : achieves (prepare_secure_boot config) secure_boot_prepared.
Proof.
  pose proof setup_mode_gives. pose proof enroll_keys_enrolls.
  unfold prepare_secure_boot, secure_boot_prepared. achieve.
Qed.

Lemma write_kernel_files_configures cmdline kernel :
  achieves (write_kernel_files cmdline (uki_variants config) kernel) (kernel_configured cmdline kernel).
Proof. unfold write_kernel_files, kernel_configured. achieve. Qed.

Lemma sign_ukis_signs kernels : achieves (sign_ukis kernels (uki_variants config)) (images_signed kernels).
Proof. unfold sign_ukis, sign_uki, images_signed. achieve. Qed.

Lemma kernel_images_achieves : achieves (kernel_images_execute config) kernel_images_done.
Proof.
  pose proof detached_header_gives. pose proof resume_offset_gives. pose proof write_kernel_files_configures.
  pose proof prepare_secure_boot_prepares. pose proof sign_ukis_signs.
  unfold kernel_images_execute, kernel_images_done. cbv zeta. do 4 achieve_step.
  apply achieves_value; [apply gives_detect_luks_uuid|]. intros luks_uuid.
  destruct (truthy luks_uuid) eqn:E; [|apply achieves_raise]. apply achieves_flat.
  apply achieves_holds; [intros ->; discriminate|].
  apply achieves_value; [apply gives_filter_each|]. intros [|kernel kernels]; [apply achieves_raise|]. achieve.
Qed.

(** Installed on the USB drive without traces in the firmware's variables. *)
Definition bootloader_done : achievement := in_order [
  if usb_boot_enabled usb
  then in_order [
    ran (chroot_command "bootctl install --esp-path=/efi --variables=no --random-seed=no");
    ran (chroot_command "systemctl mask systemd-boot-random-seed.service")]
  else ran (chroot_command "bootctl install --esp-path=/efi");
  wrote "/mnt/efi/loader/loader.conf" (loader_conf (boot_loader boot));
  in_turn BOOTLOADER_BINARIES (fun path =>
    provided ("test -f /mnt" +:+ path) (tried (chroot_command ("sbctl sign -s " +:+ path))))].

Lemma bootloader_achieves : achieves (bootloader_execute config) bootloader_done.
Proof. unfold bootloader_execute, bootloader_done, install_on_usb_boot_drive. achieve. Qed.

(** ** Snapper ([executors/snapper.py]) *)
#[local] Abbreviation snapper := (cfg_snapper config).

(** A volume without a configuration gets its snapshots subvolume mounted. *)
Definition snapshots_mounted (volume : SnapperVolumeConfig) : achievement :=
  let directory := "/mnt" +:+ volume_snapshots_path volume in
  in_order [
    provided ("mountpoint -q " +:+ directory) (ran ("umount " +:+ directory));
    provided ("test -d " +:+ directory)
      (probe ("btrfs subvolume show " +:+ directory)
         (tried ("btrfs subvolume delete " +:+ directory)) (tried ("rmdir " +:+ directory)));
    ran ("mkdir -p " +:+ directory);
    ran ("mount -t btrfs -o subvol=" +:+ volume_snapshots_subvolume volume +:+ "," +:+
         btrfs_mount_options (storage_btrfs (cfg_storage config)) +:+ " /dev/mapper/cryptroot " +:+ directory);
    ran ("chmod 750 " +:+ directory)].

Definition volume_configured (named : string * SnapperVolumeConfig) : achievement := in_order [
  unless ("test -f /mnt/etc/snapper/configs/" +:+ named.1) (snapshots_mounted named.2);
  wrote ("/mnt/etc/snapper/configs/" +:+ named.1)
    (snapper_volume_config named.2 (snapper_allow_groups snapper))].

Definition snapper_done : achievement := in_order [
  unless (chroot_command "pacman -Q snapper") (ran (chroot_command "pacman -S --noconfirm snapper snap-pac"));
  ran "mkdir -p /mnt/etc/snapper/configs"; ran "mkdir -p /mnt/etc/conf.d";
  in_turn (snapper_volumes snapper) volume_configured;
  wrote "/mnt/etc/conf.d/snapper"
    ("SNAPPER_CONFIGS=" +:+ dquote +:+ join " " (dict_keys (snapper_volumes snapper)) +:+ dquote +:+ nl);
  ran (chroot_command "systemctl enable snapper-timeline.timer");
  ran (chroot_command "systemctl enable snapper-cleanup.timer");
  if_set (snapper_snap_pac snapper) (in_order [
    ran "mkdir -p /mnt/etc/snap-pac.d"; wrote "/mnt/etc/snap-pac.d/root.conf" SNAP_PAC_ROOT_CONFIG])].

Lemma prepare_snapshots_subvolume_mounts volume :
  achieves (prepare_snapshots_subvolume config volume) (snapshots_mounted volume).
Proof. unfold prepare_snapshots_subvolume, snapshots_mounted. achieve. Qed.

Lemma configure_volume_configures named : achieves (configure_volume config named) (volume_configured named).
Proof.
  pose proof prepare_snapshots_subvolume_mounts. unfold configure_volume, volume_configured.
  destruct named. cbn [fst snd]. achieve.
Qed.

Lemma snapper_achieves : achieves (snapper_execute config) snapper_done.
Proof. pose proof configure_volume_configures. unfold snapper_execute, snapper_done. achieve. Qed.

Definition bootable_snapshots_done : achievement :=
  for_some (fun preferred_kernel => in_order [
    holds (hd_error (kernel_packages boot) = Some preferred_kernel);
    wrote ("/mnt" +:+ SNAPSHOT_MANAGER_SETTINGS)
      (snapshot_manager_settings (snapper_bootable_snapshot_count snapper) preferred_kernel);
    ran "mkdir -p /mnt/etc/pacman.d/hooks /mnt/usr/local/bin";
    wrote "/mnt/etc/pacman.d/hooks/95-snapshot-uki-refresh.hook"
      (snapshot_refresh_pacman_hook (kernel_packages boot));
    wrote ("/mnt" +:+ SNAPSHOT_REFRESH_HOOK_SCRIPT) SNAPSHOT_REFRESH_HOOK_SCRIPT_CONTENT;
    ran ("chmod +x /mnt" +:+ SNAPSHOT_REFRESH_HOOK_SCRIPT);
    wrote "/mnt/etc/systemd/system/snapper-boot-entries.service" SNAPSHOT_BOOT_ENTRIES_SERVICE;
    wrote "/mnt/etc/systemd/system/snapper-boot-entries.path" SNAPSHOT_BOOT_ENTRIES_PATH;
    ran (chroot_command "systemctl enable snapper-boot-entries.path")]).

Lemma bootable_snapshots_achieves : achieves (bootable_snapshots_execute config) bootable_snapshots_done.
Proof.
  unfold bootable_snapshots_execute, bootable_snapshots_done. cbv zeta.
  destruct (kernel_packages boot) as [|kernel kernels]; cbn [hd_error].
  - intros t u Hr. runs_ok Hr. runs_ok Hr. destruct Hr1 as [_ [=]].
  - apply achieves_for_some with (a := kernel). achieve.
Qed.

Definition snapshot_notifications_done : achievement := in_order [
  ran "mkdir -p /mnt/usr/local/bin";
  wrote "/mnt/usr/local/bin/snapper-notify" SNAPPER_NOTIFY_SCRIPT;
  ran "chmod +x /mnt/usr/local/bin/snapper-notify";
  wrote "/mnt/etc/systemd/system/snapper-notify.service" SNAPPER_NOTIFY_SERVICE;
  wrote "/mnt/etc/systemd/system/snapper-notify.path" SNAPPER_NOTIFY_PATH;
  ran (chroot_command "systemctl enable snapper-notify.path")].

Lemma snapshot_notifications_achieves : achieves snapshot_notifications_execute snapshot_notifications_done.
Proof. unfold snapshot_notifications_execute, snapshot_notifications_done. achieve. Qed.

(** ** USB boot drive ([executors/usb_boot.py]) *)
#[local] Abbreviation device := (usb_boot_device usb).
#[local] Abbreviation target := (storage_target_disk (cfg_storage config)).

(** [lsblk] calls it a disk. *)
Definition disk_confirmed (disk : string) : achievement :=
  valued (answered ("lsblk -dno TYPE " +:+ disk) None) (fun r => in_order [
    holds (success r = true /\ strip (stdout r) = "disk");
    tried ("cat /sys/block/" +:+ rsplit1_last (chr 47) disk +:+ "/removable")]).

(** A resumed installation keeps a drive that holds a LUKS header. *)
Definition header_kept (keeps : bool) : achievement :=
  probe ("cryptsetup isLuks " +:+ luks_header_partition usb) (holds (keeps = true)) (holds (keeps = false)).

Definition drive_kept (keeps : bool) : achievement :=
  probe "mountpoint -q /mnt" (header_kept keeps)
    (if bool_decide (storage_wipe_method (cfg_storage config) = WIPE_SKIP) &&
        negb (migration_enabled (cfg_migration config))
     then header_kept keeps else holds (keeps = false)).

(** The size of the Arch Linux ISO, from its volume descriptor. *)
Definition iso_bytes (offset length : Z) (format : string) : string :=
  "dd if=" +:+ usb_boot_iso_path usb +:+ " bs=4096 skip=" +:+ str_of_Z offset +:+ " count=" +:+ str_of_Z length +:+
  " iflag=skip_bytes,count_bytes status=none | " +:+ format.

Definition number_read (command : string) (n : Z) : achievement :=
  valued (output_of command) (fun out => holds (py_int (strip out) = Ok n)).

Definition iso_size_read (size : Z) : achievement :=
  valued (output_of (iso_bytes ISO9660_SIGNATURE_OFFSET 5 "cat")) (fun signature => in_order [
    holds (strip signature = "CD001");
    valued (answered ("bsdtar -tf " +:+ usb_boot_iso_path usb +:+ " " +:+ ARCHISO_KERNEL +:+ " " +:+
                      ARCHISO_INITRAMFS +:+ " " +:+ ARCHISO_ROOT_IMAGE) None) (fun listing => in_order [
      holds (success listing = true);
      valued (number_read (iso_bytes ISO9660_BLOCK_COUNT_OFFSET 4 "od -An -tu4")) (fun count =>
        valued (number_read (iso_bytes ISO9660_BLOCK_SIZE_OFFSET 2 "od -An -tu2")) (fun block =>
          holds (size = (count * block)%Z)))])]).

Definition room_confirmed (recovery_mb : Z) : achievement :=
  valued (number_read ("blockdev --getsize64 " +:+ device)) (fun size =>
    holds (PARTITION_TABLE_SIZE_MB + storage_efi_size_mb (cfg_storage config) +
           LUKS_HEADER_PARTITION_SIZE_MB + recovery_mb <= size / MEBIBYTE)%Z).

Definition drive_released : achievement := in_order [
  tried "umount -R /mnt"; tried ("umount " +:+ RECOVERY_MOUNT); tried "swapoff -a";
  tried "cryptsetup close cryptroot";
  tried ("umount " +:+ usb_efi_partition usb); tried ("umount " +:+ recovery_partition usb)].

Definition drive_partitioned (recovery_mb : Z) : achievement := in_order [
  tried ("wipefs -af " +:+ device);
  ran ("sgdisk -Z " +:+ device);
  ran ("sgdisk -n1:0:+" +:+ str_of_Z (storage_efi_size_mb (cfg_storage config)) +:+ "M -t1:ef00 " +:+ device);
  ran ("sgdisk -n2:0:+" +:+ str_of_Z LUKS_HEADER_PARTITION_SIZE_MB +:+ "M -t2:8300 " +:+ device);
  if (recovery_mb =? 0)%Z then nothing
  else ran ("sgdisk -n3:0:+" +:+ str_of_Z recovery_mb +:+ "M -t3:8300 " +:+ device);
  tried ("partprobe " +:+ device); tried "udevadm settle";
  waited 15 device (if (recovery_mb =? 0)%Z then luks_header_partition usb else recovery_partition usb);
  tried ("wipefs -af " +:+ luks_header_partition usb)].

Definition recovery_stored : achievement := in_order [
  ran ("mkfs.ext4 -F -m 0 -L RECOVERY " +:+ recovery_partition usb);
  ran ("mkdir -p " +:+ RECOVERY_MOUNT);
  ran ("mount -t ext4 " +:+ recovery_partition usb +:+ " " +:+ RECOVERY_MOUNT);
  in_order [
    in_order [
      ran ("bsdtar -xf " +:+ usb_boot_iso_path usb +:+ " -C " +:+ RECOVERY_MOUNT +:+ " " +:+ ARCHISO_DIRECTORY);
      ran ("sync -f " +:+ RECOVERY_MOUNT)];
    tried ("umount " +:+ RECOVERY_MOUNT)]].

Definition iso_size_wanted (size : Z) : achievement :=
  if usb_boot_recovery_system usb then iso_size_read size else holds (size = 0%Z).

Definition drive_made : achievement :=
  valued iso_size_wanted (fun size =>
    let recovery_mb := if (size =? 0)%Z then 0%Z else recovery_partition_size_mb size in
    in_order [
      room_confirmed recovery_mb;
      drive_released;
      drive_partitioned recovery_mb;
      ran ("mkfs.vfat -F32 -n EFI " +:+ usb_efi_partition usb);
      if_set (usb_boot_recovery_system usb) recovery_stored]).

Definition usb_boot_drive_done : achievement := in_order [
  holds (device <> target);
  disk_confirmed device;
  valued (stable_path_read target) (fun path => in_order [
    holds (path <> "");
    valued drive_kept (fun keeps => if keeps then nothing else drive_made)])].

Lemma require_disk_confirms disk : achieves (require_disk disk) (disk_confirmed disk).
Proof.
  unfold require_disk, disk_confirmed. apply achieves_alone, achieves_value; [apply gives_run_quiet|]. intros r.
  destruct (success r) eqn:Es; [|apply achieves_raise].
  destruct (String.eqb (strip (stdout r)) "disk") eqn:Ed; [|apply achieves_raise].
  apply String.eqb_eq in Ed. apply achieves_flat, achieves_holds; [auto|]. cbn [negb orb]. achieve.
Qed.

Lemma keeps_existing_drive_gives : gives (keeps_existing_drive config) drive_kept.
Proof.
  assert (Hk : gives (let* holds_header := holds_luks_header (luks_header_partition usb) in
    if holds_header then
      log_info ("Keeping the USB boot drive, " +:+ luks_header_partition usb +:+ " holds the LUKS header") ;;
      Ret true
    else Ret false) header_kept).
  { apply gives_probe; [|apply gives_ret]. apply gives_silent; [apply achieves_log | intros _; apply gives_ret]. }
  apply gives_probe; [exact Hk|]. cbn [orb]. destruct (_ && _); [exact Hk | apply gives_ret].
Qed.

Lemma read_number_gives offset length : gives (read_number (usb_boot_iso_path usb) offset length)
  (number_read (iso_bytes offset length ("od -An -tu" +:+ str_of_Z length))).
Proof.
  unfold read_number, iso_read. intros t n Hr. runs_ok Hr. runs_ok Hr0. destruct Hr0 as [-> [= ->]].
  apply gives_run_stdout in Hr1. apply gives_of_outcome in Hr as [Hn E].
  exists a0, (exchanges t), []. rewrite exchanges_app, exchanges_app, E, app_nil_r. split; [reflexivity|].
  split; [exact Hr1|]. apply in_order_one. split; [symmetry; symmetry; exact Hn | reflexivity].
Qed.

Lemma iso_size_gives : gives (iso_size_bytes (usb_boot_iso_path usb)) iso_size_read.
Proof.
  intros t size Hr. apply runs_bind_ok in Hr as (signature & t1 & t2 & -> & H1 & H2).
  apply runs_bind_ok in H1 as (out & t3 & t4 & -> & H3 & [-> [= ->]]). rewrite app_nil_r, exchanges_app.
  exists out, (exchanges t3), (exchanges t2). split; [reflexivity|]. split; [exact (gives_run_stdout _ _ _ H3)|].
  apply in_order_one. destruct (String.eqb (strip out) _) eqn:E; [|destruct H2 as [_ [=]]].
  apply String.eqb_eq in E. revert H2. cbn [negb]. revert t2 size. apply gives_holds; [exact E|].
  apply gives_value; [apply gives_run_quiet|]. intros listing.
  destruct (success listing); [|apply gives_raise]. apply gives_holds; [reflexivity|].
  apply gives_value; [exact (read_number_gives ISO9660_BLOCK_COUNT_OFFSET 4)|]. intros count.
  apply gives_value; [exact (read_number_gives ISO9660_BLOCK_SIZE_OFFSET 2)|]. intros block. apply gives_ret.
Qed.

Lemma drive_size_gives : gives (drive_size_bytes device) (number_read ("blockdev --getsize64 " +:+ device)).
Proof.
  apply gives_value; [apply gives_run_stdout|]. intros out. eapply gives_weaken; [apply gives_of_outcome|]. auto.
Qed.

Lemma require_capacity_confirms recovery_mb :
  achieves (require_capacity config recovery_mb) (room_confirmed recovery_mb).
Proof.
  apply achieves_alone, achieves_value; [apply drive_size_gives|]. intros size. cbv zeta. unfold needed_mb.
  destruct (_ <? _)%Z eqn:E; [apply achieves_raise|]. apply Z.ltb_ge in E. apply achieves_holds; [exact E|].
  apply achieves_ret.
Qed.

Lemma release_drive_releases : achieves (release_drive config) drive_released.
Proof. unfold release_drive, drive_released. cbn [for_each]. achieve. Qed.

Lemma wait_for_partition_waits rounds disk partition :
  achieves (wait_for_partition_rounds rounds disk partition) (waited rounds disk partition).
Proof. induction rounds as [|rounds IH]; [apply achieves_raise|]. cbn [wait_for_partition_rounds waited]. achieve. Qed.

Lemma partition_drive_partitions recovery_mb :
  achieves (partition_drive config recovery_mb) (drive_partitioned recovery_mb).
Proof.
  pose proof wait_for_partition_waits. unfold partition_drive, drive_partitioned, wait_for_partition.
  destruct (recovery_mb =? 0)%Z; cbn [negb]; achieve.
Qed.

Lemma store_recovery_stores : achieves (store_recovery_system config) recovery_stored.
Proof. unfold store_recovery_system, recovery_stored, extract_live_system. achieve. Qed.

Lemma usb_boot_drive_achieves : achieves (usb_boot_drive_execute config) usb_boot_drive_done.
Proof.
  pose proof require_disk_confirms. pose proof stable_disk_path_gives. pose proof keeps_existing_drive_gives.
  pose proof require_capacity_confirms. pose proof release_drive_releases. pose proof partition_drive_partitions.
  pose proof store_recovery_stores.
  assert (gives (if usb_boot_recovery_system usb then iso_size_bytes (usb_boot_iso_path usb) else Ret 0%Z) iso_size_wanted).
  { apply gives_if; [apply iso_size_gives | apply gives_ret]. }
  unfold usb_boot_drive_execute, usb_boot_drive_done. cbv zeta.
  destruct (String.eqb device target) eqn:E; [apply achieves_raise|]. apply String.eqb_neq in E.
  apply achieves_holds; [exact E|]. apply achieves_seq; [auto|]. intros _.
  apply achieves_value; [auto|]. intros path. destruct (truthy path) eqn:Ep; [|apply achieves_raise].
  apply achieves_flat, achieves_holds; [intros ->; discriminate|]. cbn [negb app].
  apply achieves_value; [assumption|]. intros []; [achieve|].
  apply achieves_one. unfold drive_made. apply achieves_alone, achieves_value; [assumption|]. intros size.
  destruct (size =? 0)%Z; cbn [negb]; achieve.
Qed.

(** ** Safeguards of the USB boot drive ([executors/usb_boot.py]) *)

Definition safeguards_done : achievement :=
  valued (partuuid_read (usb_efi_partition usb)) (fun uuid => in_order [
    valued (output_of "cat /mnt/etc/fstab") (fun fstab =>
      wrote "/mnt/etc/fstab" (removable_efi_fstab fstab uuid));
    wrote "/mnt/etc/default/usb-boot-drive" (usb_boot_settings uuid);
    ran "mkdir -p /mnt/etc/pacman.d/hooks /mnt/usr/local/bin";
    wrote "/mnt/usr/local/bin/check-usb-boot-drive" USB_BOOT_GUARD_SCRIPT_CONTENT;
    ran "chmod 755 /mnt/usr/local/bin/check-usb-boot-drive";
    wrote "/mnt/etc/pacman.d/hooks/00-usb-boot-drive.hook" usb_boot_guard_hook;
    if_set (boot_enable_snapshot_boot boot) (in_order [
      ran "mkdir -p /mnt/etc/udev/rules.d";
      wrote "/mnt/etc/udev/rules.d/90-usb-boot-drive.rules" (snapshot_catch_up_rule uuid);
      wrote "/mnt/etc/systemd/system/snapshot-ukis-catch-up.service" SNAPSHOT_CATCH_UP_SERVICE_CONTENT])]).

Lemma safeguards_achieves : achieves (usb_safeguards_execute config) safeguards_done.
Proof.
  unfold usb_safeguards_execute, safeguards_done. apply achieves_alone, achieves_value; [apply gives_partition_uuid|].
  intros uuid. unfold mount_efi_on_demand, install_update_guard, install_snapshot_catch_up. achieve.
Qed.

(** ** The signed recovery system ([executors/recovery.py]) *)
#[local] Abbreviation recovery := (recovery_partition (cfg_usb_boot config)).

(** The key is made for one signature. *)
Definition root_image_signed : achievement := in_order [
  ran "rm -rf /run/dali/recovery-signing"; ran "mkdir -p -m 700 /run/dali/recovery-signing";
  in_order [
    in_order [
      ran ("openssl req -x509 -newkey ec -pkeyopt ec_paramgen_curve:prime256v1 -nodes " +:+
           "-keyout /run/dali/recovery-signing/key.pem -out /run/dali/recovery-signing/codesign.crt " +:+
           "-days 36500 -subj '/CN=DALI recovery system' " +:+
           "-addext keyUsage=critical,digitalSignature -addext extendedKeyUsage=codeSigning,emailProtection");
      ran ("openssl cms -sign -binary -noattr -in /run/dali/usb-recovery/arch/x86_64/airootfs.sfs " +:+
           "-signer /run/dali/recovery-signing/codesign.crt -inkey /run/dali/recovery-signing/key.pem " +:+
           "-outform DER -out /run/dali/usb-recovery/arch/x86_64/airootfs.sfs.cms.sig")];
    tried "rm -f /run/dali/recovery-signing/key.pem"];
  ran "cp /run/dali/recovery-signing/codesign.crt /run/dali/recovery-signing/codesign_CA.crt";
  ran ("bsdtar --format newc -cf /mnt/var/tmp/recovery-system/codesign-initramfs.cpio " +:+
       "-C /run/dali/recovery-signing codesign.crt codesign_CA.crt");
  tried "rm -rf /run/dali/recovery-signing"].

(** The image boots the live system of the recovery partition, checked by the
    certificate. *)
Definition recovery_image_built (filesystem_uuid : string) : achievement := in_order [
  ran "mkdir -p /mnt/efi/EFI/recovery";
  ran (chroot_command ("ukify build --linux=/var/tmp/recovery-system/vmlinuz-linux " +:+
    "--initrd=/var/tmp/recovery-system/initramfs-linux.img " +:+
    "--initrd=/var/tmp/recovery-system/codesign-initramfs.cpio " +:+
    "--cmdline='" +:+ ("archisobasedir=arch archisodevice=UUID=" +:+ filesystem_uuid +:+ " cms_verify=y") +:+ "' " +:+
    "--output=/efi/EFI/recovery/arch-recovery.efi"))].

Definition live_system_signed (filesystem_uuid version : string) : achievement :=
  valued (output_of "cat /run/dali/usb-recovery/arch/version") (fun text => in_order [
    root_image_signed;
    in_order [
      ran "cp /run/dali/usb-recovery/arch/boot/x86_64/vmlinuz-linux /mnt/var/tmp/recovery-system/";
      ran "cp /run/dali/usb-recovery/arch/boot/x86_64/initramfs-linux.img /mnt/var/tmp/recovery-system/"];
    recovery_image_built filesystem_uuid;
    holds (version = strip text)]).

Definition recovery_done : achievement :=
  valued (output_of ("blkid -s UUID -o value " +:+ recovery)) (fun uuid => in_order [
    ran "mkdir -p /run/dali/usb-recovery /mnt/var/tmp/recovery-system";
    ran ("mount -t ext4 " +:+ recovery +:+ " /run/dali/usb-recovery");
    valued (fun version => in_order [
        live_system_signed (strip uuid) version;
        in_order [tried "umount /run/dali/usb-recovery"; tried "rm -rf /mnt/var/tmp/recovery-system"]])
      (fun version => in_order [
        wrote "/mnt/efi/loader/entries/arch-recovery.conf" (recovery_entry version);
        provided "test -f /mnt/var/lib/sbctl/keys/db/db.key"
          (ran (chroot_command "sbctl sign -s /efi/EFI/recovery/arch-recovery.efi"))])]).

Lemma sign_root_image_signs : achieves (sign_root_image "/mnt/var/tmp/recovery-system") root_image_signed.
Proof. unfold sign_root_image, root_image_signed. achieve. Qed.

Lemma build_uki_builds uuid : achieves (build_uki (recovery_cmdline uuid)) (recovery_image_built uuid).
Proof. unfold build_uki, recovery_image_built. achieve. Qed.

Lemma live_system_gives uuid :
  gives (let* version := run_stdout "cat /run/dali/usb-recovery/arch/version" in
         sign_root_image "/mnt/var/tmp/recovery-system" ;;
         for_each (fun boot_file => run ("cp /run/dali/usb-recovery/" +:+ boot_file +:+ " /mnt/var/tmp/recovery-system/"))
           [ARCHISO_KERNEL; ARCHISO_INITRAMFS] ;;
         build_uki (recovery_cmdline uuid) ;;
         Ret (strip version)) (live_system_signed uuid).
Proof.
  apply gives_value; [apply gives_run_stdout|]. intros text.
  intros t version Hr. apply runs_bind_ok in Hr as (u1 & t1 & t2 & -> & H1 & H).
  apply runs_bind_ok in H as (u2 & t3 & t4 & -> & H2 & H). apply runs_bind_ok in H as (u3 & t5 & t6 & -> & H3 & [-> [= ->]]).
  apply sign_root_image_signs in H1. apply build_uki_builds in H3.
  assert (H2' := achieves_for_each _ (fun file => ran ("cp /run/dali/usb-recovery/" +:+ file +:+ " /mnt/var/tmp/recovery-system/"))
    _ (fun file => achieves_run _) _ _ H2).
  rewrite !exchanges_app, app_nil_r. exists (exchanges t1), (exchanges t3 ++ exchanges t5).
  split; [reflexivity|]. split; [exact H1|]. exists (exchanges t3), (exchanges t5). split; [reflexivity|].
  split; [exact H2'|]. exists (exchanges t5), []. rewrite app_nil_r. split; [reflexivity|]. split; [exact H3|].
  apply in_order_one. split; reflexivity.
Qed.

Lemma recovery_achieves : achieves (recovery_execute config) recovery_done.
Proof.
  unfold recovery_execute, recovery_done, sign_recovery_uki. cbv zeta. apply achieves_alone, achieves_silent; [apply achieves_log|].
  intros _. apply achieves_value; [apply gives_run_stdout|]. intros uuid. achieve.
  apply achieves_value; [apply gives_try_finally; [apply live_system_gives | achieve]|]. intros version. achieve.
Qed.

(** ** Migration ([executors/migration.py]) *)
#[local] Abbreviation migration := (cfg_migration config).

(** The first partition of the disk with a LUKS header. *)
Definition old_partition_found (partition : string) : achievement :=
  reading ("lsblk -ln -o NAME " +:+ target) (fun listing =>
    valued (searched (fun candidate => "cryptsetup isLuks " +:+ candidate) (listed_partitions target listing))
      (fun found => holds (found = Some partition))).

Definition old_system_opened (partition : string) : achievement :=
  valued (answered ("cryptsetup open --key-file - " +:+ partition +:+ " oldcryptroot")
            (Some (source_luks_password (cfg_credentials config)))) (fun unlocked => in_order [
    holds (success unlocked = true);
    ran "mkdir -p /tmp/old-system";
    valued (answered "mount -t btrfs -o subvolid=5 /dev/mapper/oldcryptroot /tmp/old-system" None)
      (fun mounted => holds (success mounted = true))]).

Definition old_system_closed : achievement := in_order [
  tried "umount /tmp/old-system"; tried "cryptsetup close oldcryptroot"; tried "rmdir /tmp/old-system"].

(** What is there to be kept. *)
Definition used_megabytes (out : string) (megabytes : Z) : Prop :=
  match split out with
  | size :: _ => if isdigit size then int_of_digits size = Ok megabytes else megabytes = 0%Z
  | [] => megabytes = 0%Z
  end.
Definition size_read (path : string) (megabytes : Z) : achievement :=
  reading ("du -sm " +:+ path) (fun out => holds (used_megabytes out megabytes)).

Definition keys_searched (directory : string) : achievement :=
  valued (searched (fun candidate => "test -d " +:+ (candidate +:+ "/keys"))
            ["/tmp/old-system/@/var/lib/sbctl"; "/tmp/old-system/@/usr/share/secureboot"])
    (fun found => holds (directory = default "" found)).

Definition old_system_inspected (partition : string) (existing : ExistingInstallInfo) : achievement :=
  reading "btrfs subvolume list /tmp/old-system" (fun subvolumes =>
    let home := if contains "@home" subvolumes then "@home" else "" in
    valued (fun size => if truthy home then size_read ("/tmp/old-system/" +:+ home) size else holds (size = 0%Z))
      (fun size => valued keys_searched (fun directory => holds (existing = {|
         existing_disk := target; existing_root_partition := partition; existing_home_subvolume := home;
         existing_home_size_mb := size; existing_secure_boot_directory := directory |})))).

(** What [df] says is free. *)
Definition free_megabytes (out : string) (megabytes : Z) : Prop :=
  let field := strip (last_of (split_on nl (strip out))) in
  if isdigit field then int_of_digits field = Ok megabytes else megabytes = 0%Z.

(** There is room for all of it. *)
Definition staging_room_confirmed (existing : ExistingInstallInfo) : achievement :=
  valued (mapped (fun path => size_read (path_in_old_root path)) (migration_additional_paths migration)) (fun sizes =>
    reading "df --output=avail -m /tmp" (fun out => valued (fun free => holds (free_megabytes out free)) (fun free =>
      holds (256 + (if migration_preserve_home migration then existing_home_size_mb existing else 0) +
             foldr Z.add 0 sizes <= free)%Z))).

Definition directory_staged (directory name : string) : achievement := in_order [
  ran ("mkdir -p /tmp/migration-staging/" +:+ name);
  ran ("cp -a " +:+ directory +:+ "/. /tmp/migration-staging/" +:+ name +:+ "/")].

Definition path_staged (path : string) : achievement :=
  let source := "/tmp/old-system/@/" +:+ lstrip_chars "/" path in
  let destination := "/tmp/migration-staging/additional/" +:+ lstrip_chars "/" path in
  provided ("test -e " +:+ source) (in_order [
    ran ("mkdir -p " +:+ path_parent destination); ran ("cp -a " +:+ source +:+ " " +:+ destination)]).

Definition data_staged (existing : ExistingInstallInfo) : achievement := in_order [
  ran "rm -rf /tmp/migration-staging"; ran "mkdir -p /tmp/migration-staging";
  if_set (migration_preserve_home migration && truthy (existing_home_subvolume existing))
    (directory_staged ("/tmp/old-system/" +:+ existing_home_subvolume existing) "home");
  if_set (migration_preserve_secure_boot_keys migration && truthy (existing_secure_boot_directory existing))
    (directory_staged (existing_secure_boot_directory existing) "sbctl");
  in_turn (migration_additional_paths migration) path_staged].

Definition migration_staging_done : achievement :=
  valued old_partition_found (fun partition => in_order [
    old_system_opened partition;
    in_order [
      valued (old_system_inspected partition) (fun existing => in_order [
        staging_room_confirmed existing; data_staged existing]);
      old_system_closed]]).

Lemma find_luks_partition_gives : gives (find_luks_partition target) old_partition_found.
Proof.
  apply gives_reading. intros listing. apply gives_value; [apply gives_find_each|].
  intros [partition|]; [|apply gives_raise]. intros t p [-> [= ->]]. split; reflexivity.
Qed.

Lemma open_and_mount_opens partition : achieves (open_and_mount config partition) (old_system_opened partition).
Proof.
  unfold open_and_mount, old_system_opened. apply achieves_alone, achieves_value; [apply gives_run_input_quiet|].
  intros unlocked. destruct (success unlocked); [|apply achieves_raise].
  apply achieves_flat, achieves_holds; [reflexivity|]. apply achieves_seq; [apply achieves_run|]. intros _.
  apply achieves_value; [exact (gives_run_quiet _)|]. intros mounted.
  destruct (success mounted); cbn [negb]; [achieve|].
  intros t u Hr. runs_ok Hr. destruct Hr as [_ [=]].
Qed.

Lemma unmount_and_close_closes : achieves unmount_and_close old_system_closed.
Proof. unfold unmount_and_close, old_system_closed. achieve. Qed.

Lemma size_mb_gives path : gives (size_mb path) (size_read path).
Proof.
  apply gives_reading. intros out. unfold used_megabytes. destruct (split out) as [|size rest]; [apply gives_ret|].
  destruct (isdigit size); [apply gives_of_outcome | apply gives_ret].
Qed.

Lemma find_secure_boot_directory_gives : gives find_secure_boot_directory keys_searched.
Proof. apply gives_value; [apply gives_find_each|]. intros [directory|]; apply gives_ret. Qed.

Lemma inspect_gives partition :
  gives (inspect_mounted_system target partition) (old_system_inspected partition).
Proof.
  apply gives_reading. intros subvolumes. cbv zeta.
  apply gives_value; [apply gives_if; [apply size_mb_gives | apply gives_ret]|]. intros size.
  apply gives_value; [apply find_secure_boot_directory_gives|]. intros directory. apply gives_ret.
Qed.

Lemma fold_left_sum l b : fold_left Z.add l b = (b + foldr Z.add 0 l)%Z.
Proof. revert b. induction l as [|x l IH]; intros b; cbn; [lia|]. rewrite IH. lia. Qed.

Lemma ensure_staging_space_confirms existing :
  achieves (ensure_staging_space config existing) (staging_room_confirmed existing).
Proof.
  unfold ensure_staging_space, staging_room_confirmed. cbv zeta.
  apply achieves_alone, achieves_value; [apply gives_map_each; intros path; apply size_mb_gives|]. intros sizes.
  apply achieves_reading. intros out. rewrite fold_left_sum. apply achieves_value.
  { unfold free_megabytes. cbv zeta. destruct (isdigit _); [apply gives_of_outcome | apply gives_ret]. }
  intros free. apply achieves_silent; [apply achieves_log|]. intros _. unfold STAGING_HEADROOM_MB.
  destruct (_ <? _)%Z eqn:E; [apply achieves_raise|]. apply Z.ltb_ge in E.
  apply achieves_holds; [lia | apply achieves_ret].
Qed.

Lemma copy_into_staging_stages directory name :
  achieves (copy_into_staging directory name) (directory_staged directory name).
Proof. unfold copy_into_staging, directory_staged. achieve. Qed.

Lemma stage_additional_path_stages path : achieves (stage_additional_path path) (path_staged path).
Proof. unfold stage_additional_path, path_staged, path_in_old_root. achieve. Qed.

Lemma copy_to_staging_stages existing : achieves (copy_to_staging config existing) (data_staged existing).
Proof.
  pose proof copy_into_staging_stages. pose proof stage_additional_path_stages.
  unfold copy_to_staging, data_staged. achieve.
Qed.

Lemma migration_staging_achieves : achieves (migration_staging_execute config) migration_staging_done.
Proof.
  pose proof open_and_mount_opens. pose proof unmount_and_close_closes.
  pose proof ensure_staging_space_confirms. pose proof copy_to_staging_stages.
  unfold migration_staging_execute, migration_staging_done. cbv zeta.
  apply achieves_alone, achieves_value; [apply find_luks_partition_gives|]. intros partition. achieve_step.
  apply achieves_seq; [auto|]. intros _. apply achieves_seq; [|achieve].
  apply achieves_try_finally; [|apply unmount_and_close_closes].
  apply achieves_alone, achieves_value; [apply inspect_gives|]. intros existing. achieve.
Qed.

Definition directory_restored (staged destination : string) : achievement :=
  provided ("test -d " +:+ staged) (in_order [
    ran ("mkdir -p " +:+ destination); ran ("cp -a " +:+ staged +:+ "/. " +:+ destination +:+ "/")]).

(** What was staged is restored, looked at, and removed. *)
Definition migration_restore_done : achievement :=
  provided "test -d /tmp/migration-staging" (in_order [
    in_order [
      directory_restored "/tmp/migration-staging/home" "/mnt/home";
      directory_restored "/tmp/migration-staging/sbctl" "/mnt/var/lib/sbctl";
      directory_restored "/tmp/migration-staging/additional" "/mnt"];
    in_order [
      if_set (migration_preserve_home migration) (tried "ls -A /mnt/home");
      if_set (migration_preserve_secure_boot_keys migration) (tried "test -d /mnt/var/lib/sbctl/keys")];
    ran "rm -rf /tmp/migration-staging"]).

Lemma restore_directory_restores staged destination :
  achieves (restore_directory (staged, destination)) (directory_restored staged destination).
Proof. unfold restore_directory, directory_restored. achieve. Qed.

Lemma report_restored_data_reports : achieves (report_restored_data config) (in_order [
  if_set (migration_preserve_home migration) (tried "ls -A /mnt/home");
  if_set (migration_preserve_secure_boot_keys migration) (tried "test -d /mnt/var/lib/sbctl/keys")]).
Proof. unfold report_restored_data. achieve. Qed.

Lemma migration_restore_achieves : achieves (migration_restore_execute config) migration_restore_done.
Proof.
  pose proof restore_directory_restores. pose proof report_restored_data_reports.
  assert (achieves (for_each restore_directory staged_destinations) (in_order [
    directory_restored "/tmp/migration-staging/home" "/mnt/home";
    directory_restored "/tmp/migration-staging/sbctl" "/mnt/var/lib/sbctl";
    directory_restored "/tmp/migration-staging/additional" "/mnt"])).
  { apply (achieves_for_each restore_directory (fun staged => directory_restored staged.1 staged.2)).
    intros [staged destination]. apply restore_directory_restores. }
  unfold migration_restore_execute, migration_restore_done. achieve.
Qed.
End StepsDone.
