(* ===== verification/BootFacts.v ===== *)
(** * Properties of the boot steps *)

From S2P Require Import Prelude PyStr Effects Command PyVal Models Samples Base Patterns Deeds Guards Boot StepsDone.

(** ** Every image has its command line *)

Lemma contains_join_sep p sep l x :
  x ∈ l -> contains p x = true -> contains p (join sep l) = true.
Proof.
  intros Hx Hp. induction l as [|y l IH]; [apply elem_of_nil in Hx as []|].
  apply elem_of_cons in Hx as [->|Hx].
  - destruct l; [exact Hp | apply contains_app_l, Hp].
  - destruct l; [apply elem_of_nil in Hx as []|].
    apply contains_app_r, contains_app_r, IH, Hx.
Qed.

Lemma preset_names_cmdline kernel variants v :
  v ∈ variants ->
  contains ("--cmdline " +:+ cmdline_file kernel v) (kernel_preset kernel variants) = true.
Proof.
  intros Hv. unfold kernel_preset. cbv zeta. repeat apply contains_app_r.
  eapply contains_join_sep; [apply list_elem_of_fmap_2, Hv|].
  unfold preset_entry. do 9 apply contains_app_r.
  exact (contains_app ("--cmdline " +:+ cmdline_file kernel v)
    "--splash /usr/share/systemd/bootctl/splash-arch.bmp " (dquote +:+ nl)).
Qed.


(** *** The command line *)

Definition option_word (name value : string) : list string :=
  if String.eqb value "" then [] else [name +:+ "=" +:+ value].
Definition option_number (name : string) (value : Z) : list string :=
  if (value =? 0)%Z then [] else [name +:+ "=" +:+ str_of_Z value].

Definition hardening_words (h : CmdlineHardeningConfig) : list string :=
  option_word "lockdown" (hardening_lockdown h) ++ option_word "iommu" (hardening_iommu h) ++
  option_word "intel_iommu" (hardening_intel_iommu h) ++ option_word "amd_iommu" (hardening_amd_iommu h) ++
  option_word "pti" (hardening_pti h) ++ option_word "spectre_v2" (hardening_spectre_v2 h) ++
  option_word "spec_store_bypass_disable" (hardening_spec_store_bypass_disable h) ++
  option_word "l1tf" (hardening_l1tf h) ++ option_word "mds" (hardening_mds h) ++
  option_word "srbds" (hardening_srbds h) ++ option_word "tsx_async_abort" (hardening_tsx_async_abort h) ++
  option_number "init_on_alloc" (hardening_init_on_alloc h) ++ option_number "init_on_free" (hardening_init_on_free h).

(** What the kernel is told: which volume to open, with the header on the drive if it
    boots from one; the root filesystem; the hardening; where to resume from. *)
Definition cmdline_words (config : InstallerConfig) (luks_uuid : string) (header : option (string * string))
    (resume_offset : option string) : list string :=
  let cmdline := boot_cmdline (cfg_boot config) in
  let swap := storage_swap (cfg_storage config) in
  ["rd.luks.name=" +:+ luks_uuid +:+ "=cryptroot"; "root=/dev/mapper/cryptroot";
   if cmdline_rw cmdline then "rw" else "ro"; "rootfstype=" +:+ cmdline_rootfstype cmdline;
   "rootflags=" +:+ cmdline_rootflags cmdline] ++
  match header with
  | Some (disk, partuuid) =>
      ["rd.luks.data=" +:+ luks_uuid +:+ "=" +:+ disk;
       "rd.luks.options=" +:+ luks_uuid +:+ "=header=/dev/disk/by-partuuid/" +:+ partuuid]
  | None => []
  end ++
  (if cmdline_quiet cmdline then ["quiet"] else []) ++
  hardening_words (cmdline_hardening cmdline) ++
  (if swap_enabled swap && swap_hibernation swap
   then "resume=/dev/mapper/cryptroot" :: match resume_offset with
     | Some offset => option_word "resume_offset" offset | None => [] end
   else []).

Lemma kernel_cmdline_words config luks_uuid header resume_offset :
  kernel_cmdline config luks_uuid header resume_offset =
  join " " (cmdline_words config luks_uuid
    (match header with Some h => Some (encrypted_device_path h, header_partition_uuid h) | None => None end) resume_offset).
Proof.
  set (f := fun pv : string * pyval => pv.1 +:+ "=" +:+ py_str pv.2).
  set (g := fun pv : string * pyval => hardening_set pv.2).
  assert (Hs : forall n v l, map f (List.filter g ((n, PStr v) :: l)) = option_word n v ++ map f (List.filter g l)).
  { intros n v l. unfold option_word. cbn. unfold g at 1, hardening_set. cbn. destruct (String.eqb v ""); reflexivity. }
  assert (Hz : forall n v l, map f (List.filter g ((n, PInt v) :: l)) = option_number n v ++ map f (List.filter g l)).
  { intros n v l. unfold option_number. cbn. unfold g at 1, hardening_set. cbn. destruct (v =? 0)%Z; reflexivity. }
  assert (Hh : forall h, map f (List.filter g (hardening_items h)) = hardening_words h).
  { intros h. change (hardening_items h) with [
      ("lockdown", PStr (hardening_lockdown h)); ("iommu", PStr (hardening_iommu h));
      ("intel_iommu", PStr (hardening_intel_iommu h)); ("amd_iommu", PStr (hardening_amd_iommu h));
      ("pti", PStr (hardening_pti h)); ("spectre_v2", PStr (hardening_spectre_v2 h));
      ("spec_store_bypass_disable", PStr (hardening_spec_store_bypass_disable h)); ("l1tf", PStr (hardening_l1tf h));
      ("mds", PStr (hardening_mds h)); ("srbds", PStr (hardening_srbds h));
      ("tsx_async_abort", PStr (hardening_tsx_async_abort h)); ("init_on_alloc", PInt (hardening_init_on_alloc h));
      ("init_on_free", PInt (hardening_init_on_free h))].
    rewrite !Hs, !Hz. change (map f (List.filter g [])) with (@nil string). rewrite app_nil_r. reflexivity. }
  unfold kernel_cmdline, cmdline_words. cbv zeta. fold f g. rewrite Hh.
  destruct header as [h|]; destruct (_ && _); try reflexivity; destruct resume_offset as [offset|]; try reflexivity;
    unfold option_word; destruct offset; reflexivity.
Qed.

(** *** What must be there before the images are built *)

Section Ready.
Context (config : InstallerConfig).
#[local] Abbreviation boot := (cfg_boot config).
#[local] Abbreviation swap := (storage_swap (cfg_storage config)).
#[local] Abbreviation target := (storage_target_disk (cfg_storage config)).
#[local] Abbreviation usb_drive := (usb_boot_device (cfg_usb_boot config)).

(** Of the configured kernels, these are installed and the others are not. *)
Definition kernels_found (kernels : list string) (l : list exchange) : Prop :=
  kernels `sublist_of` kernel_packages boot /\
  (forall k, k ∈ kernels -> succeeded_with ("test -f /mnt/boot/vmlinuz-" +:+ k) None l) /\
  (forall k, k ∈ kernel_packages boot -> k ∉ kernels -> was_refused ("test -f /mnt/boot/vmlinuz-" +:+ k) None l).

(** The UUID in the LUKS header. *)
Definition volume_shown (luks_uuid : string) (l : list exchange) : Prop :=
  let device := derive_partition_path (if usb_boot_enabled (cfg_usb_boot config) then usb_drive else target) 2 in
  was_answered ("cryptsetup luksUUID " +:+ device) l (fun code out => code = 0%Z /\ strip out = luks_uuid) /\ luks_uuid <> "".

(** With a USB boot drive: the lasting name of the disk and the UUID of the partition
    that holds the header. *)
Definition header_shown (header : option (string * string)) (l : list exchange) : Prop :=
  if usb_boot_enabled (cfg_usb_boot config) then exists disk partuuid, header = Some (disk, partuuid) /\
    was_answered ("target=$(readlink -f " +:+ target +:+ "); for link in /dev/disk/by-id/*; do " +:+
       qq "[ `$(readlink -f `$link`)` = `$target` ] && echo `$link`; done") l
      (fun _ out => choose_stable_link (split out) = disk) /\ disk <> "" /\
    was_answered ("blkid -s PARTUUID -o value " +:+ derive_partition_path usb_drive 2) l
      (fun _ out => strip out = partuuid) /\ partuuid <> ""
  else header = None.

(** For hibernation: where the swapfile starts. *)
Definition resume_shown (offset : option string) (l : list exchange) : Prop :=
  if swap_enabled swap && swap_hibernation swap then exists mapped,
    was_answered ("btrfs inspect-internal map-swapfile -r /mnt" +:+ swap_path swap) l (fun _ out => strip out = mapped) /\
    (if String.eqb mapped ""
     then was_answered ("filefrag -v /mnt" +:+ swap_path swap) l
       (fun _ out => offset = head (omap filefrag_offset (split_on nl out)))
     else offset = Some mapped)
  else offset = None.

(** The variants: the plain one, and the configured ones of other names. *)
Definition is_variant (v : UkiVariantConfig) : Prop :=
  v = {| variant_suffix := "default"; variant_params := "" |} \/
  (v ∈ boot_variants boot /\ variant_suffix v <> "default").

Definition image_ready (cmdline kernel : string) (variant : UkiVariantConfig) (l : list exchange) : Prop :=
  contains ("--cmdline /etc/kernel/cmdline-" +:+ kernel +:+ "-" +:+ variant_suffix variant)
    (kernel_preset kernel (uki_variants config)) = true /\
  succeeded_with ("cat > /mnt/etc/kernel/cmdline-" +:+ kernel +:+ "-" +:+ variant_suffix variant)
    (Some (strip (cmdline +:+ " " +:+ variant_params variant) +:+ nl)) l.

Definition images_ready (l : list exchange) : Prop :=
  exists kernels luks_uuid header resume_offset,
    kernels <> [] /\ kernels_found kernels l /\ volume_shown luks_uuid l /\ header_shown header l /\
    resume_shown resume_offset l /\
    let cmdline := join " " (cmdline_words config luks_uuid header resume_offset) in
    forall k, k ∈ kernels ->
      succeeded_with ("cat > /mnt/etc/mkinitcpio.d/" +:+ k +:+ ".preset")
        (Some (kernel_preset k (uki_variants config))) l /\
      forall v, is_variant v -> image_ready cmdline k v l.

Definition images_guard : guard := fun c l => c = "arch-chroot /mnt mkinitcpio -P" -> images_ready l.

Lemma is_variant_spec v : is_variant v <-> v ∈ uki_variants config.
Proof.
  unfold is_variant, uki_variants. rewrite elem_of_cons, elem_of_List_filter, negb_true_iff, String.eqb_neq. tauto.
Qed.

Lemma kernels_found_mono kernels l l' : l ⊆ l' -> kernels_found kernels l -> kernels_found kernels l'.
Proof. intros Hl (K1 & K2 & K3). split; [exact K1|]. split; intros k H; [eauto with guard | intros H'; eauto with guard]. Qed.
Lemma volume_shown_mono uuid l l' : l ⊆ l' -> volume_shown uuid l -> volume_shown uuid l'.
Proof. intros Hl (V1 & V2). split; [eauto with guard | exact V2]. Qed.
Lemma header_shown_mono header l l' : l ⊆ l' -> header_shown header l -> header_shown header l'.
Proof.
  unfold header_shown. destruct (usb_boot_enabled _); [|auto]. intros Hl (d & u & E & H1 & H2 & H3 & H4).
  exists d, u. eauto 7 with guard.
Qed.
Lemma resume_shown_mono offset l l' : l ⊆ l' -> resume_shown offset l -> resume_shown offset l'.
Proof.
  unfold resume_shown. destruct (_ && _); [|auto]. intros Hl (m & H1 & H2). exists m. split; [eauto with guard|].
  destruct (String.eqb m ""); eauto with guard.
Qed.
#[local] Hint Resolve kernels_found_mono volume_shown_mono header_shown_mono resume_shown_mono : guard.

Lemma images_ready_mono l l' : l ⊆ l' -> images_ready l -> images_ready l'.
Proof.
  intros Hl (kernels & uuid & header & offset & Hne & Hk & Hv & Hh & Hr & Hw).
  exists kernels, uuid, header, offset. split; [exact Hne|]. do 4 (split; [eauto with guard|]).
  intros cmdline k Hin. destruct (Hw k Hin) as [H1 H2]. split; [eauto with guard|].
  intros v Hvar. destruct (H2 v Hvar) as [H3 H4]. split; [exact H3 | eauto with guard].
Qed.

#[local] Instance images_guard_lasting : Lasting images_guard.
Proof. intros c l l' Hl H E. exact (images_ready_mono _ _ Hl (H E)). Qed.

(** What the parts of the step saw. *)
Lemma luks_uuid_shown luks_uuid l : luks_uuid_read config luks_uuid l -> luks_uuid <> "" -> volume_shown luks_uuid l.
Proof.
  intros (r & l1 & l2 & -> & (code & out & err & -> & -> & ->) & H) Hn. apply in_order_inv in H as [-> ->].
  split; [|exact Hn]. exists (exit_code r), (stdout r), err. destruct (success r) eqn:E; [|congruence].
  split; [|split; [apply Z.eqb_eq, E | reflexivity]].
  unfold luks_header_device, encrypted_device, luks_header_partition. destruct (usb_boot_enabled _); left.
Qed.

Lemma header_found_shown header l :
  header_found config header l ->
  header_shown (match header with Some h => Some (encrypted_device_path h, header_partition_uuid h) | None => None end) l.
Proof.
  unfold header_found, header_shown, encrypted_device. destruct (usb_boot_enabled _); [|intros [-> _]; reflexivity].
  intros (path & l1 & l2 & -> & (links & l3 & l4 & -> & (c1 & o1 & e1 & -> & ->) & H1) & H).
  apply in_order_inv in H1 as [-> ->]. apply in_order_inv in H as (uuid & l5 & l6 & -> & (out & l7 & l8 & -> & (c2 & o2 & e2 & -> & ->) & H2) & H).
  apply in_order_inv in H2 as [[-> Hu] ->]. apply in_order_inv in H as [[-> Hp] ->].
  eexists _, _. split; [reflexivity|]. split; [|split; [exact Hp|split; [|exact Hu]]].
  - exists c1, links, e1. split; [left | reflexivity].
  - exists c2, out, e2. split; [right; left | reflexivity].
Qed.

Lemma resume_offset_shown offset l : resume_offset_found config offset l -> resume_shown offset l.
Proof.
  unfold resume_offset_found, resume_shown. destruct (_ && _); [|intros [-> _]; reflexivity].
  intros (out & l1 & l2 & -> & (c1 & o1 & e1 & -> & ->) & H). apply in_order_inv in H.
  exists (strip out). split; [exists c1, out, e1; split; [left | reflexivity]|].
  destruct (strip out); cbn in H |- *; [|destruct H as [-> _]; reflexivity].
  destruct H as (extents & l3 & l4 & -> & (c2 & o2 & e2 & -> & ->) & H). apply in_order_inv in H as [-> ->].
  exists c2, extents, e2. split; [right; left | reflexivity].
Qed.

Lemma kernels_configured cmdline kernels l :
  in_turn kernels (kernel_configured config cmdline) l -> forall k, k ∈ kernels ->
  succeeded_with ("cat > /mnt/etc/mkinitcpio.d/" +:+ k +:+ ".preset") (Some (kernel_preset k (uki_variants config))) l /\
  forall v, is_variant v -> image_ready cmdline k v l.
Proof.
  intros H k Hk. destruct (in_turn_part _ _ _ _ H Hk) as (l' & Hl & l1 & l2 & -> & Hv & Hp). apply in_order_inv in Hp.
  split.
  - eapply succeeded_with_mono; [exact Hl|]. eapply succeeded_with_mono; [|exact (given_succeeded _ _ _ Hp)].
    intros x Hx. apply elem_of_app. auto.
  - intros v Hin%is_variant_spec. split; [exact (preset_names_cmdline k _ v Hin)|].
    destruct (in_turn_part _ _ _ _ Hv Hin) as (l3 & Hl3 & Hw). eapply succeeded_with_mono; [exact Hl|].
    eapply succeeded_with_mono; [|exact (given_succeeded _ _ _ Hw)]. intros x Hx. apply elem_of_app. auto.
Qed.

Lemma guarded_kernel_images : guarded images_guard (kernel_images_execute config).
Proof.
  unfold kernel_images_execute.
  apply guarded_quiet; [exact _ | safe_auto exempt|]. intros _.
  apply guarded_quiet; [exact _ | safe_auto exempt|]. intros _.
  eapply guarded_learn; [exact _ | safe_auto exempt | apply gives_detect_luks_uuid |].
  intros uuid l1 H1. destruct (truthy uuid) eqn:Eu; [|apply guarded_raise]. cbn [negb].
  assert (Hu : uuid <> "") by (intros ->; discriminate). pose proof (luks_uuid_shown _ _ H1 Hu) as Huuid.
  eapply guarded_learn; [exact _ | safe_auto exempt | apply gives_filter_each |].
  intros kernels l2 Hk%sifted_spec. change (kernels_found kernels l2) in Hk.
  destruct kernels as [|k0 ks]; [apply guarded_raise|]. cbv zeta. set (kernels := k0 :: ks) in *.
  apply guarded_quiet; [exact _ | safe_auto exempt|]. intros _.
  eapply guarded_learn; [exact _ | unfold detached_header; safe_auto exempt | apply detached_header_gives |].
  intros header l3 H3%header_found_shown.
  eapply guarded_learn; [exact _ | unfold swapfile_resume_offset; safe_auto exempt | apply resume_offset_gives |].
  intros offset l4 H4%resume_offset_shown. set (cmdline := kernel_cmdline _ _ _ _).
  apply guarded_quiet; [exact _ | safe_auto exempt|]. intros _.
  eapply guarded_learn; [exact _ | unfold write_kernel_files; safe_auto exempt
    | apply achieves_for_each; intros k; apply write_kernel_files_configures |].
  intros done l5 H5. pose proof (kernels_configured _ _ _ H5) as Hw. subst cmdline. rewrite kernel_cmdline_words in Hw.
  apply guarded_free. intros c l _.
  exists kernels, uuid, (match header with Some h => Some (encrypted_device_path h, header_partition_uuid h) | None => None end), offset.
  split; [discriminate|].
  split; [eapply kernels_found_mono; [|exact Hk]; intros x Hx; rewrite !elem_of_app; tauto|].
  split; [eapply volume_shown_mono; [|exact Huuid]; intros x Hx; rewrite !elem_of_app; tauto|].
  split; [eapply header_shown_mono; [|exact H3]; intros x Hx; rewrite !elem_of_app; tauto|].
  split; [eapply resume_shown_mono; [|exact H4]; intros x Hx; rewrite !elem_of_app; tauto|].
  intros cmdline k Hin. destruct (Hw k Hin) as [Hp Hv].
  assert (Hl : l5 ⊆ l1 ++ l2 ++ l3 ++ l4 ++ l5 ++ l) by (intros x Hx; rewrite !elem_of_app; tauto).
  split; [exact (succeeded_with_mono _ _ _ _ Hl Hp)|].
  intros v Hvar. destruct (Hv v Hvar) as [Hc Hf]. split; [exact Hc | exact (succeeded_with_mono _ _ _ _ Hl Hf)].
Qed.

Lemma kernel_images_runs_mkinitcpio t u :
  runs (kernel_images_execute config) t (Ok u) -> succeeded_with "arch-chroot /mnt mkinitcpio -P" None (exchanges t).
Proof.
  intros (l1 & l2 & E & _ & l3 & l4 & -> & _ & H)%kernel_images_achieves. apply in_order_inv in H.
  destruct H as (uuid & l5 & l6 & -> & _ & H). apply in_order_inv in H as (l7 & l8 & -> & _ & H). apply in_order_inv in H.
  destruct H as (kernels & l9 & l10 & -> & _ & H). apply in_order_inv in H as (l11 & l12 & -> & _ & H). apply in_order_inv in H.
  destruct H as (header & l13 & l14 & -> & _ & H). apply in_order_inv in H as (offset & l15 & l16 & -> & _ & H). apply in_order_inv in H.
  destruct (in_order_part _ (ran (chroot_command "mkinitcpio -P")) _ H) as (l17 & Hl & Hm%ran_succeeded); [one_of|].
  rewrite E. eapply succeeded_with_mono; [|exact Hm]. intros x Hx. rewrite !elem_of_app. auto 10.
Qed.
End Ready.


Definition bootable_machine : oracle cmd_sig := fake_runner [
  ("luksUUID", (0, "1234-abcd", "")); ("sbctl status", (0, "Setup Mode: Enabled", ""))]%Z.


(** ** Secure Boot keys *)

Inductive boot_kind := Status | Efivar | Enroll | DbKey | Sign | BootOther.
Definition enroll_rules : list (string * boot_kind) := [
  ("arch-chroot /mnt sbctl status", Status);
  ("arch-chroot /mnt cat /sys/firmware/efi/efivars/SetupMode-", Efivar);
  ("arch-chroot /mnt sbctl enroll-keys", Enroll)].
Definition sign_rules : list (string * boot_kind) := [
  ("test -f /mnt/var/lib/sbctl/keys/db/db.key", DbKey);
  ("arch-chroot /mnt sbctl sign ", Sign)].

Definition is_enroll (k : boot_kind) : bool := match k with Enroll => true | _ => false end.
Definition is_sign (k : boot_kind) : bool := match k with Sign => true | _ => false end.

(** The firmware is in setup mode: sbctl says so, or the efivar does. *)
Definition setup_mode_shown (k : boot_kind) (res : process_result) : bool :=
  match k, res with
  | Status, Completed _ out _ => match setup_mode_status out with Some true => true | _ => false end
  | Efivar, Completed 0 out _ => String.eqb (strip out) "01"
  | _, _ => false
  end.
Definition db_key_found (k : boot_kind) (res : process_result) : bool :=
  match k with DbKey => succeeded res | _ => false end.

Section SecureBoot.
Context (config : InstallerConfig).

Abbreviation enrolls p Q s :=
  (wp (monitor (kind_step enroll_rules BootOther (precedence_act is_enroll setup_mode_shown))) p Q s).

(** The answer [true] comes with the flag. *)
Lemma enrolls_is_in_setup_mode Q :
  (forall o s, (o = Ok true -> s = true) -> Q o s) -> enrolls is_in_setup_mode Q false.
Proof.
  intros HQ. unfold is_in_setup_mode. wp_step. apply wp_run_quiet_stdout.
  intros [e|code out err]; unfold kind_step at 1; eval_kind; cbn [precedence_act is_enroll setup_mode_shown then_].
  - apply HQ; discriminate.
  - destruct (setup_mode_status out) as [[]|] eqn:E.
    + apply HQ; auto.
    + apply HQ; discriminate.
    + wp_step. unfold run_chroot_quiet.
      apply wp_run_quiet. intros [e|[|p|p] out' err']; unfold kind_step at 1; eval_kind;
        cbn [precedence_act is_enroll setup_mode_shown then_]; try (apply HQ; discriminate).
      destruct (String.eqb (strip out') "01") eqn:E'; cbn [wp]; unfold success, result_of; simpl;
        rewrite E'; apply HQ; auto; discriminate.
Qed.

Lemma enrolls_prepare_secure_boot Q :
  (forall o s, Q o s) -> enrolls (prepare_secure_boot config) Q false.
Proof.
  intros HQ. unfold prepare_secure_boot. wp_step. apply enrolls_is_in_setup_mode.
  intros [[]|x] s Hs; cbn [then_]; auto.
  - rewrite Hs by reflexivity. apply precedence_raised. auto.
  - destruct s; [raised|]. cbn [andb when]. needless idtac. auto.
Qed.

Lemma enrolls_kernel_images :
  enrolls (kernel_images_execute config) (fun _ _ => True) false.
Proof.
  unfold kernel_images_execute. walk idtac.
  destruct (negb (truthy _)); [exact I|]. walk idtac.
  match goal with |- wp _ (match ?ks with _ => _ end) _ _ => destruct ks as [|k0 ks] end; [exact I|].
  cbv zeta. walk ltac:(unfold detached_header, swapfile_resume_offset, write_kernel_files).
  wp_step. apply enrolls_prepare_secure_boot. intros [[]|x] s; cbn [then_]; auto.
  needless ltac:(unfold sign_ukis, sign_uki). auto.
Qed.

Lemma signs_kernel_images :
  wp (monitor (kind_step sign_rules BootOther (precedence_act is_sign db_key_found)))
    (kernel_images_execute config) (fun _ _ => True) false.
Proof.
  unfold kernel_images_execute. walk idtac.
  destruct (negb (truthy _)); [exact I|]. walk idtac.
  match goal with |- wp _ (match ?ks with _ => _ end) _ _ => destruct ks as [|k0 ks] end; [exact I|].
  cbv zeta. walk ltac:(unfold detached_header, swapfile_resume_offset, write_kernel_files,
    prepare_secure_boot, is_in_setup_mode, enroll_keys).
  unfold sign_ukis. repeat wp_step; auto; raised.
Qed.
End SecureBoot.

(** Secure Boot keys are only enrolled when the configuration asks for it and
    the firmware was found in setup mode, by the answer of [sbctl status] or by
    the efivar. *)
Theorem enrolls_only_in_setup_mode (config : InstallerConfig) t o l1 c res l2 :
  runs (kernel_images_execute config) t o -> replies t = l1 ++ (c, res) :: l2 ->
  classify_by enroll_rules BootOther c = Enroll ->
  exists (c' : string) (res' : process_result), (c', res') ∈ l1 /\
    setup_mode_shown (classify_by enroll_rules BootOther c') res' = true.
Proof.
  intros Hr Hl Hc.
  apply (precedence_runs _ _ _ _ _ _ _ _ (enrolls_kernel_images config) Hr _ _ _ _ Hl).
  rewrite Hc. reflexivity.
Qed.

Lemma enrolls_only_in_setup_mode_witness :
  exists (c' : string) (res' : process_result),
    (c', res') ∈ take 10 (replies (trace_of bootable_machine (kernel_images_execute sample_config))) /\
    setup_mode_shown (classify_by enroll_rules BootOther c') res' = true.
Proof.
  eapply (enrolls_only_in_setup_mode sample_config); [apply trace_runs | nth_reply 10 | reflexivity].
Defined.

(** A kernel image is only signed after the signing key was found in the
    system. *)
Theorem signs_only_with_key (config : InstallerConfig) t o l1 c res l2 :
  runs (kernel_images_execute config) t o -> replies t = l1 ++ (c, res) :: l2 ->
  classify_by sign_rules BootOther c = Sign ->
  exists (c' : string) (res' : process_result), (c', res') ∈ l1 /\
    classify_by sign_rules BootOther c' = DbKey /\ succeeded res' = true.
Proof.
  intros Hr Hl Hc.
  destruct (precedence_runs _ _ _ _ _ _ _ _ (signs_kernel_images config) Hr _ _ _ _ Hl)
    as (c' & res' & Hin & H); [rewrite Hc; reflexivity|].
  exists c', res'. destruct (classify_by sign_rules BootOther c'); auto; discriminate.
Qed.

Lemma signs_only_with_key_witness :
  exists (c' : string) (res' : process_result),
    (c', res') ∈ take 14 (replies (trace_of bootable_machine (kernel_images_execute sample_config))) /\
    classify_by sign_rules BootOther c' = DbKey /\ succeeded res' = true.
Proof.
  eapply (signs_only_with_key sample_config); [apply trace_runs | nth_reply 14 | reflexivity].
Defined.
