(* ===== verification/UsbBootFacts.v ===== *)
(** * Properties of the USB boot drive *)

From S2P Require Import Prelude PyStr Effects Command PyVal Models Samples Base Patterns Deeds Guards UsbBoot StorageDone StepsDone.

(** ** Lines *)

Lemma line_break_is_space c : is_line_break c = true -> is_space c = true.
Proof.
  unfold is_line_break, is_space. intros H.
  apply orb_true_iff in H as [H|H]; apply andb_true_iff in H as [H1 H2];
    apply Nat.leb_le in H1, H2; apply orb_true_iff.
  - left. apply andb_true_iff; split; apply Nat.leb_le; lia.
  - right. apply andb_true_iff; split; apply Nat.leb_le; lia.
Qed.

Definition no_breaks (s : string) : Prop := str_all (fun c => negb (is_line_break c)) s = true.

Lemma lines_loop_line acc b l s :
  no_breaks l -> lines_loop acc b (l +:+ nl +:+ s) = (acc +:+ l) :: splitlines s.
Proof.
  unfold no_breaks. revert acc b. induction l as [|c l IH]; intros acc b H.
  - rewrite str_app_nil_r. unfold splitlines. simpl. destruct s; reflexivity.
  - simpl in H. apply andb_true_iff in H as [Hc Hl]. apply negb_true_iff in Hc.
    change (String c l +:+ nl +:+ s) with (String c (l +:+ nl +:+ s)). simpl. rewrite Hc.
    rewrite (IH _ _ Hl), str_app_assoc. reflexivity.
Qed.

(** What [lines] writes, [splitlines] reads. *)
Lemma splitlines_lines l : l <> [] -> Forall no_breaks l -> splitlines (join nl l +:+ nl) = l.
Proof.
  intros Hne H. induction H as [|x l Hx Hl IH]; [congruence|].
  destruct l as [|y l].
  - unfold splitlines. exact (lines_loop_line "" false x "" Hx).
  - change (join nl (x :: y :: l)) with (x +:+ nl +:+ join nl (y :: l)).
    rewrite !str_app_assoc. unfold splitlines at 1. rewrite (lines_loop_line _ _ _ _ Hx).
    rewrite IH by discriminate. reflexivity.
Qed.

Lemma str_all_app_intro f s t : str_all f s = true -> str_all f t = true -> str_all f (s +:+ t) = true.
Proof. intros H1 H2. rewrite str_all_app, H1, H2. reflexivity. Qed.

Lemma lines_loop_no_breaks s : forall acc b,
  no_breaks acc -> Forall no_breaks (lines_loop acc b s).
Proof.
  induction s as [s IH] using (induction_ltof1 _ String.length). unfold ltof in IH.
  intros acc b Ha. destruct s as [|c s]; simpl.
  - destruct b; [|constructor]. constructor; [exact Ha | constructor].
  - destruct (is_line_break c) eqn:Ec.
    + destruct s as [|d s]; [constructor; [exact Ha | constructor]|].
      destruct (_ && _); constructor; auto; apply IH; simpl; auto; reflexivity.
    + apply IH; [simpl; lia|]. apply str_all_app_intro; [exact Ha|]. simpl. rewrite Ec. reflexivity.
Qed.

Definition no_spaces (s : string) : Prop := str_all (fun c => negb (is_space c)) s = true.

Lemma no_spaces_no_breaks s : no_spaces s -> no_breaks s.
Proof.
  unfold no_spaces, no_breaks. induction s as [|c s IH]; simpl; [auto|].
  intros H. apply andb_true_iff in H as [Hc Hs]. rewrite (IH Hs), andb_true_r.
  apply negb_true_iff in Hc. apply negb_true_iff.
  destruct (is_line_break c) eqn:E; [|reflexivity]. apply line_break_is_space in E. congruence.
Qed.

Lemma words_loop_word acc w sep s :
  no_spaces w -> is_space sep = true ->
  words_loop acc (w +:+ String sep s) =
    (if truthy (acc +:+ w) then [acc +:+ w] else []) ++ split s.
Proof.
  unfold no_spaces. revert acc. induction w as [|c w IH]; intros acc Hw Hs.
  - rewrite str_app_nil_r. simpl. rewrite Hs. reflexivity.
  - simpl in Hw. apply andb_true_iff in Hw as [Hc Hw]. apply negb_true_iff in Hc.
    change (String c w +:+ String sep s) with (String c (w +:+ String sep s)). simpl. rewrite Hc.
    rewrite (IH _ Hw Hs), str_app_assoc. reflexivity.
Qed.

(** *** Fields of a line *)

Definition all_spaces (s : string) : Prop := str_all is_space s = true.
(** A field ends at the end of the line or at white space. *)
Definition field_ends (s : string) : Prop := s = "" \/ exists c u, s = String c u /\ is_space c = true.

Lemma split_word before w rest :
  all_spaces before -> no_spaces w -> truthy w = true -> field_ends rest ->
  split (before +:+ w +:+ rest) = w :: split rest.
Proof.
  intros Hb Hw Ht Hr. induction before as [|c before IH]; cbn [String.append].
  - destruct Hr as [->|(c & u & -> & Hc)].
    + rewrite str_app_nil_r.
      assert (forall acc v, no_spaces v -> words_loop acc v = if truthy (acc +:+ v) then [acc +:+ v] else []) as Hend.
      { intros acc v. revert acc. induction v as [|d v IHv]; intros acc Hv; [rewrite str_app_nil_r; reflexivity|].
        unfold no_spaces in Hv. cbn in Hv. apply andb_true_iff in Hv as [Hd Hv]. apply negb_true_iff in Hd.
        cbn. rewrite Hd, (IHv _ Hv), str_app_assoc. reflexivity. }
      etransitivity; [exact (Hend "" w Hw)|]. change ("" +:+ w) with w. rewrite Ht. reflexivity.
    + etransitivity; [exact (words_loop_word "" w c u Hw Hc)|]. change ("" +:+ w) with w. rewrite Ht.
      change (split (String c u)) with (words_loop "" (String c u)). cbn [words_loop]. rewrite Hc. reflexivity.
  - unfold all_spaces in Hb. cbn in Hb. apply andb_true_iff in Hb as [Hc Hb].
    etransitivity; [|exact (IH Hb)].
    change (split (String c before +:+ w +:+ rest)) with (words_loop "" (String c (before +:+ w +:+ rest))).
    cbn [words_loop]. rewrite Hc. reflexivity.
Qed.

Lemma words_loop_cons s : forall acc w ws, words_loop acc s = w :: ws ->
  exists before u rest, s = before +:+ u +:+ rest /\ all_spaces before /\ no_spaces u /\
    w = acc +:+ u /\ truthy w = true /\ (truthy acc = true -> before = "") /\ field_ends rest /\ split rest = ws.
Proof.
  induction s as [|c s IH]; intros acc w ws H; cbn [words_loop] in H.
  - destruct (truthy acc) eqn:Et; [|discriminate]. injection H as <- <-.
    exists "", "", "". repeat split; auto; [symmetry; apply str_app_nil_r | left; reflexivity].
  - destruct (is_space c) eqn:Ec.
    + destruct (truthy acc) eqn:Et; cbn [app] in H.
      * injection H as <- <-. exists "", "", (String c s). repeat split; auto.
        -- symmetry. apply str_app_nil_r.
        -- right. exists c, s. auto.
        -- unfold split. cbn [words_loop]. rewrite Ec. reflexivity.
      * apply IH in H as (before & u & rest & -> & Hb & Hu & -> & Ht & _ & Hr & Hs).
        destruct acc; [|discriminate]. exists (String c before), u, rest. repeat split; auto; [|discriminate].
        unfold all_spaces. cbn. rewrite Ec. exact Hb.
    + apply IH in H as (before & u & rest & -> & Hb & Hu & -> & Ht & Ha & Hr & Hs).
      assert (before = "") as -> by (apply Ha; destruct acc; reflexivity).
      exists "", (String c u), rest. rewrite str_app_assoc in Ht |- *. repeat split; auto.
      unfold no_spaces. cbn. rewrite Ec. exact Hu.
Qed.

Lemma split_cons s w ws : split s = w :: ws ->
  exists before rest, s = before +:+ w +:+ rest /\ all_spaces before /\ no_spaces w /\ truthy w = true /\
    field_ends rest /\ split rest = ws.
Proof.
  intros H. apply words_loop_cons in H as (before & u & rest & -> & Hb & Hu & -> & Ht & _ & Hr & Hs).
  exists before, rest. auto 8.
Qed.

(** ** fstab *)

Lemma efi_entry_mounts_efi uuid : no_spaces uuid -> mounts_efi (efi_entry uuid) = true.
Proof.
  intros H. unfold mounts_efi.
  assert (E : split (efi_entry uuid) = ("PARTUUID=" +:+ uuid) :: split ("/efi" +:+ tab +:+ "vfat" +:+ tab +:+
    REMOVABLE_EFI_MOUNT_OPTIONS +:+ tab +:+ "0 2")).
  { exact (words_loop_word "" ("PARTUUID=" +:+ uuid) (chr 9) _ H eq_refl). }
  rewrite E. reflexivity.
Qed.

Lemma efi_entry_no_breaks uuid : no_spaces uuid -> no_breaks (efi_entry uuid).
Proof.
  intros H. apply no_spaces_no_breaks in H. unfold no_breaks, efi_entry.
  repeat apply str_all_app_intro; try reflexivity. exact H.
Qed.

(** The lines of the rewritten fstab. *)
Lemma removable_efi_fstab_lines fstab uuid :
  no_spaces uuid ->
  splitlines (removable_efi_fstab fstab uuid) =
  List.filter (fun line => negb (mounts_efi line)) (splitlines fstab) ++ [efi_entry uuid].
Proof.
  intros H. unfold removable_efi_fstab. apply splitlines_lines.
  - destruct (List.filter _ _); discriminate.
  - apply Forall_app. split; [|constructor; [apply efi_entry_no_breaks, H | constructor]].
    apply Forall_forall. intros l Hl. apply elem_of_List_filter in Hl as [Hl _].
    assert (Hf : Forall no_breaks (splitlines fstab)) by (apply lines_loop_no_breaks; reflexivity).
    rewrite Forall_forall in Hf. exact (Hf l Hl).
Qed.

Lemma filter_filter_same {A} (f : A -> bool) l : List.filter f (List.filter f l) = List.filter f l.
Proof.
  induction l as [|x l IH]; simpl; [reflexivity|].
  destruct (f x) eqn:E; simpl; [rewrite E, IH|]; auto.
Qed.

(** A line of an fstab that mounts [/efi]: its second field is exactly [/efi]. *)
Definition efi_line (line : string) : Prop :=
  exists before device between rest, line = before +:+ device +:+ between +:+ "/efi" +:+ rest /\
    all_spaces before /\ no_spaces device /\ truthy device = true /\
    all_spaces between /\ truthy between = true /\ field_ends rest.

Lemma mounts_efi_line line : mounts_efi line = true <-> efi_line line.
Proof.
  split.
  - unfold mounts_efi. destruct (split line) as [|device [|second rest]] eqn:E; try discriminate.
    intros ->%String.eqb_eq. apply split_cons in E as (before & u & -> & Hb & Hd & Ht & Hu & E).
    apply split_cons in E as (between & v & -> & Hm & _ & _ & Hv & _).
    exists before, device, between, v. repeat split; auto.
    destruct between as [|c between]; [|reflexivity]. destruct Hu as [Hu|(c & k & [= <- _] & Hc)]; discriminate.
  - intros (before & device & between & rest & -> & Hb & Hd & Ht & Hm & Hn & Hr). unfold mounts_efi.
    destruct between as [|c between]; [discriminate|].
    assert (Hc : is_space c = true) by (unfold all_spaces in Hm; cbn in Hm; apply andb_true_iff in Hm as [Hc _]; exact Hc).
    rewrite (split_word before device (String c between +:+ "/efi" +:+ rest) Hb Hd Ht) by (right; eexists c, _; split; [reflexivity | exact Hc]).
    rewrite (split_word (String c between) "/efi" rest Hm eq_refl eq_refl Hr). reflexivity.
Qed.

(** C29: in the rewritten fstab exactly the lines that mount [/efi], those whose second
    field is [/efi], are gone, every other line is still there in its order, and one
    line is added at the end: it mounts the drive's EFI partition at [/efi], found by
    its UUID, as FAT, on demand, without delaying a boot without the drive. Rewriting
    it again changes nothing. *)
Theorem removable_efi_fstab_correct (fstab uuid : string) (Huuid : no_spaces uuid) :
  let rewritten := removable_efi_fstab fstab uuid in
  let entry := efi_entry uuid in
  (forall line, mounts_efi line = true <-> efi_line line) /\
  splitlines rewritten = List.filter (fun line => negb (mounts_efi line)) (splitlines fstab) ++ [entry] /\
  split entry = ["PARTUUID=" +:+ uuid; "/efi"; "vfat";
    "umask=0077,noauto,nofail,x-systemd.automount,x-systemd.idle-timeout=60s,x-systemd.device-timeout=5s"; "0"; "2"] /\
  (forall line, line ∈ splitlines rewritten -> efi_line line -> line = entry) /\
  removable_efi_fstab rewritten uuid = rewritten.
Proof.
  cbv zeta. pose proof (removable_efi_fstab_lines fstab uuid Huuid) as Hl.
  split; [exact mounts_efi_line|]. split; [exact Hl|]. split; [|split].
  - unfold efi_entry. exact (words_loop_word "" ("PARTUUID=" +:+ uuid) (chr 9) _ Huuid eq_refl).
  - intros line Hin He. rewrite Hl, elem_of_app, elem_of_List_filter, list_elem_of_singleton in Hin.
    apply mounts_efi_line in He. destruct Hin as [[_ Hn]|Hin]; [rewrite He in Hn; discriminate | exact Hin].
  - unfold removable_efi_fstab at 1. rewrite Hl, List.filter_app. simpl.
    rewrite (efi_entry_mounts_efi _ Huuid). simpl. rewrite app_nil_r, filter_filter_same. reflexivity.
Qed.

Lemma removable_efi_fstab_correct_witness :
  let fstab := lines ["# boot"; "UUID=AB12 /efi vfat rw 0 2"; "UUID=1 / btrfs rw 0 0"] in
  splitlines (removable_efi_fstab fstab "0a1b-2c3d") = ["# boot"; "UUID=1 / btrfs rw 0 0"; efi_entry "0a1b-2c3d"].
Proof.
  intros fstab. destruct (removable_efi_fstab_correct fstab "0a1b-2c3d" eq_refl) as (_ & H & _). exact H.
Defined.

(** ** Sizes *)

(** C30: a drive that passes the capacity check has room for the partition table,
    the EFI partition, the LUKS header and the recovery partition, and a recovery
    partition sized for an ISO holds the ISO with a tenth and 64 MiB to spare. *)
Theorem drive_has_room (config : InstallerConfig) iso_size t u :
  (0 <= iso_size)%Z ->
  runs (require_capacity config (recovery_partition_size_mb iso_size)) t (Ok u) ->
  exists size out err,
    replies t = [("blockdev --getsize64 " +:+ usb_boot_device (cfg_usb_boot config), Completed 0 out err)] /\
    py_int (strip out) = Ok size /\
    (MEBIBYTE * (PARTITION_TABLE_SIZE_MB + storage_efi_size_mb (cfg_storage config) +
                 LUKS_HEADER_PARTITION_SIZE_MB + recovery_partition_size_mb iso_size) <= size)%Z /\
    (iso_size + iso_size / 10 + 63 * MEBIBYTE <= MEBIBYTE * recovery_partition_size_mb iso_size)%Z.
Proof.
  intros Hiso H. unfold require_capacity in H. runs_ok H. cbv zeta in H.
  unfold drive_size_bytes in Hr. runs_ok Hr. apply runs_run_stdout_ok in Hr0 as (err & Hrep).
  destruct (py_int (strip a0)) as [size|x] eqn:Esize; simpl in Hr; [|destruct Hr as [_ [=]]].
  destruct Hr as [-> [= ->]].
  destruct (size / MEBIBYTE <? needed_mb _ _)%Z eqn:Ecap; [destruct H as [_ [=]]|].
  destruct H as [-> _]. apply Z.ltb_ge in Ecap. unfold needed_mb in Ecap.
  exists size, a0, err. rewrite app_nil_r, app_nil_r. split; [exact Hrep|]. split; [exact Esize|].
  unfold recovery_partition_size_mb, MEBIBYTE in *. split; Z.to_euclidean_division_equations; lia.
Qed.

Definition usb_drive_machine (bytes : string) : oracle cmd_sig :=
  fake_runner [("lsblk -dno TYPE", (0, "disk", "")); ("by-id", (0, "/dev/disk/by-id/wwn-1", ""));
    ("mountpoint -q", (1, "", "")); ("cat /sys/block", (0, "1", "")); ("isLuks", (1, "", ""));
    ("od -An -tu4", (0, " 512000", "")); ("od -An -tu2", (0, " 2048", ""));
    ("dd if=", (0, "CD001", "")); ("blockdev --getsize64", (0, bytes, ""))]%Z.

Lemma drive_has_room_witness :
  exists size out err,
    replies (trace_of (usb_drive_machine "8000000000") (require_capacity sample_usb_config (recovery_partition_size_mb 1048576000))) =
      [("blockdev --getsize64 /dev/sdb", Completed 0 out err)] /\
    py_int (strip out) = Ok size /\
    (MEBIBYTE * (PARTITION_TABLE_SIZE_MB + storage_efi_size_mb (cfg_storage sample_usb_config) +
                 LUKS_HEADER_PARTITION_SIZE_MB + recovery_partition_size_mb 1048576000) <= size)%Z /\
    (1048576000 + 1048576000 / 10 + 63 * MEBIBYTE <= MEBIBYTE * recovery_partition_size_mb 1048576000)%Z.
Proof.
  apply (drive_has_room sample_usb_config 1048576000 _ tt); [lia|].
  apply trace_runs_ok. concrete.
Defined.

(** ** Which drive is written, and when *)

(** [lsblk] called the device a disk. *)
Definition disk_shown (device : string) (l : list exchange) : Prop :=
  was_answered ("lsblk -dno TYPE " +:+ device) l (fun code out => code = 0%Z /\ strip out = "disk").

Lemma disk_confirmed_shown device l : disk_confirmed device l -> disk_shown device l.
Proof.
  intros (r & l1 & l2 & -> & (code & out & err & -> & -> & ->) & H). apply in_order_inv in H as (k1 & k2 & -> & [[Hs Hd] _] & _).
  exists (exit_code r), (stdout r), err. split; [left|]. split; [apply Z.eqb_eq, Hs | exact Hd].
Qed.

Section DriveStep.
Context (config : InstallerConfig).
#[local] Abbreviation device := (usb_boot_device (cfg_usb_boot config)).
#[local] Abbreviation iso := (usb_boot_iso_path (cfg_usb_boot config)).
#[local] Abbreviation partition n := (derive_partition_path device n).
#[local] Abbreviation target := (storage_target_disk (cfg_storage config)).

(** What the step looks at and lets go of. *)
Definition drive_looks : list string := [
  "lsblk -dno TYPE " +:+ device; "cat /sys/block/" +:+ rsplit1_last (chr 47) device +:+ "/removable";
  "target=$(readlink -f " +:+ target +:+ "); for link in /dev/disk/by-id/*; do " +:+
    qq "[ `$(readlink -f `$link`)` = `$target` ] && echo `$link`; done";
  "mountpoint -q /mnt"; "cryptsetup isLuks " +:+ partition 2;
  "dd if=" +:+ iso +:+ " bs=4096 skip=32769 count=5 iflag=skip_bytes,count_bytes status=none | cat";
  "bsdtar -tf " +:+ iso +:+ " arch/boot/x86_64/vmlinuz-linux arch/boot/x86_64/initramfs-linux.img arch/x86_64/airootfs.sfs";
  "dd if=" +:+ iso +:+ " bs=4096 skip=32848 count=4 iflag=skip_bytes,count_bytes status=none | od -An -tu4";
  "dd if=" +:+ iso +:+ " bs=4096 skip=32896 count=2 iflag=skip_bytes,count_bytes status=none | od -An -tu2";
  "blockdev --getsize64 " +:+ device;
  "umount -R /mnt"; "umount /run/dali/usb-recovery"; "swapoff -a"; "cryptsetup close cryptroot";
  "umount " +:+ partition 1; "umount " +:+ partition 3;
  "partprobe " +:+ device; "udevadm settle"; "test -e " +:+ partition 2; "test -e " +:+ partition 3;
  "mkdir -p /run/dali/usb-recovery"].

(** What it writes: the drive, and its partitions. *)
Definition drive_writes : list string := [
  "wipefs -af " +:+ device; "sgdisk -Z " +:+ device;
  "sgdisk -n1:0:+" +:+ str_of_Z (storage_efi_size_mb (cfg_storage config)) +:+ "M -t1:ef00 " +:+ device;
  "sgdisk -n2:0:+32M -t2:8300 " +:+ device; "wipefs -af " +:+ partition 2;
  "mkfs.vfat -F32 -n EFI " +:+ partition 1; "mkfs.ext4 -F -m 0 -L RECOVERY " +:+ partition 3;
  "mount -t ext4 " +:+ partition 3 +:+ " /run/dali/usb-recovery";
  "bsdtar -xf " +:+ iso +:+ " -C /run/dali/usb-recovery arch"; "sync -f /run/dali/usb-recovery"].
Definition writes_drive (c : string) : Prop :=
  c ∈ drive_writes \/ exists megabytes, c = "sgdisk -n3:0:+" +:+ str_of_Z megabytes +:+ "M -t3:8300 " +:+ device.

(** An installation is resumed when the new system is still mounted, or when the
    configuration keeps the disk. *)
Definition resumes_by_configuration : Prop :=
  storage_wipe_method (cfg_storage config) = WIPE_SKIP /\ migration_enabled (cfg_migration config) = false.

Definition header_not_kept (l : list exchange) : Prop :=
  was_refused ("cryptsetup isLuks " +:+ partition 2) None l \/
  (~ resumes_by_configuration /\ was_refused "mountpoint -q /mnt" None l).

Definition drive_guard : guard := fun c l =>
  c ∈ drive_looks \/ (writes_drive c /\ disk_shown device l /\ header_not_kept l).

#[local] Instance drive_guard_lasting : Lasting drive_guard.
Proof.
  intros c l l' Hl [H|(Hw & Hd & Hk)]; [left; exact H | right].
  split; [exact Hw|]. split; [exact (was_answered_mono _ _ _ _ Hl Hd)|].
  destruct Hk as [Hk|[Hn Hk]]; [left | right; split; [exact Hn|]]; exact (was_refused_mono _ _ _ _ Hl Hk).
Qed.

Lemma drive_not_kept l : drive_kept config false l -> header_not_kept l.
Proof.
  assert (Hh : forall k, header_kept config false k -> was_refused ("cryptsetup isLuks " +:+ partition 2) None k).
  { intros k [(l1 & l2 & -> & _ & H)|(l1 & l2 & -> & H & _)]; [apply in_order_inv in H as [[=] _]|].
    apply refused_was_refused in H. eapply was_refused_mono; [|exact H]. intros x Hx. apply elem_of_app. auto. }
  intros [(l1 & l2 & -> & _ & H)|(l1 & l2 & -> & Hm & H)]; apply in_order_inv in H.
  - left. eapply was_refused_mono; [|exact (Hh _ H)]. intros x Hx. apply elem_of_app. auto.
  - destruct (bool_decide _ && negb _) eqn:E.
    + left. eapply was_refused_mono; [|exact (Hh _ H)]. intros x Hx. apply elem_of_app. auto.
    + right. split.
      * intros [E1 E2]. rewrite E1, E2 in E. discriminate.
      * apply refused_was_refused in Hm. eapply was_refused_mono; [|exact Hm]. intros x Hx. apply elem_of_app. auto.
Qed.

Section Permitted.
Context (P : string -> Prop).
Context (P_looks : forall c, c ∈ drive_looks -> P c) (P_writes : forall c, writes_drive c -> P c).
Ltac permitted := idtac;
  first [apply P_looks; one_of | apply P_writes; first [left; one_of | right; eexists; reflexivity]].

Lemma wait_for_partition_looks rounds disk part :
  P ("test -e " +:+ part) -> P ("partprobe " +:+ disk) -> emits (on_command P) (wait_for_partition_rounds rounds disk part).
Proof.
  intros Ht Hp. induction rounds as [|rounds IH]; [exact I|]. cbn [wait_for_partition_rounds].
  safe_auto ltac:(assumption). exact IH.
Qed.

Lemma partition_drive_writes recovery_mb : emits (on_command P) (partition_drive config recovery_mb).
Proof.
  unfold partition_drive, wait_for_partition. cbv zeta. do 4 (apply emits_bind; [safe_auto permitted | intros _]).
  apply emits_bind_runs; [safe_auto permitted|]. intros last t Hr.
  apply emits_bind; [safe_auto permitted | intros _]. apply emits_bind; [safe_auto permitted | intros _].
  apply emits_bind; [|intros _; safe_auto permitted]. apply wait_for_partition_looks; [|permitted].
  destruct (negb _); [apply runs_bind_ok in Hr as (u & t1 & t2 & _ & _ & Hr)|]; destruct Hr as [_ [= ->]]; permitted.
Qed.

Lemma release_drive_looks : emits (on_command P) (release_drive config).
Proof. unfold release_drive. cbn [for_each]. safe_auto permitted. Qed.

Lemma drive_made_writes recovery_mb :
  emits (on_command P) (require_capacity config recovery_mb ;;
    log_info ("Preparing the USB boot drive " +:+ device +:+ "...") ;;
    release_drive config ;; partition_drive config recovery_mb ;;
    run ("mkfs.vfat -F32 -n EFI " +:+ usb_efi_partition (cfg_usb_boot config)) ;;
    when (usb_boot_recovery_system (cfg_usb_boot config)) (store_recovery_system config)).
Proof.
  unfold require_capacity, drive_size_bytes, of_outcome, store_recovery_system, extract_live_system.
  safe_auto permitted; [apply release_drive_looks | apply partition_drive_writes].
Qed.

Lemma iso_size_looks : emits (on_command P) (iso_size_bytes iso).
Proof. unfold iso_size_bytes, read_text, read_number, iso_read, of_outcome. safe_auto permitted. Qed.
End Permitted.

Lemma guarded_usb_boot_drive : guarded drive_guard (usb_boot_drive_execute config).
Proof.
  unfold usb_boot_drive_execute. cbv zeta. destruct (String.eqb _ _); [apply guarded_raise|].
  eapply guarded_learn; [exact _ | unfold require_disk; safe_auto ltac:(left; one_of) | apply require_disk_confirms |].
  intros _ l Hd%disk_confirmed_shown.
  apply guarded_quiet; [exact _ | safe_auto ltac:(left; one_of)|]. intros path.
  destruct (negb (truthy path)); [apply guarded_raise|].
  eapply guarded_learn; [exact _ | unfold keeps_existing_drive, holds_luks_header; safe_auto ltac:(left; one_of)
    | apply keeps_existing_drive_gives |].
  intros [] l' Hk; [apply guarded_ret|]. apply drive_not_kept in Hk.
  apply guarded_emits; [exact _|].
  assert (Hf : forall c, writes_drive c -> after l' (after l drive_guard) c []).
  { intros c Hc. right. split; [exact Hc|]. rewrite app_nil_r. split.
    - eapply was_answered_mono; [|exact Hd]. intros x Hx. apply elem_of_app. auto.
    - destruct Hk as [Hk|[Hn Hk]]; [left | right; split; [exact Hn|]];
        (eapply was_refused_mono; [|exact Hk]; intros x Hx; apply elem_of_app; auto). }
  assert (Hl : forall c, c ∈ drive_looks -> after l' (after l drive_guard) c []) by (intros c Hc; left; exact Hc).
  apply emits_bind; [destruct (usb_boot_recovery_system _); [apply iso_size_looks; assumption | exact I]|].
  intros size. apply drive_made_writes; assumption.
Qed.
End DriveStep.

(** C14: on every run of the USB drive step, every command is one of the listed looks, or
    it writes exactly the drive and its partitions, and then [lsblk] called that drive
    a disk before, and the drive is not one to be kept: either [cryptsetup] found no
    LUKS header on its header partition, or the installation is not a resumed one (the
    configuration does not keep the disk, and nothing was mounted on [/mnt]). So a
    resumed installation never overwrites the header that unlocks the existing system;
    a fresh one erases the drive. If the drive is the target disk, the step fails
    before any command. *)
Theorem usb_drive_written_safely (config : InstallerConfig) t o :
  runs (usb_boot_drive_execute config) t o ->
  (usb_boot_device (cfg_usb_boot config) = storage_target_disk (cfg_storage config) ->
     t = [] /\ is_ok o = false) /\
  (forall l1 x l2, exchanges t = l1 ++ x :: l2 ->
     x.1.1 ∈ drive_looks config \/
     (writes_drive config x.1.1 /\ disk_shown (usb_boot_device (cfg_usb_boot config)) l1 /\
      header_not_kept config l1)).
Proof.
  intros Hr. split; [|exact (guarded_usb_boot_drive config t o Hr)].
  intros E. unfold usb_boot_drive_execute in Hr. rewrite E, String.eqb_refl in Hr. destruct Hr as [-> ->]. auto.
Qed.

Lemma usb_drive_written_safely_witness :
  "sgdisk -Z /dev/sdb" ∈ drive_looks sample_usb_config \/
  (writes_drive sample_usb_config "sgdisk -Z /dev/sdb" /\
   disk_shown "/dev/sdb" (take 16 (exchanges (trace_of (usb_drive_machine "8000000000") (usb_boot_drive_execute sample_usb_config)))) /\
   header_not_kept sample_usb_config
     (take 16 (exchanges (trace_of (usb_drive_machine "8000000000") (usb_boot_drive_execute sample_usb_config))))).
Proof.
  edestruct (usb_drive_written_safely sample_usb_config
    (trace_of (usb_drive_machine "8000000000") (usb_boot_drive_execute sample_usb_config))) as [_ H];
    [apply trace_runs |].
  eapply (H (take 16 _) ("sgdisk -Z /dev/sdb", None, _)); nth_reply 16.
Defined.

(** ** Cloning *)

Section Clone.
Context (source_device spare_device : string).

(** The partitions of the source: those that are there. *)
Definition partitions_found (partitions : list string) (l : list exchange) : Prop :=
  let candidates := map (derive_partition_path source_device) [1; 2; 3]%Z in
  partitions `sublist_of` candidates /\
  (forall p, p ∈ partitions -> succeeded_with ("test -e " +:+ p) None l) /\
  (forall p, p ∈ candidates -> p ∉ partitions -> was_refused ("test -e " +:+ p) None l).

(** Everything that was to be checked was: both are disks, the second partition of
    the source holds a LUKS header, nothing on the spare is mounted. *)
Definition clone_checked (partitions : list string) (l : list exchange) : Prop :=
  disk_shown source_device l /\ disk_shown spare_device l /\ partitions_found partitions l /\
  (exists header, partitions !! 1%nat = Some header /\ succeeded_with ("cryptsetup isLuks " +:+ header) None l) /\
  was_answered ("lsblk -nro MOUNTPOINT " +:+ spare_device) l (fun code out => code = 0%Z /\ strip out = "").

(** The partition of the spare for each of the source. *)
Definition copies (partitions : list string) : list (string * string) :=
  zip partitions (map (fun i => derive_partition_path spare_device (Z.of_nat i)) (seq 1 (length partitions))).
Definition copy_command (pair : string * string) : string :=
  "dd if=" +:+ pair.1 +:+ " of=" +:+ pair.2 +:+ " bs=4M conv=fsync status=none".

Definition clone_writes (partitions : list string) : list string := [
  "wipefs -af " +:+ spare_device; "sgdisk --replicate=" +:+ spare_device +:+ " " +:+ source_device;
  "sgdisk -e " +:+ spare_device] ++ map copy_command (copies partitions).

Definition clone_looks (c : string) : Prop :=
  c ∈ ["partprobe " +:+ spare_device; "udevadm settle"] \/
  existsb (fun prefix => startswith prefix c) ["lsblk "; "cat /sys/block/"; "test -e "; "cryptsetup isLuks "; "cmp "] = true.

Definition clone_guard : guard := fun c l =>
  clone_looks c \/ exists partitions, c ∈ clone_writes partitions /\ clone_checked partitions l.

Lemma disk_shown_mono device l l' : l ⊆ l' -> disk_shown device l -> disk_shown device l'.
Proof. apply was_answered_mono. Qed.

Lemma partitions_found_mono partitions l l' : l ⊆ l' -> partitions_found partitions l -> partitions_found partitions l'.
Proof.
  intros Hl (H1 & H2 & H3). split; [exact H1|]. split; intros p; [|intros Hp].
  - intros Hp. exact (succeeded_with_mono _ _ _ _ Hl (H2 p Hp)).
  - intros Hn. exact (was_refused_mono _ _ _ _ Hl (H3 p Hp Hn)).
Qed.

#[local] Instance clone_guard_lasting : Lasting clone_guard.
Proof.
  intros c l l' Hl [H|(ps & Hw & H1 & H2 & H3 & (header & Hh & H4) & H5)]; [left; exact H | right].
  exists ps. split; [exact Hw|]. split; [exact (disk_shown_mono _ _ _ Hl H1)|].
  split; [exact (disk_shown_mono _ _ _ Hl H2)|]. split; [exact (partitions_found_mono _ _ _ Hl H3)|].
  split; [|exact (was_answered_mono _ _ _ _ Hl H5)].
  exists header. split; [exact Hh | exact (succeeded_with_mono _ _ _ _ Hl H4)].
Qed.

Lemma sifted_partitions ps l :
  sifted (fun p => "test -e " +:+ p) (map (derive_partition_path source_device) [1; 2; 3]%Z) ps l -> partitions_found ps l.
Proof. intros (H1 & H2 & H3)%sifted_spec. exact (conj H1 (conj H2 H3)). Qed.

(** What a successful clone did. *)
Definition clone_done : achievement := in_order [
  holds (source_device <> spare_device);
  disk_confirmed source_device; disk_confirmed spare_device;
  valued (sifted (fun p => "test -e " +:+ p) (map (derive_partition_path source_device) [1; 2; 3]%Z)) (fun partitions =>
    for_some (fun header => in_order [
      holds (partitions !! 1%nat = Some header);
      ran ("cryptsetup isLuks " +:+ header);
      valued (output_of ("lsblk -nro MOUNTPOINT " +:+ spare_device)) (fun mountpoints => in_order [
        holds (strip mountpoints = "");
        tried ("wipefs -af " +:+ spare_device);
        ran ("sgdisk --replicate=" +:+ spare_device +:+ " " +:+ source_device);
        tried ("sgdisk -e " +:+ spare_device); tried ("partprobe " +:+ spare_device); tried "udevadm settle";
        in_turn (copies partitions) (fun pair => in_order [
          waited 15 spare_device pair.2; ran (copy_command pair)]);
        ran ("cmp " +:+ header +:+ " " +:+ derive_partition_path spare_device 2)])]))].

Ltac look := idtac; left; first [left; one_of | right; reflexivity].

(** Once everything is checked, the commands are free. *)
Lemma clone_writes_checked partitions l c :
  c ∈ clone_writes partitions -> clone_checked partitions l -> after l clone_guard c [].
Proof. intros Hc H. right. exists partitions. rewrite app_nil_r. auto. Qed.
Lemma copies_write partitions header pair :
  pair ∈ copies (header :: partitions) -> "dd if=" +:+ pair.1 +:+ " of=" +:+ pair.2 +:+ " bs=4M conv=fsync status=none" ∈
    clone_writes (header :: partitions).
Proof. intros H. apply elem_of_app. right. apply list_elem_of_fmap. exists pair. auto. Qed.

Lemma guarded_clone : guarded clone_guard (clone source_device spare_device).
Proof.
  unfold clone. destruct (String.eqb _ _); [apply guarded_raise|].
  eapply guarded_learn; [exact _ | unfold require_disk; safe_auto look | apply require_disk_confirms |].
  intros _ l1 H1%disk_confirmed_shown.
  eapply guarded_learn; [exact _ | unfold require_disk; safe_auto look | apply require_disk_confirms |].
  intros _ l2 H2%disk_confirmed_shown.
  eapply guarded_learn; [exact _ | unfold existing_partitions; safe_auto look | apply gives_filter_each |].
  intros ps l3 H3%sifted_partitions. cbv zeta. destruct ps as [|efi [|header rest]]; try apply guarded_raise.
  unfold holds_luks_header. apply guarded_probe; [exact _ | look | | intros; apply guarded_raise].
  intros l4 H4%ran_succeeded. cbn [negb].
  eapply guarded_learn; [exact _ | safe_auto look | apply gives_run_stdout |].
  intros mountpoints l5 (code & out & err & H5 & -> & ->). destruct (truthy _) eqn:Em; [apply guarded_raise|].
  set (ps := efi :: header :: rest) in *.
  assert (Hc : clone_checked ps (l1 ++ l2 ++ l3 ++ l4 ++ l5 ++ [])).
  { split; [eapply disk_shown_mono; [|exact H1]; intros x Hx; rewrite !elem_of_app; tauto|].
    split; [eapply disk_shown_mono; [|exact H2]; intros x Hx; rewrite !elem_of_app; tauto|].
    split; [eapply partitions_found_mono; [|exact H3]; intros x Hx; rewrite !elem_of_app; tauto|].
    split; [exists header; split; [reflexivity|]; eapply succeeded_with_mono; [|exact H4]; intros x Hx; rewrite !elem_of_app; tauto|].
    exists 0%Z, mountpoints, err. split; [rewrite H5, !elem_of_app; right; right; right; right; left; left|].
    split; [reflexivity|]. destruct (strip mountpoints); [reflexivity | discriminate]. }
  apply guarded_emits; [exact _|].
  assert (Hw : forall c, c ∈ clone_writes ps -> after l5 (after l4 (after l3 (after l2 (after l1 clone_guard)))) c []).
  { intros c Hin. right. exists ps. exact (conj Hin Hc). }
  assert (Hp : forall pair, pair ∈ copies ps -> emits (on_command (fun c =>
    after l5 (after l4 (after l3 (after l2 (after l1 clone_guard)))) c [])) (clone_partition spare_device pair)).
  { intros [a b] Hin%copies_write. unfold clone_partition, wait_for_partition.
    apply emits_bind; [apply wait_for_partition_looks; look|]. intros _. apply safe_run, Hw, Hin. }
  safe_auto ltac:(idtac; first [look | apply Hw; unfold clone_writes; one_of]).
  apply Hp. assumption.
Qed.

Lemma clone_partition_copies pair :
  achieves (clone_partition spare_device pair) (in_order [waited 15 spare_device pair.2; ran (copy_command pair)]).
Proof.
  pose proof wait_for_partition_waits. unfold clone_partition, wait_for_partition. destruct pair. cbn [snd]. achieve.
Qed.

Lemma clone_achieves : achieves (clone source_device spare_device) clone_done.
Proof.
  unfold clone, clone_done. destruct (String.eqb _ _) eqn:E; [apply achieves_raise|]. apply String.eqb_neq in E.
  apply achieves_holds; [exact E|]. apply achieves_seq; [apply require_disk_confirms|]. intros _.
  apply achieves_seq; [apply require_disk_confirms|]. intros _.
  apply achieves_value; [apply gives_filter_each|]. intros ps. cbv zeta.
  destruct ps as [|efi [|header rest]]; try apply achieves_raise.
  apply achieves_one, achieves_for_some with (a := header). apply achieves_holds; [reflexivity|].
  eapply achieves_required; [reflexivity|]. cbn [negb].
  apply achieves_value; [apply gives_run_stdout|]. intros mountpoints.
  destruct (truthy _) eqn:Em; [apply achieves_raise|].
  apply achieves_flat, achieves_holds; [destruct (strip mountpoints); [reflexivity | discriminate]|].
  pose proof clone_partition_copies. achieve.
Qed.
End Clone.

(** C15: on every run of cloning, every command looks, or it is one of the exact writes
    to the spare drive and its partitions (from those of the source, each to its own
    number), and then everything was checked before: [lsblk] called both drives disks,
    the second partition found on the source holds a LUKS header, and nothing of the
    spare is mounted. A clone that succeeds has run exactly the sequence of
    [clone_done], which copies every partition found and ends with the comparison of
    the header on the source with the spare's second partition. If both names are the
    same, it fails before any command. *)
Theorem clone_safe_and_verified (source_device spare_device : string) t o :
  runs (clone source_device spare_device) t o ->
  (source_device = spare_device -> t = [] /\ is_ok o = false) /\
  (forall l1 x l2, exchanges t = l1 ++ x :: l2 ->
     clone_looks spare_device x.1.1 \/
     exists partitions, x.1.1 ∈ clone_writes source_device spare_device partitions /\
       clone_checked source_device spare_device partitions l1) /\
  (is_ok o = true -> clone_done source_device spare_device (exchanges t)).
Proof.
  intros Hr. split; [|split].
  - intros E. unfold clone in Hr. rewrite E, String.eqb_refl in Hr. destruct Hr as [-> ->]. auto.
  - exact (guarded_clone source_device spare_device t o Hr).
  - destruct o as [u|]; [|discriminate]. intros _. exact (clone_achieves source_device spare_device t u Hr).
Qed.

Lemma clone_safe_and_verified_witness :
  clone_done "/dev/sdb" "/dev/sdc"
    (exchanges (trace_of (fake_runner [("lsblk -dno TYPE", (0, "disk", ""))]%Z) (clone "/dev/sdb" "/dev/sdc"))).
Proof.
  eapply clone_safe_and_verified; [apply trace_runs_ok; reflexivity | reflexivity].
Defined.
