(* ===== verification/MigrationFacts.v ===== *)
(** * Properties of the migration *)

From S2P Require Import Prelude PyStr Effects Command PyVal Models Samples Base Patterns Deeds Guards Migration StepsDone.

Inductive migration_kind := OldMount | OldClose | Copy | RemoveStaging | MigrationOther.

(** ** Staging *)

Section Staging.
Context (config : InstallerConfig).
#[local] Abbreviation migration := (cfg_migration config).

(** *** What the machine said *)

Definition size_shown (path : string) (megabytes : Z) (l : list exchange) : Prop :=
  was_answered ("du -sm " +:+ path) l (fun _ out => used_megabytes out megabytes).

(** There is a home subvolume of this size, or there is none. *)
Definition home_shown (megabytes : Z) (l : list exchange) : Prop :=
  (was_answered "btrfs subvolume list /tmp/old-system" l (fun _ out => contains "@home" out = true) /\
   size_shown "/tmp/old-system/@home" megabytes l) \/
  (was_answered "btrfs subvolume list /tmp/old-system" l (fun _ out => contains "@home" out = false) /\ megabytes = 0%Z).

(** [/tmp] has room for everything that is to be copied, and 256 MB more: the home
    subvolume if it is kept, and each of the additional paths. *)
Definition room_shown (l : list exchange) : Prop :=
  exists home sizes free,
    home_shown home l /\
    Forall2 (fun path size => size_shown ("/tmp/old-system/@/" +:+ lstrip_chars "/" path) size l)
      (migration_additional_paths migration) sizes /\
    was_answered "df --output=avail -m /tmp" l (fun _ out => free_megabytes out free) /\
    (256 + (if migration_preserve_home migration then home else 0) + foldr Z.add 0 sizes <= free)%Z.

(** *** What staging runs *)

Definition staging_reads (c : string) : bool :=
  existsb (fun prefix => startswith prefix c)
    ["lsblk "; "cryptsetup isLuks "; "btrfs subvolume list "; "test "; "du -sm "; "df --output=avail "].

(** It opens what has a LUKS header, mounts it below [/tmp], and closes it. *)
Definition staging_opens (c : string) (l : list exchange) : Prop :=
  exists partition, c = "cryptsetup open --key-file - " +:+ partition +:+ " oldcryptroot" /\
    succeeded_with ("cryptsetup isLuks " +:+ partition) None l.
Definition staging_mounts : list string := [
  "mkdir -p /tmp/old-system"; "mount -t btrfs -o subvolid=5 /dev/mapper/oldcryptroot /tmp/old-system";
  "umount /tmp/old-system"; "cryptsetup close oldcryptroot"; "rmdir /tmp/old-system"].

(** It copies from the old system into the staging directory, which it makes anew. *)
Definition staging_copies : list string := [
  "rm -rf /tmp/migration-staging"; "mkdir -p /tmp/migration-staging";
  "mkdir -p /tmp/migration-staging/home"; "cp -a /tmp/old-system/@home/. /tmp/migration-staging/home/";
  "mkdir -p /tmp/migration-staging/sbctl"; "cp -a /tmp/old-system/@/var/lib/sbctl/. /tmp/migration-staging/sbctl/";
  "cp -a /tmp/old-system/@/usr/share/secureboot/. /tmp/migration-staging/sbctl/"].
Definition copies_additional (c : string) : Prop :=
  exists path, path ∈ migration_additional_paths migration /\
    let source := "/tmp/old-system/@/" +:+ lstrip_chars "/" path in
    let destination := "/tmp/migration-staging/additional/" +:+ lstrip_chars "/" path in
    (c = "mkdir -p " +:+ path_parent destination \/ c = "cp -a " +:+ source +:+ " " +:+ destination).

Definition staging_guard : guard := fun c l =>
  staging_reads c = true \/ c ∈ staging_mounts \/ staging_opens c l \/
  ((c ∈ staging_copies \/ copies_additional c) /\ room_shown l).

Lemma room_shown_mono l l' : l ⊆ l' -> room_shown l -> room_shown l'.
Proof.
  intros Hl (home & sizes & free & Hh & Hs & Hf & H). exists home, sizes, free. split; [|split; [|split; [|exact H]]].
  - destruct Hh as [[H1 H2]|[H1 H2]]; [left | right]; (split; [exact (was_answered_mono _ _ _ _ Hl H1)|]); [|exact H2].
    exact (was_answered_mono _ _ _ _ Hl H2).
  - eapply Forall2_impl; [exact Hs|]. intros path size. apply was_answered_mono, Hl.
  - exact (was_answered_mono _ _ _ _ Hl Hf).
Qed.

#[local] Instance staging_guard_lasting : Lasting staging_guard.
Proof.
  intros c l l' Hl [H|[H|[(p & E & H)|[H Hr]]]]; [left; exact H | right; left; exact H | right; right; left | right; right; right].
  - exists p. split; [exact E | exact (succeeded_with_mono _ _ _ _ Hl H)].
  - split; [exact H | exact (room_shown_mono _ _ Hl Hr)].
Qed.

Ltac reads := idtac; left; reflexivity.
Ltac mounts := idtac; right; left; one_of.

(** *** What the parts saw *)

Lemma printed_answered c out l answer :
  printed c out l -> (forall code, answer code out) -> was_answered c l answer.
Proof. intros (code & o & err & -> & ->) H. exists code, out, err. split; [left | apply H]. Qed.

Lemma searched_found {A} (c : A -> string) xs a l : searched c xs (Some a) l -> succeeded_with (c a) None l.
Proof.
  revert l. induction xs as [|x xs IH]; intros l; [intros [[=] _]|].
  intros [(l1 & l2 & -> & H & E)|(l1 & l2 & -> & _ & H)]; apply in_order_inv in E || apply in_order_inv in H.
  - destruct E as [[= ->] _]. eapply succeeded_with_mono; [|exact (ran_succeeded _ _ H)]. intros y Hy. apply elem_of_app. auto.
  - eapply succeeded_with_mono; [|exact (IH _ H)]. intros y Hy. apply elem_of_app. auto.
Qed.

Lemma searched_in {A} (c : A -> string) xs a l : searched c xs (Some a) l -> a ∈ xs.
Proof.
  revert l. induction xs as [|x xs IH]; intros l; [intros [[=] _]|].
  intros [(l1 & l2 & -> & H & E)|(l1 & l2 & -> & _ & H)]; apply in_order_inv in E || apply in_order_inv in H.
  - destruct E as [[= ->] _]. left.
  - right. exact (IH _ H).
Qed.

Lemma old_partition_header partition l :
  old_partition_found config partition l -> succeeded_with ("cryptsetup isLuks " +:+ partition) None l.
Proof.
  intros (listing & l1 & l2 & -> & _ & H). apply in_order_inv in H as (found & k1 & k2 & -> & H & E).
  apply in_order_inv in E as [-> _]. eapply succeeded_with_mono; [|exact (searched_found _ _ _ _ H)].
  intros x Hx. rewrite !elem_of_app. auto.
Qed.

Lemma size_read_shown path megabytes l : size_read path megabytes l -> size_shown path megabytes l.
Proof.
  intros (out & l1 & l2 & -> & H & E). apply in_order_inv in E as [E ->].
  rewrite app_nil_r. exact (printed_answered _ _ _ _ H (fun _ => E)).
Qed.

(** What the inspection found: the home subvolume is [@home], the keys are in one of
    two places. *)
Lemma inspected_shown partition existing l :
  old_system_inspected config partition existing l ->
  home_shown (existing_home_size_mb existing) l /\
  existing_home_subvolume existing ∈ ["@home"; ""] /\
  existing_secure_boot_directory existing ∈ ["/tmp/old-system/@/var/lib/sbctl"; "/tmp/old-system/@/usr/share/secureboot"; ""].
Proof.
  intros (listing & l1 & l2 & -> & H1 & H). apply in_order_inv in H as (size & l3 & l4 & -> & H2 & H).
  apply in_order_inv in H as (directory & l5 & l6 & -> & H3 & H). apply in_order_inv in H as [-> ->]. cbn.
  split; [|split; [destruct (contains "@home" listing); [left | right; left]|]].
  - destruct (contains "@home" listing) eqn:E; cbn in H2; [left | right].
    + split; [eapply was_answered_mono; [|exact (printed_answered _ _ _ _ H1 (fun _ => E))] |
        eapply was_answered_mono; [|exact (size_read_shown _ _ _ H2)]]; intros x Hx; rewrite !elem_of_app; auto.
    + split; [eapply was_answered_mono; [|exact (printed_answered _ _ _ _ H1 (fun _ => E))]; intros x Hx; rewrite !elem_of_app; auto | apply H2].
  - destruct H3 as (found & l7 & l8 & -> & H3 & E). apply in_order_inv in E as [-> _].
    destruct found as [candidate|]; [|right; right; left]. apply searched_in in H3. cbn.
    rewrite !elem_of_cons, elem_of_nil in H3. destruct H3 as [->|[->|[]]]; one_of.
Qed.

Lemma mapped_shown (paths : list string) sizes l :
  mapped (fun path => size_read (path_in_old_root path)) paths sizes l ->
  Forall2 (fun path size => size_shown ("/tmp/old-system/@/" +:+ lstrip_chars "/" path) size l) paths sizes.
Proof.
  revert sizes l. induction paths as [|path paths IH]; intros sizes l; [intros [-> _]; constructor|].
  intros (size & sizes' & l1 & l2 & -> & [-> ->] & l3 & l4 & -> & H1 & H2). apply in_order_inv in H2. constructor.
  - eapply was_answered_mono; [|exact (size_read_shown _ _ _ H1)]. intros x Hx. rewrite !elem_of_app. auto.
  - eapply Forall2_impl; [exact (IH _ _ H2)|]. intros p n. apply was_answered_mono. intros x Hx. rewrite !elem_of_app. auto.
Qed.

Lemma room_confirmed_shown existing l l' :
  home_shown (existing_home_size_mb existing) l -> staging_room_confirmed config existing l' -> room_shown (l ++ l').
Proof.
  intros Hh (sizes & l1 & l2 & -> & Hs & H). apply in_order_inv in H as (out & l3 & l4 & -> & H3 & H).
  apply in_order_inv in H as (free & l5 & l6 & -> & [Hf ->] & H). apply in_order_inv in H as [H ->].
  assert (Hr : forall k, k ⊆ l ++ l1 ++ l3 ++ [] ++ [] -> k ⊆ l ++ l1 ++ l3 ++ [] ++ []) by auto.
  exists (existing_home_size_mb existing), sizes, free. split; [|split; [|split; [|exact H]]].
  - assert (Hl : l ⊆ l ++ l1 ++ l3 ++ [] ++ []) by (intros x Hx; rewrite !elem_of_app; auto).
    destruct Hh as [[H1 H2]|[H1 H2]]; [left | right]; (split; [exact (was_answered_mono _ _ _ _ Hl H1)|]); [|exact H2].
    exact (was_answered_mono _ _ _ _ Hl H2).
  - eapply Forall2_impl; [exact (mapped_shown _ _ _ Hs)|]. intros p n. apply was_answered_mono.
    intros x Hx. rewrite !elem_of_app. auto.
  - eapply was_answered_mono; [|exact (printed_answered _ _ _ _ H3 (fun _ => Hf))]. intros x Hx. rewrite !elem_of_app. auto.
Qed.

(** *** The step *)

Lemma copy_to_staging_copies (P : string -> Prop) existing :
  (forall c, staging_reads c = true \/ c ∈ staging_copies \/ copies_additional c -> P c) ->
  existing_home_subvolume existing ∈ ["@home"; ""] ->
  existing_secure_boot_directory existing ∈ ["/tmp/old-system/@/var/lib/sbctl"; "/tmp/old-system/@/usr/share/secureboot"; ""] ->
  emits (on_command P) (copy_to_staging config existing).
Proof.
  intros HP Hh Hd. unfold copy_to_staging, copy_into_staging.
  safe_auto ltac:(idtac; first [apply HP; right; left; one_of | idtac]).
  - apply HP. right. left. apply elem_of_cons in Hh as [->|Hh%list_elem_of_singleton]; [one_of|].
    rewrite Hh, andb_false_r in *. discriminate.
  - apply HP. right. left. apply elem_of_cons in Hd as [->|[->|Hd%list_elem_of_singleton]%elem_of_cons]; [one_of | one_of|].
    rewrite Hd, andb_false_r in *. discriminate.
  - unfold stage_additional_path, path_in_old_root. cbv zeta.
    safe_auto ltac:(idtac; apply HP; first [left; reflexivity | right; right; eexists; split; [eassumption | auto]]).
Qed.

Lemma guarded_staging : guarded staging_guard (migration_staging_execute config).
Proof.
  unfold migration_staging_execute. cbv zeta.
  eapply guarded_learn; [exact _ | unfold find_luks_partition; safe_auto reads | apply find_luks_partition_gives |].
  intros partition l H%old_partition_header.
  apply guarded_quiet; [exact _ | |].
  { unfold open_and_mount. safe_auto ltac:(idtac; first [mounts | right; right; left; exists partition;
      split; [reflexivity | rewrite app_nil_r; exact H]]). }
  intros _. apply guarded_seq; [exact _ | | intros _; apply guarded_emits; [exact _|]; safe_auto reads].
  apply guarded_try_finally; [exact _ | | apply guarded_emits; [exact _|]; unfold unmount_and_close; safe_auto mounts].
  eapply guarded_learn; [exact _ | unfold inspect_mounted_system, find_secure_boot_directory, size_mb, of_outcome;
    safe_auto reads | apply inspect_gives |].
  intros existing l' (Hh & Hhome & Hkeys)%inspected_shown.
  apply guarded_quiet; [exact _ | safe_auto reads|]. intros _.
  eapply guarded_learn; [exact _ | unfold ensure_staging_space, size_mb, of_outcome; safe_auto reads
    | apply ensure_staging_space_confirms |].
  intros u l'' Hroom%(room_confirmed_shown _ _ _ Hh). apply guarded_emits; [exact _|].
  apply copy_to_staging_copies; [|assumption..]. intros c [Hc|Hc]; [left; exact Hc | right; right; right].
  split; [exact Hc|]. eapply room_shown_mono; [|exact Hroom]. intros x Hx. rewrite !elem_of_app in *. tauto.
Qed.

(** The same for the commands alone. *)
Definition staging_command (c : string) : Prop :=
  staging_reads c = true \/ c ∈ staging_mounts \/
  (exists partition, c = "cryptsetup open --key-file - " +:+ partition +:+ " oldcryptroot") \/
  c ∈ staging_copies \/ copies_additional c.

Lemma staging_commands t o : runs (migration_staging_execute config) t o -> Forall staging_command (commands t).
Proof.
  intros Hr. rewrite <- exchanges_commands. apply Forall_forall. intros c (x & -> & Hx)%list_elem_of_fmap.
  apply list_elem_of_split in Hx as (l1 & l2 & E).
  destruct (guarded_staging t o Hr l1 x l2 E) as [H|[H|[(p & H & _)|[[H|H] _]]]]; unfold staging_command; eauto 6.
Qed.
End Staging.

(** *** Closing *)

(** The old system is mounted, and it is unmounted. A program that is not found
    ends the clean-up early, too. *)
Definition old_mounted (k : migration_kind) (res : process_result) : bool :=
  match k with OldMount => succeeded res | _ => false end.
Definition close_rules : list (string * migration_kind) := [
  ("mount -t btrfs -o subvolid=5 /dev/mapper/oldcryptroot /tmp/old-system", OldMount);
  ("cryptsetup close oldcryptroot", OldClose)].
Definition old_closed (k : migration_kind) (res : process_result) : bool :=
  match k, res with
  | OldClose, _ => true
  | _, NotFound _ => true
  | _, _ => false
  end.

Section Closing.
Context (config : InstallerConfig).
Abbreviation closes p Q s :=
  (wp (monitor (kind_step close_rules MigrationOther (response_act old_mounted old_closed))) p Q s).

Lemma closes_unmount_and_close Q s : (forall o, Q o false) -> closes unmount_and_close Q s.
Proof.
  intros HQ. unfold unmount_and_close. destruct s; repeat wp_step; apply HQ.
Qed.

Lemma closes_open_and_mount partition Q :
  (forall o s, (is_ok o = false -> s = false) -> Q o s) -> closes (open_and_mount config partition) Q false.
Proof. intros HQ. unfold open_and_mount. repeat wp_step; apply HQ; auto; discriminate. Qed.

Lemma staging_closes :
  closes (migration_staging_execute config) (fun _ s => s = false) false.
Proof.
  unfold migration_staging_execute. cbv zeta. walk ltac:(unfold find_luks_partition).
  wp_step. apply closes_open_and_mount. intros [[]|x] s Hs; cbn [then_]; [|auto].
  wp_step. apply wp_try_finally. apply response_free. intros o s'.
  apply closes_unmount_and_close. intros [[]|x']; [destruct o as [[]|]|]; cbn [then_];
    repeat wp_step; reflexivity.
Qed.
End Closing.

(** ** Restoring *)

Definition restore_rules : list (string * migration_kind) := [
  ("cp -a ", Copy); ("rm -rf ", RemoveStaging)].
Definition copy_failed (k : migration_kind) (res : process_result) : bool :=
  match k with Copy => failed res | _ => false end.
Definition is_removal (k : migration_kind) : bool :=
  match k with RemoveStaging => true | _ => false end.

Lemma restore_keeps config :
  wp (monitor (kind_step restore_rules MigrationOther (absence_act copy_failed is_removal)))
    (migration_restore_execute config) (fun _ _ => True) false.
Proof.
  unfold migration_restore_execute. walk idtac. wp_step; [repeat wp_step; exact I|].
  unfold restore_directory. wp_step.
  apply (wp_for_each _ _ _ (fun s => s = false)); [reflexivity| |].
  - intros [staged destination] s _ ->. repeat wp_step; auto.
  - intros s ->. cbn [then_]. stable ltac:(unfold report_restored_data). auto.
Qed.

(** ** Properties *)

(** C16: staging leaves the disk as it is. On every run, also one that fails, every
    command reads; or unlocks a partition that was found to hold a LUKS header; or
    mounts and closes it below [/tmp]; or clears the staging directory and copies into
    it, from exactly the old home subvolume, the old Secure Boot keys and the
    configured paths in the old root; and before any of those copies [df] showed room
    in [/tmp] for all that is to be kept, at the sizes [du] answered, and 256 MB more. *)
Theorem staging_harmless (config : InstallerConfig) t o l1 x l2 :
  runs (migration_staging_execute config) t o ->
  exchanges t = l1 ++ x :: l2 ->
  staging_reads x.1.1 = true \/ x.1.1 ∈ staging_mounts \/ staging_opens x.1.1 l1 \/
  ((x.1.1 ∈ staging_copies \/ copies_additional config x.1.1) /\ room_shown config l1).
Proof. intros Hr. exact (guarded_staging config t o Hr l1 x l2). Qed.

Definition migration_machine : oracle cmd_sig := fake_runner [
  ("lsblk", (0, "vda" +:+ nl +:+ "vda1" +:+ nl +:+ "vda2", ""));
  ("subvolume list", (0, "ID 257 path @home", ""));
  ("df --output", (0, "Avail" +:+ nl +:+ " 9999 ", "")); ("du -sm", (0, "12 home", ""))]%Z.

Lemma staging_harmless_witness :
  let l1 := take 12 (exchanges (trace_of migration_machine (migration_staging_execute sample_migration_config))) in
  let c := "cp -a /tmp/old-system/@home/. /tmp/migration-staging/home/" in
  staging_reads c = true \/ c ∈ staging_mounts \/ staging_opens c l1 \/
  ((c ∈ staging_copies \/ copies_additional sample_migration_config c) /\ room_shown sample_migration_config l1).
Proof.
  eapply (staging_harmless sample_migration_config _ _ (take 12 _)
    ("cp -a /tmp/old-system/@home/. /tmp/migration-staging/home/", None, _));
    [apply trace_runs | nth_reply 12].
Defined.

(** C18: the old system never stays open: whenever staging mounted it, it later
    closes its LUKS volume, whether the copy succeeded or not (unless a program
    of the clean-up is missing altogether). *)
Theorem staging_closes_old_system (config : InstallerConfig) t o l1 c res l2 :
  runs (migration_staging_execute config) t o -> replies t = l1 ++ (c, res) :: l2 ->
  classify_by close_rules MigrationOther c = OldMount -> succeeded res = true ->
  exists cr, cr ∈ l2 /\ old_closed (classify_by close_rules MigrationOther cr.1) cr.2 = true.
Proof.
  intros Hr Hl Hc Hs.
  apply (response_runs _ _ _ _ _ _ _ (staging_closes config) Hr _ _ _ _ Hl); rewrite Hc; [exact Hs|].
  destruct res; [discriminate | reflexivity].
Qed.

(** A machine on which the copy fails: the disk is full after all. *)
Definition full_machine : oracle cmd_sig := fake_runner [
  ("lsblk", (0, "vda1", "")); ("df --output", (0, " 9999 ", "")); ("cp -a", (1, "", "No space left"));
  ("subvolume list", (0, "ID 257 path @home", ""))]%Z.

Lemma staging_closes_old_system_witness :
  exists cr, cr ∈ drop 5 (replies (trace_of full_machine (migration_staging_execute sample_migration_config))) /\
    old_closed (classify_by close_rules MigrationOther cr.1) cr.2 = true.
Proof.
  eapply (staging_closes_old_system sample_migration_config);
    [apply trace_runs | nth_reply 4 | reflexivity | reflexivity].
Defined.

(** C17: staged data is only deleted when all of it was restored: after a copy that
    failed, the restore step deletes nothing. *)
Theorem restore_keeps_staged_data (config : InstallerConfig) t o l1 c res l2 :
  runs (migration_restore_execute config) t o -> replies t = l1 ++ (c, res) :: l2 ->
  classify_by restore_rules MigrationOther c = Copy -> failed res = true ->
  Forall (fun cr => classify_by restore_rules MigrationOther cr.1 <> RemoveStaging) l2.
Proof.
  intros Hr Hl Hc Hf. eapply Forall_impl;
    [eapply (absence_runs _ _ _ _ _ _ _ _ (restore_keeps config) Hr _ _ _ _ Hl); rewrite Hc; exact Hf|].
  intros cr H E. cbv beta in H. rewrite E in H. discriminate.
Qed.

Lemma restore_keeps_staged_data_witness :
  Forall (fun cr => classify_by restore_rules MigrationOther cr.1 <> RemoveStaging)
    (drop 4 (replies (trace_of full_machine (migration_restore_execute sample_migration_config)))).
Proof.
  eapply (restore_keeps_staged_data sample_migration_config);
    [apply trace_runs | nth_reply 3 | reflexivity | reflexivity].
Defined.

(** The one way the old volume stays open: the mount point cannot be made, which
    raises after unlocking and before the clean-up is set up. *)
Example mkdir_failure_leaves_volume_open :
  let w := fake_runner [("lsblk", (0, "vda1", "")); ("mkdir -p /tmp/old-system", (1, "", ""))]%Z in
  commands (trace_of w (migration_staging_execute sample_migration_config)) =
    ["lsblk -ln -o NAME /dev/vda"; "cryptsetup isLuks /dev/vda1";
     "cryptsetup open --key-file - /dev/vda1 oldcryptroot"; "mkdir -p /tmp/old-system"].
Proof. concrete. Qed.
