(* ===== verification/UsbBackup.v ===== *)
(** * The USB backup ([executors/usb_backup.py])

    Dotfiles, password databases, browser profiles, system configuration and the
    package list go to a partition the user provides. *)

From S2P Require Import Prelude PyStr Effects Command PyVal Models Export Samples Base Patterns.

Definition BACKUP_MOUNT : string := "/mnt/usb-backup".
Definition CUSTOM_ITEMS_DIRECTORY : string := "custom".

Definition backup_item (name source_path description : string) : BackupItemConfig :=
  {| item_name := name; item_source_path := source_path; item_description := description |}.

Definition BACKUP_ITEMS (category : BackupCategory) : list BackupItemConfig :=
  match category with
  | DOTFILES => [
      backup_item "zshrc" "~/.zshrc" "ZSH config";
      backup_item "zshenv" "~/.zshenv" "ZSH environment";
      backup_item "bashrc" "~/.bashrc" "Bash config";
      backup_item "gitconfig" "~/.gitconfig" "Git config";
      backup_item "gitignore" "~/.gitignore_global" "Git global ignore";
      backup_item "kitty" "~/.config/kitty" "Kitty terminal config";
      backup_item "alacritty" "~/.config/alacritty" "Alacritty config";
      backup_item "nvim" "~/.config/nvim" "Neovim config";
      backup_item "vscode_settings" "~/.config/Code/User/settings.json" "VS Code settings";
      backup_item "vscode_keybindings" "~/.config/Code/User/keybindings.json" "VS Code keybindings";
      backup_item "starship" "~/.config/starship.toml" "Starship prompt config";
      backup_item "tmux" "~/.tmux.conf" "Tmux config";
      backup_item "hypr" "~/.config/hypr" "Hyprland config";
      backup_item "waybar" "~/.config/waybar" "Waybar config";
      backup_item "rofi" "~/.config/rofi" "Rofi config";
      backup_item "dunst" "~/.config/dunst" "Dunst notification config"]
  | KEEPASS => [
      backup_item "keepassxc_db" "~/Documents/Passwords.kdbx" "KeePassXC database";
      backup_item "keepassxc_config" "~/.config/keepassxc" "KeePassXC config"]
  | BROWSER => [
      backup_item "firefox_profile" "~/.mozilla/firefox" "Firefox profile";
      backup_item "chromium_profile" "~/.config/chromium" "Chromium profile"]
  | SYSTEM_FILES => [
      backup_item "pacman_conf" "/etc/pacman.conf" "Pacman config";
      backup_item "makepkg_conf" "/etc/makepkg.conf" "Makepkg config";
      backup_item "mkinitcpio_conf" "/etc/mkinitcpio.conf" "Mkinitcpio config"]
  end.

Record BackupManifest := {
  manifest_timestamp : string;
  manifest_hostname : string;
  manifest_categories : list string;
  manifest_package_count : Z;
  manifest_items_backed_up : list string }.

Section UsbBackupStepExecutor.
(** [yaml.safe_dump(data, default_flow_style=False, sort_keys=False)] *)
Context (safe_dump : pyval -> string).

Definition package_catalog (package_names : list string) : string :=
  let catalog := PDict [("packages", PDict [("cataloged", PList (map PStr package_names))])] in
  "# explicitly installed packages of the backed up system" +:+ nl +:+ safe_dump catalog.

Context (config : InstallerConfig).

Definition expand_home (path : string) : string :=
  if startswith "~" path
  then replace_first (chr 126) ("/home/" +:+ user_name (system_user (cfg_system config))) path
  else path.

Definition command_output (command : string) : cmd string :=
  let* result := run_quiet command in
  Ret (if success result then strip (stdout result) else "unknown").

Definition copy_item (source destination : string) : cmd bool :=
  let* exists_ := path_exists source in
  if negb exists_ then Ret false
  else
    let* is_directory := directory_exists source in
    (if is_directory then
       run ("mkdir -p " +:+ destination) ;;
       run ("rsync -a --delete " +:+ source +:+ "/ " +:+ destination +:+ "/")
     else run ("cp -a " +:+ source +:+ " " +:+ destination)) ;;
    Ret true.

(** The groups of items: the categories, then the configured items. *)
Definition backup_groups (categories : list BackupCategory) : list (string * list BackupItemConfig) :=
  map (fun category => (enum_value category, BACKUP_ITEMS category)) categories ++
  match sync_backup_items (cfg_sync config) with
  | [] => []
  | items => [(CUSTOM_ITEMS_DIRECTORY, items)]
  end.

(** The copy of one item, and its entry in the manifest if it was there. *)
Definition backup_one (group_directory : string) (item : BackupItemConfig) : cmd (option string) :=
  let* copied := copy_item (expand_home (item_source_path item))
    (BACKUP_MOUNT +:+ "/" +:+ group_directory +:+ "/" +:+ item_name item) in
  if copied then
    log_debug ("Backed up " +:+ item_name item +:+ " (" +:+ item_description item +:+ ")") ;;
    Ret (Some (group_directory +:+ "/" +:+ item_name item))
  else Ret None.

Definition backup_group (group : string * list BackupItemConfig) : cmd (list string) :=
  run ("mkdir -p " +:+ BACKUP_MOUNT +:+ "/" +:+ group.1) ;;
  let* entries := map_each (backup_one group.1) group.2 in
  Ret (omap id entries).

Definition copy_items (categories : list BackupCategory) : cmd (list string) :=
  let* entries := map_each backup_group (backup_groups categories) in
  Ret (mjoin entries).

Definition explicitly_installed_packages : cmd (list string) :=
  let* result := run_quiet "pacman -Qqe" in
  if negb (success result) then
    log_warning ("Could not list installed packages: " +:+ strip (stderr result)) ;; Ret []
  else Ret (split (stdout result)).

Definition write_config_exports (package_names : list string) : cmd unit :=
  let config_directory := BACKUP_MOUNT +:+ "/config" in
  run ("mkdir -p " +:+ config_directory) ;;
  write_file (config_directory +:+ "/package_catalog.yaml") (package_catalog package_names) ;;
  write_file (config_directory +:+ "/config.yaml") (safe_dump (PDict (exportable_config config))).

Definition manifest_data (m : BackupManifest) : pyval := PDict [
  ("timestamp", PStr (manifest_timestamp m));
  ("hostname", PStr (manifest_hostname m));
  ("categories", PList (map PStr (manifest_categories m)));
  ("package_count", PInt (manifest_package_count m));
  ("items_backed_up", PList (map PStr (manifest_items_backed_up m)))].

Definition usb_backup_execute : cmd unit :=
  let partition := sync_backup_partition (cfg_sync config) in
  if negb (truthy partition) then
    Raise (ConfigurationError
      "No partition to back up to (BACKUP_PARTITION or sync.backup_partition)")
  else
    let* exists_ := path_exists partition in
    if negb exists_ then
      Raise (ConfigurationError ("Backup partition " +:+ partition +:+ " does not exist"))
    else
      let categories := sync_backup_categories (cfg_sync config) in
      log_info ("Backing up " +:+ join ", " (map enum_value categories) +:+ " to " +:+ partition +:+ "...") ;;
      run ("mkdir -p " +:+ BACKUP_MOUNT) ;;
      let* mounted := is_mountpoint BACKUP_MOUNT in
      when (negb mounted) (run ("mount " +:+ partition +:+ " " +:+ BACKUP_MOUNT)) ;;
      let* counts :=
        try_finally
          (let* items_backed_up := copy_items categories in
           let* package_names := explicitly_installed_packages in
           write_config_exports package_names ;;
           let* timestamp := command_output "date -Iseconds" in
           let* hostname := command_output "hostname" in
           let manifest := {|
             manifest_timestamp := timestamp;
             manifest_hostname := hostname;
             manifest_categories := map enum_value categories;
             manifest_package_count := Z.of_nat (length package_names);
             manifest_items_backed_up := items_backed_up |} in
           write_file (BACKUP_MOUNT +:+ "/manifest.yaml") (safe_dump (manifest_data manifest)) ;;
           Ret (length items_backed_up, length package_names))
          (run_ignored ("umount " +:+ BACKUP_MOUNT)) in
      log_info ("Backup complete: " +:+ str_of_nat counts.1 +:+ " items, " +:+
                str_of_nat counts.2 +:+ " packages").
End UsbBackupStepExecutor.

(** ** Properties *)

Inductive backup_kind := BackupMountDone | BackupUnmount | BackupCopy | BackupOther.
Definition backup_rules : list (string * backup_kind) := [
  ("mount ", BackupMountDone); ("umount /mnt/usb-backup", BackupUnmount);
  ("cp ", BackupCopy); ("rsync ", BackupCopy); ("cat > ", BackupCopy)].
Definition backup_mounted (k : backup_kind) (res : process_result) : bool :=
  match k with BackupMountDone => succeeded res | _ => false end.
Definition backup_unmounted (k : backup_kind) (res : process_result) : bool :=
  match k with BackupUnmount => true | _ => false end.
Definition is_backup_copy (k : backup_kind) : bool := match k with BackupCopy => true | _ => false end.

Section Unmount.
Context (safe_dump : pyval -> string) (config : InstallerConfig).

Lemma backup_closes :
  wp (monitor (kind_step backup_rules BackupOther (response_act backup_mounted backup_unmounted)))
    (usb_backup_execute safe_dump config) (fun _ s => s = false) false.
Proof.
  assert (Hrest : forall A (p : cmd A) (f : A -> cmd unit) s,
    (forall a, wp (monitor (kind_step backup_rules BackupOther (response_act backup_mounted backup_unmounted)))
      (f a) (fun _ s => s = false) false) ->
    wp (monitor (kind_step backup_rules BackupOther (response_act backup_mounted backup_unmounted)))
      (bind (try_finally p (run_ignored ("umount " +:+ BACKUP_MOUNT))) f) (fun _ s => s = false) s).
  { intros A p f s Hf. wp_step. apply wp_try_finally, response_free. intros o s'.
    repeat wp_step; destruct o; cbn [then_]; auto; destruct s'; repeat wp_step; auto. }
  unfold usb_backup_execute. wp_step; [reflexivity|]. walk idtac.
  wp_step; [reflexivity|]. cbv zeta. walk idtac.
  wp_step. repeat wp_step; try reflexivity; rewrite <- ?wp_bind; apply Hrest;
    intros; stable idtac; reflexivity.
Qed.
End Unmount.

(** A backup partition the step mounted is unmounted again, whether the backup
    succeeded or not, so that the drive can be pulled. *)
Theorem backup_unmounts (safe_dump : pyval -> string) (config : InstallerConfig) t o l1 c res l2 :
  runs (usb_backup_execute safe_dump config) t o -> replies t = l1 ++ (c, res) :: l2 ->
  classify_by backup_rules BackupOther c = BackupMountDone -> succeeded res = true ->
  exists cr, cr ∈ l2 /\ classify_by backup_rules BackupOther cr.1 = BackupUnmount.
Proof.
  intros Hr Hl Hc Hs.
  destruct (response_runs _ _ _ _ _ _ _ (backup_closes safe_dump config) Hr _ _ _ _ Hl) as (cr & Hin & H);
    [rewrite Hc; auto..|].
  exists cr. destruct (classify_by backup_rules BackupOther cr.1); auto; discriminate.
Qed.

Definition sample_backup_config : InstallerConfig := {|
  cfg_system := sample_system; cfg_packages := sample_packages;
  cfg_storage := cfg_storage sample_config; cfg_boot := sample_boot; cfg_gpu := cfg_gpu sample_config;
  cfg_snapper := sample_snapper; cfg_firewall := cfg_firewall sample_config;
  cfg_docker := cfg_docker sample_config; cfg_notifications := cfg_notifications sample_config;
  cfg_sync := {| sync_backup_partition := "/dev/sdb1";
    sync_backup_items := [backup_item "notes" "~/notes" "Notes"];
    sync_backup_categories := [KEEPASS; SYSTEM_FILES] |};
  cfg_migration := cfg_migration sample_config; cfg_usb_boot := cfg_usb_boot sample_config;
  cfg_secrets := cfg_secrets sample_config; cfg_credentials := sample_credentials |}.

(** A drive that fills up while it is written. *)
Definition full_drive : oracle cmd_sig := fake_runner [
  ("mountpoint -q", (1, "", "")); ("rsync", (1, "", "No space left on device"))]%Z.

Lemma backup_unmounts_witness :
  exists cr, cr ∈ drop 4 (replies (trace_of full_drive (usb_backup_execute (fun _ => "") sample_backup_config))) /\
    classify_by backup_rules BackupOther cr.1 = BackupUnmount.
Proof.
  eapply (backup_unmounts (fun _ => "") sample_backup_config);
    [apply trace_runs | nth_reply 3 | reflexivity | reflexivity].
Defined.
