(* ===== verification/ExpectedState.v ===== *)
(** * The expected state ([expected_state.py])

    The values verify-install checks the installed system against, written as
    shell assignments; the script sources the file as root. *)

From S2P Require Import Prelude PyStr PyVal Models Samples.

Definition EXPECTED_STATE_PATH : string := "/etc/dali/expected-state.env".

(** [shlex.quote] *)
Definition shell_safe_char (c : Ascii.ascii) : bool :=
  let n := ord c in
  ((48 <=? n) && (n <=? 57) || (65 <=? n) && (n <=? 90) || (97 <=? n) && (n <=? 122) || (n =? 95))%nat ||
  existsb (char_eqb c) (String.list_ascii_of_string "@%+=:,./-").
Definition shlex_quote (s : string) : string :=
  if negb (truthy s) then "''"
  else if str_all shell_safe_char s then s
  else "'" +:+ replace_char (chr 39) ("'" +:+ dquote +:+ "'" +:+ dquote +:+ "'") s +:+ "'".

(** A value is a [str] or a [bool]. *)
Definition shell_word (value : string + bool) : string :=
  match value with
  | inr b => if b then "true" else "false"
  | inl s => shlex_quote s
  end.

Definition expected_state_values (config : InstallerConfig) : dict string (string + bool) :=
  let system := cfg_system config in
  let storage := cfg_storage config in
  let gpu := cfg_gpu config in
  [ ("EXPECTED_HOSTNAME", inl (system_hostname system));
    ("EXPECTED_TIMEZONE", inl (system_timezone system));
    ("EXPECTED_LOCALE", inl (full_locale (system_locale system)));
    ("EXPECTED_KEYMAP", inl (locale_keymap (system_locale system)));
    ("EXPECTED_USER", inl (user_name (system_user system)));
    ("EXPECTED_SWAP_ENABLED", inr (swap_enabled (storage_swap storage)));
    ("EXPECTED_SWAP_PATH", inl (swap_path (storage_swap storage)));
    ("EXPECTED_KERNEL_PACKAGES", inl (join " " (kernel_packages (cfg_boot config))));
    ("EXPECTED_DISPLAY_MANAGERS", inl (join " " (packages_display_manager (cfg_packages config))));
    ("EXPECTED_SNAPPER_ENABLED", inr (snapper_enabled (cfg_snapper config)));
    ("EXPECTED_FIREWALL_ENABLED", inr (firewall_enabled (cfg_firewall config)));
    ("EXPECTED_GPU_VENDOR", inl (enum_value (gpu_vendor gpu)));
    ("EXPECTED_GPU_DRIVER", inl (enum_value (gpu_driver gpu)));
    ("EXPECTED_USB_BOOT", inr (usb_boot_enabled (cfg_usb_boot config)));
    ("EXPECTED_RECOVERY_SYSTEM",
      inr (usb_boot_enabled (cfg_usb_boot config) && usb_boot_recovery_system (cfg_usb_boot config))) ].

Definition assignment (nv : string * (string + bool)) : string := nv.1 +:+ "=" +:+ shell_word nv.2.

Definition expected_state_file (config : InstallerConfig) : string :=
  let assignments := map assignment (expected_state_values config) in
  let header := "# written by the DALI installer from the final configuration, read by verify-install" in
  lines (header :: assignments).

(** ** How a shell reads the file

    The part of the POSIX shell's grammar that assignments with quoted words use:
    comments, single quotes (everything is literal) and double quotes without
    expansions.  Anything else is an error here, so a word that is read was
    read without an expansion or a command. *)

Inductive sh_state :=
| LineStart
| InComment
| InName (name : string)
| InWord (name value : string)
| InSingle (name value : string)
| InDouble (name value : string).

Definition push (s : string) (c : Ascii.ascii) : string := s +:+ String c "".

Fixpoint sh_read (st : sh_state) (s : string) : option (list (string * string)) :=
  match s with
  | EmptyString => match st with LineStart => Some [] | _ => None end
  | String c s' =>
      let newline := char_eqb c (chr 10) in
      match st with
      | LineStart =>
          if char_eqb c (chr 35) then sh_read InComment s'
          else if newline then sh_read LineStart s'
          else sh_read (InName (String c "")) s'
      | InComment => sh_read (if newline then LineStart else InComment) s'
      | InName name =>
          if char_eqb c (chr 61) then sh_read (InWord name "") s'
          else sh_read (InName (push name c)) s'
      | InWord name value =>
          if newline then
            match sh_read LineStart s' with Some rest => Some ((name, value) :: rest) | None => None end
          else if char_eqb c (chr 39) then sh_read (InSingle name value) s'
          else if char_eqb c (chr 34) then sh_read (InDouble name value) s'
          else if shell_safe_char c then sh_read (InWord name (push value c)) s'
          else None
      | InSingle name value =>
          if char_eqb c (chr 39) then sh_read (InWord name value) s'
          else sh_read (InSingle name (push value c)) s'
      | InDouble name value =>
          if char_eqb c (chr 34) then sh_read (InWord name value) s'
          else if existsb (char_eqb c) [chr 36; chr 92; chr 96] then None
          else sh_read (InDouble name (push value c)) s'
      end
  end.

(** The value of a variable as the script sees it. *)
Definition shell_value (value : string + bool) : string :=
  match value with inr b => if b then "true" else "false" | inl s => s end.

(** ** Lemmas *)

Lemma push_app v c s : push v c +:+ s = v +:+ String c s.
Proof. unfold push. rewrite str_app_assoc. reflexivity. Qed.

Lemma char_eqb_eq c d : char_eqb c d = true <-> c = d.
Proof. apply Ascii.eqb_eq. Qed.

Lemma safe_char_plain c :
  shell_safe_char c = true ->
  char_eqb c (chr 10) = false /\ char_eqb c (chr 39) = false /\ char_eqb c (chr 34) = false.
Proof. intros H. repeat split; destruct (char_eqb c _) eqn:E; auto; apply char_eqb_eq in E; subst; discriminate. Qed.

(** Unquoted safe characters. *)
Lemma sh_read_safe name value s rest :
  str_all shell_safe_char s = true ->
  sh_read (InWord name value) (s +:+ rest) = sh_read (InWord name (value +:+ s)) rest.
Proof.
  revert value; induction s as [|c s IH]; intros value H.
  - rewrite str_app_nil_r. reflexivity.
  - simpl in H. apply andb_true_iff in H as [Hc Hs].
    destruct (safe_char_plain _ Hc) as (H1 & H2 & H3).
    change (String c s +:+ rest) with (String c (s +:+ rest)). cbn [sh_read].
    rewrite H1, H2, H3, Hc, (IH _ Hs), push_app. reflexivity.
Qed.

(** Inside single quotes, with every quote of the text spelled by [shlex.quote]. *)
Lemma sh_read_single name value s rest :
  sh_read (InSingle name value)
    (replace_char (chr 39) ("'" +:+ dquote +:+ "'" +:+ dquote +:+ "'") s +:+ "'" +:+ rest) =
  sh_read (InWord name (value +:+ s)) rest.
Proof.
  revert value; induction s as [|c s IH]; intros value.
  - rewrite str_app_nil_r. reflexivity.
  - cbn [replace_char]. destruct (char_eqb c (chr 39)) eqn:Ec.
    + apply char_eqb_eq in Ec as ->. rewrite str_app_assoc.
      change (sh_read (InSingle name (push value (chr 39)))
        (replace_char (chr 39) ("'" +:+ dquote +:+ "'" +:+ dquote +:+ "'") s +:+ "'" +:+ rest) =
        sh_read (InWord name (value +:+ String (chr 39) s)) rest).
      rewrite IH, push_app. reflexivity.
    + change (sh_read (InSingle name value) (String c
        (replace_char (chr 39) ("'" +:+ dquote +:+ "'" +:+ dquote +:+ "'") s +:+ "'" +:+ rest)) =
        sh_read (InWord name (value +:+ String c s)) rest).
      cbn [sh_read]. rewrite Ec, IH, push_app. reflexivity.
Qed.

(** A quoted word is read back as the text, whatever the text. *)
Lemma sh_read_quote name s rest :
  sh_read (InWord name "") (shlex_quote s +:+ rest) = sh_read (InWord name s) rest.
Proof.
  unfold shlex_quote. destruct s as [|c s]; [reflexivity|]. cbn [truthy negb].
  destruct (str_all shell_safe_char (String c s)) eqn:E.
  - apply (sh_read_safe name "" _ rest E).
  - rewrite !str_app_assoc.
    change (sh_read (InSingle name "") (replace_char (chr 39) ("'" +:+ dquote +:+ "'" +:+ dquote +:+ "'") (String c s) +:+ "'" +:+ rest) =
      sh_read (InWord name (String c s)) rest).
    apply (sh_read_single name "" (String c s) rest).
Qed.

Lemma sh_read_word name value rest :
  sh_read (InWord name "") (shell_word value +:+ rest) = sh_read (InWord name (shell_value value)) rest.
Proof.
  destruct value as [s|b]; [apply sh_read_quote|]. destruct b; apply (sh_read_safe name "" _ rest); reflexivity.
Qed.

(** A name of a variable: not empty, without an equals sign, and not a comment. *)
Definition plain_name (name : string) : bool :=
  match name with
  | EmptyString => false
  | String c _ => negb (char_eqb c (chr 35)) && negb (char_eqb c (chr 10)) &&
                  str_all (fun d => negb (char_eqb d (chr 61))) name
  end.

Lemma sh_read_in_name acc name rest :
  str_all (fun d => negb (char_eqb d (chr 61))) name = true ->
  sh_read (InName acc) (name +:+ "=" +:+ rest) = sh_read (InWord (acc +:+ name) "") rest.
Proof.
  revert acc; induction name as [|c name IH]; intros acc H.
  - rewrite str_app_nil_r. reflexivity.
  - simpl in H. apply andb_true_iff in H as [Hc Hn]. apply negb_true_iff in Hc.
    change (String c name +:+ "=" +:+ rest) with (String c (name +:+ "=" +:+ rest)).
    cbn [sh_read]. rewrite Hc, (IH _ Hn), push_app. reflexivity.
Qed.

Lemma sh_read_assignment name value rest :
  plain_name name = true ->
  sh_read LineStart (assignment (name, value) +:+ nl +:+ rest) =
    match sh_read LineStart rest with
    | Some values => Some ((name, shell_value value) :: values)
    | None => None
    end.
Proof.
  intros H. unfold assignment. cbn [fst snd]. rewrite !str_app_assoc.
  destruct name as [|c name]; [discriminate|]. unfold plain_name in H.
  apply andb_true_iff in H as [H Hn]. apply andb_true_iff in H as [H1 H2].
  apply negb_true_iff in H1, H2. cbn [str_all] in Hn. apply andb_true_iff in Hn as [_ Hn].
  change (String c name +:+ "=" +:+ shell_word value +:+ nl +:+ rest)
    with (String c (name +:+ "=" +:+ shell_word value +:+ nl +:+ rest)).
  cbn [sh_read]. rewrite H1, H2, (sh_read_in_name _ _ _ Hn), sh_read_word. reflexivity.
Qed.

Lemma lines_cons x l : lines (x :: l) = x +:+ nl +:+ match l with [] => "" | _ => lines l end.
Proof. destruct l; [reflexivity|]. unfold lines. simpl join. rewrite !str_app_assoc. reflexivity. Qed.

Lemma sh_read_assignments values :
  Forall (fun nv => plain_name nv.1 = true) values ->
  sh_read LineStart (match values with [] => "" | _ => lines (map assignment values) end) =
    Some (map (fun nv => (nv.1, shell_value nv.2)) values).
Proof.
  induction values as [|[name value] values IH]; intros H; [reflexivity|].
  apply Forall_cons in H as [Hn Hv]. cbn [map]. rewrite lines_cons, (sh_read_assignment _ _ _ Hn).
  specialize (IH Hv). destruct values; cbn [map] in *; rewrite IH; reflexivity.
Qed.

Lemma sh_read_comment text rest :
  str_all (fun c => negb (char_eqb c (chr 10))) text = true ->
  sh_read InComment (text +:+ nl +:+ rest) = sh_read LineStart rest.
Proof.
  induction text as [|c text IH]; [reflexivity|]. simpl. intros H.
  apply andb_true_iff in H as [Hc Ht]. apply negb_true_iff in Hc.
  change (sh_read InComment (String c (text +:+ nl +:+ rest)) = sh_read LineStart rest).
  cbn [sh_read]. rewrite Hc. exact (IH Ht).
Qed.

(** C27: a shell that sources the file sees exactly the expected values, whatever
    characters the configuration has in them; nothing in a value is run as a
    command or expanded. *)
Theorem expected_state_round_trip (config : InstallerConfig) :
  sh_read LineStart (expected_state_file config) =
    Some (map (fun nv => (nv.1, shell_value nv.2)) (expected_state_values config)).
Proof.
  unfold expected_state_file. rewrite lines_cons.
  change (sh_read LineStart ("#" +:+ " written by the DALI installer from the final configuration, read by verify-install" +:+
    nl +:+ lines (map assignment (expected_state_values config))) = 
    Some (map (fun nv => (nv.1, shell_value nv.2)) (expected_state_values config))).
  change (sh_read InComment (" written by the DALI installer from the final configuration, read by verify-install" +:+
    nl +:+ lines (map assignment (expected_state_values config))) = 
    Some (map (fun nv => (nv.1, shell_value nv.2)) (expected_state_values config))).
  rewrite sh_read_comment by reflexivity.
  exact (sh_read_assignments (expected_state_values config) ltac:(repeat constructor)).
Qed.
