(* ===== verification/Schema.v ===== *)
(** * The types the configuration model declares

    [typing.get_type_hints] of the dataclasses as a universe of types, the values
    that have these types, and how a value of a dataclass' type becomes the record.
    [Faithful] is what the configuration builder relies on: every record has its
    declared type as a Python value, a well-typed value is a record, and reading
    back [asdict] loses nothing. *)

From S2P Require Import Prelude PyStr PyVal Models Export.

(** ** Types *)

#[warnings="-register-all"]
Inductive ftype : Type :=
| TStr
| TInt
| TBool
| TEnum (cls : string) (members : list (string * string))
| TTuple (item : ftype)
| TOption (inner : ftype)
| TData (cls : string) (declared : list (string * ftype)).

Section FtypeInd.
Context (P : ftype -> Prop).
Context (HStr : P TStr) (HInt : P TInt) (HBool : P TBool) (HEnum : forall c m, P (TEnum c m))
  (HTuple : forall t, P t -> P (TTuple t)) (HOption : forall t, P t -> P (TOption t))
  (HData : forall c fs, Forall (fun nt => P nt.2) fs -> P (TData c fs)).

Fixpoint ftype_ind' (t : ftype) : P t :=
  match t with
  | TStr => HStr
  | TInt => HInt
  | TBool => HBool
  | TEnum c m => HEnum c m
  | TTuple t' => HTuple t' (ftype_ind' t')
  | TOption t' => HOption t' (ftype_ind' t')
  | TData c fs => HData c fs
      ((fix go (fs : list (string * ftype)) : Forall (fun nt => P nt.2) fs :=
         match fs with
         | [] => Forall_nil_2 _
         | nt :: fs' => Forall_cons_2 _ nt fs' (ftype_ind' nt.2) (go fs')
         end) fs)
  end.
End FtypeInd.

(** A value of a type, as the builder makes it: a dataclass has exactly its fields,
    in the declared order.  A member of a [StrEnum] passes as a string, unless the
    check is [strict]. *)
Fixpoint typed (strict : bool) (t : ftype) (v : pyval) {struct t} : bool :=
  match t with
  | TStr => match v with PStr _ => true | PEnum _ _ _ => negb strict | _ => false end
  | TInt => match v with PInt _ => true | _ => false end
  | TBool => match v with PBool _ => true | _ => false end
  | TEnum cls members =>
      match v with
      | PEnum c n s => String.eqb c cls && existsb (fun m => String.eqb m.1 n && String.eqb m.2 s) members
      | _ => false
      end
  | TTuple item => match v with PTuple l => forallb (typed strict item) l | _ => false end
  | TOption inner => match v with PNone => true | _ => typed strict inner v end
  | TData _ declared =>
      match v with
      | PDict d =>
          (fix typed_fields (declared : list (string * ftype)) (d : list (string * pyval)) : bool :=
             match declared, d with
             | [], [] => true
             | (name, t') :: declared', (k, w) :: d' =>
                 String.eqb k name && typed strict t' w && typed_fields declared' d'
             | _, _ => false
             end) declared d
      | _ => false
      end
  end.
Definition has_type : ftype -> pyval -> bool := typed false.
Definition exact_type : ftype -> pyval -> bool := typed true.

(** ** Classes *)

Class TypeHints (T : Type) := type_hints_ : ftype.
Definition type_hints (T : Type) `{TypeHints T} : ftype := type_hints_.

Class FromPy (T : Type) := from_py : pyval -> option T.

Class Faithful (T : Type) `{AsDict T, TypeHints T, FromPy T} := {
  from_asdict : forall x : T, from_py (asdict x) = Some x;
  asdict_typed : forall x : T, exact_type (type_hints T) (asdict x) = true;
  typed_from : forall v, has_type (type_hints T) v = true -> exists x : T, from_py v = Some x;
}.

#[export] Instance string_hints : TypeHints string := TStr.
#[export] Instance Z_hints : TypeHints Z := TInt.
#[export] Instance bool_hints : TypeHints bool := TBool.
#[export] Instance enum_hints {T} `{StrEnum T} : TypeHints T :=
  TEnum enum_class (map (fun m => (enum_name m, enum_value m)) enum_members).
#[export] Instance tuple_hints {T} `{TypeHints T} : TypeHints (list T) := TTuple (type_hints T).
#[export] Instance option_hints {T} `{TypeHints T} : TypeHints (option T) := TOption (type_hints T).

#[export] Instance string_from : FromPy string := as_str.
#[export] Instance Z_from : FromPy Z := fun v => match v with PInt z => Some z | _ => None end.
#[export] Instance bool_from : FromPy bool := fun v => match v with PBool b => Some b | _ => None end.
#[export] Instance enum_from {T} `{StrEnum T} : FromPy T := fun v =>
  match v with
  | PEnum _ n _ => List.find (fun m => String.eqb (enum_name m) n) enum_members
  | _ => None
  end.
#[export] Instance tuple_from {T} `{FromPy T} : FromPy (list T) := fun v =>
  match v with PTuple l => mapM from_py l | _ => None end.
#[export] Instance option_from {T} `{FromPy T} : FromPy (option T) := fun v =>
  match v with PNone => Some None | _ => Some <$> from_py v end.

Definition field {T} `{FromPy T} (name : string) (d : dict string pyval) : option T :=
  match dict_get d name with Some v => from_py v | None => None end.
Definition from_dict {T} (f : dict string pyval -> option T) (v : pyval) : option T :=
  match v with PDict d => f d | _ => None end.

(** ** The basic types are faithful *)

#[export] Instance string_faithful : Faithful string.
Proof.
  split; try reflexivity. intros [] H; try discriminate; simpl; eauto.
Qed.
#[export] Instance Z_faithful : Faithful Z.
Proof. split; try reflexivity. intros [] H; try discriminate. exists z. reflexivity. Qed.
#[export] Instance bool_faithful : Faithful bool.
Proof. split; try reflexivity. intros [] H; try discriminate. exists b. reflexivity. Qed.

(** An enum whose members have different names. *)
Lemma enum_faithful {T} `{StrEnum T} :
  (forall m : T, List.find (fun m' => String.eqb (enum_name m') (enum_name m)) enum_members = Some m) ->
  Faithful T.
Proof.
  intros Hfind. split.
  - intros x. apply Hfind.
  - intros x. unfold exact_type. simpl. rewrite String.eqb_refl. simpl. apply existsb_exists.
    exists (enum_name x, enum_value x). split; [|simpl; rewrite !String.eqb_refl; reflexivity].
    apply in_map_iff. exists x. split; [reflexivity|]. destruct (find_some _ _ (Hfind x)) as [Hin _]. exact Hin.
  - intros v Hv. unfold has_type in *. destruct v; try discriminate. simpl in Hv.
    apply andb_true_iff in Hv as [_ Hv]. apply existsb_exists in Hv as ([n s] & Hin & Hn).
    apply in_map_iff in Hin as (m & [= <- <-] & _). simpl in Hn.
    apply andb_true_iff in Hn as [Hn _]. apply String.eqb_eq in Hn as <-.
    exists m. apply Hfind.
Qed.

#[export] Instance WipeMethod_faithful : Faithful WipeMethod.
Proof. apply enum_faithful. intros []; reflexivity. Qed.
#[export] Instance CpuVendor_faithful : Faithful CpuVendor.
Proof. apply enum_faithful. intros []; reflexivity. Qed.
#[export] Instance GpuVendor_faithful : Faithful GpuVendor.
Proof. apply enum_faithful. intros []; reflexivity. Qed.
#[export] Instance GpuDriver_faithful : Faithful GpuDriver.
Proof. apply enum_faithful. intros []; reflexivity. Qed.
#[export] Instance FirewallPolicy_faithful : Faithful FirewallPolicy.
Proof. apply enum_faithful. intros []; reflexivity. Qed.
#[export] Instance Desktop_faithful : Faithful Desktop.
Proof. apply enum_faithful. intros []; reflexivity. Qed.
#[export] Instance BackupCategory_faithful : Faithful BackupCategory.
Proof. apply enum_faithful. intros []; reflexivity. Qed.

#[export] Instance tuple_faithful {T} `{Faithful T} : Faithful (list T).
Proof.
  split.
  - intros l. unfold from_py, tuple_from, asdict, asdict_tuple.
    induction l as [|x l IH]; [reflexivity|]. simpl. rewrite from_asdict. simpl. rewrite IH. reflexivity.
  - intros l. unfold exact_type, asdict, asdict_tuple. simpl. apply forallb_forall.
    intros v Hv. apply in_map_iff in Hv as (x & <- & _). apply asdict_typed.
  - intros v Hv. unfold has_type in *. destruct v; try discriminate. simpl in Hv. unfold from_py, tuple_from.
    induction l as [|w l IH]; [exists []; reflexivity|]. simpl in Hv.
    apply andb_true_iff in Hv as [Hw Hl]. destruct (typed_from w Hw) as [x Hx].
    destruct (IH Hl) as [xs Hxs]. exists (x :: xs). simpl. rewrite Hx. simpl. rewrite Hxs. reflexivity.
Qed.

(** A dataclass is never [None]. *)
Class NotNone (T : Type) `{AsDict T, TypeHints T} := {
  asdict_not_none : forall x : T, asdict x <> PNone }.

#[export] Instance option_faithful {T} `{Faithful T, !NotNone T} : Faithful (option T).
Proof.
  split.
  - intros [x|]; [|reflexivity]. unfold from_py, option_from, asdict, asdict_option.
    pose proof (asdict_not_none x) as Hn. pose proof (from_asdict x) as Hx.
    destruct (asdict x); try congruence; rewrite Hx; reflexivity.
  - intros [x|]; [|reflexivity]. unfold exact_type, asdict, asdict_option. simpl.
    pose proof (asdict_typed x) as Hx. destruct (asdict x); auto.
  - intros v Hv. unfold has_type in *. unfold from_py, option_from. simpl in Hv.
    destruct v; [exists None; reflexivity|..];
      destruct (typed_from _ Hv) as [x Hx]; exists (Some x); rewrite Hx; reflexivity.
Qed.

(** ** The dataclasses *)

Lemma typed_data strict cls declared v :
  typed strict (TData cls declared) v = true ->
  exists d, v = PDict d /\ Forall2 (fun nt kv => kv.1 = nt.1 /\ typed strict nt.2 kv.2 = true) declared d.
Proof.
  intros H. destruct v; try discriminate. exists d. split; [reflexivity|]. revert d H.
  induction declared as [|[n t] declared IH]; intros [|[k w] d] H; try discriminate; [constructor|].
  simpl in H. apply andb_true_iff in H as [H Hd]. apply andb_true_iff in H as [Hk Hw].
  apply String.eqb_eq in Hk. constructor; [auto|]. apply IH. exact Hd.
Qed.

Lemma typed_fields strict cls declared d :
  Forall2 (fun nt kv => kv.1 = nt.1 /\ typed strict nt.2 kv.2 = true) declared d ->
  typed strict (TData cls declared) (PDict d) = true.
Proof.
  induction 1 as [|[n t] [k w] declared d [Hk Hw] _ IH]; [reflexivity|]. simpl in *. subst.
  rewrite String.eqb_refl, Hw. exact IH.
Qed.

Lemma bind_field {T A} `{Faithful T} (d : dict string pyval) name v (f : T -> option A) :
  dict_get d name = Some v -> typed false (type_hints T) v = true ->
  exists x : T, field name d ≫= f = f x.
Proof.
  intros Hd Ht. destruct (typed_from v Ht) as [x Hx]. exists x.
  unfold field. rewrite Hd, Hx. reflexivity.
Qed.

Lemma bind_field_asdict {T A} `{Faithful T} (d : dict string pyval) name (x : T) (f : T -> option A) :
  dict_get d name = Some (asdict x) -> field name d ≫= f = f x.
Proof. intros Hd. unfold field. rewrite Hd, from_asdict. reflexivity. Qed.

(** The three laws of a record: [unf] unfolds its conversions. *)
Ltac record_from_asdict unf :=
  intros []; unf; unfold from_dict;
  repeat (erewrite bind_field_asdict; [|reflexivity]); reflexivity.
Ltac record_typed :=
  intros []; apply typed_fields; repeat constructor; apply asdict_typed.
Ltac record_typed_from unf :=
  let v := fresh in let H := fresh in
  intros v H; apply typed_data in H as (? & -> & H);
  repeat match goal with
  | H : Forall2 _ (_ :: _) ?d |- _ => inversion_clear H as [|? [? ?] ? ? [? ?] ?]
  end;
  match goal with H : Forall2 _ [] ?d |- _ => inversion_clear H end;
  cbn [fst snd] in *; subst; unf; unfold from_dict;
  repeat match goal with |- context [@field ?T _ ?n ?d ≫= ?f] =>
    destruct (bind_field (T:=T) d n _ f eq_refl ltac:(eassumption)) as [? ->]
  end;
  eauto.
Ltac faithful_record to from :=
  split;
  [ record_from_asdict ltac:(unfold asdict at 1, to; unfold from_py, from)
  | record_typed
  | record_typed_from ltac:(unfold from_py, from) ].

#[export] Instance UserConfig_hints : TypeHints UserConfig := TData "UserConfig" [
  ("name", type_hints string); ("groups", type_hints (list string))].

#[export] Instance UserConfig_from : FromPy UserConfig := from_dict (fun d =>
  user_name_ ← field "name" d; user_groups_ ← field "groups" d;
  Some {|
    user_name := user_name_; user_groups := user_groups_ |}).

#[export] Instance UserConfig_faithful : Faithful UserConfig.
Proof. faithful_record UserConfig_asdict UserConfig_from. Qed.

#[export] Instance LocaleConfig_hints : TypeHints LocaleConfig := TData "LocaleConfig" [
  ("language", type_hints string); ("encoding", type_hints string); ("keymap", type_hints string);
  ("monetary", type_hints string); ("time_format", type_hints string);
  ("numeric", type_hints string); ("paper", type_hints string)].

#[export] Instance LocaleConfig_from : FromPy LocaleConfig := from_dict (fun d =>
  locale_language_ ← field "language" d; locale_encoding_ ← field "encoding" d;
  locale_keymap_ ← field "keymap" d; locale_monetary_ ← field "monetary" d;
  locale_time_format_ ← field "time_format" d; locale_numeric_ ← field "numeric" d;
  locale_paper_ ← field "paper" d;
  Some {|
    locale_language := locale_language_; locale_encoding := locale_encoding_;
    locale_keymap := locale_keymap_; locale_monetary := locale_monetary_;
    locale_time_format := locale_time_format_; locale_numeric := locale_numeric_;
    locale_paper := locale_paper_ |}).

#[export] Instance LocaleConfig_faithful : Faithful LocaleConfig.
Proof. faithful_record LocaleConfig_asdict LocaleConfig_from. Qed.

#[export] Instance PacmanMirrorConfig_hints : TypeHints PacmanMirrorConfig := TData "PacmanMirrorConfig" [
  ("mirrors", type_hints (list string)); ("use_reflector", type_hints bool);
  ("reflector_countries", type_hints (list string))].

#[export] Instance PacmanMirrorConfig_from : FromPy PacmanMirrorConfig := from_dict (fun d =>
  mirrors_mirrors_ ← field "mirrors" d; mirrors_use_reflector_ ← field "use_reflector" d;
  mirrors_reflector_countries_ ← field "reflector_countries" d;
  Some {|
    mirrors_mirrors := mirrors_mirrors_; mirrors_use_reflector := mirrors_use_reflector_;
    mirrors_reflector_countries := mirrors_reflector_countries_ |}).

#[export] Instance PacmanMirrorConfig_faithful : Faithful PacmanMirrorConfig.
Proof. faithful_record PacmanMirrorConfig_asdict PacmanMirrorConfig_from. Qed.

#[export] Instance SystemConfig_hints : TypeHints SystemConfig := TData "SystemConfig" [
  ("hostname", type_hints string); ("timezone", type_hints string);
  ("locale", type_hints LocaleConfig); ("user", type_hints UserConfig);
  ("mirrors", type_hints PacmanMirrorConfig); ("cpu_vendor", type_hints CpuVendor)].

#[export] Instance SystemConfig_from : FromPy SystemConfig := from_dict (fun d =>
  system_hostname_ ← field "hostname" d; system_timezone_ ← field "timezone" d;
  system_locale_ ← field "locale" d; system_user_ ← field "user" d;
  system_mirrors_ ← field "mirrors" d; system_cpu_vendor_ ← field "cpu_vendor" d;
  Some {|
    system_hostname := system_hostname_; system_timezone := system_timezone_;
    system_locale := system_locale_; system_user := system_user_;
    system_mirrors := system_mirrors_; system_cpu_vendor := system_cpu_vendor_ |}).

#[export] Instance SystemConfig_faithful : Faithful SystemConfig.
Proof. faithful_record SystemConfig_asdict SystemConfig_from. Qed.

#[export] Instance LuksConfig_hints : TypeHints LuksConfig := TData "LuksConfig" [
  ("type", type_hints string); ("cipher", type_hints string); ("key_size", type_hints Z);
  ("hash", type_hints string); ("pbkdf", type_hints string); ("pbkdf_memory", type_hints Z);
  ("pbkdf_parallel", type_hints Z); ("pbkdf_time_ms", type_hints Z)].

#[export] Instance LuksConfig_from : FromPy LuksConfig := from_dict (fun d =>
  luks_type_ ← field "type" d; luks_cipher_ ← field "cipher" d;
  luks_key_size_ ← field "key_size" d; luks_hash_ ← field "hash" d; luks_pbkdf_ ← field "pbkdf" d;
  luks_pbkdf_memory_ ← field "pbkdf_memory" d; luks_pbkdf_parallel_ ← field "pbkdf_parallel" d;
  luks_pbkdf_time_ms_ ← field "pbkdf_time_ms" d;
  Some {|
    luks_type := luks_type_; luks_cipher := luks_cipher_; luks_key_size := luks_key_size_;
    luks_hash := luks_hash_; luks_pbkdf := luks_pbkdf_; luks_pbkdf_memory := luks_pbkdf_memory_;
    luks_pbkdf_parallel := luks_pbkdf_parallel_; luks_pbkdf_time_ms := luks_pbkdf_time_ms_ |}).

#[export] Instance LuksConfig_faithful : Faithful LuksConfig.
Proof. faithful_record LuksConfig_asdict LuksConfig_from. Qed.

#[export] Instance SubvolumeConfig_hints : TypeHints SubvolumeConfig := TData "SubvolumeConfig" [
  ("name", type_hints string); ("mountpoint", type_hints string); ("nocow", type_hints bool)].

#[export] Instance SubvolumeConfig_from : FromPy SubvolumeConfig := from_dict (fun d =>
  subvolume_name_ ← field "name" d; subvolume_mountpoint_ ← field "mountpoint" d;
  subvolume_nocow_ ← field "nocow" d;
  Some {|
    subvolume_name := subvolume_name_; subvolume_mountpoint := subvolume_mountpoint_;
    subvolume_nocow := subvolume_nocow_ |}).

#[export] Instance SubvolumeConfig_faithful : Faithful SubvolumeConfig.
Proof. faithful_record SubvolumeConfig_asdict SubvolumeConfig_from. Qed.

#[export] Instance BtrfsConfig_hints : TypeHints BtrfsConfig := TData "BtrfsConfig" [
  ("label", type_hints string); ("mount_options", type_hints string);
  ("subvolumes", type_hints (list SubvolumeConfig))].

#[export] Instance BtrfsConfig_from : FromPy BtrfsConfig := from_dict (fun d =>
  btrfs_label_ ← field "label" d; btrfs_mount_options_ ← field "mount_options" d;
  btrfs_subvolumes_ ← field "subvolumes" d;
  Some {|
    btrfs_label := btrfs_label_; btrfs_mount_options := btrfs_mount_options_;
    btrfs_subvolumes := btrfs_subvolumes_ |}).

#[export] Instance BtrfsConfig_faithful : Faithful BtrfsConfig.
Proof. faithful_record BtrfsConfig_asdict BtrfsConfig_from. Qed.

#[export] Instance SwapConfig_hints : TypeHints SwapConfig := TData "SwapConfig" [
  ("enabled", type_hints bool); ("size_mb", type_hints Z); ("path", type_hints string);
  ("hibernation", type_hints bool)].

#[export] Instance SwapConfig_from : FromPy SwapConfig := from_dict (fun d =>
  swap_enabled_ ← field "enabled" d; swap_size_mb_ ← field "size_mb" d;
  swap_path_ ← field "path" d; swap_hibernation_ ← field "hibernation" d;
  Some {|
    swap_enabled := swap_enabled_; swap_size_mb := swap_size_mb_; swap_path := swap_path_;
    swap_hibernation := swap_hibernation_ |}).

#[export] Instance SwapConfig_faithful : Faithful SwapConfig.
Proof. faithful_record SwapConfig_asdict SwapConfig_from. Qed.

#[export] Instance StorageConfig_hints : TypeHints StorageConfig := TData "StorageConfig" [
  ("target_disk", type_hints string); ("efi_size_mb", type_hints Z);
  ("wipe_method", type_hints WipeMethod); ("luks", type_hints LuksConfig);
  ("btrfs", type_hints BtrfsConfig); ("swap", type_hints SwapConfig)].

#[export] Instance StorageConfig_from : FromPy StorageConfig := from_dict (fun d =>
  storage_target_disk_ ← field "target_disk" d; storage_efi_size_mb_ ← field "efi_size_mb" d;
  storage_wipe_method_ ← field "wipe_method" d; storage_luks_ ← field "luks" d;
  storage_btrfs_ ← field "btrfs" d; storage_swap_ ← field "swap" d;
  Some {|
    storage_target_disk := storage_target_disk_; storage_efi_size_mb := storage_efi_size_mb_;
    storage_wipe_method := storage_wipe_method_; storage_luks := storage_luks_;
    storage_btrfs := storage_btrfs_; storage_swap := storage_swap_ |}).

#[export] Instance StorageConfig_faithful : Faithful StorageConfig.
Proof. faithful_record StorageConfig_asdict StorageConfig_from. Qed.

#[export] Instance KernelConfig_hints : TypeHints KernelConfig := TData "KernelConfig" [
  ("name", type_hints string); ("package", type_hints string)].

#[export] Instance KernelConfig_from : FromPy KernelConfig := from_dict (fun d =>
  kernel_name_ ← field "name" d; kernel_package_ ← field "package" d;
  Some {|
    kernel_name := kernel_name_; kernel_package := kernel_package_ |}).

#[export] Instance KernelConfig_faithful : Faithful KernelConfig.
Proof. faithful_record KernelConfig_asdict KernelConfig_from. Qed.

#[export] Instance UkiVariantConfig_hints : TypeHints UkiVariantConfig := TData "UkiVariantConfig" [
  ("suffix", type_hints string); ("params", type_hints string)].

#[export] Instance UkiVariantConfig_from : FromPy UkiVariantConfig := from_dict (fun d =>
  variant_suffix_ ← field "suffix" d; variant_params_ ← field "params" d;
  Some {|
    variant_suffix := variant_suffix_; variant_params := variant_params_ |}).

#[export] Instance UkiVariantConfig_faithful : Faithful UkiVariantConfig.
Proof. faithful_record UkiVariantConfig_asdict UkiVariantConfig_from. Qed.

#[export] Instance CmdlineHardeningConfig_hints : TypeHints CmdlineHardeningConfig := TData "CmdlineHardeningConfig" [
  ("lockdown", type_hints string); ("iommu", type_hints string);
  ("intel_iommu", type_hints string); ("amd_iommu", type_hints string);
  ("pti", type_hints string); ("spectre_v2", type_hints string);
  ("spec_store_bypass_disable", type_hints string); ("l1tf", type_hints string);
  ("mds", type_hints string); ("srbds", type_hints string);
  ("tsx_async_abort", type_hints string); ("init_on_alloc", type_hints Z);
  ("init_on_free", type_hints Z)].

#[export] Instance CmdlineHardeningConfig_from : FromPy CmdlineHardeningConfig := from_dict (fun d =>
  hardening_lockdown_ ← field "lockdown" d; hardening_iommu_ ← field "iommu" d;
  hardening_intel_iommu_ ← field "intel_iommu" d; hardening_amd_iommu_ ← field "amd_iommu" d;
  hardening_pti_ ← field "pti" d; hardening_spectre_v2_ ← field "spectre_v2" d;
  hardening_spec_store_bypass_disable_ ← field "spec_store_bypass_disable" d;
  hardening_l1tf_ ← field "l1tf" d; hardening_mds_ ← field "mds" d;
  hardening_srbds_ ← field "srbds" d; hardening_tsx_async_abort_ ← field "tsx_async_abort" d;
  hardening_init_on_alloc_ ← field "init_on_alloc" d;
  hardening_init_on_free_ ← field "init_on_free" d;
  Some {|
    hardening_lockdown := hardening_lockdown_; hardening_iommu := hardening_iommu_;
    hardening_intel_iommu := hardening_intel_iommu_; hardening_amd_iommu := hardening_amd_iommu_;
    hardening_pti := hardening_pti_; hardening_spectre_v2 := hardening_spectre_v2_;
    hardening_spec_store_bypass_disable := hardening_spec_store_bypass_disable_;
    hardening_l1tf := hardening_l1tf_; hardening_mds := hardening_mds_;
    hardening_srbds := hardening_srbds_; hardening_tsx_async_abort := hardening_tsx_async_abort_;
    hardening_init_on_alloc := hardening_init_on_alloc_;
    hardening_init_on_free := hardening_init_on_free_ |}).

#[export] Instance CmdlineHardeningConfig_faithful : Faithful CmdlineHardeningConfig.
Proof. faithful_record CmdlineHardeningConfig_asdict CmdlineHardeningConfig_from. Qed.

#[export] Instance CmdlineConfig_hints : TypeHints CmdlineConfig := TData "CmdlineConfig" [
  ("rootflags", type_hints string); ("rootfstype", type_hints string); ("rw", type_hints bool);
  ("quiet", type_hints bool); ("hardening", type_hints CmdlineHardeningConfig)].

#[export] Instance CmdlineConfig_from : FromPy CmdlineConfig := from_dict (fun d =>
  cmdline_rootflags_ ← field "rootflags" d; cmdline_rootfstype_ ← field "rootfstype" d;
  cmdline_rw_ ← field "rw" d; cmdline_quiet_ ← field "quiet" d;
  cmdline_hardening_ ← field "hardening" d;
  Some {|
    cmdline_rootflags := cmdline_rootflags_; cmdline_rootfstype := cmdline_rootfstype_;
    cmdline_rw := cmdline_rw_; cmdline_quiet := cmdline_quiet_;
    cmdline_hardening := cmdline_hardening_ |}).

#[export] Instance CmdlineConfig_faithful : Faithful CmdlineConfig.
Proof. faithful_record CmdlineConfig_asdict CmdlineConfig_from. Qed.

#[export] Instance LoaderConfig_hints : TypeHints LoaderConfig := TData "LoaderConfig" [
  ("timeout", type_hints Z); ("console_mode", type_hints string); ("editor", type_hints bool)].

#[export] Instance LoaderConfig_from : FromPy LoaderConfig := from_dict (fun d =>
  loader_timeout_ ← field "timeout" d; loader_console_mode_ ← field "console_mode" d;
  loader_editor_ ← field "editor" d;
  Some {|
    loader_timeout := loader_timeout_; loader_console_mode := loader_console_mode_;
    loader_editor := loader_editor_ |}).

#[export] Instance LoaderConfig_faithful : Faithful LoaderConfig.
Proof. faithful_record LoaderConfig_asdict LoaderConfig_from. Qed.

#[export] Instance SecureBootConfig_hints : TypeHints SecureBootConfig := TData "SecureBootConfig" [
  ("enroll_keys", type_hints bool); ("include_microsoft_keys", type_hints bool)].

#[export] Instance SecureBootConfig_from : FromPy SecureBootConfig := from_dict (fun d =>
  secure_boot_enroll_keys_ ← field "enroll_keys" d;
  secure_boot_include_microsoft_keys_ ← field "include_microsoft_keys" d;
  Some {|
    secure_boot_enroll_keys := secure_boot_enroll_keys_;
    secure_boot_include_microsoft_keys := secure_boot_include_microsoft_keys_ |}).

#[export] Instance SecureBootConfig_faithful : Faithful SecureBootConfig.
Proof. faithful_record SecureBootConfig_asdict SecureBootConfig_from. Qed.

#[export] Instance BootConfig_hints : TypeHints BootConfig := TData "BootConfig" [
  ("kernels", type_hints (list KernelConfig)); ("selected_kernels", type_hints (list string));
  ("variants", type_hints (list UkiVariantConfig)); ("cmdline", type_hints CmdlineConfig);
  ("loader", type_hints LoaderConfig); ("hooks", type_hints (list string));
  ("secure_boot", type_hints SecureBootConfig); ("enable_snapshot_boot", type_hints bool)].

#[export] Instance BootConfig_from : FromPy BootConfig := from_dict (fun d =>
  boot_kernels_ ← field "kernels" d; boot_selected_kernels_ ← field "selected_kernels" d;
  boot_variants_ ← field "variants" d; boot_cmdline_ ← field "cmdline" d;
  boot_loader_ ← field "loader" d; boot_hooks_ ← field "hooks" d;
  boot_secure_boot_ ← field "secure_boot" d;
  boot_enable_snapshot_boot_ ← field "enable_snapshot_boot" d;
  Some {|
    boot_kernels := boot_kernels_; boot_selected_kernels := boot_selected_kernels_;
    boot_variants := boot_variants_; boot_cmdline := boot_cmdline_; boot_loader := boot_loader_;
    boot_hooks := boot_hooks_; boot_secure_boot := boot_secure_boot_;
    boot_enable_snapshot_boot := boot_enable_snapshot_boot_ |}).

#[export] Instance BootConfig_faithful : Faithful BootConfig.
Proof. faithful_record BootConfig_asdict BootConfig_from. Qed.

#[export] Instance DesktopPackages_hints : TypeHints DesktopPackages := TData "DesktopPackages" [
  ("kde", type_hints (list string)); ("gnome", type_hints (list string));
  ("hyprland", type_hints (list string))].

#[export] Instance DesktopPackages_from : FromPy DesktopPackages := from_dict (fun d =>
  desktops_kde_ ← field "kde" d; desktops_gnome_ ← field "gnome" d;
  desktops_hyprland_ ← field "hyprland" d;
  Some {|
    desktops_kde := desktops_kde_; desktops_gnome := desktops_gnome_;
    desktops_hyprland := desktops_hyprland_ |}).

#[export] Instance DesktopPackages_faithful : Faithful DesktopPackages.
Proof. faithful_record DesktopPackages_asdict DesktopPackages_from. Qed.

#[export] Instance PackagesConfig_hints : TypeHints PackagesConfig := TData "PackagesConfig" [
  ("base", type_hints (list string)); ("desktops", type_hints DesktopPackages);
  ("selected_desktops", type_hints (list Desktop)); ("display_manager", type_hints (list string));
  ("cataloged", type_hints (list string))].

#[export] Instance PackagesConfig_from : FromPy PackagesConfig := from_dict (fun d =>
  packages_base_ ← field "base" d; packages_desktops_ ← field "desktops" d;
  packages_selected_desktops_ ← field "selected_desktops" d;
  packages_display_manager_ ← field "display_manager" d;
  packages_cataloged_ ← field "cataloged" d;
  Some {|
    packages_base := packages_base_; packages_desktops := packages_desktops_;
    packages_selected_desktops := packages_selected_desktops_;
    packages_display_manager := packages_display_manager_;
    packages_cataloged := packages_cataloged_ |}).

#[export] Instance PackagesConfig_faithful : Faithful PackagesConfig.
Proof. faithful_record PackagesConfig_asdict PackagesConfig_from. Qed.

#[export] Instance GpuDriverPackages_hints : TypeHints GpuDriverPackages := TData "GpuDriverPackages" [
  ("amd", type_hints (list string)); ("intel", type_hints (list string));
  ("nouveau", type_hints (list string)); ("nvidia_dkms", type_hints (list string));
  ("nvidia_open", type_hints (list string))].

#[export] Instance GpuDriverPackages_from : FromPy GpuDriverPackages := from_dict (fun d =>
  drivers_amd_ ← field "amd" d; drivers_intel_ ← field "intel" d;
  drivers_nouveau_ ← field "nouveau" d; drivers_nvidia_dkms_ ← field "nvidia_dkms" d;
  drivers_nvidia_open_ ← field "nvidia_open" d;
  Some {|
    drivers_amd := drivers_amd_; drivers_intel := drivers_intel_;
    drivers_nouveau := drivers_nouveau_; drivers_nvidia_dkms := drivers_nvidia_dkms_;
    drivers_nvidia_open := drivers_nvidia_open_ |}).

#[export] Instance GpuDriverPackages_faithful : Faithful GpuDriverPackages.
Proof. faithful_record GpuDriverPackages_asdict GpuDriverPackages_from. Qed.

#[export] Instance GpuConfig_hints : TypeHints GpuConfig := TData "GpuConfig" [
  ("vendor", type_hints GpuVendor); ("driver", type_hints GpuDriver);
  ("drivers", type_hints GpuDriverPackages)].

#[export] Instance GpuConfig_from : FromPy GpuConfig := from_dict (fun d =>
  gpu_vendor_ ← field "vendor" d; gpu_driver_ ← field "driver" d;
  gpu_drivers_ ← field "drivers" d;
  Some {|
    gpu_vendor := gpu_vendor_; gpu_driver := gpu_driver_; gpu_drivers := gpu_drivers_ |}).

#[export] Instance GpuConfig_faithful : Faithful GpuConfig.
Proof. faithful_record GpuConfig_asdict GpuConfig_from. Qed.

#[export] Instance SnapshotRetention_hints : TypeHints SnapshotRetention := TData "SnapshotRetention" [
  ("hourly", type_hints Z); ("daily", type_hints Z); ("weekly", type_hints Z);
  ("monthly", type_hints Z); ("yearly", type_hints Z)].

#[export] Instance SnapshotRetention_from : FromPy SnapshotRetention := from_dict (fun d =>
  retention_hourly_ ← field "hourly" d; retention_daily_ ← field "daily" d;
  retention_weekly_ ← field "weekly" d; retention_monthly_ ← field "monthly" d;
  retention_yearly_ ← field "yearly" d;
  Some {|
    retention_hourly := retention_hourly_; retention_daily := retention_daily_;
    retention_weekly := retention_weekly_; retention_monthly := retention_monthly_;
    retention_yearly := retention_yearly_ |}).

#[export] Instance SnapshotRetention_faithful : Faithful SnapshotRetention.
Proof. faithful_record SnapshotRetention_asdict SnapshotRetention_from. Qed.

#[export] Instance SnapperVolumeConfig_hints : TypeHints SnapperVolumeConfig := TData "SnapperVolumeConfig" [
  ("subvolume", type_hints string); ("snapshots_subvolume", type_hints string);
  ("snapshots_path", type_hints string); ("timeline", type_hints bool);
  ("cleanup", type_hints bool); ("number_limit", type_hints Z);
  ("number_limit_important", type_hints Z); ("retention", type_hints SnapshotRetention)].

#[export] Instance SnapperVolumeConfig_from : FromPy SnapperVolumeConfig := from_dict (fun d =>
  volume_subvolume_ ← field "subvolume" d;
  volume_snapshots_subvolume_ ← field "snapshots_subvolume" d;
  volume_snapshots_path_ ← field "snapshots_path" d; volume_timeline_ ← field "timeline" d;
  volume_cleanup_ ← field "cleanup" d; volume_number_limit_ ← field "number_limit" d;
  volume_number_limit_important_ ← field "number_limit_important" d;
  volume_retention_ ← field "retention" d;
  Some {|
    volume_subvolume := volume_subvolume_;
    volume_snapshots_subvolume := volume_snapshots_subvolume_;
    volume_snapshots_path := volume_snapshots_path_; volume_timeline := volume_timeline_;
    volume_cleanup := volume_cleanup_; volume_number_limit := volume_number_limit_;
    volume_number_limit_important := volume_number_limit_important_;
    volume_retention := volume_retention_ |}).

#[export] Instance SnapperVolumeConfig_faithful : Faithful SnapperVolumeConfig.
Proof. faithful_record SnapperVolumeConfig_asdict SnapperVolumeConfig_from. Qed.
#[export] Instance SnapperVolumeConfig_not_none : NotNone SnapperVolumeConfig.
Proof. split. discriminate. Qed.

#[export] Instance SnapperConfig_hints : TypeHints SnapperConfig := TData "SnapperConfig" [
  ("enabled", type_hints bool); ("allow_groups", type_hints (list string));
  ("root", type_hints (option SnapperVolumeConfig));
  ("home", type_hints (option SnapperVolumeConfig)); ("snap_pac", type_hints bool);
  ("bootable_snapshot_count", type_hints Z)].

#[export] Instance SnapperConfig_from : FromPy SnapperConfig := from_dict (fun d =>
  snapper_enabled_ ← field "enabled" d; snapper_allow_groups_ ← field "allow_groups" d;
  snapper_root_ ← field "root" d; snapper_home_ ← field "home" d;
  snapper_snap_pac_ ← field "snap_pac" d;
  snapper_bootable_snapshot_count_ ← field "bootable_snapshot_count" d;
  Some {|
    snapper_enabled := snapper_enabled_; snapper_allow_groups := snapper_allow_groups_;
    snapper_root := snapper_root_; snapper_home := snapper_home_;
    snapper_snap_pac := snapper_snap_pac_;
    snapper_bootable_snapshot_count := snapper_bootable_snapshot_count_ |}).

#[export] Instance SnapperConfig_faithful : Faithful SnapperConfig.
Proof. faithful_record SnapperConfig_asdict SnapperConfig_from. Qed.

#[export] Instance NotificationsConfig_hints : TypeHints NotificationsConfig := TData "NotificationsConfig" [
  ("enabled", type_hints bool)].

#[export] Instance NotificationsConfig_from : FromPy NotificationsConfig := from_dict (fun d =>
  notifications_enabled_ ← field "enabled" d;
  Some {|
    notifications_enabled := notifications_enabled_ |}).

#[export] Instance NotificationsConfig_faithful : Faithful NotificationsConfig.
Proof. faithful_record NotificationsConfig_asdict NotificationsConfig_from. Qed.

#[export] Instance FirewallSshConfig_hints : TypeHints FirewallSshConfig := TData "FirewallSshConfig" [
  ("enabled", type_hints bool); ("port", type_hints Z); ("allowed_from", type_hints string)].

#[export] Instance FirewallSshConfig_from : FromPy FirewallSshConfig := from_dict (fun d =>
  ssh_enabled_ ← field "enabled" d; ssh_port_ ← field "port" d;
  ssh_allowed_from_ ← field "allowed_from" d;
  Some {|
    ssh_enabled := ssh_enabled_; ssh_port := ssh_port_; ssh_allowed_from := ssh_allowed_from_ |}).

#[export] Instance FirewallSshConfig_faithful : Faithful FirewallSshConfig.
Proof. faithful_record FirewallSshConfig_asdict FirewallSshConfig_from. Qed.

#[export] Instance FirewallAllowRule_hints : TypeHints FirewallAllowRule := TData "FirewallAllowRule" [
  ("port", type_hints Z); ("protocol", type_hints string)].

#[export] Instance FirewallAllowRule_from : FromPy FirewallAllowRule := from_dict (fun d =>
  rule_port_ ← field "port" d; rule_protocol_ ← field "protocol" d;
  Some {|
    rule_port := rule_port_; rule_protocol := rule_protocol_ |}).

#[export] Instance FirewallAllowRule_faithful : Faithful FirewallAllowRule.
Proof. faithful_record FirewallAllowRule_asdict FirewallAllowRule_from. Qed.

#[export] Instance FirewallConfig_hints : TypeHints FirewallConfig := TData "FirewallConfig" [
  ("enabled", type_hints bool); ("default_incoming", type_hints FirewallPolicy);
  ("default_outgoing", type_hints FirewallPolicy); ("logging", type_hints bool);
  ("block_icmp", type_hints bool); ("ssh", type_hints FirewallSshConfig);
  ("allow_rules", type_hints (list FirewallAllowRule))].

#[export] Instance FirewallConfig_from : FromPy FirewallConfig := from_dict (fun d =>
  firewall_enabled_ ← field "enabled" d; firewall_default_incoming_ ← field "default_incoming" d;
  firewall_default_outgoing_ ← field "default_outgoing" d; firewall_logging_ ← field "logging" d;
  firewall_block_icmp_ ← field "block_icmp" d; firewall_ssh_ ← field "ssh" d;
  firewall_allow_rules_ ← field "allow_rules" d;
  Some {|
    firewall_enabled := firewall_enabled_;
    firewall_default_incoming := firewall_default_incoming_;
    firewall_default_outgoing := firewall_default_outgoing_;
    firewall_logging := firewall_logging_; firewall_block_icmp := firewall_block_icmp_;
    firewall_ssh := firewall_ssh_; firewall_allow_rules := firewall_allow_rules_ |}).

#[export] Instance FirewallConfig_faithful : Faithful FirewallConfig.
Proof. faithful_record FirewallConfig_asdict FirewallConfig_from. Qed.

#[export] Instance DockerConfig_hints : TypeHints DockerConfig := TData "DockerConfig" [
  ("enabled", type_hints bool); ("storage_driver", type_hints string);
  ("data_root", type_hints string); ("access_group", type_hints string)].

#[export] Instance DockerConfig_from : FromPy DockerConfig := from_dict (fun d =>
  docker_enabled_ ← field "enabled" d; docker_storage_driver_ ← field "storage_driver" d;
  docker_data_root_ ← field "data_root" d; docker_access_group_ ← field "access_group" d;
  Some {|
    docker_enabled := docker_enabled_; docker_storage_driver := docker_storage_driver_;
    docker_data_root := docker_data_root_; docker_access_group := docker_access_group_ |}).

#[export] Instance DockerConfig_faithful : Faithful DockerConfig.
Proof. faithful_record DockerConfig_asdict DockerConfig_from. Qed.

#[export] Instance BackupItemConfig_hints : TypeHints BackupItemConfig := TData "BackupItemConfig" [
  ("name", type_hints string); ("source_path", type_hints string);
  ("description", type_hints string)].

#[export] Instance BackupItemConfig_from : FromPy BackupItemConfig := from_dict (fun d =>
  item_name_ ← field "name" d; item_source_path_ ← field "source_path" d;
  item_description_ ← field "description" d;
  Some {|
    item_name := item_name_; item_source_path := item_source_path_;
    item_description := item_description_ |}).

#[export] Instance BackupItemConfig_faithful : Faithful BackupItemConfig.
Proof. faithful_record BackupItemConfig_asdict BackupItemConfig_from. Qed.

#[export] Instance SyncConfig_hints : TypeHints SyncConfig := TData "SyncConfig" [
  ("backup_partition", type_hints string); ("backup_items", type_hints (list BackupItemConfig));
  ("backup_categories", type_hints (list BackupCategory))].

#[export] Instance SyncConfig_from : FromPy SyncConfig := from_dict (fun d =>
  sync_backup_partition_ ← field "backup_partition" d;
  sync_backup_items_ ← field "backup_items" d;
  sync_backup_categories_ ← field "backup_categories" d;
  Some {|
    sync_backup_partition := sync_backup_partition_; sync_backup_items := sync_backup_items_;
    sync_backup_categories := sync_backup_categories_ |}).

#[export] Instance SyncConfig_faithful : Faithful SyncConfig.
Proof. faithful_record SyncConfig_asdict SyncConfig_from. Qed.

#[export] Instance MigrationConfig_hints : TypeHints MigrationConfig := TData "MigrationConfig" [
  ("enabled", type_hints bool); ("preserve_home", type_hints bool);
  ("preserve_secure_boot_keys", type_hints bool); ("additional_paths", type_hints (list string))].

#[export] Instance MigrationConfig_from : FromPy MigrationConfig := from_dict (fun d =>
  migration_enabled_ ← field "enabled" d; migration_preserve_home_ ← field "preserve_home" d;
  migration_preserve_secure_boot_keys_ ← field "preserve_secure_boot_keys" d;
  migration_additional_paths_ ← field "additional_paths" d;
  Some {|
    migration_enabled := migration_enabled_; migration_preserve_home := migration_preserve_home_;
    migration_preserve_secure_boot_keys := migration_preserve_secure_boot_keys_;
    migration_additional_paths := migration_additional_paths_ |}).

#[export] Instance MigrationConfig_faithful : Faithful MigrationConfig.
Proof. faithful_record MigrationConfig_asdict MigrationConfig_from. Qed.

#[export] Instance UsbBootConfig_hints : TypeHints UsbBootConfig := TData "UsbBootConfig" [
  ("enabled", type_hints bool); ("device", type_hints string);
  ("recovery_system", type_hints bool); ("iso_path", type_hints string)].

#[export] Instance UsbBootConfig_from : FromPy UsbBootConfig := from_dict (fun d =>
  usb_boot_enabled_ ← field "enabled" d; usb_boot_device_ ← field "device" d;
  usb_boot_recovery_system_ ← field "recovery_system" d; usb_boot_iso_path_ ← field "iso_path" d;
  Some {|
    usb_boot_enabled := usb_boot_enabled_; usb_boot_device := usb_boot_device_;
    usb_boot_recovery_system := usb_boot_recovery_system_; usb_boot_iso_path := usb_boot_iso_path_ |}).

#[export] Instance UsbBootConfig_faithful : Faithful UsbBootConfig.
Proof. faithful_record UsbBootConfig_asdict UsbBootConfig_from. Qed.

#[export] Instance EncryptedSecretsConfig_hints : TypeHints EncryptedSecretsConfig := TData "EncryptedSecretsConfig" [
  ("luks_password_encrypted", type_hints string); ("user_password_encrypted", type_hints string)].

#[export] Instance EncryptedSecretsConfig_from : FromPy EncryptedSecretsConfig := from_dict (fun d =>
  luks_password_encrypted_ ← field "luks_password_encrypted" d;
  user_password_encrypted_ ← field "user_password_encrypted" d;
  Some {|
    luks_password_encrypted := luks_password_encrypted_;
    user_password_encrypted := user_password_encrypted_ |}).

#[export] Instance EncryptedSecretsConfig_faithful : Faithful EncryptedSecretsConfig.
Proof. faithful_record EncryptedSecretsConfig_asdict EncryptedSecretsConfig_from. Qed.

#[export] Instance Credentials_hints : TypeHints Credentials := TData "Credentials" [
  ("luks_password", type_hints string); ("user_password", type_hints string);
  ("source_luks_password", type_hints string)].

#[export] Instance Credentials_from : FromPy Credentials := from_dict (fun d =>
  luks_password_ ← field "luks_password" d; user_password_ ← field "user_password" d;
  source_luks_password_ ← field "source_luks_password" d;
  Some {|
    luks_password := luks_password_; user_password := user_password_;
    source_luks_password := source_luks_password_ |}).

#[export] Instance Credentials_faithful : Faithful Credentials.
Proof. faithful_record Credentials_asdict Credentials_from. Qed.

#[export] Instance InstallerConfig_hints : TypeHints InstallerConfig := TData "InstallerConfig" [
  ("system", type_hints SystemConfig); ("packages", type_hints PackagesConfig);
  ("storage", type_hints StorageConfig); ("boot", type_hints BootConfig);
  ("gpu", type_hints GpuConfig); ("snapper", type_hints SnapperConfig);
  ("firewall", type_hints FirewallConfig); ("docker", type_hints DockerConfig);
  ("notifications", type_hints NotificationsConfig); ("sync", type_hints SyncConfig);
  ("migration", type_hints MigrationConfig); ("usb_boot", type_hints UsbBootConfig);
  ("secrets", type_hints EncryptedSecretsConfig); ("credentials", type_hints Credentials)].

#[export] Instance InstallerConfig_from : FromPy InstallerConfig := from_dict (fun d =>
  cfg_system_ ← field "system" d; cfg_packages_ ← field "packages" d;
  cfg_storage_ ← field "storage" d; cfg_boot_ ← field "boot" d; cfg_gpu_ ← field "gpu" d;
  cfg_snapper_ ← field "snapper" d; cfg_firewall_ ← field "firewall" d;
  cfg_docker_ ← field "docker" d; cfg_notifications_ ← field "notifications" d;
  cfg_sync_ ← field "sync" d; cfg_migration_ ← field "migration" d;
  cfg_usb_boot_ ← field "usb_boot" d; cfg_secrets_ ← field "secrets" d;
  cfg_credentials_ ← field "credentials" d;
  Some {|
    cfg_system := cfg_system_; cfg_packages := cfg_packages_; cfg_storage := cfg_storage_;
    cfg_boot := cfg_boot_; cfg_gpu := cfg_gpu_; cfg_snapper := cfg_snapper_;
    cfg_firewall := cfg_firewall_; cfg_docker := cfg_docker_;
    cfg_notifications := cfg_notifications_; cfg_sync := cfg_sync_;
    cfg_migration := cfg_migration_; cfg_usb_boot := cfg_usb_boot_; cfg_secrets := cfg_secrets_;
    cfg_credentials := cfg_credentials_ |}).

#[export] Instance InstallerConfig_faithful : Faithful InstallerConfig.
Proof. faithful_record InstallerConfig_asdict InstallerConfig_from. Qed.
