(* ===== verification/ConfigBuilder.v ===== *)
(** * Building the configuration ([config/installer_config_builder.py])

    Setting values addressed by dotted path become the typed configuration.
    Unknown keys and values of the wrong type are refused with their path; what
    no source provided is collected and reported together. *)

From S2P Require Import Prelude PyStr PyVal Models Export Schema Samples.

Local Open Scope outcome_scope.

Definition CREDENTIAL_PATHS : list string :=
  ["credentials.luks_password"; "credentials.user_password"; "credentials.source_luks_password"].

Definition TRUE_WORDS : list string := ["true"; "1"; "yes"].
Definition FALSE_WORDS : list string := ["false"; "0"; "no"].

Definition InstallerConfig_type : ftype := type_hints InstallerConfig.

(** [setting_type]; an undeclared name would be a [KeyError]. *)
Fixpoint type_at (names : list string) (t : ftype) : option ftype :=
  match names with
  | [] => Some t
  | name :: names' =>
      match t with
      | TData _ declared => match dict_get declared name with Some t' => type_at names' t' | None => None end
      | _ => None
      end
  end.
Definition setting_type (setting_path : string) : option ftype :=
  type_at (split_on "." setting_path) InstallerConfig_type.

(** ** [_convert] and [_build_section]

    The result is the converted value with the paths of the settings that were
    missing in it, in the order the code appends them.  A dataclass is the
    dictionary of its fields; a section with a missing field is [None]. *)

Definition conversion := outcome (pyval * list string).

Definition type_error (path problem : string) : exn := ConfigurationError (path +:+ problem).

(** [expected_type(value)]: the member whose value is the text. *)
Definition enum_member (cls : string) (members : list (string * string)) (v : pyval) : option pyval :=
  let text := match v with PNone => Some "" | _ => as_str v end in
  match text with
  | Some s =>
      match List.find (fun m => String.eqb m.2 s) members with
      | Some (n, s') => Some (PEnum cls n s')
      | None => None
      end
  | None => None
  end.

Definition setting_path_of (path name : string) : string :=
  if truthy path then path +:+ "." +:+ name else name.

(** [sorted(set(raw) - set(declared))] *)
Definition unknown_keys (raw : dict string pyval) (declared : list string) : list string :=
  sorted (List.filter (fun k => negb (str_in k declared)) (dedup (dict_keys raw))).

Definition unknown_keys_error (location : string) (unknown : list string) : exn :=
  ConfigurationError ("Unknown configuration key(s)" +:+
    (if truthy location then " in " +:+ location else "") +:+ ": " +:+ join ", " unknown).

Fixpoint convert (expected_type : ftype) (value : pyval) (path : string) {struct expected_type}
    : conversion :=
  match expected_type with
  | TOption inner =>
      match value with PNone => Ok (PNone, []) | _ => convert inner value path end
  | TTuple item_type =>
      let convert_items := fix convert_items (index : nat) (items : list pyval)
          : outcome (list pyval * list string) :=
        match items with
        | [] => Ok ([], [])
        | item :: items' =>
            let? (w, missing) := convert item_type item (path +:+ "[" +:+ str_of_nat index +:+ "]") in
            let? (ws, missing') := convert_items (S index) items' in
            Ok (w :: ws, missing ++ missing')
        end in
      match value with
      | PNone => Ok (PTuple [], [])
      | PList l | PTuple l => let? (ws, missing) := convert_items 0%nat l in Ok (PTuple ws, missing)
      | _ => Err (type_error path " must be a list")
      end
  | TData _ declared =>
      let convert_fields := fix convert_fields (declared : list (string * ftype)) (raw : dict string pyval)
          : outcome (list (string * pyval) * list string) :=
        match declared with
        | [] => Ok ([], [])
        | (name, t) :: declared' =>
            let setting_path := setting_path_of path name in
            match dict_get raw name with
            | None =>
                let? (arguments, missing) := convert_fields declared' raw in
                Ok (arguments, setting_path :: missing)
            | Some v =>
                let? (w, missing) := convert t v setting_path in
                let? (arguments, missing') := convert_fields declared' raw in
                Ok ((name, w) :: arguments, missing ++ missing')
            end
        end in
      match value with
      | PDict raw =>
          match unknown_keys raw (dict_keys declared) with
          | [] =>
              let? (arguments, missing) := convert_fields declared raw in
              Ok (if (length arguments <? length declared)%nat then PNone else PDict arguments, missing)
          | unknown => Err (unknown_keys_error path unknown)
          end
      | _ => Err (type_error (str_or path "configuration") " must be a mapping")
      end
  | TEnum cls members =>
      match enum_member cls members value with
      | Some member => Ok (member, [])
      | None => Err (type_error path (": " +:+ py_repr value +:+ " is not one of " +:+
                      join ", " (map (fun m => repr_str m.2) members)))
      end
  | TInt =>
      match value with
      | PInt _ => Ok (value, [])
      | _ => Err (type_error path (" must be an integer, got " +:+ py_repr value))
      end
  | TBool =>
      match value with
      | PBool _ => Ok (value, [])
      | _ => Err (type_error path (" must be true or false, got " +:+ py_repr value))
      end
  | TStr =>
      match value with
      | PNone => Ok (PStr "", [])
      | PStr _ | PEnum _ _ _ => Ok (value, [])
      | _ => Err (type_error path (" must be a string, got " +:+ py_repr value +:+ " (quote it)"))
      end
  end.

(** ** [_nested]: paths to nested dictionaries *)

Fixpoint nested_set (setting_path : string) (names : list string) (value : pyval)
    (section : dict string pyval) : outcome (dict string pyval) :=
  match names with
  | [] => Ok section
  | [name] => Ok (dict_set section name value)
  | section_name :: names' =>
      match default (PDict []) (dict_get section section_name) with
      | PDict inner =>
          let? inner' := nested_set setting_path names' value inner in
          Ok (dict_set section section_name (PDict inner'))
      | _ => Err (ConfigurationError (setting_path +:+ " is inside a setting that is a value"))
      end
  end.

Fixpoint nested_from (acc values : dict string pyval) : outcome (dict string pyval) :=
  match values with
  | [] => Ok acc
  | (setting_path, value) :: values' =>
      let? acc' := nested_set setting_path (split_on "." setting_path) value acc in
      nested_from acc' values'
  end.
Definition nested (values : dict string pyval) : outcome (dict string pyval) := nested_from [] values.

(** ** [build_installer_config] *)

Definition with_empty_credentials (values : dict string pyval) : dict string pyval :=
  dict_update (map (fun path => (path, PStr "")) CREDENTIAL_PATHS) values.

(** The last error cannot happen, see [build_installer_config_sound]. *)
Definition build_installer_config (values : dict string pyval) : outcome InstallerConfig :=
  let? raw := nested (with_empty_credentials values) in
  let? (converted, missing) := convert InstallerConfig_type (PDict raw) "" in
  match missing with
  | [] =>
      match from_py converted with
      | Some config => Ok config
      | None => Err (TypeError "InstallerConfig")
      end
  | _ => Err (MissingSettingsError missing)
  end.

(** ** [read_setting_text]: text from environment variables *)

Definition one_of_words (words : list string) (text : string) : bool := str_in (lower text) words.

Fixpoint from_text (expected_type : ftype) (text label : string) {struct expected_type} : outcome pyval :=
  match expected_type with
  | TTuple item_type =>
      let items := List.filter truthy (map strip (split_on "," text)) in
      let? values := omapM (fun item => from_text item_type item label) items in
      Ok (PTuple values)
  | TBool =>
      if one_of_words TRUE_WORDS text then Ok (PBool true)
      else if one_of_words FALSE_WORDS text then Ok (PBool false)
      else Err (type_error label (" must be true or false, got " +:+ repr_str text))
  | TInt =>
      if negb (isdigit text)
      then Err (type_error label (" must be a whole number, got " +:+ repr_str text))
      else let? n := int_of_digits text in Ok (PInt n)
  | TEnum _ _ => let? (member, _) := convert expected_type (PStr (lower text)) label in Ok member
  | _ => Ok (PStr text)
  end.

(** A path that is not declared would be a [KeyError]; the registry has none. *)
Definition read_setting_text (setting_path text origin : string) : outcome pyval :=
  match setting_type setting_path with
  | Some t => from_text t text (origin +:+ " (" +:+ setting_path +:+ ")")
  | None => Err (TypeError setting_path)
  end.

(** ** The converted value has its type *)

Lemma convert_items_ok item_type path :
  (forall v p w, convert item_type v p = Ok (w, []) -> has_type item_type w = true) ->
  forall items ws index,
  (fix convert_items (index : nat) (items : list pyval) : outcome (list pyval * list string) :=
     match items with
     | [] => Ok ([], [])
     | item :: items' =>
         let? (w, missing) := convert item_type item (path +:+ "[" +:+ str_of_nat index +:+ "]") in
         let? (ws, missing') := convert_items (S index) items' in
         Ok (w :: ws, missing ++ missing')
     end) index items = Ok (ws, []) ->
  forallb (has_type item_type) ws = true.
Proof.
  intros IH. induction items as [|item items IHi]; intros ws index H.
  - injection H as <-. reflexivity.
  - apply obind_ok in H as ([w m] & Hw & H). apply obind_ok in H as ([ws' m'] & Hws & [= <- Hm]).
    apply app_eq_nil in Hm as [-> ->]. simpl. rewrite (IH _ _ _ Hw). exact (IHi _ _ Hws).
Qed.

Theorem convert_typed t v path w : convert t v path = Ok (w, []) -> has_type t w = true.
Proof.
  revert v path w. induction t as [| | |cls members|t IH|t IH|cls declared IH] using ftype_ind';
    intros v path w H; simpl in H.
  - destruct v; try discriminate; injection H as <-; reflexivity.
  - destruct v; try discriminate; injection H as <-; reflexivity.
  - destruct v; try discriminate; injection H as <-; reflexivity.
  - unfold enum_member in H.
    destruct (match v with PNone => Some "" | _ => as_str v end) as [s|]; [|discriminate].
    destruct (List.find _ members) as [[n s']|] eqn:E; [|discriminate].
    injection H as <-. unfold has_type. simpl. rewrite String.eqb_refl. apply existsb_exists.
    exists (n, s'). split; [exact (proj1 (find_some _ _ E))|]. simpl. rewrite !String.eqb_refl. reflexivity.
  - destruct v; try discriminate; [injection H as <-; reflexivity|..];
      apply obind_ok in H as ([ws m] & Hws & [= <- ->]); exact (convert_items_ok _ _ IH _ _ _ Hws).
  - assert (Hi : v = PNone /\ w = PNone \/ convert t v path = Ok (w, [])).
    { destruct v; auto. injection H as <-. auto. }
    destruct Hi as [[_ ->]|Hi]; [reflexivity|]. apply IH in Hi. unfold has_type in *. simpl.
    destruct w; auto.
  - destruct v; try discriminate. destruct (unknown_keys _ _); [|discriminate].
    apply obind_ok in H as ([arguments m] & Ha & [= <- ->]).
    cut (length arguments = length declared /\
         Forall2 (fun nt kv => kv.1 = nt.1 /\ has_type nt.2 kv.2 = true) declared arguments).
    { intros [-> Hf]. rewrite Nat.ltb_irrefl. apply (typed_fields false). exact Hf. }
    clear -IH Ha. revert arguments Ha. induction IH as [|[name t] declared Ht _ IHd]; intros arguments Ha.
    + injection Ha as <-. split; [reflexivity | constructor].
    + destruct (dict_get d name) as [v|].
      * apply obind_ok in Ha as ([w m] & Hw & Ha). apply obind_ok in Ha as ([ws m'] & Hws & [= <- Hm]).
        apply app_eq_nil in Hm as [-> ->]. destruct (IHd _ Hws) as [Hlen Hf]. split; [simpl; lia|].
        constructor; [split; [reflexivity | exact (Ht _ _ _ Hw)] | exact Hf].
      * apply obind_ok in Ha as ([ws m'] & Hws & [=]).
Qed.

(** ** Only configuration errors *)

Lemma convert_error t v path x : convert t v path = Err x -> is_configuration_error x = true.
Proof.
  revert v path. induction t as [| | |cls members|t IH|t IH|cls declared IH] using ftype_ind';
    intros v path H; simpl in H.
  - destruct v; try discriminate; injection H as <-; reflexivity.
  - destruct v; try discriminate; injection H as <-; reflexivity.
  - destruct v; try discriminate; injection H as <-; reflexivity.
  - destruct (enum_member cls members v); [discriminate|]. injection H as <-. reflexivity.
  - assert (Hitems : forall items index,
      (fix convert_items (index : nat) (items : list pyval) : outcome (list pyval * list string) :=
         match items with
         | [] => Ok ([], [])
         | item :: items' =>
             let? (w, missing) := convert t item (path +:+ "[" +:+ str_of_nat index +:+ "]") in
             let? (ws, missing') := convert_items (S index) items' in
             Ok (w :: ws, missing ++ missing')
         end) index items = Err x -> is_configuration_error x = true).
    { induction items as [|item items IHi]; intros index Hi; [discriminate|].
      apply obind_err in Hi as [Hi|([w m] & _ & Hi)]; [exact (IH _ _ Hi)|].
      apply obind_err in Hi as [Hi|([ws m'] & _ & Hi)]; [exact (IHi _ Hi) | discriminate]. }
    destruct v; try discriminate; try (injection H as <-; reflexivity);
      apply obind_err in H as [H|([ws m] & _ & H)]; try discriminate; exact (Hitems _ _ H).
  - destruct v; try discriminate; exact (IH _ _ H).
  - destruct v; try (injection H as <-; reflexivity).
    destruct (unknown_keys _ _); [|injection H as <-; reflexivity].
    apply obind_err in H as [H|([ws m] & _ & H)]; [|discriminate].
    revert H. induction IH as [|[name t] declared Ht _ IHd]; intros H; [discriminate|].
    destruct (dict_get d name) as [v|].
    + apply obind_err in H as [H|([w m] & _ & H)]; [exact (Ht _ _ H)|].
      apply obind_err in H as [H|([ws m'] & _ & H)]; [exact (IHd H) | discriminate].
    + apply obind_err in H as [H|([ws m'] & _ & H)]; [exact (IHd H) | discriminate].
Qed.

Lemma nested_set_error setting_path names value section x :
  nested_set setting_path names value section = Err x -> is_configuration_error x = true.
Proof.
  revert section; induction names as [|name names IH]; intros section H; [discriminate|].
  simpl in H. destruct names as [|name' names]; [discriminate|].
  destruct (default _ _); try (injection H as <-; reflexivity).
  apply obind_err in H as [H|(d' & _ & H)]; [exact (IH _ H) | discriminate].
Qed.

Lemma nested_from_error acc values x :
  nested_from acc values = Err x -> is_configuration_error x = true.
Proof.
  revert acc; induction values as [|[k v] values IH]; intros acc H; [discriminate|].
  apply obind_err in H as [H|(d' & _ & H)]; [exact (nested_set_error _ _ _ _ _ H) | exact (IH _ H)].
Qed.

(** ** What is well typed converts to itself, also from YAML's plain values *)

(** The names of a dataclass' fields, and the values of an enum's members, differ. *)
Fixpoint distinct_names (l : list string) : bool :=
  match l with [] => true | x :: l' => negb (str_in x l') && distinct_names l' end.

Fixpoint wf_type (t : ftype) : bool :=
  match t with
  | TEnum _ members => distinct_names (map snd members)
  | TTuple item => wf_type item
  | TOption inner => wf_type inner
  | TData _ declared => distinct_names (dict_keys declared) && forallb (fun nt => wf_type nt.2) declared
  | _ => true
  end.

Lemma find_member members n s :
  distinct_names (map snd members) = true ->
  existsb (fun m => String.eqb m.1 n && String.eqb m.2 s) members = true ->
  List.find (fun m => String.eqb m.2 s) members = Some (n, s).
Proof.
  induction members as [|[n' s'] members IH]; simpl; intros Hd He; [discriminate|].
  apply andb_true_iff in Hd as [Hnot Hd]. apply orb_true_iff in He as [He|He].
  - apply andb_true_iff in He as [Hn Hs]. rewrite Hs.
    apply String.eqb_eq in Hn, Hs. subst. reflexivity.
  - destruct (String.eqb s' s) eqn:E; [|exact (IH Hd He)].
    exfalso. apply String.eqb_eq in E as ->. apply not_str_in in Hnot. apply Hnot.
    apply existsb_exists in He as ([n0 s0] & Hin & Hm). simpl in Hm.
    apply andb_true_iff in Hm as [_ Hm]. apply String.eqb_eq in Hm as ->.
    apply list_elem_of_fmap. exists (n0, s). split; [reflexivity | apply list_elem_of_In, Hin].
Qed.

Lemma unknown_keys_none raw names :
  (forall k, k ∈ dict_keys raw -> k ∈ names) -> unknown_keys raw names = [].
Proof.
  intros H. unfold unknown_keys.
  assert (List.filter (fun k => negb (str_in k names)) (dedup (dict_keys raw)) = []) as ->; [|reflexivity].
  destruct (List.filter _ _) as [|k l] eqn:E; [reflexivity|]. exfalso.
  assert (Hk : k ∈ List.filter (fun k => negb (str_in k names)) (dedup (dict_keys raw))) by (rewrite E; left).
  apply elem_of_List_filter in Hk as [Hk Hn]. apply not_str_in in Hn. apply Hn, H.
  apply dedup_elem, Hk.
Qed.

Lemma distinct_names_NoDup l : distinct_names l = true -> NoDup l.
Proof.
  induction l as [|x l IH]; simpl; intros H; [constructor|].
  apply andb_true_iff in H as [Hx Hl]. apply not_str_in in Hx. constructor; auto.
Qed.

Lemma dict_get_elem (d : dict string pyval) k v :
  NoDup (dict_keys d) -> (k, v) ∈ d -> dict_get d k = Some v.
Proof.
  unfold dict_keys. induction d as [|[k0 v0] d IH]; intros Hn Hin; [apply elem_of_nil in Hin as []|].
  simpl in Hn. apply NoDup_cons in Hn as [Hk Hn]. simpl. apply elem_of_cons in Hin as [[= -> ->]|Hin].
  - case_decide; [reflexivity | congruence].
  - case_decide as E; [|exact (IH Hn Hin)]. exfalso. subst k. apply Hk.
    apply list_elem_of_fmap. exists (k0, v). auto.
Qed.

Lemma plain_keys (d : list (string * pyval)) :
  dict_keys (map (fun kv => (kv.1, plain_yaml_value kv.2)) d) = dict_keys d.
Proof. unfold dict_keys. induction d as [|[k v] d IH]; [reflexivity|]. simpl. f_equal. exact IH. Qed.

Lemma typed_keys strict (declared : list (string * ftype)) (d : list (string * pyval)) :
  Forall2 (fun nt kv => kv.1 = nt.1 /\ typed strict nt.2 kv.2 = true) declared d ->
  dict_keys d = dict_keys declared.
Proof.
  unfold dict_keys. induction 1 as [|[n t] [k w] declared d [Hk _] _ IH]; [reflexivity|].
  simpl in *. subst. f_equal. exact IH.
Qed.

(** ** Text from the environment has a value that the builder accepts *)

(** The types of the settings that a variable can provide. *)
Fixpoint text_type (t : ftype) : bool :=
  match t with
  | TStr | TInt | TBool => true
  | TEnum _ members => distinct_names (map snd members)
  | TTuple item => text_type item
  | TOption _ | TData _ _ => false
  end.

Lemma enum_member_again cls members v m :
  enum_member cls members v = Some m -> enum_member cls members m = Some m.
Proof.
  unfold enum_member. destruct (match v with PNone => Some "" | _ => as_str v end) as [s|]; [|discriminate].
  destruct (List.find _ members) as [[n s']|] eqn:E; [|discriminate]. intros [= <-]. simpl.
  pose proof (proj2 (find_some _ _ E)) as Hs. simpl in Hs. apply String.eqb_eq in Hs as <-.
  rewrite E. reflexivity.
Qed.

Lemma from_text_converts t text label v path :
  text_type t = true -> from_text t text label = Ok v -> convert t v path = Ok (v, []).
Proof.
  revert text v path. induction t as [| | |cls members|t IH|t IH|cls declared IH] using ftype_ind';
    intros text v path Ht H; try discriminate; cbn [from_text] in H.
  - injection H as <-. reflexivity.
  - destruct (negb (isdigit text)); [discriminate|].
    apply obind_ok in H as (n & _ & [= <-]). reflexivity.
  - destruct (one_of_words TRUE_WORDS text); [injection H as <-; reflexivity|].
    destruct (one_of_words FALSE_WORDS text); [injection H as <-; reflexivity | discriminate].
  - cbn [convert] in H.
    destruct (enum_member cls members (PStr (lower text))) as [m|] eqn:E; [|discriminate].
    injection H as <-. simpl. rewrite (enum_member_again _ _ _ _ E). reflexivity.
  - apply obind_ok in H as (values & Hv & [= <-]). apply omapM_ok in Hv. simpl.
    match goal with |- obind _ (?f _ _) = _ =>
      assert (forall index, f index values = Ok (values, [])) as Hl end; [|rewrite Hl; reflexivity].
    induction Hv as [|item value items values Hi _ IHv]; intros index; [reflexivity|].
    simpl. rewrite (IH _ _ _ Ht Hi). simpl. rewrite (IHv (S index)). reflexivity.
Qed.

(** What the conversion reads from a section: its known keys and their values. *)
Definition provides (raw : dict string pyval) (declared : list (string * ftype)) (d : dict string pyval) : Prop :=
  (forall k, k ∈ dict_keys raw -> k ∈ dict_keys declared) /\
  (forall n w, (n, w) ∈ d -> dict_get raw n = Some (plain_yaml_value w)).

Lemma convert_fields_plain cls declared d raw path :
  Forall (fun nt => forall w p, wf_type nt.2 = true -> exact_type nt.2 w = true ->
                      convert nt.2 (plain_yaml_value w) p = Ok (w, [])) declared ->
  wf_type (TData cls declared) = true ->
  Forall2 (fun nt kv => kv.1 = nt.1 /\ exact_type nt.2 kv.2 = true) declared d ->
  provides raw declared d ->
  convert (TData cls declared) (PDict raw) path = Ok (PDict d, []).
Proof.
  intros IH Hwf Hf [Hkeys Hget]. simpl in Hwf |- *. apply andb_true_iff in Hwf as [Hn Hwf].
  rewrite unknown_keys_none by exact Hkeys.
  match goal with |- obind _ (?f _ _) = _ =>
    assert (f declared raw = Ok (d, [])) as ->
  end.
  { clear Hn Hkeys. induction Hf as [|[n t] [k w] declared d [Hk Hw] Hf IHf]; [reflexivity|].
    simpl in Hk. subst k. simpl in Hwf. apply andb_true_iff in Hwf as [Hwt Hwf].
    inversion_clear IH as [|? ? IHt IHd]. cbn beta iota.
    rewrite (Hget n w) by left. rewrite (IHt _ _ Hwt Hw). simpl.
    rewrite (IHf IHd Hwf) by (intros; apply Hget; right; assumption). reflexivity. }
  simpl. rewrite (Forall2_length _ _ _ Hf), Nat.ltb_irrefl. reflexivity.
Qed.

Lemma convert_items_plain t l path index :
  (forall w p, exact_type t w = true -> convert t (plain_yaml_value w) p = Ok (w, [])) ->
  forallb (exact_type t) l = true ->
  (fix convert_items (index : nat) (items : list pyval) : outcome (list pyval * list string) :=
     match items with
     | [] => Ok ([], [])
     | item :: items' =>
         let? (w, missing) := convert t item (path +:+ "[" +:+ str_of_nat index +:+ "]") in
         let? (ws, missing') := convert_items (S index) items' in
         Ok (w :: ws, missing ++ missing')
     end) index (map plain_yaml_value l) = Ok (l, []).
Proof.
  intros IH. revert index. induction l as [|w l IHl]; intros index Hl; [reflexivity|].
  simpl in Hl. apply andb_true_iff in Hl as [Hw Hl]. simpl.
  rewrite (IH _ _ Hw). simpl. rewrite (IHl _ Hl). reflexivity.
Qed.

Lemma convert_plain t w path :
  wf_type t = true -> exact_type t w = true -> convert t (plain_yaml_value w) path = Ok (w, []).
Proof.
  revert w path. induction t as [| | |cls members|t IH|t IH|cls declared IH] using ftype_ind';
    intros w path Hwf Hw.
  - destruct w; discriminate || reflexivity.
  - destruct w; discriminate || reflexivity.
  - destruct w; discriminate || reflexivity.
  - destruct w; try discriminate. unfold exact_type in Hw. simpl in Hw, Hwf.
    apply andb_true_iff in Hw as [Hc Hm].
    apply String.eqb_eq in Hc as ->. simpl. unfold enum_member. simpl.
    rewrite (find_member _ _ _ Hwf Hm). reflexivity.
  - destruct w; try discriminate. simpl. rewrite convert_items_plain; [reflexivity| |exact Hw].
    intros w p. exact (IH w p Hwf).
  - simpl in Hwf. unfold exact_type in *. destruct w; try exact (IH _ _ Hwf Hw). reflexivity.
  - pose proof Hw as Hd. unfold exact_type in Hd. apply typed_data in Hd as (d & -> & Hf).
    cbn [plain_yaml_value]. apply (convert_fields_plain _ _ d); [|exact Hwf|exact Hf|].
    + eapply Forall_impl; [exact IH|]. intros nt H w p. exact (H w p).
    + pose proof (distinct_names_NoDup (dict_keys declared)) as Hn. simpl in Hwf.
      apply andb_true_iff in Hwf as [Hwf _]. specialize (Hn Hwf).
      rewrite <- (typed_keys _ _ _ Hf) in Hn. split.
      * intros k. rewrite plain_keys, (typed_keys _ _ _ Hf). auto.
      * intros n w Hin. apply dict_get_elem; [rewrite plain_keys; exact Hn|].
        apply list_elem_of_In, in_map_iff. exists (n, w).
        split; [reflexivity | apply list_elem_of_In, Hin].
Qed.

Lemma InstallerConfig_wf : wf_type InstallerConfig_type = true.
Proof. vm_compute. reflexivity. Qed.

(** The nested sections of a configuration, in any order, build it again. *)
Lemma build_from_sections values raw d (c : InstallerConfig) :
  asdict c = PDict d ->
  nested (with_empty_credentials values) = Ok raw ->
  (forall k, k ∈ dict_keys raw -> k ∈ dict_keys d) ->
  (forall n w, (n, w) ∈ d -> dict_get raw n = Some (plain_yaml_value w)) ->
  build_installer_config values = Ok c.
Proof.
  intros Hd Hn Hk Hg. unfold build_installer_config. rewrite Hn. cbv beta delta [obind] iota.
  assert (Ht : exact_type InstallerConfig_type (PDict d) = true) by (rewrite <- Hd; apply asdict_typed).
  assert (Hc : convert InstallerConfig_type (PDict raw) "" = Ok (PDict d, [])).
  { revert Ht Hk. pose proof InstallerConfig_wf as Hwf. revert Hwf.
    unfold InstallerConfig_type, type_hints, type_hints_, InstallerConfig_hints.
    match goal with |- context [TData ?c ?l] => generalize l; generalize c end.
    intros cls declared Hwf Ht Hk. unfold exact_type in Ht. apply typed_data in Ht as (d' & [= <-] & Hf).
    apply convert_fields_plain; [|exact Hwf|exact Hf|].
    - apply Forall_forall. intros nt _ w p. apply convert_plain.
    - split; [|exact Hg]. intros k. rewrite <- (typed_keys _ _ _ Hf). auto. }
  rewrite Hc. rewrite <- Hd, from_asdict. reflexivity.
Qed.

(** ** Properties *)

(** C9: the builder returns a configuration only when every declared setting was
    provided and every value has its declared type, and then the configuration is
    exactly the converted values; in every other case it raises a configuration
    error, never anything else. *)
Theorem build_installer_config_sound (values : dict string pyval) :
  match build_installer_config values with
  | Ok config =>
      exists raw converted, nested (with_empty_credentials values) = Ok raw /\
        convert InstallerConfig_type (PDict raw) "" = Ok (converted, []) /\
        has_type InstallerConfig_type converted = true /\ from_py converted = Some config
  | Err x => is_configuration_error x = true
  end.
Proof.
  destruct (build_installer_config values) as [config|x] eqn:E; unfold build_installer_config in E.
  - apply obind_ok in E as (raw & Hn & E). apply obind_ok in E as ([converted missing] & Hc & E).
    exists raw, converted. destruct missing; [|discriminate].
    pose proof (convert_typed _ _ _ _ Hc) as Ht.
    destruct (from_py converted) as [config'|]; [|discriminate]. injection E as ->. auto.
  - apply obind_err in E as [E|(raw & _ & E)]; [exact (nested_from_error _ _ _ E)|].
    apply obind_err in E as [E|([converted missing] & Hc & E)]; [exact (convert_error _ _ _ _ E)|].
    destruct missing; [|injection E as <-; reflexivity].
    apply convert_typed in Hc. apply typed_from in Hc as [config Hf]. rewrite Hf in E. discriminate.
Qed.
