(* ===== verification/Questions.v ===== *)
(** * Questions of the interactive setup ([install_steps/questions.py],
    [setup/frontend.py])

    The question types, the choices they offer, and the operations that a
    front-end answers. *)

From S2P Require Import Prelude PyStr PyVal Effects Command.

Record Choice : Type := { choice_value : pyval; choice_label : string }.

Record Disk : Type := { disk_path : string; disk_model : string; disk_size : string }.

(** [MachineFacts]: its one method, [disks]. *)
Definition MachineFacts : Type := cmd (list Disk).

(** Choices computed from the inherited value and the machine. *)
Definition ChoiceSource : Type := pyval -> MachineFacts -> cmd (list Choice).

Inductive choices_of_question : Type :=
| Offered (choices : list Choice)
| Computed (source : ChoiceSource).

Record ChooseOne : Type := {
  one_label : string; one_choices : choices_of_question; one_description : string;
  one_typed_prompt : string }.
Record ChooseMany : Type := {
  many_label : string; many_choices : list Choice; many_description : string }.
Record EnterText : Type := { text_label : string; text_prompt : string }.
Record EnterSecret : Type := {
  secret_label : string; secret_prompt : string; secret_confirm : bool }.
Record Switch : Type := {
  switch_label : string; switch_on_label : string; switch_off_label : string;
  switch_description : string }.

Inductive Question : Type :=
| QChooseOne (q : ChooseOne)
| QChooseMany (q : ChooseMany)
| QEnterText (q : EnterText)
| QEnterSecret (q : EnterSecret)
| QSwitch (q : Switch).

Definition question_label (q : Question) : string :=
  match q with
  | QChooseOne q => one_label q
  | QChooseMany q => many_label q
  | QEnterText q => text_label q
  | QEnterSecret q => secret_label q
  | QSwitch q => switch_label q
  end.

(** ** The front-end *)

Record Inherited (V : Type) : Type := { inherited_value : V; inherited_source : string }.
Arguments inherited_value {V} i.
Arguments inherited_source {V} i.

Record SummaryRow : Type := {
  row_step : string; row_label : string; row_value : string; row_source : string }.

(** [SetupFrontend]: one operation per method. *)
Inductive frontend_op : Type :=
| AskSwitch (step : string) (question : Switch) (inherited : option (Inherited bool))
| AskOne (step : string) (question : ChooseOne) (choices : list Choice)
    (inherited : option (Inherited pyval))
| AskMany (step : string) (question : ChooseMany) (inherited : option (Inherited (list pyval)))
| AskText (step : string) (question : EnterText) (inherited : option (Inherited string))
| KeepSecret (step : string) (question : EnterSecret) (source : string)
| AskSecret (step : string) (question : EnterSecret)
| Review (rows : list SummaryRow).

(** What a method returns when the user does not cancel. *)
Definition frontend_answer (e : frontend_op) : Type :=
  match e with
  | AskSwitch _ _ _ => bool
  | AskOne _ _ _ _ => pyval
  | AskMany _ _ _ => list pyval
  | AskText _ _ _ => string
  | KeepSecret _ _ _ => bool
  | AskSecret _ _ => string
  | Review _ => bool
  end.

(** The user can cancel any screen, which raises [KeyboardInterrupt]. *)
Definition frontend_sig : signature := Signature frontend_op (fun e => outcome (frontend_answer e)).
