(* ===== verification/Host.v ===== *)
(** * The host: everything the entry points do besides running commands

    Files, the terminal, random bytes and the screens of the interactive setup are
    operations next to the commands of [Command.v]; what each answers, an exception
    included, is up to the environment. *)

From S2P Require Import Prelude PyStr PyVal Effects Command Questions.

Inductive host_op : Type :=
| OpCommand (e : cmd_op)
| OpExists (path : string)
| OpReadText (path : string)
| OpWriteText (path text : string)
| OpGetpass (prompt : string)
| OpPrint (text : string)
| OpUrandom (size : nat)
| OpSetLogLevel (lvl : level)
| OpInfoScreen (title message : string)
| OpFrontend (e : frontend_op).

Definition host_ans (e : host_op) : Type :=
  match e with
  | OpCommand e => cmd_ans e
  | OpExists _ => bool
  | OpReadText _ => outcome string
  | OpWriteText _ _ => outcome unit
  | OpGetpass _ => outcome string
  | OpPrint _ => unit
  | OpUrandom _ => string
  | OpSetLogLevel _ => unit
  | OpInfoScreen _ _ => outcome unit
  | OpFrontend e => outcome (frontend_answer e)
  end.

Definition host_sig : signature := Signature host_op host_ans.
Abbreviation host := (prog host_sig).

Definition commands_on_host {A} (p : cmd A) : host A :=
  lift (E := cmd_sig) (F := host_sig) (fun e => @trigger host_sig (OpCommand e)) p.
Definition host_log (l : level) (message : string) : host unit := commands_on_host (log l message).

Definition exists_ (path : string) : host bool := @trigger host_sig (OpExists path).
Definition read_text_file (path : string) : host string :=
  let* text := @trigger host_sig (OpReadText path) in of_outcome text.
Definition write_text_file (path text : string) : host unit :=
  let* written := @trigger host_sig (OpWriteText path text) in of_outcome written.
Definition getpass (prompt : string) : host string :=
  let* typed := @trigger host_sig (OpGetpass prompt) in of_outcome typed.
Definition print (text : string) : host unit := @trigger host_sig (OpPrint text).
Definition urandom (size : nat) : host string := @trigger host_sig (OpUrandom size).
(** [log.configure_logging]: two handlers, and the level of the package's logger. *)
Definition configure_logging (lvl : level) : host unit := @trigger host_sig (OpSetLogLevel lvl).
(** [curses.wrapper] starts the terminal screen; the first screen waits for a key. *)
Definition info_screen (title message : string) : host unit :=
  let* seen := @trigger host_sig (OpInfoScreen title message) in of_outcome seen.
Definition ask (e : frontend_op) : host (frontend_answer e) :=
  let* answer := @trigger host_sig (OpFrontend e) in of_outcome answer.

(** The methods of the front-end. *)
Definition frontend_switch step question inherited : host bool := ask (AskSwitch step question inherited).
Definition frontend_choose_one step question choices inherited : host pyval :=
  ask (AskOne step question choices inherited).
Definition frontend_choose_many step question inherited : host (list pyval) :=
  ask (AskMany step question inherited).
Definition frontend_enter_text step question inherited : host string := ask (AskText step question inherited).
Definition frontend_keep_secret step question source : host bool := ask (KeepSecret step question source).
Definition frontend_enter_secret step question : host string := ask (AskSecret step question).
Definition frontend_review rows : host bool := ask (Review rows).

(** ** Events *)

Abbreviation host_event := (event host_sig).

(** The texts written to files, in order. *)
Fixpoint files_written (t : list host_event) : list (string * string) :=
  match t with
  | [] => []
  | ev :: t' =>
      match ev_op ev with
      | OpWriteText path text => (path, text) :: files_written t'
      | _ => files_written t'
      end
  end.

(** The entries typed without echo, in order. *)
Fixpoint entries_typed (t : list host_event) : list (outcome string) :=
  match t with
  | [] => []
  | Ev (OpGetpass _) entry :: t' => entry :: entries_typed t'
  | _ :: t' => entries_typed t'
  end.

Lemma files_written_app t1 t2 : files_written (t1 ++ t2) = files_written t1 ++ files_written t2.
Proof.
  induction t1 as [|[[] a] t1 IH]; simpl; [reflexivity|..]; try exact IH.
  f_equal. exact IH.
Qed.

Lemma entries_typed_app t1 t2 : entries_typed (t1 ++ t2) = entries_typed t1 ++ entries_typed t2.
Proof.
  induction t1 as [|[[] a] t1 IH]; simpl; [reflexivity|..]; try exact IH.
  f_equal. exact IH.
Qed.

(** ** Commands on the host *)

Definition on_host (ev : cmd_event) : host_event := @Ev host_sig (OpCommand (ev_op ev)) (ev_ans ev).

Lemma runs_commands_on_host {A} (p : cmd A) t o :
  runs (commands_on_host p) t o <-> exists t', runs p t' o /\ t = map on_host t'.
Proof.
  revert t; induction p as [a|x|e k IH]; intros t; simpl.
  - split; [intros [-> ->]; exists []; auto | intros (t' & [-> ->] & ->); auto].
  - split; [intros [-> ->]; exists []; auto | intros (t' & [-> ->] & ->); auto].
  - split.
    + intros (r & t' & -> & H). apply IH in H as (t'' & H & ->). exists (Ev e r :: t''). eauto 6.
    + intros (t' & (r & t'' & -> & H) & ->). exists r, (map on_host t''). split; [reflexivity|].
      apply IH. eauto.
Qed.

Lemma emits_commands_on_host {A} (P : host_event -> Prop) (p : cmd A) :
  emits (fun ev => P (on_host ev)) p -> emits P (commands_on_host p).
Proof.
  induction p as [a|x|e k IH]; [exact (fun _ => I) | exact (fun _ => I) |].
  intros H r. destruct (H r) as [HP Hk]. split; [exact HP | apply IH, Hk].
Qed.

(** The command lines among the operations. *)
Fixpoint host_commands (t : list host_event) : list string :=
  match t with
  | [] => []
  | Ev (OpCommand (OpRun rq)) _ :: t' => command_text (rq_command rq) :: host_commands t'
  | _ :: t' => host_commands t'
  end.

Lemma host_commands_app t1 t2 : host_commands (t1 ++ t2) = host_commands t1 ++ host_commands t2.
Proof.
  induction t1 as [|[e a] t1 IH]; [reflexivity|]. destruct e as [[]| | | | | | | | |]; simpl; try exact IH.
  f_equal. exact IH.
Qed.

Lemma host_commands_on_host t : host_commands (map on_host t) = commands t.
Proof. induction t as [|[[] a] t IH]; simpl; [reflexivity|..]; try exact IH. f_equal. exact IH. Qed.
