(* ===== verification/ConfigFile.v ===== *)
(** * config.yaml as a source of setting values ([config/config_file.py])

    [yaml.safe_load] and [decrypt_secret] are parameters here; [Secrets.v] models
    the second. *)

From S2P Require Import Prelude PyStr PyVal Effects Command Questions Host Models Export Schema Samples ConfigBuilder.

(** What [yaml.safe_load] gives: a document, or a [YAMLError] and its text. *)
Inductive yaml_result : Type :=
| Loaded (document : pyval)
| YAMLError (error : string).

(** The path of the file next to the package; it depends on where it is installed. *)
Section ConfigFile.
Context (safe_load : string -> yaml_result).

Definition read_config_file (config_path : string) : host (dict string pyval) :=
  let* found := exists_ config_path in
  if negb found
  then Raise (ConfigurationError ("Configuration file not found: " +:+ config_path))
  else
    let* text := read_text_file config_path in
    match safe_load text with
    | YAMLError error =>
        Raise (ConfigurationError ("Failed to parse configuration " +:+ config_path +:+ ": " +:+ error))
    | Loaded PNone => Ret []
    | Loaded (PDict raw) => Ret raw
    | Loaded _ => Raise (ConfigurationError ("Configuration " +:+ config_path +:+ " must be a YAML mapping"))
    end.
End ConfigFile.

(** ** [_flatten] *)

(** The location of a section in a message: its prefix without the dot. *)
Definition section_location (prefix : string) : string := rstrip_by (char_eqb (chr 46)) prefix.

(** [declared] are the fields of the section's class, [credentials] left out. *)
Fixpoint flatten (declared : list (string * ftype)) (raw : pyval) (prefix : string) {struct raw}
    : outcome (dict string pyval) :=
  match raw with
  | PDict section =>
      match unknown_keys section (dict_keys declared) with
      | [] =>
          (fix flatten_items (items : list (string * pyval)) (values : dict string pyval)
              : outcome (dict string pyval) :=
             match items with
             | [] => Ok values
             | (name, value) :: items' =>
                 let setting_path := prefix +:+ name in
                 let flat := obind (fun inner => Ok (dict_update values inner)) in
                 let? values' :=
                   match dict_get declared name, value with
                   | Some (TData _ declared'), PDict _ =>
                       flat (flatten declared' value (setting_path +:+ "."))
                   | _, _ => Ok (dict_set values setting_path value)
                   end in
                 flatten_items items' values'
             end%outcome) section []
      | unknown => Err (unknown_keys_error (section_location prefix) unknown)
      end
  | _ => Err (type_error (str_or (section_location prefix) "configuration") " must be a mapping")
  end.

Definition declared_fields (t : ftype) : list (string * ftype) :=
  match t with TData _ declared => declared | _ => [] end.

Definition file_fields : list (string * ftype) :=
  List.filter (fun nt => negb (String.eqb nt.1 "credentials")) (declared_fields InstallerConfig_type).

Definition config_file_setting_values (raw : pyval) : outcome (dict string pyval) :=
  flatten file_fields raw "".

(** ** Encrypted passwords *)

Definition ENCRYPTED_CREDENTIALS : list (string * (string * string)) := [
  ("secrets.luks_password_encrypted", ("credentials.luks_password", LUKS_PASSWORD_SECRET));
  ("secrets.user_password_encrypted", ("credentials.user_password", USER_PASSWORD_SECRET))].

(** [values.get(path)] as a truth value *)
Definition has_value (values : dict string pyval) (path : string) : bool :=
  match dict_get values path with Some v => py_bool v | None => false end.

Definition has_encrypted_credentials (config_file_values : dict string pyval) : bool :=
  any (fun entry => has_value config_file_values entry.1) ENCRYPTED_CREDENTIALS.

Section Decrypt.
(** [decrypt_secret(encrypted, secrets_key, secret_name)]; what is not a string
    has no [split] and is an [AttributeError]. *)
Context (decrypt_secret : pyval -> string -> string -> outcome string).

Fixpoint decrypt_each (entries : list (string * (string * string)))
    (config_file_values : dict string pyval) (secrets_key : string) : outcome (dict string string) :=
  match entries with
  | [] => Ok []
  | (encrypted_path, (credential_path, secret_name)) :: entries' =>
      match dict_get config_file_values encrypted_path with
      | Some encrypted =>
          if py_bool encrypted then
            let? password := decrypt_secret encrypted secrets_key secret_name in
            let? credentials := decrypt_each entries' config_file_values secrets_key in
            Ok ((credential_path, password) :: credentials)
          else decrypt_each entries' config_file_values secrets_key
      | None => decrypt_each entries' config_file_values secrets_key
      end
  end%outcome.
Definition decrypted_credentials (config_file_values : dict string pyval) (secrets_key : string)
    : outcome (dict string string) :=
  decrypt_each ENCRYPTED_CREDENTIALS config_file_values secrets_key.
End Decrypt.

(** ** [load_config_file] *)

Definition load_config_file (safe_load : string -> yaml_result) (config_path : string)
    : host InstallerConfig :=
  let* raw := read_config_file safe_load config_path in
  of_outcome (obind build_installer_config (config_file_setting_values (PDict raw))).

(** ** The keys of the values *)

Lemma dict_keys_update_In (d e : dict string pyval) k :
  k ∈ dict_keys (dict_update d e) -> k ∈ dict_keys d \/ k ∈ dict_keys e.
Proof.
  unfold dict_update. revert d. induction e as [|[k' v] e IH]; intros d H; [auto|].
  simpl in H. destruct (IH _ H) as [Hd|He]; [|right; right; exact He].
  apply dict_keys_set_In in Hd as [->|Hd]; [right; left | auto].
Qed.

(** Every setting is in a section that may be in the file. *)
Lemma flatten_keys raw declared prefix values k :
  flatten declared raw prefix = Ok values -> k ∈ dict_keys values ->
  exists name, name ∈ dict_keys declared /\ startswith (prefix +:+ name) k = true.
Proof.
  revert declared prefix values k.
  induction raw as [| | | | | | |section IH] using pyval_rect'; intros declared prefix values k Hf Hk;
    simpl in Hf; try discriminate.
  rename Hf into H.
  destruct (unknown_keys section (dict_keys declared)) as [|x l] eqn:Eu; [|discriminate].
  assert (Hnames : forall n, n ∈ dict_keys section -> n ∈ dict_keys declared).
  { intros n Hn. destruct (str_in n (dict_keys declared)) eqn:E; [apply str_in_spec, E|]. exfalso.
    apply (elem_of_nil n). rewrite <- Eu. unfold unknown_keys. apply sorted_elem, elem_of_List_filter.
    rewrite E. split; [apply dedup_elem, Hn | reflexivity]. }
  assert (Hacc : forall k, k ∈ dict_keys (@nil (string * pyval)) ->
    exists name, name ∈ dict_keys declared /\ startswith (prefix +:+ name) k = true)
    by (intros ? []%elem_of_nil).
  revert H Hacc. generalize (@nil (string * pyval)) as acc. clear Eu.
  induction section as [|[name value] items IHs]; intros acc H Hacc.
  - injection H as <-. exact (Hacc _ Hk).
  - apply obind_ok in H as (acc' & Ha & H). inversion_clear IH as [|? ? IHv IHi].
    apply (IHs IHi (fun n Hn => Hnames n (list_elem_of_further _ _ _ Hn)) acc' H). clear H IHs IHi.
    assert (Hname : name ∈ dict_keys declared) by (apply Hnames; left).
    intros k' Hk'.
    assert (Hset : dict_set acc (prefix +:+ name) value = acc' ->
      exists n, n ∈ dict_keys declared /\ startswith (prefix +:+ n) k' = true).
    { intros <-. apply dict_keys_set_In in Hk' as [->|Hk']; [|exact (Hacc _ Hk')].
      exists name. split; [exact Hname|].
      rewrite <- (str_app_nil_r (prefix +:+ name)) at 2. apply startswith_app. }
    destruct (dict_get declared name) as [[]|]; try (injection Ha as Ha; exact (Hset Ha)).
    destruct value; try (injection Ha as Ha; exact (Hset Ha)). clear Hset.
    apply obind_ok in Ha as (inner & Hinner & [= <-]).
    apply dict_keys_update_In in Hk' as [Hk'|Hk']; [exact (Hacc _ Hk')|].
    destruct (IHv _ _ _ _ Hinner Hk') as (n & _ & Hn). exists name. split; [exact Hname|].
    apply startswith_spec in Hn as [rest ->]. rewrite !str_app_assoc. apply startswith_spec.
    exists ("." +:+ n +:+ rest). rewrite !str_app_assoc. reflexivity.
Qed.

(** ** A configuration as the sources give it *)

(** The dictionary of a configuration in config.yaml: what the installer exports,
    and the section of the encrypted passwords. *)
Definition config_file_of (c : InstallerConfig) : dict string pyval :=
  exportable_config c ++ [("secrets", asdict (cfg_secrets c))].

(** The passwords as setting values. *)
Definition credential_values (k : Credentials) : dict string pyval := [
  ("credentials.luks_password", PStr (luks_password k));
  ("credentials.user_password", PStr (user_password k));
  ("credentials.source_luks_password", PStr (source_luks_password k))].

Definition fields_of (v : pyval) : dict string pyval := match v with PDict d => d | _ => [] end.

(** Flattening the file and nesting the values again gives its sections. *)
Lemma file_sections c :
  match config_file_setting_values (PDict (config_file_of c)) with
  | Ok values =>
      match nested (with_empty_credentials (dict_update values (credential_values (cfg_credentials c)))) with
      | Ok raw =>
          forallb (fun k => str_in k (dict_keys (fields_of (asdict c)))) (dict_keys raw) = true /\
          Forall (fun nw => dict_get raw nw.1 = Some (plain_yaml_value nw.2)) (fields_of (asdict c))
      | Err _ => False
      end
  | Err _ => False
  end.
Proof. vm_compute. repeat constructor. Qed.

(** ** Properties *)

(** C8: the configuration survives the way through the file: the exported
    configuration with the secrets section, read as setting values and completed
    with the passwords, builds exactly the configuration it was written from. *)
Theorem config_file_round_trip (c : InstallerConfig) :
  exists values, config_file_setting_values (PDict (config_file_of c)) = Ok values /\
    build_installer_config (dict_update values (credential_values (cfg_credentials c))) = Ok c.
Proof.
  pose proof (file_sections c) as H.
  destruct (config_file_setting_values _) as [values|] eqn:Ev; [|contradiction].
  exists values. split; [reflexivity|].
  destruct (nested _) as [raw|] eqn:En; [|contradiction]. destruct H as [Hk Hg].
  apply (build_from_sections _ raw (fields_of (asdict c))); [reflexivity | exact En | |].
  - intros k Hin. rewrite forallb_forall in Hk. apply str_in_spec, Hk, list_elem_of_In, Hin.
  - intros n w Hin. rewrite Forall_forall in Hg. exact (Hg (n, w) Hin).
Qed.

(** C38: config.yaml never provides a password in plain text: a file with a
    [credentials] section is refused, and no value read from any accepted file is
    a credential. *)
Theorem config_file_has_no_passwords (raw : dict string pyval) :
  (dict_in raw "credentials" = true ->
     exists x, config_file_setting_values (PDict raw) = Err x /\ is_configuration_error x = true) /\
  (forall values path, config_file_setting_values (PDict raw) = Ok values ->
     path ∈ dict_keys values -> path ∉ CREDENTIAL_PATHS).
Proof.
  split.
  - intros Hin. unfold config_file_setting_values. cbn [flatten].
    destruct (unknown_keys raw (dict_keys file_fields)) as [|x l] eqn:E; [|eauto].
    exfalso. apply (elem_of_nil "credentials"). rewrite <- E. unfold unknown_keys.
    apply sorted_elem, elem_of_List_filter. split; [apply dedup_elem | vm_compute; reflexivity].
    apply dict_in_get in Hin as (v & Hv).
    destruct (decide ("credentials" ∈ dict_keys raw)) as [|Hn]; [assumption|].
    apply dict_get_None in Hn. congruence.
  - intros values path H Hp Hc. destruct (flatten_keys _ _ _ _ _ H Hp) as (name & Hname & Hs).
    change (startswith name path = true) in Hs. clear -Hname Hs Hc.
    assert (Ht : forallb (fun n => forallb (fun p => negb (startswith n p)) CREDENTIAL_PATHS)
                   (dict_keys file_fields) = true) by (vm_compute; reflexivity).
    rewrite forallb_forall in Ht. specialize (Ht name (proj1 (list_elem_of_In _ _) Hname)).
    rewrite forallb_forall in Ht. specialize (Ht path (proj1 (list_elem_of_In _ _) Hc)).
    rewrite Hs in Ht. discriminate.
Qed.

Lemma config_file_has_no_passwords_witness :
  "system.hostname" ∉ CREDENTIAL_PATHS.
Proof.
  eapply (config_file_has_no_passwords [("system", PDict [("hostname", PStr "host")])]);
    [vm_compute; reflexivity | left].
Defined.
