(* ===== verification/Secrets.v ===== *)
(** * Encrypted passwords ([core/secrets.py])

    Argon2id and AES-256-GCM are the [cryptography] package's: an interface with
    the laws the code relies on.  The format around them, base64 included, is
    modelled.  A text is its UTF-8 bytes. *)

From S2P Require Import Prelude PyStr PyVal Models Effects Command Questions Host.

Local Open Scope outcome_scope.
Local Open Scope Z_scope.

Definition FORMAT_VERSION : string := "dali-v2".
Definition KEY_DERIVATION_NAME : string := "argon2id".
Definition SALT_SIZE_BYTES : nat := 16.
Definition NONCE_SIZE_BYTES : nat := 12.
Definition AES_KEY_SIZE_BYTES : nat := 32.
Definition GCM_TAG_SIZE_BYTES : nat := 16.

Record Argon2Cost : Type := { memory_kib : Z; iterations : Z; lanes : Z }.

Definition encoded_cost (c : Argon2Cost) : string :=
  "m=" +:+ str_of_Z (memory_kib c) +:+ ",t=" +:+ str_of_Z (iterations c) +:+ ",p=" +:+ str_of_Z (lanes c).

Definition NEW_SECRET_COST : Argon2Cost := {| memory_kib := 262144; iterations := 3; lanes := 4 |}.
Definition MAXIMUM_COST : Argon2Cost := {| memory_kib := 4194304; iterations := 64; lanes := 64 |}.

(** ** base64 *)

Definition BASE64_ALPHABET : string :=
  "ABCDEFGHIJKLMNOPQRSTUVWXYZabcdefghijklmnopqrstuvwxyz0123456789+/".

Definition b64_char (v : Z) : Ascii.ascii :=
  match String.get (Z.to_nat v) BASE64_ALPHABET with Some c => c | None => chr 61 end.

Definition b64_value (c : Ascii.ascii) : option Z :=
  let n := Z.of_nat (ord c) in
  if (65 <=? n) && (n <=? 90) then Some (n - 65)
  else if (97 <=? n) && (n <=? 122) then Some (n - 71)
  else if (48 <=? n) && (n <=? 57) then Some (n + 4)
  else if n =? 43 then Some 62
  else if n =? 47 then Some 63
  else None.

Definition byte (c : Ascii.ascii) : Z := Z.of_nat (ord c).
Definition of_byte (z : Z) : Ascii.ascii := chr (Z.to_nat z).

(** [base64.b64encode] *)
Fixpoint b64encode (s : string) : string :=
  match s with
  | EmptyString => ""
  | String a EmptyString =>
      String (b64_char (byte a / 4)) (String (b64_char (byte a mod 4 * 16)) "==")
  | String a (String b EmptyString) =>
      String (b64_char (byte a / 4)) (String (b64_char (byte a mod 4 * 16 + byte b / 16))
        (String (b64_char (byte b mod 16 * 4)) "="))
  | String a (String b (String c s')) =>
      String (b64_char (byte a / 4)) (String (b64_char (byte a mod 4 * 16 + byte b / 16))
        (String (b64_char (byte b mod 16 * 4 + byte c / 64)) (String (b64_char (byte c mod 64)) (b64encode s'))))
  end.

(** [binascii.a2b_base64(s, strict_mode=True)], its loop: the position in the
    group of four, the bits left over from it, the padding seen. *)
Fixpoint b64_loop (s : string) (quad_pos left pads : Z) (padding_started : bool) : option string :=
  match s with
  | EmptyString => if quad_pos =? 0 then Some "" else None
  | String c s' =>
      if char_eqb c (chr 61) then
        if (2 <=? quad_pos) && (4 <=? quad_pos + (pads + 1))
        then match s' with EmptyString => Some "" | _ => None end
        else b64_loop s' quad_pos left (if 2 <=? quad_pos then pads + 1 else pads) true
      else
        match b64_value c with
        | None => None
        | Some v =>
            if padding_started then None
            else if quad_pos =? 0 then b64_loop s' 1 v 0 false
            else if quad_pos =? 1 then
              String (of_byte (left * 4 + v / 16)) <$> b64_loop s' 2 (v mod 16) 0 false
            else if quad_pos =? 2 then
              String (of_byte (left * 16 + v / 4)) <$> b64_loop s' 3 (v mod 4) 0 false
            else String (of_byte (left * 64 + v)) <$> b64_loop s' 0 0 0 false
        end
  end.

(** [base64.b64decode(s, validate=True)]: [None] is [binascii.Error] or, on text
    that is not ASCII, [ValueError]. *)
Definition b64decode (s : string) : option string :=
  if startswith "=" s then None else b64_loop s 0 0 0 false.

(** ** UTF-8 *)

Definition is_continuation (c : Ascii.ascii) : bool := (128 <=? byte c) && (byte c <=? 191).

(** Whether [bytes.decode()] accepts the bytes. *)
Fixpoint utf8_valid (s : string) : bool :=
  match s with
  | EmptyString => true
  | String a s1 =>
      if byte a <=? 127 then utf8_valid s1
      else match s1 with
      | EmptyString => false
      | String b s2 =>
          if (194 <=? byte a) && (byte a <=? 223) then is_continuation b && utf8_valid s2
          else match s2 with
          | EmptyString => false
          | String c s3 =>
              if (224 <=? byte a) && (byte a <=? 239) then
                is_continuation b && is_continuation c && utf8_valid s3 &&
                negb ((byte a =? 224) && (byte b <? 160)) && negb ((byte a =? 237) && (159 <? byte b))
              else match s3 with
              | EmptyString => false
              | String d s4 =>
                  (240 <=? byte a) && (byte a <=? 244) && is_continuation b && is_continuation c &&
                  is_continuation d && utf8_valid s4 &&
                  negb ((byte a =? 240) && (byte b <? 144)) && negb ((byte a =? 244) && (143 <? byte b))
              end
          end
      end
  end.

Definition decode (bytes : string) : outcome string :=
  if utf8_valid bytes then Ok bytes else Err (ValueError "'utf-8' codec can't decode bytes").

(** ** The cryptography package *)

Class Cryptography := {
  (** [Argon2id(salt, length=32, iterations, lanes, memory_cost).derive(key)];
      costs it does not support are a [ValueError]. *)
  argon2id : string -> Argon2Cost -> string -> outcome string;
  (** [AESGCM(key).encrypt(nonce, data, associated_data)] and [.decrypt], which
      raises [InvalidTag] for anything it did not produce. *)
  aes_gcm_encrypt : string -> string -> string -> string -> string;
  aes_gcm_decrypt : string -> string -> string -> string -> option string;
}.

(** What the code relies on: the cost of new secrets is supported; decryption
    undoes encryption, and refuses other associated data; the tag is appended. *)
Class CryptographyLaws `{Cryptography} := {
  argon2id_new_cost : forall salt key, exists aes_key, argon2id salt NEW_SECRET_COST key = Ok aes_key;
  decrypt_encrypted : forall key nonce data associated,
    aes_gcm_decrypt key nonce (aes_gcm_encrypt key nonce data associated) associated = Some data;
  decrypt_other_data : forall key nonce data associated associated',
    associated <> associated' ->
    aes_gcm_decrypt key nonce (aes_gcm_encrypt key nonce data associated) associated' = None;
  encrypted_length : forall key nonce data associated,
    (GCM_TAG_SIZE_BYTES <= str_len (aes_gcm_encrypt key nonce data associated))%nat;
}.

(** ** Encrypting and decrypting *)

Definition associated_data (setting : string) : string := FORMAT_VERSION +:+ ":" +:+ setting.

Section Secrets.
Context `{Cryptography}.

(** [_aes_key] *)
Definition aes_key (secrets_key salt : string) (cost : Argon2Cost) : outcome string :=
  argon2id salt cost secrets_key.

(** [encrypt_secret] after the random bytes are drawn. *)
Definition encrypt_with (salt nonce plaintext secrets_key setting : string) : outcome string :=
  let? key := aes_key secrets_key salt NEW_SECRET_COST in
  let ciphertext := aes_gcm_encrypt key nonce plaintext (associated_data setting) in
  Ok (join "$" [FORMAT_VERSION; KEY_DERIVATION_NAME; encoded_cost NEW_SECRET_COST; b64encode salt;
                b64encode (nonce +:+ ciphertext)]).

Definition encrypt_secret (plaintext secrets_key setting : string) : host string :=
  let* salt := urandom SALT_SIZE_BYTES in
  let* nonce := urandom NONCE_SIZE_BYTES in
  of_outcome (encrypt_with salt nonce plaintext secrets_key setting).

(** [m=(\d+),t=(\d+),p=(\d+)] on the whole text; a run of digits has no comma. *)
Definition cost_groups (encoded : string) : option (string * string * string) :=
  match split_on "," encoded with
  | [m; t; p] =>
      if startswith "m=" m && startswith "t=" t && startswith "p=" p &&
         isdigit (removeprefix "m=" m) && isdigit (removeprefix "t=" t) && isdigit (removeprefix "p=" p)
      then Some (removeprefix "m=" m, removeprefix "t=" t, removeprefix "p=" p)
      else None
  | _ => None
  end.

Definition within (n maximum : Z) : bool := (0 <? n) && (n <=? maximum).

Definition reasonable (c : Argon2Cost) : bool :=
  within (memory_kib c) (memory_kib MAXIMUM_COST) && within (iterations c) (iterations MAXIMUM_COST) &&
  within (lanes c) (lanes MAXIMUM_COST).

Definition parse_cost (encoded : string) : outcome Argon2Cost :=
  match cost_groups encoded with
  | None => Err (ConfigurationError ("Encrypted secret has malformed Argon2id parameters: " +:+ encoded))
  | Some (m, t, p) =>
      let? memory := int_of_digits m in
      let? time := int_of_digits t in
      let? parallel := int_of_digits p in
      let cost := {| memory_kib := memory; iterations := time; lanes := parallel |} in
      if negb (reasonable cost)
      then Err (ConfigurationError ("Encrypted secret asks for an unreasonable cost: " +:+ encoded))
      else Ok cost
  end.

Definition base64_part (text part_name : string) : outcome string :=
  match b64decode text with
  | Some bytes => Ok bytes
  | None => Err (ConfigurationError ("Encrypted secret has an invalid " +:+ part_name))
  end.

Definition decrypt_secret (blob secrets_key setting : string) : outcome string :=
  match split_on "$" blob with
  | [version; derivation; cost_text; salt_text; payload_text] =>
      if String.eqb version FORMAT_VERSION && String.eqb derivation KEY_DERIVATION_NAME then
        let? cost := parse_cost cost_text in
        let? salt := base64_part salt_text "salt" in
        let? payload := base64_part payload_text "payload" in
        if negb (str_len salt =? SALT_SIZE_BYTES)%nat ||
           (str_len payload <? NONCE_SIZE_BYTES + GCM_TAG_SIZE_BYTES)%nat
        then Err (ConfigurationError ("The encrypted " +:+ setting +:+ " is truncated"))
        else
          let nonce := String.substring 0 NONCE_SIZE_BYTES payload in
          let ciphertext := drop_chars NONCE_SIZE_BYTES payload in
          let? key := aes_key secrets_key salt cost in
          match aes_gcm_decrypt key nonce ciphertext (associated_data setting) with
          | Some plaintext => decode plaintext
          | None => Err (ConfigurationError ("Failed to decrypt the " +:+ setting +:+
                      " (wrong key, or the secret was altered)"))
          end
      else Err (ConfigurationError ("The encrypted " +:+ setting +:+ " uses an old or unknown format; " +:+
                  "run `make encrypt-secrets` to encrypt it again"))
  | _ => Err (ConfigurationError ("The encrypted " +:+ setting +:+ " uses an old or unknown format; " +:+
                "run `make encrypt-secrets` to encrypt it again"))
  end.

(** What the configuration file passes on: a value that is not a text has no
    [split]. *)
Definition decrypt_value (blob : pyval) (secrets_key setting : string) : outcome string :=
  match as_str blob with
  | Some text => decrypt_secret text secrets_key setting
  | None => Err (AttributeError "object has no attribute 'split'")
  end.
End Secrets.

(** ** base64 reads back *)

Lemma b64_alphabet v :
  0 <= v < 64 ->
  b64_value (b64_char v) = Some v /\ char_eqb (b64_char v) (chr 61) = false /\
  char_eqb (chr 36) (b64_char v) = false.
Proof.
  assert (H : forallb (fun n => match b64_value (b64_char (Z.of_nat n)) with
      | Some w => (w =? Z.of_nat n) && negb (char_eqb (b64_char (Z.of_nat n)) (chr 61)) &&
                  negb (char_eqb (chr 36) (b64_char (Z.of_nat n)))
      | None => false end) (seq 0 64) = true) by (vm_compute; reflexivity).
  intros Hv. rewrite forallb_forall in H. specialize (H (Z.to_nat v)).
  rewrite in_seq, Z2Nat.id in H by lia. specialize (H ltac:(lia)).
  destruct (b64_value _) as [w|]; [|discriminate].
  apply andb_true_iff in H as [H H3]. apply andb_true_iff in H as [H1 H2].
  apply Z.eqb_eq in H1. apply negb_true_iff in H2, H3. subst. auto.
Qed.

Lemma byte_bound c : 0 <= byte c < 256.
Proof. unfold byte, ord. pose proof (Ascii.nat_ascii_bounded c). lia. Qed.

Lemma of_byte_byte c z : z = byte c -> of_byte z = c.
Proof.
  intros ->. unfold of_byte, byte, chr, ord. rewrite Nat2Z.id. apply Ascii.ascii_nat_embedding.
Qed.

(** The loop reads one digit. *)
Lemma b64_loop_digit v rest q left :
  0 <= v < 64 ->
  b64_loop (String (b64_char v) rest) q left 0 false =
    if q =? 0 then b64_loop rest 1 v 0 false
    else if q =? 1 then String (of_byte (left * 4 + v / 16)) <$> b64_loop rest 2 (v mod 16) 0 false
    else if q =? 2 then String (of_byte (left * 16 + v / 4)) <$> b64_loop rest 3 (v mod 4) 0 false
    else String (of_byte (left * 64 + v)) <$> b64_loop rest 0 0 0 false.
Proof.
  intros Hv. destruct (b64_alphabet v Hv) as (Hd & He & _). cbn [b64_loop]. rewrite He, Hd. reflexivity.
Qed.

Ltac bytes := pose_bounds; Z.to_euclidean_division_equations; lia
with pose_bounds :=
  repeat match goal with
  | c : Ascii.ascii |- _ =>
      lazymatch goal with H : 0 <= byte c < 256 |- _ => fail | _ => pose proof (byte_bound c) end
  end.

Lemma b64_loop_encode s : b64_loop (b64encode s) 0 0 0 false = Some s.
Proof.
  remember (str_len s) as n eqn:Hn. revert s Hn. induction n as [n IH] using lt_wf_ind. intros s Hn.
  destruct s as [|a [|b [|c s]]]; [reflexivity|..]; cbn [b64encode].
  - rewrite !b64_loop_digit by bytes. cbn -[of_byte Z.mul Z.div Z.modulo byte b64_char].
    rewrite (of_byte_byte a) by bytes. reflexivity.
  - rewrite !b64_loop_digit by bytes. cbn -[of_byte Z.mul Z.div Z.modulo byte b64_char].
    rewrite (of_byte_byte a), (of_byte_byte b) by bytes. reflexivity.
  - rewrite !b64_loop_digit by bytes. cbn -[of_byte Z.mul Z.div Z.modulo byte b64_char b64_loop b64encode].
    rewrite (IH (str_len s)) by (subst n; unfold str_len; cbn [String.length]; lia || reflexivity).
    cbn -[of_byte Z.mul Z.div Z.modulo byte].
    rewrite (of_byte_byte a), (of_byte_byte b), (of_byte_byte c) by bytes. reflexivity.
Qed.

Lemma b64decode_encode s : b64decode (b64encode s) = Some s.
Proof.
  unfold b64decode. rewrite b64_loop_encode.
  destruct s as [|a [|b [|c s]]]; [reflexivity|..]; cbn [b64encode startswith];
    (replace (char_eqb _ _) with false; [reflexivity|]);
    symmetry; unfold char_eqb; rewrite Ascii.eqb_sym; apply b64_alphabet; bytes.
Qed.

Lemma b64encode_lacks s : lacks (chr 36) (b64encode s) = true.
Proof.
  remember (str_len s) as n eqn:Hn. revert s Hn. induction n as [n IH] using lt_wf_ind. intros s Hn.
  assert (Hc : forall v, 0 <= v < 64 -> negb (char_eqb (chr 36) (b64_char v)) = true)
    by (intros v Hv; apply negb_true_iff, b64_alphabet, Hv).
  unfold lacks in *. destruct s as [|a [|b [|c s]]]; [reflexivity|..]; cbn [b64encode str_all];
    rewrite !Hc by bytes; try reflexivity.
  simpl andb. apply (IH (str_len s)); [|reflexivity]. subst n. unfold str_len. cbn [String.length]. lia.
Qed.

(** ** Texts in parts *)

Lemma drop_chars_app a b : drop_chars (str_len a) (a +:+ b) = b.
Proof. induction a as [|c a IH]; [reflexivity | exact IH]. Qed.

Lemma substring_app a b : String.substring 0 (str_len a) (a +:+ b) = a.
Proof.
  induction a as [|c a IH]; [destruct b; reflexivity|].
  change (String c (String.substring 0 (str_len a) (a +:+ b)) = String c a). rewrite IH. reflexivity.
Qed.

(** ** Properties *)

Lemma split_secret salt payload :
  let parts := [FORMAT_VERSION; KEY_DERIVATION_NAME; encoded_cost NEW_SECRET_COST; b64encode salt;
                b64encode payload] in
  split_on "$" (join "$" parts) = parts.
Proof.
  apply (split_on_join (chr 36)); [discriminate|]. cbn [forallb]. rewrite !b64encode_lacks.
  vm_compute. reflexivity.
Qed.

(** What encryption produces, taken apart by decryption: only the cipher is left. *)
Lemma decrypt_of_encrypted `{CryptographyLaws} salt nonce plaintext secrets_key setting blob other :
  str_len salt = SALT_SIZE_BYTES -> str_len nonce = NONCE_SIZE_BYTES ->
  encrypt_with salt nonce plaintext secrets_key setting = Ok blob ->
  exists key, decrypt_secret blob secrets_key other =
    match aes_gcm_decrypt key nonce (aes_gcm_encrypt key nonce plaintext (associated_data setting))
            (associated_data other) with
    | Some text => decode text
    | None => Err (ConfigurationError ("Failed to decrypt the " +:+ other +:+
                     " (wrong key, or the secret was altered)"))
    end.
Proof.
  intros Hs Hn He. unfold encrypt_with in He. apply obind_ok in He as (key & Hk & He).
  set (payload := nonce +:+ _) in He. exists key. unfold decrypt_secret.
  assert (split_on "$" blob = [FORMAT_VERSION; KEY_DERIVATION_NAME; encoded_cost NEW_SECRET_COST;
    b64encode salt; b64encode payload]) as ->.
  { rewrite <- (split_secret salt payload). congruence. }
  subst payload.
  rewrite !String.eqb_refl. simpl andb. cbv iota.
  replace (parse_cost (encoded_cost NEW_SECRET_COST)) with (Ok NEW_SECRET_COST) by (vm_compute; reflexivity).
  unfold base64_part. rewrite !b64decode_encode. cbn [obind]. rewrite Hs, Nat.eqb_refl.
  destruct (Nat.ltb_spec (str_len (nonce +:+ aes_gcm_encrypt key nonce plaintext (associated_data setting)))
              (NONCE_SIZE_BYTES + GCM_TAG_SIZE_BYTES)) as [Hl|_].
  - pose proof (encrypted_length key nonce plaintext (associated_data setting)).
    rewrite str_len_app, Hn in Hl. lia.
  - cbn [negb orb]. rewrite Hk. cbn [obind].
    rewrite <- Hn, substring_app, (drop_chars_app nonce). reflexivity.
Qed.

Lemma decrypt_same `{CryptographyLaws} salt nonce plaintext secrets_key setting blob :
  str_len salt = SALT_SIZE_BYTES -> str_len nonce = NONCE_SIZE_BYTES -> utf8_valid plaintext = true ->
  encrypt_with salt nonce plaintext secrets_key setting = Ok blob ->
  decrypt_secret blob secrets_key setting = Ok plaintext.
Proof.
  intros Hs Hn Hu He.
  destruct (decrypt_of_encrypted salt nonce plaintext secrets_key setting blob setting Hs Hn He) as (k & ->).
  rewrite decrypt_encrypted. unfold decode. rewrite Hu. reflexivity.
Qed.

(** C4: a password encrypted for a setting is read back with the same key, for
    every salt and nonce; read as the secret of any other setting it is refused,
    so two stored secrets cannot be swapped. *)
Theorem secret_round_trip `{CryptographyLaws} (salt nonce plaintext secrets_key setting : string) :
  str_len salt = SALT_SIZE_BYTES -> str_len nonce = NONCE_SIZE_BYTES -> utf8_valid plaintext = true ->
  exists blob, encrypt_with salt nonce plaintext secrets_key setting = Ok blob /\
    decrypt_secret blob secrets_key setting = Ok plaintext /\
    forall other, other <> setting ->
      decrypt_secret blob secrets_key other =
        Err (ConfigurationError ("Failed to decrypt the " +:+ other +:+ " (wrong key, or the secret was altered)")).
Proof.
  intros Hs Hn Hu. destruct (argon2id_new_cost salt secrets_key) as (key & Hk).
  assert (He : exists blob, encrypt_with salt nonce plaintext secrets_key setting = Ok blob)
    by (unfold encrypt_with, aes_key; rewrite Hk; eexists; reflexivity).
  destruct He as (blob & He). exists blob. split; [exact He|]. split.
  - exact (decrypt_same salt nonce plaintext secrets_key setting blob Hs Hn Hu He).
  - intros other Ho.
    destruct (decrypt_of_encrypted salt nonce plaintext secrets_key setting blob other Hs Hn He) as (k & ->).
    rewrite decrypt_other_data; [reflexivity|]. intros E. apply Ho. symmetry.
    unfold associated_data in E. apply str_app_inv_l, str_app_inv_l in E. exact E.
Qed.

Lemma within_spec n maximum : within n maximum = true <-> 0 < n <= maximum.
Proof. unfold within. rewrite andb_true_iff, Z.ltb_lt, Z.leb_le. reflexivity. Qed.

Lemma parse_cost_reasonable encoded cost :
  parse_cost encoded = Ok cost ->
  0 < memory_kib cost <= 4194304 /\ 0 < iterations cost <= 64 /\ 0 < lanes cost <= 64.
Proof.
  unfold parse_cost. destruct (cost_groups encoded) as [[[m t] p]|]; [|discriminate]. intros H.
  inv_ok H. inv_ok H. inv_ok H. destruct (reasonable _) eqn:E; [|discriminate]. injection H as <-.
  unfold reasonable in E. rewrite !andb_true_iff, !within_spec in E. tauto.
Qed.

(** C24: a blob cannot make the installer exhaust memory or time: what decryption
    does only depends on keys derived from a 16-byte salt with a cost inside the
    limits; a derivation outside of them is never asked for. *)
Theorem derivations_bounded (c1 c2 : Cryptography) (blob secrets_key setting : string) :
  (forall key salt cost, str_len salt = SALT_SIZE_BYTES ->
     0 < memory_kib cost <= 4194304 -> 0 < iterations cost <= 64 -> 0 < lanes cost <= 64 ->
     @argon2id c1 salt cost key = @argon2id c2 salt cost key) ->
  (forall key nonce data associated,
     @aes_gcm_decrypt c1 key nonce data associated = @aes_gcm_decrypt c2 key nonce data associated) ->
  @decrypt_secret c1 blob secrets_key setting = @decrypt_secret c2 blob secrets_key setting.
Proof.
  intros Hk Hd. unfold decrypt_secret.
  destruct (split_on "$" blob) as [|v [|d [|cost_text [|salt_text [|payload_text [|]]]]]]; try reflexivity.
  destruct (_ && _); [|reflexivity].
  destruct (parse_cost cost_text) as [cost|] eqn:Ec; [|reflexivity]. cbn [obind].
  destruct (base64_part salt_text _) as [salt|]; [|reflexivity]. cbn [obind].
  destruct (base64_part payload_text _) as [payload|]; [|reflexivity]. cbn [obind].
  destruct (Nat.eqb_spec (str_len salt) SALT_SIZE_BYTES) as [Hs|]; [|reflexivity]. cbn [negb orb].
  destruct (_ <? _)%nat; [reflexivity|]. unfold aes_key. apply parse_cost_reasonable in Ec as (Hm & Ht & Hl).
  rewrite Hk by assumption. destruct (argon2id _ _ _); [|reflexivity]. cbn [obind]. rewrite Hd. reflexivity.
Qed.

(** ** A cipher for the witnesses

    The key is the secrets key itself; the ciphertext shows the associated data, each
    of its characters after a mark, so that no other associated data fits. *)

Fixpoint marked (s : string) : string :=
  match s with
  | EmptyString => "0"
  | String c s' => String (chr 49) (String c (marked s'))
  end.

Lemma marked_other a b rest : a <> b -> startswith (marked b) (marked a +:+ rest) = false.
Proof.
  revert b; induction a as [|c a IH]; intros [|d b] H; [congruence | reflexivity | reflexivity|].
  change (char_eqb (chr 49) (chr 49) && (char_eqb d c && startswith (marked b) (marked a +:+ rest)) = false).
  destruct (char_eqb d c) eqn:E; [|apply andb_false_r]. apply Ascii.eqb_eq in E as ->.
  rewrite IH by congruence. apply andb_false_r.
Qed.

Definition toy_tag : string := "0123456789abcdef".

Definition toy_cryptography : Cryptography := {|
  argon2id := fun salt cost key => Ok key;
  aes_gcm_encrypt := fun key nonce data associated => toy_tag +:+ marked associated +:+ data;
  aes_gcm_decrypt := fun key nonce data associated =>
    if startswith (toy_tag +:+ marked associated) data
    then Some (drop_chars (str_len (toy_tag +:+ marked associated)) data) else None |}.

Lemma startswith_same_prefix p a s : startswith (p +:+ a) (p +:+ s) = startswith a s.
Proof.
  induction p as [|c p IH]; [reflexivity|].
  change (char_eqb c c && startswith (p +:+ a) (p +:+ s) = startswith a s).
  unfold char_eqb. rewrite Ascii.eqb_refl. exact IH.
Qed.

#[export] Instance toy_laws : @CryptographyLaws toy_cryptography.
Proof.
  constructor; intros; cbn [argon2id aes_gcm_encrypt aes_gcm_decrypt toy_cryptography].
  - eauto.
  - rewrite <- str_app_assoc, startswith_app, drop_chars_app. reflexivity.
  - rewrite startswith_same_prefix, marked_other by congruence. reflexivity.
  - rewrite str_len_app. unfold GCM_TAG_SIZE_BYTES. simpl (str_len toy_tag). lia.
Qed.

Lemma secret_round_trip_witness :
  exists blob,
    @encrypt_with toy_cryptography "0123456789abcdef" "0123456789ab" "pass" "key" LUKS_PASSWORD_SECRET = Ok blob /\
    @decrypt_secret toy_cryptography blob "key" USER_PASSWORD_SECRET =
      Err (ConfigurationError "Failed to decrypt the user_password (wrong key, or the secret was altered)").
Proof.
  destruct (@secret_round_trip toy_cryptography toy_laws "0123456789abcdef" "0123456789ab" "pass" "key"
    LUKS_PASSWORD_SECRET eq_refl eq_refl eq_refl) as (blob & He & _ & Ho).
  exists blob. split; [exact He|]. apply (Ho USER_PASSWORD_SECRET). discriminate.
Defined.

Lemma derivations_bounded_witness :
  @decrypt_secret toy_cryptography "dali-v2$argon2id$m=8388608,t=1,p=1$MDEyMw==$MDEy" "key" "secret" =
  @decrypt_secret {| argon2id := fun salt cost key =>
                       if reasonable cost then Ok key else Err (ValueError "out of memory");
                     aes_gcm_encrypt := @aes_gcm_encrypt toy_cryptography;
                     aes_gcm_decrypt := @aes_gcm_decrypt toy_cryptography |}
    "dali-v2$argon2id$m=8388608,t=1,p=1$MDEyMw==$MDEy" "key" "secret".
Proof.
  apply derivations_bounded; [|reflexivity]. intros key salt cost _ Hm Ht Hl. cbn [argon2id toy_cryptography].
  replace (reasonable cost) with true; [reflexivity|]. symmetry. unfold reasonable.
  rewrite !andb_true_iff, !within_spec. auto.
Defined.
