(* ===== verification/SecretsFile.v ===== *)
(** * Writing encrypted passwords into config.yaml ([config/secrets_file.py])

    The file is edited line by line; the two regular expressions are predicates on
    a line.  [yaml.safe_load] is a parameter. *)

From S2P Require Import Prelude PyStr PyVal Effects Command Questions Host Models Export Schema ConfigBuilder ConfigFile.

Local Open Scope outcome_scope.

(** ** Lines *)

Definition file_lines (text : string) : list string := split_on nl text.

(** [[ \t]] *)
Definition is_blank (c : Ascii.ascii) : bool := char_eqb c (chr 32) || char_eqb c (chr 9).

Fixpoint indent_of (line : string) : string :=
  match line with
  | String c line' => if is_blank c then String c (indent_of line') else ""
  | EmptyString => ""
  end.

(** [^(?P<indent>[ \t]+){key}:.*$] matches the line. *)
Definition is_secret_entry (key line : string) : bool :=
  truthy (indent_of line) && startswith (key +:+ ":") (lstrip_by is_blank line).

(** [SECRETS_SECTION_PATTERN] matches the line: the key, blanks, and nothing else
    than a remark. *)
Definition is_secrets_section (line : string) : bool :=
  startswith "secrets:" line &&
  match lstrip_by is_blank (removeprefix "secrets:" line) with
  | EmptyString => true
  | String c _ => char_eqb c (chr 35)
  end.

(** [pattern.sub(..., count=1)]: the first line that matches. *)
Fixpoint subst_first {A} (f : A -> bool) (g : A -> list A) (l : list A) : list A :=
  match l with
  | [] => []
  | a :: l' => if f a then g a ++ l' else a :: subst_first f g l'
  end.

Definition secret_entry (key encrypted_value : string) : string :=
  key +:+ ": '" +:+ encrypted_value +:+ "'".

Definition set_secret_line (config_text key encrypted_value : string) : string :=
  let entry := secret_entry key encrypted_value in
  let config_lines := file_lines config_text in
  if any (is_secret_entry key) config_lines then
    join nl (subst_first (is_secret_entry key) (fun line => [indent_of line +:+ entry]) config_lines)
  else if any is_secrets_section config_lines then
    join nl (subst_first is_secrets_section (fun line => [line; "  " +:+ entry]) config_lines)
  else rstrip_chars nl config_text +:+ nl +:+ nl +:+ "secrets:" +:+ nl +:+ "  " +:+ entry +:+ nl.

(** The fields of [EncryptedSecretsConfig] with their values. *)
Definition secret_fields (secrets : EncryptedSecretsConfig) : list (string * string) := [
  ("luks_password_encrypted", luks_password_encrypted secrets);
  ("user_password_encrypted", user_password_encrypted secrets)].

Definition set_secret_lines (config_text : string) (secrets : EncryptedSecretsConfig) : string :=
  fold_left (fun text field => if truthy field.2 then set_secret_line text field.1 field.2 else text)
    (secret_fields secrets) config_text.

Section SecretsFile.
Context (safe_load : string -> yaml_result).

Definition secret_stored (stored : dict string pyval) (field : string * string) : bool :=
  negb (truthy field.2) ||
  match dict_get stored ("secrets." +:+ field.1) with
  | Some v => py_eq v (PStr field.2)
  | None => false
  end.

(** [config_file_setting_values(yaml.safe_load(config_text) or {})] *)
Definition stored_values (config_text config_path : string) : outcome (dict string pyval) :=
  match safe_load config_text with
  | YAMLError error =>
      Err (ConfigurationError ("Editing " +:+ config_path +:+ " would break its YAML: " +:+ error))
  | Loaded document => config_file_setting_values (if py_bool document then document else PDict [])
  end.

Definition verify_stored (config_text : string) (secrets : EncryptedSecretsConfig) (config_path : string)
    : outcome unit :=
  let? stored := stored_values config_text config_path in
  match List.find (fun field => negb (secret_stored stored field)) (secret_fields secrets) with
  | Some field =>
      Err (ConfigurationError ("Could not place " +:+ field.1 +:+ " under 'secrets' in " +:+ config_path))
  | None => Ok tt
  end.

Definition write_encrypted_secrets (config_path : string) (secrets : EncryptedSecretsConfig) : host unit :=
  let* found := exists_ config_path in
  if negb found
  then Raise (ConfigurationError ("Configuration file not found: " +:+ config_path))
  else
    let* config_text := read_text_file config_path in
    let config_text' := set_secret_lines config_text secrets in
    of_outcome (verify_stored config_text' secrets config_path) ;;
    write_text_file config_path config_text'.
End SecretsFile.

(** ** Lines, joined and edited *)

Lemma split_loop_app c acc a b :
  split_loop (String c "") 0 acc (a +:+ String c b) =
  split_loop (String c "") 0 acc a ++ split_loop (String c "") 0 "" b.
Proof.
  revert acc; induction a as [|d a IH]; intros acc.
  - change ("" +:+ String c b) with (String c b). cbn [split_loop startswith].
    unfold char_eqb. rewrite Ascii.eqb_refl. reflexivity.
  - change (String d a +:+ String c b) with (String d (a +:+ String c b)). cbn [split_loop startswith].
    destruct (char_eqb c d); cbn [andb str_len String.length Nat.sub]; rewrite IH; reflexivity.
Qed.

Lemma file_lines_app a b : file_lines (a +:+ nl +:+ b) = file_lines a ++ file_lines b.
Proof. apply split_loop_app. Qed.

Lemma file_lines_one line : lacks (chr 10) line = true -> file_lines line = [line].
Proof. apply (split_loop_lacks (chr 10) "" line). Qed.

Lemma file_lines_nonempty text : file_lines text <> [].
Proof.
  unfold file_lines, split_on. generalize "". intros acc. revert acc.
  induction text as [|c text IH]; intros acc; cbn [split_loop]; [discriminate|].
  destruct (startswith nl (String c text)); [discriminate | apply IH].
Qed.

Lemma lacks_snoc c s d : lacks c s = true -> char_eqb c d = false -> lacks c (s +:+ String d "") = true.
Proof. intros H Hd. unfold lacks. rewrite str_all_app. cbn [str_all]. rewrite Hd. apply andb_true_iff. auto. Qed.

Lemma file_lines_lacks text : forallb (lacks (chr 10)) (file_lines text) = true.
Proof.
  unfold file_lines, split_on. assert (Ha : lacks (chr 10) "" = true) by reflexivity. revert Ha.
  generalize "". induction text as [|c text IH]; intros acc Ha; cbn [split_loop forallb].
  - rewrite Ha. reflexivity.
  - change (startswith nl (String c text)) with (char_eqb (chr 10) c && true). rewrite andb_true_r.
    destruct (char_eqb (chr 10) c) eqn:E; [|apply IH, lacks_snoc; assumption].
    cbn [forallb str_len nl String.length Nat.sub]. rewrite Ha. apply IH. reflexivity.
Qed.

Lemma file_lines_join l : l <> [] -> forallb (lacks (chr 10)) l = true -> file_lines (join nl l) = l.
Proof. apply (split_on_join (chr 10)). Qed.

(** The trailing line feeds that [rstrip] drops are empty lines. *)
Abbreviation line_feeds n := (Nat.iter n (fun s : string => nl +:+ s) "").

Lemma rstrip_line_feeds text : exists n, text = rstrip_chars nl text +:+ line_feeds n.
Proof.
  unfold rstrip_chars. change (String.list_ascii_of_string nl) with [chr 10]. cbn [existsb].
  induction text as [|c text (n & IH)]; [exists 0; reflexivity|]. cbn [rstrip_by].
  destruct (rstrip_by _ text) as [|d r].
  - rewrite orb_false_r. destruct (char_eqb c (chr 10)) eqn:E.
    + apply Ascii.eqb_eq in E as ->. exists (S n). rewrite IH. reflexivity.
    + exists n. rewrite IH. reflexivity.
  - exists n. rewrite IH at 1. reflexivity.
Qed.

Lemma file_lines_rstrip text :
  exists n, file_lines text = file_lines (rstrip_chars nl text) ++ repeat "" n.
Proof.
  destruct (rstrip_line_feeds text) as (n & Ht). exists n. rewrite Ht at 1. clear Ht.
  generalize (rstrip_chars nl text). intros s. induction n as [|n IH].
  - cbn [Nat.iter repeat]. rewrite str_app_nil_r, app_nil_r. reflexivity.
  - change (line_feeds (S n)) with (nl +:+ line_feeds n). rewrite file_lines_app.
    f_equal. clear IH. induction n as [|n IH]; [reflexivity|].
    change (line_feeds (S n)) with ("" +:+ nl +:+ line_feeds n). rewrite file_lines_app, IH. reflexivity.
Qed.

(** The first element that satisfies a predicate, and the list around it. *)
Definition first_at {A} (f : A -> bool) (l a : list A) (x : A) (b : list A) : Prop :=
  l = a ++ x :: b /\ existsb f a = false /\ f x = true.

Lemma first_at_exists {A} (f : A -> bool) l :
  existsb f l = true -> exists a x b, first_at f l a x b.
Proof.
  induction l as [|y l IH]; simpl; [discriminate|]. destruct (f y) eqn:E; simpl.
  - intros _. exists [], y, l. split; [reflexivity|]. auto.
  - intros H. destruct (IH H) as (a & x & b & -> & Ha & Hx). exists (y :: a), x, b.
    split; [reflexivity|]. simpl. rewrite E. auto.
Qed.

Lemma subst_first_at {A} (f : A -> bool) g l a x b :
  first_at f l a x b -> subst_first f g l = a ++ g x ++ b.
Proof.
  intros (-> & Ha & Hx). induction a as [|y a IH]; simpl in *; [rewrite Hx; reflexivity|].
  apply orb_false_iff in Ha as [Hy Ha]. rewrite Hy, IH by exact Ha. reflexivity.
Qed.

Lemma find_app {A} (f : A -> bool) a b :
  List.find f (a ++ b) = match List.find f a with Some x => Some x | None => List.find f b end.
Proof. induction a as [|y a IH]; simpl; [reflexivity|]. destruct (f y); auto. Qed.

Lemma find_existsb {A} (f : A -> bool) l : existsb f l = false <-> List.find f l = None.
Proof.
  induction l as [|y l IH]; simpl; [tauto|]. destruct (f y); simpl; [split; discriminate | exact IH].
Qed.

(** ** The line of a secret *)

Definition SECRET_KEYS : list string := ["luks_password_encrypted"; "user_password_encrypted"].

Lemma indent_blank line : str_all is_blank (indent_of line) = true.
Proof.
  induction line as [|c line IH]; [reflexivity|]. simpl. destruct (is_blank c) eqn:E; [|reflexivity].
  simpl. rewrite E. exact IH.
Qed.

(** An indented text that starts with no blank. *)
Lemma indented indent s :
  str_all is_blank indent = true -> match s with String c _ => is_blank c = false | _ => True end ->
  lstrip_by is_blank (indent +:+ s) = s /\ indent_of (indent +:+ s) = indent.
Proof.
  intros Hi Hs. induction indent as [|c indent IH].
  - change ("" +:+ s) with s. destruct s as [|d s]; [auto|]. simpl. rewrite Hs. auto.
  - cbn [str_all] in Hi. apply andb_true_iff in Hi as [Hc Hi]. destruct (IH Hi) as [H1 H2].
    change (String c indent +:+ s) with (String c (indent +:+ s)). cbn [lstrip_by indent_of].
    rewrite Hc, H2. auto.
Qed.

Lemma secret_entry_line key other indent v :
  key ∈ SECRET_KEYS -> other ∈ SECRET_KEYS -> str_all is_blank indent = true -> truthy indent = true ->
  let line := indent +:+ secret_entry key v in
  lstrip_by is_blank line = secret_entry key v /\ indent_of line = indent /\
  is_secret_entry other line = String.eqb other key.
Proof.
  intros Hk Ho Hi Ht line. subst line.
  assert (Hs : match secret_entry key v with String c _ => is_blank c = false | _ => True end).
  { unfold SECRET_KEYS in Hk. repeat setoid_rewrite elem_of_cons in Hk.
    destruct Hk as [->|[->|[]%elem_of_nil]]; reflexivity. }
  destruct (indented indent (secret_entry key v) Hi Hs) as [H1 H2]. split; [exact H1|].
  split; [exact H2|]. unfold is_secret_entry. rewrite H1, H2, Ht. unfold SECRET_KEYS in Hk, Ho.
  repeat setoid_rewrite elem_of_cons in Hk. repeat setoid_rewrite elem_of_cons in Ho.
  destruct Hk as [->|[->|[]%elem_of_nil]]; destruct Ho as [->|[->|[]%elem_of_nil]]; reflexivity.
Qed.

Lemma join_cons s l : l <> [] -> join nl (s :: l) = s +:+ nl +:+ join nl l.
Proof. destruct l; [congruence | reflexivity]. Qed.

Lemma join_file_lines text : join nl (file_lines text) = text.
Proof.
  assert (H : forall acc, join nl (split_loop nl 0 acc text) = acc +:+ text /\ split_loop nl 0 acc text <> []);
    [|apply (H "")].
  induction text as [|c text IH]; intros acc; cbn [split_loop].
  - rewrite str_app_nil_r. split; [reflexivity | discriminate].
  - change (startswith nl (String c text)) with (char_eqb (chr 10) c && true). rewrite andb_true_r.
    destruct (char_eqb (chr 10) c) eqn:E.
    + cbn [str_len nl String.length Nat.sub]. split; [|discriminate].
      rewrite join_cons by apply IH. rewrite (proj1 (IH "")). apply Ascii.eqb_eq in E as <-. reflexivity.
    + split; [|apply IH]. rewrite (proj1 (IH _)), str_app_assoc. reflexivity.
Qed.

Lemma secret_entry_lacks key v :
  key ∈ SECRET_KEYS -> lacks (chr 10) v = true -> lacks (chr 10) (secret_entry key v) = true.
Proof.
  intros Hk Hv. unfold lacks, secret_entry in *. rewrite !str_all_app, Hv.
  unfold SECRET_KEYS in Hk. repeat setoid_rewrite elem_of_cons in Hk.
  destruct Hk as [->|[->|[]%elem_of_nil]]; reflexivity.
Qed.

Lemma blank_lacks indent : str_all is_blank indent = true -> lacks (chr 10) indent = true.
Proof.
  induction indent as [|c indent IH]; [reflexivity|]. unfold lacks in *. cbn [str_all].
  intros [Hc H]%andb_true_iff. rewrite (IH H), andb_true_r. unfold is_blank in Hc.
  apply orb_true_iff in Hc as [Hc|Hc]; apply Ascii.eqb_eq in Hc as ->; reflexivity.
Qed.

(** No line is the entry of two secrets. *)
Lemma entry_of_one key other line :
  key ∈ SECRET_KEYS -> other ∈ SECRET_KEYS -> other <> key ->
  is_secret_entry key line = true -> is_secret_entry other line = false.
Proof.
  intros Hk Ho Hne [_ H]%andb_true_iff. unfold is_secret_entry. apply andb_false_iff. right.
  apply startswith_spec in H as (rest & ->). unfold SECRET_KEYS in Hk, Ho.
  repeat setoid_rewrite elem_of_cons in Hk. repeat setoid_rewrite elem_of_cons in Ho.
  destruct Hk as [->|[->|[]%elem_of_nil]]; destruct Ho as [->|[->|[]%elem_of_nil]]; congruence || reflexivity.
Qed.

(** What the edit leaves of the other lines. *)
Definition kept_line (key line : string) : bool := truthy line && negb (is_secret_entry key line).

Lemma filter_blank_lines key n : List.filter (kept_line key) (repeat "" n) = [].
Proof. induction n; [reflexivity | assumption]. Qed.

(** The lines of the edited file: those around the entry do not depend on the value. *)
Record edited (text key : string) (a : list string) (indent : string) (b : list string) : Prop := {
  edited_indent : str_all is_blank indent = true /\ truthy indent = true;
  edited_first : existsb (is_secret_entry key) a = false;
  edited_lines : forall v, lacks (chr 10) v = true ->
    file_lines (set_secret_line text key v) = a ++ (indent +:+ secret_entry key v) :: b;
  edited_kept : List.filter (kept_line key) (file_lines text) `sublist_of` a ++ b;
  edited_others : forall other, other ∈ SECRET_KEYS -> other <> key ->
    List.find (is_secret_entry other) (a ++ b) = List.find (is_secret_entry other) (file_lines text);
}.

Lemma lines_around (a b : list string) line :
  forallb (lacks (chr 10)) a = true -> forallb (lacks (chr 10)) b = true -> lacks (chr 10) line = true ->
  file_lines (join nl (a ++ line :: b)) = a ++ line :: b.
Proof.
  intros Ha Hb Hl. apply file_lines_join; [destruct a; discriminate|].
  rewrite forallb_app. cbn [forallb]. rewrite Ha, Hl, Hb. reflexivity.
Qed.

Lemma filter_sublist {A} (f : A -> bool) l : List.filter f l `sublist_of` l.
Proof. induction l as [|x l IH]; simpl; [constructor|]. destruct (f x); constructor; exact IH. Qed.

(** The file has an entry of the secret. *)
Lemma edited_entry text key :
  key ∈ SECRET_KEYS -> any (is_secret_entry key) (file_lines text) = true ->
  exists a indent b, edited text key a indent b.
Proof.
  intros Hk He. pose proof He as (a & x & b & Hat)%first_at_exists. exists a, (indent_of x), b.
  pose proof Hat as (El & Ha & Hx). pose proof (file_lines_lacks text) as Hl. rewrite El, forallb_app in Hl.
  cbn [forallb] in Hl. apply andb_true_iff in Hl as [Hla [Hlx Hlb]%andb_true_iff].
  assert (Hi : truthy (indent_of x) = true) by (unfold is_secret_entry in Hx; apply andb_true_iff in Hx; apply Hx).
  constructor.
  - split; [apply indent_blank | exact Hi].
  - exact Ha.
  - intros v Hv. unfold set_secret_line. rewrite He, (subst_first_at _ _ _ _ _ _ Hat).
    apply lines_around; [assumption..|]. unfold lacks in *. rewrite str_all_app.
    apply andb_true_iff. split; [apply (blank_lacks (indent_of x)), indent_blank | apply secret_entry_lacks; assumption].
  - rewrite El, List.filter_app. cbn [List.filter]. unfold kept_line at 2. rewrite Hx, andb_false_r.
    apply sublist_app; apply filter_sublist.
  - intros other Ho Hne. rewrite El, !find_app. cbn [List.find].
    rewrite (entry_of_one key other x); auto.
Qed.

(** It has a [secrets] section, and no entry. *)
Lemma edited_section text key :
  key ∈ SECRET_KEYS -> any (is_secret_entry key) (file_lines text) = false ->
  any is_secrets_section (file_lines text) = true -> exists a indent b, edited text key a indent b.
Proof.
  intros Hk He Hs. pose proof Hs as (a & x & b & Hat)%first_at_exists. exists (a ++ [x]), "  ", b.
  pose proof Hat as (El & _ & Hx). pose proof (file_lines_lacks text) as Hl. rewrite El, forallb_app in Hl.
  cbn [forallb] in Hl. apply andb_true_iff in Hl as [Hla [Hlx Hlb]%andb_true_iff].
  assert (Ea : (a ++ [x]) ++ b = file_lines text) by (rewrite <- app_assoc; symmetry; exact El).
  constructor.
  - split; reflexivity.
  - unfold any in He. rewrite <- Ea, existsb_app in He. apply orb_false_iff in He. apply He.
  - intros v Hv. unfold set_secret_line. rewrite He, Hs, (subst_first_at _ _ _ _ _ _ Hat).
    change (file_lines (join nl (a ++ [x] ++ ("  " +:+ secret_entry key v) :: b)) =
      (a ++ [x]) ++ ("  " +:+ secret_entry key v) :: b).
    rewrite app_assoc. apply lines_around; [|exact Hlb|].
    + rewrite forallb_app. cbn [forallb]. rewrite Hla, Hlx. reflexivity.
    + apply (secret_entry_lacks key v Hk Hv).
  - rewrite Ea. apply filter_sublist.
  - intros other _ _. rewrite Ea. reflexivity.
Qed.

(** It has neither. *)
Lemma edited_new_section text key :
  key ∈ SECRET_KEYS -> any (is_secret_entry key) (file_lines text) = false ->
  any is_secrets_section (file_lines text) = false -> exists a indent b, edited text key a indent b.
Proof.
  intros Hk He Hs. destruct (file_lines_rstrip text) as (n & El). set (r := rstrip_chars nl text) in El.
  exists (file_lines r ++ [""; "secrets:"]), "  ", [""]. constructor.
  - split; reflexivity.
  - unfold any in He. rewrite El, existsb_app in He. apply orb_false_iff in He as [He _].
    rewrite existsb_app, He. reflexivity.
  - intros v Hv. unfold set_secret_line. rewrite He, Hs. fold r.
    change (file_lines (r +:+ nl +:+ "" +:+ nl +:+ "secrets:" +:+ nl +:+ ("  " +:+ secret_entry key v) +:+ nl +:+ "") =
      (file_lines r ++ [""; "secrets:"]) ++ [("  " +:+ secret_entry key v); ""]).
    rewrite !file_lines_app, (file_lines_one ("  " +:+ _)) by apply (secret_entry_lacks key v Hk Hv).
    rewrite <- !app_assoc. reflexivity.
  - rewrite El, List.filter_app, filter_blank_lines, app_nil_r. rewrite <- app_assoc.
    apply sublist_inserts_r, filter_sublist.
  - intros other Ho Hne. rewrite El, !find_app.
    destruct (List.find _ (file_lines r)) as [y|]; [reflexivity|]. unfold SECRET_KEYS in Ho.
    repeat setoid_rewrite elem_of_cons in Ho. clear.
    induction n as [|n IH]; cbn [repeat List.find]; [|rewrite <- IH]; reflexivity.
Qed.

Lemma set_secret_line_edited text key :
  key ∈ SECRET_KEYS -> exists a indent b, edited text key a indent b.
Proof.
  intros Hk. destruct (any (is_secret_entry key) (file_lines text)) eqn:He; [apply edited_entry; assumption|].
  destruct (any is_secrets_section (file_lines text)) eqn:Hs;
    [apply edited_section | apply edited_new_section]; assumption.
Qed.

Lemma file_lines_inj s t : file_lines s = file_lines t -> s = t.
Proof. intros H. rewrite <- (join_file_lines s), H. apply join_file_lines. Qed.

(** An entry that is there is replaced where it is. *)
Lemma set_existing_entry text key a indent b v w :
  key ∈ SECRET_KEYS -> edited text key a indent b -> lacks (chr 10) v = true -> lacks (chr 10) w = true ->
  file_lines (set_secret_line (set_secret_line text key v) key w) = a ++ (indent +:+ secret_entry key w) :: b.
Proof.
  intros Hk [[Hi Ht] Ha Hlines _ _] Hv Hw.
  destruct (secret_entry_line key key indent v Hk Hk Hi Ht) as (_ & Hind & Hent).
  assert (Hat : first_at (is_secret_entry key) (file_lines (set_secret_line text key v)) a
                  (indent +:+ secret_entry key v) b).
  { split; [apply Hlines, Hv|]. split; [exact Ha | rewrite Hent; apply String.eqb_refl]. }
  pose proof (file_lines_lacks (set_secret_line text key v)) as Hl.
  rewrite (Hlines v Hv), forallb_app in Hl. apply andb_true_iff in Hl as [Hla [_ Hlb]%andb_true_iff].
  unfold set_secret_line at 1.
  replace (any (is_secret_entry key) (file_lines (set_secret_line text key v))) with true.
  - rewrite (subst_first_at _ _ _ _ _ _ Hat), Hind. apply lines_around; [assumption..|].
    unfold lacks in *. rewrite str_all_app. apply andb_true_iff.
    split; [apply (blank_lacks indent Hi) | apply (secret_entry_lacks key w Hk Hw)].
  - symmetry. unfold any. apply existsb_exists. exists (indent +:+ secret_entry key v).
    destruct Hat as (-> & _ & Hx). split; [apply in_elt | exact Hx].
Qed.

(** What the file says about a secret: its first entry, without the indentation. *)
Definition secret_line (key text : string) : option string :=
  lstrip_by is_blank <$> List.find (is_secret_entry key) (file_lines text).

(** ** Properties *)

(** C20: setting a secret in the text of config.yaml obeys the laws of an update:
    the secret's entry is the new value, the other secret's entry is as before,
    setting a second value is as if the first had never been set; and every
    non-empty line that is not an entry of the secret survives, in order. *)
Theorem secret_line_laws (text key other v w : string) :
  key ∈ SECRET_KEYS -> other ∈ SECRET_KEYS -> other <> key ->
  lacks (chr 10) v = true -> lacks (chr 10) w = true ->
  secret_line key (set_secret_line text key v) = Some (key +:+ ": '" +:+ v +:+ "'") /\
  secret_line other (set_secret_line text key v) = secret_line other text /\
  set_secret_line (set_secret_line text key v) key w = set_secret_line text key w /\
  List.filter (kept_line key) (file_lines text) `sublist_of` file_lines (set_secret_line text key v).
Proof.
  intros Hk Ho Hne Hv Hw. destruct (set_secret_line_edited text key Hk) as (a & indent & b & He).
  pose proof He as [[Hi Ht] Ha Hlines Hkept Hothers]. unfold secret_line.
  destruct (secret_entry_line key key indent v Hk Hk Hi Ht) as (Hstrip & _ & Hent).
  destruct (secret_entry_line key other indent v Hk Ho Hi Ht) as (_ & _ & Hother).
  rewrite String.eqb_refl in Hent. rewrite (proj2 (String.eqb_neq _ _) Hne) in Hother.
  apply find_existsb in Ha. rewrite (Hlines v Hv), !find_app, Ha. cbn [List.find].
  rewrite Hent, Hother, <- (Hothers other Ho Hne), find_app. repeat split.
  - cbn. rewrite Hstrip. reflexivity.
  - apply file_lines_inj. rewrite (set_existing_entry text key a indent b) by assumption.
    symmetry. apply Hlines, Hw.
  - etransitivity; [exact Hkept|]. apply sublist_app; [reflexivity | constructor; reflexivity].
Qed.

Lemma secret_line_laws_witness :
  set_secret_line (set_secret_line (lines ["# mine"; "secrets:  # see the guide"; "  user_password_encrypted: ''"])
    "luks_password_encrypted" "old") "luks_password_encrypted" "new" =
  lines ["# mine"; "secrets:  # see the guide"; "  luks_password_encrypted: 'new'"; "  user_password_encrypted: ''"].
Proof.
  destruct (secret_line_laws (lines ["# mine"; "secrets:  # see the guide"; "  user_password_encrypted: ''"])
    "luks_password_encrypted" "user_password_encrypted" "old" "new") as (_ & _ & H & _);
    [left | right; left | discriminate | reflexivity | reflexivity |].
  rewrite H. vm_compute. reflexivity.
Defined.

(** ** The whole operation *)

Lemma secret_stored_get stored (field : string * string) :
  secret_stored stored field = true -> truthy field.2 = true ->
  exists v, dict_get stored ("secrets." +:+ field.1) = Some v /\ py_eq v (PStr field.2) = true.
Proof.
  unfold secret_stored. intros H Ht. rewrite Ht in H. cbn [negb orb] in H.
  destruct (dict_get _ _) as [v|]; [eauto | discriminate].
Qed.

(** A file that was written holds, read again, every secret it was written for. *)
Lemma verify_stored_ok safe_load config_text secrets config_path u :
  verify_stored safe_load config_text secrets config_path = Ok u ->
  exists stored, stored_values safe_load config_text config_path = Ok stored /\
    forall field, field ∈ secret_fields secrets -> truthy field.2 = true ->
      exists v, dict_get stored ("secrets." +:+ field.1) = Some v /\ py_eq v (PStr field.2) = true.
Proof.
  intros H. unfold verify_stored in H. apply obind_ok in H as (stored & Hs & H). exists stored.
  split; [exact Hs|]. destruct (List.find _ _) as [field|] eqn:Ef; [discriminate|].
  intros field Hin Ht. apply secret_stored_get; [|exact Ht].
  apply list_elem_of_In in Hin. apply (find_none _ _ Ef) in Hin. apply negb_false_iff, Hin.
Qed.
