(* ===== verification/Environment.v ===== *)
(** * Environment variables ([config/environment.py]) and which source wins
    ([config/value_precedence.py]) *)

From S2P Require Import Prelude PyStr PyVal Models ConfigBuilder.

Local Open Scope outcome_scope.

(** ** The variables *)

Inductive EnvVariable : Type :=
| CONFIG_PATH | NON_INTERACTIVE | VERBOSE | NO_WRITE | SECRETS_KEY
| LUKS_PASSWORD | USER_PASSWORD | SOURCE_LUKS_PASSWORD
| TARGET_DISK | WIPE_METHOD | SWAP_SIZE_MB | ENABLE_SWAP | ENABLE_HIBERNATION
| ENABLE_SNAPSHOT_BOOT | ENABLE_FIREWALL | ENABLE_DOCKER | ENABLE_NOTIFICATIONS
| ENABLE_MIGRATION | ENABLE_USB_BOOT | USB_BOOT_DEVICE | ENABLE_RECOVERY_SYSTEM | ISO_PATH
| SPARE_USB_DEVICE | BACKUP_PARTITION | BACKUP_CATEGORIES
| CPU_VENDOR | GPU_VENDOR | GPU_DRIVER | SELECTED_KERNELS | SELECTED_DESKTOPS.

#[export] Instance EnvVariable_eq_dec : EqDecision EnvVariable.
Proof. solve_decision. Defined.

(** The value of the member: the variable's name. *)
Definition variable_name (v : EnvVariable) : string :=
  match v with
  | CONFIG_PATH => "CONFIG_PATH" | NON_INTERACTIVE => "NON_INTERACTIVE" | VERBOSE => "VERBOSE"
  | NO_WRITE => "NO_WRITE" | SECRETS_KEY => "ARCH_INSTALLER_SECRETS_KEY"
  | LUKS_PASSWORD => "LUKS_PASSWORD" | USER_PASSWORD => "USER_PASSWORD"
  | SOURCE_LUKS_PASSWORD => "SOURCE_LUKS_PASSWORD" | TARGET_DISK => "TARGET_DISK"
  | WIPE_METHOD => "WIPE_METHOD" | SWAP_SIZE_MB => "SWAP_SIZE_MB" | ENABLE_SWAP => "ENABLE_SWAP"
  | ENABLE_HIBERNATION => "ENABLE_HIBERNATION" | ENABLE_SNAPSHOT_BOOT => "ENABLE_SNAPSHOT_BOOT"
  | ENABLE_FIREWALL => "ENABLE_FIREWALL" | ENABLE_DOCKER => "ENABLE_DOCKER"
  | ENABLE_NOTIFICATIONS => "ENABLE_NOTIFICATIONS" | ENABLE_MIGRATION => "ENABLE_MIGRATION"
  | ENABLE_USB_BOOT => "ENABLE_USB_BOOT" | USB_BOOT_DEVICE => "USB_BOOT_DEVICE"
  | ENABLE_RECOVERY_SYSTEM => "ENABLE_RECOVERY_SYSTEM" | ISO_PATH => "ISO_PATH"
  | SPARE_USB_DEVICE => "SPARE_USB_DEVICE" | BACKUP_PARTITION => "BACKUP_PARTITION"
  | BACKUP_CATEGORIES => "BACKUP_CATEGORIES" | CPU_VENDOR => "CPU_VENDOR"
  | GPU_VENDOR => "GPU_VENDOR" | GPU_DRIVER => "GPU_DRIVER"
  | SELECTED_KERNELS => "SELECTED_KERNELS" | SELECTED_DESKTOPS => "SELECTED_DESKTOPS"
  end.

(** ** [Environment] *)
Section Environment.
Context (variables : dict string string).

(** [_raw] *)
Definition raw_text (variable : EnvVariable) : string :=
  strip (default "" (dict_get variables (variable_name variable))).

Definition is_set (variable : EnvVariable) : bool := truthy (raw_text variable).
Definition env_text (variable : EnvVariable) : string := raw_text variable.

Definition switch_is_on (variable : EnvVariable) : outcome bool :=
  let raw := lower (raw_text variable) in
  if negb (truthy raw) || str_in raw FALSE_WORDS then Ok false
  else if str_in raw TRUE_WORDS then Ok true
  else Err (ConfigurationError
              (variable_name variable +:+ " must be true or false, got " +:+ repr_str raw)).

Fixpoint setting_values_from (acc : dict string pyval) (variable_paths : list (EnvVariable * string))
    : outcome (dict string pyval) :=
  match variable_paths with
  | [] => Ok acc
  | (variable, setting_path) :: variable_paths' =>
      if is_set variable then
        let? value := read_setting_text setting_path (raw_text variable) (variable_name variable) in
        setting_values_from (dict_set acc setting_path value) variable_paths'
      else setting_values_from acc variable_paths'
  end.
Definition setting_values : list (EnvVariable * string) -> outcome (dict string pyval) :=
  setting_values_from [].
End Environment.

(** ** Precedence *)

Inductive ValueSource : Type := FROM_ENVIRONMENT | FROM_CONFIG_FILE | FROM_TUI.

#[export] Instance ValueSource_eq_dec : EqDecision ValueSource.
Proof. solve_decision. Defined.

Definition source_name (s : ValueSource) : string :=
  match s with
  | FROM_ENVIRONMENT => "environment"
  | FROM_CONFIG_FILE => "config.yaml"
  | FROM_TUI => "TUI"
  end.

Record SettingValue : Type := { setting_value : pyval; setting_source : ValueSource }.

Definition INHERITANCE_ORDER : list ValueSource := [FROM_ENVIRONMENT; FROM_CONFIG_FILE].

Definition inherit_from (source : ValueSource) (values : dict string pyval)
    (inherited : dict string SettingValue) : dict string SettingValue :=
  fold_left (fun acc pv =>
    dict_setdefault acc pv.1 {| setting_value := pv.2; setting_source := source |}) values inherited.

Definition inherit_setting_values (values_by_source : ValueSource -> dict string pyval)
    : dict string SettingValue :=
  fold_left (fun inherited source => inherit_from source (values_by_source source) inherited)
    INHERITANCE_ORDER [].

(** Whether a choice says something else than the inherited value. *)
Definition differs (previous : option SettingValue) (value : pyval) : bool :=
  match previous with None => true | Some s => negb (py_eq (setting_value s) value) end.

Definition apply_tui_choices (inherited : dict string SettingValue) (tui_choices : dict string pyval)
    : dict string SettingValue :=
  fold_left (fun chosen pv =>
    if differs (dict_get inherited pv.1) pv.2
    then dict_set chosen pv.1 {| setting_value := pv.2; setting_source := FROM_TUI |}
    else chosen) tui_choices inherited.

Definition plain_values (setting_values : dict string SettingValue) : dict string pyval :=
  map (fun pv => (pv.1, setting_value pv.2)) setting_values.

(** ** Looking a value up *)

Lemma dict_get_plain_values d p :
  dict_get (plain_values d) p = setting_value <$> dict_get d p.
Proof.
  induction d as [|[k v] d IH]; [reflexivity|]. simpl. case_decide; [reflexivity | exact IH].
Qed.

Lemma dict_get_inherit_from source values inherited p :
  dict_get (inherit_from source values inherited) p =
    match dict_get inherited p with
    | Some s => Some s
    | None => (fun v => {| setting_value := v; setting_source := source |}) <$> dict_get values p
    end.
Proof.
  unfold inherit_from. revert inherited.
  induction values as [|[k v] values IH]; intros inherited; simpl.
  - destruct (dict_get inherited p); reflexivity.
  - rewrite IH, dict_get_setdefault.
    destruct (dict_get inherited p); [reflexivity|]. case_decide; reflexivity.
Qed.

Lemma dict_get_apply_tui_choices inherited choices p :
  NoDup (dict_keys choices) ->
  dict_get (apply_tui_choices inherited choices) p =
    match dict_get choices p with
    | Some v => if differs (dict_get inherited p) v
                then Some {| setting_value := v; setting_source := FROM_TUI |}
                else dict_get inherited p
    | None => dict_get inherited p
    end.
Proof.
  unfold apply_tui_choices. intros Hn.
  assert (Hgen : forall chosen, dict_get (fold_left (fun chosen pv =>
      if differs (dict_get inherited pv.1) pv.2
      then dict_set chosen pv.1 {| setting_value := pv.2; setting_source := FROM_TUI |}
      else chosen) choices chosen) p =
    match dict_get choices p with
    | Some v => if differs (dict_get inherited p) v
                then Some {| setting_value := v; setting_source := FROM_TUI |} else dict_get chosen p
    | None => dict_get chosen p
    end); [|apply Hgen].
  induction choices as [|[k v] choices IH]; intros chosen; [reflexivity|].
  unfold dict_keys in Hn. simpl in Hn. apply NoDup_cons in Hn as [Hk Hn]. simpl. rewrite (IH Hn).
  case_decide as E.
  - subst k. rewrite (proj2 (dict_get_None choices p) Hk).
    destruct (differs _ v); [apply dict_get_set_eq | reflexivity].
  - destruct (differs (dict_get inherited k) v); [|reflexivity].
    rewrite (dict_get_set_ne chosen k p) by exact E. reflexivity.
Qed.

(** ** Properties *)

(** C23: which source wins.  Without the interactive setup a setting has the
    environment's value, or else the file's; an answer of the interactive setup
    replaces it, and one that equals the inherited value keeps both the value and
    its source.  No other setting appears. *)
Theorem value_precedence (environment file choices : dict string pyval) (p : string) :
  NoDup (dict_keys choices) ->
  let inherited := inherit_setting_values (fun source =>
    match source with FROM_ENVIRONMENT => environment | FROM_CONFIG_FILE => file | FROM_TUI => [] end) in
  let from_sources :=
    match dict_get environment p, dict_get file p with
    | Some v, _ => Some {| setting_value := v; setting_source := FROM_ENVIRONMENT |}
    | None, Some v => Some {| setting_value := v; setting_source := FROM_CONFIG_FILE |}
    | None, None => None
    end in
  dict_get inherited p = from_sources /\
  dict_get (apply_tui_choices inherited choices) p =
    match dict_get choices p, from_sources with
    | Some v, Some s => if py_eq (setting_value s) v then Some s
                        else Some {| setting_value := v; setting_source := FROM_TUI |}
    | Some v, None => Some {| setting_value := v; setting_source := FROM_TUI |}
    | None, _ => from_sources
    end.
Proof.
  intros Hn inherited from_sources.
  assert (Hi : dict_get inherited p = from_sources).
  { unfold inherited, from_sources, inherit_setting_values. simpl.
    rewrite !dict_get_inherit_from. simpl. destruct (dict_get environment p); [reflexivity|].
    simpl. destruct (dict_get file p); reflexivity. }
  split; [exact Hi|]. rewrite dict_get_apply_tui_choices by exact Hn. rewrite Hi.
  destruct (dict_get choices p) as [v|]; [|reflexivity].
  destruct from_sources as [s|]; [|reflexivity]. simpl. destruct (py_eq _ v); reflexivity.
Qed.

Lemma value_precedence_witness :
  dict_get (apply_tui_choices (inherit_setting_values (fun source =>
     match source with
     | FROM_ENVIRONMENT => [("storage.target_disk", PStr "/dev/sda")]
     | FROM_CONFIG_FILE => [("storage.target_disk", PStr "/dev/vda")]
     | FROM_TUI => [] end)) [("storage.target_disk", PStr "/dev/sdb")]) "storage.target_disk" =
  Some {| setting_value := PStr "/dev/sdb"; setting_source := FROM_TUI |}.
Proof.
  apply (value_precedence [("storage.target_disk", PStr "/dev/sda")]
    [("storage.target_disk", PStr "/dev/vda")] [("storage.target_disk", PStr "/dev/sdb")]
    "storage.target_disk"). apply NoDup_singleton.
Defined.
