(* ===== verification/Registry.v ===== *)
(** * The registry of install steps ([install_steps/registry.py],
    [install_steps/wiring.py])

    Every step with its settings, questions, condition and executor, in run order. *)

From S2P Require Import Prelude PyStr PyVal Effects Command Questions Models Export Schema Base Environment ConfigBuilder Storage Packages System Firewall Drivers Boot UsbBoot Migration Snapper Recovery.

(** ** [wiring.py] *)

(** A setting's current value; one that has none is [None]. *)
Definition SettingLookup : Type := string -> pyval.
Definition StepCondition : Type := SettingLookup -> bool.

Definition always : StepCondition := fun _ => true.
Definition when_set (setting_path : string) : StepCondition := fun value => py_bool (value setting_path).
Definition when_equal (setting_path : string) (expected : pyval) : StepCondition :=
  fun value => py_eq (value setting_path) expected.

(** [config_lookup] for the conditions, which only look up paths that exist (see
    [registry_resolves]). *)
Definition lookup_in (config : InstallerConfig) : SettingLookup :=
  fun setting_path => default PNone (config_lookup config setting_path).

Record StepSetting : Type := {
  setting_path : string;
  environment_variable : option EnvVariable;
  setting_question : option Question;
  asked_when : StepCondition;
}.

Record StepWiring : Type := {
  config_sections : list string;
  step_settings : list StepSetting;
  step_enabled : StepCondition;
  step_executor : InstallerConfig -> cmd unit;
}.

(** ** Choices *)

Definition choice {T} `{StrEnum T} (m : T) (label : string) : Choice :=
  {| choice_value := as_member m; choice_label := label |}.

Definition WIPE_CHOICES : list Choice := [
  choice WIPE_QUICK "Quick wipe (partition table only)";
  choice WIPE_SECURE "Secure wipe (random fill - slow)";
  choice WIPE_DISCARD "SSD discard (blkdiscard - fast)";
  choice WIPE_SKIP "Skip wipe (recovering partial install)"].
Definition CPU_CHOICES : list Choice := [choice CPU_INTEL "Intel"; choice CPU_AMD "AMD"].
Definition GPU_CHOICES : list Choice := [
  choice GPU_AMD "AMD (AMDGPU, open-source)";
  choice GPU_INTEL "Intel (integrated graphics)";
  choice GPU_NVIDIA "NVIDIA (proprietary/nouveau)";
  choice GPU_NONE "None (VM or generic)"].
Definition NVIDIA_DRIVER_CHOICES : list Choice := [
  choice NOUVEAU "Nouveau - open-source, limited features";
  choice NVIDIA_OPEN "NVIDIA Open - official open kernel modules, RTX 20+";
  choice NVIDIA_DKMS "NVIDIA DKMS - proprietary, best compatibility"].
Definition DESKTOP_CHOICES : list Choice := [
  choice GNOME "GNOME (Wayland, modern)";
  choice KDE "KDE Plasma (Wayland, customizable)";
  choice HYPRLAND "Hyprland (Wayland tiling WM)"].
Definition SWAP_PRESETS_MB : list Z := [4096; 8192; 16384; 32768; 65536]%Z.

Definition detected_disk_choices : ChoiceSource := fun inherited_value machine =>
  let* disks := machine in
  Ret (map (fun disk =>
    {| choice_value := PStr (disk_path disk);
       choice_label := disk_path disk +:+ "  " +:+ disk_model disk +:+ "  (" +:+ disk_size disk +:+ ")" |})
    disks).

(** [True] is an [int] in Python: the label and the order go by its number. *)
Definition as_number (size_mb : pyval) : Z := default 0%Z (number_of size_mb).

Definition swap_label (size_mb : pyval) : string :=
  if (as_number size_mb mod 1024 =? 0)%Z then str_of_Z (as_number size_mb / 1024) +:+ " GB"
  else py_str size_mb +:+ " MB".

(** [sorted(sizes | {size})]: an equal size that is already there stays. *)
Fixpoint insert_size (size : pyval) (sizes : list pyval) : list pyval :=
  match sizes with
  | [] => [size]
  | other :: sizes' =>
      if (as_number size <? as_number other)%Z then size :: sizes
      else if (as_number size =? as_number other)%Z then sizes
      else other :: insert_size size sizes'
  end.

Definition swap_sizes_mb (inherited_value : pyval) : list pyval :=
  let presets := map PInt SWAP_PRESETS_MB in
  match number_of inherited_value with
  | Some n => if (0 <? n)%Z then insert_size inherited_value presets else presets
  | None => presets
  end.

Definition swap_size_choices : ChoiceSource := fun inherited_value machine =>
  Ret (map (fun size_mb => {| choice_value := size_mb; choice_label := swap_label size_mb |})
    (swap_sizes_mb inherited_value)).

(** ** Conditions of several settings *)

Definition mirrors_declared : StepCondition := fun value =>
  py_bool (value "system.mirrors.use_reflector") || py_bool (value "system.mirrors.mirrors").
Definition uses_proprietary_nvidia : StepCondition := fun value =>
  is_proprietary_nvidia (value "gpu.vendor") (value "gpu.driver").
Definition recovery_system_wanted : StepCondition := fun value =>
  py_bool (value "usb_boot.enabled") && py_bool (value "usb_boot.recovery_system").
Definition snapshot_notifications_wanted : StepCondition := fun value =>
  py_bool (value "notifications.enabled") && py_bool (value "snapper.enabled").

(** ** The steps *)

Inductive InstallStep : Type :=
| MIGRATION_STAGING | USB_BOOT_DRIVE | STORAGE | PACMAN_MIRRORS | PACKAGES | MIGRATION_RESTORE
| SYSTEM | DOCKER | GPU_DRIVER_STEP | KERNEL_IMAGES | BOOTLOADER | RECOVERY_SYSTEM | SNAPPER
| BOOTABLE_SNAPSHOTS | SNAPSHOT_NOTIFICATIONS | FIREWALL | USB_BOOT_SAFEGUARDS.

#[export] Instance InstallStep_eq_dec : EqDecision InstallStep.
Proof. solve_decision. Defined.

Definition step_name (s : InstallStep) : string :=
  match s with
  | MIGRATION_STAGING => "Migration staging"
  | USB_BOOT_DRIVE => "USB boot drive"
  | STORAGE => "Storage"
  | PACMAN_MIRRORS => "Pacman mirrors"
  | PACKAGES => "Packages"
  | MIGRATION_RESTORE => "Migration restore"
  | SYSTEM => "System"
  | DOCKER => "Docker"
  | GPU_DRIVER_STEP => "GPU driver"
  | KERNEL_IMAGES => "Kernel images"
  | BOOTLOADER => "Bootloader"
  | RECOVERY_SYSTEM => "Recovery system"
  | SNAPPER => "Snapper"
  | BOOTABLE_SNAPSHOTS => "Bootable snapshots"
  | SNAPSHOT_NOTIFICATIONS => "Snapshot notifications"
  | FIREWALL => "Firewall"
  | USB_BOOT_SAFEGUARDS => "USB boot safeguards"
  end.

Definition setting (path : string) (variable : option EnvVariable) (question : option Question)
    (condition : StepCondition) : StepSetting :=
  {| setting_path := path; environment_variable := variable; setting_question := question;
     asked_when := condition |}.
Definition switch_with (label on_label off_label description : string) : option Question :=
  Some (QSwitch {| switch_label := label; switch_on_label := on_label;
    switch_off_label := off_label; switch_description := description |}).
Definition switch (label : string) : option Question := switch_with label "On" "Off" "".
Definition choose_one (label : string) (choices : choices_of_question) (description typed_prompt : string)
    : option Question :=
  Some (QChooseOne {| one_label := label; one_choices := choices; one_description := description;
    one_typed_prompt := typed_prompt |}).
Definition enter_text (label prompt : string) : option Question :=
  Some (QEnterText {| text_label := label; text_prompt := prompt |}).
Definition enter_secret (label prompt : string) (confirm : bool) : option Question :=
  Some (QEnterSecret {| secret_label := label; secret_prompt := prompt; secret_confirm := confirm |}).

Definition wiring (sections : list string) (settings : list StepSetting) (enabled : StepCondition)
    (executor : InstallerConfig -> cmd unit) : StepWiring :=
  {| config_sections := sections; step_settings := settings; step_enabled := enabled;
     step_executor := executor |}.

(** The table, in two parts. *)
Definition steps_to_packages : list (InstallStep * StepWiring) := [
  (MIGRATION_STAGING, wiring ["migration"] [
      setting "migration.enabled" (Some ENABLE_MIGRATION)
        (switch_with "Installation type" "Migration from existing Arch" "Fresh installation" "") always;
      setting "credentials.source_luks_password" (Some SOURCE_LUKS_PASSWORD)
        (enter_secret "Old disk password" "LUKS password of the existing install:" false)
        (when_set "migration.enabled")]
    (when_set "migration.enabled") migration_staging_execute);
  (USB_BOOT_DRIVE, wiring ["usb_boot"] [
      setting "usb_boot.enabled" (Some ENABLE_USB_BOOT)
        (switch_with "USB boot drive" "Yes - EFI partition and LUKS header on a USB drive"
           "No - boot from the internal disk"
           ("The internal disk keeps only ciphertext; " +:+
            "the system starts and unlocks only with the drive.")) always;
      setting "usb_boot.device" (Some USB_BOOT_DEVICE)
        (choose_one "USB drive" (Computed detected_disk_choices)
           "Select the USB drive (ALL DATA ON IT WILL BE ERASED):"
           "Enter the USB drive path (e.g. /dev/sdb):") (when_set "usb_boot.enabled");
      setting "usb_boot.recovery_system" (Some ENABLE_RECOVERY_SYSTEM)
        (switch_with "Recovery system" "Yes - signed Arch live system on the drive" "No"
           "Boot the Arch ISO from the drive under Secure Boot to repair the system.")
        (when_set "usb_boot.enabled");
      setting "usb_boot.iso_path" (Some ISO_PATH)
        (enter_text "Recovery ISO" "Arch ISO file, or the live medium (e.g. /dev/sr0):")
        recovery_system_wanted]
    (when_set "usb_boot.enabled") usb_boot_drive_execute);
  (STORAGE, wiring ["storage"] [
      setting "storage.target_disk" (Some TARGET_DISK)
        (choose_one "Disk" (Computed detected_disk_choices)
           "Select target disk (ALL DATA WILL BE ERASED):" "Enter disk path (e.g. /dev/sda):") always;
      setting "storage.wipe_method" (Some WIPE_METHOD)
        (choose_one "Wipe method" (Offered WIPE_CHOICES) "" "") always;
      setting "storage.swap.enabled" (Some ENABLE_SWAP) (switch "Swap file") always;
      setting "storage.swap.size_mb" (Some SWAP_SIZE_MB)
        (choose_one "Swap size" (Computed swap_size_choices) "" "") (when_set "storage.swap.enabled");
      setting "storage.swap.hibernation" (Some ENABLE_HIBERNATION)
        (switch_with "Hibernation" "On" "Off" "Resume from the swapfile after power-off.")
        (when_set "storage.swap.enabled");
      setting "credentials.luks_password" (Some LUKS_PASSWORD)
        (enter_secret "LUKS password" "LUKS encryption password:" true) always]
    always storage_execute);
  (PACMAN_MIRRORS, wiring ["system.mirrors"] [] mirrors_declared mirrors_execute);
  (PACKAGES, wiring ["packages"; "gpu"] [
      setting "system.cpu_vendor" (Some CPU_VENDOR)
        (choose_one "CPU vendor" (Offered CPU_CHOICES) "" "") always;
      setting "gpu.vendor" (Some GPU_VENDOR)
        (choose_one "GPU vendor" (Offered GPU_CHOICES) "" "") always;
      setting "gpu.driver" (Some GPU_DRIVER)
        (choose_one "NVIDIA driver" (Offered NVIDIA_DRIVER_CHOICES) "" "")
        (when_equal "gpu.vendor" (as_member GPU_NVIDIA));
      setting "packages.selected_desktops" (Some SELECTED_DESKTOPS)
        (Some (QChooseMany {| many_label := "Desktops"; many_choices := DESKTOP_CHOICES;
           many_description := "Select desktop environments to install (Space to toggle):" |})) always;
      setting "boot.selected_kernels" (Some SELECTED_KERNELS) None always]
    always packages_execute)].

Definition steps_after_packages : list (InstallStep * StepWiring) := [
  (MIGRATION_RESTORE, wiring [] [] (when_set "migration.enabled") migration_restore_execute);
  (SYSTEM, wiring ["system"] [
      setting "system.hostname" None (enter_text "Hostname" "Hostname:") always;
      setting "system.user.name" None (enter_text "Username" "Username:") always;
      setting "system.timezone" None
        (enter_text "Timezone" "Timezone (e.g. Europe/Helsinki):") always;
      setting "system.locale.keymap" None (enter_text "Keymap" "Keymap:") always;
      setting "credentials.user_password" (Some USER_PASSWORD)
        (enter_secret "User password" "User account password:" true) always]
    always system_execute);
  (DOCKER, wiring ["docker"]
      [setting "docker.enabled" (Some ENABLE_DOCKER) (switch "Docker") always]
    (when_set "docker.enabled") docker_execute);
  (GPU_DRIVER_STEP, wiring [] [] uses_proprietary_nvidia gpu_execute);
  (KERNEL_IMAGES, wiring ["boot"] [] always kernel_images_execute);
  (BOOTLOADER, wiring ["boot.loader"] [] always bootloader_execute);
  (RECOVERY_SYSTEM, wiring [] [] recovery_system_wanted recovery_execute);
  (SNAPPER, wiring ["snapper"] [] (when_set "snapper.enabled") snapper_execute);
  (BOOTABLE_SNAPSHOTS, wiring []
      [setting "boot.enable_snapshot_boot" (Some ENABLE_SNAPSHOT_BOOT) (switch "Bootable snapshots") always]
    (when_set "boot.enable_snapshot_boot") bootable_snapshots_execute);
  (SNAPSHOT_NOTIFICATIONS, wiring ["notifications"]
      [setting "notifications.enabled" (Some ENABLE_NOTIFICATIONS)
         (switch_with "Desktop notifications" "On" "Off" "Notify when a snapshot is taken.") always]
    snapshot_notifications_wanted (fun _ => snapshot_notifications_execute));
  (FIREWALL, wiring ["firewall"]
      [setting "firewall.enabled" (Some ENABLE_FIREWALL) (switch "Firewall (UFW)") always]
    (when_set "firewall.enabled") firewall_execute);
  (USB_BOOT_SAFEGUARDS, wiring [] [] (when_set "usb_boot.enabled") usb_safeguards_execute)].

Definition INSTALL_STEPS : list (InstallStep * StepWiring) := steps_to_packages ++ steps_after_packages.

Definition USB_BACKUP_SETTINGS : list StepSetting := [
  setting "sync.backup_partition" (Some BACKUP_PARTITION) None always;
  setting "sync.backup_categories" (Some BACKUP_CATEGORIES) None always].

Definition all_settings : list StepSetting :=
  concat (map (fun sw => step_settings sw.2) INSTALL_STEPS) ++ USB_BACKUP_SETTINGS.

Definition environment_variable_paths : list (EnvVariable * string) :=
  dict_update [] (omap (fun s =>
    match environment_variable s with Some v => Some (v, setting_path s) | None => None end) all_settings).

Definition variable_for_setting (path : string) : option EnvVariable :=
  match List.find (fun s => String.eqb (setting_path s) path) all_settings with
  | Some s => environment_variable s
  | None => None
  end.

(** ** Properties *)

Lemma setting_values_from_elem variables acc variable_paths values p v :
  setting_values_from variables acc variable_paths = Ok values -> (p, v) ∈ values ->
  (p, v) ∈ acc \/
  exists variable, (variable, p) ∈ variable_paths /\ is_set variables variable = true /\
    read_setting_text p (raw_text variables variable) (variable_name variable) = Ok v.
Proof.
  revert acc. induction variable_paths as [|[variable path] rest IH]; intros acc H Hin.
  - injection H as <-. auto.
  - simpl in H. destruct (is_set variables variable) eqn:Es.
    + apply obind_ok in H as (value & Hv & H). destruct (IH _ H Hin) as [Ha|(x & Hx & Hs)].
      * apply dict_set_elem in Ha as [[= -> ->]|Ha]; [|auto].
        right. exists variable. split; [left|]. auto.
      * right. exists x. split; [right; exact Hx | exact Hs].
    + destruct (IH _ H Hin) as [Ha|(x & Hx & Hs)]; [auto|].
      right. exists x. split; [right; exact Hx | exact Hs].
Qed.

(** The paths of the variables have a declared type that text can be read as. *)
Lemma variable_paths_typed :
  Forall (fun vp => exists t, setting_type vp.2 = Some t /\ text_type t = true)
    environment_variable_paths.
Proof.
  vm_compute. repeat (apply Forall_cons_2; [eexists; split; reflexivity|]). apply Forall_nil_2.
Qed.

(** C25: what the environment provides fits the configuration: the values read from
    any set of variables are of declared settings, each was read from a variable
    that is set and stands for that setting, and the builder takes each as it is. *)
Theorem environment_values_accepted (variables : dict string string) values p v :
  setting_values variables environment_variable_paths = Ok values -> (p, v) ∈ values ->
  exists variable t, (variable, p) ∈ environment_variable_paths /\
    is_set variables variable = true /\ setting_type p = Some t /\ convert t v p = Ok (v, []).
Proof.
  intros H Hin. destruct (setting_values_from_elem _ _ _ _ _ _ H Hin) as [[]%elem_of_nil|(x & Hx & Hs & Hr)].
  destruct (proj1 (Forall_forall _ _) variable_paths_typed _ Hx) as (t & Ht & Htext). simpl in Ht.
  exists x, t. split; [exact Hx|]. split; [exact Hs|]. split; [exact Ht|].
  unfold read_setting_text in Hr. rewrite Ht in Hr. exact (from_text_converts _ _ _ _ _ Htext Hr).
Qed.

Lemma environment_values_accepted_witness :
  exists variable t, (variable, "storage.swap.size_mb") ∈ environment_variable_paths /\
    is_set [("SWAP_SIZE_MB", " 4096 ")] variable = true /\
    setting_type "storage.swap.size_mb" = Some t /\
    convert t (PInt 4096) "storage.swap.size_mb" = Ok (PInt 4096, []).
Proof.
  eapply (environment_values_accepted [("SWAP_SIZE_MB", " 4096 ")]); [vm_compute; reflexivity | left].
Defined.

(** *** The table against the model of the configuration *)

(** The paths the table names: the sections its steps are configured by, and the settings. *)
Definition step_sections : list string := concat (map (fun sw => config_sections sw.2) INSTALL_STEPS).
Definition claims : list string := step_sections ++ map setting_path all_settings.

(** The variables that are no settings: they drive the programs themselves. *)
Definition tool_variables : list EnvVariable :=
  [CONFIG_PATH; NON_INTERACTIVE; VERBOSE; NO_WRITE; SECRETS_KEY; SPARE_USB_DEVICE].

Definition is_dict (v : option pyval) : bool := match v with Some (PDict _) => true | _ => false end.
Definition is_there (v : option pyval) : bool := match v with Some _ => true | None => false end.
Definition top_level (path : string) : string := hd "" (split_on "." path).

Lemma claims_there config : forallb (fun p => is_there (config_lookup config p)) claims = true.
Proof. vm_compute. reflexivity. Qed.

Lemma step_sections_dicts config : forallb (fun p => is_dict (config_lookup config p)) step_sections = true.
Proof. vm_compute. reflexivity. Qed.

(** The fields of a configuration, in a form that computes. *)
Definition section_names (config : InstallerConfig) : list string :=
  match asdict config with PDict d => dict_keys d | _ => [] end.

Lemma sections_claimed config :
  forallb (fun name => str_in name (["credentials"; "secrets"] ++ map top_level claims)) (section_names config) = true.
Proof. vm_compute. reflexivity. Qed.

Lemma variables_cover :
  forall v, v ∈ tool_variables \/ v ∈ omap environment_variable all_settings.
Proof.
  intros v. apply elem_of_app, (bool_decide_unpack (v ∈ _)). destruct v; vm_compute; exact I.
Qed.

