(* ===== verification/Installer.v ===== *)
(** * The installer ([installer.py], [core/log.py])

    The enabled steps in the order of the registry, then the files that the
    installed system keeps. *)

From S2P Require Import Prelude PyStr PyVal Effects Command Models Export Schema Samples Base Patterns ExpectedState Migration MigrationFacts Registry.

(** ** [log.banner] *)

Definition BANNER_WIDTH : nat := 80.

Fixpoint repeat_char (c : Ascii.ascii) (n : nat) : string :=
  match n with O => "" | S n' => String c (repeat_char c n') end.

(** [title.center(BANNER_WIDTH).rstrip()]; the width is even, so the odd space
    goes to the right. *)
Definition centered (title : string) : string :=
  rstrip (repeat_char (chr 32) ((BANNER_WIDTH - str_len title) / 2) +:+ title).

Definition banner (title subtitle : string) : string :=
  join nl (["" ; repeat_char (chr 61) BANNER_WIDTH; centered title] ++
    (if truthy subtitle then [centered subtitle] else []) ++
    [repeat_char (chr 61) BANNER_WIDTH]).

(** ** [Installer] *)

Definition UTILITY_SCRIPTS : list (string * string) := [
  ("scripts/verify_install.sh", "verify-install");
  ("scripts/manage_snapshot_entries.sh", "manage-snapshot-ukis");
  ("scripts/dotfiles-sync.sh", "dotfiles-sync")].

Definition step_wiring (step : InstallStep) : option StepWiring := dict_get INSTALL_STEPS step.

Definition execute_step (config : InstallerConfig) (step : InstallStep) : cmd unit :=
  match step_wiring step with Some w => step_executor w config | None => Ret tt end.

Definition enabled_steps (config : InstallerConfig) : list InstallStep :=
  map fst (List.filter (fun sw => step_enabled sw.2 (lookup_in config)) INSTALL_STEPS).

(** [enumerate(steps, 1)] *)
Definition numbered (steps : list InstallStep) : list (nat * InstallStep) :=
  combine (seq 1 (length steps)) steps.

Section Installer.
(** [yaml.safe_dump(data, default_flow_style=False, sort_keys=False)] *)
Context (safe_dump : pyval -> string).
Context (config : InstallerConfig).

Definition log_summary : cmd unit :=
  let system := cfg_system config in
  log_info ("Host: " +:+ system_hostname system +:+ ", user: " +:+ user_name (system_user system) +:+
            ", disk: " +:+ storage_target_disk (cfg_storage config)) ;;
  log_info ("Steps: " +:+ join ", " (map step_name (enabled_steps config))).

Definition install_utility_scripts : cmd unit :=
  let scripts_directory := TARGET_ROOT +:+ "/usr/local/bin" in
  run ("mkdir -p " +:+ scripts_directory) ;;
  for_each (fun '(source, name) =>
    let* found := file_exists source in
    when found (run ("install -m 755 " +:+ source +:+ " " +:+ scripts_directory +:+ "/" +:+ name)))
    UTILITY_SCRIPTS.

Definition write_expected_state : cmd unit :=
  let target_path := TARGET_ROOT +:+ EXPECTED_STATE_PATH in
  run ("install -d -m 755 " +:+ rsplit1_first (chr 47) target_path) ;;
  write_file target_path (expected_state_file config) ;;
  run ("chmod 644 " +:+ target_path) ;;
  log_info ("Wrote " +:+ EXPECTED_STATE_PATH).

Definition write_final_config : cmd unit :=
  let username := user_name (system_user (cfg_system config)) in
  let user_home := TARGET_ROOT +:+ "/home/" +:+ username in
  let final_config := user_home +:+ "/final_config.yaml" in
  run_ignored ("mkdir -p " +:+ user_home) ;;
  write_file final_config (safe_dump (PDict (exportable_config config))) ;;
  run_chroot_ignored ("chown " +:+ username +:+ ":" +:+ username +:+ " /home/" +:+ username +:+
    "/final_config.yaml") ;;
  log_info ("Wrote /home/" +:+ username +:+ "/final_config.yaml").

(** One round of the loop over the steps. *)
Definition run_step (count : nat) (numbered_step : nat * InstallStep) : cmd unit :=
  log_info ("[" +:+ str_of_nat numbered_step.1 +:+ "/" +:+ str_of_nat count +:+ "] " +:+
            step_name numbered_step.2) ;;
  execute_step config numbered_step.2.

Definition run_steps : cmd unit :=
  let steps := enabled_steps config in
  for_each (run_step (length steps)) (numbered steps).

Definition write_kept_files : cmd unit :=
  install_utility_scripts ;; write_expected_state ;; write_final_config.

Definition install : cmd unit :=
  log_info (banner "Declarative ArchLinux Installer (DALI)" "Starting installation") ;;
  log_summary ;;
  run_steps ;;
  write_kept_files ;;
  log_info (banner "Installation complete" "").
End Installer.

(** ** The loop over the steps

    The list of the steps depends on the configuration; it is not to be computed
    where the configuration is a variable. *)

#[local] Opaque enabled_steps.

Lemma runs_log m t o : runs (log_info m) t o -> commands t = [] /\ o = Ok tt.
Proof. intros ([] & t' & -> & -> & ->). auto. Qed.

Lemma runs_log_then {A} m (p : cmd A) t o :
  runs (log_info m ;; p) t o -> exists t', runs p t' o /\ commands t = commands t'.
Proof.
  intros H. apply runs_bind in H as [([] & t1 & t2 & -> & H1 & H2)|(x & -> & H)].
  - apply runs_log in H1 as [H1 _]. exists t2. rewrite commands_app, H1. auto.
  - apply runs_log in H as [_ [=]].
Qed.

Lemma numbered_steps steps : map snd (numbered steps) = steps.
Proof.
  unfold numbered. generalize 1. induction steps as [|s steps IH]; intros n; [reflexivity|].
  simpl. rewrite IH. reflexivity.
Qed.

(** What the rounds of the loop do, without the numbering. *)
Definition step_ran (config : InstallerConfig) (step : InstallStep) (cs : list string) : Prop :=
  exists t, runs (execute_step config step) t (Ok tt) /\ commands t = cs.

Lemma rounds_steps config count rounds ts :
  Forall2 (fun ns t => runs (run_step config count ns) t (Ok tt)) rounds ts ->
  exists css, Forall2 (step_ran config) (map snd rounds) css /\ commands (concat ts) = concat css.
Proof.
  induction 1 as [|[n s] t rounds ts Hr _ (css & Hf & Hc)]; [exists []; split; constructor|].
  apply runs_log_then in Hr as (t' & Hr & Ht). exists (commands t' :: css). split.
  - constructor; [exists t'; auto | exact Hf].
  - simpl. rewrite commands_app, Hc, Ht. reflexivity.
Qed.

(** How far an installation got: every enabled step and the kept files, or the
    steps up to one that failed. *)
Inductive progress (safe_dump : pyval -> string) (config : InstallerConfig) (o : outcome unit)
    : list string -> Prop :=
| all_steps css t' :
    Forall2 (step_ran config) (enabled_steps config) css ->
    runs (write_kept_files safe_dump config) t' o ->
    progress safe_dump config o (concat css ++ commands t')
| failed_step completed step rest css t' x :
    enabled_steps config = completed ++ step :: rest ->
    Forall2 (step_ran config) completed css ->
    runs (execute_step config step) t' (Err x) ->
    o = Err x ->
    progress safe_dump config o (concat css ++ commands t').

Lemma install_phases safe_dump config :
  install safe_dump config =
  (log_info (banner "Declarative ArchLinux Installer (DALI)" "Starting installation") ;;
   log_summary config ;; run_steps config ;; write_kept_files safe_dump config ;;
   log_info (banner "Installation complete" "")).
Proof. reflexivity. Qed.

Lemma run_steps_loop config :
  run_steps config =
  for_each (run_step config (length (enabled_steps config))) (numbered (enabled_steps config)).
Proof. reflexivity. Qed.

Lemma install_progress safe_dump config t o :
  runs (install safe_dump config) t o -> progress safe_dump config o (commands t).
Proof.
  intros H. rewrite install_phases in H. apply runs_log_then in H as (t1 & H & ->).
  apply runs_bind in H as [([] & ta & tb & -> & Ha & H)|(x & -> & H)].
  2: { unfold log_summary in H. apply runs_log_then in H as (t' & H & _). apply runs_log in H as [_ [=]]. }
  unfold log_summary in Ha. apply runs_log_then in Ha as (t' & Ha & Ea). apply runs_log in Ha as [Ha _].
  rewrite commands_app, Ea, Ha. clear Ea Ha. simpl.
  apply runs_bind in H as [([] & tc & td & -> & Hc & H)|(x & -> & H)].
  - apply runs_for_each in Hc as [(_ & ts & -> & Hf)|(dn & a & rest & ts & t2 & x & _ & _ & [=] & _)].
    destruct (rounds_steps _ _ _ _ Hf) as (css & Hs & Ec). rewrite numbered_steps in Hs.
    rewrite commands_app, Ec.
    apply runs_bind in H as [([] & te & tf & -> & He & H)|(x & -> & H)].
    + apply runs_log in H as [H ->]. rewrite commands_app, H, app_nil_r.
      apply all_steps; assumption.
    + apply all_steps; assumption.
  - apply runs_for_each in H as [([=] & _)|(dn & [n s] & rest & ts & t2 & y & El & -> & [= ->] & Hf & Hy)].
    destruct (rounds_steps _ _ _ _ Hf) as (css & Hs & Ec). rewrite commands_app, Ec.
    apply runs_log_then in Hy as (t3 & Hy & ->).
    apply (failed_step _ _ _ (map snd dn) s (map snd rest) css t3 y); try assumption; [|reflexivity].
    rewrite <- (numbered_steps (enabled_steps config)), El, map_app. reflexivity.
Qed.

Lemma install_steps_listed : map fst INSTALL_STEPS =
  [MIGRATION_STAGING; USB_BOOT_DRIVE; STORAGE; PACMAN_MIRRORS; PACKAGES; MIGRATION_RESTORE; SYSTEM;
   DOCKER; GPU_DRIVER_STEP; KERNEL_IMAGES; BOOTLOADER; RECOVERY_SYSTEM; SNAPPER; BOOTABLE_SNAPSHOTS;
   SNAPSHOT_NOTIFICATIONS; FIREWALL; USB_BOOT_SAFEGUARDS].
Proof. reflexivity. Qed.

Lemma install_steps_distinct : NoDup (map fst INSTALL_STEPS).
Proof.
  rewrite install_steps_listed.
  repeat (apply NoDup_cons; split; [rewrite ?elem_of_cons, ?elem_of_nil; intuition discriminate|]).
  apply NoDup_nil_2.
Qed.

#[local] Transparent enabled_steps.

Lemma enabled_steps_sublist config : enabled_steps config `sublist_of` map fst INSTALL_STEPS.
Proof.
  unfold enabled_steps. generalize INSTALL_STEPS as steps.
  induction steps as [|sw steps IH]; [constructor|].
  simpl. destruct (step_enabled _ _); constructor; exact IH.
Qed.

(** ** Properties *)

(** C5: an installation runs the enabled steps in the registry's order, each once
    and only after the one before it succeeded; when a step fails, its error ends
    the installation and nothing after it runs; the kept files are written when all
    steps succeeded. *)
Theorem install_in_order (safe_dump : pyval -> string) (config : InstallerConfig) t o :
  runs (install safe_dump config) t o ->
  progress safe_dump config o (commands t) /\
  enabled_steps config `sublist_of` map fst INSTALL_STEPS /\ NoDup (enabled_steps config).
Proof.
  intros H. split; [exact (install_progress _ _ _ _ H)|].
  split; [apply enabled_steps_sublist|].
  eapply sublist_NoDup; [apply install_steps_distinct | apply enabled_steps_sublist].
Qed.

Lemma install_in_order_witness :
  progress (fun _ => "") sample_config
    (outcome_of fresh_machine (install (fun _ => "") sample_config))
    (commands (trace_of fresh_machine (install (fun _ => "") sample_config))).
Proof. apply (install_in_order (fun _ => "") sample_config), trace_runs. Defined.

Lemma filter_head {A B} (f : A * B -> bool) a b l :
  f (a, b) = true -> exists l', map fst (List.filter f ((a, b) :: l)) = a :: l'.
Proof. intros H. simpl. rewrite H. simpl. eauto. Qed.

Lemma staging_is_first config :
  migration_enabled (cfg_migration config) = true ->
  exists later, enabled_steps config = MIGRATION_STAGING :: later.
Proof.
  intros He. assert (Hl : py_bool (lookup_in config "migration.enabled") = true).
  { transitivity (migration_enabled (cfg_migration config)); [vm_compute; reflexivity | exact He]. }
  unfold enabled_steps, INSTALL_STEPS, steps_to_packages, steps_after_packages. cbn [app]. apply filter_head. exact Hl.
Qed.

(** C10: with migration enabled the old system's data is staged before anything
    else: either the whole installation is a staging that failed, which only opened
    and read the old system and copied from it into the staging directory, or staging completed before the first
    command of any other step. *)
Theorem old_data_staged_first (safe_dump : pyval -> string) (config : InstallerConfig) t o :
  migration_enabled (cfg_migration config) = true ->
  runs (install safe_dump config) t o ->
  (is_ok o = false /\
   Forall (staging_command config) (commands t)) \/
  (exists ts later, runs (migration_staging_execute config) ts (Ok tt) /\
     commands t = commands ts ++ later).
Proof.
  intros He Hr. destruct (staging_is_first _ He) as (later & El).
  destruct (install_progress _ _ _ _ Hr) as [css t' Hs Hk|completed step rest css t' x Es Hs Hx ->].
  - right. rewrite El in Hs. inversion Hs as [|? cs ? css' (ts & Ht & Hc) _]; subst.
    exists ts, (concat css' ++ commands t'). split; [exact Ht|]. simpl. rewrite app_assoc. reflexivity.
  - rewrite El in Es. destruct completed as [|s completed]; injection Es as <- ->.
    + left. split; [reflexivity|]. inversion Hs; subst. exact (staging_commands config _ _ Hx).
    + right. inversion Hs as [|? cs ? css' (ts & Ht & Hc) _]; subst.
      exists ts, (concat css' ++ commands t'). split; [exact Ht|]. simpl. rewrite app_assoc. reflexivity.
Qed.

Lemma old_data_staged_first_witness :
  (is_ok (outcome_of migration_machine (install (fun _ => "") sample_migration_config)) = false /\
   Forall (staging_command sample_migration_config)
     (commands (trace_of migration_machine (install (fun _ => "") sample_migration_config)))) \/
  (exists ts later, runs (migration_staging_execute sample_migration_config) ts (Ok tt) /\
     commands (trace_of migration_machine (install (fun _ => "") sample_migration_config)) =
     commands ts ++ later).
Proof.
  apply (old_data_staged_first (fun _ => "") sample_migration_config); [reflexivity | apply trace_runs].
Defined.

(** ** The kept files *)

(** When the kept files are written, the expected state is in the file that
    verify-install reads and the configuration, without its passwords and their
    encrypted forms, is in the user's home. *)
Theorem kept_files_written (safe_dump : pyval -> string) (config : InstallerConfig) t u :
  runs (write_kept_files safe_dump config) t (Ok u) ->
  ("cat > " +:+ TARGET_ROOT +:+ EXPECTED_STATE_PATH, expected_state_file config) ∈ writes t /\
  ("cat > /mnt/home/" +:+ user_name (system_user (cfg_system config)) +:+ "/final_config.yaml",
   safe_dump (PDict (exportable_config config))) ∈ writes t /\
  dict_get (exportable_config config) "credentials" = None /\
  dict_get (exportable_config config) "secrets" = None.
Proof.
  intros H. unfold write_kept_files, write_expected_state, write_final_config in H. cbv zeta in H.
  runs_ok H. runs_ok H. runs_ok Hr0. runs_ok Hr0. runs_ok H. runs_ok H.
  apply runs_run_input_ok in Hr2 as [Hs _]. apply runs_run_input_ok in Hr4 as [Hc _].
  rewrite !writes_app, !elem_of_app. split; [auto|]. split; [|split; reflexivity].
  repeat rewrite str_app_assoc in Hc. auto 10.
Qed.

Lemma kept_files_written_witness :
  ("cat > /mnt/home/testuser/final_config.yaml", "yaml") ∈
    writes (trace_of fresh_machine (write_kept_files (fun _ => "yaml") sample_config)).
Proof.
  apply (kept_files_written (fun _ => "yaml") sample_config _ tt).
  apply trace_runs_ok. vm_compute. reflexivity.
Defined.
