(* ===== verification/InstallDone.v ===== *)
(** * What an installation has done when it returns

    The steps' achievements put together, in the order in which the installer runs
    the enabled steps, and the files it leaves on the new system. *)

From S2P Require Import Prelude PyStr PyVal Effects Command Models Export Samples Base Patterns ExpectedState Registry Deeds StorageDone StepsDone Installer.

Section InstallDone.
Context (safe_dump : pyval -> string).
Context (config : InstallerConfig).

Definition step_done (step : InstallStep) : achievement :=
  match step with
  | MIGRATION_STAGING => migration_staging_done config
  | USB_BOOT_DRIVE => usb_boot_drive_done config
  | STORAGE => storage_done config
  | PACMAN_MIRRORS => mirrors_done config
  | PACKAGES => packages_done config
  | MIGRATION_RESTORE => migration_restore_done config
  | SYSTEM => system_done config
  | DOCKER => docker_done config
  | GPU_DRIVER_STEP => gpu_done config
  | KERNEL_IMAGES => kernel_images_done config
  | BOOTLOADER => bootloader_done config
  | RECOVERY_SYSTEM => recovery_done config
  | SNAPPER => snapper_done config
  | BOOTABLE_SNAPSHOTS => bootable_snapshots_done config
  | SNAPSHOT_NOTIFICATIONS => snapshot_notifications_done
  | FIREWALL => firewall_done config
  | USB_BOOT_SAFEGUARDS => safeguards_done config
  end.

(** The scripts that are there, the expected state, the configuration without its
    passwords. *)
Definition script_installed (script : string * string) : achievement :=
  provided ("test -f " +:+ script.1) (ran ("install -m 755 " +:+ script.1 +:+ " /mnt/usr/local/bin/" +:+ script.2)).

#[local] Abbreviation username := (user_name (system_user (cfg_system config))).

Definition scripts_installed : achievement := in_order [
  ran "mkdir -p /mnt/usr/local/bin"; in_turn UTILITY_SCRIPTS script_installed].

Definition expected_state_written : achievement := in_order [
  ran "install -d -m 755 /mnt/etc/dali";
  wrote "/mnt/etc/dali/expected-state.env" (expected_state_file config);
  ran "chmod 644 /mnt/etc/dali/expected-state.env"].

Definition final_config_written : achievement := in_order [
  tried ("mkdir -p /mnt/home/" +:+ username);
  wrote (("/mnt/home/" +:+ username) +:+ "/final_config.yaml") (safe_dump (PDict (exportable_config config)));
  tried (chroot_command ("chown " +:+ username +:+ ":" +:+ username +:+ " /home/" +:+ username +:+
    "/final_config.yaml"))].

Definition kept_files_done : achievement := in_order [
  scripts_installed; expected_state_written; final_config_written].

Definition install_done : achievement := in_order [
  in_turn (enabled_steps config) step_done;
  kept_files_done].

#[local] Opaque enabled_steps.

Lemma step_achieves step : achieves (execute_step config step) (step_done step).
Proof.
  destruct step;
    [ exact (migration_staging_achieves config) | exact (usb_boot_drive_achieves config)
    | exact (storage_achieves config) | exact (mirrors_achieves config) | exact (packages_achieves config)
    | exact (migration_restore_achieves config) | exact (system_achieves config) | exact (docker_achieves config)
    | exact (gpu_achieves config) | exact (kernel_images_achieves config) | exact (bootloader_achieves config)
    | exact (recovery_achieves config) | exact (snapper_achieves config)
    | exact (bootable_snapshots_achieves config) | exact snapshot_notifications_achieves
    | exact (firewall_achieves config) | exact (safeguards_achieves config) ].
Qed.

Lemma run_steps_achieves : achieves (run_steps config) (in_turn (enabled_steps config) step_done).
Proof.
  rewrite run_steps_loop. rewrite <- (numbered_steps (enabled_steps config)) at 3.
  unfold in_turn. rewrite map_map. apply achieves_for_each. intros [number step].
  apply achieves_alone, achieves_silent; [apply achieves_log|]. intros _. apply achieves_one, step_achieves.
Qed.

Lemma script_installs script :
  achieves (let* found := file_exists script.1 in
            when found (run ("install -m 755 " +:+ script.1 +:+ " /mnt/usr/local/bin/" +:+ script.2)))
    (script_installed script).
Proof. unfold script_installed. achieve. Qed.

Lemma install_utility_scripts_achieves : achieves install_utility_scripts scripts_installed.
Proof.
  unfold install_utility_scripts, scripts_installed. cbv zeta. apply achieves_seq; [apply achieves_run|]. intros _.
  apply achieves_one, achieves_for_each. intros [source name]. exact (script_installs (source, name)).
Qed.

Lemma write_expected_state_writes : achieves (write_expected_state config) expected_state_written.
Proof. unfold write_expected_state, expected_state_written. achieve. Qed.

Lemma write_final_config_writes : achieves (write_final_config safe_dump config) final_config_written.
Proof. unfold write_final_config, final_config_written. achieve. Qed.

Lemma write_kept_files_achieves : achieves (write_kept_files safe_dump config) kept_files_done.
Proof.
  pose proof install_utility_scripts_achieves. pose proof write_expected_state_writes.
  pose proof write_final_config_writes. unfold write_kept_files, kept_files_done. achieve.
Qed.

Lemma log_summary_silent : achieves (log_summary config) nothing.
Proof. unfold log_summary. achieve. Qed.

Lemma install_achieves : achieves (install safe_dump config) install_done.
Proof.
  pose proof run_steps_achieves. pose proof write_kept_files_achieves.
  rewrite install_phases. unfold install_done. achieve_step. achieve_step.
  apply achieves_silent; [apply log_summary_silent|]. achieve.
Qed.
End InstallDone.

(** C2: a successful installation has done exactly its work. The commands it ran,
    with their inputs and answers, fall into one part for each enabled step, in the
    registry's order, and a last one for the kept files, and each part is one of the
    sequences that make up its step, command by command: none is missing, none is
    added, and none is out of order. What [ran], [given] and [wrote] name succeeded
    with exactly this input; what [tried] names was run and may have failed, because
    the code goes on without it; which branch was taken is told by the answer of the
    probe in the same sequence. So the disk was wiped and partitioned by the
    configured method, the volume formatted and opened with its password, BTRFS and
    the subvolumes made and mounted, the packages installed, and so for every step. *)
Theorem install_complete (safe_dump : pyval -> string) (config : InstallerConfig) t u :
  runs (install safe_dump config) t (Ok u) ->
  in_order [in_turn (enabled_steps config) (step_done config); kept_files_done safe_dump config] (exchanges t).
Proof. apply install_achieves. Qed.

(** A fresh machine on which the kernels appear once they are installed. *)
Definition installing_machine : oracle cmd_sig := fake_runner [
  ("mountpoint -q", (1, "", "")); ("cryptsetup status", (4, "", ""));
  ("cryptsetup luksUUID", (0, "6a0b", "")); ("cryptsetup isLuks", (1, "", ""));
  ("test -f /mnt/boot/vmlinuz", (0, "", "")); ("test -f", (1, "", ""))]%Z.

Lemma install_complete_witness :
  is_ok (outcome_of installing_machine (install (fun _ => "") sample_config)) = true /\
  in_order [in_turn (enabled_steps sample_config) (step_done sample_config);
            kept_files_done (fun _ => "") sample_config]
    (exchanges (trace_of installing_machine (install (fun _ => "") sample_config))).
Proof.
  split; [vm_compute; reflexivity|].
  apply (install_complete (fun _ => "") sample_config _ tt), trace_runs_ok. vm_compute. reflexivity.
Defined.
