(* ===== verification/Secrecy.v ===== *)
(** * Passwords stay on stdin

    Two installations whose configurations differ only in their passwords cannot be
    told apart by what the machine shows: command lines, log, output and the
    contents of every written file. *)

From S2P Require Import Prelude PyStr PyVal Effects Command Models Export Schema Samples Base ExpectedState Storage System Migration Registry Installer.

(** Skip what two programs have in common at their start. *)
Ltac same_start := apply indistinguishable_bind; [apply indistinguishable_refl | intros ?].

(** One step through two programs that differ in what they pass on stdin. *)
Ltac hide_step :=
  first
    [ apply indistinguishable_refl
    | apply indistinguishable_run_input; reflexivity
    | apply indistinguishable_run_input_quiet; reflexivity
    | apply indistinguishable_try_finally
    | apply indistinguishable_bind; [|intros ?] ].

Section Secrecy.
Context (k : Credentials) (config : InstallerConfig).
Let config' := with_credentials k config.

Lemma hidden_luks_is_usable : indistinguishable (luks_is_usable config) (luks_is_usable config').
Proof.
  unfold luks_is_usable. hide_step; [hide_step|]. destruct (negb a); [hide_step|].
  repeat hide_step.
Qed.

Lemma hidden_prepare_disk method :
  indistinguishable (prepare_disk config method) (prepare_disk config' method).
Proof.
  unfold prepare_disk.
  change (usb_boot config') with (usb_boot config).
  destruct (usb_boot config), method; try apply indistinguishable_refl.
  hide_step; [hide_step|]. destruct (negb a); [hide_step|].
  hide_step; [apply hidden_luks_is_usable | hide_step].
Qed.

Lemma hidden_setup_luks : indistinguishable (setup_luks config) (setup_luks config').
Proof.
  unfold setup_luks, format_luks, open_luks. hide_step; [hide_step|].
  destruct (success a && contains "active" (lower (stdout a))); [hide_step|].
  hide_step; [hide_step|]. hide_step; [|repeat hide_step].
  destruct (negb a0); cbn [when]; repeat hide_step.
Qed.

Lemma hidden_storage : indistinguishable (storage_execute config) (storage_execute config').
Proof.
  unfold storage_execute. same_start. destruct a; [apply indistinguishable_refl|].
  do 2 same_start.
  hide_step; [apply hidden_prepare_disk|]. hide_step; [apply hidden_setup_luks | hide_step].
Qed.

Lemma hidden_system : indistinguishable (system_execute config) (system_execute config').
Proof.
  unfold system_execute, create_user. cbv zeta. repeat same_start.
  apply indistinguishable_run_input. reflexivity.
Qed.

Lemma hidden_staging :
  indistinguishable (migration_staging_execute config) (migration_staging_execute config').
Proof.
  unfold migration_staging_execute. cbv zeta. same_start.
  hide_step; [unfold open_and_mount; repeat hide_step | hide_step].
Qed.

(** ** Every step, and the rest of the installation *)

Lemma hidden_executors :
  Forall (fun sw => indistinguishable (step_executor sw.2 config) (step_executor sw.2 config'))
    INSTALL_STEPS.
Proof.
  unfold INSTALL_STEPS.
  repeat first [apply Forall_nil_2 | apply Forall_cons_2; [cbn [snd wiring step_executor]|]];
    first [apply hidden_staging | apply hidden_storage | apply hidden_system
          | apply indistinguishable_refl].
Qed.

Lemma same_conditions :
  Forall (fun sw => step_enabled sw.2 (lookup_in config') = step_enabled sw.2 (lookup_in config))
    INSTALL_STEPS.
Proof.
  unfold INSTALL_STEPS.
  repeat first [apply Forall_nil_2 | apply Forall_cons_2; [cbn [snd wiring step_enabled]|]];
    try reflexivity; vm_compute; reflexivity.
Qed.

Lemma same_enabled_steps : enabled_steps config' = enabled_steps config.
Proof.
  unfold enabled_steps. generalize same_conditions. generalize INSTALL_STEPS as steps.
  induction 1 as [|sw steps Hsw _ IH]; [reflexivity|].
  cbn [List.filter]. rewrite Hsw.
  destruct (step_enabled sw.2 (lookup_in config)); [|exact IH]. cbn [map]. f_equal. exact IH.
Qed.

Lemma hidden_execute_step step :
  indistinguishable (execute_step config step) (execute_step config' step).
Proof.
  unfold execute_step, step_wiring. generalize hidden_executors.
  generalize INSTALL_STEPS as steps. induction 1 as [|[s w] steps Hw _ IH]; [apply indistinguishable_refl|].
  simpl. case_decide; [exact Hw | exact IH].
Qed.

Lemma hidden_run_steps : indistinguishable (run_steps config) (run_steps config').
Proof.
  rewrite !run_steps_loop, same_enabled_steps. apply indistinguishable_for_each. intros [n s].
  unfold run_step. hide_step; [hide_step|]. apply hidden_execute_step.
Qed.
End Secrecy.

(** ** Properties *)

(** C6: passwords only travel through the standard input of the commands that ask
    for them: whatever an installation does with one set of passwords, it can do
    with any other set, with the same command lines, log, output and file contents,
    the same answers and the same outcome. *)
Theorem passwords_hidden (safe_dump : pyval -> string) (config : InstallerConfig) (k : Credentials) :
  indistinguishable (install safe_dump config) (install safe_dump (with_credentials k config)).
Proof.
  rewrite !install_phases. apply indistinguishable_bind; [apply indistinguishable_refl | intros _].
  apply indistinguishable_bind; [unfold log_summary; rewrite same_enabled_steps; apply indistinguishable_refl|].
  intros _. apply indistinguishable_bind; [apply hidden_run_steps | intros _].
  apply indistinguishable_refl.
Qed.
