(* ===== verification/Setup.v ===== *)
(** * The interactive setup ([setup/session.py], [setup/machine.py])

    The questions of the install steps, in step order, asked through a front-end;
    the answers become setting values. *)

From S2P Require Import Prelude PyStr PyVal Effects Command Questions Host Models Samples Environment ConfigBuilder Registry.

(** ** [SystemMachineFacts] *)

(** [s.rsplit(maxsplit=1)] of a stripped text. *)
Definition rsplit_word (s : string) : list string :=
  match split s with
  | [] => []
  | [word] => [word]
  | words =>
      let last := last_of words in
      [rstrip_by is_space (String.substring 0 (str_len s - str_len last) s); last]
  end.

Definition model_and_size (path : string) : cmd (string * string) :=
  let* result := system_run (Argv ["lsblk"; "-dno"; "MODEL,SIZE"; path]) false true None None None in
  if negb (success result) then Ret ("unknown", "unknown")
  else Ret (match rsplit_word (strip (stdout result)) with
            | model :: size :: _ => (model, size)
            | [size] => ("unknown", size)
            | [] => ("unknown", "unknown")
            end).

(** The names in the listing that are disks. *)
Definition listed_disks (listing : string) : list string :=
  omap (fun line =>
    match split line with
    | name :: type :: _ => if String.eqb type "disk" then Some name else None
    | _ => None
    end) (split_on nl (strip listing)).

Definition machine_disks : cmd (list Disk) :=
  let* result := system_run (Argv ["lsblk"; "-dno"; "NAME,TYPE"]) false true None None None in
  if negb (success result) then Ret []
  else map_each (fun name =>
         let path := "/dev/" +:+ name in
         let* (model, size) := model_and_size path in
         Ret {| disk_path := path; disk_model := model; disk_size := size |})
       (listed_disks (stdout result)).

(** ** [SetupSession] *)

Record session : Type := {
  asked : list (string * StepSetting);
  offered_choices : dict string (list Choice);
  answers : dict string pyval;
}.

Definition new_session : session := {| asked := []; offered_choices := []; answers := [] |}.

(** [list(value)] and iteration: a text iterates over its characters, a number
    does not iterate. *)
Definition iterated (value : pyval) : outcome (list pyval) :=
  match value with
  | PList l | PTuple l => Ok l
  | PStr s | PEnum _ _ s => Ok (map (fun c => PStr (String c "")) (String.list_ascii_of_string s))
  | PDict d => Ok (map (fun kv => PStr kv.1) d)
  | PNone | PBool _ | PInt _ => Err (TypeError "object is not iterable")
  end.

Definition inherited_as {V} (setting_value : option SettingValue) (convert : pyval -> outcome V)
    : outcome (option (Inherited V)) :=
  match setting_value with
  | Some {| setting_value := PNone |} | None => Ok None
  | Some s =>
      obind (fun v => Ok (Some {| inherited_value := v; inherited_source := source_name (setting_source s) |}))
        (convert (Environment.setting_value s))
  end.

(** An empty text is no value to offer. *)
Definition inherited_text (setting_value : option SettingValue) : option (Inherited string) :=
  match setting_value with
  | Some s =>
      let value := Environment.setting_value s in
      if py_eq value PNone || py_eq value (PStr "") then None
      else Some {| inherited_value := py_str value; inherited_source := source_name (setting_source s) |}
  | None => None
  end.

(** [_as_texts(a) == _as_texts(b)]: the same set of texts. *)
Definition same_texts (a b : list pyval) : bool :=
  forallb (fun v => str_in (py_str v) (map py_str b)) a &&
  forallb (fun v => str_in (py_str v) (map py_str a)) b.

Section Session.
Context (inherited : dict string SettingValue) (machine : MachineFacts).

(** The current value of any setting: the answer, else the inherited one. *)
Definition current_value (answers : dict string pyval) : SettingLookup := fun setting_path =>
  match dict_get answers setting_path with
  | Some v => v
  | None => match dict_get inherited setting_path with Some i => Environment.setting_value i | None => PNone end
  end.
Definition value (s : session) : SettingLookup := current_value (answers s).

Definition ask_one (s : session) (step path : string) (question : ChooseOne)
    (own : option SettingValue) : host (pyval * dict string (list Choice)) :=
  let* choices :=
    match one_choices question with
    | Offered choices => Ret choices
    | Computed source =>
        commands_on_host (source (match own with Some i => Environment.setting_value i | None => PNone end) machine)
    end in
  match choices with
  | [] =>
      let typed := {| text_label := one_label question; text_prompt := one_typed_prompt question |} in
      let* text := frontend_enter_text step typed (inherited_text own) in
      Ret (PStr text, offered_choices s)
  | _ =>
      let* shown := of_outcome (inherited_as own Ok) in
      let* chosen := frontend_choose_one step question choices shown in
      Ret (chosen, dict_set (offered_choices s) path choices)
  end.

Definition ask_many (step : string) (question : ChooseMany) (own : option SettingValue) : host pyval :=
  let* shown := of_outcome (inherited_as own iterated) in
  let* chosen := frontend_choose_many step question shown in
  match own with
  | None => Ret (PList chosen)
  | Some i =>
      let* values := of_outcome (iterated (Environment.setting_value i)) in
      Ret (if same_texts chosen values then Environment.setting_value i else PList chosen)
  end.

Definition ask_secret (step : string) (question : EnterSecret) (own : option SettingValue) : host pyval :=
  let enter := let* typed := frontend_enter_secret step question in Ret (PStr typed) in
  match own with
  | Some i =>
      if py_bool (Environment.setting_value i) then
        let* kept := frontend_keep_secret step question (source_name (setting_source i)) in
        if kept then Ret (Environment.setting_value i) else enter
      else enter
  | None => enter
  end.

(** [_answer], with the choices it offered. *)
Definition answer (s : session) (step : string) (setting : StepSetting)
    : host (pyval * dict string (list Choice)) :=
  let path := setting_path setting in
  let own := dict_get inherited path in
  let same p := let* v := p in Ret (v, offered_choices s) in
  match setting_question setting with
  | Some (QSwitch question) =>
      same (let* state := of_outcome (inherited_as own (fun v => Ok (py_bool v))) in
            let* on := frontend_switch step question state in Ret (PBool on))
  | Some (QChooseOne question) => ask_one s step path question own
  | Some (QChooseMany question) => same (ask_many step question own)
  | Some (QEnterText question) =>
      same (let* text := frontend_enter_text step question (inherited_text own) in Ret (PStr text))
  | Some (QEnterSecret question) => same (ask_secret step question own)
  | None => Raise (TypeError (path +:+ " has no question to ask"))
  end.

Definition ask_setting (s : session) (step : string) (setting : StepSetting) : host session :=
  let* (v, offered) := answer s step setting in
  Ret {| asked := asked s ++ [(step, setting)]; offered_choices := offered;
         answers := dict_set (answers s) (setting_path setting) v |}.

(** ** The summary *)

Definition shown (s : session) (setting : StepSetting) (v : pyval) : string :=
  match setting_question setting with
  | Some (QEnterSecret _) => if py_bool v then "set" else "not set"
  | Some (QSwitch question) => if py_bool v then switch_on_label question else switch_off_label question
  | Some (QChooseMany _) =>
      str_or (join ", " (map py_str (match iterated v with Ok l => l | Err _ => [] end))) "none"
  | Some (QChooseOne _) =>
      match List.find (fun c => py_eq (choice_value c) v)
              (default [] (dict_get (offered_choices s) (setting_path setting))) with
      | Some c => choice_label c
      | None => py_str v
      end
  | _ => py_str v
  end.

(** Every asked setting has a final value, see [asked_has_value]. *)
Definition summary (s : session) : list SummaryRow :=
  let final := apply_tui_choices inherited (answers s) in
  omap (fun '(step, setting) =>
    match setting_question setting, dict_get final (setting_path setting) with
    | Some question, Some v =>
        Some {| row_step := step; row_label := question_label question;
                row_value := shown s setting (Environment.setting_value v);
                row_source := source_name (setting_source v) |}
    | _, _ => None
    end) (asked s).

(** ** [run_setup] *)

(** The settings of the steps, each with its step. *)
Definition step_questions : list (string * StepSetting) :=
  concat (map (fun sw => map (fun setting => (step_name sw.1, setting)) (step_settings sw.2)) INSTALL_STEPS).

Definition is_question (setting : StepSetting) : bool :=
  match setting_question setting with Some _ => true | None => false end.

Definition ask_when_needed (s : session) (step_setting : string * StepSetting) : host session :=
  let '(step, setting) := step_setting in
  if is_question setting && asked_when setting (value s) then ask_setting s step setting else Ret s.

Definition run_setup : host (dict string pyval) :=
  let* s := fold_each ask_when_needed step_questions new_session in
  let* confirmed := frontend_review (summary s) in
  if negb confirmed then Raise (KeyboardInterrupt "installation cancelled by user")
  else Ret (answers s).
End Session.

(** ** The conditions only look at what was asked before *)

Abbreviation paths l := (map (fun st : string * StepSetting => setting_path st.2) l).

Fixpoint conditions_ordered (l : list (string * StepSetting)) : Prop :=
  match l with
  | [] => True
  | st :: l' =>
      (forall f g : SettingLookup, (forall p, str_in p (paths (st :: l')) = false -> f p = g p) ->
         asked_when st.2 f = asked_when st.2 g) /\
      conditions_ordered l'
  end.

Lemma step_questions_ordered : conditions_ordered step_questions.
Proof.
  unfold step_questions, INSTALL_STEPS, steps_to_packages, steps_after_packages. cbn [app]. cbn [map concat app wiring step_settings fst snd].
  cbn [conditions_ordered].
  repeat match goal with |- _ /\ _ => split end; try exact I; intros f g H;
    cbn [snd asked_when setting]; unfold always, when_set, when_equal, recovery_system_wanted;
    rewrite ?(H _) by (vm_compute; reflexivity); reflexivity.
Qed.

Lemma step_questions_distinct : NoDup (paths step_questions).
Proof. apply distinct_names_NoDup. vm_compute. reflexivity. Qed.

Section Asked.
Context (inherited : dict string SettingValue) (machine : MachineFacts).
Abbreviation current := (current_value inherited).

Lemma ask_setting_answers s step setting t s' :
  runs (ask_setting inherited machine s step setting) t (Ok s') ->
  exists v, answers s' = dict_set (answers s) (setting_path setting) v.
Proof. intros H. unfold ask_setting in H. runs_ok H. destruct a as [v offered], H as [_ [= ->]]. eauto. Qed.

(** What a stretch of questions does to the answers. *)
Lemma questions_answers l s t s' :
  runs (fold_each (ask_when_needed inherited machine) l s) t (Ok s') ->
  NoDup (paths l) -> conditions_ordered l ->
  (forall p, p ∈ paths l -> dict_get (answers s) p = None) -> NoDup (dict_keys (answers s)) ->
  NoDup (dict_keys (answers s')) /\
  (forall p, p ∉ paths l -> dict_get (answers s') p = dict_get (answers s) p) /\
  Forall (fun st => dict_in (answers s') (setting_path st.2) =
                    is_question st.2 && asked_when st.2 (current (answers s'))) l.
Proof.
  revert s t. induction l as [|[step setting] l IH]; intros s t H Hn Ho Hnew Hd.
  - destruct H as [_ [= ->]]. auto.
  - simpl in Hn. apply NoDup_cons in Hn as [Hpath Hn]. destruct Ho as [Hcond Ho]. simpl in Hcond.
    apply runs_bind_ok in H as (s1 & t1 & t2 & -> & H1 & H2).
    assert (Hs1 : exists asks, is_question setting && asked_when setting (current (answers s)) = asks /\
      NoDup (dict_keys (answers s1)) /\
      (forall p, p <> setting_path setting -> dict_get (answers s1) p = dict_get (answers s) p) /\
      dict_in (answers s1) (setting_path setting) = asks).
    { eexists. split; [reflexivity|]. unfold ask_when_needed, value in H1.
      destruct (is_question setting && _).
      - apply ask_setting_answers in H1 as (v & ->). split; [apply NoDup_dict_set, Hd|].
        split; [intros p Hp; apply dict_get_set_ne, Hp|]. unfold dict_in.
        rewrite dict_get_set_eq. reflexivity.
      - destruct H1 as [_ [= ->]]. split; [exact Hd|]. split; [reflexivity|]. unfold dict_in.
        rewrite (Hnew (setting_path setting)) by left. reflexivity. }
    destruct Hs1 as (asks & Ha & Hd1 & Hother & Hin).
    destruct (IH _ _ H2 Hn Ho) as (Hd' & Hsame & Hl).
    { intros p Hp. rewrite Hother by congruence. apply Hnew. right. exact Hp. }
    { exact Hd1. }
    split; [exact Hd'|]. split.
    + intros p Hp. simpl in Hp. apply not_elem_of_cons in Hp as [Hp1 Hp2].
      rewrite Hsame by exact Hp2. apply Hother, Hp1.
    + constructor; [|exact Hl]. simpl. unfold dict_in. rewrite Hsame by exact Hpath.
      change (dict_in (answers s1) (setting_path setting) = is_question setting &&
        asked_when setting (current (answers s'))).
      rewrite Hin, <- Ha. f_equal. apply Hcond. intros p Hp. unfold current_value.
      apply orb_false_iff in Hp as [Hp1 Hp2]. apply String.eqb_neq in Hp1.
      apply negb_true_iff, not_str_in in Hp2.
      rewrite Hsame by exact Hp2. rewrite Hother by exact Hp1. reflexivity.
Qed.
End Asked.

(** ** Properties *)

(** C11: the setup asks exactly the questions that matter: a setting has an answer
    if and only if it has a question whose condition holds with all the final
    values; no setting is answered twice; and the answers are only returned after
    the user confirmed the summary on the last screen. *)
Theorem questions_asked_exactly (inherited : dict string SettingValue) (machine : MachineFacts) t answers :
  runs (run_setup inherited machine) t (Ok answers) ->
  NoDup (dict_keys answers) /\
  (forall step setting, (step, setting) ∈ step_questions ->
     dict_in answers (setting_path setting) =
     is_question setting && asked_when setting (current_value inherited answers)) /\
  exists t' rows, t = t' ++ [@Ev host_sig (OpFrontend (Review rows)) (Ok true)].
Proof.
  intros H. unfold run_setup in H. runs_ok H. rename a into s.
  apply questions_answers in Hr as (Hd & _ & Hall);
    [|apply step_questions_distinct | apply step_questions_ordered | reflexivity | apply NoDup_nil_2].
  runs_ok H. unfold frontend_review, ask in Hr. runs_ok Hr.
  destruct Hr0 as (res & t'' & -> & -> & [= ->]).
  destruct res as [confirmed|x]; [|destruct Hr as [_ [=]]]. destruct Hr as [-> [= ->]].
  destruct confirmed; [|destruct H as [_ [=]]]. destruct H as [-> [= ->]].
  split; [exact Hd|]. split; [|eauto].
  intros step setting Hin. exact (proj1 (Forall_forall _ _) Hall (step, setting) Hin).
Qed.

(** A user who keeps what is offered, on a machine whose commands print nothing. *)
Definition offered_or {V} (inherited : option (Inherited V)) (v : V) : V :=
  match inherited with Some i => inherited_value i | None => v end.

Definition keeping_user (e : frontend_op) : outcome (frontend_answer e) :=
  match e with
  | AskSwitch _ _ inherited => Ok (offered_or inherited false)
  | AskOne _ _ choices inherited =>
      Ok (offered_or inherited (match choices with c :: _ => choice_value c | [] => PNone end))
  | AskMany _ _ inherited => Ok (offered_or inherited [])
  | AskText _ _ inherited => Ok (offered_or inherited "text")
  | KeepSecret _ _ _ => Ok true
  | AskSecret _ _ => Ok "secret"
  | Review _ => Ok true
  end.

Definition keeping_host : oracle host_sig := fun _ e =>
  match e return host_ans e with
  | OpCommand c => fake_runner [] [] c
  | OpExists _ => true
  | OpReadText _ => Ok ""
  | OpWriteText _ _ => Ok tt
  | OpGetpass _ => Ok "secret"
  | OpPrint _ => tt
  | OpUrandom n => ""
  | OpSetLogLevel _ => tt
  | OpInfoScreen _ _ => Ok tt
  | OpFrontend f => keeping_user f
  end.

Lemma questions_asked_exactly_witness :
  exists answers,
    outcome_of keeping_host (run_setup [] machine_disks) = Ok answers /\
    dict_in answers "credentials.source_luks_password" = false /\ NoDup (dict_keys answers).
Proof.
  eexists. split; [vm_compute; reflexivity|]. split; [reflexivity|].
  eapply (questions_asked_exactly [] machine_disks
    (trace_of keeping_host (run_setup [] machine_disks))), trace_runs_ok.
  vm_compute. reflexivity.
Defined.

(** ** A selection without a value

    [packages.selected_desktops:] without a value is an empty list for the
    configuration builder, but the setup iterates over the missing value: no
    interactive run of such a configuration gets past the question. *)
Theorem empty_selection_fails (inherited : dict string SettingValue) machine t answers source :
  dict_get inherited "packages.selected_desktops" =
    Some {| Environment.setting_value := PNone; setting_source := source |} ->
  ~ runs (run_setup inherited machine) t (Ok answers).
Proof.
  intros Hi H. unfold run_setup in H. runs_ok H.
  destruct (runs_fold_each_ok _ _ _ _ _
    (step_name PACKAGES, setting "packages.selected_desktops" (Some SELECTED_DESKTOPS)
       (Some (QChooseMany {| many_label := "Desktops"; many_choices := DESKTOP_CHOICES;
          many_description := "Select desktop environments to install (Space to toggle):" |})) always)
    Hr) as (s1 & s2 & t2 & Hs).
  { do 15 right. left. }
  unfold ask_when_needed in Hs. cbn [is_question setting setting_question asked_when always andb] in Hs.
  unfold ask_setting in Hs. runs_ok Hs. unfold answer in Hr0.
  cbn [setting setting_question setting_path] in Hr0. rewrite Hi in Hr0.
  runs_ok Hr0. unfold ask_many in Hr1. do 3 runs_ok Hr1. simpl in Hr4. destruct Hr4 as [_ [=]].
Qed.
