(* ===== verification/SetupSecrecy.v ===== *)
(** * The setup does not look at passwords

    Two setups whose passwords differ, inherited or typed, ask the same questions
    and show the same screens: [rename] gives the passwords of the second from
    those of the first, and equal passwords stay equal. *)

From S2P Require Import Prelude PyStr PyVal Effects Command Questions Host Models Samples Environment ConfigBuilder Registry Setup.

(** The settings that are asked as a secret. *)
Definition is_secret (setting : StepSetting) : bool :=
  match setting_question setting with Some (QEnterSecret _) => true | _ => false end.

Definition secret_path (p : string) : bool :=
  existsb (fun st : string * StepSetting => is_secret st.2 && String.eqb (setting_path st.2) p) step_questions.

Lemma secret_paths : Forall (fun st => secret_path (setting_path st.2) = is_secret st.2) step_questions.
Proof.
  assert (H : forallb (fun st => Bool.eqb (secret_path (setting_path st.2)) (is_secret st.2)) step_questions = true)
    by (vm_compute; reflexivity).
  apply Forall_forall. intros st Hst. rewrite forallb_forall in H.
  apply eqb_prop, H, list_elem_of_In, Hst.
Qed.

Lemma conditions_ignore_secrets :
  Forall (fun st : string * StepSetting => forall f g : SettingLookup,
    (forall p, secret_path p = false -> f p = g p) -> asked_when st.2 f = asked_when st.2 g) step_questions.
Proof.
  unfold step_questions, INSTALL_STEPS, steps_to_packages, steps_after_packages. cbn [app map concat wiring step_settings fst snd].
  repeat apply Forall_cons_2; try apply Forall_nil_2; intros f g H;
    cbn [snd asked_when setting]; unfold always, when_set, when_equal, recovery_system_wanted;
    rewrite ?(H _) by (vm_compute; reflexivity); reflexivity.
Qed.

Section Rename.
Context (rename : string -> string).
Context (rename_inj : forall s t, rename s = rename t -> s = t) (rename_empty : rename "" = "").

Definition rename_value (v : pyval) : pyval :=
  match v with
  | PStr s => PStr (rename s)
  | PEnum c n s => PEnum c n (rename s)
  | v => v
  end.

Definition rename_setting (v : SettingValue) : SettingValue :=
  {| setting_value := rename_value (Environment.setting_value v); setting_source := setting_source v |}.

(** The values at the paths of secrets, renamed. *)
Definition rename_secrets {V} (f : V -> V) (d : dict string V) : dict string V :=
  map (fun pv => (pv.1, if secret_path pv.1 then f pv.2 else pv.2)) d.

(** A typed secret is renamed; every other answer is the same. *)
Definition rename_answer (e : host_op) : host_ans e -> host_ans e :=
  match e with
  | OpFrontend (AskSecret _ _) => fun r => match r with Ok s => Ok (rename s) | Err x => Err x end
  | _ => fun r => r
  end.
Definition rename_event (ev : host_event) : host_event :=
  @Ev host_sig (ev_op ev) (rename_answer (ev_op ev) (ev_ans ev)).

(** ** Programs that show the same *)

Fixpoint alike {A B} (R : A -> B -> Prop) (p : host A) (q : host B) : Prop :=
  match p, q with
  | Ret a, Ret b => R a b
  | Raise x, Raise y => x = y
  | Vis e k, Vis e' k' =>
      exists E : e = e', forall r : host_ans e, alike R (k r) (k' (eq_rect e host_ans (rename_answer e r) e' E))
  | _, _ => False
  end.

Lemma alike_bind {A B C D} (R : A -> B -> Prop) (Q : C -> D -> Prop) p q f g :
  alike R p q -> (forall a b, R a b -> alike Q (f a) (g b)) -> alike Q (bind p f) (bind q g).
Proof.
  revert q. induction p as [a|x|e k IH]; intros [b|y|e' k'] Hp Hf; cbn in Hp; try contradiction.
  - apply Hf, Hp.
  - exact Hp.
  - destruct Hp as (E & Hp). exists E. intros r. apply IH; [apply Hp | exact Hf].
Qed.

Definition ending {A B} (R : A -> B -> Prop) (o : outcome A) (o' : outcome B) : Prop :=
  match o, o' with Ok a, Ok b => R a b | Err x, Err y => x = y | _, _ => False end.

(** A run of the one, with its secrets renamed, is a run of the other. *)
Lemma alike_runs {A B} (R : A -> B -> Prop) p q t o :
  alike R p q -> runs p t o -> exists o', runs q (map rename_event t) o' /\ ending R o o'.
Proof.
  revert q t. induction p as [a|x|e k IH]; intros [b|y|e' k'] t Hp Hr; cbn in Hp; try contradiction.
  - destruct Hr as [-> ->]. exists (Ok b). repeat split. exact Hp.
  - destruct Hr as [-> ->]. exists (Err y). repeat split. exact Hp.
  - destruct Hp as (E & Hp). subst e'. destruct Hr as (r & t' & -> & Hr).
    destruct (IH r (k' (rename_answer e r)) t' (Hp r) Hr) as (o' & Ho & Hend).
    exists o'. split; [|exact Hend]. exists (rename_answer e r), (map rename_event t'). auto.
Qed.

(** Programs that ask for no secret. *)
Definition asks_no_secret {A} (p : host A) : Prop :=
  emits (fun ev : host_event => match ev_op ev with OpFrontend (AskSecret _ _) => False | _ => True end) p.

Lemma alike_refl {A} (p : host A) : asks_no_secret p -> alike eq p p.
Proof.
  induction p as [a|x|e k IH]; intros H; [reflexivity | reflexivity|].
  exists eq_refl. intros r. destruct (H r) as [He Hk]. cbn [eq_rect].
  replace (rename_answer e r) with r; [apply IH, Hk|].
  destruct e; try reflexivity. destruct e; try reflexivity. destruct He.
Qed.

Lemma alike_weaken {A B} (R Q : A -> B -> Prop) p q :
  alike R p q -> (forall a b, R a b -> Q a b) -> alike Q p q.
Proof.
  revert q. induction p as [a|x|e k IH]; intros [b|y|e' k'] H HRQ; cbn in H |- *; try contradiction; auto.
  destruct H as (E & H). exists E. intros r. apply IH; [apply H | exact HRQ].
Qed.

(** ** Dictionaries *)

Lemma rename_secrets_get {V} (f : V -> V) d p :
  dict_get (rename_secrets f d) p = (fun v => if secret_path p then f v else v) <$> dict_get d p.
Proof.
  induction d as [|[k v] d IH]; [reflexivity|]. cbn. case_decide as E; [subst; reflexivity | exact IH].
Qed.

Lemma rename_secrets_set {V} (f : V -> V) d p v :
  rename_secrets f (dict_set d p v) = dict_set (rename_secrets f d) p (if secret_path p then f v else v).
Proof.
  induction d as [|[k w] d IH]; [reflexivity|]. cbn. case_decide as E; [subst; reflexivity|]. cbn. f_equal. exact IH.
Qed.

(** ** Values *)

Lemma rename_truthy t : truthy (rename t) = truthy t.
Proof.
  destruct t as [|c t]; [rewrite rename_empty; reflexivity|].
  destruct (rename (String c t)) eqn:E; [|reflexivity].
  rewrite <- rename_empty in E. apply rename_inj in E. discriminate.
Qed.

Lemma rename_bool v : py_bool (rename_value v) = py_bool v.
Proof. destruct v; try reflexivity; apply rename_truthy. Qed.

Lemma rename_eqb a b : String.eqb (rename a) (rename b) = String.eqb a b.
Proof.
  destruct (String.eqb_spec a b) as [->|Hne]; [apply String.eqb_refl|].
  apply String.eqb_neq. intros H. apply Hne, rename_inj, H.
Qed.

Lemma rename_eq v w : py_eq (rename_value v) (rename_value w) = py_eq v w.
Proof. destruct v, w; try reflexivity; apply rename_eqb. Qed.

Abbreviation rename_inherited d := (rename_secrets rename_setting d).
Abbreviation rename_answers d := (rename_secrets rename_value d).

Lemma rename_differs own v : differs (rename_setting <$> own) (rename_value v) = differs own v.
Proof. destruct own as [i|]; [|reflexivity]. cbn. rewrite rename_eq. reflexivity. Qed.

Lemma rename_tui_choices inherited answers :
  apply_tui_choices (rename_inherited inherited) (rename_answers answers) =
  rename_inherited (apply_tui_choices inherited answers).
Proof.
  unfold apply_tui_choices. enough (H : forall chosen,
    fold_left (fun chosen pv => if differs (dict_get (rename_inherited inherited) pv.1) pv.2
      then dict_set chosen pv.1 {| setting_value := pv.2; setting_source := FROM_TUI |} else chosen)
      (rename_answers answers) (rename_inherited chosen) =
    rename_inherited (fold_left (fun chosen pv => if differs (dict_get inherited pv.1) pv.2
      then dict_set chosen pv.1 {| setting_value := pv.2; setting_source := FROM_TUI |} else chosen)
      answers chosen)) by exact (H inherited).
  induction answers as [|[p v] answers IH]; intros chosen; [reflexivity|].
  refine (eq_trans _ (IH _)). cbn [rename_secrets map fold_left fst snd]. f_equal.
  rewrite rename_secrets_get. destruct (secret_path p) eqn:E.
  - change (_ <$> dict_get inherited p) with (rename_setting <$> dict_get inherited p). rewrite rename_differs.
    destruct (differs (dict_get inherited p) v); [|reflexivity]. rewrite rename_secrets_set, E. reflexivity.
  - replace ((fun w => w) <$> dict_get inherited p) with (dict_get inherited p) by (destruct (dict_get inherited p); reflexivity).
    destruct (differs (dict_get inherited p) v); [|reflexivity]. rewrite rename_secrets_set, E. reflexivity.
Qed.

(** ** The session *)

Section Session.
Context (inherited : dict string SettingValue) (machine : MachineFacts).
Abbreviation inherited' := (rename_inherited inherited).

Definition rename_session (s : session) : session :=
  {| asked := asked s; offered_choices := offered_choices s; answers := rename_answers (answers s) |}.

Lemma rename_current_value answers p :
  current_value inherited' (rename_answers answers) p =
  (if secret_path p then rename_value (current_value inherited answers p) else current_value inherited answers p).
Proof.
  unfold current_value. rewrite !rename_secrets_get.
  destruct (dict_get answers p), (dict_get inherited p), (secret_path p); reflexivity.
Qed.

Lemma rename_asked_when st s :
  st ∈ step_questions ->
  asked_when st.2 (value inherited' (rename_session s)) = asked_when st.2 (value inherited s).
Proof.
  intros Hst. apply (proj1 (Forall_forall _ _) conditions_ignore_secrets st Hst). intros p Hp.
  unfold value. cbn [rename_session answers]. rewrite rename_current_value, Hp. reflexivity.
Qed.

(** *** One question *)

Lemma ask_no_secret e : match e with AskSecret _ _ => False | _ => True end -> asks_no_secret (ask e).
Proof. intros He r. split; [cbn; destruct e; try exact I; destruct He | destruct r; exact I]. Qed.

Lemma commands_no_secret {A} (p : cmd A) : asks_no_secret (commands_on_host p).
Proof. unfold asks_no_secret. apply emits_commands_on_host. induction p as [a|x|e k IH]; [exact I | exact I|]. intros r. split; [exact I | apply IH]. Qed.

Lemma ask_one_no_secret s step path question own : asks_no_secret (ask_one machine s step path question own).
Proof.
  unfold ask_one. apply emits_bind.
  - destruct (one_choices question); [exact I | apply commands_no_secret].
  - intros [|c choices].
    + apply emits_bind; [apply ask_no_secret; exact I | intros; exact I].
    + apply emits_bind; [apply emits_of_outcome|]. intros shown_.
      apply emits_bind; [apply ask_no_secret; exact I | intros; exact I].
Qed.

Lemma ask_many_no_secret step question own : asks_no_secret (ask_many step question own).
Proof.
  unfold ask_many. apply emits_bind; [apply emits_of_outcome|]. intros shown_.
  apply emits_bind; [apply ask_no_secret; exact I|]. intros chosen. destruct own as [i|]; [|exact I].
  apply emits_bind; [apply emits_of_outcome | intros; exact I].
Qed.

Lemma answer_no_secret s step setting :
  is_secret setting = false -> asks_no_secret (answer inherited machine s step setting).
Proof.
  intros H. unfold answer, is_secret in *. destruct (setting_question setting) as [[q|q|q|q|q]|]; try discriminate.
  - apply ask_one_no_secret.
  - apply emits_bind; [apply ask_many_no_secret | intros; exact I].
  - do 2 (apply emits_bind; [|intros; exact I]). apply ask_no_secret. exact I.
  - apply emits_bind; [|intros; exact I]. apply emits_bind; [apply emits_of_outcome|]. intros state.
    apply emits_bind; [|intros; exact I]. apply ask_no_secret. exact I.
  - exact I.
Qed.

Lemma ask_secret_alike step question own :
  alike (fun v v' => v' = rename_value v) (ask_secret step question own)
    (ask_secret step question (rename_setting <$> own)).
Proof.
  assert (Henter : alike (fun v v' => v' = rename_value v)
      (let* typed := frontend_enter_secret step question in Ret (PStr typed))
      (let* typed := frontend_enter_secret step question in Ret (PStr typed))).
  { exists eq_refl. intros [typed|x]; reflexivity. }
  destruct own as [i|]; [|exact Henter]. unfold ask_secret. cbn [fmap option_fmap option_map].
  change (Environment.setting_value (rename_setting i)) with (rename_value (Environment.setting_value i)).
  rewrite rename_bool. destruct (py_bool _); [|exact Henter].
  exists eq_refl. intros [[|]|x]; [reflexivity | exact Henter | reflexivity].
Qed.

Lemma answer_alike s step setting :
  (step, setting) ∈ step_questions ->
  alike (fun a b => b = ((if is_secret setting then rename_value a.1 else a.1), a.2))
    (answer inherited machine s step setting)
    (answer inherited' machine (rename_session s) step setting).
Proof.
  intros Hin. pose proof (proj1 (Forall_forall _ _) secret_paths _ Hin) as Hpath. cbn [snd] in Hpath.
  assert (Hown : dict_get inherited' (setting_path setting) =
    (fun v => if is_secret setting then rename_setting v else v) <$> dict_get inherited (setting_path setting))
    by (rewrite rename_secrets_get, Hpath; reflexivity).
  destruct (is_secret setting) eqn:Hs.
  - unfold answer. rewrite Hown. unfold is_secret in Hs.
    destruct (setting_question setting) as [[q|q|q|q|q]|]; try discriminate.
    eapply alike_bind; [exact (ask_secret_alike step q _)|]. intros v v' ->. reflexivity.
  - assert (Hsame : answer inherited' machine (rename_session s) step setting = answer inherited machine s step setting).
    { unfold answer. rewrite Hown. replace ((fun v => v) <$> _) with (dict_get inherited (setting_path setting))
        by (destruct (dict_get inherited (setting_path setting)); reflexivity). reflexivity. }
    rewrite Hsame. eapply alike_weaken; [apply alike_refl, answer_no_secret, Hs|].
    intros [v offered] b <-. reflexivity.
Qed.

Definition from_step_questions (s : session) : Prop := Forall (fun st => st ∈ step_questions) (asked s).

Abbreviation same_session := (fun a b => b = rename_session a /\ from_step_questions a).

Lemma ask_when_needed_alike s st :
  st ∈ step_questions -> from_step_questions s ->
  alike same_session (ask_when_needed inherited machine s st)
    (ask_when_needed inherited' machine (rename_session s) st).
Proof.
  intros Hst Hs. pose proof (rename_asked_when st s Hst) as Hasked.
  pose proof (proj1 (Forall_forall _ _) secret_paths _ Hst) as Hpath.
  destruct st as [step setting]. unfold ask_when_needed. cbn [snd] in *. rewrite Hasked.
  destruct (_ && _); [|split; [reflexivity | exact Hs]]. unfold ask_setting.
  eapply alike_bind; [apply answer_alike, Hst|]. intros [v offered] b ->. cbn [fst snd alike]. split.
  - unfold rename_session. cbn [asked answers offered_choices]. rewrite rename_secrets_set, Hpath. reflexivity.
  - apply Forall_app. split; [exact Hs | constructor; [exact Hst | constructor]].
Qed.

Lemma questions_alike l s :
  Forall (fun st => st ∈ step_questions) l -> from_step_questions s ->
  alike same_session (fold_each (ask_when_needed inherited machine) l s)
    (fold_each (ask_when_needed inherited' machine) l (rename_session s)).
Proof.
  intros Hl. revert s. induction Hl as [|st l Hst _ IH]; intros s Hs; [split; [reflexivity | exact Hs]|].
  eapply alike_bind; [exact (ask_when_needed_alike s st Hst Hs)|]. intros s' b [-> Hs']. apply IH, Hs'.
Qed.

(** *** The summary *)

Lemma rename_summary s :
  from_step_questions s -> summary inherited' (rename_session s) = summary inherited s.
Proof.
  intros Hs. unfold summary. cbn [rename_session answers asked]. rewrite rename_tui_choices.
  unfold from_step_questions in Hs. induction Hs as [|[step setting] l Hst _ IH]; [reflexivity|].
  cbn [omap list_omap]. rewrite IH. pose proof (proj1 (Forall_forall _ _) secret_paths _ Hst) as Hpath.
  cbn [snd] in Hpath. rewrite rename_secrets_get, Hpath. unfold is_secret, shown.
  destruct (setting_question setting) as [q|]; [|reflexivity].
  destruct (dict_get _ (setting_path setting)) as [v|]; [|reflexivity]. cbn [fmap option_fmap option_map].
  destruct q; cbn [rename_setting Environment.setting_value setting_source]; try reflexivity.
  rewrite rename_bool. reflexivity.
Qed.

Lemma run_setup_alike :
  alike (fun a b => b = rename_answers a) (run_setup inherited machine) (run_setup inherited' machine).
Proof.
  unfold run_setup. eapply alike_bind.
  - exact (questions_alike step_questions new_session
      (proj2 (Forall_forall _ _) (fun st Hst => Hst)) (Forall_nil_2 _)).
  - intros s b [-> Hs]. rewrite rename_summary by exact Hs.
    eapply alike_bind; [apply alike_refl, ask_no_secret; exact I|]. intros confirmed b <-.
    destruct confirmed; reflexivity.
Qed.
End Session.
End Rename.

(** C34: the interactive setup shows no password: take two setups that differ in
    their passwords only, the inherited ones and the typed ones. They ask the same
    questions and show the same summary, and end alike; the answers of the second
    are those of the first with its own passwords. All that can be told is which
    passwords are empty and which are equal. *)
Theorem setup_shows_no_password (rename : string -> string) (inherited : dict string SettingValue)
    (machine : MachineFacts) t o :
  (forall a b, rename a = rename b -> a = b) -> rename "" = "" ->
  runs (run_setup inherited machine) t o ->
  let t' := map (rename_event rename) t in
  map ev_op t' = map ev_op t /\
  exists o', runs (run_setup (rename_secrets (rename_setting rename) inherited) machine) t' o' /\
    match o, o' with
    | Ok answers, Ok answers' => answers' = rename_secrets (rename_value rename) answers
    | Err x, Err y => x = y
    | _, _ => False
    end.
Proof.
  intros Hinj Hempty Hr t'. split; [unfold t'; rewrite map_map; reflexivity|].
  destruct (alike_runs rename _ _ _ _ _ (run_setup_alike rename Hinj Hempty inherited machine) Hr) as (o' & Hr' & Ho).
  exists o'. split; [exact Hr' | destruct o, o'; exact Ho].
Qed.

(** Every password gets one more character. *)
Definition longer (s : string) : string := if truthy s then "x" +:+ s else s.

Lemma longer_inj a b : longer a = longer b -> a = b.
Proof. unfold longer. destruct a, b; intros H; try discriminate H; [reflexivity|]. simpl in H. injection H as -> ->. reflexivity. Qed.

Lemma setup_shows_no_password_witness :
  let t := trace_of keeping_host (run_setup [] machine_disks) in
  map ev_op (map (rename_event longer) t) = map ev_op t /\
  exists o', runs (run_setup [] machine_disks) (map (rename_event longer) t) o' /\ is_ok o' = true.
Proof.
  intros t. destruct (setup_shows_no_password longer [] machine_disks t
    (outcome_of keeping_host (run_setup [] machine_disks)) longer_inj eq_refl (trace_runs _ _)) as [Hops (o' & Hr & Ho)].
  split; [exact Hops|]. exists o'. split; [exact Hr|].
  assert (E : is_ok (outcome_of keeping_host (run_setup [] machine_disks)) = true) by (vm_compute; reflexivity).
  destruct (outcome_of _ _); [destruct o'; [reflexivity | destruct Ho] | discriminate E].
Defined.
