(* ===== verification/Cli.v ===== *)
(** * The entry points ([cli.py])

    [arch-installer], [clone-usb-boot], [usb-backup] and the two commands on the
    stored passwords.  The package's directory, YAML and the [cryptography] package
    are parameters; so is the number of times a user may mistype a new password. *)

From S2P Require Import Prelude PyStr PyVal Effects Command Log Questions Host Models Export Schema ConfigBuilder ConfigFile Secrets SecretsFile Environment Registry UsbBoot UsbBackup Installer Setup.

Local Open Scope outcome_scope.

(** [str(error)] of an [ArchInstallerError] *)
Definition error_text (x : exn) : string :=
  match x with
  | CommandError command code out err =>
      "Command '" +:+ command +:+ "' failed with exit code " +:+ str_of_Z code +:+ nl +:+
      "stdout: " +:+ out +:+ nl +:+ "stderr: " +:+ err
  | MissingSettingsError setting_paths => "Missing settings: " +:+ join ", " setting_paths
  | ConfigurationError message | MigrationError message | UsbBootDriveError message
  | RuntimeError message | ValueError message | IndexError message | TypeError message
  | OSError message | CursesError message | AttributeError message | KeyboardInterrupt message => message
  | EOFError | OutOfFuel => ""
  end.

(** ** Options from the environment *)

Definition log_level (variables : dict string string) : level :=
  let verbose := lower (env_text variables VERBOSE) in
  if String.eqb verbose "true" then DEBUG
  else if String.eqb verbose "quiet" then WARNING
  else INFO.

Definition is_interactive (variables : dict string string) : outcome bool :=
  let? on := switch_is_on variables NON_INTERACTIVE in Ok (negb on).

(** ** Checks before an installation *)

Definition usb_boot_problems (config : InstallerConfig) : list string :=
  let usb_boot := cfg_usb_boot config in
  (if negb (truthy (usb_boot_device usb_boot)) then
     ["USB boot needs a drive (" +:+ variable_name USB_BOOT_DEVICE +:+ " or usb_boot.device)"]
   else if String.eqb (usb_boot_device usb_boot) (storage_target_disk (cfg_storage config)) then
     ["the USB boot drive and the target disk are both " +:+ usb_boot_device usb_boot]
   else []) ++
  (if usb_boot_recovery_system usb_boot && negb (truthy (usb_boot_iso_path usb_boot)) then
     ["the recovery system needs an Arch ISO (" +:+ variable_name ISO_PATH +:+ " or usb_boot.iso_path)"]
   else []) ++
  (if negb (migration_enabled (cfg_migration config)) &&
      match storage_wipe_method (cfg_storage config) with WIPE_QUICK | WIPE_DISCARD => true | _ => false end then
     ["ciphertext without a header only hides on a disk filled with random data: " +:+
      variable_name WIPE_METHOD +:+ " secure, or skip for a disk filled before"]
   else []).

Definition install_problems (config : InstallerConfig) : list string :=
  let credentials := cfg_credentials config in
  (if truthy (luks_password credentials) then []
   else ["no LUKS password (" +:+ variable_name LUKS_PASSWORD +:+ " or encrypted secrets)"]) ++
  (if truthy (user_password credentials) then []
   else ["no user password (" +:+ variable_name USER_PASSWORD +:+ " or encrypted secrets)"]) ++
  (if truthy (storage_target_disk (cfg_storage config)) then []
   else ["no target disk (" +:+ variable_name TARGET_DISK +:+ " or storage.target_disk)"]) ++
  (if migration_enabled (cfg_migration config) && negb (truthy (source_luks_password credentials)) then
     ["migration needs the old LUKS password (" +:+ variable_name SOURCE_LUKS_PASSWORD +:+ ")"]
   else []) ++
  (if usb_boot_enabled (cfg_usb_boot config) then usb_boot_problems config else []).

Definition validate_for_install (config : InstallerConfig) : outcome unit :=
  match install_problems config with
  | [] => Ok tt
  | problems =>
      Err (ConfigurationError ("Cannot start the installation:" +:+ nl +:+ "  - " +:+
             join (nl +:+ "  - ") problems))
  end.

(** ** Messages *)

Definition explain_missing (setting_paths : list string) : string :=
  "No source provides these settings:" +:+ nl +:+ "  - " +:+
  join (nl +:+ "  - ") (map (fun path =>
    path +:+ " (config.yaml" +:+
    match variable_for_setting path with Some v => " or " +:+ variable_name v | None => "" end +:+ ")")
    setting_paths).

Definition log_value_sources (final_values : dict string SettingValue) : host unit :=
  for_each (fun source =>
    let paths := sorted (map fst (List.filter (fun ps =>
      if decide (setting_source ps.2 = source) then true else false) final_values)) in
    when (match paths with [] => false | _ => true end)
      (host_log INFO ("Settings from the " +:+ source_name source +:+ ": " +:+ join ", " paths)))
    [FROM_ENVIRONMENT; FROM_TUI].

(** ** Secrets from the terminal *)

(** The loop of [_ask_secret], for at most [attempts] pairs of entries. *)
Fixpoint ask_secret_loop (attempts : nat) (label : string) (confirm : bool) : host string :=
  match attempts with
  | O => Raise OutOfFuel
  | S attempts' =>
      let* secret := getpass (label +:+ ": ") in
      if negb confirm || negb (truthy secret) then Ret secret
      else
        let* again := getpass (label +:+ " (again): ") in
        if String.eqb again secret then Ret secret
        else
          host_log WARNING "The two entries differ, try again" ;;
          ask_secret_loop attempts' label confirm
  end.

Definition ask_secret (attempts : nat) (label : string) (confirm : bool) : host string :=
  try_except (ask_secret_loop attempts label confirm) (fun x =>
    match x with
    | EOFError => Some (Raise (ConfigurationError
        (label +:+ " is needed but there is no terminal to ask on")))
    | _ => None
    end).

(** ** [run_tui_setup] ([tui/curses_frontend.py]) *)

Definition WELCOME_TEXT : string :=
  "Interactive setup." +:+ nl +:+ nl +:+
  "Each screen starts on the value inherited from the environment or" +:+ nl +:+
  "config.yaml and shows where it came from. Press Enter to keep it," +:+ nl +:+
  "or choose another." +:+ nl +:+ nl +:+
  "  Arrows  navigate      Enter  confirm" +:+ nl +:+
  "  Space   toggle        Ctrl+C quit".

Definition run_tui_setup (inherited : dict string SettingValue) : host (dict string pyval) :=
  info_screen "DALI - Declarative Arch Linux Installer" WELCOME_TEXT ;;
  run_setup inherited machine_disks.

Section Cli.
Context `{Cryptography}.
(** [yaml.safe_load], [yaml.safe_dump(data, default_flow_style=False,
    sort_keys=False)], [REPOSITORY_CONFIG_PATH], the bound of [ask_secret_loop]. *)
Context (safe_load : string -> yaml_result) (safe_dump : pyval -> string).
Context (REPOSITORY_CONFIG_PATH : string) (attempts : nat).
(** [os.environ] *)
Context (variables : dict string string).

Definition config_path : string :=
  path_text (str_or (env_text variables CONFIG_PATH) REPOSITORY_CONFIG_PATH).

(** ** The configuration *)

Definition TuiSetup : Type := dict string SettingValue -> host (dict string pyval).

Definition unlocked_passwords (config_file_values environment_values : dict string pyval)
    (tui : option TuiSetup) : host (dict string string) :=
  let credentials_from_environment :=
    dict_in environment_values "credentials.luks_password" &&
    dict_in environment_values "credentials.user_password" in
  if negb (has_encrypted_credentials config_file_values) || credentials_from_environment then Ret []
  else
    let from_environment := env_text variables SECRETS_KEY in
    let* secrets_key :=
      match tui with
      | Some _ => if truthy from_environment then Ret from_environment
                  else ask_secret attempts "Secrets decryption key" false
      | None => Ret from_environment
      end in
    if negb (truthy secrets_key) then Ret []
    else of_outcome (decrypted_credentials decrypt_value config_file_values secrets_key).

Definition as_values (credentials : dict string string) : dict string pyval :=
  map (fun pv => (pv.1, PStr pv.2)) credentials.

Definition assemble_installer_config (tui : option TuiSetup) : host InstallerConfig :=
  let* environment_values := of_outcome (setting_values variables environment_variable_paths) in
  let* raw := read_config_file safe_load config_path in
  let* file_values := of_outcome (config_file_setting_values (PDict raw)) in
  let* unlocked := unlocked_passwords file_values environment_values tui in
  let config_file_values := dict_update file_values (as_values unlocked) in
  let inherited := inherit_setting_values (fun source =>
    match source with
    | FROM_ENVIRONMENT => environment_values
    | FROM_CONFIG_FILE => config_file_values
    | FROM_TUI => []
    end) in
  let* final_values :=
    match tui with
    | None => Ret inherited
    | Some ask => let* choices := ask inherited in Ret (apply_tui_choices inherited choices)
    end in
  log_value_sources final_values ;;
  match build_installer_config (plain_values final_values) with
  | Ok config => Ret config
  | Err (MissingSettingsError setting_paths) => Raise (ConfigurationError (explain_missing setting_paths))
  | Err x => Raise x
  end.

(** ** The commands *)

Definition install_entry : host unit :=
  let* interactive := of_outcome (is_interactive variables) in
  let* config := assemble_installer_config (if interactive then Some run_tui_setup else None) in
  of_outcome (validate_for_install config) ;;
  commands_on_host (install safe_dump config).

Definition clone_usb_boot_entry : host unit :=
  let source_device := env_text variables USB_BOOT_DEVICE in
  let spare_device := env_text variables SPARE_USB_DEVICE in
  if negb (truthy source_device && truthy spare_device) then
    Raise (ConfigurationError ("Cloning needs the USB boot drive (" +:+ variable_name USB_BOOT_DEVICE +:+ ") " +:+
             "and the spare drive (" +:+ variable_name SPARE_USB_DEVICE +:+ ")"))
  else commands_on_host (clone source_device spare_device).

Definition usb_backup_entry : host unit :=
  let* config := assemble_installer_config None in
  commands_on_host (usb_backup_execute safe_dump config).

Definition secret_from_environment_or_prompt (variable : EnvVariable) (label : string) (confirm : bool)
    : host string :=
  let from_environment := env_text variables variable in
  if truthy from_environment then Ret from_environment else ask_secret attempts label confirm.

Definition required_secrets_key (confirm : bool) : host string :=
  let* secrets_key := secret_from_environment_or_prompt SECRETS_KEY "Secrets key" confirm in
  if truthy secrets_key then Ret secrets_key
  else Raise (ConfigurationError ("A secrets key is required (" +:+ variable_name SECRETS_KEY +:+ ")")).

Definition encrypt_if_given (password secrets_key secret_name : string) : host string :=
  if truthy password then encrypt_secret password secrets_key secret_name else Ret "".

Definition MIXED_KEYS_MESSAGE : string :=
  "A password kept from the config file does not open with this key (another key, " +:+
  "or the old format); enter both passwords to encrypt them with this key".

(** [value or stored.get(path)] *)
Definition kept_secret (stored : dict string pyval) (path value : string) : pyval :=
  if truthy value then PStr value else default PNone (dict_get stored path).

Definition merged_secrets (stored : dict string pyval) (secrets : EncryptedSecretsConfig) : dict string pyval := [
  ("secrets.luks_password_encrypted",
   kept_secret stored "secrets.luks_password_encrypted" (luks_password_encrypted secrets));
  ("secrets.user_password_encrypted",
   kept_secret stored "secrets.user_password_encrypted" (user_password_encrypted secrets))].

Definition refuse_mixed_keys (path : string) (secrets : EncryptedSecretsConfig) (secrets_key : string)
    : host unit :=
  let* raw := read_config_file safe_load path in
  let* stored := of_outcome (config_file_setting_values (PDict raw)) in
  match decrypted_credentials decrypt_value (merged_secrets stored secrets) secrets_key with
  | Ok _ => Ret tt
  | Err x => if is_configuration_error x then Raise (ConfigurationError MIXED_KEYS_MESSAGE) else Raise x
  end.

Definition encrypt_secrets_entry : host unit :=
  let* secrets_key := required_secrets_key true in
  let* luks_password := secret_from_environment_or_prompt LUKS_PASSWORD
    "LUKS password (Enter keeps the stored one)" true in
  let* user_password := secret_from_environment_or_prompt USER_PASSWORD
    "User password (Enter keeps the stored one)" true in
  if negb (truthy luks_password || truthy user_password) then
    Raise (ConfigurationError ("No passwords provided (" +:+ variable_name LUKS_PASSWORD +:+ " and/or " +:+
             variable_name USER_PASSWORD +:+ ")"))
  else
    let* luks_encrypted := encrypt_if_given luks_password secrets_key LUKS_PASSWORD_SECRET in
    let* user_encrypted := encrypt_if_given user_password secrets_key USER_PASSWORD_SECRET in
    let secrets := {| luks_password_encrypted := luks_encrypted; user_password_encrypted := user_encrypted |} in
    print ("luks_password_encrypted: " +:+ str_or luks_encrypted "N/A") ;;
    print ("user_password_encrypted: " +:+ str_or user_encrypted "N/A") ;;
    let* no_write := of_outcome (switch_is_on variables NO_WRITE) in
    if (no_write : bool) then
      host_log INFO (variable_name NO_WRITE +:+ " is set, the config file was not modified")
    else
      refuse_mixed_keys config_path secrets secrets_key ;;
      write_encrypted_secrets safe_load config_path secrets ;;
      host_log INFO ("Updated secrets in " +:+ config_path).

Definition decrypt_secrets_entry : host unit :=
  let* secrets_key := required_secrets_key false in
  let* raw := read_config_file safe_load config_path in
  let* config_file_values := of_outcome (config_file_setting_values (PDict raw)) in
  let* credentials := of_outcome (decrypted_credentials decrypt_value config_file_values secrets_key) in
  print ("LUKS: " +:+ default "N/A" (dict_get credentials "credentials.luks_password")) ;;
  print ("User: " +:+ default "N/A" (dict_get credentials "credentials.user_password")).

(** [_run]: the exit code, or an exception that ends in a traceback. *)
Definition run_entry (entry : host unit) : host Z :=
  configure_logging (log_level variables) ;;
  try_except (entry ;; Ret 0%Z) (fun x =>
    match x with
    | KeyboardInterrupt _ => Some (host_log WARNING "Cancelled by user" ;; Ret 130%Z)
    | _ => if is_arch_installer_error x then Some (host_log ERROR (error_text x) ;; Ret 1%Z) else None
    end).

Definition main : host Z := run_entry install_entry.
Definition clone_usb_boot : host Z := run_entry clone_usb_boot_entry.
Definition usb_backup : host Z := run_entry usb_backup_entry.
Definition encrypt_secrets : host Z := run_entry encrypt_secrets_entry.
Definition decrypt_secrets : host Z := run_entry decrypt_secrets_entry.
End Cli.
