(* ===== verification/CliFacts.v ===== *)
(** * What the entry points promise

    An installation starts with a usable configuration only, exit codes, passwords
    entries_typed twice, and stored passwords that open again. *)

From S2P Require Import Prelude PyStr PyVal Effects Command Log Questions Host Models Export Schema ConfigBuilder ConfigFile Secrets SecretsFile Samples Base Environment Registry Installer Setup Cli.

(** ** Events that change nothing *)

(** Only [lsblk] is run, and no file is written. *)
Definition query_only (ev : host_event) : Prop :=
  match ev_op ev with
  | OpCommand (OpRun rq) => startswith "lsblk " (command_text (rq_command rq)) = true
  | OpWriteText _ _ => False
  | _ => True
  end.

Lemma query_only_trace t :
  Forall query_only t ->
  Forall (fun c => startswith "lsblk " c = true) (host_commands t) /\ files_written t = [].
Proof.
  induction 1 as [|[e a] t He _ [IHc IHf]]; [auto|].
  destruct e as [[]| | | | | | | | |]; simpl in *; auto; contradiction.
Qed.

Lemma query_trigger (e : host_op) :
  (forall r, query_only (@Ev host_sig e r)) -> emits query_only (@trigger host_sig e).
Proof. intros H r. split; [apply H | exact I]. Qed.

Lemma queries_ask e : emits query_only (ask e).
Proof.
  apply emits_bind; [apply query_trigger; intros r; exact I | intros; apply emits_of_outcome].
Qed.

(** Programs are taken apart along their sequence. *)
Ltac queries :=
  repeat first
    [ lazymatch goal with |- emits _ (bind _ _) => apply emits_bind; [|intros ?] end
    | lazymatch goal with |- emits _ (ask _) => apply queries_ask end
    | apply emits_ret | apply emits_raise | apply emits_of_outcome
    | apply query_trigger; intros ?; exact I
    | apply emits_when; intros _
    | apply emits_for_each; intros ? _ ].

Lemma queries_log l m : emits query_only (host_log l m).
Proof. intros r. split; exact I. Qed.

Lemma queries_read_config_file safe_load path : emits query_only (read_config_file safe_load path).
Proof.
  unfold read_config_file, exists_, read_text_file. queries.
  destruct (negb a); queries. destruct (safe_load a0) as [[]|]; queries.
Qed.

Lemma queries_ask_secret attempts label confirm : emits query_only (ask_secret attempts label confirm).
Proof.
  unfold ask_secret. apply emits_try_except.
  - induction attempts as [|n IH]; cbn [ask_secret_loop]; [queries|]. unfold getpass. queries.
    destruct (negb confirm || _); queries.
    destruct (String.eqb _ _); [queries|]. apply emits_bind; [apply queries_log | intros _; exact IH].
  - intros x q Hq. destruct x; try discriminate. injection Hq as <-. queries.
Qed.

(** ** The interactive setup only queries *)

Definition queries_disks {A} (p : cmd A) : Prop := emits query_only (commands_on_host p).

Lemma queries_system_run arguments raises :
  startswith "lsblk " (join " " arguments) = true ->
  queries_disks (system_run (Argv arguments) raises true None None None).
Proof.
  intros H. apply emits_commands_on_host. intros []. split; [exact I|]. intros res.
  split; [exact H|]. destruct res as [error|rc out err]; [exact I|]. simpl.
  destruct (truthy out), (truthy err), (raises && _); simpl; repeat split; exact I.
Qed.

Lemma commands_on_host_bind {A B} (p : cmd A) (f : A -> cmd B) :
  emits query_only (commands_on_host p) -> (forall a, queries_disks (f a)) ->
  queries_disks (bind p f).
Proof.
  intros Hp Hf. unfold queries_disks in *. induction p as [a|x|e k IH]; [apply Hf | exact I |].
  intros r. destruct (Hp r) as [HP Hk]. split; [exact HP | apply IH, Hk].
Qed.

Lemma queries_model_and_size path : queries_disks (model_and_size path).
Proof.
  apply commands_on_host_bind; [apply queries_system_run; reflexivity|]. intros r.
  destruct (negb _); exact I.
Qed.

Lemma queries_machine_disks : queries_disks machine_disks.
Proof.
  apply commands_on_host_bind; [apply queries_system_run; reflexivity|]. intros r.
  destruct (negb _); [exact I|]. induction (listed_disks _) as [|name names IH]; [exact I|].
  apply commands_on_host_bind.
  - apply commands_on_host_bind; [apply queries_model_and_size|]. intros []; exact I.
  - intros d. apply commands_on_host_bind; [exact IH | intros; exact I].
Qed.

Definition source_queries (setting : StepSetting) : Prop :=
  match setting_question setting with
  | Some (QChooseOne q) =>
      match one_choices q with
      | Computed source => forall v, queries_disks (source v machine_disks)
      | Offered _ => True
      end
  | _ => True
  end.

Lemma sources_query : Forall (fun st => source_queries st.2) step_questions.
Proof.
  unfold step_questions, INSTALL_STEPS, steps_to_packages, steps_after_packages. cbn [app]. cbn [map concat app wiring step_settings fst snd].
  repeat (apply Forall_cons; split); try exact I; try apply Forall_nil, I;
    cbn [source_queries snd setting_question setting choose_one one_choices]; intros v;
    first [exact I | apply commands_on_host_bind; [apply queries_machine_disks | intros; exact I]].
Qed.

Lemma queries_answer inherited s step setting :
  source_queries setting -> emits query_only (answer inherited machine_disks s step setting).
Proof.
  intros Hs. unfold answer. unfold source_queries in Hs.
  destruct (setting_question setting) as [[q|q|q|q|q]|]; [| | | | |exact I].
  - unfold ask_one. apply emits_bind.
    + destruct (one_choices q); [queries | apply Hs].
    + intros [|c l]; unfold frontend_enter_text, frontend_choose_one; queries.
  - unfold ask_many, frontend_choose_many. queries.
    destruct (dict_get _ _); queries.
  - unfold frontend_enter_text. queries.
  - unfold Setup.ask_secret, frontend_keep_secret, frontend_enter_secret.
    destruct (dict_get _ _) as [i|]; [destruct (py_bool _)|]; queries.
    destruct a; queries.
  - unfold frontend_switch. queries.
Qed.

Lemma queries_run_setup inherited : emits query_only (run_setup inherited machine_disks).
Proof.
  unfold run_setup. apply emits_bind.
  - apply emits_fold_each. intros s [step setting] Hin. unfold ask_when_needed.
    destruct (_ && _); [|queries]. unfold ask_setting. apply emits_bind; [|intros []; queries].
    apply queries_answer. exact (proj1 (Forall_forall _ _) sources_query (step, setting) Hin).
  - intros s. unfold frontend_review. apply emits_bind; [apply queries_ask|]. intros b.
    destruct (negb b); queries.
Qed.

(** ** Assembling the configuration only queries *)

Section Entries.
Context `{Cryptography}.
Context (safe_load : string -> yaml_result) (safe_dump : pyval -> string).
Context (repository_config_path : string) (attempts : nat) (variables : dict string string).

Lemma queries_unlocked_passwords file_values environment_values tui :
  emits query_only (unlocked_passwords attempts variables file_values environment_values tui).
Proof.
  unfold unlocked_passwords. destruct (_ || _); [queries|]. apply emits_bind.
  - destruct tui; [destruct (truthy _)|]; queries. apply queries_ask_secret.
  - intros key. destruct (negb _); queries.
Qed.

Lemma queries_log_value_sources final_values : emits query_only (log_value_sources final_values).
Proof. unfold log_value_sources, host_log. queries. Qed.

Lemma queries_assemble tui :
  (forall ask inherited, tui = Some ask -> emits query_only (ask inherited)) ->
  emits query_only (assemble_installer_config safe_load repository_config_path attempts variables tui).
Proof.
  intros Ht. unfold assemble_installer_config.
  apply emits_bind; [queries | intros environment_values].
  apply emits_bind; [apply queries_read_config_file | intros raw].
  apply emits_bind; [queries | intros file_values].
  apply emits_bind; [apply queries_unlocked_passwords | intros unlocked]. cbv zeta.
  apply emits_bind; [|intros final_values].
  - destruct tui as [ask|]; queries. apply Ht. reflexivity.
  - apply emits_bind; [apply queries_log_value_sources | intros _].
    destruct (build_installer_config _) as [|[]]; queries.
Qed.

Lemma queries_run_tui_setup inherited : emits query_only (run_tui_setup inherited).
Proof. unfold run_tui_setup, info_screen. queries. apply queries_run_setup. Qed.
End Entries.

(** ** A configuration that an installation may start with *)

Record usable (config : InstallerConfig) : Prop := {
  has_luks_password : luks_password (cfg_credentials config) <> "";
  has_user_password : user_password (cfg_credentials config) <> "";
  has_target_disk : storage_target_disk (cfg_storage config) <> "";
  has_old_password : migration_enabled (cfg_migration config) = true ->
    source_luks_password (cfg_credentials config) <> "";
  has_usb_drive : usb_boot_enabled (cfg_usb_boot config) = true ->
    usb_boot_device (cfg_usb_boot config) <> "" /\
    usb_boot_device (cfg_usb_boot config) <> storage_target_disk (cfg_storage config);
  has_iso : usb_boot_enabled (cfg_usb_boot config) = true ->
    usb_boot_recovery_system (cfg_usb_boot config) = true -> usb_boot_iso_path (cfg_usb_boot config) <> "";
  hides_ciphertext : usb_boot_enabled (cfg_usb_boot config) = true ->
    migration_enabled (cfg_migration config) = true \/
    storage_wipe_method (cfg_storage config) = WIPE_SECURE \/
    storage_wipe_method (cfg_storage config) = WIPE_SKIP;
}.

Lemma truthy_spec s : truthy s = true <-> s <> "".
Proof. destruct s; simpl; split; congruence. Qed.

Lemma no_problem (b : bool) (p : string) : (if b then [p] else []) = [] <-> b = false.
Proof. destruct b; split; congruence. Qed.
Lemma no_problem_unless (b : bool) (p : string) : (if b then [] else [p]) = [] <-> b = true.
Proof. destruct b; split; congruence. Qed.

Lemma usb_boot_problems_none config :
  usb_boot_problems config = [] <->
  (usb_boot_device (cfg_usb_boot config) <> "" /\
   usb_boot_device (cfg_usb_boot config) <> storage_target_disk (cfg_storage config)) /\
  (usb_boot_recovery_system (cfg_usb_boot config) = true -> usb_boot_iso_path (cfg_usb_boot config) <> "") /\
  (migration_enabled (cfg_migration config) = true \/
   storage_wipe_method (cfg_storage config) = WIPE_SECURE \/
   storage_wipe_method (cfg_storage config) = WIPE_SKIP).
Proof.
  unfold usb_boot_problems. split.
  - intros H. apply app_eq_nil in H as [H1 H]. apply app_eq_nil in H as [H2 H3].
    apply no_problem in H2, H3. split; [|split].
    + destruct (truthy _) eqn:Ed; [|discriminate]. apply truthy_spec in Ed. cbn [negb] in H1.
      apply no_problem, String.eqb_neq in H1. auto.
    + intros Hr. rewrite Hr in H2. apply truthy_spec, negb_false_iff, H2.
    + apply andb_false_iff in H3 as [H3|H3]; [left; apply negb_false_iff, H3|].
      destruct (storage_wipe_method _); auto; discriminate.
  - intros ((Hd & Hne) & Hi & Hw). apply truthy_spec in Hd. rewrite Hd. cbn [negb].
    rewrite (proj2 (String.eqb_neq _ _) Hne). cbn [app].
    replace (usb_boot_recovery_system _ && _) with false; [cbn [app]|].
    + apply no_problem, andb_false_iff. destruct Hw as [->|[->| ->]]; auto.
    + destruct (usb_boot_recovery_system _); [|reflexivity]. symmetry. apply negb_false_iff, truthy_spec, Hi.
      reflexivity.
Qed.

Lemma validate_usable config : validate_for_install config = Ok tt <-> usable config.
Proof.
  assert (Hp : validate_for_install config = Ok tt <-> install_problems config = []).
  { unfold validate_for_install. destruct (install_problems config); split; congruence. }
  rewrite Hp. unfold install_problems. split.
  - intros H. apply app_eq_nil in H as [H1 H]. apply app_eq_nil in H as [H2 H].
    apply app_eq_nil in H as [H3 H]. apply app_eq_nil in H as [H4 H5].
    apply no_problem_unless, truthy_spec in H1, H2, H3. apply no_problem, andb_false_iff in H4.
    assert (Hu : usb_boot_enabled (cfg_usb_boot config) = true -> usb_boot_problems config = [])
      by (intros E; rewrite E in H5; exact H5).
    setoid_rewrite usb_boot_problems_none in Hu. constructor; try assumption; try (intros E; apply Hu, E).
    intros Hm. destruct H4 as [H4|H4]; [congruence|]. apply truthy_spec, negb_false_iff, H4.
  - intros [H1 H2 H3 H4 H5 H6 H7]. apply truthy_spec in H1, H2, H3. rewrite H1, H2, H3. cbn [app].
    replace (migration_enabled _ && _) with false; [cbn [app]|].
    + destruct (usb_boot_enabled _) eqn:E; [|reflexivity]. apply usb_boot_problems_none. auto.
    + destruct (migration_enabled _); [|reflexivity]. symmetry.
      apply negb_false_iff, truthy_spec, H4. reflexivity.
Qed.

(** ** Exit codes *)

(** How an entry point reports the outcome of its work. *)
Definition reported (variables : dict string string) (work : outcome unit) (o : outcome Z)
    (tail : list host_event) : Prop :=
  match work with
  | Ok _ => o = Ok 0%Z /\ tail = []
  | Err (KeyboardInterrupt _) => o = Ok 130%Z /\ tail = [on_host (EvLog WARNING "Cancelled by user")]
  | Err x =>
      if is_arch_installer_error x
      then o = Ok 1%Z /\ tail = [on_host (EvLog ERROR (error_text x))]
      else o = Err x /\ tail = []
  end.

Lemma runs_host_log l m t o : runs (host_log l m) t o -> t = [on_host (EvLog l m)] /\ o = Ok tt.
Proof. intros ([] & t' & -> & -> & ->). auto. Qed.

Lemma runs_log_then_ret {A} l m (a : A) t o :
  runs (host_log l m ;; Ret a) t o -> t = [on_host (EvLog l m)] /\ o = Ok a.
Proof.
  intros H. apply runs_bind in H as [(u & t1 & t2 & -> & H1 & H2)|(x & _ & H)].
  - apply runs_host_log in H1 as [-> _]. destruct H2 as [-> ->]. auto.
  - apply runs_host_log in H as [_ [=]].
Qed.

Lemma run_entry_reports variables entry t o :
  runs (run_entry variables entry) t o ->
  exists work te tail,
    t = @Ev host_sig (OpSetLogLevel (log_level variables)) tt :: te ++ tail /\
    runs entry te work /\ reported variables work o tail.
Proof.
  intros H. unfold run_entry, configure_logging in H.
  apply runs_bind in H as [(u & t1 & t2 & -> & H1 & H2)|(x & _ & H)]; [|destruct H as (? & ? & _ & _ & [=])].
  destruct H1 as ([] & t' & -> & -> & _).
  apply runs_try_except in H2 as [(z & -> & H2)|(x & te & tail & -> & H2 & Hx)].
  - apply runs_bind_ok in H2 as (u' & ta & tb & -> & Ha & [-> [= ->]]).
    exists (Ok u'), ta, []. repeat split. exact Ha.
  - assert (Ha : runs entry te (Err x)).
    { apply runs_bind in H2 as [(u' & ta & tb & _ & _ & [_ [=]])|(y & [= ->] & Ha)]. exact Ha. }
    exists (Err x), te, tail. split; [reflexivity|]. split; [exact Ha|]. unfold reported.
    destruct x; cbn [is_arch_installer_error] in Hx |- *; cbv beta iota in Hx;
      try (apply runs_log_then_ret in Hx; tauto); tauto.
Qed.

(** C22: an entry point exits with 0 exactly when its work succeeded; Ctrl+C is 130
    after a warning; every error of the installer's own is 1 after its text was
    logged, which shows on stderr whatever VERBOSE says, and none of them escapes;
    nothing else is done after the work. *)
Theorem exit_codes (variables : dict string string) (entry : host unit) t o :
  runs (run_entry variables entry) t o ->
  (exists work te tail,
     t = @Ev host_sig (OpSetLogLevel (log_level variables)) tt :: te ++ tail /\
     runs entry te work /\ reported variables work o tail) /\
  (forall x, o = Err x -> is_arch_installer_error x = false) /\
  (o = Ok 1%Z -> exists x, is_arch_installer_error x = true /\ on_host (EvLog ERROR (error_text x)) ∈ t /\
     console_output (log_level variables) ERROR (error_text x) = [(STDERR, "Error: " +:+ error_text x)]).
Proof.
  intros H. apply run_entry_reports in H as (work & te & tail & -> & Hr & Ho).
  split; [eauto 6|]. unfold reported in Ho. split.
  - intros x ->. destruct work as [u|y]; [destruct Ho as [[=] _]|].
    destruct y; cbn [is_arch_installer_error] in Ho; destruct Ho as [[=] _]; subst; reflexivity.
  - intros ->. destruct work as [u|y]; [destruct Ho as [[=] _]|]. exists y.
    assert (Ht : is_arch_installer_error y = true /\ tail = [on_host (EvLog ERROR (error_text y))])
      by (destruct y; cbn [is_arch_installer_error] in Ho |- *; destruct Ho as [[=] ->]; auto).
    destruct Ht as [Hy ->]. split; [exact Hy|]. split; [right; apply elem_of_app; right; left|].
    unfold log_level. destruct (String.eqb _ "true"); [reflexivity|]. destruct (String.eqb _ "quiet"); reflexivity.
Qed.

Lemma exit_codes_witness :
  exists x, is_arch_installer_error x = true /\
    on_host (EvLog ERROR (error_text x)) ∈
      trace_of keeping_host (clone_usb_boot [("USB_BOOT_DEVICE", "/dev/sdb")]) /\
    console_output INFO ERROR (error_text x) = [(STDERR, "Error: " +:+ error_text x)].
Proof.
  apply (exit_codes [("USB_BOOT_DEVICE", "/dev/sdb")] (clone_usb_boot_entry [("USB_BOOT_DEVICE", "/dev/sdb")])
    _ (Ok 1%Z)); [|reflexivity].
  apply trace_runs_ok. vm_compute. reflexivity.
Defined.

Lemma reported_queries variables work o tail :
  reported variables work o tail ->
  Forall query_only tail /\ host_commands tail = [] /\ (o = Ok 0%Z <-> exists u, work = Ok u).
Proof.
  unfold reported. intros H. destruct work as [u|x].
  - destruct H as [-> ->]. split; [constructor|]. split; [reflexivity|]. split; eauto.
  - assert (Ht : (tail = [] \/ exists l m, tail = [on_host (EvLog l m)]) /\ o <> Ok 0%Z).
    { destruct x; cbn [is_arch_installer_error] in H; destruct H as [-> ->]; split; eauto; discriminate. }
    destruct Ht as [Ht Ho]. split; [|split].
    + destruct Ht as [->|(l & m & ->)]; repeat constructor.
    + destruct Ht as [->|(l & m & ->)]; reflexivity.
    + split; [contradiction | intros (u & [=])].
Qed.

(** ** The installation *)

Section Main.
Context `{Cryptography}.
Context (safe_load : string -> yaml_result) (safe_dump : pyval -> string).
Context (repository_config_path : string) (attempts : nat) (variables : dict string string).

Abbreviation assemble := (assemble_installer_config safe_load repository_config_path attempts variables).

Lemma queries_assemble_entry (interactive : bool) :
  emits query_only (assemble (if interactive then Some run_tui_setup else None)).
Proof.
  apply queries_assemble. intros ask inherited E. destruct interactive; [|discriminate].
  injection E as <-. apply queries_run_tui_setup.
Qed.

(** The work of [arch-installer]: queries, and an installation of a usable
    configuration. *)
Lemma install_entry_runs t work :
  runs (install_entry safe_load safe_dump repository_config_path attempts variables) t work ->
  exists tp ti, t = tp ++ map on_host ti /\ Forall query_only tp /\
    ((ti = [] /\ is_ok work = false) \/
     exists config, usable config /\ runs (install safe_dump config) ti work).
Proof.
  intros H1. unfold install_entry in H1.
  apply runs_bind in H1 as [(interactive & t1 & t2 & -> & H1 & H2)|(x & -> & H1)];
    apply runs_of_outcome in H1 as [-> Ei]; [|exists [], []; repeat split; auto; constructor].
  apply runs_bind in H2 as [(config & t3 & t4 & -> & H3 & H4)|(x & -> & H3)];
    pose proof (emits_sound _ _ _ _ (queries_assemble_entry interactive) H3) as Hq.
  2: { exists t2, []. rewrite app_nil_r. auto. }
  apply runs_bind in H4 as [([] & t5 & t6 & -> & H5 & H6)|(x & -> & H5)];
    apply runs_of_outcome in H5 as [-> Ev].
  2: { exists t3, []. auto. }
  apply runs_commands_on_host in H6 as (ti & Hi & ->). exists t3, ti. split; [reflexivity|].
  split; [exact Hq|]. right. exists config. split; [apply validate_usable; symmetry; exact Ev | exact Hi].
Qed.
End Main.

(** C1: until there is a usable configuration [arch-installer] only looks: it runs
    [lsblk] at most and writes nothing.  What it does after that is an installation
    of a usable configuration: passwords set, a target disk chosen, a USB boot drive
    that is another disk and does not leave a header-less disk in plain sight.  Exit
    code 0 means that this installation ran to its end. *)
Theorem installs_only_usable `{Cryptography} safe_load safe_dump repository_config_path attempts variables t o :
  runs (main safe_load safe_dump repository_config_path attempts variables) t o ->
  exists preparation installation, t = preparation ++ installation /\
    Forall (fun c => startswith "lsblk " c = true) (host_commands preparation) /\
    files_written preparation = [] /\
    ((installation = [] /\ o <> Ok 0%Z) \/
     exists config ti work tail, usable config /\ runs (install safe_dump config) ti work /\
       installation = map on_host ti ++ tail /\ host_commands tail = [] /\ files_written tail = [] /\
       (o = Ok 0%Z <-> work = Ok tt)).
Proof.
  intros Hr. apply run_entry_reports in Hr as (work & te & tail & -> & Hw & Ho).
  destruct (reported_queries _ _ _ _ Ho) as (Hq & Hc & Hz).
  destruct (install_entry_runs _ _ _ _ _ _ _ Hw) as (tp & ti & -> & Htp & Hi).
  set (start := @Ev host_sig (OpSetLogLevel (log_level variables)) tt).
  assert (Hs : query_only start) by exact I.
  destruct Hi as [[-> Hf]|(config & Hu & Hi)].
  - cbn [map]. rewrite (app_nil_r tp). exists (start :: tp ++ tail), [].
    split; [symmetry; apply app_nil_r|].
    assert (Hall : Forall query_only (start :: tp ++ tail))
      by (constructor; [exact Hs | apply Forall_app; auto]).
    apply query_only_trace in Hall as [H1 H2]. split; [exact H1|]. split; [exact H2|].
    left. split; [reflexivity|]. intros E. apply Hz in E as (u & ->). discriminate.
  - exists (start :: tp), (map on_host ti ++ tail). split; [rewrite <- app_assoc; reflexivity|].
    assert (Hall : Forall query_only (start :: tp)) by (constructor; assumption).
    apply query_only_trace in Hall as [H1 H2]. split; [exact H1|]. split; [exact H2|].
    right. exists config, ti, work, tail. split; [exact Hu|]. split; [exact Hi|]. split; [reflexivity|].
    split; [exact Hc|]. split; [apply query_only_trace, Hq|]. rewrite Hz. split; [intros ([] & ->); reflexivity | eauto].
Qed.

(** ** Passwords entries_typed twice *)

(** The entries of the rounds in which the two entries differ. *)
Definition mistyped_entries (rounds : list (string * string)) : list (outcome string) :=
  concat (map (fun r => [Ok r.1; Ok r.2]) rounds).

Definition mistyped (round : string * string) : Prop := round.1 <> "" /\ round.2 <> round.1.

(** How the entries end the loop. *)
Definition settled (confirm : bool) (secret : string) : list (outcome string) :=
  if confirm && truthy secret then [Ok secret; Ok secret] else [Ok secret].

Definition gave_up (attempts : nat) (rounds : list (string * string)) (last : list (outcome string))
    (x : exn) : Prop :=
  (x = OutOfFuel /\ last = [] /\ length rounds = attempts) \/
  (exists first, last = first ++ [Err x] /\ forall y, Err y ∉ first).

Lemma runs_getpass prompt t o : runs (getpass prompt) t o -> entries_typed t = [o].
Proof.
  intros H. apply runs_bind in H as [(a & t1 & t2 & -> & (r & t' & -> & -> & [= <-]) & H2)|(x & _ & H)].
  - apply runs_of_outcome in H2 as [-> ->]. reflexivity.
  - destruct H as (? & ? & _ & _ & [=]).
Qed.

Lemma ask_secret_loop_entries attempts label confirm t o :
  runs (ask_secret_loop attempts label confirm) t o ->
  exists rounds last, Forall mistyped rounds /\ (confirm = false -> rounds = []) /\
    entries_typed t = mistyped_entries rounds ++ last /\
    match o with
    | Ok secret => (length rounds < attempts)%nat /\ last = settled confirm secret
    | Err x => gave_up attempts rounds last x
    end.
Proof.
  revert t. induction attempts as [|n IH]; intros t H.
  - destruct H as [-> ->]. exists [], []. repeat split; auto. left. auto.
  - cbn [ask_secret_loop] in H. apply runs_bind in H as [(secret & t1 & t2 & -> & H1 & H2)|(x & -> & H1)].
    2: { apply runs_getpass in H1. exists [], [Err x]. rewrite H1. repeat split; auto.
         right. exists []. split; [reflexivity | intros y []%elem_of_nil]. }
    apply runs_getpass in H1. rewrite entries_typed_app, H1. destruct (negb confirm || negb (truthy secret)) eqn:Ec.
    { destruct H2 as [-> ->]. exists [], [Ok secret]. repeat split; auto; [simpl; lia|].
      unfold settled. rewrite <- negb_andb in Ec. apply negb_true_iff in Ec. rewrite Ec. reflexivity. }
    apply orb_false_iff in Ec as [Hc Hs]. apply negb_false_iff in Hc, Hs. subst confirm.
    apply runs_bind in H2 as [(again & t3 & t4 & -> & H3 & H4)|(x & -> & H3)].
    2: { apply runs_getpass in H3. exists [], [Ok secret; Err x]. rewrite H3. repeat split; auto.
         right. exists [Ok secret]. split; [reflexivity|]. intros y [=]%list_elem_of_singleton. }
    apply runs_getpass in H3. rewrite entries_typed_app, H3. destruct (String.eqb_spec again secret) as [->|Hne].
    { destruct H4 as [-> ->]. exists [], [Ok secret; Ok secret]. repeat split; auto; [simpl; lia|].
      unfold settled. rewrite Hs. reflexivity. }
    apply runs_bind in H4 as [([] & t5 & t6 & -> & H5 & H6)|(x & _ & H5)];
      [|apply runs_host_log in H5 as [_ [=]]].
    apply runs_host_log in H5 as [-> _]. destruct (IH _ H6) as (rounds & last & Hr & _ & Ht & Ho).
    exists ((secret, again) :: rounds), last. split; [|split; [discriminate|]].
    + constructor; [|exact Hr]. split; [apply truthy_spec, Hs | exact Hne].
    + split; [cbn [app entries_typed on_host]; simpl; rewrite Ht; reflexivity|].
      destruct o as [s|x]; [destruct Ho; split; [simpl; lia | assumption]|].
      destruct Ho as [(-> & -> & <-)|Ho]; [left | right]; auto.
Qed.

Lemma runs_getpass_typed prompt secret : runs (getpass prompt) [@Ev host_sig (OpGetpass prompt) (Ok secret)] (Ok secret).
Proof. exists (Ok secret), []. simpl. auto. Qed.

Lemma runs_then {E A B} (p : prog E A) (f : A -> prog E B) a t1 t2 o :
  runs p t1 (Ok a) -> runs (f a) t2 o -> runs (bind p f) (t1 ++ t2) o.
Proof. intros H1 H2. apply runs_bind. left. eauto 6. Qed.

Lemma ask_secret_loop_returns attempts label confirm rounds secret :
  Forall mistyped rounds -> (length rounds < attempts)%nat -> (confirm = false -> rounds = []) ->
  exists t, runs (ask_secret_loop attempts label confirm) t (Ok secret) /\
    entries_typed t = mistyped_entries rounds ++ settled confirm secret.
Proof.
  revert rounds. induction attempts as [|n IH]; intros rounds Hr Hl Hc; [lia|].
  cbn [ask_secret_loop]. destruct rounds as [|[s a] rounds].
  - unfold settled. destruct (confirm && truthy secret) eqn:E.
    + exists ([@Ev host_sig (OpGetpass (label +:+ ": ")) (Ok secret)] ++
              [@Ev host_sig (OpGetpass (label +:+ " (again): ")) (Ok secret)] ++ []).
      split; [|reflexivity]. apply (runs_then _ _ secret); [apply runs_getpass_typed|].
      rewrite <- negb_andb, E. cbn [negb]. apply (runs_then _ _ secret); [apply runs_getpass_typed|].
      rewrite String.eqb_refl. split; reflexivity.
    + exists ([@Ev host_sig (OpGetpass (label +:+ ": ")) (Ok secret)] ++ []).
      split; [|reflexivity]. apply (runs_then _ _ secret); [apply runs_getpass_typed|].
      rewrite <- negb_andb, E. split; reflexivity.
  - inversion_clear Hr as [|? ? [Hs Ha] Hr']. simpl in Hs, Ha, Hl.
    destruct (IH rounds Hr' ltac:(lia) ltac:(intros E; specialize (Hc E); discriminate)) as (t & Ht & Ety).
    exists ([@Ev host_sig (OpGetpass (label +:+ ": ")) (Ok s)] ++
            [@Ev host_sig (OpGetpass (label +:+ " (again): ")) (Ok a)] ++
            [on_host (EvLog WARNING "The two entries differ, try again")] ++ t).
    split; [|simpl; rewrite Ety; reflexivity].
    apply (runs_then _ _ s); [apply runs_getpass_typed|]. apply truthy_spec in Hs. rewrite Hs.
    destruct confirm; [cbn [negb orb] | specialize (Hc eq_refl); discriminate].
    apply (runs_then _ _ a); [apply runs_getpass_typed|]. rewrite (proj2 (String.eqb_neq _ _) Ha).
    apply (runs_then _ _ tt); [|exact Ht]. exists tt, []. repeat split.
Qed.

(** What [ask_secret] makes of an exception of the terminal. *)
Definition terminal_error (label : string) (x : exn) : exn :=
  match x with
  | EOFError => ConfigurationError (label +:+ " is needed but there is no terminal to ask on")
  | x => x
  end.

(** C21: asking for a new secret ends.  The entries are pairs that differ, and then
    one that settles it: the same text twice, an empty entry, or the one entry when
    none is to be confirmed; that entry is the result.  Only the terminal's
    exceptions and as many differing pairs as there are attempts end it otherwise;
    with more attempts than differing pairs the secret is always returned. *)
Theorem ask_secret_settles (attempts : nat) (label : string) (confirm : bool) :
  (forall t o, runs (ask_secret attempts label confirm) t o ->
     exists rounds last, Forall mistyped rounds /\ (confirm = false -> rounds = []) /\
       entries_typed t = mistyped_entries rounds ++ last /\
       match o with
       | Ok secret => (length rounds < attempts)%nat /\ last = settled confirm secret
       | Err x => exists y, x = terminal_error label y /\ gave_up attempts rounds last y
       end) /\
  (forall rounds secret, Forall mistyped rounds -> (length rounds < attempts)%nat ->
     (confirm = false -> rounds = []) ->
     exists t, runs (ask_secret attempts label confirm) t (Ok secret) /\
       entries_typed t = mistyped_entries rounds ++ settled confirm secret).
Proof.
  split.
  - intros t o H. apply runs_try_except in H as [(s & -> & H)|(x & t1 & t2 & -> & H & Hx)].
    + exact (ask_secret_loop_entries _ _ _ _ _ H).
    + destruct (ask_secret_loop_entries _ _ _ _ _ H) as (rounds & last & Hr & Hc & Ht & Hg).
      exists rounds, last. split; [exact Hr|]. split; [exact Hc|].
      assert (Ho : t2 = [] /\ o = Err (terminal_error label x)) by (destruct x; exact Hx).
      destruct Ho as [-> ->]. rewrite app_nil_r. eauto.
  - intros rounds secret Hr Hl Hc.
    destruct (ask_secret_loop_returns attempts label confirm rounds secret Hr Hl Hc) as (t & Ht & Ety).
    exists t. split; [|exact Ety]. rewrite <- (app_nil_r t). apply (runs_then _ _ (Ok secret)); [|split; reflexivity].
    apply runs_reify. eauto.
Qed.

Lemma ask_secret_settles_witness :
  exists t, runs (ask_secret 2 "Key" true) t (Ok "right") /\
    entries_typed t = [Ok "right"; Ok "rihgt"; Ok "right"; Ok "right"].
Proof.
  apply (ask_secret_settles 2 "Key" true) with (rounds := [("right", "rihgt")]).
  - repeat constructor; discriminate.
  - simpl. lia.
  - discriminate.
Defined.

(** ** Stored passwords *)

(** [os.urandom] gives as many bytes as were asked for. *)
Definition urandom_sized (t : list host_event) : Prop :=
  Forall (fun ev : host_event => match ev with Ev (OpUrandom n) bytes => str_len bytes = n | _ => True end) t.

(** A text from the environment, or else from the terminal. *)
Definition obtained (variables : dict string string) (variable : EnvVariable) (t : list host_event)
    (text : string) : Prop :=
  if truthy (env_text variables variable) then text = env_text variables variable
  else Ok text ∈ entries_typed t.

Lemma obtained_app variables variable t1 t2 t3 text :
  obtained variables variable t2 text -> obtained variables variable (t1 ++ t2 ++ t3) text.
Proof.
  unfold obtained. destruct (truthy _); [auto|]. rewrite !entries_typed_app, !elem_of_app. auto.
Qed.

Lemma secret_obtained attempts variables variable label confirm t text :
  runs (secret_from_environment_or_prompt attempts variables variable label confirm) t (Ok text) ->
  obtained variables variable t text.
Proof.
  unfold secret_from_environment_or_prompt, obtained. destruct (truthy _); [intros [_ [= ->]]; reflexivity|].
  intros H. apply runs_try_except in H as [(s & [= ->] & H)|(x & t1 & t2 & _ & _ & Hx)].
  - apply ask_secret_loop_entries in H as (rounds & last & _ & _ & -> & _ & ->). apply elem_of_app. right.
    unfold settled. destruct (confirm && _); left.
  - destruct x; destruct Hx as [_ [=]].
Qed.

Lemma queries_obtaining attempts variables variable label confirm :
  emits query_only (secret_from_environment_or_prompt attempts variables variable label confirm).
Proof.
  unfold secret_from_environment_or_prompt. destruct (truthy _); [queries | apply queries_ask_secret].
Qed.

Section Stored.
Context `{CryptographyLaws}.

Lemma queries_encrypt_if_given password key name : emits query_only (encrypt_if_given password key name).
Proof. unfold encrypt_if_given, encrypt_secret, urandom. destruct (truthy _); queries. Qed.

Lemma encrypted_text_truthy salt nonce password key name blob :
  encrypt_with salt nonce password key name = Ok blob -> truthy blob = true.
Proof. intros He. unfold encrypt_with in He. inv_ok He. injection He as <-. reflexivity. Qed.

(** A password that is given is encrypted for its own name. *)
Lemma encrypt_if_given_opens password key name t blob :
  runs (encrypt_if_given password key name) t (Ok blob) -> urandom_sized t -> password <> "" ->
  truthy blob = true /\ (utf8_valid password = true -> decrypt_secret blob key name = Ok password).
Proof.
  intros Hr Hu Hp. apply truthy_spec in Hp. unfold encrypt_if_given in Hr. rewrite Hp in Hr.
  unfold encrypt_secret, urandom in Hr. runs_ok Hr. rename a into salt. runs_ok Hr. rename a into nonce.
  destruct Hr0 as (? & ? & -> & -> & [= <-]). destruct Hr1 as (? & ? & -> & -> & [= <-]).
  apply runs_of_outcome in Hr as [-> He]. symmetry in He.
  unfold urandom_sized in Hu. cbn [app] in Hu. apply Forall_cons in Hu as [Hs Hu].
  apply Forall_cons in Hu as [Hn _]. split; [exact (encrypted_text_truthy _ _ _ _ _ _ He)|].
  intros Hv. exact (decrypt_same _ _ _ _ _ _ Hs Hn Hv He).
Qed.

Lemma as_str_eq v s : py_eq v (PStr s) = true -> as_str v = Some s.
Proof.
  destruct v as [| | |t|cls m t| | |d]; cbn; try discriminate; intros E; try (apply String.eqb_eq in E; congruence).
Qed.

Lemma queries_refuse_mixed_keys safe_load path secrets key :
  emits query_only (refuse_mixed_keys safe_load path secrets key).
Proof.
  unfold refuse_mixed_keys. apply emits_bind; [apply queries_read_config_file | intros raw]. queries.
  destruct (decrypted_credentials _ _ _) as [|x]; [queries|]. destruct (is_configuration_error x); queries.
Qed.

Lemma files_of_queries {A} (p : host A) t o : emits query_only p -> runs p t o -> files_written t = [].
Proof. intros Hp Hr. apply query_only_trace, (emits_sound _ _ _ _ Hp Hr). Qed.

(** The file is written once, with a text that was read back before. *)
Lemma write_encrypted_secrets_runs safe_load path secrets t u :
  runs (write_encrypted_secrets safe_load path secrets) t (Ok u) ->
  exists text stored, files_written t = [(path, text)] /\ stored_values safe_load text path = Ok stored /\
    forall field, field ∈ secret_fields secrets -> truthy field.2 = true ->
      exists v, dict_get stored ("secrets." +:+ field.1) = Some v /\ as_str v = Some field.2.
Proof.
  intros Hr. unfold write_encrypted_secrets in Hr. runs_ok Hr. destruct a; [|destruct Hr as [_ [=]]].
  cbn [negb] in Hr. runs_ok Hr. cbv zeta in Hr. runs_ok Hr. apply runs_of_outcome in Hr2 as [-> Hv].
  symmetry in Hv. apply verify_stored_ok in Hv as (stored & Hs & Hv).
  exists (set_secret_lines a secrets), stored. split; [|split; [exact Hs|]].
  - unfold exists_ in Hr0. destruct Hr0 as (? & ? & -> & -> & _).
    unfold read_text_file in Hr1. runs_ok Hr1. destruct Hr0 as (? & ? & -> & -> & [= <-]).
    apply runs_of_outcome in Hr1 as [-> _].
    unfold write_text_file in Hr. runs_ok Hr. destruct Hr0 as (? & ? & -> & -> & [= <-]).
    apply runs_of_outcome in Hr as [-> _]. reflexivity.
  - intros field Hin Ht. destruct (Hv field Hin Ht) as (v & Hg & He). eauto using as_str_eq.
Qed.

(** A stored blob that opens is what [decrypt-secrets] shows. *)
Lemma decrypt_value_text v blob key name : as_str v = Some blob -> decrypt_value v key name = decrypt_secret blob key name.
Proof. unfold decrypt_value. intros ->. reflexivity. Qed.
End Stored.

Lemma required_key_obtained attempts variables confirm t key :
  runs (required_secrets_key attempts variables confirm) t (Ok key) ->
  obtained variables SECRETS_KEY t key /\ key <> "" /\ files_written t = [].
Proof.
  intros Hr. unfold required_secrets_key in Hr. runs_ok Hr.
  destruct (truthy a) eqn:Ek; [destruct Hr as [-> [= <-]] | destruct Hr as [_ [=]]].
  rewrite app_nil_r. split; [exact (secret_obtained _ _ _ _ _ _ _ Hr0)|]. split; [apply truthy_spec, Ek|].
  exact (files_of_queries _ _ _ (queries_obtaining _ _ _ _ _) Hr0).
Qed.

(** The parts of a run that stored passwords. *)
Lemma encrypt_secrets_parts `{Cryptography} safe_load repository_config_path attempts variables t u :
  runs (encrypt_secrets_entry safe_load repository_config_path attempts variables) t (Ok u) ->
  switch_is_on variables NO_WRITE = Ok false ->
  exists key luks user luks_encrypted user_encrypted tk tl tu te1 te2 tp tw t_log,
    t = tk ++ tl ++ tu ++ te1 ++ te2 ++ tp ++ tw ++ t_log /\
    runs (required_secrets_key attempts variables true) tk (Ok key) /\
    runs (secret_from_environment_or_prompt attempts variables LUKS_PASSWORD
            "LUKS password (Enter keeps the stored one)" true) tl (Ok luks) /\
    runs (secret_from_environment_or_prompt attempts variables USER_PASSWORD
            "User password (Enter keeps the stored one)" true) tu (Ok user) /\
    truthy luks || truthy user = true /\
    runs (encrypt_if_given luks key LUKS_PASSWORD_SECRET) te1 (Ok luks_encrypted) /\
    runs (encrypt_if_given user key USER_PASSWORD_SECRET) te2 (Ok user_encrypted) /\
    Forall query_only tp /\
    runs (write_encrypted_secrets safe_load (config_path repository_config_path variables)
            {| luks_password_encrypted := luks_encrypted; user_password_encrypted := user_encrypted |}) tw (Ok tt) /\
    Forall query_only t_log.
Proof.
  intros Hr Hno. unfold encrypt_secrets_entry in Hr.
  runs_ok Hr. runs_ok Hr. runs_ok Hr.
  match type of Hr with context [negb ?b] => destruct b eqn:Egiven end;
    cbn [negb] in Hr; [|destruct Hr as [_ [=]]].
  runs_ok Hr. runs_ok Hr. cbv zeta in Hr. rewrite Hno in Hr.
  match type of Hr with runs ?p ?t _ =>
    assert (Hp : exists tp tw t_log, t = tp ++ tw ++ t_log /\ Forall query_only tp /\
      runs (write_encrypted_secrets safe_load (config_path repository_config_path variables)
              {| luks_password_encrypted := a2; user_password_encrypted := a3 |}) tw (Ok tt) /\
      Forall query_only t_log) end.
  { runs_ok Hr. runs_ok Hr. runs_ok Hr. apply runs_of_outcome in Hr7 as [-> [= ->]].
    runs_ok Hr. runs_ok Hr. destruct a6, a7.
    exists (t4 ++ t5 ++ [] ++ t6), t8, t9. split; [rewrite <- !app_assoc; reflexivity|].
    split; [|split; [assumption|]].
    - rewrite !Forall_app. repeat split; [| | constructor |].
      + apply (emits_sound _ _ _ _ (query_trigger (OpPrint _) (fun _ => I)) Hr5).
      + apply (emits_sound _ _ _ _ (query_trigger (OpPrint _) (fun _ => I)) Hr6).
      + apply (emits_sound _ _ _ _ (queries_refuse_mixed_keys _ _ _ _) Hr7).
    - apply (emits_sound _ _ _ _ (queries_log _ _) Hr). }
  destruct Hp as (tp & tw & t_log & -> & Hp). eauto 30.
Qed.

(** C7: passwords that were stored open again.  After a successful encrypt-secrets
    that is not told to leave the file alone, config.yaml was written once; read
    back, it holds for each password that was given a blob that the same key opens
    to exactly this password. *)
Theorem stored_secrets_open `{CryptographyLaws} safe_load repository_config_path attempts variables t u :
  runs (encrypt_secrets_entry safe_load repository_config_path attempts variables) t (Ok u) ->
  urandom_sized t -> switch_is_on variables NO_WRITE = Ok false ->
  exists key luks user text stored,
    obtained variables SECRETS_KEY t key /\ key <> "" /\
    obtained variables LUKS_PASSWORD t luks /\ obtained variables USER_PASSWORD t user /\
    ~ (luks = "" /\ user = "") /\
    files_written t = [(config_path repository_config_path variables, text)] /\
    stored_values safe_load text (config_path repository_config_path variables) = Ok stored /\
    (luks <> "" -> utf8_valid luks = true ->
       exists v, dict_get stored "secrets.luks_password_encrypted" = Some v /\
         decrypt_value v key LUKS_PASSWORD_SECRET = Ok luks) /\
    (user <> "" -> utf8_valid user = true ->
       exists v, dict_get stored "secrets.user_password_encrypted" = Some v /\
         decrypt_value v key USER_PASSWORD_SECRET = Ok user).
Proof.
  intros Hr Hu Hno.
  destruct (encrypt_secrets_parts _ _ _ _ _ _ Hr Hno) as (key & luks & user & bl & bu & tk & tl & tu & te1 &
    te2 & tp & tw & t_log & -> & Hk & Hl & Hus & Hgiven & He1 & He2 & Htp & Hw & Hlog).
  apply write_encrypted_secrets_runs in Hw as (text & stored & Hf & Hst & Hfields).
  destruct (required_key_obtained _ _ _ _ _ Hk) as (Hkey & Hne & Hfk). exists key, luks, user, text, stored.
  unfold urandom_sized in Hu. rewrite !Forall_app in Hu. destruct Hu as (_ & _ & _ & Hu1 & Hu2 & _).
  split; [apply (obtained_app _ _ []), Hkey|]. split; [exact Hne|].
  split; [apply obtained_app, (secret_obtained _ _ _ _ _ _ _ Hl)|].
  split; [rewrite (app_assoc tk); apply obtained_app, (secret_obtained _ _ _ _ _ _ _ Hus)|].
  split; [intros [-> ->]; discriminate|]. split; [|split; [exact Hst|split]].
  - rewrite !files_written_app, Hfk, Hf, (files_of_queries _ _ _ (queries_obtaining _ _ _ _ _) Hl),
      (files_of_queries _ _ _ (queries_obtaining _ _ _ _ _) Hus),
      (files_of_queries _ _ _ (queries_encrypt_if_given _ _ _) He1),
      (files_of_queries _ _ _ (queries_encrypt_if_given _ _ _) He2),
      (proj2 (query_only_trace _ Htp)), (proj2 (query_only_trace _ Hlog)). reflexivity.
  - intros Hp Hv. destruct (encrypt_if_given_opens _ _ _ _ _ He1 Hu1 Hp) as [Ht Ho].
    destruct (Hfields ("luks_password_encrypted", bl)) as (v & Hg & Has); [left | exact Ht|].
    exists v. rewrite (decrypt_value_text _ _ _ _ Has). auto.
  - intros Hp Hv. destruct (encrypt_if_given_opens _ _ _ _ _ He2 Hu2 Hp) as [Ht Ho].
    destruct (Hfields ("user_password_encrypted", bu)) as (v & Hg & Has); [right; left | exact Ht|].
    exists v. rewrite (decrypt_value_text _ _ _ _ Has). auto.
Qed.

(** ** Witnesses *)

(** A machine with the sample's disk on which the user keeps what is offered. *)
Definition sample_host : oracle host_sig := fun _ e =>
  match e return host_ans e with
  | OpCommand c => fresh_machine [] c
  | OpExists _ => true
  | OpReadText _ => Ok "# passwords"
  | OpWriteText _ _ => Ok tt
  | OpGetpass _ => Ok ""
  | OpPrint _ => tt
  | OpUrandom n => Nat.iter n (String (chr 120)) ""
  | OpSetLogLevel _ => tt
  | OpInfoScreen _ _ => Ok tt
  | OpFrontend f => keeping_user f
  end.

Definition install_variables : dict string string := [
  ("NON_INTERACTIVE", "true"); ("LUKS_PASSWORD", "luks pass"); ("USER_PASSWORD", "user pass")].

Definition sample_load (text : string) : yaml_result := Loaded (PDict (config_file_of sample_config)).

Definition sample_main : host Z :=
  @main toy_cryptography sample_load (fun _ => "yaml") "/repo/config.yaml" 3 install_variables.

(** This installation starts, with a usable configuration. *)
Lemma installs_only_usable_witness : exists config, usable config.
Proof.
  destruct (@installs_only_usable toy_cryptography sample_load (fun _ => "yaml") "/repo/config.yaml" 3
    install_variables (trace_of sample_host sample_main) (outcome_of sample_host sample_main)
    (trace_runs _ _)) as (tp & ti & Et & Hp & _ & [[-> _]|(config & _ & _ & _ & Hu & _)]); [|eauto].
  exfalso. rewrite app_nil_r in Et. subst tp.
  assert (Hn : forallb (startswith "lsblk ") (host_commands (trace_of sample_host sample_main)) = false)
    by (vm_compute; reflexivity).
  rewrite <- not_true_iff_false in Hn. apply Hn, forallb_forall. intros c Hc.
  apply list_elem_of_In in Hc. exact (proj1 (Forall_forall _ _) Hp c Hc).
Defined.

Definition encrypt_variables : dict string string := [
  ("ARCH_INSTALLER_SECRETS_KEY", "key"); ("LUKS_PASSWORD", "luks pass")].

(** Reads the one entry the sample file gets. *)
Definition entry_load (text : string) : yaml_result :=
  match secret_line "luks_password_encrypted" text with
  | Some line => Loaded (PDict [("secrets", PDict [("luks_password_encrypted",
      PStr (rstrip_chars "'" (removeprefix "luks_password_encrypted: '" line)))])])
  | None => Loaded PNone
  end.

Definition sample_encrypt : host unit :=
  @encrypt_secrets_entry toy_cryptography entry_load "/repo/config.yaml" 3 encrypt_variables.

Lemma stored_secrets_open_witness :
  exists text, files_written (trace_of sample_host sample_encrypt) = [("/repo/config.yaml", text)].
Proof.
  destruct (@stored_secrets_open toy_cryptography toy_laws entry_load "/repo/config.yaml" 3 encrypt_variables
    (trace_of sample_host sample_encrypt) tt) as (key & luks & user & text & stored & H).
  - apply trace_runs_ok. vm_compute. reflexivity.
  - unfold urandom_sized. vm_compute. repeat constructor.
  - reflexivity.
  - exists text. apply H.
Defined.
