(* ===== verification/Widgets.v ===== *)
(** * The terminal front-end ([tui/widgets.py], [tui/curses_frontend.py])

    Every widget is a loop that draws the screen and reads a key ([Screens.v]).
    Drawing has no result that the loop uses, except how many rows fit; so what a
    widget returns is a function of what the terminal gives in each round: the key
    and the height of the window.  It ends with a result, or it still waits when the
    list of rounds is used up. *)

From S2P Require Import Prelude PyStr Chars PyVal Effects Command Questions Models.

Local Open Scope Z_scope.

(** ** Rounds *)

Record round : Type := { pressed : Z; max_y : Z }.

Inductive widget (A : Type) : Type :=
| Waiting
| Stopped (o : outcome A) (rest : list round).
Arguments Waiting {A}.
Arguments Stopped {A} o rest.

Definition and_then {A B} (w : widget A) (f : A -> outcome B) : widget B :=
  match w with Waiting => Waiting | Stopped o rest => Stopped (obind f o) rest end.

(** The constants of [curses] and of the module. *)
Definition KEY_DOWN : Z := 258.
Definition KEY_UP : Z := 259.
Definition KEY_ESCAPE : Z := 27.
Definition KEY_TAB : Z := 9.
Definition KEY_SPACE : Z := 32.
Definition KEY_Q : Z := 113.
Definition ENTER_KEYS : list Z := [343; 10; 13].
Definition BACKSPACE_KEYS : list Z := [263; 127; 8].
Definition CONTENT_START : Z := 4.
Definition HELP_ROW_OFFSET : Z := 2.

Definition key_in (key : Z) (keys : list Z) : bool := existsb (Z.eqb key) keys.
Definition is_printable (key : Z) : bool := (32 <=? key) && (key <? 127).

(** [l[i]]: a negative position counts from the end. *)
Definition py_index {A} (l : list A) (i : Z) : outcome A :=
  let n := Z.of_nat (length l) in
  let i' := if i <? 0 then i + n else i in
  if (i' <? 0) || (n <=? i') then Err (IndexError "list index out of range")
  else match l !! Z.to_nat i' with Some a => Ok a | None => Err (IndexError "list index out of range") end.

(** ** The list engine *)

(** [_draw_list]: the rows that fit, and the first one shown. *)
Definition first_row (has_description : bool) : Z := CONTENT_START + (if has_description then 1 else 0).
Definition status_row (max_y : Z) : Z := max_y - HELP_ROW_OFFSET - 1.
Definition visible_rows (max_y : Z) (has_description : bool) : Z :=
  Z.max 1 (status_row max_y - 1 - first_row has_description).
Definition scroll (cursor visible_rows : Z) (show_cursor : bool) : Z :=
  if show_cursor then Z.max 0 (cursor - visible_rows + 1) else cursor.

(** *** What a row shows *)

Inductive RowStyle : Type := PLAIN | MARKED | HEADING.
Record ListRow : Type := { row_text : string; row_style : RowStyle }.

Definition inherited_tag {V} (inherited : option (Inherited V)) : string :=
  match inherited with
  | Some i => "  (inherited from " +:+ inherited_source i +:+ ")"
  | None => ""
  end.

Section RunList.
Context {S : Type} (row_count : Z) (has_description show_cursor : bool)
  (handle_key : S -> Z -> Z -> outcome (S * bool)).

Definition last_position (max_y : Z) : Z :=
  if show_cursor then row_count - 1 else Z.max 0 (row_count - visible_rows max_y has_description).

(** [run_list]; [S] is what the closures of the menu share. *)
Fixpoint run_list (st : S) (cursor : Z) (rounds : list round) : widget (S * Z) :=
  match rounds with
  | [] => Waiting
  | {| pressed := key; max_y := max_y |} :: rest =>
      if key =? KEY_UP then run_list st (Z.max (cursor - 1) 0) rest
      else if key =? KEY_DOWN then run_list st (Z.min (cursor + 1) (last_position max_y)) rest
      else match handle_key st key cursor with
           | Err x => Stopped (Err x) rest
           | Ok (st', accepted) =>
               if accepted then Stopped (Ok (st', cursor)) rest
               else if key =? KEY_Q then Stopped (Err (KeyboardInterrupt "user quit")) rest
               else run_list st' cursor rest
           end
  end.
End RunList.

(** ** Menus *)

Record MenuOption : Type := { option_value : string; option_label : string }.

Fixpoint index_where {A} (f : A -> bool) (l : list A) : option Z :=
  match l with
  | [] => None
  | a :: l' => if f a then Some 0 else (fun i => i + 1) <$> index_where f l'
  end.

Definition is_inherited (inherited : option (Inherited string)) (option : MenuOption) : bool :=
  match inherited with
  | Some i => String.eqb (option_value option) (inherited_value i)
  | None => false
  end.

Definition start_row (options : list MenuOption) (inherited : option (Inherited string)) : Z :=
  default 0 (index_where (is_inherited inherited) options).

Definition radio_menu (options : list MenuOption) (inherited : option (Inherited string))
    (description : string) (rounds : list round) : widget string :=
  let chosen := run_list (Z.of_nat (length options)) (truthy description) true
    (fun _ key _ => Ok (tt, key_in key ENTER_KEYS)) tt (start_row options inherited) rounds in
  and_then chosen (fun '(_, cursor) =>
    obind (fun option => Ok (option_value option)) (py_index options cursor)).

(** The closures [draw_row] of the menus; an option by its position. *)
Definition radio_row (inherited : option (Inherited string)) (option : MenuOption) (has_cursor : bool) : ListRow :=
  let marker := if has_cursor then " ▸ " else "   " in
  let tag := if is_inherited inherited option then inherited_tag inherited else "" in
  {| row_text := marker +:+ option_label option +:+ tag; row_style := PLAIN |}.

Definition checkbox_row (inherited : option (Inherited (list string))) (checked : list string)
    (option : MenuOption) (has_cursor : bool) : ListRow :=
  let is_checked := str_in (option_value option) checked in
  let was_inherited := match inherited with
    | Some i => str_in (option_value option) (inherited_value i) | None => false end in
  {| row_text := " " +:+ (if is_checked then "[✓]" else "[ ]") +:+ " " +:+ option_label option +:+
       (if was_inherited then inherited_tag inherited else "");
     row_style := if is_checked then MARKED else PLAIN |}.

(** [checked.symmetric_difference_update({value})] *)
Definition toggle_value (checked : list string) (value : string) : list string :=
  if str_in value checked then List.filter (fun v => negb (String.eqb v value)) checked
  else value :: checked.

Definition checkbox_key (options : list MenuOption) (checked : list string) (key cursor : Z)
    : outcome (list string * bool) :=
  if key =? KEY_SPACE
  then obind (fun option => Ok (toggle_value checked (option_value option), false)) (py_index options cursor)
  else Ok (checked, key_in key ENTER_KEYS).

Definition checkbox_menu (options : list MenuOption) (inherited : option (Inherited (list string)))
    (description : string) (rounds : list round) : widget (list string) :=
  let checked := match inherited with Some i => dedup (inherited_value i) | None => [] end in
  let chosen := run_list (Z.of_nat (length options)) (truthy description) true
    (checkbox_key options) checked 0 rounds in
  and_then chosen (fun '(checked, _) =>
    Ok (map option_value (List.filter (fun option => str_in (option_value option) checked) options))).

(** ** Text *)

Record TextEntry : Type := {
  entry_inherited : option (Inherited string);
  entry_required : bool;
  entry_typed : string;
  entry_error : string;
}.

Definition new_entry (inherited : option (Inherited string)) (required : bool) : TextEntry :=
  {| entry_inherited := inherited; entry_required := required; entry_typed := ""; entry_error := "" |}.

Definition with_typed (entry : TextEntry) (typed : string) : TextEntry :=
  {| entry_inherited := entry_inherited entry; entry_required := entry_required entry;
     entry_typed := typed; entry_error := "" |}.

(** [typed[:-1]] *)
Fixpoint without_last (s : string) : string :=
  match s with
  | EmptyString => EmptyString
  | String _ EmptyString => EmptyString
  | String c s' => String c (without_last s')
  end.

Definition submit (entry : TextEntry) : TextEntry * option string :=
  let value := str_or (entry_typed entry)
    (match entry_inherited entry with Some i => inherited_value i | None => "" end) in
  if negb (truthy value) && entry_required entry
  then ({| entry_inherited := entry_inherited entry; entry_required := entry_required entry;
           entry_typed := entry_typed entry; entry_error := "This field is required." |}, None)
  else (entry, Some value).

Definition press (entry : TextEntry) (key : Z) : TextEntry * option string :=
  if key_in key ENTER_KEYS then submit entry
  else if key =? KEY_ESCAPE then (with_typed entry "", None)
  else if key_in key BACKSPACE_KEYS then (with_typed entry (without_last (entry_typed entry)), None)
  else if is_printable key
  then (with_typed entry (entry_typed entry +:+ String (chr (Z.to_nat key)) ""), None)
  else (entry, None).

(** *** What the field shows *)

Definition inherited_hint (inherited : Inherited string) (typed : string) (masked : bool) : string :=
  let shown := if masked then "(hidden)" else inherited_value inherited in
  let origin := "Inherited from " +:+ inherited_source inherited +:+ ": " +:+ shown in
  if truthy typed then origin +:+ "  (overridden, Esc restores it)"
  else origin +:+ "  (Enter keeps it, typing replaces it)".

(** The typed text, and [text[-field_width:]] of it. *)
Definition display_text (entry : TextEntry) (masked : bool) : string :=
  if masked then times "*" (char_len (entry_typed entry)) else entry_typed entry.
Definition visible_text (entry : TextEntry) (masked : bool) (field_width : Z) : string :=
  slice_from (- field_width) (display_text entry masked).

Fixpoint text_loop (entry : TextEntry) (rounds : list round) : widget string :=
  match rounds with
  | [] => Waiting
  | r :: rest =>
      match press entry (pressed r) with
      | (_, Some value) => Stopped (Ok value) rest
      | (entry', None) => text_loop entry' rest
      end
  end.

Definition text_input (inherited : option (Inherited string)) (required : bool) (rounds : list round)
    : widget string := text_loop (new_entry inherited required) rounds.

(** [password_input_with_confirm]: where its loop is. *)
Inductive password_state : Type :=
| FirstEntry (entry : TextEntry)
| SecondEntry (password : string) (entry : TextEntry)
| Mismatch.

Fixpoint password_loop (st : password_state) (rounds : list round) : widget string :=
  match rounds with
  | [] => Waiting
  | r :: rest =>
      match st with
      | FirstEntry entry =>
          match press entry (pressed r) with
          | (_, Some password) => password_loop (SecondEntry password (new_entry None true)) rest
          | (entry', None) => password_loop (FirstEntry entry') rest
          end
      | SecondEntry password entry =>
          match press entry (pressed r) with
          | (_, Some confirm) =>
              if String.eqb password confirm then Stopped (Ok password) rest
              else password_loop Mismatch rest
          | (entry', None) => password_loop (SecondEntry password entry') rest
          end
      | Mismatch => password_loop (FirstEntry (new_entry None true)) rest
      end
  end.
Definition password_input_with_confirm (rounds : list round) : widget string :=
  password_loop (FirstEntry (new_entry None true)) rounds.

(** ** The summary *)

Definition SUMMARY_VALUE_WIDTH : Z := 32.

Definition fitted (value : string) : string :=
  if char_len value <=? SUMMARY_VALUE_WIDTH then ljust value SUMMARY_VALUE_WIDTH
  else slice_to (SUMMARY_VALUE_WIDTH - 1) value +:+ "…".

(** [label.partition(".")] *)
Definition partition_dot (label : string) : string * option string :=
  match split_on "." label with
  | group :: (_ :: _) as rest => (group, Some (join "." rest))
  | _ => (label, None)
  end.

Fixpoint summary_rows_from (current_group : string) (items : list (string * string * string))
    : list ListRow :=
  match items with
  | [] => []
  | (label, v, source) :: items' =>
      match partition_dot label with
      | (_, None) =>
          {| row_text := "  " +:+ ljust label 27 +:+ " " +:+ fitted v +:+ " " +:+ source;
             row_style := PLAIN |} :: summary_rows_from current_group items'
      | (group, Some field) =>
          let row := {| row_text := "    " +:+ ljust field 25 +:+ " " +:+ fitted v +:+ " " +:+ source;
                        row_style := PLAIN |} in
          if String.eqb group current_group then row :: summary_rows_from current_group items'
          else {| row_text := "  [" +:+ group +:+ "]"; row_style := HEADING |} :: row ::
               summary_rows_from group items'
      end
  end.
Definition summary_rows (items : list (string * string * string)) : list ListRow :=
  summary_rows_from "" items.

Definition confirm_key (_ : bool) (key cursor : Z) : outcome (bool * bool) :=
  let confirmed := key_in key [121; 89] in
  Ok (confirmed, confirmed || key_in key [110; 78; KEY_Q]).

Definition confirm_screen (items : list (string * string * string)) (rounds : list round) : widget bool :=
  and_then (run_list (Z.of_nat (length (summary_rows items))) false false confirm_key false 0 rounds)
    (fun '(confirmed, _) => Ok confirmed).

(** ** Toggles *)

Record Toggle : Type := {
  toggle_key : string; toggle_label : string; toggle_inherited : option (Inherited bool) }.

Definition toggle_line (toggle : Toggle) (state : option bool) : string :=
  let switch := match state with Some true => " ON " | Some false => " OFF" | None => "  ? " end in
  let line := "  [" +:+ switch +:+ "]  " +:+ toggle_label toggle in
  match toggle_inherited toggle with
  | None => line +:+ (match state with None => "  (not set, press Space)" | Some _ => "" end)
  | Some i =>
      if decide (state = Some (inherited_value i)) then line +:+ inherited_tag (toggle_inherited toggle)
      else line +:+ "  (inherited from " +:+ inherited_source i +:+ ": " +:+
             (if inherited_value i then "ON" else "OFF") +:+ ")"
  end.

Definition toggle_row (toggle : Toggle) (state : option bool) : ListRow :=
  {| row_text := toggle_line toggle state;
     row_style := match state with Some true => MARKED | _ => PLAIN end |}.

Definition toggle_states := dict string (option bool).

Definition unset_labels (toggles : list Toggle) (states : toggle_states) : list string :=
  map toggle_label (List.filter (fun t =>
    match dict_get states (toggle_key t) with Some None => true | _ => false end) toggles).

(** The states, and the message under the list. *)
Definition toggle_menu_key (toggles : list Toggle) (st : toggle_states * string) (key cursor : Z)
    : outcome ((toggle_states * string) * bool) :=
  let '(states, message) := st in
  if (key =? KEY_SPACE) || key_in key ENTER_KEYS then
    obind (fun toggle =>
      let on := match dict_get states (toggle_key toggle) with Some (Some true) => true | _ => false end in
      Ok ((dict_set states (toggle_key toggle) (Some (negb on)), ""), false)) (py_index toggles cursor)
  else if key =? KEY_TAB then
    let unset := unset_labels toggles states in
    Ok ((states, match unset with [] => "" | _ => "Set every feature first: " +:+ join ", " unset end),
        match unset with [] => true | _ => false end)
  else Ok (st, false).

Definition toggle_menu (toggles : list Toggle) (description : string) (rounds : list round)
    : widget (dict string bool) :=
  let states := dict_update [] (map (fun t => (toggle_key t,
    match toggle_inherited t with Some i => Some (inherited_value i) | None => None end)) toggles) in
  and_then (run_list (Z.of_nat (length toggles)) (truthy description) true (toggle_menu_key toggles)
              (states, "") 0 rounds)
    (fun '((states, _), _) => Ok (dict_update [] (map (fun t => (toggle_key t,
       match dict_get states (toggle_key t) with Some (Some true) => true | _ => false end)) toggles))).

(** ** [CursesFrontend] *)

Definition KEEP_SECRET : string := "keep".
Definition SECRET_OPTIONS : list MenuOption := [
  {| option_value := KEEP_SECRET; option_label := "Keep the inherited password" |};
  {| option_value := "replace"; option_label := "Enter a new password" |}].

(** [enumerate(choices)] *)
Definition enumerate {A} (l : list A) : list (Z * A) :=
  combine (map Z.of_nat (seq 0 (length l))) l.

Definition options_of (choices : list Choice) : list MenuOption :=
  map (fun pc => {| option_value := str_of_Z pc.1; option_label := choice_label pc.2 |}) (enumerate choices).

Definition positions_of (choices : list Choice) (values : list pyval) : list string :=
  map (fun pc => str_of_Z pc.1)
    (List.filter (fun pc => existsb (py_eq (choice_value pc.2)) values) (enumerate choices)).

(** [choices[int(position)].value] *)
Definition chosen_value (choices : list Choice) (position : string) : outcome pyval :=
  obind (fun i => obind (fun c => Ok (choice_value c)) (py_index choices i)) (py_int position).

Definition title (step label : string) : string := step +:+ ": " +:+ label.

Definition curses_switch (question : Switch) (inherited : option (Inherited bool)) (rounds : list round)
    : widget bool :=
  let options := [{| option_value := "off"; option_label := switch_off_label question |};
                  {| option_value := "on"; option_label := switch_on_label question |}] in
  let shown := (fun i : Inherited bool => {| inherited_value := if inherited_value i then "on" else "off";
                            inherited_source := inherited_source i |}) <$> inherited in
  and_then (radio_menu options shown (switch_description question) rounds)
    (fun chosen => Ok (String.eqb chosen "on")).

Definition curses_choose_one (question : ChooseOne) (choices : list Choice)
    (inherited : option (Inherited pyval)) (rounds : list round) : widget pyval :=
  let shown := match inherited with
    | Some i => match positions_of choices [inherited_value i] with
                | position :: _ => Some {| inherited_value := position; inherited_source := inherited_source i |}
                | [] => None
                end
    | None => None
    end in
  and_then (radio_menu (options_of choices) shown (one_description question) rounds) (chosen_value choices).

Definition curses_choose_many (question : ChooseMany) (inherited : option (Inherited (list pyval)))
    (rounds : list round) : widget (list pyval) :=
  let choices := many_choices question in
  let shown := (fun i : Inherited (list pyval) => {| inherited_value := positions_of choices (inherited_value i);
                            inherited_source := inherited_source i |}) <$> inherited in
  and_then (checkbox_menu (options_of choices) shown (many_description question) rounds)
    (omapM (chosen_value choices)).

Definition curses_enter_secret (question : EnterSecret) (rounds : list round) : widget string :=
  if secret_confirm question then password_input_with_confirm rounds else text_input None true rounds.

Definition curses_keep_secret (question : EnterSecret) (source : string) (rounds : list round) : widget bool :=
  let description := secret_label question +:+ ": inherited from " +:+ source +:+ "." in
  and_then (radio_menu SECRET_OPTIONS None description rounds) (fun kept => Ok (String.eqb kept KEEP_SECRET)).

Definition curses_review (rows : list SummaryRow) (rounds : list round) : widget bool :=
  confirm_screen (map (fun row => (row_step row +:+ "." +:+ row_label row, row_value row, row_source row)) rows)
    rounds.

Definition curses_frontend (e : frontend_op) (rounds : list round) : widget (frontend_answer e) :=
  match e return widget (frontend_answer e) with
  | AskSwitch _ question inherited => curses_switch question inherited rounds
  | AskOne _ question choices inherited => curses_choose_one question choices inherited rounds
  | AskMany _ question inherited => curses_choose_many question inherited rounds
  | AskText _ _ inherited => text_input inherited true rounds
  | KeepSecret _ question source => curses_keep_secret question source rounds
  | AskSecret _ question => curses_enter_secret question rounds
  | Review rows => curses_review rows rounds
  end.
