(* ===== verification/WidgetFacts.v ===== *)
(** * What the terminal front-end answers *)

From S2P Require Import Prelude PyStr PyVal Effects Command Questions Models Widgets.

Local Open Scope Z_scope.

(** ** Lists with positions *)

Lemma py_index_ok {A} (l : list A) i :
  0 <= i < Z.of_nat (length l) -> exists a, py_index l i = Ok a /\ l !! Z.to_nat i = Some a.
Proof.
  intros Hi. unfold py_index. replace (i <? 0) with false by (symmetry; apply Z.ltb_ge; lia).
  replace (i <? 0) with false by (symmetry; apply Z.ltb_ge; lia).
  replace (Z.of_nat (length l) <=? i) with false by (symmetry; apply Z.leb_gt; lia).
  destruct (l !! Z.to_nat i) as [a|] eqn:E; [exists a; auto|].
  apply lookup_ge_None in E. lia.
Qed.

Lemma py_index_lookup {A} (l : list A) k a : l !! k = Some a -> py_index l (Z.of_nat k) = Ok a.
Proof.
  intros H. pose proof (lookup_lt_Some _ _ _ H) as Hlt.
  destruct (py_index_ok l (Z.of_nat k)) as (b & Hb & Hl); [lia|]. rewrite Nat2Z.id in Hl. congruence.
Qed.

Lemma filter_map {A B} (f : A -> B) (g : B -> bool) l :
  List.filter g (map f l) = map f (List.filter (fun a => g (f a)) l).
Proof. induction l as [|a l IH]; [reflexivity|]. simpl. destruct (g (f a)); simpl; rewrite IH; reflexivity. Qed.

Definition enumerate_from {A} (a : nat) (l : list A) : list (Z * A) :=
  combine (map Z.of_nat (seq a (length l))) l.

Lemma enumerate_elem {A} a (l : list A) i x :
  In (i, x) (enumerate_from a l) -> exists k, i = Z.of_nat (a + k) /\ l !! k = Some x.
Proof.
  revert a; induction l as [|y l IH]; intros a; [intros []|].
  intros [[= <- <-]|H].
  - exists 0%nat. rewrite Nat.add_0_r. auto.
  - destruct (IH (S a) H) as (k & -> & Hk). exists (S k). split; [f_equal; lia | exact Hk].
Qed.

Lemma enumerate_lookup {A} a (l : list A) k x :
  l !! k = Some x -> enumerate_from a l !! k = Some (Z.of_nat (a + k), x).
Proof.
  revert a k; induction l as [|y l IH]; intros a k H; [discriminate|].
  unfold enumerate_from. cbn [length seq map combine]. destruct k as [|k].
  - injection H as ->. rewrite Nat.add_0_r. reflexivity.
  - change (enumerate_from (S a) l !! k = Some (Z.of_nat (a + S k), x)). rewrite (IH _ _ H).
    do 3 f_equal. lia.
Qed.

(** Menus are short: a position of one, written as text, reads back. *)
Definition menu_limit : nat := 1000.

Lemma position_text k : (k < menu_limit)%nat -> py_int (str_of_Z (Z.of_nat k)) = Ok (Z.of_nat k).
Proof.
  assert (H : forallb (fun k => match py_int (str_of_Z (Z.of_nat k)) with
                                | Ok i => i =? Z.of_nat k | Err _ => false end) (seq 0 menu_limit) = true)
    by (vm_compute; reflexivity).
  intros Hk. rewrite forallb_forall in H. specialize (H k). rewrite in_seq in H.
  specialize (H ltac:(lia)). destruct (py_int _) as [i|]; [|discriminate].
  apply Z.eqb_eq in H. congruence.
Qed.

Lemma position_text_inj j k :
  (j < menu_limit)%nat -> (k < menu_limit)%nat ->
  str_of_Z (Z.of_nat j) = str_of_Z (Z.of_nat k) -> j = k.
Proof. intros Hj Hk E. apply position_text in Hj, Hk. rewrite E, Hk in Hj. injection Hj. lia. Qed.

(** ** The list engine stays inside the list *)

Lemma run_list_inside {S} row_count has_description handle (I : S -> Prop) st cursor rounds :
  (forall st key c, I st -> 0 <= c < row_count ->
     match handle st key c with Ok (st', _) => I st' | Err _ => False end) ->
  I st -> 0 <= cursor < row_count ->
  match run_list row_count has_description true handle st cursor rounds with
  | Waiting => True
  | Stopped (Ok (st', c)) _ => I st' /\ 0 <= c < row_count
  | Stopped (Err x) _ => x = KeyboardInterrupt "user quit"
  end.
Proof.
  intros Hh. revert st cursor; induction rounds as [|[key y] rest IH]; intros st cursor Hst Hc; [exact Logic.I|].
  cbn [run_list]. destruct (key =? KEY_UP); [apply IH; [exact Hst | lia]|].
  destruct (key =? KEY_DOWN); [apply IH; [exact Hst | unfold last_position; lia]|].
  specialize (Hh st key cursor Hst Hc). destruct (handle st key cursor) as [[st' accepted]|x]; [|contradiction].
  destruct accepted; [split; assumption|]. destruct (key =? KEY_Q); [reflexivity|]. apply IH; assumption.
Qed.

Lemma index_where_bound {A} (f : A -> bool) l i :
  index_where f l = Some i -> 0 <= i < Z.of_nat (length l).
Proof.
  revert i; induction l as [|a l IH]; intros i; [discriminate|]. cbn [index_where].
  destruct (f a); [intros [= <-]; cbn [length]; lia|].
  destruct (index_where f l) as [j|]; [|discriminate]. intros [= <-].
  specialize (IH j eq_refl). cbn [length]. lia.
Qed.

Lemma start_row_inside options inherited :
  options <> [] -> 0 <= start_row options inherited < Z.of_nat (length options).
Proof.
  intros Hne. unfold start_row. destruct (index_where _ options) as [i|] eqn:E.
  - exact (index_where_bound _ _ _ E).
  - destruct options; [congruence|]. cbn [default length]. lia.
Qed.

(** A radio menu answers with one of its options. *)
Lemma radio_menu_option options inherited description rounds :
  options <> [] ->
  match radio_menu options inherited description rounds with
  | Waiting => True
  | Stopped (Ok v) _ => In v (map option_value options)
  | Stopped (Err x) _ => x = KeyboardInterrupt "user quit"
  end.
Proof.
  intros Hne. unfold radio_menu.
  pose proof (run_list_inside (Z.of_nat (length options)) (truthy description)
    (fun _ key _ => Ok (tt, key_in key ENTER_KEYS)) (fun _ => True) tt
    (start_row options inherited) rounds (fun _ _ _ _ _ => Logic.I) Logic.I
    (start_row_inside options inherited Hne)) as H.
  destruct (run_list _ _ _ _ _ _ _) as [|[[[] c]|x] rest]; [exact Logic.I| |exact H].
  destruct H as [_ Hc]. destruct (py_index_ok options c Hc) as (o & Ho & Hl).
  cbn [and_then obind]. rewrite Ho. cbn [obind]. apply in_map_iff. exists o.
  split; [reflexivity|]. apply list_elem_of_In. exact (list_elem_of_lookup_2 _ _ _ Hl).
Qed.

(** ** Choices by position *)

Section Choices.
Context (choices : list Choice) (Hshort : (length choices <= menu_limit)%nat).

Lemma enumerate_position i c :
  In (i, c) (enumerate choices) -> chosen_value choices (str_of_Z i) = Ok (choice_value c).
Proof.
  intros H. apply (enumerate_elem 0) in H as (k & -> & Hk). simpl in *.
  pose proof (lookup_lt_Some _ _ _ Hk) as Hlt. unfold chosen_value.
  rewrite position_text by lia. cbn [obind]. rewrite (py_index_lookup _ _ _ Hk). reflexivity.
Qed.

Lemma chosen_values (g : Z * Choice -> bool) :
  omapM (chosen_value choices) (map (fun pc => str_of_Z pc.1) (List.filter g (enumerate choices))) =
  Ok (map (fun pc => choice_value pc.2) (List.filter g (enumerate choices))).
Proof.
  apply omapM_ok. assert (H : forall pc, In pc (List.filter g (enumerate choices)) -> In pc (enumerate choices))
    by (intros pc Hpc; apply filter_In in Hpc; tauto).
  induction (List.filter g (enumerate choices)) as [|[i c] l IH]; [constructor|]. simpl.
  constructor; [apply enumerate_position, H; left; reflexivity|]. apply IH. intros pc Hpc. apply H. right. exact Hpc.
Qed.

(** The position of an entry is in a list of positions exactly if the entry is. *)
Lemma position_in (g : Z * Choice -> bool) pc :
  In pc (enumerate choices) ->
  str_in (str_of_Z pc.1) (map (fun pc => str_of_Z pc.1) (List.filter g (enumerate choices))) = g pc.
Proof.
  intros Hin. destruct (g pc) eqn:Eg.
  - apply str_in_spec, list_elem_of_In, in_map_iff. exists pc. split; [reflexivity|]. apply filter_In. auto.
  - destruct (str_in _ _) eqn:E; [|reflexivity]. exfalso.
    apply str_in_spec, list_elem_of_In, in_map_iff in E as ([j d] & Hj & Hd). apply filter_In in Hd as [Hd Hg].
    destruct pc as [i c]. simpl in Hj.
    apply (enumerate_elem 0) in Hin as (k & -> & Hk). apply (enumerate_elem 0) in Hd as (m & -> & Hm).
    simpl in *. pose proof (lookup_lt_Some _ _ _ Hk). pose proof (lookup_lt_Some _ _ _ Hm).
    apply position_text_inj in Hj; [|lia|lia]. subst m. congruence.
Qed.
End Choices.

(** ** Starting on the inherited value *)

Lemma first_position (f : Choice -> bool) choices c a :
  List.find f choices = Some c ->
  exists k rest, choices !! k = Some c /\
    List.filter (fun pc : Z * Choice => f pc.2) (enumerate_from a choices) = (Z.of_nat (a + k), c) :: rest.
Proof.
  revert a; induction choices as [|d choices IH]; intros a; [discriminate|].
  cbn [List.find]. unfold enumerate_from. cbn [length seq map combine List.filter snd].
  destruct (f d) eqn:E.
  - intros [= <-]. exists 0%nat. rewrite Nat.add_0_r. eauto.
  - intros H. destruct (IH (S a) H) as (k & rest & Hk & Hf). exists (S k), rest.
    split; [exact Hk|]. unfold enumerate_from in Hf. rewrite Hf. do 3 f_equal. lia.
Qed.

Lemma start_on_position a choices k source :
  (k < length choices)%nat -> (a + length choices <= menu_limit)%nat ->
  index_where (is_inherited (Some {| inherited_value := str_of_Z (Z.of_nat (a + k)); inherited_source := source |}))
    (map (fun pc => {| option_value := str_of_Z pc.1; option_label := choice_label pc.2 |})
       (enumerate_from a choices)) = Some (Z.of_nat k).
Proof.
  revert a k; induction choices as [|c choices IH]; intros a k Hk Ha; [cbn [length] in Hk; lia|].
  unfold enumerate_from. cbn [length seq map combine index_where]. cbn [is_inherited option_value fst inherited_value].
  cbn [length] in Hk, Ha. destruct k as [|k].
  - rewrite Nat.add_0_r, String.eqb_refl. reflexivity.
  - destruct (String.eqb_spec (str_of_Z (Z.of_nat a)) (str_of_Z (Z.of_nat (a + S k)))) as [E|_].
    + apply position_text_inj in E; lia.
    + replace (a + S k)%nat with (S a + k)%nat by lia.
      specialize (IH (S a) k ltac:(lia) ltac:(lia)). unfold enumerate_from in IH. unfold is_inherited in *.
      rewrite IH. cbn. f_equal. lia.
Qed.

(** Enter as the first key. *)
Definition enter_first (y : Z) (rest : list round) : list round := {| pressed := 10; max_y := y |} :: rest.

Lemma radio_menu_enter options inherited description y rest o :
  py_index options (start_row options inherited) = Ok o ->
  radio_menu options inherited description (enter_first y rest) = Stopped (Ok (option_value o)) rest.
Proof. intros H. unfold radio_menu, enter_first. cbn. rewrite H. reflexivity. Qed.

(** ** Properties *)

(** C35: whatever is typed, a question is answered with something it offers: one of
    the choices, some of the choices in their order, or a text that is not empty;
    otherwise the user quit.  No position is ever out of range. *)
Theorem answers_are_offered (one : ChooseOne) (many : ChooseMany) (choices : list Choice) inherited
    chosen_before (rounds : list round) :
  choices <> [] -> (length choices <= menu_limit)%nat ->
  many_choices many <> [] -> (length (many_choices many) <= menu_limit)%nat ->
  match curses_choose_one one choices inherited rounds with
  | Waiting => True
  | Stopped (Ok v) _ => v ∈ map choice_value choices
  | Stopped (Err x) _ => x = KeyboardInterrupt "user quit"
  end /\
  match curses_choose_many many chosen_before rounds with
  | Waiting => True
  | Stopped (Ok vs) _ => exists g : Z * Choice -> bool,
      vs = map (fun pc => choice_value pc.2) (List.filter g (enumerate (many_choices many)))
  | Stopped (Err x) _ => x = KeyboardInterrupt "user quit"
  end.
Proof.
  intros Hne Hshort Hmany Hshort'. split.
  - unfold curses_choose_one.
    match goal with |- context [radio_menu ?options ?shown ?d rounds] =>
      pose proof (radio_menu_option options shown d rounds) as H end.
    assert (Ho : options_of choices <> []) by (destruct choices; [congruence | discriminate]).
    specialize (H Ho). destruct (radio_menu _ _ _ _) as [|[v|x] rest]; [exact Logic.I| |exact H].
    apply in_map_iff in H as (o & <- & Ho'). unfold options_of in Ho'.
    apply in_map_iff in Ho' as ([i c] & <- & Hic). cbn [and_then obind option_value fst].
    rewrite (enumerate_position _ Hshort _ _ Hic). apply (enumerate_elem 0) in Hic as (k & -> & Hk).
    apply list_elem_of_fmap. exists c. split; [reflexivity | exact (list_elem_of_lookup_2 _ _ _ Hk)].
  - unfold curses_choose_many, checkbox_menu.
    match goal with |- context [run_list ?n ?d true ?h ?st 0 rounds] =>
      pose proof (run_list_inside n d h (fun _ => True) st 0 rounds) as H end.
    match type of H with ?P -> _ => assert (Hk : P) end.
    { intros st key c _ Hc. unfold checkbox_key. destruct (key =? KEY_SPACE); [|exact Logic.I].
      destruct (py_index_ok _ _ Hc) as (o & -> & _). exact Logic.I. }
    specialize (H Hk Logic.I). clear Hk.
    assert (Hn : 0 <= 0 < Z.of_nat (length (options_of (many_choices many)))).
    { destruct (many_choices many); [congruence|]. cbn [options_of enumerate length]. simpl. lia. }
    specialize (H Hn). destruct (run_list _ _ _ _ _ _ _) as [|[[checked c]|x] rest]; [exact Logic.I| |exact H].
    cbn [and_then obind]. unfold options_of. rewrite filter_map, map_map. cbn [option_value].
    rewrite (chosen_values _ Hshort'). eauto.
Qed.

Lemma answers_are_offered_witness :
  "on" ∈ ["off"; "on"] /\
  match curses_choose_one {| one_label := ""; one_choices := Offered []; one_description := "";
      one_typed_prompt := "" |} [{| choice_value := PStr "a"; choice_label := "A" |}] None
      [{| pressed := KEY_DOWN; max_y := 24 |}; {| pressed := 10; max_y := 24 |}] with
  | Stopped (Ok v) _ => v ∈ [PStr "a"]
  | _ => True
  end.
Proof.
  split; [right; left|].
  apply (answers_are_offered {| one_label := ""; one_choices := Offered []; one_description := "";
      one_typed_prompt := "" |}
    {| many_label := ""; many_choices := [{| choice_value := PStr "a"; choice_label := "A" |}];
       many_description := "" |}
    [{| choice_value := PStr "a"; choice_label := "A" |}] None None
    [{| pressed := KEY_DOWN; max_y := 24 |}; {| pressed := 10; max_y := 24 |}]);
    solve [discriminate | unfold menu_limit; simpl; lia].
Defined.

(** Enter keeps what was inherited, as the welcome screen says: pressed first, it
    answers a switch with the inherited state, a choice with the first choice
    that equals the inherited value, a selection with exactly the choices that were
    selected, and a text with the inherited text. *)
Lemma enter_keeps_inherited (choices : list Choice) y rest :
  (length choices <= menu_limit)%nat ->
  (forall question i, curses_switch question (Some i) (enter_first y rest) =
     Stopped (Ok (inherited_value i)) rest) /\
  (forall question i c, List.find (fun c => py_eq (choice_value c) (inherited_value i)) choices = Some c ->
     curses_choose_one question choices (Some i) (enter_first y rest) = Stopped (Ok (choice_value c)) rest) /\
  (forall question i, many_choices question = choices ->
     curses_choose_many question (Some i) (enter_first y rest) =
     Stopped (Ok (map (fun pc => choice_value pc.2)
       (List.filter (fun pc => existsb (py_eq (choice_value pc.2)) (inherited_value i)) (enumerate choices)))) rest) /\
  (forall i, truthy (inherited_value i) = true ->
     text_input (Some i) true (enter_first y rest) = Stopped (Ok (inherited_value i)) rest).
Proof.
  intros Hshort. split; [|split; [|split]].
  - intros question [[] source]; reflexivity.
  - intros question [v source] c Hf. unfold curses_choose_one, positions_of. cbn [inherited_value inherited_source] in *.
    destruct (first_position (fun c => py_eq (choice_value c) v) choices c 0 Hf) as (k & others & Hk & Hfilter).
    assert (Hp : List.filter (fun pc : Z * Choice => existsb (py_eq (choice_value pc.2)) [v]) (enumerate choices) =
                 (Z.of_nat (0 + k), c) :: others).
    { rewrite <- Hfilter. apply filter_ext. intros [i d]. simpl. apply orb_false_r. }
    rewrite Hp. cbn [map fst]. pose proof (lookup_lt_Some _ _ _ Hk) as Hlt.
    assert (Hopt : options_of choices !! k =
      Some {| option_value := str_of_Z (Z.of_nat k); option_label := choice_label c |}).
    { unfold options_of. etransitivity; [apply list_lookup_fmap|].
      rewrite (enumerate_lookup 0 choices k c Hk : enumerate choices !! k = _). reflexivity. }
    erewrite radio_menu_enter.
    2: { unfold start_row. unfold options_of at 2. change (enumerate choices) with (enumerate_from 0 choices).
         rewrite start_on_position by lia. cbn [default]. apply py_index_lookup, Hopt. }
    cbn [and_then obind option_value]. rewrite (enumerate_position _ Hshort (Z.of_nat k) c); [reflexivity|].
    apply list_elem_of_In. apply (list_elem_of_lookup_2 _ k). exact (enumerate_lookup 0 choices k c Hk).
  - intros question [vs source] <-. unfold curses_choose_many, checkbox_menu, enter_first, positions_of.
    cbn [fmap option_fmap option_map inherited_value inherited_source run_list].
    change (checkbox_key ?o ?c 10 0) with (Ok (c, true)).
    change (10 =? KEY_UP) with false. change (10 =? KEY_DOWN) with false. cbn [and_then obind].
    unfold options_of. rewrite filter_map, map_map. cbn [option_value].
    assert (Hsame : List.filter (fun pc : Z * Choice => str_in (str_of_Z pc.1) (dedup (map (fun pc => str_of_Z pc.1)
        (List.filter (fun pc => existsb (py_eq (choice_value pc.2)) vs) (enumerate (many_choices question))))))
        (enumerate (many_choices question)) =
      List.filter (fun pc => existsb (py_eq (choice_value pc.2)) vs) (enumerate (many_choices question))).
    { apply filter_ext_in. intros pc Hpc.
      rewrite <- (position_in _ Hshort (fun pc => existsb (py_eq (choice_value pc.2)) vs) pc Hpc).
      apply eq_true_iff_eq. rewrite !str_in_spec. apply dedup_elem. }
    rewrite Hsame. rewrite (chosen_values _ Hshort). reflexivity.
  - intros [v source] Hv. unfold text_input, enter_first. cbn in *. unfold submit, new_entry, str_or.
    cbn. rewrite Hv. reflexivity.
Qed.

(** The row under the cursor is always on the screen: while the cursor moves
    inside the list, the part of the list that is drawn starts at a valid row,
    contains the cursor, and is as long as the window allows. *)
Theorem cursor_visible (cursor row_count max_y : Z) (has_description : bool) :
  0 <= cursor < row_count ->
  let visible := visible_rows max_y has_description in
  let first := scroll cursor visible true in
  0 <= first <= cursor /\ cursor < first + visible /\ 1 <= visible /\
  (1 < visible -> first_row has_description + visible < status_row max_y).
Proof. unfold visible_rows, scroll. lia. Qed.

Lemma cursor_visible_witness : 0 <= scroll 30 (visible_rows 24 true) true <= 30.
Proof. apply (cursor_visible 30 40 24 true). lia. Defined.

(** ** Typed text

    An own model of a line editor, on the codes of the characters: Escape (27) clears
    the line, Backspace (8, 127 or the terminal's 263) removes the last character, the
    printable ASCII characters (32 to 126) are appended, no other key does anything. *)

Definition after_key (codes : list Z) (key : Z) : list Z :=
  if key =? 27 then []
  else if bool_decide (key ∈ [8; 127; 263]) then List.removelast codes
  else if (32 <=? key) && (key <=? 126) then codes ++ [key]
  else codes.
Definition typed_codes (keys : list Z) : list Z := fold_left after_key keys [].

(** The text of ASCII codes. *)
Definition ascii_text (codes : list Z) : string :=
  String.string_of_list_ascii (map (fun code => Ascii.ascii_of_N (Z.to_N code)) codes).

(** What the field itself makes of the keys, without Enter. *)
Fixpoint typed_text (text : string) (keys : list Z) : string :=
  match keys with
  | [] => text
  | key :: keys' =>
      typed_text
        (if key =? KEY_ESCAPE then ""
         else if key_in key BACKSPACE_KEYS then without_last text
         else if is_printable key then text +:+ String (chr (Z.to_nat key)) ""
         else text) keys'
  end.

Lemma key_in_spec key keys : key_in key keys = true <-> key ∈ keys.
Proof.
  unfold key_in. rewrite existsb_exists. setoid_rewrite <- list_elem_of_In. split.
  - intros (k & Hk & ->%Z.eqb_eq). exact Hk.
  - intros Hk. exists key. rewrite Z.eqb_refl. auto.
Qed.

Lemma is_backspace key : key_in key BACKSPACE_KEYS = bool_decide (key ∈ [8; 127; 263]).
Proof.
  apply eq_true_iff_eq. rewrite key_in_spec, bool_decide_eq_true. unfold BACKSPACE_KEYS.
  rewrite !elem_of_cons, elem_of_nil. tauto.
Qed.

Lemma without_last_text codes : without_last (ascii_text codes) = ascii_text (List.removelast codes).
Proof.
  induction codes as [|c codes IH]; [reflexivity|]. destruct codes as [|d codes]; [reflexivity|].
  change (ascii_text (c :: d :: codes)) with (String (Ascii.ascii_of_N (Z.to_N c)) (ascii_text (d :: codes))).
  cbn [without_last List.removelast]. rewrite IH. reflexivity.
Qed.

Lemma ascii_text_snoc codes key :
  ascii_text codes +:+ String (chr (Z.to_nat key)) "" = ascii_text (codes ++ [key]).
Proof.
  assert (Hc : chr (Z.to_nat key) = Ascii.ascii_of_N (Z.to_N key)).
  { unfold chr. rewrite <- Z_nat_N. unfold Ascii.ascii_of_nat. reflexivity. }
  unfold ascii_text. rewrite map_app, Hc. induction codes as [|c codes IH]; [reflexivity|].
  exact (f_equal (String _) IH).
Qed.

Lemma typed_text_codes keys codes : typed_text (ascii_text codes) keys = ascii_text (fold_left after_key keys codes).
Proof.
  revert codes. induction keys as [|key keys IH]; intros codes; [reflexivity|].
  cbn [typed_text fold_left]. rewrite <- IH. f_equal. unfold after_key. rewrite is_backspace.
  unfold KEY_ESCAPE, is_printable. replace (key <? 127) with (key <=? 126) by (destruct (Z.leb_spec key 126), (Z.ltb_spec key 127); lia).
  destruct (key =? 27); [reflexivity|]. destruct (bool_decide _); [apply without_last_text|].
  destruct (_ && _); [apply ascii_text_snoc | reflexivity].
Qed.

Lemma text_loop_keys entry rounds r rest :
  Forall (fun r => key_in (pressed r) ENTER_KEYS = false) rounds ->
  exists error, text_loop entry (rounds ++ r :: rest) =
    text_loop {| entry_inherited := entry_inherited entry; entry_required := entry_required entry;
                 entry_typed := typed_text (entry_typed entry) (map pressed rounds);
                 entry_error := error |} (r :: rest).
Proof.
  revert entry; induction rounds as [|r0 rounds IH]; intros entry H.
  - exists (entry_error entry). destruct entry; reflexivity.
  - apply Forall_cons in H as [H0 H]. cbn [app text_loop]. unfold press at 1. rewrite H0.
    cbn [map typed_text]. destruct (pressed r0 =? KEY_ESCAPE);
      [|destruct (key_in (pressed r0) BACKSPACE_KEYS); [|destruct (is_printable (pressed r0))]];
      cbv iota; match goal with |- exists _, text_loop ?e _ = _ => exact (IH e H) end.
Qed.

(** C36: when Enter is pressed (10, 13 or the terminal's 343), a text field returns the
    text of exactly the keys typed before it, as the line editor above makes it of
    their codes, or the inherited text when that is empty; with neither, a required
    field goes on, and any other returns the empty text. *)
Theorem text_field_value (inherited : option (Inherited string)) (required : bool) rounds enter rest :
  Forall (fun r => pressed r ∉ [10; 13; 343]) rounds -> pressed enter ∈ [10; 13; 343] ->
  let typed := ascii_text (typed_codes (map pressed rounds)) in
  let value :=
    if bool_decide (typed = "") then match inherited with Some i => inherited_value i | None => "" end else typed in
  (value <> "" \/ required = false ->
   text_input inherited required (rounds ++ enter :: rest) = Stopped (Ok value) rest) /\
  (value = "" -> required = true -> text_input inherited required (rounds ++ [enter]) = Waiting).
Proof.
  intros H He typed value.
  assert (Hk : forall key, key_in key ENTER_KEYS = true <-> key ∈ [10; 13; 343]).
  { intros key. rewrite key_in_spec. unfold ENTER_KEYS. rewrite !elem_of_cons, elem_of_nil. tauto. }
  assert (Hr : Forall (fun r => key_in (pressed r) ENTER_KEYS = false) rounds).
  { eapply Forall_impl; [exact H|]. intros r Hn. apply not_true_iff_false. rewrite Hk. exact Hn. }
  assert (Ht : typed_text "" (map pressed rounds) = typed) by exact (typed_text_codes _ []).
  assert (Hv : str_or typed (match inherited with Some i => inherited_value i | None => "" end) = value).
  { unfold value. destruct typed; reflexivity. }
  assert (Hs : forall error tail, text_loop {| entry_inherited := inherited; entry_required := required;
      entry_typed := typed; entry_error := error |} (enter :: tail) =
    if negb (truthy value) && required then
      text_loop {| entry_inherited := inherited; entry_required := required; entry_typed := typed;
        entry_error := "This field is required." |} tail
    else Stopped (Ok value) tail).
  { intros error tail. cbn [text_loop]. unfold press. rewrite (proj2 (Hk _) He). unfold submit.
    cbn [entry_typed entry_inherited entry_required]. rewrite Hv. destruct (negb _ && _); reflexivity. }
  unfold text_input. split.
  - intros Hor. destruct (text_loop_keys (new_entry inherited required) rounds enter rest Hr) as (error & ->).
    cbn [entry_inherited entry_required entry_typed new_entry]. rewrite Ht, Hs.
    destruct (truthy value) eqn:Et; [reflexivity|]. destruct Hor as [Hne| ->]; [|reflexivity].
    destruct value; [congruence | discriminate].
  - intros Hn ->. destruct (text_loop_keys (new_entry inherited true) rounds enter [] Hr) as (error & ->).
    cbn [entry_inherited entry_required entry_typed new_entry]. rewrite Ht, Hs, Hn. reflexivity.
Qed.

Lemma text_field_value_witness :
  text_input None true [{| pressed := 104; max_y := 24 |}; {| pressed := 32; max_y := 24 |}; {| pressed := 105; max_y := 24 |};
    {| pressed := 122; max_y := 24 |}; {| pressed := 127; max_y := 24 |}; {| pressed := 13; max_y := 24 |}] =
    Stopped (Ok "h i") [].
Proof.
  apply (text_field_value None true [{| pressed := 104; max_y := 24 |}; {| pressed := 32; max_y := 24 |};
    {| pressed := 105; max_y := 24 |}; {| pressed := 122; max_y := 24 |}; {| pressed := 127; max_y := 24 |}]
    {| pressed := 13; max_y := 24 |} []).
  - repeat apply Forall_cons_2; try apply Forall_nil_2; apply (bool_decide_unpack _); vm_compute; exact I.
  - apply (bool_decide_unpack _). vm_compute. exact I.
  - left. discriminate.
Defined.
