(* ===== verification/Terminal.v ===== *)
(** * The terminal window ([curses])

    The operations of [curses] that the widgets use, and a terminal that performs
    them: the user's keys, one for each read, with the size that the window has up
    to that read. *)

From S2P Require Import Prelude PyStr Chars Effects Widgets.

Local Open Scope Z_scope.

(** ** Operations *)

(** [curses.color_pair(pair)], and [| curses.A_BOLD]. *)
Record attributes : Type := { color_pair : Z; bold : bool }.
Definition color (n : Z) : attributes := {| color_pair := n; bold := false |}.
Definition bold_color (n : Z) : attributes := {| color_pair := n; bold := true |}.

(** [addstr] and [addnstr]: without a position at the cursor, with a limit on the
    number of characters. *)
Record write : Type := {
  write_at : option (Z * Z); write_text : string; write_limit : option Z;
  write_attributes : option attributes }.

Inductive window_op : Type :=
| OpStartColor
| OpUseDefaultColors
| OpInitPair (pair foreground background : Z)
| OpCursSet (visibility : Z)
| OpErase
| OpGetmaxyx
| OpAttron (a : attributes)
| OpAttroff (a : attributes)
| OpWrite (w : write)
| OpRefresh
| OpGetch.

Definition window_ans (e : window_op) : Type :=
  match e with
  | OpWrite _ => outcome unit
  | OpGetmaxyx => Z * Z
  | OpGetch => Z
  | _ => unit
  end.

Definition window_sig : signature := Signature window_op window_ans.
Abbreviation window := (prog window_sig).

Definition erase : window unit := @trigger window_sig OpErase.
Definition refresh : window unit := @trigger window_sig OpRefresh.
Definition getmaxyx : window (Z * Z) := @trigger window_sig OpGetmaxyx.
Definition attron (a : attributes) : window unit := @trigger window_sig (OpAttron a).
Definition attroff (a : attributes) : window unit := @trigger window_sig (OpAttroff a).
Definition getch : window Z := @trigger window_sig OpGetch.
Definition put (w : write) : window unit :=
  let* written := @trigger window_sig (OpWrite w) in of_outcome written.
Definition addstr (y x : Z) (text : string) : window unit :=
  put {| write_at := Some (y, x); write_text := text; write_limit := None; write_attributes := None |}.
Definition addstr_here (text : string) : window unit :=
  put {| write_at := None; write_text := text; write_limit := None; write_attributes := None |}.
Definition addstr_with (y x : Z) (text : string) (a : attributes) : window unit :=
  put {| write_at := Some (y, x); write_text := text; write_limit := None; write_attributes := Some a |}.
Definition addnstr (y x : Z) (text : string) (n : Z) : window unit :=
  put {| write_at := Some (y, x); write_text := text; write_limit := Some n; write_attributes := None |}.
Definition addnstr_with (y x : Z) (text : string) (n : Z) (a : attributes) : window unit :=
  put {| write_at := Some (y, x); write_text := text; write_limit := Some n; write_attributes := Some a |}.

(** ** A terminal *)

Record frame : Type := { frame_round : round; max_x : Z }.

(** The size of the window: lines and columns. *)
Definition frame_size (f : frame) : Z * Z := (max_y (frame_round f), max_x f).

Record terminal : Type := {
  frames : list frame;
  position : Z * Z;
  on_screen : list write;
  (** What was on the screen at each refresh. *)
  screens_seen : list (list write);
}.

Definition new_terminal (l : list frame) : terminal :=
  {| frames := l; position := (0, 0); on_screen := []; screens_seen := [] |}.

(** The characters that a write puts on the screen. *)
Definition cut (w : write) : string :=
  match write_limit w with Some n => slice_to n (write_text w) | None => write_text w end.

Definition starts_in_window (f : frame) (at_ : Z * Z) : bool :=
  (0 <=? at_.1) && (at_.1 <? max_y (frame_round f)) && (0 <=? at_.2) && (at_.2 <? max_x f).

(** The text is plain and ends before the last column. *)
Definition stays_in_row (f : frame) (at_ : Z * Z) (w : write) : bool :=
  (0 <=? default 0 (write_limit w)) && plain (cut w) && (at_.2 + char_len (cut w) <? max_x f).

Abbreviation anywhere := (fun _ : Z * Z => True).

Section Curses.
(** What becomes of a text that does not stay in its row: [curses] wraps it, and
    fails at the end of the window; every theorem holds whatever it does. *)
Context (spill : Z * Z -> Z * Z -> write -> outcome (Z * Z)).

(** "Writing outside the window raises [curses.error]". *)
Definition write_ends (f : frame) (at_ : Z * Z) (w : write) : outcome (Z * Z) :=
  if negb (starts_in_window f at_) then Err (CursesError "addwstr() returned ERR")
  else if stays_in_row f at_ w then Ok (at_.1, at_.2 + char_len (cut w))
  else spill (frame_size f) at_ w.

(** An operation of the terminal, while there are keys to come. *)
Definition terminal_step (st : terminal) (e : window_op) : option (terminal * window_ans e) :=
  match frames st with
  | [] => None
  | f :: rest =>
      match e return option (terminal * window_ans e) with
      | OpGetmaxyx => Some (st, frame_size f)
      | OpErase =>
          Some ({| frames := frames st; position := (0, 0); on_screen := []; screens_seen := screens_seen st |}, tt)
      | OpWrite w =>
          let at_ := default (position st) (write_at w) in
          let drawn := {| write_at := Some at_; write_text := cut w; write_limit := None;
                          write_attributes := write_attributes w |} in
          Some (match write_ends f at_ w with
                | Ok end_ => ({| frames := frames st; position := end_; on_screen := on_screen st ++ [drawn];
                                 screens_seen := screens_seen st |}, Ok tt)
                | Err x => (st, Err x)
                end)
      | OpRefresh =>
          Some ({| frames := frames st; position := position st; on_screen := on_screen st;
                   screens_seen := screens_seen st ++ [on_screen st] |}, tt)
      | OpGetch =>
          Some ({| frames := rest; position := position st; on_screen := on_screen st; screens_seen := screens_seen st |},
                pressed (frame_round f))
      | OpStartColor | OpUseDefaultColors | OpInitPair _ _ _ | OpCursSet _ | OpAttron _ | OpAttroff _ =>
          Some (st, tt)
      end
  end.

(** A program on the terminal, until it ends or waits for a key that never comes. *)
Fixpoint play {A} (p : window A) (st : terminal) : terminal * option (outcome A) :=
  match p with
  | Ret a => (st, Some (Ok a))
  | Raise x => (st, Some (Err x))
  | Vis e k =>
      match terminal_step st e with
      | Some (st', r) => play (k r) st'
      | None => (st, None)
      end
  end.

(** What of it a widget of [Widgets.v] has. *)
Definition widget_of {A} (played : terminal * option (outcome A)) : widget A :=
  match played.2 with
  | Some o => Stopped o (map frame_round (frames played.1))
  | None => Waiting
  end.

Definition and_play {A B} (played : terminal * option (outcome A)) (f : A -> terminal -> terminal * option (outcome B))
    : terminal * option (outcome B) :=
  match played with
  | (st, Some (Ok a)) => f a st
  | (st, Some (Err x)) => (st, Some (Err x))
  | (st, None) => (st, None)
  end.

Lemma play_bind {A B} (p : window A) (f : A -> window B) st :
  play (bind p f) st = and_play (play p st) (fun a st' => play (f a) st').
Proof.
  revert st. induction p as [a|x|e k IH]; intros st; cbn [bind play]; [reflexivity | reflexivity|].
  destruct (terminal_step st e) as [[st' r]|]; [apply IH | reflexivity].
Qed.

(** ** Programs that only draw

    [draws f P p v Q]: in the window [f], at a position with [P], [p] returns [v],
    at a position with [Q], and reads no key. *)
Definition draws (f : frame) (P : Z * Z -> Prop) {A} (p : window A) (v : A) (Q : Z * Z -> Prop) : Prop :=
  forall st, head (frames st) = Some f -> P (position st) ->
  exists st', frames st' = frames st /\ Q (position st') /\ play p st = (st', Some (Ok v)).

Lemma draws_ret f P {A} (a : A) : draws f P (Ret a) a P.
Proof. intros st _ HP. exists st. auto. Qed.

Lemma draws_bind f P Q R {A B} (p : window A) a (g : A -> window B) b :
  draws f P p a Q -> draws f Q (g a) b R -> draws f P (bind p g) b R.
Proof.
  intros Hp Hg st Hf HP. destruct (Hp st Hf HP) as (st1 & E1 & H1 & Hst1). rewrite <- E1 in Hf.
  destruct (Hg st1 Hf H1) as (st2 & E2 & H2 & Hst2). exists st2.
  rewrite play_bind, Hst1. split; [congruence|]. auto.
Qed.

Lemma draws_weaken f (P P' Q Q' : Z * Z -> Prop) {A} (p : window A) a :
  draws f P p a Q -> (forall x, P' x -> P x) -> (forall x, Q x -> Q' x) -> draws f P' p a Q'.
Proof.
  intros Hp HP HQ st Hf Hst. destruct (Hp st Hf (HP _ Hst)) as (st' & E & H & Hst'). exists st'. auto.
Qed.

Lemma draws_for_each f {A} (g : A -> window unit) l :
  Forall (fun a => draws f anywhere (g a) tt anywhere) l -> draws f anywhere (for_each g l) tt anywhere.
Proof.
  induction 1 as [|a l Ha _ IH]; [apply draws_ret|]. exact (draws_bind _ _ _ _ _ _ _ _ Ha IH).
Qed.

Lemma draws_when f b p : (b = true -> draws f anywhere p tt anywhere) -> draws f anywhere (when b p) tt anywhere.
Proof. intros H. destruct b; [apply H; reflexivity | apply draws_ret]. Qed.

Lemma draws_put f (P : Z * Z -> Prop) w :
  (forall at_, P at_ -> starts_in_window f (default at_ (write_at w)) = true /\
                        stays_in_row f (default at_ (write_at w)) w = true) ->
  draws f P (put w) tt (fun end_ => exists at_, P at_ /\
    end_ = ((default at_ (write_at w)).1, (default at_ (write_at w)).2 + char_len (cut w))).
Proof.
  intros H st Hf HP. destruct (H _ HP) as [H1 H2]. unfold put, trigger. cbn [bind play].
  unfold terminal_step. destruct (frames st) as [|f' rest] eqn:Ef; [discriminate|]. injection Hf as ->.
  unfold write_ends. rewrite H1, H2. cbn [negb]. eexists. split; [|split; [|reflexivity]]; [reflexivity|].
  exists (position st). auto.
Qed.

(** *** The operations *)

Ltac draws_step :=
  intros st Hf HP; cbn; unfold terminal_step; destruct (frames st) as [|f' rest] eqn:Ef; [discriminate|];
  injection Hf as ->; eexists; split; [|split; [|reflexivity]]; [try exact Ef; reflexivity | try exact HP; exact I].

Lemma draws_getmaxyx f P : draws f P getmaxyx (max_y (frame_round f), max_x f) P.
Proof. draws_step. Qed.
Lemma draws_attron f P a : draws f P (attron a) tt P.
Proof. draws_step. Qed.
Lemma draws_attroff f P a : draws f P (attroff a) tt P.
Proof. draws_step. Qed.
Lemma draws_refresh f P : draws f P refresh tt P.
Proof. draws_step. Qed.
Lemma draws_erase f P : draws f P erase tt anywhere.
Proof. draws_step. Qed.

(** A write at a position of the window ends in its row. *)
Lemma draws_write f P y x text limit a (last : Z) :
  0 <= y < max_y (frame_round f) -> 0 <= x < max_x f -> plain text = true -> 0 <= default 0 limit ->
  char_len (match limit with Some n => slice_to n text | None => text end) <= last - x -> last < max_x f ->
  draws f P (put {| write_at := Some (y, x); write_text := text; write_limit := limit; write_attributes := a |}) tt
    (fun end_ => end_.1 = y /\ x <= end_.2 <= last).
Proof.
  intros Hy Hx Hp Hl Hlen Hlast.
  assert (Hcut : plain (match limit with Some n => slice_to n text | None => text end) = true)
    by (destruct limit; auto with plain).
  eapply draws_weaken; [apply draws_put with (P := P) | auto |].
  - intros at_ _. unfold starts_in_window, stays_in_row. change (cut _) with (match limit with Some n => slice_to n text | None => text end).
    rewrite Hcut. cbn [write_at write_limit default from_option id fst snd] in *. lia.
  - intros end_ (at_ & _ & ->). change (cut _) with (match limit with Some n => slice_to n text | None => text end).
    cbn [write_at default from_option id fst snd].
    pose proof (char_len_nonneg (match limit with Some n => slice_to n text | None => text end)). lia.
Qed.

Lemma draws_write_here f y x text (last last' : Z) :
  0 <= y < max_y (frame_round f) -> 0 <= x -> plain text = true ->
  last + char_len text <= last' -> last' < max_x f ->
  draws f (fun at_ => at_.1 = y /\ x <= at_.2 <= last) (addstr_here text) tt
    (fun end_ => end_.1 = y /\ x <= end_.2 <= last').
Proof.
  intros Hy Hx Hp Hlen Hlast. pose proof (char_len_nonneg text).
  eapply draws_weaken; [apply (draws_put f (fun at_ => at_.1 = y /\ x <= at_.2 <= last)) | auto |].
  - intros at_ Hat. cbn beta in Hat. unfold starts_in_window, stays_in_row. change (cut _) with text. rewrite Hp.
    cbn [write_at write_limit default from_option id]. lia.
  - intros end_ (at_ & Hat & ->). change (cut _) with text. cbn [write_at default from_option id fst snd]. lia.
Qed.

(** *** The same, when the position does not matter *)
Section Quiet.
Context (f : frame) (y x : Z).
Context (Hy : 0 <= y < max_y (frame_round f)) (Hx : 0 <= x < max_x f).

Lemma draws_addstr text :
  plain text = true -> x + char_len text < max_x f -> draws f anywhere (addstr y x text) tt anywhere.
Proof.
  intros Hp Hl. eapply draws_weaken; [apply (draws_write f anywhere y x text None None (x + char_len text)) |..]; auto;
    cbn; lia.
Qed.

Lemma draws_addstr_with text a :
  plain text = true -> x + char_len text < max_x f -> draws f anywhere (addstr_with y x text a) tt anywhere.
Proof.
  intros Hp Hl. eapply draws_weaken; [apply (draws_write f anywhere y x text None (Some a) (x + char_len text)) |..]; auto;
    cbn; lia.
Qed.

Lemma draws_addnstr text n :
  plain text = true -> 0 <= n -> x + n < max_x f -> draws f anywhere (addnstr y x text n) tt anywhere.
Proof.
  intros Hp Hn Hl. eapply draws_weaken; [apply (draws_write f anywhere y x text (Some n) None (x + n)) |..]; auto;
    cbn; pose proof (char_len_slice_to n text Hn); lia.
Qed.

Lemma draws_addnstr_with text n a :
  plain text = true -> 0 <= n -> x + n < max_x f -> draws f anywhere (addnstr_with y x text n a) tt anywhere.
Proof.
  intros Hp Hn Hl. eapply draws_weaken; [apply (draws_write f anywhere y x text (Some n) (Some a) (x + n)) |..]; auto;
    cbn; pose proof (char_len_slice_to n text Hn); lia.
Qed.
End Quiet.

(** *** Reading a key *)

Lemma draws_play {A} f rest (p : window A) v Q st :
  draws f anywhere p v Q -> frames st = f :: rest ->
  exists st', frames st' = f :: rest /\ play p st = (st', Some (Ok v)).
Proof.
  intros Hp Hf. destruct (Hp st) as (st1 & E1 & _ & Hst1); [rewrite Hf; reflexivity | exact I|].
  exists st1. split; [congruence | exact Hst1].
Qed.

Definition key_read (st : terminal) : terminal :=
  {| frames := tail (frames st); position := position st; on_screen := on_screen st; screens_seen := screens_seen st |}.

Lemma play_getch {B} f rest (g : Z -> window B) st :
  frames st = f :: rest -> play (bind getch g) st = play (g (pressed (frame_round f))) (key_read st).
Proof. intros Hf. unfold getch, trigger, key_read. cbn [bind play]. unfold terminal_step. rewrite Hf. reflexivity. Qed.

(** Without keys to come, nothing happens. *)
Lemma play_waits {A} e (k : window_ans e -> window A) st :
  frames st = [] -> play (Vis (E := window_sig) e k) st = (st, None).
Proof. intros H. cbn. unfold terminal_step. rewrite H. reflexivity. Qed.

Lemma play_getch_waits {B} (g : Z -> window B) st : frames st = [] -> play (bind getch g) st = (st, None).
Proof. apply (play_waits OpGetch g). Qed.

(** Keys are only used up. *)
Lemma play_suffix {A} (p : window A) st : frames (play p st).1 `suffix_of` frames st.
Proof.
  revert st. induction p as [a|x|e k IH]; intros st; cbn [play]; [reflexivity | reflexivity|].
  destruct (terminal_step st e) as [[st' r]|] eqn:E; [|reflexivity].
  etransitivity; [apply IH|]. unfold terminal_step in E. destruct (frames st) as [|f rest] eqn:Ef; [discriminate|].
  destruct e; try (injection E as <- <-; cbn; rewrite ?Ef; reflexivity).
  - destruct (write_ends f _ w); injection E as <- <-; cbn; rewrite ?Ef; reflexivity.
  - injection E as <- <-. exists [f]. reflexivity.
Qed.

Lemma widget_of_outcome {A B} (p : window A) (g : A -> window B) (h : A -> outcome B) st :
  (forall a, g a = of_outcome (h a)) -> widget_of (play (bind p g) st) = and_then (widget_of (play p st)) h.
Proof.
  intros Hg. rewrite play_bind. unfold widget_of. destruct (play p st) as [st' [[a|x]|]]; cbn; try reflexivity.
  rewrite Hg. destruct (h a); reflexivity.
Qed.
End Curses.
