(* ===== verification/Screens.v ===== *)
(** * The screens ([tui/widgets.py], [tui/curses_frontend.py])

    The widgets as they are written: loops that draw the window and read a key.
    What they return is described by [Widgets.v], whose texts and key handlers they
    share; [ScreenFacts.v] shows that the two agree.  A loop takes the number of
    times it may read a key, and ends in [OutOfFuel] after as many. *)

From S2P Require Import Prelude PyStr Chars PyVal Effects Questions Models Widgets Terminal.

Local Open Scope Z_scope.

(** ** Layout *)

Definition BORDER_PAD : Z := 2.
Definition TITLE_ROW : Z := 1.

Definition init_colors : window unit :=
  let init_pair n foreground background := @trigger window_sig (OpInitPair n foreground background) in
  @trigger window_sig OpStartColor ;;
  @trigger window_sig OpUseDefaultColors ;;
  init_pair 1 6 (-1) ;;
  init_pair 2 2 (-1) ;;
  init_pair 3 3 (-1) ;;
  init_pair 4 7 (-1) ;;
  init_pair 5 1 (-1) ;;
  init_pair 6 0 6.

Definition draw_title (title : string) : window unit :=
  let* (_, max_x) := getmaxyx in
  attron (bold_color 1) ;;
  let centered := center title (max_x - BORDER_PAD * 2) in
  addstr TITLE_ROW BORDER_PAD (slice_to (max_x - BORDER_PAD * 2 - 1) centered) ;;
  attroff (bold_color 1) ;;
  addstr (TITLE_ROW + 1) BORDER_PAD (times "─" (max_x - BORDER_PAD * 2 - 1)).

Definition draw_help (help_text : string) : window unit :=
  let* (max_y, max_x) := getmaxyx in
  let row := max_y - HELP_ROW_OFFSET in
  attron (color 3) ;;
  addstr row BORDER_PAD (slice_to (max_x - BORDER_PAD * 2 - 1) help_text) ;;
  attroff (color 3).

Definition row_attributes (style : RowStyle) : attributes :=
  match style with PLAIN => color 4 | MARKED => color 2 | HEADING => bold_color 1 end.

(** ** Lists *)

(** [range(a, b)] *)
Definition py_range (a b : Z) : list Z := map (fun i => a + Z.of_nat i) (seq 0 (Z.to_nat (b - a))).

Definition draw_list (title description help_text : string) (row_count cursor : Z)
    (draw_row : Z -> bool -> outcome ListRow) (status : string) (show_cursor : bool) : window Z :=
  erase ;;
  draw_title title ;;
  let* (max_y, max_x) := getmaxyx in
  let width := max_x - BORDER_PAD * 2 - 1 in
  when (truthy description)
    (addnstr_with (CONTENT_START - 1) BORDER_PAD description width (color 4)) ;;
  let first := first_row (truthy description) in
  let visible := visible_rows max_y (truthy description) in
  let top := scroll cursor visible show_cursor in
  for_each (fun '(offset, index) =>
    let has_cursor := show_cursor && (index =? cursor) in
    let* row := of_outcome (draw_row index has_cursor) in
    let shown_as := if has_cursor then bold_color 6 else row_attributes (row_style row) in
    addnstr_with (first + offset) BORDER_PAD (ljust (row_text row) width) width shown_as)
    (enumerate (py_range top (Z.min row_count (top + visible)))) ;;
  let indicator_column := max_x - BORDER_PAD - 3 in
  when (0 <? top) (addstr_with (first - 1) indicator_column "▲" (color 3)) ;;
  when (top + visible <? row_count) (addstr_with (first + visible) indicator_column "▼" (color 3)) ;;
  when (truthy status) (addnstr_with (status_row max_y) BORDER_PAD status width (bold_color 5)) ;;
  draw_help help_text ;;
  refresh ;;
  Ret visible.

Section RunList.
Context {S : Type} (title description help_text : string) (row_count : Z) (show_cursor : bool)
  (draw_row : S -> Z -> bool -> outcome ListRow) (status : S -> string)
  (handle_key : S -> Z -> Z -> outcome (S * bool)).

Fixpoint show_list (fuel : nat) (st : S) (cursor : Z) : window (S * Z) :=
  match fuel with
  | O => Raise OutOfFuel
  | Datatypes.S fuel' =>
      let* visible :=
        draw_list title description help_text row_count cursor (draw_row st) (status st) show_cursor in
      let* key := getch in
      let last := if show_cursor then row_count - 1 else Z.max 0 (row_count - visible) in
      if key =? KEY_UP then show_list fuel' st (Z.max (cursor - 1) 0)
      else if key =? KEY_DOWN then show_list fuel' st (Z.min (cursor + 1) last)
      else
        let* (st', accepted) := of_outcome (handle_key st key cursor) in
        if accepted then Ret (st', cursor)
        else if key =? KEY_Q then Raise (KeyboardInterrupt "user quit")
        else show_list fuel' st' cursor
  end.
End RunList.

Definition show_radio_menu (fuel : nat) (title : string) (options : list MenuOption)
    (inherited : option (Inherited string)) (description : string) : window string :=
  let* (_, chosen) :=
    show_list title description "[↑↓] Navigate  [Enter] Select  [q] Quit" (Z.of_nat (length options)) true
      (fun _ index has_cursor =>
         obind (fun option => Ok (radio_row inherited option has_cursor)) (py_index options index))
      (fun _ => "") (fun _ key _ => Ok (tt, key_in key ENTER_KEYS)) fuel tt (start_row options inherited) in
  let* option := of_outcome (py_index options chosen) in
  Ret (option_value option).

Definition show_checkbox_menu (fuel : nat) (title : string) (options : list MenuOption)
    (inherited : option (Inherited (list string))) (description : string) : window (list string) :=
  let checked := match inherited with Some i => dedup (inherited_value i) | None => [] end in
  let* (checked, _) :=
    show_list title description "[↑↓] Navigate  [Space] Toggle  [Enter] Confirm  [q] Quit"
      (Z.of_nat (length options)) true
      (fun checked index has_cursor =>
         obind (fun option => Ok (checkbox_row inherited checked option has_cursor)) (py_index options index))
      (fun _ => "") (checkbox_key options) fuel checked 0 in
  Ret (map option_value (List.filter (fun option => str_in (option_value option) checked) options)).

Definition show_confirm_screen (fuel : nat) (title : string) (items : list (string * string * string))
    : window bool :=
  let rows := summary_rows items in
  let* (confirmed, _) :=
    show_list title "" "[↑↓] Scroll  [y] Confirm  [n] Cancel" (Z.of_nat (length rows)) false
      (fun _ index _ => py_index rows index) (fun _ => "Proceed with installation? [y/n]")
      confirm_key fuel false 0 in
  Ret confirmed.

Definition show_toggle_menu (fuel : nat) (title : string) (toggles : list Toggle) (description : string)
    : window (dict string bool) :=
  let states := dict_update [] (map (fun t => (toggle_key t,
    match toggle_inherited t with Some i => Some (inherited_value i) | None => None end)) toggles) in
  let* ((states, _), _) :=
    show_list title description "[↑↓] Navigate  [Space/Enter] Toggle  [Tab] Continue  [q] Quit"
      (Z.of_nat (length toggles)) true
      (fun '(states, _) index _ =>
         obind (fun toggle => Ok (toggle_row toggle (default None (dict_get states (toggle_key toggle)))))
           (py_index toggles index))
      (fun '(_, message) => message) (toggle_menu_key toggles) fuel (states, "") 0 in
  Ret (dict_update [] (map (fun t => (toggle_key t,
    match dict_get states (toggle_key t) with Some (Some true) => true | _ => false end)) toggles)).

(** ** Text *)

Definition draw_text_entry (title prompt : string) (entry : TextEntry) (masked : bool) : window unit :=
  erase ;;
  draw_title title ;;
  let* (_, max_x) := getmaxyx in
  let line_width := max_x - BORDER_PAD * 2 - 1 in
  attron (color 4) ;;
  addstr CONTENT_START BORDER_PAD prompt ;;
  attroff (color 4) ;;
  let field_row := CONTENT_START + 2 in
  let field_width := max_x - BORDER_PAD * 2 - 4 in
  addstr (field_row - 1) BORDER_PAD ("┌" +:+ times "─" (field_width + 2) +:+ "┐") ;;
  addstr field_row BORDER_PAD "│ " ;;
  attron (color 1) ;;
  addstr_here (ljust (visible_text entry masked field_width) field_width) ;;
  attroff (color 1) ;;
  addstr_here " │" ;;
  addstr (field_row + 1) BORDER_PAD ("└" +:+ times "─" (field_width + 2) +:+ "┘") ;;
  match entry_inherited entry with
  | Some inherited =>
      let hint := inherited_hint inherited (entry_typed entry) masked in
      attron (color 3) ;; addnstr (field_row + 3) BORDER_PAD hint line_width ;; attroff (color 3)
  | None => Ret tt
  end ;;
  when (truthy (entry_error entry))
    (attron (color 5) ;; addnstr (field_row + 4) BORDER_PAD (entry_error entry) line_width ;; attroff (color 5)) ;;
  draw_help "[Enter] Confirm  [Esc] Clear  [Ctrl+C] Quit" ;;
  refresh.

Fixpoint show_text_loop (fuel : nat) (title prompt : string) (entry : TextEntry) (masked : bool)
    : window string :=
  match fuel with
  | O => Raise OutOfFuel
  | S fuel' =>
      draw_text_entry title prompt entry masked ;;
      let* key := getch in
      match press entry key with
      | (_, Some submitted) => Ret submitted
      | (entry', None) => show_text_loop fuel' title prompt entry' masked
      end
  end.

Definition show_text_input (fuel : nat) (title prompt : string) (inherited : option (Inherited string))
    (required masked : bool) : window string :=
  show_text_loop fuel title prompt (new_entry inherited required) masked.

Definition CONFIRM_PROMPT : string := "Confirm password:".

(** The screen after two passwords that differ. *)
Definition draw_mismatch (title : string) : window unit :=
  erase ;;
  draw_title title ;;
  attron (bold_color 5) ;;
  addstr (CONTENT_START + 2) BORDER_PAD "Passwords do not match. Try again." ;;
  attroff (bold_color 5) ;;
  draw_help "Press any key to retry..." ;;
  refresh.

Fixpoint show_password_input_with_confirm (fuel : nat) (title prompt : string) : window string :=
  match fuel with
  | O => Raise OutOfFuel
  | S fuel' =>
      let* password := show_text_input fuel title prompt None true true in
      let* confirm := show_text_input fuel title CONFIRM_PROMPT None true true in
      if String.eqb password confirm then Ret password
      else
        draw_mismatch title ;;
        let* _ := getch in
        show_password_input_with_confirm fuel' title prompt
  end.

(** ** Messages *)

(** The lines that fit above the help line. *)
Fixpoint draw_lines (max_y max_x row : Z) (lines : list string) : window unit :=
  match lines with
  | [] => Ret tt
  | line :: lines' =>
      if max_y - HELP_ROW_OFFSET <=? row then Ret tt
      else
        attron (color 4) ;;
        addnstr row BORDER_PAD line (max_x - BORDER_PAD * 2 - 1) ;;
        attroff (color 4) ;;
        draw_lines max_y max_x (row + 1) lines'
  end.

Definition draw_info (title message : string) : window unit :=
  erase ;;
  draw_title title ;;
  let* (max_y, max_x) := getmaxyx in
  draw_lines max_y max_x CONTENT_START (split_on nl message) ;;
  draw_help "Press any key to continue..." ;;
  refresh.

Definition show_info_screen (title message : string) : window unit :=
  draw_info title message ;; let* _ := getch in Ret tt.

(** What [_setup] does before the first question. *)
Definition start_screen (title message : string) : window unit :=
  init_colors ;;
  @trigger window_sig (OpCursSet 0) ;;
  show_info_screen title message.

(** ** [CursesFrontend] *)

Section CursesFrontend.
Context (fuel : nat).

Definition show_switch (step : string) (question : Switch) (inherited : option (Inherited bool)) : window bool :=
  let options := [{| option_value := "off"; option_label := switch_off_label question |};
                  {| option_value := "on"; option_label := switch_on_label question |}] in
  let shown := (fun i : Inherited bool => {| inherited_value := if inherited_value i then "on" else "off";
                            inherited_source := inherited_source i |}) <$> inherited in
  let* chosen := show_radio_menu fuel (title step (switch_label question)) options shown
    (switch_description question) in
  Ret (String.eqb chosen "on").

Definition show_choose_one (step : string) (question : ChooseOne) (choices : list Choice)
    (inherited : option (Inherited pyval)) : window pyval :=
  let shown := match inherited with
    | Some i => match positions_of choices [inherited_value i] with
                | position :: _ => Some {| inherited_value := position; inherited_source := inherited_source i |}
                | [] => None
                end
    | None => None
    end in
  let* chosen := show_radio_menu fuel (title step (one_label question)) (options_of choices) shown
    (one_description question) in
  of_outcome (chosen_value choices chosen).

Definition show_choose_many (step : string) (question : ChooseMany)
    (inherited : option (Inherited (list pyval))) : window (list pyval) :=
  let choices := many_choices question in
  let shown := (fun i : Inherited (list pyval) => {| inherited_value := positions_of choices (inherited_value i);
                            inherited_source := inherited_source i |}) <$> inherited in
  let* chosen := show_checkbox_menu fuel (title step (many_label question)) (options_of choices) shown
    (many_description question) in
  of_outcome (omapM (chosen_value choices) chosen).

Definition show_enter_text (step : string) (question : EnterText) (inherited : option (Inherited string))
    : window string :=
  show_text_input fuel (title step (text_label question)) (text_prompt question) inherited true false.

Definition show_keep_secret (step : string) (question : EnterSecret) (source : string) : window bool :=
  let description := secret_label question +:+ ": inherited from " +:+ source +:+ "." in
  let* kept := show_radio_menu fuel (title step (secret_label question)) SECRET_OPTIONS None description in
  Ret (String.eqb kept KEEP_SECRET).

Definition show_enter_secret (step : string) (question : EnterSecret) : window string :=
  if secret_confirm question
  then show_password_input_with_confirm fuel (title step (secret_label question)) (secret_prompt question)
  else show_text_input fuel (title step (secret_label question)) (secret_prompt question) None true true.

Definition show_review (rows : list SummaryRow) : window bool :=
  show_confirm_screen fuel "Configuration Summary"
    (map (fun row => (row_step row +:+ "." +:+ row_label row, row_value row, row_source row)) rows).

Definition show_frontend (e : frontend_op) : window (frontend_answer e) :=
  match e return window (frontend_answer e) with
  | AskSwitch step question inherited => show_switch step question inherited
  | AskOne step question choices inherited => show_choose_one step question choices inherited
  | AskMany step question inherited => show_choose_many step question inherited
  | AskText step question inherited => show_enter_text step question inherited
  | KeepSecret step question source => show_keep_secret step question source
  | AskSecret step question => show_enter_secret step question
  | Review rows => show_review rows
  end.
End CursesFrontend.
