(* ===== verification/ScreenFacts.v ===== *)
(** * What the screens do

    The drawing loops of [Screens.v] return what the widgets of [Widgets.v] return,
    in every window that is large enough, and draw only inside it. *)

From S2P Require Import Prelude PyStr Chars PyVal Effects Questions Models Widgets WidgetFacts Terminal Screens.

Local Open Scope Z_scope.

(** A window in which every screen fits, but for long prompts. *)
Definition roomy (f : frame) : Prop := 11 <= max_y (frame_round f) /\ 38 <= max_x f.

Create HintDb drawing.

Ltac layout :=
  unfold roomy, status_row, BORDER_PAD, TITLE_ROW, CONTENT_START, HELP_ROW_OFFSET in *.
Ltac fits :=
  layout;
  lazymatch goal with
  | |- plain _ = true => auto with plain
  | |- context [char_len (String ?c ?s)] =>
      let n := eval vm_compute in (char_len (String c s)) in change (char_len (String c s)) with n; lia
  | |- context [char_len (slice_to ?n ?s)] => pose proof (char_len_slice_to n s); lia
  | |- context [char_len (times ?s ?n)] => pose proof (char_len_times s n eq_refl); lia
  | |- _ => lia
  end.

(** One operation after the other. *)
Ltac draw_one :=
  lazymatch goal with
  | |- draws _ _ _ (bind _ _) _ _ => eapply draws_bind; [draw_one | cbv beta iota zeta; draw_one]
  | |- draws _ _ _ getmaxyx _ _ => apply draws_getmaxyx
  | |- draws _ _ _ (attron _) _ _ => apply draws_attron
  | |- draws _ _ _ (attroff _) _ _ => apply draws_attroff
  | |- draws _ _ _ refresh _ _ => apply draws_refresh
  | |- draws _ _ _ erase _ _ => apply draws_erase
  | |- draws _ _ _ (Ret _) _ _ => apply draws_ret
  | |- draws _ _ _ (addstr _ _ _) _ _ => apply draws_addstr; fits
  | |- draws _ _ _ (addstr_with _ _ _ _) _ _ => apply draws_addstr_with; fits
  | |- draws _ _ _ (addnstr _ _ _ _) _ _ => apply draws_addnstr; fits
  | |- draws _ _ _ (addnstr_with _ _ _ _ _) _ _ => apply draws_addnstr_with; fits
  | |- draws _ _ _ (when _ _) _ _ => apply draws_when; intros ?; draw_one
  | |- draws _ _ _ (for_each _ _) _ _ => apply draws_for_each
  | |- _ => solve [eauto with drawing]
  end.

Section Drawing.
Context (spill : Z * Z -> Z * Z -> write -> outcome (Z * Z)) (f : frame) (Hf : roomy f).

Abbreviation quiet p := (draws spill f anywhere p tt anywhere).

Lemma draws_title text : plain text = true -> quiet (draw_title text).
Proof. intros Hp. unfold draw_title. destruct Hf. draw_one. Qed.

Lemma draws_help text : plain text = true -> quiet (draw_help text).
Proof. intros Hp. unfold draw_help. destruct Hf. draw_one. Qed.


#[local] Hint Resolve draws_title draws_help : drawing.

Lemma range_elem a b offset index :
  (offset, index) ∈ enumerate (py_range a b) -> index = a + offset /\ 0 <= offset < b - a.
Proof.
  intros H. apply list_elem_of_In, (enumerate_elem 0) in H as (k & -> & Hk).
  unfold py_range in Hk. rewrite list_lookup_fmap in Hk.
  destruct (seq 0 (Z.to_nat (b - a)) !! k) as [i|] eqn:Ei; [|discriminate].
  apply lookup_seq in Ei as [-> Hlt]. injection Hk as <-. lia.
Qed.

Lemma draws_list text description help_text row_count cursor draw_row status show_cursor :
  plain text = true -> plain description = true -> plain help_text = true -> plain status = true ->
  (show_cursor = false -> 0 <= cursor) ->
  (forall index has_cursor, 0 <= index < row_count ->
     exists row, draw_row index has_cursor = Ok row /\ plain (row_text row) = true) ->
  draws spill f anywhere (draw_list text description help_text row_count cursor draw_row status show_cursor)
    (visible_rows (max_y (frame_round f)) (truthy description)) anywhere.
Proof.
  intros Hp Hd Hh Hs Hc Hrow. unfold draw_list. pose proof Hf as [Hmy Hmx].
  set (visible := visible_rows _ _).
  assert (Hvisible : 1 <= visible /\ first_row (truthy description) + visible <= max_y (frame_round f) - 4).
  { unfold visible, visible_rows, first_row. layout. destruct (truthy description); lia. }
  assert (Hfirst : 4 <= first_row (truthy description)) by (unfold first_row; layout; destruct (truthy _); lia).
  draw_one.
  apply Forall_forall. intros [offset index] [-> Hoffset]%range_elem. cbv beta iota zeta. fold visible in Hoffset |- *.
  assert (Htop : 0 <= scroll cursor visible show_cursor).
  { unfold scroll. destruct show_cursor; [lia | apply Hc; reflexivity]. }
  destruct (Hrow (scroll cursor visible show_cursor + offset)
    (show_cursor && (scroll cursor visible show_cursor + offset =? cursor))) as (row & -> & Hplain); [lia|].
  cbn [of_outcome bind]. draw_one.
Qed.
End Drawing.

(** ** The list engine *)

Section Lists.
Context (spill : Z * Z -> Z * Z -> write -> outcome (Z * Z)).
Context {S : Type} (text description help_text : string) (row_count : Z) (show_cursor : bool)
  (draw_row : S -> Z -> bool -> outcome ListRow) (status : S -> string)
  (handle_key : S -> Z -> Z -> outcome (S * bool)) (inv : S -> Prop).
Context (Htext : plain text = true) (Hdescription : plain description = true) (Hhelp : plain help_text = true)
  (Hstatus : forall s, inv s -> plain (status s) = true)
  (Hrow : forall s index has_cursor, inv s -> 0 <= index < row_count ->
     exists row, draw_row s index has_cursor = Ok row /\ plain (row_text row) = true)
  (Hkey : forall s key cursor s' b, inv s -> handle_key s key cursor = Ok (s', b) -> inv s').

(** With more fuel than keys, the loop that draws is the list engine. *)
Lemma show_list_runs fuel s cursor st :
  Forall roomy (frames st) -> (length (frames st) < fuel)%nat -> inv s -> (show_cursor = false -> 0 <= cursor) ->
  widget_of (play spill (show_list text description help_text row_count show_cursor draw_row status handle_key
                           fuel s cursor) st) =
  run_list row_count (truthy description) show_cursor handle_key s cursor (map frame_round (frames st)).
Proof.
  revert s cursor st. induction fuel as [|fuel IH]; intros s cursor st Hr Hlen Hs Hc; [lia|].
  cbn [show_list]. destruct (frames st) as [|f rest] eqn:Ef.
  - unfold widget_of. unfold draw_list. cbn [bind erase trigger]. rewrite play_waits by exact Ef. reflexivity.
  - apply Forall_cons in Hr as [Hf Hr]. cbn [length] in Hlen.
    pose proof (draws_list spill f Hf text description help_text row_count cursor (draw_row s) (status s)
      show_cursor Htext Hdescription Hhelp (Hstatus s Hs) Hc (fun index b => Hrow s index b Hs)) as Hdraw.
    destruct (draws_play _ _ rest _ _ _ st Hdraw Ef) as (st1 & E1 & Hst1).
    rewrite play_bind, Hst1. cbn [and_play]. rewrite (play_getch spill f rest _ st1 E1).
    assert (Ef' : frames (key_read st1) = rest) by (cbn; rewrite E1; reflexivity).
    cbv beta zeta. cbn [map run_list]. destruct (frame_round f) as [key max_y] eqn:Er. cbn [pressed].
    rewrite <- Ef' in *. unfold last_position. cbn [Widgets.max_y].
    destruct (key =? KEY_UP); [apply IH; auto; intros; lia|].
    destruct (key =? KEY_DOWN); [apply IH; auto; [lia | intros E; specialize (Hc E); rewrite E; lia] |].
    destruct (handle_key s key cursor) as [[s' [|]]|x] eqn:Ek; cbn; try reflexivity.
    destruct (key =? KEY_Q); [reflexivity|]. apply IH; eauto; lia.
Qed.
End Lists.

(** ** Menus *)

Definition plain_options (options : list MenuOption) : Prop :=
  Forall (fun o => plain (option_label o) = true) options.
Definition plain_source {V} (inherited : option (Inherited V)) : Prop :=
  match inherited with Some i => plain (inherited_source i) = true | None => True end.

Lemma plain_inherited_tag {V} (inherited : option (Inherited V)) :
  plain_source inherited -> plain (inherited_tag inherited) = true.
Proof. destruct inherited as [i|]; [|reflexivity]. intros H. cbn. rewrite !plain_app, H. reflexivity. Qed.

Lemma plain_radio_row inherited option has_cursor :
  plain (option_label option) = true -> plain_source inherited ->
  plain (row_text (radio_row inherited option has_cursor)) = true.
Proof.
  intros Ho Hi. cbn. rewrite !plain_app, Ho. apply plain_inherited_tag in Hi.
  destruct has_cursor, (is_inherited inherited option); rewrite ?Hi; reflexivity.
Qed.

Lemma plain_checkbox_row inherited checked option has_cursor :
  plain (option_label option) = true -> plain_source inherited ->
  plain (row_text (checkbox_row inherited checked option has_cursor)) = true.
Proof.
  intros Ho Hi. cbn. rewrite !plain_app, Ho. apply plain_inherited_tag in Hi.
  destruct (str_in _ checked), (match inherited with Some _ => _ | None => _ end); rewrite ?Hi; reflexivity.
Qed.

(** A row for each option. *)
Lemma option_row {A} (options : list A) (row : A -> ListRow) index :
  Forall (fun a => plain (row_text (row a)) = true) options -> 0 <= index < Z.of_nat (length options) ->
  exists r, obind (fun a => Ok (row a)) (py_index options index) = Ok r /\ plain (row_text r) = true.
Proof.
  intros Hp Hi. destruct (py_index_ok options index Hi) as (a & -> & Ha).
  exists (row a). split; [reflexivity|]. exact (Forall_lookup_1 _ _ _ _ Hp Ha).
Qed.

Section Menus.
Context (spill : Z * Z -> Z * Z -> write -> outcome (Z * Z)).
Context (fuel : nat) (st : terminal).
Context (Hroomy : Forall roomy (frames st)) (Hfuel : (length (frames st) < fuel)%nat).
Abbreviation rounds := (map frame_round (frames st)).

Lemma show_radio_menu_runs text options inherited description :
  plain text = true -> plain description = true -> plain_options options -> plain_source inherited ->
  widget_of (play spill (show_radio_menu fuel text options inherited description) st) =
  radio_menu options inherited description rounds.
Proof.
  intros Ht Hd Ho Hi. unfold show_radio_menu, radio_menu.
  rewrite widget_of_outcome with (h := fun '(_, cursor) =>
    obind (fun option => Ok (option_value option)) (py_index options cursor)).
  2: { intros [u cursor]. destruct (py_index options cursor); reflexivity. }
  f_equal. apply show_list_runs with (inv := fun _ => True); auto; try discriminate.
  intros s index b _ Hindex. apply option_row; [|exact Hindex].
  eapply Forall_impl; [exact Ho|]. intros o Hlabel. apply plain_radio_row; assumption.
Qed.

Lemma show_checkbox_menu_runs text options inherited description :
  plain text = true -> plain description = true -> plain_options options -> plain_source inherited ->
  widget_of (play spill (show_checkbox_menu fuel text options inherited description) st) =
  checkbox_menu options inherited description rounds.
Proof.
  intros Ht Hd Ho Hi. unfold show_checkbox_menu, checkbox_menu.
  rewrite widget_of_outcome with (h := fun '(checked, _) =>
    Ok (map option_value (List.filter (fun option => str_in (option_value option) checked) options))).
  2: { intros [checked u]. reflexivity. }
  f_equal. apply show_list_runs with (inv := fun _ => True); auto; try discriminate.
  intros s index b _ Hindex. apply option_row; [|exact Hindex].
  eapply Forall_impl; [exact Ho|]. intros o Hlabel. apply plain_checkbox_row; assumption.
Qed.

Lemma show_confirm_screen_runs text items :
  plain text = true -> Forall (fun row => plain (row_text row) = true) (summary_rows items) ->
  widget_of (play spill (show_confirm_screen fuel text items) st) = confirm_screen items rounds.
Proof.
  intros Ht Hr. unfold show_confirm_screen, confirm_screen.
  rewrite widget_of_outcome with (h := fun '(confirmed, _) => Ok confirmed) by (intros []; reflexivity).
  f_equal. apply show_list_runs with (inv := fun _ => True); auto; try lia.
  intros s index b _ Hindex. destruct (py_index_ok _ index Hindex) as (row & Hrow & Hlookup).
  exists row. split; [exact Hrow|]. exact (Forall_lookup_1 _ _ _ _ Hr Hlookup).
Qed.

Definition plain_toggle (t : Toggle) : Prop :=
  plain (toggle_label t) = true /\ plain_source (toggle_inherited t).

Lemma plain_toggle_line t state : plain_toggle t -> plain (toggle_line t state) = true.
Proof.
  intros [Hl Hi]. unfold toggle_line. pose proof (plain_inherited_tag _ Hi) as Htag.
  destruct (toggle_inherited t) as [i|].
  - case_decide; rewrite !plain_app, Hl; [rewrite Htag | rewrite (Hi : plain (inherited_source i) = true)];
      destruct state as [[]|]; try destruct (inherited_value i); reflexivity.
  - rewrite !plain_app, Hl. destruct state as [[]|]; reflexivity.
Qed.

Lemma plain_join sep l : plain sep = true -> Forall (fun s => plain s = true) l -> plain (join sep l) = true.
Proof.
  intros Hs. induction 1 as [|s l Hl _ IH]; [reflexivity|]. destruct l as [|s' l]; [exact Hl|].
  change (plain (s +:+ sep +:+ join sep (s' :: l)) = true). rewrite !plain_app, Hl, Hs, IH. reflexivity.
Qed.

Lemma show_toggle_menu_runs text toggles description :
  plain text = true -> plain description = true -> Forall plain_toggle toggles ->
  widget_of (play spill (show_toggle_menu fuel text toggles description) st) =
  toggle_menu toggles description rounds.
Proof.
  intros Ht Hd Htoggles. unfold show_toggle_menu, toggle_menu.
  rewrite widget_of_outcome with (h := fun '((states, _), _) => Ok (dict_update [] (map (fun t => (toggle_key t,
       match dict_get states (toggle_key t) with Some (Some true) => true | _ => false end)) toggles)))
    by (intros [[] ]; reflexivity).
  f_equal. apply show_list_runs with (inv := fun s : toggle_states * string => plain s.2 = true); auto; try discriminate.
  - intros [states message] index b _ Hindex. apply option_row; [|exact Hindex].
    eapply Forall_impl; [exact Htoggles|]. intros t Hp. apply plain_toggle_line, Hp.
  - intros [states message] key cursor s' b Hm H. cbn in H. destruct (_ || _).
    + destruct (py_index toggles cursor); [injection H as <- _; reflexivity | discriminate].
    + destruct (key =? KEY_TAB); [|injection H as <- _; exact Hm]. injection H as <- _. cbn.
      assert (Hu : Forall (fun s => plain s = true) (unset_labels toggles states)).
      { unfold unset_labels. apply Forall_map, Forall_forall. intros t Hin.
        apply list_elem_of_In, filter_In in Hin as [Hin _].
        exact (proj1 (proj1 (Forall_forall _ _) Htoggles t (proj2 (list_elem_of_In _ _) Hin))). }
      destruct (unset_labels toggles states); [reflexivity|]. rewrite plain_app.
      rewrite plain_join by (reflexivity || exact Hu). reflexivity.
Qed.
End Menus.

(** *** The rows of the summary *)

Lemma plain_fitted v : plain v = true -> plain (fitted v) = true.
Proof.
  intros H. unfold fitted. destruct (_ <=? _); [auto with plain|].
  rewrite plain_app, plain_slice_to by exact H. reflexivity.
Qed.

Lemma plain_split_loop sep skip acc s :
  plain acc = true -> plain s = true -> Forall (fun part => plain part = true) (split_loop sep skip acc s).
Proof.
  revert skip acc. induction s as [|c s IH]; intros skip acc Ha Hs; cbn [split_loop]; [repeat constructor; exact Ha|].
  unfold plain in Hs. cbn [str_all] in Hs. apply andb_true_iff in Hs as [Hc Hs].
  destruct skip as [|skip]; [|apply IH; assumption]. destruct (startswith sep (String c s)).
  - constructor; [exact Ha | apply IH; [reflexivity | exact Hs]].
  - apply IH; [|exact Hs]. rewrite plain_app, Ha. cbn. rewrite Hc. reflexivity.
Qed.

Lemma plain_summary_rows items :
  Forall (fun '(label, v, source) => plain label = true /\ plain v = true /\ plain source = true) items ->
  Forall (fun row => plain (row_text row) = true) (summary_rows items).
Proof.
  unfold summary_rows. generalize "" as current. induction items as [|[[label v] source] items IH]; intros current H;
    [constructor|].
  apply Forall_cons in H as [(Hl & Hv & Hs) H]. cbn [summary_rows_from]. apply plain_fitted in Hv.
  unfold partition_dot, split_on. pose proof (plain_split_loop "." 0 "" label eq_refl Hl) as Hparts.
  destruct (split_loop "." 0 "" label) as [|group [|field rest]].
  1, 2: constructor; [cbn; rewrite !plain_app, Hv, Hs, plain_ljust by exact Hl; reflexivity | apply IH, H].
  apply Forall_cons in Hparts as [Hg Hf]. pose proof (plain_join "." _ eq_refl Hf) as Hfield.
  destruct (String.eqb group current); repeat (apply Forall_cons_2 || apply IH, H);
    cbn [row_text]; rewrite ?plain_app, ?Hv, ?Hs, ?Hg, ?plain_ljust by exact Hfield; reflexivity.
Qed.

(** ** Text fields *)

(** The texts that a field shows. *)
Definition plain_entry (entry : TextEntry) : Prop :=
  plain (entry_typed entry) = true /\ plain (entry_error entry) = true /\
  match entry_inherited entry with
  | Some i => plain (inherited_value i) = true /\ plain (inherited_source i) = true
  | None => True
  end.

Lemma plain_hint i typed masked :
  plain (inherited_value i) = true -> plain (inherited_source i) = true ->
  plain (inherited_hint i typed masked) = true.
Proof.
  intros Hv Hs. unfold inherited_hint.
  destruct (truthy typed), masked; rewrite !plain_app, ?Hv, Hs; reflexivity.
Qed.

Lemma plain_visible_text entry masked width :
  plain_entry entry -> plain (visible_text entry masked width) = true.
Proof. intros (Ht & _). unfold visible_text, display_text. destruct masked; auto with plain. Qed.

Lemma plain_without_last s : plain s = true -> plain (without_last s) = true.
Proof.
  unfold plain. induction s as [|c [|d s] IH]; [reflexivity | reflexivity|]. intros H.
  cbn [str_all without_last] in *. apply andb_true_iff in H as [Hc H]. rewrite Hc. apply IH, H.
Qed.

Lemma plain_printable key : is_printable key = true -> is_plain (chr (Z.to_nat key)) = true.
Proof.
  unfold is_printable, is_plain, chr. intros [H1 H2]%andb_true_iff.
  rewrite Ascii.nat_ascii_embedding; [|apply Nat.le_lt_trans with 127%nat; lia].
  rewrite (proj2 (Nat.leb_le 32 _)), (proj2 (Nat.eqb_neq _ 127)) by lia. reflexivity.
Qed.

Lemma plain_press entry key entry' :
  plain_entry entry -> press entry key = (entry', None) -> plain_entry entry'.
Proof.
  intros (Ht & He & Hi) H. unfold press, submit in H.
  destruct (key_in key ENTER_KEYS).
  { destruct (_ && _); [|discriminate]. injection H as <-. repeat split; assumption. }
  destruct (key =? KEY_ESCAPE); [injection H as <-; repeat split; assumption|].
  destruct (key_in key BACKSPACE_KEYS);
    [injection H as <-; repeat split; cbn; auto using plain_without_last|].
  destruct (is_printable key) eqn:Ek; injection H as <-; repeat split; try assumption.
  cbn. rewrite plain_app, Ht. cbn. rewrite plain_printable by exact Ek. reflexivity.
Qed.

(** The prompt is written uncut. *)
Definition prompt_fits (prompt : string) (f : frame) : Prop := BORDER_PAD + char_len prompt < max_x f.

Section Fields.
Context (spill : Z * Z -> Z * Z -> write -> outcome (Z * Z)).

Ltac draw_next := eapply draws_bind; [draw_one | cbv beta iota zeta].

Lemma draws_text_entry f text prompt entry masked :
  roomy f -> prompt_fits prompt f -> plain text = true -> plain prompt = true -> plain_entry entry ->
  draws spill f anywhere (draw_text_entry text prompt entry masked) tt anywhere.
Proof.
  intros Hf Hprompt Ht Hp He. unfold draw_text_entry, prompt_fits in *. pose proof Hf as [Hmy Hmx].
  pose proof (draws_title spill f Hf) as Htitle. pose proof (draws_help spill f Hf) as Hhelp.
  do 6 draw_next.
  set (w := max_x f - BORDER_PAD * 2 - 4). assert (Hw : w = max_x f - 8) by (unfold w; layout; lia).
  assert (Hbar : forall l r, char_len l = 1 -> char_len r = 1 -> char_len (l +:+ times "─" (w + 2) +:+ r) <= w + 4).
  { intros l r Hl Hr. pose proof (char_len_app l (times "─" (w + 2) +:+ r)).
    pose proof (char_len_app (times "─" (w + 2)) r). pose proof (char_len_times "─" (w + 2) eq_refl). lia. }
  assert (Htext : char_len (ljust (visible_text entry masked w) w) <= w).
  { pose proof (char_len_ljust (visible_text entry masked w) w).
    pose proof (char_len_slice_last w (display_text entry masked)). unfold visible_text in *. lia. }
  assert (Hbarp : forall l r, plain l = true -> plain r = true -> plain (l +:+ times "─" (w + 2) +:+ r) = true).
  { intros l r Hl Hr. rewrite !plain_app, Hl, Hr, plain_times by reflexivity. reflexivity. }
  eapply draws_bind; [apply draws_addstr; [layout; lia | layout; lia | apply Hbarp; reflexivity |]|].
  { pose proof (Hbar "┌" "┐" eq_refl eq_refl). layout. lia. }
  eapply draws_bind; [apply (draws_write spill f anywhere 6 2 "│ " None None 4); (reflexivity || cbn; lia)|].
  eapply draws_bind; [apply draws_attron|].
  eapply draws_bind; [apply (draws_write_here spill f 6 2 _ 4 (4 + w)); try lia; apply plain_ljust, plain_visible_text, He|].
  eapply draws_bind; [apply draws_attroff|].
  eapply draws_bind; [apply (draws_write_here spill f 6 2 " │" (4 + w) (6 + w)); try reflexivity; try lia|].
  { change (char_len " │") with 2. lia. }
  apply (draws_weaken spill f anywhere _ anywhere anywhere); [|auto|auto].
  eapply draws_bind; [apply draws_addstr; [layout; lia | layout; lia | apply Hbarp; reflexivity |]|].
  { pose proof (Hbar "└" "┘" eq_refl eq_refl). layout. lia. }
  destruct He as (_ & Herror & Hi).
  eapply draws_bind with (Q := anywhere) (a := tt).
  { destruct (entry_inherited entry) as [i|]; [|apply draws_ret]. destruct Hi as [Hv Hs].
    pose proof (plain_hint i (entry_typed entry) masked Hv Hs). draw_one. }
  draw_one.
Qed.

Section Text.
Context (text prompt : string) (masked : bool) (Htext : plain text = true) (Hprompt : plain prompt = true).

Lemma show_text_loop_runs fuel entry st :
  Forall roomy (frames st) -> Forall (prompt_fits prompt) (frames st) ->
  (length (frames st) < fuel)%nat -> plain_entry entry ->
  widget_of (play spill (show_text_loop fuel text prompt entry masked) st) =
  text_loop entry (map frame_round (frames st)).
Proof.
  revert entry st. induction fuel as [|fuel IH]; intros entry st Hr Hfits Hlen He; [lia|].
  cbn [show_text_loop]. destruct (frames st) as [|f rest] eqn:Ef.
  - unfold widget_of, draw_text_entry. cbn [bind erase trigger]. rewrite play_waits by exact Ef. reflexivity.
  - apply Forall_cons in Hr as [Hf Hr]. apply Forall_cons in Hfits as [Hfit Hfits]. cbn [length] in Hlen.
    pose proof (draws_text_entry f text prompt entry masked Hf Hfit Htext Hprompt He) as Hdraw.
    destruct (draws_play _ _ rest _ _ _ st Hdraw Ef) as (st1 & E1 & Hst1).
    rewrite play_bind, Hst1. cbn [and_play]. rewrite (play_getch spill f rest _ st1 E1).
    assert (Ef' : frames (key_read st1) = rest) by (cbn; rewrite E1; reflexivity).
    cbn [map text_loop]. destruct (press entry (pressed (frame_round f))) as [entry' [value|]] eqn:Ep.
    + unfold widget_of. cbn. rewrite E1. reflexivity.
    + rewrite <- Ef' in *. apply IH; auto; [lia | exact (plain_press _ _ _ He Ep)].
Qed.
End Text.

Lemma plain_new_entry inherited required :
  match inherited with
  | Some i => plain (inherited_value i) = true /\ plain (inherited_source i) = true
  | None => True
  end -> plain_entry (new_entry inherited required).
Proof. intros H. repeat split. exact H. Qed.

(** *** Passwords *)

(** A text field, and what follows on the keys that it leaves. *)
Definition continue {A B} (w : widget A) (g : A -> list round -> widget B) : widget B :=
  match w with Waiting => Waiting | Stopped (Ok a) rest => g a rest | Stopped (Err x) rest => Stopped (Err x) rest end.

Lemma widget_of_continue {A B} (p : window A) (g : A -> window B) st w (h : A -> list round -> widget B) :
  widget_of (play spill p st) = w ->
  (forall a st', play spill p st = (st', Some (Ok a)) ->
     widget_of (play spill (g a) st') = h a (map frame_round (frames st'))) ->
  widget_of (play spill (bind p g) st) = continue w h.
Proof.
  intros <- Hg. rewrite play_bind. unfold widget_of at 2. destruct (play spill p st) as [st' [[a|x]|]]; cbn;
    [apply Hg; reflexivity | reflexivity | reflexivity].
Qed.

Lemma password_first entry rounds :
  password_loop (FirstEntry entry) rounds =
  continue (text_loop entry rounds) (fun p rest => password_loop (SecondEntry p (new_entry None true)) rest).
Proof.
  revert entry. induction rounds as [|r rest IH]; intros entry; [reflexivity|]. cbn [password_loop text_loop].
  destruct (press entry (pressed r)) as [entry' [value|]]; [reflexivity | apply IH].
Qed.

Lemma password_second p entry rounds :
  password_loop (SecondEntry p entry) rounds =
  continue (text_loop entry rounds) (fun confirm rest =>
    if String.eqb p confirm then Stopped (Ok p) rest else password_loop Mismatch rest).
Proof.
  revert entry. induction rounds as [|r rest IH]; intros entry; [reflexivity|]. cbn [password_loop text_loop].
  destruct (press entry (pressed r)) as [entry' [value|]]; [reflexivity | apply IH].
Qed.

Lemma draws_mismatch f text : roomy f -> plain text = true ->
  draws spill f anywhere (draw_mismatch text) tt anywhere.
Proof.
  intros Hf Ht. unfold draw_mismatch. pose proof Hf as [Hmy Hmx].
  pose proof (draws_title spill f Hf text Ht). pose proof (draws_help spill f Hf) as Hhelp.
  draw_one.
Qed.

Lemma confirm_prompt_fits f : roomy f -> prompt_fits CONFIRM_PROMPT f.
Proof. intros [_ H]. unfold prompt_fits. change (char_len CONFIRM_PROMPT) with 17. layout. lia. Qed.

(** What the widgets need of the keys to come, which stays so. *)
Definition ready (fuel : nat) (prompt : string) (st : terminal) : Prop :=
  Forall roomy (frames st) /\ Forall (prompt_fits prompt) (frames st) /\ (length (frames st) < fuel)%nat.

Lemma ready_suffix fuel prompt st st' :
  frames st' `suffix_of` frames st -> ready fuel prompt st -> ready fuel prompt st'.
Proof.
  intros [l E] (Hr & Hp & Hlen). unfold ready in *. rewrite E in *. rewrite length_app in Hlen.
  apply Forall_app in Hr as [_ Hr]. apply Forall_app in Hp as [_ Hp]. repeat split; auto. lia.
Qed.

Lemma ready_played {A} fuel prompt (p : window A) st st' o :
  play spill p st = (st', o) -> ready fuel prompt st -> ready fuel prompt st'.
Proof. intros H. apply ready_suffix. pose proof (play_suffix spill p st) as Hs. rewrite H in Hs. exact Hs. Qed.

Lemma ready_confirm fuel prompt st : ready fuel prompt st -> ready fuel CONFIRM_PROMPT st.
Proof.
  intros (Hr & _ & Hlen). repeat split; auto. eapply Forall_impl; [exact Hr | exact confirm_prompt_fits].
Qed.

Lemma show_text_input_runs text prompt masked inherited required fuel st :
  plain text = true -> plain prompt = true ->
  match inherited with
  | Some i => plain (inherited_value i) = true /\ plain (inherited_source i) = true
  | None => True
  end ->
  ready fuel prompt st ->
  widget_of (play spill (show_text_input fuel text prompt inherited required masked) st) =
  text_input inherited required (map frame_round (frames st)).
Proof.
  intros Ht Hp Hi (Hr & Hfits & Hlen). apply show_text_loop_runs; auto using plain_new_entry.
Qed.

Lemma show_password_runs text prompt fuel st :
  plain text = true -> plain prompt = true -> ready fuel prompt st ->
  widget_of (play spill (show_password_input_with_confirm fuel text prompt) st) =
  password_input_with_confirm (map frame_round (frames st)).
Proof.
  intros Ht Hp. unfold password_input_with_confirm. revert st.
  induction fuel as [|fuel IH]; intros st Hst; [destruct Hst as (_ & _ & H); lia|].
  cbn [show_password_input_with_confirm]. rewrite password_first.
  apply widget_of_continue; [apply show_text_input_runs; auto|].
  intros p st1 Hst1. apply (ready_played _ _ _ _ _ _ Hst1) in Hst. rewrite password_second.
  apply widget_of_continue; [apply show_text_input_runs; eauto using ready_confirm|].
  intros confirm st2 Hst2. apply (ready_played _ _ _ _ _ _ Hst2) in Hst.
  destruct (String.eqb p confirm); [reflexivity|]. destruct (frames st2) as [|f rest] eqn:Ef.
  - unfold widget_of, draw_mismatch. cbn [bind erase trigger]. rewrite play_waits by exact Ef. reflexivity.
  - assert (Hf : roomy f) by (destruct Hst as (Hr & _); rewrite Ef in Hr; exact (Forall_inv Hr)).
    destruct (draws_play _ _ rest _ _ _ st2 (draws_mismatch f text Hf Ht) Ef) as (st3 & E3 & Hst3).
    rewrite play_bind, Hst3. cbn [and_play]. rewrite (play_getch spill f rest _ st3 E3).
    assert (Erest : frames (key_read st3) = rest) by (cbn; rewrite E3; reflexivity).
    cbn [map password_loop]. rewrite <- Erest. apply IH.
    destruct Hst as (Hr & Hfits & Hlen). unfold ready. rewrite Erest. rewrite Ef in *.
    apply Forall_cons in Hr as [_ Hr]. apply Forall_cons in Hfits as [_ Hfits]. cbn [length] in Hlen.
    repeat split; auto. lia.
Qed.
End Fields.

(** ** The front-end *)

(** No text of a screen has control characters. *)
Definition plain_screen (e : frontend_op) : Prop :=
  match e with
  | AskSwitch step q inherited =>
      Forall (fun s => plain s = true) [step; switch_label q; switch_on_label q; switch_off_label q; switch_description q] /\
      plain_source inherited
  | AskOne step q choices inherited =>
      Forall (fun s => plain s = true) ([step; one_label q; one_description q] ++ map choice_label choices) /\
      plain_source inherited
  | AskMany step q inherited =>
      Forall (fun s => plain s = true) ([step; many_label q; many_description q] ++ map choice_label (many_choices q)) /\
      plain_source inherited
  | AskText step q inherited =>
      Forall (fun s => plain s = true) [step; text_label q; text_prompt q] /\
      match inherited with
      | Some i => plain (inherited_value i) = true /\ plain (inherited_source i) = true
      | None => True
      end
  | KeepSecret step q source => Forall (fun s => plain s = true) [step; secret_label q; source]
  | AskSecret step q => Forall (fun s => plain s = true) [step; secret_label q; secret_prompt q]
  | Review rows =>
      Forall (fun row => Forall (fun s => plain s = true) [row_step row; row_label row; row_value row; row_source row]) rows
  end.

Definition prompt_of (e : frontend_op) : string :=
  match e with AskText _ q _ => text_prompt q | AskSecret _ q => secret_prompt q | _ => "" end.

Lemma plain_title step label : plain step = true -> plain label = true -> plain (title step label) = true.
Proof. intros Hs Hl. unfold title. rewrite !plain_app, Hs, Hl. reflexivity. Qed.

Lemma plain_options_of choices :
  Forall (fun s => plain s = true) (map choice_label choices) -> plain_options (options_of choices).
Proof.
  intros H. apply Forall_map in H. unfold plain_options, options_of. apply Forall_map, Forall_forall.
  intros [i c] Hin. cbn. apply list_elem_of_In, (enumerate_elem 0) in Hin as (k & _ & Hk).
  exact (Forall_lookup_1 _ _ _ _ H Hk).
Qed.

(** C32: the screens do what the widgets promise: in a terminal of at least 11 rows
    and 38 columns, and wide enough for the prompt, every screen of the front-end
    returns what [Widgets.v] says for the keys that are pressed, and waits when it
    does. This holds whatever [curses] does with a text that leaves its row, so no
    text does, and no screen fails to draw. *)
Theorem screens_implement_widgets (spill : Z * Z -> Z * Z -> write -> outcome (Z * Z)) (e : frontend_op)
    (fuel : nat) (st : terminal) :
  plain_screen e -> ready fuel (prompt_of e) st ->
  widget_of (play spill (show_frontend fuel e) st) = curses_frontend e (map frame_round (frames st)).
Proof.
  intros He Hst. pose proof Hst as (Hr & _ & Hlen). destruct e; cbn [show_frontend curses_frontend].
  - destruct He as [Htexts Hs]. repeat (apply Forall_cons in Htexts as [? Htexts]). unfold show_switch, curses_switch.
    rewrite widget_of_outcome with (h := fun chosen => Ok (String.eqb chosen "on")) by reflexivity.
    f_equal. apply show_radio_menu_runs; auto using plain_title.
    + repeat constructor; assumption.
    + destruct inherited; exact Hs.
  - destruct He as [Htexts Hs]. do 3 apply Forall_cons in Htexts as [? Htexts]. unfold show_choose_one, curses_choose_one.
    rewrite widget_of_outcome with (h := chosen_value choices) by reflexivity.
    f_equal. apply show_radio_menu_runs; auto using plain_title, plain_options_of.
    destruct inherited; [|exact I]. destruct (positions_of _ _); [exact I | exact Hs].
  - destruct He as [Htexts Hs]. do 3 apply Forall_cons in Htexts as [? Htexts]. unfold show_choose_many, curses_choose_many.
    rewrite widget_of_outcome with (h := omapM (chosen_value (many_choices question))) by reflexivity.
    f_equal. apply show_checkbox_menu_runs; auto using plain_title, plain_options_of. destruct inherited; exact Hs.
  - destruct He as [Htexts Hs]. repeat (apply Forall_cons in Htexts as [? Htexts]).
    apply show_text_input_runs; auto using plain_title.
  - repeat (apply Forall_cons in He as [? He]). unfold show_keep_secret, curses_keep_secret.
    rewrite widget_of_outcome with (h := fun kept => Ok (String.eqb kept KEEP_SECRET)) by reflexivity.
    f_equal. apply show_radio_menu_runs; auto using plain_title; [|repeat constructor | exact I].
    rewrite !plain_app. repeat match goal with H : plain _ = true |- _ => rewrite H end. reflexivity.
  - repeat (apply Forall_cons in He as [? He]). unfold show_enter_secret, curses_enter_secret.
    destruct (secret_confirm question); [apply show_password_runs | apply show_text_input_runs]; auto using plain_title.
  - apply show_confirm_screen_runs; [assumption | assumption | reflexivity|]. apply plain_summary_rows, Forall_map.
    eapply Forall_impl; [exact He|]. intros row Hrow. repeat (apply Forall_cons in Hrow as [? Hrow]).
    rewrite !plain_app. repeat match goal with H : plain _ = true |- _ => rewrite H end. auto.
Qed.

(** A terminal of 24 rows and 80 columns, on which a text that leaves its row fails. *)
Definition standard_terminal (keys : list Z) : terminal :=
  new_terminal (map (fun key => {| frame_round := {| pressed := key; max_y := 24 |}; max_x := 80 |}) keys).

Definition strict_curses : Z * Z -> Z * Z -> write -> outcome (Z * Z) :=
  fun _ _ _ => Err (CursesError "addwstr() returned ERR").

Definition hostname_screen : frontend_op :=
  AskText "System" {| text_label := "Hostname"; text_prompt := "Hostname:" |}
    (Some {| inherited_value := "arch"; inherited_source := "config.yaml" |}).

Lemma screens_implement_widgets_witness :
  widget_of (play strict_curses (show_frontend 4 hostname_screen) (standard_terminal [112; 99; 10])) =
  curses_frontend hostname_screen (map frame_round (frames (standard_terminal [112; 99; 10]))).
Proof.
  apply (screens_implement_widgets strict_curses hostname_screen 4 (standard_terminal [112; 99; 10])).
  - vm_compute. repeat split; repeat constructor.
  - repeat split; [repeat constructor; vm_compute; congruence | repeat constructor | cbn; lia].
Defined.

(** The size matters: in a window of four rows the list of a menu cannot be drawn,
    and the error of [curses] ends the setup. *)
Definition low_terminal : terminal :=
  new_terminal [{| frame_round := {| pressed := 10; max_y := 4 |}; max_x := 80 |}].

Example low_window_fails spill :
  (play spill (show_frontend 2 (AskSwitch "Docker"
     {| switch_label := "Docker"; switch_on_label := "On"; switch_off_label := "Off"; switch_description := "" |} None))
     low_terminal).2 = Some (Err (CursesError "addwstr() returned ERR")).
Proof. reflexivity. Qed.
