(* ===== verification/Masked.v ===== *)
(** * A password stays hidden while it is typed

    Two users who type different passwords of the same length, with the same
    corrections, see the same screens. *)

From S2P Require Import Prelude PyStr Chars PyVal Effects Questions Models Widgets WidgetFacts Terminal Screens ScreenFacts.

Local Open Scope Z_scope.

(** ** Terminals that look the same *)

(** Keys that differ at most in which character they type. *)
Definition similar_keys (a b : Z) : Prop := a = b \/ (is_printable a = true /\ is_printable b = true).

Definition similar_frames (a b : frame) : Prop :=
  frame_size a = frame_size b /\ similar_keys (pressed (frame_round a)) (pressed (frame_round b)).

Record same_view (a b : terminal) : Prop := {
  same_frames : Forall2 similar_frames (frames a) (frames b);
  same_position : position a = position b;
  same_screen : on_screen a = on_screen b;
  same_shown : screens_seen a = screens_seen b;
}.

(** ** Drawing keeps them so *)

Definition reads_no_key {A} (p : window A) : Prop :=
  emits (fun ev : event window_sig => ev_op ev <> OpGetch) p.

Section View.
Context (spill : Z * Z -> Z * Z -> write -> outcome (Z * Z)).

Lemma similar_write_ends a b at_ w :
  frame_size a = frame_size b -> write_ends spill a at_ w = write_ends spill b at_ w.
Proof.
  unfold frame_size. intros H. pose proof H as [= Hy Hx].
  unfold write_ends, starts_in_window, stays_in_row, frame_size. rewrite Hy, Hx. reflexivity.
Qed.

Lemma step_same_view a b e :
  same_view a b -> e <> OpGetch ->
  match terminal_step spill a e, terminal_step spill b e with
  | Some (a', r), Some (b', s) => same_view a' b' /\ r = s
  | None, None => True
  | _, _ => False
  end.
Proof.
  intros Hv He. pose proof Hv as [Hf Hp Ho Hs]. unfold terminal_step.
  destruct (frames a) as [|f fs] eqn:Ea; inversion Hf as [|? g ? gs Hfg Hrest Ea' Eb]; [exact I|].
  pose proof Hfg as [Hsize _].
  destruct e; try congruence;
    try (split; [first [exact Hv | constructor; cbn; congruence] | first [exact Hsize | reflexivity]]).
  rewrite Hp, (similar_write_ends f g) by exact Hsize.
  destruct (write_ends spill g _ w); (split; [|reflexivity]); [|exact Hv].
  constructor; cbn; congruence.
Qed.

Lemma play_same_view {A} (p : window A) a b :
  reads_no_key p -> same_view a b ->
  same_view (play spill p a).1 (play spill p b).1 /\ (play spill p a).2 = (play spill p b).2.
Proof.
  revert a b. induction p as [x|x|e k IH]; intros a b Hp Hv; cbn [play]; [auto | auto|].
  assert (He : e <> OpGetch).
  { destruct e; try discriminate. destruct (Hp (0 : ans window_sig OpGetch)) as [H _]. exact H. }
  pose proof (step_same_view a b e Hv He) as Hstep.
  destruct (terminal_step spill a e) as [[a' r]|], (terminal_step spill b e) as [[b' s]|]; try contradiction; [|auto].
  destruct Hstep as [Hv' ->]. apply IH; [apply Hp | exact Hv'].
Qed.
End View.

Lemma put_no_key w : reads_no_key (put w).
Proof. intros r. split; [discriminate | destruct r; exact I]. Qed.

Ltac no_key :=
  lazymatch goal with
  | |- emits _ (bind _ _) => apply emits_bind; [no_key | intros ?; no_key]
  | |- emits _ (let _ := _ in _) => cbv zeta; no_key
  | |- emits _ (match ?x with (_, _) => _ end) => destruct x; no_key
  | |- emits _ (match ?x with Some _ => _ | None => _ end) => destruct x; no_key
  | |- emits _ (when ?b _) => destruct b; cbn [when]; no_key
  | |- emits _ (Ret _) => exact I
  | |- emits _ (addstr _ _ _) => apply put_no_key
  | |- emits _ (addstr_here _) => apply put_no_key
  | |- emits _ (addnstr _ _ _ _) => apply put_no_key
  | |- emits _ getmaxyx => intros r; split; [discriminate | exact I]
  | |- emits _ erase => intros r; split; [discriminate | exact I]
  | |- emits _ refresh => intros r; split; [discriminate | exact I]
  | |- emits _ (attron _) => intros r; split; [discriminate | exact I]
  | |- emits _ (attroff _) => intros r; split; [discriminate | exact I]
  | |- _ => eassumption
  end.

Lemma draw_text_entry_no_key text prompt entry masked : reads_no_key (draw_text_entry text prompt entry masked).
Proof.
  assert (Ht : reads_no_key (draw_title text)) by (unfold draw_title, reads_no_key; no_key).
  assert (Hh : reads_no_key (draw_help "[Enter] Confirm  [Esc] Clear  [Ctrl+C] Quit"))
    by (unfold draw_help, reads_no_key; no_key).
  unfold draw_text_entry, reads_no_key in *. no_key.
Qed.

(** ** Entries that look the same *)

Definition typed_plainly (entry : TextEntry) : Prop := str_all (fun c => negb (is_continuation c)) (entry_typed entry) = true.

Record same_entry (a b : TextEntry) : Prop := {
  same_inherited : entry_inherited a = entry_inherited b;
  same_required : entry_required a = entry_required b;
  same_error : entry_error a = entry_error b;
  same_length : str_len (entry_typed a) = str_len (entry_typed b);
  plainly_left : typed_plainly a;
  plainly_right : typed_plainly b;
}.

Lemma char_len_bytes s : str_all (fun c => negb (is_continuation c)) s = true -> char_len s = Z.of_nat (str_len s).
Proof.
  unfold char_len, str_len. induction s as [|c s IH]; [reflexivity|]. cbn [str_all]. intros [_ H]%andb_true_iff.
  specialize (IH H). apply Nat2Z.inj in IH. cbn [chars String.length].
  destruct s as [|d s]; [reflexivity|]. cbn [str_all] in H. apply andb_true_iff in H as [Hd _].
  destruct (chars (String d s)) as [|first others] eqn:E; [cbn in IH; lia|].
  assert (Hfirst : starts_inside first = false).
  { pose proof (text_of_chars (String d s)) as Ht. rewrite E in Ht. destruct first as [|x first].
    - reflexivity.
    - cbn in Ht. injection Ht as -> _. apply negb_true_iff, Hd. }
  rewrite Hfirst. cbn [length] in *. lia.
Qed.

Lemma same_truthy (s t : string) : str_len s = str_len t -> truthy s = truthy t.
Proof. destruct s, t; try discriminate; reflexivity. Qed.

Lemma same_entry_drawn text prompt a b :
  same_entry a b -> draw_text_entry text prompt a true = draw_text_entry text prompt b true.
Proof.
  intros [Hi _ He Hl Ha Hb]. unfold draw_text_entry, visible_text, display_text.
  rewrite (char_len_bytes _ Ha), (char_len_bytes _ Hb), Hl, Hi, He.
  destruct (entry_inherited b) as [i|]; [|reflexivity]. unfold inherited_hint.
  rewrite (same_truthy _ _ Hl). reflexivity.
Qed.

(** ** Keys *)

Lemma printable_is_text key :
  is_printable key = true ->
  key_in key ENTER_KEYS = false /\ (key =? KEY_ESCAPE) = false /\ key_in key BACKSPACE_KEYS = false.
Proof. unfold is_printable, key_in, KEY_ESCAPE. cbn. lia. Qed.

Lemma printable_not_continuation key : is_printable key = true -> is_continuation (chr (Z.to_nat key)) = false.
Proof.
  unfold is_printable. intros [H1 H2]%andb_true_iff. unfold chr.
  assert (Hn : (Z.to_nat key < 128)%nat) by (apply Nat.le_lt_trans with 127%nat; lia).
  assert (Hall : forallb (fun n => negb (is_continuation (Ascii.ascii_of_nat n))) (seq 0 128) = true) by reflexivity.
  rewrite forallb_forall in Hall. apply negb_true_iff, Hall, in_seq. lia.
Qed.

Lemma without_last_len s : str_len (without_last s) = Nat.pred (str_len s).
Proof.
  unfold str_len. induction s as [|c [|d s] IH]; [reflexivity | reflexivity|].
  cbn [without_last String.length] in *. rewrite IH. reflexivity.
Qed.

Lemma without_last_all f s : str_all f s = true -> str_all f (without_last s) = true.
Proof.
  induction s as [|c [|d s] IH]; [reflexivity | reflexivity|]. intros H.
  cbn [str_all without_last] in *. apply andb_true_iff in H as [Hc H]. rewrite Hc. apply IH, H.
Qed.

Lemma same_with_typed a b s t :
  same_entry a b -> str_len s = str_len t ->
  str_all (fun c => negb (is_continuation c)) s = true -> str_all (fun c => negb (is_continuation c)) t = true ->
  same_entry (with_typed a s) (with_typed b t).
Proof. intros [Hi Hr _ _ _ _] Hl Hs Ht. constructor; assumption || reflexivity. Qed.

(** A key changes both entries alike. *)
Lemma press_same a b key key' :
  same_entry a b -> similar_keys key key' ->
  match press a key, press b key' with
  | (a', None), (b', None) => same_entry a' b'
  | (_, Some _), (_, Some _) => True
  | _, _ => False
  end.
Proof.
  intros Hab Hk. pose proof Hab as [Hi Hr He Hl Ha Hb]. unfold press.
  destruct Hk as [<-|[Hk Hk']].
  - destruct (key_in key ENTER_KEYS).
    { unfold submit. rewrite Hi, Hr. unfold str_or. rewrite (same_truthy _ _ Hl).
      destruct (truthy (entry_typed b)) eqn:E.
      - rewrite (same_truthy _ _ Hl), E. exact I.
      - destruct (negb _ && _); [|exact I]. constructor; try assumption; reflexivity. }
    destruct (key =? KEY_ESCAPE); [apply same_with_typed; auto|].
    destruct (key_in key BACKSPACE_KEYS).
    { apply same_with_typed; auto using without_last_all. rewrite !without_last_len, Hl. reflexivity. }
    destruct (is_printable key) eqn:Ek; [|exact Hab].
    apply same_with_typed; auto; [rewrite !str_len_app, Hl; reflexivity | |];
      rewrite str_all_app; cbn; rewrite printable_not_continuation by exact Ek; rewrite andb_true_r; assumption.
  - destruct (printable_is_text key Hk) as (-> & -> & ->), (printable_is_text key' Hk') as (-> & -> & ->).
    rewrite Hk, Hk'. apply same_with_typed; auto; [rewrite !str_len_app, Hl; reflexivity | |];
      rewrite str_all_app; cbn; rewrite printable_not_continuation by assumption; rewrite andb_true_r; assumption.
Qed.

Section Loop.
Context (spill : Z * Z -> Z * Z -> write -> outcome (Z * Z)).

Definition same_ending (a b : option (outcome string)) : Prop :=
  match a, b with
  | Some (Ok _), Some (Ok _) => True
  | _, _ => a = b
  end.

Lemma masked_loop_same text prompt fuel entry entry' a b :
  same_entry entry entry' -> same_view a b ->
  let left := play spill (show_text_loop fuel text prompt entry true) a in
  let right := play spill (show_text_loop fuel text prompt entry' true) b in
  same_view left.1 right.1 /\ same_ending left.2 right.2.
Proof.
  revert entry entry' a b. induction fuel as [|fuel IH]; intros entry entry' a b He Hv; [split; [exact Hv | reflexivity]|].
  cbn [show_text_loop]. rewrite (same_entry_drawn text prompt _ _ He), !play_bind.
  destruct (play_same_view spill (draw_text_entry text prompt entry' true) a b) as [Hv' Ho];
    [apply draw_text_entry_no_key | exact Hv|].
  destruct (play spill _ a) as [a' o], (play spill _ b) as [b' o']. cbn in Hv', Ho. subst o'.
  destruct o as [[u|x]|]; cbn [and_play]; [|split; [exact Hv' | reflexivity] | split; [exact Hv' | reflexivity]].
  pose proof Hv' as [Hf Hp Hs Hshown].
  destruct (frames a') as [|f fs] eqn:Ea; inversion Hf as [|? g ? gs Hfg Hrest Ea' Eb]; subst.
  - rewrite !play_getch_waits by congruence. split; [exact Hv' | reflexivity].
  - rewrite (play_getch spill f fs _ a' Ea), (play_getch spill g gs _ b') by congruence.
    assert (Hk : same_view (key_read a') (key_read b')) by (constructor; cbn; rewrite ?Ea, <- ?Eb; assumption).
    pose proof (press_same entry entry' _ _ He (proj2 Hfg)) as Hpress.
    destruct (press entry _) as [e1 [v1|]], (press entry' _) as [e2 [v2|]]; try contradiction;
      [split; [exact Hk | exact I]|].
    apply IH; assumption.
Qed.
End Loop.

(** C33: typing a password shows nothing of it but its length: two users who press
    the same keys, except that printable keys may differ, get the same screens in
    the same windows, and the field returns for one when it returns for the other. *)
Theorem typed_password_hidden (spill : Z * Z -> Z * Z -> write -> outcome (Z * Z)) (fuel : nat)
    (text prompt : string) (keys keys' : list frame) :
  Forall2 similar_frames keys keys' ->
  let left := play spill (show_text_input fuel text prompt None true true) (new_terminal keys) in
  let right := play spill (show_text_input fuel text prompt None true true) (new_terminal keys') in
  screens_seen left.1 = screens_seen right.1 /\ same_ending left.2 right.2.
Proof.
  intros Hkeys. destruct (masked_loop_same spill text prompt fuel (new_entry None true) (new_entry None true)
    (new_terminal keys) (new_terminal keys')) as [Hv Ho].
  - constructor; reflexivity.
  - constructor; [exact Hkeys | reflexivity..].
  - split; [apply Hv | exact Ho].
Qed.

(** Two passwords of three characters, one typed with a correction. *)
Definition typing (keys : list Z) : list frame :=
  map (fun key => {| frame_round := {| pressed := key; max_y := 24 |}; max_x := 80 |}) keys.

Lemma typed_password_hidden_witness :
  screens_seen (play strict_curses (show_text_input 9 "Storage" "Password:" None true true)
           (new_terminal (typing [97; 98; 127; 99; 100; 10]))).1 =
  screens_seen (play strict_curses (show_text_input 9 "Storage" "Password:" None true true)
           (new_terminal (typing [49; 50; 127; 51; 52; 10]))).1.
Proof.
  refine (proj1 (typed_password_hidden strict_curses 9 "Storage" "Password:" (typing [97; 98; 127; 99; 100; 10])
    (typing [49; 50; 127; 51; 52; 10]) _)).
  unfold typing. cbn [map]. repeat (constructor; [split; [reflexivity | (left; reflexivity) || (right; split; reflexivity)]|]).
  constructor.
Defined.
