(* ===== verification/Unchanged.v ===== *)
(** * A setup in which the user only presses Enter

    The interactive setup over the terminal front-end: the session of [Setup.v], its
    questions answered by the widgets of [Widgets.v]. *)

From S2P Require Import Prelude PyStr PyVal Effects Command Questions Host Models Samples Environment ConfigBuilder Registry Setup Widgets WidgetFacts.

(** Enter on every question, and [y] on the summary. *)
Definition only_enter (e : frontend_op) : list round :=
  match e with
  | Review _ => [{| pressed := 121; max_y := 24 |}]
  | _ => enter_first 24 []
  end.

(** The front-end's answers of a trace are those of the widgets for these keys. *)
Definition enters (t : list host_event) : Prop :=
  Forall (fun ev : host_event =>
    match ev with
    | Ev (OpFrontend e) a => curses_frontend e (only_enter e) = Stopped a []
    | _ => True
    end) t.

Lemma enters_app t1 t2 : enters (t1 ++ t2) <-> enters t1 /\ enters t2.
Proof. apply Forall_app. Qed.

Lemma runs_ask_enters e t o :
  runs (ask e) t o -> enters t -> curses_frontend e (only_enter e) = Stopped o [].
Proof.
  intros (r & t' & -> & H) He. apply runs_of_outcome in H as [-> ->]. exact (Forall_inv He).
Qed.

(** ** Equality of plain values *)

Definition scalar (v : pyval) : bool :=
  match v with PBool _ | PInt _ | PStr _ | PEnum _ _ _ => true | _ => false end.

Lemma py_eq_scalar_sym a v : scalar a = true -> py_eq a v = true -> py_eq v a = true.
Proof.
  intros Ha. destruct a; try discriminate; destruct v; cbn; try discriminate; intros H;
    first [apply Z.eqb_eq in H; apply Z.eqb_eq; congruence | apply String.eqb_eq in H; apply String.eqb_eq; congruence].
Qed.

Lemma py_eq_text_refl v : as_str v <> None -> py_eq v v = true.
Proof. destruct v; cbn; try congruence; intros _; apply String.eqb_refl. Qed.

Lemma py_eq_texts_refl l :
  Forall (fun v => as_str v <> None) l -> py_eq (PList l) (PList l) = true /\ py_eq (PTuple l) (PTuple l) = true.
Proof.
  induction 1 as [|v l Hv _ [IH1 IH2]]; [split; reflexivity|].
  cbn in IH1, IH2 |- *. pose proof (py_eq_text_refl v Hv) as E. rewrite E, IH1. auto.
Qed.

Lemma py_eq_same_text c v : as_str v <> None -> py_eq c v = true -> py_str c = py_str v.
Proof.
  intros Hv H. destruct v; cbn in Hv; try congruence; destruct c; cbn in H; try discriminate;
    apply String.eqb_eq in H; exact H.
Qed.

(** Equal values mean the same to the conditions of the questions. *)
Definition same_value (v w : pyval) : Prop := v = w \/ py_eq v w = true.

Lemma same_value_bool v w : same_value v w -> py_bool v = py_bool w.
Proof.
  intros [->|H]; [reflexivity|].
  destruct v as [|b|z|s|c n s|l|l|d], w as [|b'|z'|s'|c' n' s'|l'|l'|d']; cbn in H; try discriminate; cbn; try reflexivity.
  all: try (apply String.eqb_eq in H as ->; reflexivity).
  all: try (apply Z.eqb_eq in H; repeat match goal with b : bool |- _ => destruct b end; cbn in H |- *; first [reflexivity | discriminate | lia]).
  all: try (destruct l, l'; (reflexivity || discriminate)).
  apply andb_true_iff in H as [H _]. destruct d, d'; (reflexivity || discriminate).
Qed.

Lemma same_value_text v w c : as_str c <> None -> same_value v w -> py_eq v c = py_eq w c.
Proof.
  intros Hc [->|H]; [reflexivity|].
  destruct c; cbn in Hc; try congruence.
  all: destruct v, w; cbn in H; try discriminate; try reflexivity.
  all: apply String.eqb_eq in H as ->; reflexivity.
Qed.

Lemma conditions_same :
  Forall (fun st : string * StepSetting => forall f g : SettingLookup, (forall p, same_value (f p) (g p)) ->
    asked_when st.2 f = asked_when st.2 g) step_questions.
Proof.
  unfold step_questions, INSTALL_STEPS, steps_to_packages, steps_after_packages. cbn [app map concat wiring step_settings fst snd].
  repeat apply Forall_cons_2; try apply Forall_nil_2; intros f g H;
    cbn [snd asked_when setting]; unfold always, when_set, when_equal, recovery_system_wanted;
    rewrite ?(same_value_bool _ _ (H _)), ?(fun c Hc => same_value_text _ _ c Hc (H "gpu.vendor")) by discriminate;
    reflexivity.
Qed.

(** ** What the choices of a selection keep *)

Lemma enumerate_values (f : Choice -> bool) choices v :
  v ∈ map (fun pc : Z * Choice => choice_value pc.2) (List.filter (fun pc => f pc.2) (enumerate choices)) <->
  exists c, c ∈ choices /\ f c = true /\ v = choice_value c.
Proof.
  rewrite list_elem_of_In, in_map_iff. split.
  - intros ([i c] & <- & H). apply filter_In in H as [H Hf]. exists c. split; [|auto].
    destruct (enumerate_elem 0 _ _ _ H) as (k & _ & Hk). exact (list_elem_of_lookup_2 _ _ _ Hk).
  - intros (c & Hc & Hf & ->). apply list_elem_of_lookup in Hc as (k & Hk).
    exists (Z.of_nat k, c). split; [reflexivity|]. apply filter_In. split; [|exact Hf].
    apply list_elem_of_In, (list_elem_of_lookup_2 _ k), (enumerate_lookup 0 choices k c Hk).
Qed.

(** Every selected value is offered. *)
Definition all_offered (choices : list Choice) (vs : list pyval) : Prop :=
  Forall (fun v => as_str v <> None /\ exists c, c ∈ choices /\ py_eq (choice_value c) v = true) vs.

Lemma selection_same choices vs :
  all_offered choices vs ->
  same_texts (map (fun pc : Z * Choice => choice_value pc.2)
    (List.filter (fun pc => existsb (py_eq (choice_value pc.2)) vs) (enumerate choices))) vs = true.
Proof.
  intros Hv. unfold same_texts.
  pose proof (enumerate_values (fun c => existsb (py_eq (choice_value c)) vs) choices) as Hsel.
  apply andb_true_iff. split; apply forallb_forall; intros v Hin; apply str_in_spec, list_elem_of_fmap.
  - apply list_elem_of_In, Hsel in Hin as (c & _ & Hc & ->). apply existsb_exists in Hc as (w & Hw & E).
    apply list_elem_of_In in Hw. exists w. split; [|exact Hw].
    apply py_eq_same_text; [|exact E]. apply (proj1 (Forall_forall _ _) Hv _ Hw).
  - apply list_elem_of_In in Hin. destruct (proj1 (Forall_forall _ _) Hv _ Hin) as [Ht (c & Hc & E)].
    exists (choice_value c). split; [symmetry; apply py_eq_same_text; assumption|].
    apply Hsel. exists c. split; [exact Hc|]. split; [|reflexivity].
    apply existsb_exists. exists v. split; [apply list_elem_of_In, Hin | exact E].
Qed.

(** ** Inherited values that can be kept *)

Definition text_value (v : pyval) : Prop := exists text, v = PStr text /\ truthy text = true.

(** Some choice equals the value; the menus are short. *)
Definition offered (choices : list Choice) (v : pyval) : Prop :=
  (length choices <= menu_limit)%nat /\
  exists c, List.find (fun c => py_eq (choice_value c) v) choices = Some c /\ scalar (choice_value c) = true.

Definition part_of (t trace : list host_event) : Prop := exists t1 t2, trace = t1 ++ t ++ t2.

Lemma part_of_app t1 t2 trace : part_of (t1 ++ t2) trace -> part_of t1 trace /\ part_of t2 trace.
Proof.
  intros (a & b & ->). split; [exists a, (t2 ++ b) | exists (a ++ t1), b]; rewrite !app_assoc; reflexivity.
Qed.

(** A switch inherits a boolean, a text field or a password a text, a choice one of
    the choices that the machine offers in the run (or a text, when it offers
    none), a selection some of them. *)
Definition keepable (machine : MachineFacts) (trace : list host_event) (setting : StepSetting)
    (v : pyval) : Prop :=
  match setting_question setting with
  | Some (QSwitch _) => exists b, v = PBool b
  | Some (QEnterText _) | Some (QEnterSecret _) => text_value v
  | Some (QChooseOne q) =>
      match one_choices q with
      | Offered choices => choices <> [] /\ offered choices v
      | Computed source => forall t o, part_of t trace ->
          runs (commands_on_host (source v machine)) t o ->
          exists choices, o = Ok choices /\
            if decide (choices = []) then text_value v else offered choices v
      end
  | Some (QChooseMany q) =>
      (length (many_choices q) <= menu_limit)%nat /\
      exists vs, (v = PList vs \/ v = PTuple vs) /\ all_offered (many_choices q) vs
  | None => True
  end.

Section Answers.
Context (inherited : dict string SettingValue) (machine : MachineFacts).

Lemma inherited_text_value s :
  text_value (Environment.setting_value s) ->
  exists text, Environment.setting_value s = PStr text /\ truthy text = true /\
    inherited_text (Some s) = Some {| inherited_value := text; inherited_source := source_name (setting_source s) |}.
Proof.
  intros (text & E & Ht). exists text. split; [exact E|]. split; [exact Ht|].
  unfold inherited_text. rewrite E. cbn [py_eq as_str orb].
  destruct (String.eqb_spec text "") as [->|]; [discriminate | reflexivity].
Qed.

Lemma offered_not_none choices v : offered choices v -> v <> PNone.
Proof.
  intros (_ & c & Hf & Hs) ->. apply find_some in Hf as [_ Hf].
  destruct (choice_value c); cbn in Hf; discriminate.
Qed.

Lemma inherited_as_value {V} s (convert : pyval -> outcome V) v :
  Environment.setting_value s <> PNone -> convert (Environment.setting_value s) = Ok v ->
  inherited_as (Some s) convert =
    Ok (Some {| inherited_value := v; inherited_source := source_name (setting_source s) |}).
Proof.
  intros Hn Hc. unfold inherited_as. destruct s as [w source]. cbn in *.
  destruct w; try congruence; rewrite Hc; reflexivity.
Qed.

(** *** Parts of the setup that come to an end

    [settles p P]: in a run of the setup with these keys, [p] returns a value with
    [P]. *)
Context (trace : list host_event).

Definition settles {A} (p : host A) (P : A -> Prop) : Prop :=
  forall t o, runs p t o -> enters t -> part_of t trace -> exists a, o = Ok a /\ P a.

Lemma settles_ret {A} (a : A) (P : A -> Prop) : P a -> settles (Ret a) P.
Proof. intros H t o [_ ->] _ _. eauto. Qed.

Lemma settles_bind {A B} (p : host A) (f : A -> host B) (P : A -> Prop) (Q : B -> Prop) :
  settles p P -> (forall a, P a -> settles (f a) Q) -> settles (bind p f) Q.
Proof.
  intros Hp Hf t o Hr He Ht. apply runs_bind in Hr as [(a & t1 & t2 & -> & H1 & H2)|(x & -> & H)].
  - apply enters_app in He as [He1 He2]. apply part_of_app in Ht as [Ht1 Ht2].
    destruct (Hp _ _ H1 He1 Ht1) as (a' & [= <-] & HP). exact (Hf a HP _ _ H2 He2 Ht2).
  - destruct (Hp _ _ H He Ht) as (a & [=] & _).
Qed.

Lemma settles_outcome {A} (o : outcome A) a (P : A -> Prop) : o = Ok a -> P a -> settles (of_outcome o) P.
Proof. intros -> H. apply settles_ret, H. Qed.

Lemma settles_ask e a (P : frontend_answer e -> Prop) :
  curses_frontend e (only_enter e) = Stopped (Ok a) [] -> P a -> settles (ask e) P.
Proof.
  intros Ha HP t o Hr He _. apply (runs_ask_enters e t o Hr) in He. rewrite Ha in He. injection He as <-. eauto.
Qed.

(** The typed-in text of a setting is the inherited one. *)
Lemma enter_text_keeps s step question :
  text_value (Environment.setting_value s) ->
  settles (frontend_enter_text step question (inherited_text (Some s)))
    (fun text => Environment.setting_value s = PStr text).
Proof.
  intros Hv. destruct (inherited_text_value s Hv) as (x & E & Ht & Hi). rewrite Hi.
  apply (settles_ask (AskText step question _) x); [|exact E].
  destruct (enter_keeps_inherited [] 24 [] ltac:(simpl; unfold menu_limit; lia)) as (_ & _ & _ & Htext).
  exact (Htext {| inherited_value := x; inherited_source := source_name (setting_source s) |} Ht).
Qed.

Abbreviation keeps s := (fun v => py_eq (Environment.setting_value s) v = true).

Lemma chosen_keeps choices s step question :
  offered choices (Environment.setting_value s) ->
  settles (let* shown := of_outcome (inherited_as (Some s) Ok) in
           frontend_choose_one step question choices shown) (keeps s).
Proof.
  intros Ho. rewrite (inherited_as_value s Ok _ (offered_not_none _ _ Ho) eq_refl). cbn [of_outcome bind].
  destruct Ho as (Hlen & c & Hf & Hs). eapply (settles_ask (AskOne step question choices _)).
  - exact (proj1 (proj2 (enter_keeps_inherited choices 24 [] Hlen)) question
      {| inherited_value := Environment.setting_value s; inherited_source := _ |} c Hf).
  - apply py_eq_scalar_sym; [exact Hs|]. apply find_some in Hf. apply Hf.
Qed.

Lemma ask_one_keeps session_ step path question s setting :
  setting_question setting = Some (QChooseOne question) ->
  keepable machine trace setting (Environment.setting_value s) ->
  settles (ask_one machine session_ step path question (Some s)) (fun answer => keeps s answer.1).
Proof.
  intros Hq Hk. unfold keepable in Hk. rewrite Hq in Hk. unfold ask_one.
  apply settles_bind with (P := fun choices =>
    if decide (choices = []) then text_value (Environment.setting_value s)
    else offered choices (Environment.setting_value s)).
  { destruct (one_choices question) as [choices|source].
    - apply settles_ret. rewrite decide_False by apply Hk. apply Hk.
    - intros t o Hr _ Ht. exact (Hk t o Ht Hr). }
  intros [|c choices] Hc.
  - eapply settles_bind; [exact (enter_text_keeps s step _ Hc)|]. intros text E. apply settles_ret. cbn.
    rewrite E. apply String.eqb_refl.
  - cbn in Hc. pose proof (chosen_keeps (c :: choices) s step question Hc) as H.
    rewrite (inherited_as_value s Ok _ (offered_not_none _ _ Hc) eq_refl) in H |- *. cbn [of_outcome bind] in H |- *.
    eapply settles_bind; [exact H|]. intros v Hv. apply settles_ret, Hv.
Qed.

Lemma ask_many_keeps step question s vs :
  (length (many_choices question) <= menu_limit)%nat ->
  Environment.setting_value s = PList vs \/ Environment.setting_value s = PTuple vs ->
  all_offered (many_choices question) vs ->
  settles (ask_many step question (Some s)) (keeps s).
Proof.
  intros Hlen Hv Ho. unfold ask_many.
  assert (Hi : iterated (Environment.setting_value s) = Ok vs) by (destruct Hv as [-> | ->]; reflexivity).
  assert (Hn : Environment.setting_value s <> PNone) by (destruct Hv as [-> | ->]; discriminate).
  rewrite (inherited_as_value s iterated vs Hn Hi), Hi. cbn [of_outcome bind].
  eapply settles_bind.
  - eapply (settles_ask (AskMany step question _)) with (P := fun chosen => same_texts chosen vs = true);
      [exact (proj1 (proj2 (proj2 (enter_keeps_inherited _ 24 [] Hlen))) question
        {| inherited_value := vs; inherited_source := _ |} eq_refl) | exact (selection_same _ _ Ho)].
  - intros chosen Hsame. apply settles_ret. rewrite Hsame.
    assert (Hall : Forall (fun w => as_str w <> None) vs) by (eapply Forall_impl; [exact Ho | intros w [H _]; exact H]).
    destruct (py_eq_texts_refl vs Hall) as [El Et]. destruct Hv as [-> | ->]; assumption.
Qed.

Lemma ask_secret_keeps step question s :
  text_value (Environment.setting_value s) -> settles (ask_secret step question (Some s)) (keeps s).
Proof.
  intros (text & E & Ht). unfold ask_secret. rewrite E. cbn [py_bool]. rewrite Ht.
  eapply settles_bind; [apply (settles_ask (KeepSecret step question _) true (eq true)); reflexivity|].
  intros kept <-. apply settles_ret, String.eqb_refl.
Qed.

Lemma answer_keeps session_ step setting s :
  is_question setting = true ->
  dict_get inherited (setting_path setting) = Some s ->
  keepable machine trace setting (Environment.setting_value s) ->
  settles (answer inherited machine session_ step setting) (fun answer => differs (Some s) answer.1 = false).
Proof.
  intros Hasks Hs Hk. unfold answer. rewrite Hs.
  assert (Hsame : forall p, settles p (keeps s) ->
    settles (let* v := p in Ret (v, offered_choices session_)) (fun answer => differs (Some s) answer.1 = false)).
  { intros p Hp. eapply settles_bind; [exact Hp|]. intros v Hv. apply settles_ret, negb_false_iff, Hv. }
  unfold is_question in Hasks. destruct (setting_question setting) as [[q|q|q|q|q]|] eqn:Hq; [..|discriminate].
  - intros t o Hr He Ht. destruct (ask_one_keeps session_ step (setting_path setting) q s setting Hq Hk t o Hr He Ht)
      as (a & -> & Ha). exists a. split; [reflexivity | apply negb_false_iff, Ha].
  - unfold keepable in Hk. rewrite Hq in Hk. destruct Hk as (Hlen & vs & Hv & Ho).
    apply Hsame. eauto using ask_many_keeps.
  - unfold keepable in Hk. rewrite Hq in Hk. apply Hsame.
    eapply settles_bind; [exact (enter_text_keeps s step q Hk)|]. intros text E. apply settles_ret.
    rewrite E. apply String.eqb_refl.
  - unfold keepable in Hk. rewrite Hq in Hk. apply Hsame, ask_secret_keeps, Hk.
  - unfold keepable in Hk. rewrite Hq in Hk. destruct Hk as [b Hb]. apply Hsame.
    rewrite (inherited_as_value s (fun v => Ok (py_bool v)) b) by (rewrite Hb; (discriminate || reflexivity)).
    cbn [of_outcome bind]. eapply settles_bind.
    + eapply (settles_ask (AskSwitch step q _)) with (P := eq b); [|reflexivity].
      exact (proj1 (enter_keeps_inherited [] 24 [] ltac:(simpl; unfold menu_limit; lia)) q
        {| inherited_value := b; inherited_source := _ |}).
    + intros on <-. apply settles_ret. rewrite Hb. apply Z.eqb_refl.
Qed.

(** ** The whole setup *)

(** An answer that says what was inherited. *)
Definition unchanged (s : session) : Prop :=
  Forall (fun pv => differs (dict_get inherited pv.1) pv.2 = false) (answers s).

Lemma unchanged_values s p :
  unchanged s -> same_value (current_value inherited [] p) (current_value inherited (answers s) p).
Proof.
  intros Hs. unfold current_value. cbn [dict_get]. destruct (dict_get (answers s) p) as [v|] eqn:E; [|left; reflexivity].
  apply dict_get_in in E. pose proof (proj1 (Forall_forall _ _) Hs _ E) as Hv. cbn in Hv.
  destruct (dict_get inherited p) as [i|]; [|discriminate]. right. apply negb_false_iff, Hv.
Qed.

(** The questions that are asked inherit a value that can be kept. *)
Context (Hkeepable : forall step setting, (step, setting) ∈ step_questions ->
  is_question setting && asked_when setting (current_value inherited []) = true ->
  exists i, dict_get inherited (setting_path setting) = Some i /\
            keepable machine trace setting (Environment.setting_value i)).

Lemma ask_when_needed_keeps s st :
  st ∈ step_questions -> unchanged s -> settles (ask_when_needed inherited machine s st) unchanged.
Proof.
  destruct st as [step setting]. intros Hin Hs. unfold ask_when_needed.
  pose proof (proj1 (Forall_forall _ _) conditions_same _ Hin) as Hcond. cbn in Hcond.
  unfold value. rewrite <- (Hcond _ _ (fun p => unchanged_values s p Hs)).
  destruct (is_question setting && _) eqn:Easked; [|apply settles_ret, Hs].
  destruct (Hkeepable _ _ Hin Easked) as (i & Hi & Hk). apply andb_true_iff in Easked as [Hq _].
  unfold ask_setting. eapply settles_bind; [exact (answer_keeps s step setting i Hq Hi Hk)|].
  intros [v offered_] Hv. apply settles_ret. apply Forall_forall. intros pv Hpv. cbn in Hpv, Hv.
  apply dict_set_elem in Hpv as [->|Hpv]; [cbn; rewrite Hi; exact Hv | exact (proj1 (Forall_forall _ _) Hs pv Hpv)].
Qed.

Lemma questions_keep l s :
  Forall (fun st => st ∈ step_questions) l -> unchanged s ->
  settles (fold_each (ask_when_needed inherited machine) l s) unchanged.
Proof.
  intros Hl. revert s. induction Hl as [|st l Hst _ IH]; intros s Hs; [apply settles_ret, Hs|].
  eapply settles_bind; [exact (ask_when_needed_keeps s st Hst Hs) | exact IH].
Qed.

Lemma run_setup_keeps :
  settles (run_setup inherited machine)
    (fun answers => Forall (fun pv => differs (dict_get inherited pv.1) pv.2 = false) answers).
Proof.
  unfold run_setup. eapply settles_bind; [apply questions_keep; [apply Forall_forall; auto | apply Forall_nil_2]|].
  intros s Hs. eapply settles_bind; [apply (settles_ask (Review _) true (eq true)); reflexivity|].
  intros confirmed <-. apply settles_ret, Hs.
Qed.

Lemma apply_unchanged choices :
  Forall (fun pv => differs (dict_get inherited pv.1) pv.2 = false) choices ->
  apply_tui_choices inherited choices = inherited.
Proof.
  unfold apply_tui_choices.
  enough (H : forall chosen, Forall (fun pv => differs (dict_get inherited pv.1) pv.2 = false) choices ->
    fold_left (fun chosen pv => if differs (dict_get inherited pv.1) pv.2
      then dict_set chosen pv.1 {| setting_value := pv.2; setting_source := FROM_TUI |}
      else chosen) choices chosen = chosen) by exact (H inherited).
  induction choices as [|pv choices' IH]; intros chosen H; [reflexivity|].
  apply Forall_cons in H as [Hpv H]. cbn [fold_left]. rewrite Hpv. apply IH, H.
Qed.
End Answers.

(** C37: when every setting that is asked inherits a value its screen can show, pressing
    only Enter changes nothing: a run of the setup in the terminal in which the user
    presses Enter on each screen, and [y] on the summary, always returns, and leaves
    every value and its source as inherited, in the same order. The hypothesis says, for
    each question asked with the inherited values, what its screen can show on this
    machine ([keepable]): a password or a text that is not empty, a choice that is
    offered, a disk that is detected. Without it the code does otherwise: an inherited
    disk that is not there is replaced by the first one, and a missing password is
    asked for again and again. *)
Theorem enter_keeps_configuration (inherited : dict string SettingValue) (machine : MachineFacts) t o :
  runs (run_setup inherited machine) t o -> enters t ->
  (forall step setting, (step, setting) ∈ step_questions ->
     is_question setting && asked_when setting (current_value inherited []) = true ->
     exists i, dict_get inherited (setting_path setting) = Some i /\
               keepable machine t setting (Environment.setting_value i)) ->
  exists answers, o = Ok answers /\ apply_tui_choices inherited answers = inherited.
Proof.
  intros Hr He Hk. destruct (run_setup_keeps inherited machine t Hk t o Hr He) as (answers & -> & Hu).
  - exists [], []. rewrite app_nil_r. reflexivity.
  - exists answers. split; [reflexivity | apply apply_unchanged, Hu].
Qed.

(** The settings of a configuration file, for a machine with one disk. *)
Definition from_file (v : pyval) : SettingValue := {| setting_value := v; setting_source := FROM_CONFIG_FILE |}.

Definition inherited_settings : dict string SettingValue := map (fun pv => (pv.1, from_file pv.2)) [
  ("migration.enabled", PBool false); ("usb_boot.enabled", PBool false);
  ("storage.target_disk", PStr "/dev/vda"); ("storage.wipe_method", PStr "quick");
  ("storage.swap.enabled", PBool true); ("storage.swap.size_mb", PInt 3000);
  ("storage.swap.hibernation", PBool true); ("credentials.luks_password", PStr "disk secret");
  ("system.cpu_vendor", PStr "amd"); ("gpu.vendor", PStr "amd");
  ("packages.selected_desktops", PList [PStr "gnome"]); ("system.hostname", PStr "testhost");
  ("system.user.name", PStr "user"); ("system.timezone", PStr "UTC"); ("system.locale.keymap", PStr "us");
  ("credentials.user_password", PStr "user secret"); ("docker.enabled", PBool false);
  ("boot.enable_snapshot_boot", PBool true); ("notifications.enabled", PBool true);
  ("firewall.enabled", PBool true)].

Definition one_disk : MachineFacts := Ret [{| disk_path := "/dev/vda"; disk_model := "disk"; disk_size := "20G" |}].

Definition entering_host : oracle host_sig := fun w e =>
  match e return host_ans e with
  | OpFrontend f =>
      match curses_frontend f (only_enter f) with
      | Stopped a _ => a
      | Waiting => Err (KeyboardInterrupt "no key")
      end
  | e => keeping_host w e
  end.

Definition entered : host (dict string pyval) := run_setup inherited_settings one_disk.

Definition is_entered (ev : host_event) : bool :=
  match ev with
  | Ev (OpFrontend e) a => match curses_frontend e (only_enter e) with Stopped _ [] => true | _ => false end
  | _ => true
  end.

Lemma entering_enters {A} (p : host A) h :
  forallb is_entered (interp entering_host h p).1 = true -> enters (interp entering_host h p).1.
Proof.
  revert h. induction p as [a|x|e k IH]; intros h; cbn [interp]; [intros; apply Forall_nil_2..|].
  pose proof (IH (entering_host h e) (h ++ [Ev e (entering_host h e)])) as IH'. clear IH.
  destruct (interp entering_host _ (k _)) as [t o]. cbn [fst forallb] in *.
  intros [He Ht]%andb_true_iff. apply Forall_cons_2; [|exact (IH' Ht)]. clear IH' Ht.
  destruct e; try exact I. unfold is_entered in He. cbn [entering_host].
  destruct (curses_frontend _ _) as [|a [|]]; [discriminate | reflexivity | discriminate].
Qed.

Ltac inherits_keepable :=
  unfold keepable; cbn [setting switch switch_with choose_one enter_text enter_secret setting_question
    one_choices many_choices snd];
  lazymatch goal with
  | |- exists b, _ = PBool b => eexists; reflexivity
  | |- text_value _ => eexists; split; reflexivity
  | |- _ <> [] /\ _ => split; [discriminate|]; inherits_offered
  | |- (_ <= _)%nat /\ _ =>
      split; [unfold menu_limit; simpl; lia|]; eexists; split; [left; reflexivity|];
      apply Forall_cons_2; [|apply Forall_nil_2]; split; [discriminate|];
      eexists; split; [left; reflexivity | reflexivity]
  | |- forall t o, _ =>
      intros t o _ Hc; destruct Hc as [_ ->]; eexists; split; [reflexivity|]; cbn [decide]; inherits_offered
  end
with inherits_offered :=
  split; [unfold menu_limit; simpl; lia | eexists; split; [vm_compute; reflexivity | reflexivity]].

Lemma inherited_settings_keepable trace :
  Forall (fun st => is_question st.2 && asked_when st.2 (current_value inherited_settings []) = true ->
    exists i, dict_get inherited_settings (setting_path st.2) = Some i /\
      keepable one_disk trace st.2 (Environment.setting_value i)) step_questions.
Proof.
  unfold step_questions, INSTALL_STEPS, steps_to_packages, steps_after_packages.
  cbn [map concat app wiring step_settings fst snd].
  repeat (apply Forall_cons_2; [first
    [ intros H; vm_compute in H; discriminate
    | intros _; eexists; split; [reflexivity|]; inherits_keepable ] |]).
  apply Forall_nil_2.
Qed.

Lemma enter_keeps_configuration_witness :
  exists answers, outcome_of entering_host entered = Ok answers /\
    apply_tui_choices inherited_settings answers = inherited_settings.
Proof.
  apply (enter_keeps_configuration _ one_disk (trace_of entering_host entered)).
  - apply trace_runs.
  - apply entering_enters. vm_compute. reflexivity.
  - intros step setting Hin.
    exact (proj1 (Forall_forall _ _) (inherited_settings_keepable _) (step, setting) Hin).
Defined.
